(* ===== verification/_CoqProject ===== *)
-Q . S2P
Prelude.v
GoFloat.v
GoFmt.v
GoStrings.v
ApiTypes.v
Metrics.v
Naming.v
CanaryWeights.v
CanaryVerdict.v
CanaryState.v
CanaryRules.v
CanarySafety.v
CanaryEvidence.v
CanaryRuns.v
CanaryLiveness.v
Autoscale.v
Analysis.v
ControllerRollout.v
ControllerStatus.v
ControllerPlan.v
ControllerPass.v
ControllerSafety.v
ControllerWrite.v
ControllerAutoscale.v
ShimSSE.v
KubeTypes.v
Engine.v
ControllerChildren.v
Revision.v
ControllerMigration.v
Observability.v
Discovery.v
ControllerObservability.v
ControllerReconcile.v
ControllerSim.v
ControllerWitness.v
OperatorMetrics.v
GoStrconv.v
GoJson.v
GoJsonFacts.v
Dashboards.v
GoMime.v
GoFlag.v
ShimConfig.v
ShimJson.v
ShimProxy.v
ShimMetrics.v
AnalysisProviders.v
FakeEngine.v
LoadGen.v
StreamCodecs.v
StreamWire.v
ShimMain.v
FakeMain.v
Routes.v
OperatorMain.v
LoadGenMain.v
