(* ===== verification/Prelude.v ===== *)
(** * Verification of the LLM inference control plane

    The program is a Kubernetes operator, written in Go, that runs LLM inference
    servers from a ModelDeployment resource and rolls new revisions out as
    canaries.  On every reconcile pass it reads the resource and its
    Deployments, asks a metric backend how the canary compares with the primary,
    decides with a pure state machine what should be running, applies that, and
    records its position in the resource's status, which is the only memory it
    has.  A second pure function sizes the fleet from a measured load.

    ** Parts, files and sources

    - GoFloat.v, GoFmt.v, GoStrings.v (and this file): what the code uses of Go.
      An [int32], [int64] or [time.Duration] is a [Z] whose wrap-around is written
      out where it can happen; a [time.Time] is a number of nanoseconds with zero as
      the zero time, and one kept in an API object loses its fraction of a
      second ([stored]); a [float64] is the IEEE 754 binary64 of [SpecFloat];
      strings are byte strings; paths are cleaned and joined as package path does.
      GoStrconv.v, GoFlag.v, GoMime.v: strconv, package flag, time.ParseDuration
      and media types.  GoJson.v: encoding/json, a grammar over UTF-8 bytes, a
      universe of Go types with struct tags, decoding into an existing value and
      encoding; GoJsonFacts.v: what is printed is read back.
    - ApiTypes.v, KubeTypes.v: api/v1alpha1 and the Kubernetes types it uses.
      Specs and statuses as records (a pointer is an [option], a string
      enumeration an inductive type with a constructor for any other string), the
      [Resolved*] defaults, the weight ladder, every condition, reason and event
      constant.
    - Metrics.v, Naming.v: internal/metrics and internal/naming.  Metric names,
      bucket tables and [SnapToBucket]; labels, selectors and generated names.
      [rand.SafeEncodeString] of apimachinery is a parameter.
    - CanaryWeights.v, CanaryVerdict.v, CanaryState.v: internal/canary, function
      by function: the replica split, the aggregation of a round and its
      budgets, and [Observe], [DueForAnalysis] and [Next].
    - CanaryRules.v: [Next] as an inductive set of guarded rules, the interface
      its theorems are proved against.  CanarySafety.v, CanaryEvidence.v,
      CanaryRuns.v and CanaryLiveness.v hold the theorems.
    - Autoscale.v: internal/autoscale, the [Recommend] function.
    - Analysis.v: internal/analysis.  PromQL rendering, [Evaluate], and the
      round of [Analyzer.Run] over any backend (class [Provider]).
      AnalysisProviders.v: its two backends, the Prometheus client
      (prometheus.go) and the scripted one (fake.go).
    - Engine.v: internal/engine, the registry and the llama.cpp profile.
    - Revision.v: internal/revision, snapshots, hashes and the history of
      ControllerRevisions, over a JSON codec (class [PayloadCodec]) and the API
      (class [HistoryAPI]).
    - ControllerRollout.v: internal/controller/canary.go, canary_exposure.go and
      metric_scope.go.  [planRollout] and everything it calls, the conversions
      between status and state, the events of a pass.  The world a pass reads
      (clock and backend) is threaded through every reading.
    - ControllerStatus.v: internal/controller/status.go.  [computeStatus], each
      condition, [derivePhase], [setInvalidSpec].  apimeta's
      [SetStatusCondition] is the class [ConditionSetter] with its documented
      laws.
    - ControllerPlan.v, ControllerPass.v, ControllerSafety.v: planning, applying,
      observing and recording as a pass composes them, sequences of passes, each
      reading the status as the one before it was stored ([persist]), and their
      theorems.  The Deployments read before planning and after applying
      are unconstrained inputs.
    - ControllerChildren.v: children.go and shim.go, every builder of a pod,
      Deployment and Service.
    - ControllerMigration.v: revision_snapshot.go and the rendering of recorded
      revisions ([renderRollout], [specForRevision], [recordRevision]).
    - ControllerWrite.v: the writes of modeldeployment_controller.go
      ([updateStatus], [failTerminally], the legacy hold) and its event helpers,
      against the class [ApiServer], of which optimistic concurrency is assumed: a
      conflict wrote nothing, and after any other error a write may have happened.
    - ControllerAutoscale.v: autoscale.go, the loop that samples the load and
      writes [spec.replicas].
    - Observability.v: the SLO part of the API and internal/observability's
      ServiceMonitor and PrometheusRule; Discovery.v: internal/discovery, the CRD
      prober with its cache; the text of [Has] is run alone and interleaved;
      ControllerObservability.v: observability.go, the loop that applies and
      deletes the monitoring objects (class [MonitoringAPI]).
    - ControllerReconcile.v: [Reconcile] as a whole, one computation over one
      world, with every early return; ControllerSim.v a concrete cluster that
      runs it, ControllerWitness.v concrete instances of theorems of earlier
      files.
    - OperatorMetrics.v: internal/observability/metrics.go, the operator's own
      metric vectors, driven by the calls of [Reconcile]; Dashboards.v:
      dashboards.go and the installer of cmd/main.go.
    - ShimSSE.v, ShimJson.v, ShimConfig.v, ShimProxy.v, ShimMetrics.v: cmd/shim.
      The observers that time and count tokens as a response passes by (sse.go),
      for any decoder and then with the structs they decode into, the flags
      (config.go), the proxy around one exchange and what it records (proxy.go,
      metrics.go), and the collectors it registers.
    - FakeEngine.v, LoadGen.v: cmd/fakeengine/server.go and hack/loadgen, the
      engine and the client the system is measured with.  StreamCodecs.v: the JSON
      both of them read and write; StreamWire.v: engine, shim and load generator
      composed over the bytes of a stream.
    - ShimMain.v: cmd/shim/main.go and the routing tables of the shim; its process
      is a step relation over its two listeners, the signal, the drain and the
      clock.  FakeMain.v: cmd/fakeengine/main.go and the routing table of the fake
      engine.  Routes.v: the probes of a pod followed through both.
      OperatorMain.v: cmd/main.go.  LoadGenMain.v: flags and exit status of the
      load generator.

    ** What the theorems show

    - Safety of a rollout: every rollback and every promotion has one of the
      documented causes; a promotion is backed by a Pass on each rung (both for
      the declared verdicts, which are all the analyser gives, [Run_declared]);
      a verdict counts only with full, fresh evidence for the exact rung; an
      abort outranks everything; a rejection sticks, in the machine and through
      any sequence of passes of the controller; [lastGoodRevision] moves only to
      a revision the replica counts show serving; a status is written only over
      the version of the object it was computed from.
    - A whole pass writes the plan for the resource it read, in order and nothing
      else; a pass that ends terminally touches no child.
    - Conservation: replica counts add up on every branch of [Split], [Next] and
      [planRollout], at [int32] width.
    - Refinement: every decision of [Next] is a step of an abstract protocol.
    - Liveness and termination: a canary that passes its rounds is promoted in any
      schedule of passes inside the deadline that finds it ready for a warm-up and
      a window on each rung; an unready one is rolled back at its deadline;
      unsettled decisions requeue; recomputing a status changes nothing; the shim
      always comes down within its grace period, with the exit status that says
      how.
    - Round trips: a controller restarted from the recorded status resumes where
      it was, its schedule moved by less than a second; a snapshot decodes to the workload it was taken of, and a
      rollback renders it; the shim parses the flags the operator renders; every
      JSON value the program prints is read back; the value a Prometheus server
      puts into a response is the value that is measured.
    - Revisions: history is append-only, pruning keeps what is pinned, a legacy
      identity is adopted only on evidence.
    - Children: the operator's engine settings cannot be overridden and the user's
      are not lost, selectors
      pick the intended pods, the staged model is the one that is started.
    - Analysis and autoscaling: an outage never fails or passes a check, a passing
      check was measured and needs traffic, the client never invents a measurement, verdict
      classification, budgets as functions of the verdict history, bounds of
      every recommendation, stabilisation in both directions, exactness of the ceiling, and what the autoscaling
      loop may write.
    - Monitoring: only owned objects are written, alerts read recorded series,
      every analysis and autoscaling query reads a collector the shim registers,
      the prober's cached answers are fresh and rest on evidence, the operator's gauges and counters
      are the ones the reports of its passes determine.
    - The shim: how the network cuts a stream is invisible, its memory is
      bounded, every request is accounted for once and every error attributed,
      the queue depth is exact under any overlap; on the bytes of the fake engine
      it measures what was configured, and the load generator agrees with it on
      every stream of events the shim can decode, tool calls apart; a pod is ready exactly when its model is loaded.
    - Entry points: the operator starts its manager only after everything else is
      set up; the load generator exits with success only after a request that
      succeeded.
    - Some theorems state behaviour that departs from the comments of the code:
      an unrecognised verdict advances the canary, a healthy canary that
      advances past the progress deadline is rejected, a promotion is banked
      before the primary converges when Deployments are read back stale, a
      stalled promotion stays in phase Promoting, an invalid spec restarts a
      canary, a spec change restarts a rejected revision, an edit made before the
      pass's own patch escapes the staleness check, toggling the sidecar takes
      the primary out of its Service, renaming the model strands canary gauges,
      an informational response masks a failure, a usage block of another shape
      hides a token from the shim, a path with a doubled slash is redirected
      instead of proxied.

    ** Bounds and fuel

    [ladder_loop] gets [maxW] rounds of fuel; each round adds at least one to a
    weight that starts above zero, so inside the API's bounds it always ends
    ([StepLadder_well_formed]).  [digits_loop] gets 20 digits, enough for 64
    bits (12 in the two [itoa] with a 12-byte buffer).  The float formatter
    counts up to 400 decimal places, more than a binary64 exponent needs, and
    looks for the shortest decimal among 17 digits, which always suffice.
    Binary search has the length of its table as fuel, trimming the length of the
    text.  The JSON grammar gets fuel from the length of its input, proved enough
    for every value that is printed ([value_fuel]), and the nesting limit of 10000
    of encoding/json.  The number of retries on a conflict is a parameter.

    ** Not modelled

    The informer cache, the watches and the work queue ([SetupWithManager], which
    configures controller-runtime); the JSON of Kubernetes types with marshalers of their own
    (quantities, durations, apply configurations), which stays behind
    [PayloadCodec] and [applyConfigFrom]; HTTP transport and [url.Parse], which are
    parameters; the texts of JSON errors; the options of transports and servers
    ([newTransport], timeouts of headers); CONNECT requests and escaped paths in
    the routing tables; log lines ([logValue]); generated deep copies; test
    helpers.

    ** Plan

    Next: the JSON of the revision payload with the marshalers of quantities and
    durations, which would discharge [PayloadCodec], and the rewriting of a
    request by the proxy.

    This file holds the shared prelude: the scope [go_scope], machine integers,
    time, decimal rendering, pointers, and the tactics and hint databases of the
    other files. *)

From stdpp Require Export base tactics decidable option list strings gmap.
From Stdlib Require Export Ascii ZArith Lia Sorted.

Declare Scope go_scope.
Delimit Scope go_scope with go.
Local Open Scope Z_scope.
Local Open Scope go_scope.

(** Go's [==] and [!=] on comparable values (strings, enums, structs). *)
Notation "x == y" := (bool_decide (x = y)) (at level 70, no associativity) : go_scope.
Notation "x != y" := (negb (bool_decide (x = y))) (at level 70, no associativity) : go_scope.

(** ** Machine integers

    A Go [int32]/[int64] is a [Z] in the range below; every arithmetic step
    of the source that could leave the range is wrapped explicitly. *)

Definition int32_min : Z := -2147483648.
Definition int32_max : Z := 2147483647.
Definition int64_min : Z := -9223372036854775808.
Definition int64_max : Z := 9223372036854775807.

Definition int32_ok (z : Z) : Prop := int32_min <= z <= int32_max.
Definition int64_ok (z : Z) : Prop := int64_min <= z <= int64_max.

(** Two's complement wrap-around of the exact result. *)
Definition wrap32 (z : Z) : Z := (z + 2147483648) mod 4294967296 - 2147483648.
Definition wrap64 (z : Z) : Z :=
  (z + 9223372036854775808) mod 18446744073709551616 - 9223372036854775808.

(** ** Time

    A [time.Time] is the number of nanoseconds since Go's zero time, so that
    the zero value is [0] and [IsZero] is a test against it.  A
    [time.Duration] is an [int64] number of nanoseconds. *)

Module time.

Definition Time : Type := Z.
Definition Duration : Type := Z.

Definition zero : Time := 0.
Definition Second : Duration := 1000000000.
Definition Minute : Duration := 60 * Second.
Definition Hour : Duration := 60 * Minute.

Definition IsZero (t : Time) : bool := t =? 0.
Definition Before (t u : Time) : bool := t <? u.
Definition After (t u : Time) : bool := u <? t.

(** [Time.Add]: [time.Time] spans more than 2^63 seconds on either side, so an
    [int64] number of nanoseconds never leaves it. *)
Definition Add (t : Time) (d : Duration) : Time := t + d.

(** An instant as an API object keeps it: [metav1.Time] is written in RFC 3339
    with whole seconds, the fraction cut off. *)
Definition stored (t : Time) : Time := t / Second * Second.

(** [Time.UnixMilli]: milliseconds since 1970, rounded down. *)
Definition UnixMilli (t : Time) : Z := wrap64 ((t - 62135596800 * Second) / 1000000).

(** [Time.Sub] saturates at the ends of [Duration]. *)
Definition Sub (t u : Time) : Duration := Z.max int64_min (Z.min int64_max (t - u)).

(** Addition and subtraction of two durations are [int64] arithmetic. *)
Definition dadd (a b : Duration) : Duration := wrap64 (a + b).
Definition dneg (a : Duration) : Duration := wrap64 (- a).

End time.

(** ** Decimal digits

    The loop every hand-written integer formatter of the repository shares:
    [for n > 0 { i--; buf[i] = byte('0' + n%10); n /= 10 }], filling a buffer
    of [fuel] bytes from the right. *)

Definition digit (d : Z) : ascii := Ascii.ascii_of_N (Z.to_N (48 + d)).

Fixpoint digits_loop (fuel : nat) (n : Z) (acc : string) : string :=
  match fuel with
  | O => acc
  | S f => if 0 <? n then digits_loop f (n / 10) (String (digit (n mod 10)) acc) else acc
  end.

(** The number a run of decimal digits denotes, on top of a prefix value. *)
Fixpoint dec_value (v : Z) (s : string) : Z :=
  match s with
  | EmptyString => v
  | String c s' => dec_value (10 * v + (Z.of_N (Ascii.N_of_ascii c) - 48)) s'
  end.

(** The double-quote character, and a string wrapped in double quotes. *)
Definition dq : string := String (Ascii.ascii_of_nat 34) EmptyString.

(** Decimal rendering of an integer, as [strconv.Itoa] and the [%d] verb do
    (20 bytes hold every [int64]). *)
Definition format_int (n : Z) : string :=
  if n =? 0 then "0"
  else if n <? 0 then "-" +:+ digits_loop 20 (- n) "" else digits_loop 20 n "".

Lemma digits_loop_ne fuel n c acc : digits_loop fuel n (String c acc) <> "".
Proof.
  revert n c acc. induction fuel as [|f IH]; intros n c acc; cbn; [done|]. destruct (0 <? n); [apply IH|done].
Qed.

(** A printed number is not empty. *)
Lemma format_int_ne n : format_int n <> "".
Proof.
  unfold format_int. destruct (Z.eqb_spec n 0); [done|]. destruct (Z.ltb_spec n 0); [done|].
  change (digits_loop 20 n "") with (if 0 <? n then digits_loop 19 (n / 10) (String (digit (n mod 10)) "") else "").
  destruct (Z.ltb_spec 0 n); [apply digits_loop_ne|lia].
Qed.

(** ** Generic option and list helpers *)

(** [*p] with a fallback for the nil pointer. *)
Definition from_ptr {A} (d : A) (p : option A) : A :=
  match p with Some x => x | None => d end.

Definition is_nil {A} (p : option A) : bool :=
  match p with Some _ => false | None => true end.

(** ** Automation *)

Create HintDb go.

(** Case analysis on the innermost scrutinee of the goal or of a hypothesis. *)
Ltac go_split1 :=
  match goal with
  | |- context [if ?b then _ else _] =>
      lazymatch b with
      | context [if _ then _ else _] => fail
      | context [match _ with _ => _ end] => fail
      | _ => destruct b eqn:?
      end
  | |- context [match ?x with _ => _ end] =>
      lazymatch x with
      | context [match _ with _ => _ end] => fail
      | _ => destruct x eqn:?
      end
  end.

Ltac go_split1_in H :=
  match type of H with
  | context [if ?b then _ else _] =>
      lazymatch b with
      | context [if _ then _ else _] => fail
      | context [match _ with _ => _ end] => fail
      | _ => destruct b eqn:?
      end
  | context [match ?x with _ => _ end] =>
      lazymatch x with
      | context [match _ with _ => _ end] => fail
      | _ => destruct x eqn:?
      end
  end.

(** Turn the boolean tests of the code into propositions. *)
Ltac go_bools :=
  repeat match goal with
  | H : _ && _ = true |- _ => apply andb_true_iff in H; destruct H
  | H : _ || _ = false |- _ => apply orb_false_iff in H; destruct H
  | H : negb _ = true |- _ => apply negb_true_iff in H
  | H : negb _ = false |- _ => apply negb_false_iff in H
  | H : bool_decide _ = true |- _ => apply bool_decide_eq_true in H
  | H : bool_decide _ = false |- _ => apply bool_decide_eq_false in H
  | H : (_ <? _) = true |- _ => apply Z.ltb_lt in H
  | H : (_ <? _) = false |- _ => apply Z.ltb_ge in H
  | H : (_ <=? _) = true |- _ => apply Z.leb_le in H
  | H : (_ <=? _) = false |- _ => apply Z.leb_gt in H
  | H : (_ =? _) = true |- _ => apply Z.eqb_eq in H
  | H : (_ =? _) = false |- _ => apply Z.eqb_neq in H
  end.

Ltac unfold_ranges := unfold int32_ok, int64_ok, int32_min, int32_max, int64_min, int64_max in *.

(** Arithmetic over wrapped integers whose exact result is in range. *)
Ltac go_lia := unfold_ranges; lia.

(** ** Lemmas *)

Lemma wrap32_id z : int32_ok z -> wrap32 z = z.
Proof. unfold wrap32. intros H. rewrite Z.mod_small; go_lia. Qed.

Lemma wrap64_id z : int64_ok z -> wrap64 z = z.
Proof. unfold wrap64. intros H. rewrite Z.mod_small; go_lia. Qed.

Lemma wrap32_ok z : int32_ok (wrap32 z).
Proof.
  unfold wrap32. pose proof (Z.mod_pos_bound (z + 2147483648) 4294967296). go_lia.
Qed.

Lemma wrap64_ok z : int64_ok (wrap64 z).
Proof.
  unfold wrap64.
  pose proof (Z.mod_pos_bound (z + 9223372036854775808) 18446744073709551616). go_lia.
Qed.

#[export] Hint Resolve wrap32_ok wrap64_ok : go.

Lemma Sub_pos t u : t < u -> 0 < time.Sub u t.
Proof. unfold time.Sub. go_lia. Qed.

Lemma digit_value d : 0 <= d < 10 -> Z.of_N (Ascii.N_of_ascii (digit d)) - 48 = d.
Proof.
  intros H. unfold digit. rewrite Ascii.N_ascii_embedding by lia. lia.
Qed.

(** Formatting a number and reading its digits back gives the number. *)
Lemma digits_loop_value fuel n acc :
  0 <= n < 10 ^ Z.of_nat fuel -> dec_value 0 (digits_loop fuel n acc) = dec_value n acc.
Proof.
  revert n acc. induction fuel as [|f IH]; intros n acc H; cbn [digits_loop].
  - replace n with 0 by lia. done.
  - destruct (Z.ltb_spec 0 n) as [Hn|Hn]; [|replace n with 0 by lia; done].
    rewrite Nat2Z.inj_succ, Z.pow_succ_r in H by lia.
    rewrite IH.
    + cbn [dec_value]. rewrite digit_value by (apply Z.mod_pos_bound; lia).
      f_equal. pose proof (Z.div_mod n 10). lia.
    + split; [apply Z.div_pos; lia|]. apply Z.div_lt_upper_bound; lia.
Qed.

Lemma format_int_value n : 0 <= n <= int64_max -> dec_value 0 (format_int n) = n.
Proof.
  intros H. unfold format_int. destruct (Z.eqb_spec n 0) as [->|Hn]; [done|].
  destruct (Z.ltb_spec n 0); [lia|]. apply digits_loop_value. cbn. go_lia.
Qed.
