(* ===== verification/GoFloat.v ===== *)
(** * IEEE-754 binary64 as Go's [float64]

    The floats of the repository (metric samples, thresholds, per-pod ratios)
    are modelled with the axiom-free [SpecFloat] specification of the standard
    library at precision 53 and exponent bound 1024, so every [+ - * /] of the
    model rounds exactly as the machine does and NaN, the infinities and the
    signed zeros are distinct values.  [toQ] is the exact rational value of a
    finite float; the conversion functions of package [math] that the code
    uses ([Ceil], [Round], [int64(x)]) are defined through it.  The lemmas
    relate the IEEE comparisons to the order of the exact values. *)

From S2P Require Import Prelude.
From Stdlib Require Import SpecFloat QArith Qround Qpower.
Local Open Scope Z_scope.

Module f64.

Definition t : Type := spec_float.

Definition prec : Z := 53.
Definition emax : Z := 1024.

(** [float64(z)] for an integer [z]. *)
Definition of_Z (z : Z) : t := binary_normalize prec emax z 0 false.

Definition add (x y : t) : t := SFadd prec emax x y.
Definition sub (x y : t) : t := SFsub prec emax x y.
Definition mul (x y : t) : t := SFmul prec emax x y.
Definition div (x y : t) : t := SFdiv prec emax x y.
Definition opp (x : t) : t := SFopp x.
Definition abs (x : t) : t := SFabs x.

(** Go's [<] and [<=]: false as soon as one side is NaN. *)
Definition ltb (x y : t) : bool := SFltb x y.
Definition leb (x y : t) : bool := SFleb x y.

Definition IsNaN (x : t) : bool := match x with S754_nan => true | _ => false end.
(** [math.IsInf(x, 0)]. *)
Definition IsInf (x : t) : bool := match x with S754_infinity _ => true | _ => false end.
(** [math.IsInf(x, 1)] and [math.IsInf(x, -1)]. *)
Definition IsPosInf (x : t) : bool := match x with S754_infinity s => negb s | _ => false end.
Definition IsNegInf (x : t) : bool := match x with S754_infinity s => s | _ => false end.
Definition is_finite (x : t) : bool :=
  match x with S754_finite _ _ _ => true | S754_zero _ => true | _ => false end.

(** Every bit pattern of a Go [float64] denotes a canonical value. *)
Definition valid (x : t) : Prop := valid_binary prec emax x = true.

Definition zero : t := S754_zero false.
Definition one : t := of_Z 1.

(** Exact value; [0] for NaN and the infinities. *)
Definition toQ (x : t) : Q :=
  match x with
  | S754_finite s m e => (inject_Z (cond_Zopp s (Z.pos m)) * Qpower 2 e)%Q
  | _ => 0%Q
  end.

(** The integer [math.Ceil(x)] of a finite [x]. *)
Definition ceilZ (x : t) : Z := Qceiling (toQ x).

(** The integer [math.Round(x)] of a finite [x]: half away from zero. *)
Definition roundZ (x : t) : Z :=
  let q := toQ x in
  if Qle_bool 0 q then Qfloor (q + (1 # 2)) else - Qfloor (- q + (1 # 2)).

(** The conversion [int64(x)]: truncation towards zero.  Out of range (and for
    NaN) the result is implementation-dependent in Go; the value here is the
    one of the amd64 conversion instruction. *)
Definition to_int64 (x : t) : Z :=
  let q := toQ x in
  let z := if Qle_bool 0 q then Qfloor q else - Qfloor (- q) in
  if is_finite x && (int64_min <=? z) && (z <=? int64_max) then z else int64_min.

(** The conversion [int32(x)] of the same instruction, truncated to 32 bits. *)
Definition to_int32 (x : t) : Z := wrap32 (to_int64 x).

End f64.

(** ** Comparison of finite floats and of their exact values *)

Lemma digits2_bounds m :
  2 ^ (Z.pos (digits2_pos m) - 1) <= Z.pos m < 2 ^ Z.pos (digits2_pos m).
Proof.
  induction m as [m IH|m IH|]; cbn [digits2_pos]; [| |cbn; lia].
  all: rewrite Pos2Z.inj_succ, Z.pow_succ_r by lia.
  all: replace (Z.succ (Z.pos (digits2_pos m)) - 1)
      with (Z.succ (Z.pos (digits2_pos m) - 1)) by lia.
  all: rewrite Z.pow_succ_r by lia.
  all: [> rewrite (Pos2Z.inj_xI m) | rewrite (Pos2Z.inj_xO m) ]; lia.
Qed.

Section Canonical.
Context (m1 m2 : positive) (e1 e2 : Z).
Context (H1 : bounded f64.prec f64.emax m1 e1 = true).
Context (H2 : bounded f64.prec f64.emax m2 e2 = true).

(** A canonical float with the smaller exponent has the smaller magnitude. *)
Lemma canonical_lt_exp : e1 < e2 -> Z.pos m1 < Z.pos m2 * 2 ^ (e2 - e1).
Proof.
  intros He. unfold bounded, canonical_mantissa, fexp, emin, f64.prec, f64.emax in *.
  apply andb_true_iff in H1 as [C1 _], H2 as [C2 _].
  apply Z.eqb_eq in C1, C2.
  pose proof (digits2_bounds m1) as [_ U1]. pose proof (digits2_bounds m2) as [L2 _].
  assert (Z.pos (digits2_pos m1) <= 53) by lia.
  assert (Z.pos (digits2_pos m2) = 53) as E2 by lia.
  rewrite E2 in L2.
  assert (Z.pos m1 < 2 ^ 53).
  { eapply Z.lt_le_trans; [exact U1|]. apply Z.pow_le_mono_r; lia. }
  assert (2 ^ 1 <= 2 ^ (e2 - e1)) by (apply Z.pow_le_mono_r; lia).
  nia.
Qed.
End Canonical.

Lemma Qpower2_split e1 e2 :
  e1 <= e2 -> (Qpower 2 e2 == inject_Z (2 ^ (e2 - e1)) * Qpower 2 e1)%Q.
Proof.
  intros H. rewrite Zpower_Qpower by lia. rewrite <- Qpower_plus by done.
  by replace (e2 - e1 + e1) with e2 by lia.
Qed.

(** Scaled integers compare after aligning them on the smaller exponent. *)
Lemma scaled_lt_l n1 n2 e1 e2 : e1 <= e2 ->
  (inject_Z n1 * Qpower 2 e1 < inject_Z n2 * Qpower 2 e2)%Q <-> n1 < n2 * 2 ^ (e2 - e1).
Proof.
  intros H. rewrite (Qpower2_split e1 e2 H), Qmult_assoc, Qmult_lt_r by (by apply Qpower_0_lt).
  rewrite <- inject_Z_mult, <- Zlt_Qlt. done.
Qed.

Lemma scaled_lt_r n1 n2 e1 e2 : e1 <= e2 ->
  (inject_Z n2 * Qpower 2 e2 < inject_Z n1 * Qpower 2 e1)%Q <-> n2 * 2 ^ (e2 - e1) < n1.
Proof.
  intros H. rewrite (Qpower2_split e1 e2 H), Qmult_assoc, Qmult_lt_r by (by apply Qpower_0_lt).
  rewrite <- inject_Z_mult, <- Zlt_Qlt. done.
Qed.

Lemma scaled_pos n e : (0 < inject_Z n * Qpower 2 e)%Q <-> 0 < n.
Proof.
  rewrite <- (Qmult_0_l (Qpower 2 e)), Qmult_lt_r by (by apply Qpower_0_lt).
  change 0%Q with (inject_Z 0). by rewrite <- Zlt_Qlt.
Qed.

Lemma scaled_neg n e : (inject_Z n * Qpower 2 e < 0)%Q <-> n < 0.
Proof.
  rewrite <- (Qmult_0_l (Qpower 2 e)), Qmult_lt_r by (by apply Qpower_0_lt).
  change 0%Q with (inject_Z 0). by rewrite <- Zlt_Qlt.
Qed.

(** The magnitude comparison inside [SFcompare]. *)
Definition mag_cmp (m1 : positive) (e1 : Z) (m2 : positive) (e2 : Z) : comparison :=
  match Z.compare e1 e2 with
  | Lt => Lt
  | Gt => Gt
  | Eq => Pos.compare_cont Eq m1 m2
  end.

Lemma mag_cmp_lt m1 e1 m2 e2 :
  bounded f64.prec f64.emax m1 e1 = true -> bounded f64.prec f64.emax m2 e2 = true ->
  mag_cmp m1 e1 m2 e2 = Lt <->
  (inject_Z (Z.pos m1) * Qpower 2 e1 < inject_Z (Z.pos m2) * Qpower 2 e2)%Q.
Proof.
  intros B1 B2. unfold mag_cmp. destruct (Z.compare_spec e1 e2) as [->|He|He].
  - rewrite scaled_lt_l, Z.sub_diag, Z.mul_1_r by lia.
    change (Pos.compare_cont Eq m1 m2) with (Pos.compare m1 m2).
    rewrite Pos.compare_lt_iff. lia.
  - split; [intros _|done]. rewrite scaled_lt_l by lia. by apply canonical_lt_exp.
  - split; [done|]. rewrite scaled_lt_r by lia.
    pose proof (canonical_lt_exp _ _ _ _ B2 B1 He). lia.
Qed.

Lemma mag_cmp_sym m1 e1 m2 e2 : mag_cmp m2 e2 m1 e1 = CompOpp (mag_cmp m1 e1 m2 e2).
Proof.
  unfold mag_cmp. rewrite (Z.compare_antisym e1 e2).
  destruct (e1 ?= e2); [|done..]. apply Pos.compare_antisym.
Qed.

Lemma SFcompare_finite s1 m1 e1 s2 m2 e2 :
  SFcompare (S754_finite s1 m1 e1) (S754_finite s2 m2 e2) =
  Some (match s1, s2 with
        | true, false => Lt
        | false, true => Gt
        | false, false => mag_cmp m1 e1 m2 e2
        | true, true => mag_cmp m2 e2 m1 e1
        end).
Proof.
  unfold SFcompare. destruct s1, s2; try done.
  rewrite mag_cmp_sym. unfold mag_cmp. by destruct (e1 ?= e2).
Qed.

Lemma Qmul_opp_lt n1 e1 n2 e2 :
  (inject_Z (- n1) * Qpower 2 e1 < inject_Z (- n2) * Qpower 2 e2)%Q <->
  (inject_Z n2 * Qpower 2 e2 < inject_Z n1 * Qpower 2 e1)%Q.
Proof.
  destruct (Z.le_ge_cases e1 e2).
  - rewrite (scaled_lt_l (- n1)), (scaled_lt_r n1) by lia. lia.
  - rewrite (scaled_lt_r (- n2)), (scaled_lt_l n2) by lia. lia.
Qed.

(** On finite canonical floats Go's [<] is the order of the exact values. *)
Lemma ltb_toQ x y :
  f64.valid x -> f64.valid y -> f64.is_finite x = true -> f64.is_finite y = true ->
  f64.ltb x y = true <-> (f64.toQ x < f64.toQ y)%Q.
Proof.
  unfold f64.valid, f64.ltb, SFltb. intros Vx Vy Fx Fy.
  destruct x as [sx|sx| |sx mx ex]; try done; destruct y as [sy|sy| |sy my ey]; try done.
  - cbn [SFcompare f64.toQ]. rewrite scaled_pos. destruct sy; cbn; split; intros H; (discriminate H || lia).
  - cbn [SFcompare f64.toQ]. rewrite scaled_neg. destruct sx; cbn; split; intros H; (discriminate H || lia).
  - rewrite SFcompare_finite. cbn [f64.toQ valid_binary] in *.
    destruct sx, sy; cbn [cond_Zopp].
    + rewrite Qmul_opp_lt, <- mag_cmp_lt by done. by destruct (mag_cmp _ _ _ _).
    + split; [intros _|done]. apply Qlt_trans with 0%Q; [apply scaled_neg|apply scaled_pos]; cbn; lia.
    + split; intros H; [discriminate H|]. exfalso. apply (Qlt_irrefl 0).
      apply Qlt_trans with (inject_Z (Z.pos mx) * 2 ^ ex)%Q; [by apply scaled_pos|].
      eapply Qlt_trans; [exact H|]. apply scaled_neg. cbn; lia.
    + rewrite <- mag_cmp_lt by done. by destruct (mag_cmp _ _ _ _).
Qed.

(** Away from NaN, [<] and [<=] are each other's negation. *)
Lemma leb_negb_ltb x y :
  f64.IsNaN x = false -> f64.IsNaN y = false -> f64.leb x y = negb (f64.ltb y x).
Proof.
  unfold f64.leb, f64.ltb, SFleb, SFltb. intros Hx Hy.
  destruct x as [sx|sx| |sx mx ex]; try done; destruct y as [sy|sy| |sy my ey]; try done;
    try (destruct sx, sy; reflexivity); try (destruct sx; reflexivity);
    try (destruct sy; reflexivity).
  rewrite !SFcompare_finite. rewrite (mag_cmp_sym my ey mx ex).
  destruct sx, sy; try done; by destruct (mag_cmp _ _ _ _).
Qed.

Lemma leb_NaN_l y : f64.leb S754_nan y = false.
Proof. done. Qed.

Lemma ltb_NaN_r x : f64.ltb x S754_nan = false.
Proof. unfold f64.ltb, SFltb. by destruct x. Qed.

Lemma leb_NaN_r x : f64.leb x S754_nan = false.
Proof. unfold f64.leb, SFleb. by destruct x. Qed.

(** The ceiling is the least integer above the exact value. *)
Lemma ceilZ_spec x :
  (inject_Z (f64.ceilZ x - 1) < f64.toQ x)%Q /\ (f64.toQ x <= inject_Z (f64.ceilZ x))%Q.
Proof.
  unfold f64.ceilZ. split; [apply Qceiling_lt|apply Qle_ceiling].
Qed.

Lemma ceilZ_le x z : (f64.toQ x <= inject_Z z)%Q -> f64.ceilZ x <= z.
Proof.
  intros H. unfold f64.ceilZ. apply Qceiling_resp_le in H. by rewrite Qceiling_Z in H.
Qed.

Lemma ceilZ_pos x : (0 < f64.toQ x)%Q -> 1 <= f64.ceilZ x.
Proof.
  intros H. destruct (ceilZ_spec x) as [_ U].
  assert (0 < inject_Z (f64.ceilZ x))%Q as P by (eapply Qlt_le_trans; eauto).
  change 0%Q with (inject_Z 0) in P. rewrite <- Zlt_Qlt in P. lia.
Qed.
