(* ===== verification/GoFmt.v ===== *)
(** * Formatting and string functions of Go's standard library

    The parts of [time], [strconv], [strings] and [fmt] that the modelled code
    calls to build messages, queries and label values: the rendering of a
    [time.Duration], of a [float64] with the ['g'] verb, of a quoted string,
    and the substring predicates of package [strings].  Bytes are [ascii]. *)

From S2P Require Import Prelude GoFloat.
From Stdlib Require Import SpecFloat QArith Qround.
Local Open Scope Z_scope.
Local Open Scope go_scope.

Module gofmt.

(** ** [time.Duration.String] *)

Definition fmtInt (v : Z) (acc : string) : string :=
  if v =? 0 then String "0" acc else digits_loop 20 v acc.

(** [fmtFrac]: the low [prec] decimal digits of [v] after a point, without
    trailing zeros; returns the text and [v / 10^prec]. *)
Fixpoint fmtFrac (prec : nat) (v : Z) (print : bool) (acc : string) : string * Z :=
  match prec with
  | O => ((if print then String "." acc else acc), v)
  | S p =>
      let d := v mod 10 in
      let print' := print || negb (d =? 0) in
      fmtFrac p (v / 10) print' (if print' then String (digit d) acc else acc)
  end.

Definition Duration_String (d : time.Duration) : string :=
  let neg := d <? 0 in
  let u := Z.abs d in
  let body :=
    if u <? time.Second then
      if u =? 0 then "0s"
      else
        let '(unit_, prec) :=
          if u <? 1000 then ("ns", 0%nat)
          else if u <? 1000000 then ("µs", 3%nat) else ("ms", 6%nat) in
        let '(acc, v) := fmtFrac prec u false unit_ in fmtInt v acc
    else
      let '(acc, v) := fmtFrac 9 u false "s" in
      let acc := fmtInt (v mod 60) acc in
      let v := v / 60 in
      if 0 <? v then
        let acc := fmtInt (v mod 60) (String "m" acc) in
        let v := v / 60 in
        if 0 <? v then fmtInt v (String "h" acc) else acc
      else acc in
  if neg then String "-" body else body.

(** ** [strconv.FormatFloat(x, 'g', p, 64)] *)

(** Number of decimal digits of a positive integer. *)
Fixpoint ndigits (fuel : nat) (n : Z) : Z :=
  match fuel with
  | O => 0
  | S f => if 0 <? n then 1 + ndigits f (n / 10) else 0
  end.

(** Leading zeros after the decimal point of [n/d < 1], counted from one. *)
Fixpoint lead_zeros (fuel : nat) (n d : Z) : Z :=
  match fuel with
  | O => 0
  | S f => if d <=? n then 0 else 1 + lead_zeros f (n * 10) d
  end.

(** [dp] with [10^(dp-1) <= n/d < 10^dp]. *)
Definition dec_point (n d : Z) : Z :=
  if d <=? n then ndigits 400 (n / d) else 1 - lead_zeros 400 n d.

Definition round_half_even (n d : Z) : Z :=
  let q := n / d in
  let r := n mod d in
  match (2 * r) ?= d with
  | Lt => q
  | Gt => q + 1
  | Eq => if Z.even q then q else q + 1
  end.

(** [p] significant digits of [n/d]: the rounded integer and its decimal point. *)
Definition sig_digits (p n d : Z) : Z * Z :=
  let dp := dec_point n d in
  let s := p - dp in
  let r := if 0 <=? s then round_half_even (n * 10 ^ s) d else round_half_even n (d * 10 ^ (- s)) in
  if r =? 10 ^ p then (10 ^ (p - 1), dp + 1) else (r, dp).

Fixpoint trim_zeros (fuel : nat) (n : Z) : Z :=
  match fuel with
  | O => n
  | S f => if (0 <? n) && (n mod 10 =? 0) then trim_zeros f (n / 10) else n
  end.

Fixpoint zeros (n : nat) : string :=
  match n with O => "" | S k => String "0" (zeros k) end.

Definition str_take (n : nat) (s : string) : string := String.substring 0 n s.
Definition str_drop (n : nat) (s : string) : string := String.substring n (String.length s - n) s.

(** [%e] with [nd - 1] fractional digits. *)
Definition fmtE (ds : string) (exp : Z) : string :=
  let frac := str_drop 1 ds in
  let mant := str_take 1 ds +:+ (if String.length frac =? 0 then "" else "." +:+ frac)%nat in
  let e := Z.abs exp in
  mant +:+ (if exp <? 0 then "e-" else "e+")
       +:+ (if e <? 10 then "0" else "") +:+ format_int e.

(** [%f] with [max (nd - dp) 0] fractional digits. *)
Definition fmtF (ds : string) (nd dp : Z) : string :=
  let whole :=
    if 0 <? dp then
      str_take (Z.to_nat (Z.min nd dp)) ds +:+ zeros (Z.to_nat (dp - nd))
    else "0" in
  let fraction :=
    if 0 <? nd - dp then
      "." +:+ zeros (Z.to_nat (- dp)) +:+ str_drop (Z.to_nat (Z.max dp 0)) ds
    else "" in
  whole +:+ fraction.

Definition FormatFloat_g (p : Z) (x : f64.t) : string :=
  match x with
  | S754_nan => "NaN"
  | S754_infinity s => if s then "-Inf" else "+Inf"
  | S754_zero s => if s then "-0" else "0"
  | S754_finite s m e =>
      let n := if 0 <=? e then Z.pos m * 2 ^ e else Z.pos m in
      let d := if 0 <=? e then 1 else 2 ^ (- e) in
      let '(r, dp) := sig_digits p n d in
      let t := trim_zeros 20 r in
      let ds := format_int t in
      let nd := Z.of_nat (String.length ds) in
      let exp := dp - 1 in
      let eprec := if (nd <? p) && (dp <=? nd) then nd else p in
      let body := if (exp <? -4) || (eprec <=? exp) then fmtE ds exp else fmtF ds nd dp in
      if s then "-" +:+ body else body
  end.

(** ** [strconv.FormatFloat(x, 'f', 3, 64)] *)

(** [n] thousandths with three fractional digits. *)
Definition thousandths (n : Z) : string :=
  let frac := format_int (n mod 1000) in
  format_int (n / 1000) +:+ "." +:+ zeros (3 - String.length frac)%nat +:+ frac.

Definition FormatFloat_f3 (x : f64.t) : string :=
  match x with
  | S754_nan => "NaN"
  | S754_infinity s => if s then "-Inf" else "+Inf"
  | S754_zero s => if s then "-0.000" else "0.000"
  | S754_finite s m e =>
      let n := if 0 <=? e then Z.pos m * 2 ^ e else Z.pos m in
      let d := if 0 <=? e then 1 else 2 ^ (- e) in
      let body := thousandths (round_half_even (n * 1000) d) in
      if s then "-" +:+ body else body
  end.

(** ** The shortest decimal that reads back as the float (precision -1) *)

(** The float nearest to [r * 10^k]. *)
Definition read_decimal (r : positive) (k : Z) : f64.t :=
  if 0 <=? k then SFmul f64.prec f64.emax (S754_finite false r 0) (S754_finite false (Z.to_pos (10 ^ k)) 0)
  else SFdiv f64.prec f64.emax (S754_finite false r 0) (S754_finite false (Z.to_pos (10 ^ (- k))) 0).

(** The digits of the least precision from [p] on whose rounding of [n/d] reads
    back as [x]; 17 digits always do. *)
Fixpoint shortest (fuel : nat) (p n d : Z) (x : f64.t) : Z * Z :=
  let '(r, dp) := sig_digits p n d in
  match fuel with
  | O => (r, dp)
  | S f => if SFeqb (read_decimal (Z.to_pos r) (dp - p)) x then (r, dp) else shortest f (p + 1) n d x
  end.

Definition shortest_digits (m : positive) (e : Z) : string * Z :=
  let n := if 0 <=? e then Z.pos m * 2 ^ e else Z.pos m in
  let d := if 0 <=? e then 1 else 2 ^ (- e) in
  let '(r, dp) := shortest 16 1 n d (S754_finite false m e) in
  (format_int (trim_zeros 20 r), dp).

(** [strconv.FormatFloat(x, 'f', -1, 64)]. *)
Definition FormatFloat_f (x : f64.t) : string :=
  match x with
  | S754_nan => "NaN"
  | S754_infinity s => if s then "-Inf" else "+Inf"
  | S754_zero s => if s then "-0" else "0"
  | S754_finite s m e =>
      let '(ds, dp) := shortest_digits m e in
      let body := fmtF ds (Z.of_nat (String.length ds)) dp in
      if s then "-" +:+ body else body
  end.

(** The [%g] verb: the shortest digits, with an exponent below 1e-4 and from
    1e6 on. *)
Definition Sprint_g (x : f64.t) : string :=
  match x with
  | S754_finite s m e =>
      let '(ds, dp) := shortest_digits m e in
      let exp := dp - 1 in
      let body := if (exp <? -4) || (6 <=? exp)
                  then fmtE ds exp else fmtF ds (Z.of_nat (String.length ds)) dp in
      if s then "-" +:+ body else body
  | _ => FormatFloat_f x
  end.

(** [time.Duration.Seconds]. *)
Definition Duration_Seconds (d : time.Duration) : f64.t :=
  f64.add (f64.of_Z (Z.quot d time.Second))
    (f64.div (f64.of_Z (Z.rem d time.Second)) (f64.of_Z time.Second)).

(** [float64(t.UnixMilli()) / 1000]. *)
Definition unix_seconds (t : time.Time) : f64.t :=
  f64.div (f64.of_Z (time.UnixMilli t)) (f64.of_Z 1000).

(** ** [strings] and [strconv] on byte strings *)

(** Unicode white space restricted to single bytes, as [strings.TrimSpace]
    removes it. *)
Definition is_space (c : ascii) : bool :=
  match Ascii.N_of_ascii c with
  | 9%N | 10%N | 11%N | 12%N | 13%N | 32%N => true
  | _ => false
  end.

Fixpoint trim_left (s : string) : string :=
  match s with
  | String c s' => if is_space c then trim_left s' else s
  | EmptyString => s
  end.

Definition TrimSpace (s : string) : string :=
  String.rev (trim_left (String.rev (trim_left s))).

Definition HasPrefix (s p : string) : bool := String.prefix p s.

Fixpoint Contains (s sub : string) : bool :=
  String.prefix sub s ||
  match s with
  | EmptyString => false
  | String _ s' => Contains s' sub
  end.

Definition hex_digit (n : N) : ascii :=
  if (n <? 10)%N then Ascii.ascii_of_N (48 + n) else Ascii.ascii_of_N (87 + n).

Definition backslash : ascii := Ascii.ascii_of_nat 92.

(** One byte of [strconv.Quote].  Bytes from 0x80 on are passed through, which
    is what [Quote] does for printable, well-formed UTF-8. *)
Definition quote_byte (c : ascii) (rest : string) : string :=
  let n := Ascii.N_of_ascii c in
  let esc (k : nat) := String backslash (String (Ascii.ascii_of_nat k) rest) in
  match n with
  | 34%N => esc 34%nat
  | 92%N => esc 92%nat
  | 7%N => esc 97%nat
  | 8%N => esc 98%nat
  | 12%N => esc 102%nat
  | 10%N => esc 110%nat
  | 13%N => esc 114%nat
  | 9%N => esc 116%nat
  | 11%N => esc 118%nat
  | _ =>
      if (n <? 32)%N || (n =? 127)%N then
        String backslash (String (Ascii.ascii_of_nat 120)
          (String (hex_digit (n / 16)) (String (hex_digit (n mod 16)) rest)))
      else String c rest
  end.

Fixpoint quote_body (s : string) : string :=
  match s with
  | EmptyString => EmptyString
  | String c s' => quote_byte c (quote_body s')
  end.

Definition Quote (s : string) : string := dq +:+ quote_body s +:+ dq.

End gofmt.

Example Duration_String_examples :
  map gofmt.Duration_String [600 * time.Second; 90 * time.Second; 1500000000; 0; 250000000; 3600 * time.Second]
  = ["10m0s"; "1m30s"; "1.5s"; "0s"; "250ms"; "1h0m0s"].
Proof. vm_compute. reflexivity. Qed.

Example FormatFloat_examples :
  map (fun '(n, d) => gofmt.FormatFloat_g 6 (f64.div (f64.of_Z n) (f64.of_Z d)))
    [(1, 3); (1500, 1000); (1000000, 1); (123456, 1); (1, 1000000); (5, 100); (-25, 10); (1234567, 1); (100, 1)]
  = ["0.333333"; "1.5"; "1e+06"; "123456"; "1e-06"; "0.05"; "-2.5"; "1.23457e+06"; "100"].
Proof. vm_compute. reflexivity. Qed.

Example Sprint_g_examples :
  map (fun '(n, d) => gofmt.Sprint_g (f64.div (f64.of_Z n) (f64.of_Z d)))
    [(6, 10); (1, 3); (123456789, 1); (1, 100000); (100000, 1); (-5, 2)]
  = ["0.6"; "0.3333333333333333"; "1.23456789e+08"; "1e-05"; "100000"; "-2.5"].
Proof. vm_compute. reflexivity. Qed.

Example FormatFloat_f3_examples :
  map (fun '(n, d) => gofmt.FormatFloat_f3 (f64.div (f64.of_Z n) (f64.of_Z d)))
    [(1700000000123, 1000); (5, 2); (-1, 4); (0, 1); (2, 3)]
  = ["1700000000.123"; "2.500"; "-0.250"; "0.000"; "0.667"].
Proof. vm_compute. reflexivity. Qed.
