(* ===== verification/GoStrings.v ===== *)
(** * Packages strings and path of Go's standard library

    The functions the engine profile and the child objects are built with:
    cutting, joining and sorting strings, and the lexical path functions
    [path.Clean], [path.Join], [path.Base] and [path.Dir].  A path is handled as
    its slash-separated segments. *)

From S2P Require Import Prelude.
From stdpp Require Import sorting.
Local Open Scope Z_scope.
Local Open Scope go_scope.

(** A fallible Go function returns its value or the text of its error. *)
Notation "x <?- e ;; k" :=
  (match e with inl x => k | inr err => inr err end)
  (at level 100, e at next level, right associativity) : go_scope.

Module gostrings.

(** [strings.Cut(s, sep)] for a one-byte separator. *)
Fixpoint Cut (s : string) (sep : ascii) : string * string * bool :=
  match s with
  | EmptyString => ("", "", false)
  | String c s' =>
      if c == sep then ("", s', true)
      else let '(before, after, found) := Cut s' sep in (String c before, after, found)
  end.

(** [strings.ReplaceAll(s, old, new)] for two one-byte strings. *)
Fixpoint ReplaceAll (s : string) (old new : ascii) : string :=
  match s with
  | EmptyString => ""
  | String c s' => String (if c == old then new else c) (ReplaceAll s' old new)
  end.

(** [strings.CutPrefix]. *)
Definition CutPrefix (s p : string) : option string :=
  if String.prefix p s then Some (String.substring (String.length p) (String.length s - String.length p) s)
  else None.

Fixpoint Join (xs : list string) (sep : string) : string :=
  match xs with
  | [] => ""
  | [x] => x
  | x :: xs' => x +:+ sep +:+ Join xs' sep
  end.

Fixpoint last_byte (s : string) : option ascii :=
  match s with
  | EmptyString => None
  | String c EmptyString => Some c
  | String _ s' => last_byte s'
  end.

(** [strings.HasSuffix(s, "c")] for a one-byte suffix. *)
Definition HasSuffix (s : string) (c : ascii) : bool := bool_decide (last_byte s = Some c).

(** [slices.Sort] on strings: bytewise order. *)
Definition str_le (a b : string) : Prop := String.leb a b = true.

#[global] Instance str_le_dec a b : Decision (str_le a b) := decide (String.leb a b = true).

Definition Sort (xs : list string) : list string := merge_sort str_le xs.

Lemma leb_compare a b : str_le a b <-> String.compare a b <> Gt.
Proof.
  unfold str_le, String.leb. destruct (String.compare a b); split; congruence.
Qed.

Lemma ascii_compare_trans a b c :
  Ascii.compare a b = Lt -> Ascii.compare b c = Lt -> Ascii.compare a c = Lt.
Proof. unfold Ascii.compare. rewrite !N.compare_lt_iff. lia. Qed.

Lemma ascii_compare_eq a b : Ascii.compare a b = Eq -> a = b.
Proof.
  unfold Ascii.compare. rewrite N.compare_eq_iff. intros H.
  by rewrite <- (ascii_N_embedding a), H, ascii_N_embedding.
Qed.

Lemma ascii_compare_refl a : Ascii.compare a a = Eq.
Proof. unfold Ascii.compare. apply N.compare_refl. Qed.

Lemma compare_trans a b c :
  String.compare a b <> Gt -> String.compare b c <> Gt -> String.compare a c <> Gt.
Proof.
  revert b c. induction a as [|x a IH]; intros [|y b] [|z c]; cbn; try done.
  destruct (Ascii.compare x y) eqn:E1; [|destruct (Ascii.compare y z) eqn:E2|done].
  - apply ascii_compare_eq in E1 as ->. destruct (Ascii.compare y z) eqn:E2; [|done|done]. apply IH.
  - apply ascii_compare_eq in E2 as ->. by rewrite E1.
  - by rewrite (ascii_compare_trans _ _ _ E1 E2).
  - done.
Qed.

#[global] Instance str_le_trans : Transitive str_le.
Proof. intros a b c. rewrite !leb_compare. apply compare_trans. Qed.

#[global] Instance str_le_total : Total str_le.
Proof.
  intros a b. rewrite !leb_compare, (String.compare_antisym b a).
  destruct (String.compare a b); cbn; first [by left|by right].
Qed.

#[global] Instance str_le_antisymm : AntiSymm (=) str_le.
Proof.
  intros a b. rewrite !leb_compare, (String.compare_antisym b a). intros H1 H2.
  apply String.compare_eq_iff. by destruct (String.compare a b).
Qed.

(** Sorting forgets the order the strings came in. *)
Lemma Sort_perm xs ys : xs ≡ₚ ys -> Sort xs = Sort ys.
Proof.
  intros H. apply (StronglySorted_unique str_le).
  - apply StronglySorted_merge_sort; apply _.
  - apply StronglySorted_merge_sort; apply _.
  - unfold Sort. by rewrite !merge_sort_Permutation.
Qed.

(** A non-empty string is what precedes its first separator. *)
Lemma Cut_fst_no_sep s sep : Cut s sep = (s, "", false) \/ snd (Cut s sep) = true.
Proof.
  induction s as [|c s IH]; cbn; [by left|]. destruct (c == sep); [by right|].
  destruct (Cut s sep) as [[b a] f]. cbn in *. destruct IH as [[= -> -> ->]| ->]; auto.
Qed.

End gostrings.

Module gopath.

Definition slash : ascii := "/"%char.

(** The segments between slashes; a rooted path starts with an empty one. *)
Fixpoint segments (s : string) : list string :=
  match s with
  | EmptyString => [""]
  | String c s' =>
      if c == slash then "" :: segments s'
      else match segments s' with
           | seg :: rest => String c seg :: rest
           | [] => [String c ""]
           end
  end.

Definition rooted (s : string) : bool :=
  match s with String c _ => c == slash | EmptyString => false end.

(** One segment against the segments kept so far, innermost first. *)
Definition clean_step (root : bool) (kept : list string) (seg : string) : list string :=
  if (seg == "") || (seg == ".") then kept
  else if seg == ".." then
    match kept with
    | [] => if root then [] else [".."]
    | top :: kept' => if top == ".." then ".." :: kept else kept'
    end
  else seg :: kept.

(** [path.Clean]. *)
Definition Clean (s : string) : string :=
  let root := rooted s in
  let body := gostrings.Join (rev (fold_left (clean_step root) (segments s) [])) "/" in
  if root then String slash body else if body == "" then "." else body.

(** [path.Join] of two elements. *)
Definition Join (a b : string) : string :=
  if (a == "") && (b == "") then ""
  else if a == "" then Clean b
  else if b == "" then Clean a
  else Clean (a +:+ "/" +:+ b).

(** The last non-empty segment, or the empty string. *)
Definition last_segment (s : string) : string :=
  match List.find (fun seg => negb (seg == "")) (rev (segments s)) with
  | Some seg => seg
  | None => ""
  end.

(** [path.Base]. *)
Definition Base (s : string) : string :=
  if s == "" then "." else if last_segment s == "" then "/" else last_segment s.

(** [path.Split]'s directory: everything up to and including the last slash. *)
Definition dir_part (s : string) : string :=
  match rev (segments s) with
  | [] => ""
  | _ :: front => String.concat "" (map (fun seg => seg +:+ "/") (rev front))
  end.

(** [path.Dir]. *)
Definition Dir (s : string) : string := Clean (dir_part s).

(** A name that names a file inside a directory. *)
Definition proper (seg : string) : Prop :=
  seg <> "" /\ seg <> "." /\ seg <> ".." /\ segments seg = [seg].

#[global] Instance proper_dec seg : Decision (proper seg).
Proof. unfold proper. apply _. Defined.

Example Clean_examples :
  map Clean ["/models/model.gguf"; "a//b/./c/.."; "/.."; ""; "../../x"; "/a/../../b/"]
  = ["/models/model.gguf"; "a/b"; "/"; "."; "../../x"; "/b"].
Proof. reflexivity. Qed.

Example Base_examples :
  map Base ["/weights/model.gguf"; ""; "/"; "//"; "a/b/"; "model.gguf"; "/a/.."]
  = ["model.gguf"; "."; "/"; "/"; "b"; "model.gguf"; ".."].
Proof. reflexivity. Qed.

Example Dir_examples :
  map Dir ["/models/model.gguf"; ""; "/"; "a"; "a/b/c"; "/a"] = ["/models"; "."; "/"; "."; "a/b"; "/"].
Proof. reflexivity. Qed.

(** Every segment is free of slashes. *)
Lemma segments_nonempty s : segments s <> [].
Proof. destruct s as [|c s]; cbn; [done|]. destruct (c == slash); [done|]. by destruct (segments s). Qed.

Lemma segments_free s : Forall (fun seg => segments seg = [seg]) (segments s).
Proof.
  induction s as [|c s IH]; cbn; [by repeat constructor|].
  destruct (c == slash) eqn:E; [by constructor|].
  destruct IH as [|seg rest H1 H2]; repeat constructor; cbn; [by rewrite E| |done].
  by rewrite E, H1.
Qed.

Lemma last_segment_proper s :
  last_segment s <> "" -> last_segment s <> "." -> last_segment s <> ".." -> proper (last_segment s).
Proof.
  unfold last_segment. destruct (List.find _ _) as [seg|] eqn:E; [|done].
  intros H1 H2 H3. repeat split; [done..|]. apply find_some in E as [Hin _].
  apply in_rev in Hin. pose proof (segments_free s) as H. rewrite List.Forall_forall in H. by apply H.
Qed.

Lemma segments_app a b :
  segments (a +:+ "/" +:+ b) = segments a ++ segments b.
Proof.
  induction a as [|c a IH].
  - change (segments ("" +:+ "/" +:+ b)) with ("" :: segments b). done.
  - change (String c a +:+ "/" +:+ b) with (String c (a +:+ "/" +:+ b)). cbn [segments].
    rewrite IH. destruct (c == slash); [done|]. destruct (segments a) eqn:E; [|done].
    by apply segments_nonempty in E.
Qed.

(** Joining a directory and a proper name, and taking the path apart again. *)
Lemma clean_step_proper root kept seg : proper seg -> clean_step root kept seg = seg :: kept.
Proof.
  intros (H1 & H2 & H3 & _). unfold clean_step.
  by rewrite !bool_decide_eq_false_2 by done.
Qed.

(** A directory of one level under the root or below, spelled canonically. *)
Definition canonical (dir : string) (segs : list string) : Prop :=
  segments dir = "" :: segs /\ segs <> [] /\ Forall proper segs.

Lemma fold_clean_proper root segs kept :
  Forall proper segs -> fold_left (clean_step root) segs kept = rev segs ++ kept.
Proof.
  intros H. revert kept. induction H as [|seg segs Hs H IH]; intros kept; [done|].
  cbn. rewrite clean_step_proper, IH by done. by rewrite <- app_assoc.
Qed.

Lemma join_segments s : gostrings.Join (segments s) "/" = s.
Proof.
  induction s as [|c s IH]; cbn; [done|].
  destruct (bool_decide_reflect (c = slash)) as [->|Hc].
  - pose proof (segments_nonempty s). destruct (segments s) eqn:E; [done|].
    change (gostrings.Join ("" :: s0 :: l) "/") with ("" +:+ "/" +:+ gostrings.Join (s0 :: l) "/").
    by rewrite IH.
  - destruct (segments s) as [|seg rest] eqn:E; [by apply segments_nonempty in E|].
    destruct rest as [|seg' rest]; cbn in *; by rewrite <- IH.
Qed.

Lemma canonical_rooted dir segs : canonical dir segs -> rooted dir = true.
Proof.
  intros (H & Hn & _). destruct dir as [|c dir]; cbn in *; [congruence|].
  destruct (c == slash); [done|]. destruct (segments dir); congruence.
Qed.

Lemma rooted_app a b : rooted a = true -> rooted (a +:+ b) = true.
Proof. by destruct a. Qed.

Lemma Clean_canonical s segs : canonical s segs -> Clean s = s.
Proof.
  intros H. pose proof (canonical_rooted _ _ H) as Hr. destruct H as (H & Hn & Hp).
  unfold Clean. rewrite Hr, H. cbn [fold_left]. change (clean_step true [] "") with (@nil string).
  rewrite fold_clean_proper, app_nil_r, rev_involutive by done.
  rewrite <- (join_segments s), H. destruct segs; [done|]. done.
Qed.

Lemma canonical_child dir segs seg :
  canonical dir segs -> proper seg -> canonical (dir +:+ "/" +:+ seg) (segs ++ [seg]).
Proof.
  intros (H & Hn & Hp) Hs. split; [|split].
  - rewrite segments_app, H. destruct Hs as (_ & _ & _ & ->). done.
  - by destruct segs.
  - apply Forall_app. split; [done|]. by constructor.
Qed.

Lemma Join_child dir segs seg :
  canonical dir segs -> proper seg -> Join dir seg = dir +:+ "/" +:+ seg.
Proof.
  intros Hd Hs. unfold Join.
  assert (Hne : dir <> ""). { intros ->. destruct Hd as (H1 & H2 & _). cbn in H1. congruence. }
  destruct Hs as (Hse & Hs). rewrite !bool_decide_eq_false_2 by done. cbn [andb].
  eapply Clean_canonical, canonical_child; [done|]. by split.
Qed.

Lemma str_app_assoc a b c : (a +:+ b) +:+ c = a +:+ b +:+ c.
Proof. induction a as [|x a IH]; [done|]. exact (f_equal (String x) IH). Qed.

Lemma concat_slashes l :
  l <> [] -> String.concat "" (map (fun seg => seg +:+ "/") l) = gostrings.Join l "/" +:+ "/".
Proof.
  intros H. destruct l as [|x l]; [done|]. clear H. revert x.
  induction l as [|y l IH]; intros x; [done|].
  change (String.concat "" (map (fun seg => seg +:+ "/") (x :: y :: l)))
    with ((x +:+ "/") +:+ ("" +:+ String.concat "" (map (fun seg => seg +:+ "/") (y :: l)))).
  rewrite IH. change (gostrings.Join (x :: y :: l) "/") with (x +:+ "/" +:+ gostrings.Join (y :: l) "/").
  change ("" +:+ ?s) with s. by rewrite !str_app_assoc.
Qed.

Lemma Clean_trailing dir segs : canonical dir segs -> Clean (dir +:+ "/") = dir.
Proof.
  intros H. pose proof (canonical_rooted _ _ H) as Hr. destruct H as (H & Hn & Hp).
  change "/" with ("/" +:+ "") at 1. unfold Clean. rewrite (rooted_app _ _ Hr), segments_app, H.
  rewrite fold_left_app. cbn [fold_left segments]. change (clean_step true [] "") with (@nil string).
  rewrite fold_clean_proper, app_nil_r by done.
  change (clean_step true ?k "") with k. rewrite rev_involutive.
  rewrite <- (join_segments dir), H. destruct segs; [done|]. done.
Qed.

Lemma Dir_child dir segs seg :
  canonical dir segs -> proper seg -> Dir (dir +:+ "/" +:+ seg) = dir.
Proof.
  intros Hd (Hs1 & Hs2 & Hs3 & Hs4). unfold Dir, dir_part.
  rewrite segments_app, Hs4, rev_app_distr. cbn [rev app]. rewrite rev_involutive.
  rewrite concat_slashes, join_segments by apply segments_nonempty.
  by eapply Clean_trailing.
Qed.

Lemma Base_child dir seg : proper seg -> Base (dir +:+ "/" +:+ seg) = seg.
Proof.
  intros (Hs1 & Hs2 & Hs3 & Hs4). unfold Base.
  rewrite bool_decide_eq_false_2 by (destruct dir; done).
  unfold last_segment. rewrite segments_app, Hs4, rev_app_distr. cbn [rev app List.find].
  rewrite (bool_decide_eq_false_2 (seg = "")) by done. cbn [negb]. by rewrite bool_decide_eq_false_2.
Qed.

Lemma Base_proper s : Base s <> "." -> Base s <> ".." -> Base s <> "/" -> proper (Base s).
Proof.
  unfold Base. repeat case_bool_decide; try done. intros. by apply last_segment_proper.
Qed.

End gopath.
