(* ===== verification/ApiTypes.v ===== *)
(** * The ModelDeployment API (api/v1alpha1)

    The custom resource's spec and status as records and enumerations, and the
    accessors that resolve their defaults.  A Go pointer field is an [option],
    a string enumeration is an inductive type whose last constructor carries
    any other string, and a [resource.Quantity] is known only through the two
    observations the code makes of it. *)

From S2P Require Import Prelude GoFloat.
Local Open Scope Z_scope.
Local Open Scope go_scope.

Module v1alpha1.

(** ** Types of libraries, reduced to what the code reads of them *)

(** [resource.Quantity]: its milli-value and its canonical text. *)
Record Quantity := MkQuantity { MilliValue : Z; Quantity_String : string }.

(** [corev1.SecretKeySelector], [corev1.EnvVar] and
    [corev1.ResourceRequirements]. *)
Record SecretKeySelector := MkSecretKeySelector { sk_Name : string; sk_Key : string }.

Inductive EnvVarSource :=
  | SecretKeyRef (ref : SecretKeySelector)
  | OtherSource (encoded : string).

Record EnvVar := MkEnvVar {
  env_Name : string; env_Value : string; env_ValueFrom : option EnvVarSource }.

Record ResourceRequirements := MkResourceRequirements {
  rr_Limits : gmap string Quantity; rr_Requests : gmap string Quantity }.

(** [metav1.Condition], without its transition time. *)
Inductive ConditionStatus := ConditionTrue | ConditionFalse | ConditionUnknown.

Record Condition := MkCondition {
  cond_Type : string; cond_Status : ConditionStatus; cond_ObservedGeneration : Z;
  cond_Reason : string; cond_Message : string }.

(** ** Variants, model, engine and serving *)

Inductive Variant := VariantPrimary | VariantCanary | VariantOther (s : string).

Definition variant_string (v : Variant) : string :=
  match v with
  | VariantPrimary => "primary"
  | VariantCanary => "canary"
  | VariantOther s => s
  end.

Record ImageModelSource := MkImageModelSource {
  im_Image : string; im_Path : string; im_PullPolicy : string }.

Record HuggingFaceModelSource := MkHuggingFaceModelSource {
  hf_Repo : string; hf_File : string; hf_TokenSecretRef : option SecretKeySelector }.

Record PVCModelSource := MkPVCModelSource {
  pvc_ClaimName : string; pvc_Path : string; pvc_ReadOnly : option bool }.

Record ModelSourceSpec := MkModelSourceSpec {
  src_Image : option ImageModelSource;
  src_HuggingFace : option HuggingFaceModelSource;
  src_PersistentVolumeClaim : option PVCModelSource }.

Record ModelSpec := MkModelSpec { model_Name : string; model_Source : ModelSourceSpec }.

Record EngineSpec := MkEngineSpec {
  eng_Type : string; eng_Image : string; eng_ImagePullPolicy : string;
  eng_ContextSize : option Z; eng_MaxConcurrency : option Z; eng_Threads : option Z;
  eng_ExtraArgs : list string; eng_Env : list EnvVar;
  eng_Resources : ResourceRequirements; eng_APIKeySecretRef : option SecretKeySelector }.

Record ShimSpec := MkShimSpec {
  shim_Enabled : option bool; shim_Image : string;
  shim_Resources : ResourceRequirements; shim_LogLevel : string }.

Record ServingSpec := MkServingSpec {
  srv_Port : Z; srv_StartupTimeout : option time.Duration; srv_Shim : ShimSpec }.

Definition ShimEnabled (s : ServingSpec) : bool := from_ptr true (shim_Enabled (srv_Shim s)).

(** ** Rollout strategy *)

Inductive InconclusiveAction :=
  InconclusiveUnset | InconclusiveWait | InconclusiveRollback | InconclusivePromote
  | InconclusiveOther (s : string).

Inductive BuiltinMetric :=
  MetricTTFTP95 | MetricTTFTP99 | MetricRequestDurationP95 | MetricErrorRate
  | MetricSuccessRate | MetricQueueDepth | MetricOutputTokenRate | MetricOutputChunkRate
  | MetricOther (s : string).

Record ThresholdRange := MkThresholdRange {
  thr_Min : option Quantity; thr_Max : option Quantity }.

Record AnalysisMetric := MkAnalysisMetric {
  am_Name : string; am_Builtin : option BuiltinMetric; am_Query : string;
  am_ThresholdRange : ThresholdRange; am_CompareToPrimary : option bool }.

Record AnalysisProviderSpec := MkAnalysisProviderSpec {
  prov_Type : string; prov_Address : string; prov_Timeout : option time.Duration }.

Record AnalysisSpec := MkAnalysisSpec {
  an_Interval : option time.Duration; an_Window : option time.Duration;
  an_InitialDelay : option time.Duration; an_FailureThreshold : option Z;
  an_ConsecutiveErrorLimit : option Z; an_InconclusiveLimit : option Z;
  an_OnInconclusive : InconclusiveAction; an_MinRequestRate : option Quantity;
  an_MinUsageSamples : option Z; an_Provider : AnalysisProviderSpec;
  an_Metrics : list AnalysisMetric }.

Inductive TrafficRoutingMode := TrafficRoutingUnset | TrafficRoutingReplica | TrafficRoutingOther (s : string).

Record CanaryScaleSpec := MkCanaryScaleSpec {
  cscale_Replicas : option Z; cscale_MatchTrafficWeight : option bool }.

Record CanarySpec := MkCanarySpec {
  can_StepWeight : option Z; can_StepWeights : list Z; can_MaxWeight : option Z;
  can_Analysis : AnalysisSpec; can_TrafficRouting : TrafficRoutingMode;
  can_Scale : option CanaryScaleSpec; can_RequireApproval : option bool }.

Inductive RolloutStrategyType :=
  RolloutRollingUpdate | RolloutRecreate | RolloutCanary | RolloutOther (s : string).

Record RolloutSpec := MkRolloutSpec {
  ro_Type : RolloutStrategyType; ro_MaxSurge : option string; ro_MaxUnavailable : option string;
  ro_ProgressDeadline : option time.Duration; ro_AutoRollback : option bool;
  ro_Canary : option CanarySpec }.

(** ** Verdicts and status *)

Inductive Verdict :=
  VerdictPass | VerdictFail | VerdictInconclusive | VerdictError | VerdictOther (s : string).

Record MetricCheck := MkMetricCheck {
  mc_Name : string; mc_Verdict : Verdict; mc_Value : string;
  mc_Threshold : string; mc_Message : string }.

Record CanaryReadinessTarget := MkCanaryReadinessTarget {
  rt_Step : Z; rt_Weight : Z; rt_TotalReplicas : Z; rt_CanaryReplicas : Z;
  rt_Generation : Z; rt_DeploymentUID : string }.

Definition CanaryReadinessTarget_zero : CanaryReadinessTarget :=
  MkCanaryReadinessTarget 0 0 0 0 0 "".

Record CanaryStatus := MkCanaryStatus {
  cs_Revision : string; cs_StableRevision : string; cs_FailedRevision : string;
  cs_DesiredWeight : Z; cs_CurrentWeight : Z; cs_ObservedWeight : option Z;
  cs_ObservedAt : option time.Time; cs_ObservationWindow : option time.Duration;
  cs_ObservationReason : string; cs_MetricScopeReady : bool; cs_Step : Z; cs_Steps : Z;
  cs_FailedChecks : Z; cs_ConsecutiveErrors : Z; cs_ConsecutiveInconclusive : Z;
  cs_Checks : list MetricCheck; cs_StartTime : option time.Time;
  cs_LastAnalysisTime : option time.Time; cs_AvailableSince : option time.Time;
  cs_ReadinessTarget : CanaryReadinessTarget; cs_ReadyReplicas : Z;
  cs_AvailableReplicas : Z; cs_Message : string }.

Inductive Phase :=
  PhaseUnset | PhasePending | PhaseProgressing | PhaseAvailable | PhaseCanarying
  | PhasePromoting | PhaseRollingBack | PhasePaused | PhaseDegraded | PhaseOther (s : string).

(** ** Autoscaling *)

Inductive AutoscalingMode := AutoscalingOff | AutoscalingBuiltin | AutoscalingModeOther (s : string).

Inductive AutoscalingMetric :=
  AutoscalingMetricUnset | AutoscalingQueueDepth | AutoscalingConcurrency
  | AutoscalingMetricOther (s : string).

Record AutoscalingSpec := MkAutoscalingSpec {
  as_Mode : AutoscalingMode; as_MinReplicas : Z; as_MaxReplicas : Z;
  as_Metric : AutoscalingMetric; as_Target : option Quantity; as_Tolerance : option Quantity;
  as_PollInterval : option time.Duration; as_Window : option time.Duration;
  as_ScaleUpStabilization : option time.Duration;
  as_ScaleDownStabilization : option time.Duration; as_Provider : AnalysisProviderSpec }.

Record ScaleRecommendation := MkScaleRecommendation { sr_Time : time.Time; sr_Replicas : Z }.

Record AutoscalingStatus := MkAutoscalingStatus {
  ast_DesiredReplicas : Z; ast_CurrentMetric : string; ast_CurrentMetricPerPod : string;
  ast_LastScaleTime : option time.Time; ast_Recommendations : list ScaleRecommendation;
  ast_Message : string }.

(** ** Observability *)

Record ServiceMonitorSpec := MkServiceMonitorSpec {
  sm_Enabled : option bool; sm_Interval : option time.Duration;
  sm_ScrapeTimeout : option time.Duration; sm_Labels : gmap string string;
  sm_ScrapeEngineMetrics : option bool }.

Record PrometheusRuleSpec := MkPrometheusRuleSpec {
  pr_Enabled : option bool; pr_Labels : gmap string string; pr_LongWindowAlerts : option bool }.

Record SLOSpec := MkSLOSpec {
  slo_TTFTThreshold : option Quantity; slo_TTFTObjective : option Quantity;
  slo_AvailabilityObjective : option Quantity }.

Record ObservabilitySpec := MkObservabilitySpec {
  ob_ServiceMonitor : option ServiceMonitorSpec; ob_PrometheusRule : option PrometheusRuleSpec;
  ob_SLO : option SLOSpec }.

(** ** The resource *)

Record ModelDeploymentSpec := MkModelDeploymentSpec {
  sp_Replicas : option Z; sp_Model : ModelSpec; sp_Engine : EngineSpec;
  sp_Serving : ServingSpec; sp_Rollout : RolloutSpec;
  sp_Observability : ObservabilitySpec; sp_Autoscaling : option AutoscalingSpec }.

Record ModelDeploymentStatus := MkModelDeploymentStatus {
  mds_ObservedGeneration : Z; mds_Phase : Phase; mds_Replicas : Z; mds_Selector : string;
  mds_ReadyReplicas : Z; mds_UpdatedReplicas : Z; mds_AvailableReplicas : Z;
  mds_StableRevision : string; mds_LastGoodRevision : string; mds_Endpoint : string;
  mds_Canary : option CanaryStatus; mds_Autoscaling : option AutoscalingStatus;
  mds_Conditions : list Condition }.

(** The metadata the controller reads, the spec and the status. *)
Record ModelDeployment := MkModelDeployment {
  md_Name : string; md_Namespace : string; md_UID : string; md_ResourceVersion : string;
  md_Generation : Z; md_DeletionTimestamp : option time.Time;
  md_Annotations : gmap string string; md_Spec : ModelDeploymentSpec;
  md_Status : ModelDeploymentStatus }.

#[global] Instance CanaryReadinessTarget_eq_dec : EqDecision CanaryReadinessTarget.
Proof. solve_decision. Defined.

#[global] Instance Verdict_eq_dec : EqDecision Verdict.
Proof. solve_decision. Defined.

#[global] Instance MetricCheck_eq_dec : EqDecision MetricCheck.
Proof. solve_decision. Defined.

#[global] Instance ConditionStatus_eq_dec : EqDecision ConditionStatus.
Proof. solve_decision. Defined.

#[global] Instance Condition_eq_dec : EqDecision Condition.
Proof. solve_decision. Defined.

#[global] Instance InconclusiveAction_eq_dec : EqDecision InconclusiveAction.
Proof. solve_decision. Defined.

#[global] Instance RolloutStrategyType_eq_dec : EqDecision RolloutStrategyType.
Proof. solve_decision. Defined.

#[global] Instance TrafficRoutingMode_eq_dec : EqDecision TrafficRoutingMode.
Proof. solve_decision. Defined.

#[global] Instance BuiltinMetric_eq_dec : EqDecision BuiltinMetric.
Proof. solve_decision. Defined.

#[global] Instance Variant_eq_dec : EqDecision Variant.
Proof. solve_decision. Defined.

#[global] Instance Phase_eq_dec : EqDecision Phase.
Proof. solve_decision. Defined.

#[global] Instance AutoscalingMode_eq_dec : EqDecision AutoscalingMode.
Proof. solve_decision. Defined.

#[global] Instance AutoscalingMetric_eq_dec : EqDecision AutoscalingMetric.
Proof. solve_decision. Defined.

(** ** Resolved accessors: every default in one place *)

Definition durationOr (d : option time.Duration) (fallback : time.Duration) : time.Duration :=
  match d with
  | None => fallback
  | Some x => if x <=? 0 then fallback else x
  end.

Definition int32Or (v : option Z) (fallback : Z) : Z :=
  match v with
  | None => fallback
  | Some x => if x <? 1 then fallback else x
  end.

Definition defaultAnalysisInterval : time.Duration := 30 * time.Second.
Definition defaultAnalysisWindow : time.Duration := 60 * time.Second.
Definition defaultAnalysisInitialDelay : time.Duration := 60 * time.Second.
Definition defaultQueryTimeout : time.Duration := 10 * time.Second.
Definition defaultFailureThreshold : Z := 3.
Definition defaultConsecutiveErrorLimit : Z := 5.
Definition defaultInconclusiveLimit : Z := 5.
Definition defaultMinRequestRateMilli : Z := 500.

Definition ResolvedInterval (a : AnalysisSpec) : time.Duration :=
  durationOr (an_Interval a) defaultAnalysisInterval.
Definition ResolvedWindow (a : AnalysisSpec) : time.Duration :=
  durationOr (an_Window a) defaultAnalysisWindow.
Definition ResolvedInitialDelay (a : AnalysisSpec) : time.Duration :=
  durationOr (an_InitialDelay a) defaultAnalysisInitialDelay.
Definition ResolvedTimeout (a : AnalysisSpec) : time.Duration :=
  durationOr (prov_Timeout (an_Provider a)) defaultQueryTimeout.
Definition ResolvedFailureThreshold (a : AnalysisSpec) : Z :=
  int32Or (an_FailureThreshold a) defaultFailureThreshold.
Definition ResolvedConsecutiveErrorLimit (a : AnalysisSpec) : Z :=
  int32Or (an_ConsecutiveErrorLimit a) defaultConsecutiveErrorLimit.
Definition ResolvedInconclusiveLimit (a : AnalysisSpec) : Z :=
  int32Or (an_InconclusiveLimit a) defaultInconclusiveLimit.

Definition ResolvedOnInconclusive (a : AnalysisSpec) : InconclusiveAction :=
  match an_OnInconclusive a with
  | InconclusiveUnset => InconclusiveWait
  | x => x
  end.

(** [float64(milli) / 1000]. *)
Definition milli_float (milli : Z) : f64.t := f64.div (f64.of_Z milli) (f64.of_Z 1000).

Definition ResolvedMinRequestRate (a : AnalysisSpec) : f64.t :=
  match an_MinRequestRate a with
  | None => milli_float defaultMinRequestRateMilli
  | Some q => milli_float (MilliValue q)
  end.

Definition ResolvedMinUsageSamples (a : AnalysisSpec) : Z :=
  match an_MinUsageSamples a with
  | None => 20
  | Some n => if n <? 1 then 20 else n
  end.

Definition CompareToPrimaryEnabled (m : AnalysisMetric) : bool :=
  from_ptr false (am_CompareToPrimary m).

(** The default checks.  [MustParse] is [resource.MustParse]. *)
Definition DefaultMetrics (MustParse : string -> Quantity) : list AnalysisMetric :=
  [ MkAnalysisMetric "ttft-vs-primary" (Some MetricTTFTP95) ""
      (MkThresholdRange None (Some (MustParse "1500m"))) (Some true);
    MkAnalysisMetric "error-rate" (Some MetricErrorRate) ""
      (MkThresholdRange None (Some (MustParse "50m"))) None ].

Definition ResolvedMetrics (MustParse : string -> Quantity) (a : AnalysisSpec) : list AnalysisMetric :=
  match an_Metrics a with
  | [] => DefaultMetrics MustParse
  | ms => ms
  end.

(** *** The weight ladder *)

(** The filter over an explicit ladder: keep strictly increasing entries up
    to 100. *)
Fixpoint ladder_filter (prev : Z) (ws : list Z) : list Z :=
  match ws with
  | [] => []
  | w :: ws' =>
      if (prev <? w) && (w <=? 100) then w :: ladder_filter w ws' else ladder_filter prev ws'
  end.

(** [for w := step; w < maxW; w += step], on [int32].  [None] when the loop
    has not ended after [fuel] rounds. *)
Fixpoint ladder_loop (fuel : nat) (w step maxW : Z) : option (list Z) :=
  if w <? maxW then
    match fuel with
    | O => None
    | S f =>
        match ladder_loop f (wrap32 (w + step)) step maxW with
        | Some rest => Some (w :: rest)
        | None => None
        end
    end
  else Some [].

Definition positive_or (v : option Z) (d : Z) : Z :=
  match v with
  | Some x => if 0 <? x then x else d
  | None => d
  end.

Definition StepLadder (c : CanarySpec) : option (list Z) :=
  match ladder_filter 0 (can_StepWeights c) with
  | [] =>
      let step := positive_or (can_StepWeight c) 20 in
      let maxW := positive_or (can_MaxWeight c) 50 in
      match ladder_loop (Z.to_nat maxW) step step maxW with
      | Some out => Some (out ++ [maxW])
      | None => None
      end
  | out => Some out
  end.

Definition ApprovalRequired (c : CanarySpec) : bool := from_ptr false (can_RequireApproval c).
Definition AutoRollbackEnabled (r : RolloutSpec) : bool := from_ptr true (ro_AutoRollback r).
Definition IsCanary (r : RolloutSpec) : bool :=
  (ro_Type r == RolloutCanary) && negb (is_nil (ro_Canary r)).

(** *** Autoscaling *)

Definition AutoscalingEnabled (a : option AutoscalingSpec) : bool :=
  match a with
  | None => false
  | Some s => as_Mode s == AutoscalingBuiltin
  end.

Definition defaultAutoscaleTargetMilli : Z := 2000.
Definition defaultAutoscaleToleranceMilli : Z := 100.
Definition defaultPollInterval : time.Duration := 15 * time.Second.
Definition defaultAutoscaleWindow : time.Duration := 60 * time.Second.
Definition defaultScaleUpStabilization : time.Duration := 0.
Definition defaultScaleDownStabilization : time.Duration := 300 * time.Second.

Definition ResolvedTarget (a : AutoscalingSpec) : f64.t :=
  match as_Target a with
  | None => milli_float defaultAutoscaleTargetMilli
  | Some q => milli_float (MilliValue q)
  end.

Definition ResolvedTolerance (a : AutoscalingSpec) : f64.t :=
  match as_Tolerance a with
  | None => milli_float defaultAutoscaleToleranceMilli
  | Some q => milli_float (MilliValue q)
  end.

Definition ResolvedPollInterval (a : AutoscalingSpec) : time.Duration :=
  durationOr (as_PollInterval a) defaultPollInterval.
Definition ResolvedAutoscalingWindow (a : AutoscalingSpec) : time.Duration :=
  durationOr (as_Window a) defaultAutoscaleWindow.

Definition ResolvedScaleUpStabilization (a : AutoscalingSpec) : time.Duration :=
  match as_ScaleUpStabilization a with
  | None => defaultScaleUpStabilization
  | Some d => if d <? 0 then defaultScaleUpStabilization else d
  end.

Definition ResolvedScaleDownStabilization (a : AutoscalingSpec) : time.Duration :=
  match as_ScaleDownStabilization a with
  | None => defaultScaleDownStabilization
  | Some d => if d <? 0 then defaultScaleDownStabilization else d
  end.

Definition ResolvedMetric (a : AutoscalingSpec) : AutoscalingMetric :=
  match as_Metric a with
  | AutoscalingMetricUnset => AutoscalingQueueDepth
  | m => m
  end.

Definition ResolvedProviderTimeout (a : AutoscalingSpec) : time.Duration :=
  durationOr (prov_Timeout (as_Provider a)) defaultQueryTimeout.

(** ** Condition types, condition reasons and event reasons (conditions.go) *)

Definition ConditionReady : string := "Ready".
Definition ConditionAvailable : string := "Available".
Definition ConditionProgressing : string := "Progressing".
Definition ConditionModelReady : string := "ModelReady".
Definition ConditionSpecValid : string := "SpecValid".
Definition ConditionMetricsRegistered : string := "MetricsRegistered".
Definition ConditionCanaryHealthy : string := "CanaryHealthy".
Definition ConditionMetricScopeReady : string := "MetricScopeReady".
Definition ConditionTrafficRoutingReady : string := "TrafficRoutingReady".
Definition ConditionAutoscalingReady : string := "AutoscalingReady".

Definition AllConditionTypes : list string :=
  [ConditionReady;
   ConditionAvailable;
   ConditionProgressing;
   ConditionModelReady;
   ConditionSpecValid;
   ConditionMetricsRegistered;
   ConditionCanaryHealthy;
   ConditionMetricScopeReady;
   ConditionTrafficRoutingReady;
   ConditionAutoscalingReady].

Definition ReasonReconciling : string := "Reconciling".
Definition ReasonMinimumReplicasAvailable : string := "MinimumReplicasAvailable".
Definition ReasonMinimumReplicasUnavailable : string := "MinimumReplicasUnavailable".
Definition ReasonNewRevisionDetected : string := "NewRevisionDetected".
Definition ReasonRolloutInProgress : string := "RolloutInProgress".
Definition ReasonRolloutComplete : string := "RolloutComplete".
Definition ReasonRevisionRejected : string := "RevisionRejected".
Definition ReasonProgressDeadlineExceeded : string := "ProgressDeadlineExceeded".
Definition ReasonScaledToZero : string := "ScaledToZero".
Definition ReasonModelResolved : string := "ModelResolved".
Definition ReasonModelLoading : string := "ModelLoading".
Definition ReasonEngineUnhealthy : string := "EngineUnhealthy".
Definition ReasonInvalidSpec : string := "InvalidSpec".
Definition ReasonUnsupportedEngineOption : string := "UnsupportedEngineOption".
Definition ReasonSpecAccepted : string := "SpecAccepted".
Definition ReasonMetricsRegistered : string := "MetricsRegistered".
Definition ReasonPrometheusOperatorCRDsAbsent : string := "PrometheusOperatorCRDsAbsent".
Definition ReasonServiceMonitorDisabled : string := "ServiceMonitorDisabled".
Definition ReasonShimDisabled : string := "ShimDisabled".
Definition ReasonMetricsScopePending : string := "MetricsScopePending".
Definition ReasonMetricsScopeReady : string := "MetricsScopeReady".
Definition ReasonCanaryNotRunning : string := "CanaryNotRunning".
Definition ReasonCanaryProgressing : string := "CanaryProgressing".
Definition ReasonCanaryChecksPassed : string := "ChecksPassed".
Definition ReasonCanaryChecksFailed : string := "ChecksFailed".
Definition ReasonCanaryRolledBack : string := "CanaryRolledBack".
Definition ReasonCanaryPromoted : string := "CanaryPromoted".
Definition ReasonCanaryProgressDeadlineExceeded : string := "CanaryProgressDeadlineExceeded".
Definition ReasonAnalysisError : string := "AnalysisError".
Definition ReasonAnalysisInconclusive : string := "AnalysisInconclusive".
Definition ReasonAwaitingApproval : string := "AwaitingApproval".
Definition ReasonCanaryAborted : string := "CanaryAborted".
Definition ReasonWeightQuantized : string := "WeightQuantized".
Definition ReasonTrafficSplit : string := "TrafficSplit".
Definition ReasonNoLastGoodRevision : string := "NoLastGoodRevision".
Definition ReasonInsufficientReplicas : string := "InsufficientReplicas".
Definition ReasonAutoscalingDisabled : string := "AutoscalingDisabled".
Definition ReasonAutoscalingActive : string := "AutoscalingActive".
Definition ReasonAutoscalingNoMetrics : string := "AutoscalingNoMetrics".
Definition ReasonAutoscalingConflict : string := "AutoscalingConflict".
Definition ReasonScaledUp : string := "ScaledUp".
Definition ReasonScaledDown : string := "ScaledDown".

Definition EventReasonRevisionCreated : string := "RevisionCreated".
Definition EventReasonRolloutStarted : string := "RolloutStarted".
Definition EventReasonRolloutComplete : string := "RolloutComplete".
Definition EventReasonInvalidSpec : string := "InvalidSpec".
Definition EventReasonMetricsUnavailable : string := "MetricsUnavailable".
Definition EventReasonCanaryStarted : string := "CanaryStarted".
Definition EventReasonCanaryAdvanced : string := "CanaryAdvanced".
Definition EventReasonCanaryPromoted : string := "CanaryPromoted".
Definition EventReasonCanaryRolledBack : string := "CanaryRolledBack".
Definition EventReasonCanaryPaused : string := "CanaryPaused".
Definition EventReasonCanaryAborted : string := "CanaryAborted".
Definition EventReasonAnalysisFailed : string := "AnalysisFailed".
Definition EventReasonAnalysisError : string := "AnalysisError".
Definition EventReasonWeightQuantized : string := "WeightQuantized".
Definition EventReasonRolloutStalled : string := "RolloutStalled".
Definition EventReasonScaledUp : string := "ScaledUp".
Definition EventReasonScaledDown : string := "ScaledDown".
Definition EventReasonAutoscalingConflict : string := "AutoscalingConflict".
Definition EventReasonAutoscalingNoMetrics : string := "AutoscalingNoMetrics".

(** ** The weight ladder *)

Lemma ladder_filter_sorted prev ws :
  StronglySorted Z.lt (ladder_filter prev ws)
  /\ Forall (fun w => prev < w <= 100) (ladder_filter prev ws).
Proof.
  revert prev. induction ws as [|w ws IH]; intros prev; cbn; [by repeat constructor|].
  destruct (_ && _) eqn:E; [|apply IH]. go_bools. destruct (IH w) as [Hs Hf].
  split; constructor; try done; try lia; eapply Forall_impl; try exact Hf; cbn; lia.
Qed.

Lemma ladder_filter_id prev ws :
  StronglySorted Z.lt (prev :: ws) -> Forall (fun w => w <= 100) ws -> ladder_filter prev ws = ws.
Proof.
  revert prev. induction ws as [|w ws IH]; intros prev Hs Hf; [done|]. cbn.
  apply StronglySorted_inv in Hs as [Hs Hp]. apply Forall_cons in Hp as [Hp _].
  apply Forall_cons in Hf as [Hw Hf].
  rewrite (proj2 (Z.ltb_lt _ _) Hp), (proj2 (Z.leb_le _ _) Hw). cbn. by rewrite IH.
Qed.

Lemma ladder_loop_spec fuel w step maxW :
  0 < step -> 0 < w -> maxW + step <= int32_max -> maxW - w <= Z.of_nat fuel ->
  exists out, ladder_loop fuel w step maxW = Some out
  /\ StronglySorted Z.lt (out ++ [maxW]) /\ Forall (fun x => w <= x < maxW) out.
Proof.
  revert w. induction fuel as [|f IH]; intros w Hst Hw Hov Hf; cbn [ladder_loop];
    destruct (Z.ltb_spec w maxW) as [Hlt|Hge]; try lia;
    try (exists []; repeat constructor; fail).
  rewrite wrap32_id by go_lia. destruct (IH (w + step)) as (out & -> & Hs & Hr); try lia.
  exists (w :: out). split; [done|]. split.
  - cbn. constructor; [done|]. apply Forall_app. split; [|by repeat constructor].
    eapply Forall_impl; [exact Hr|]. cbn. lia.
  - constructor; [lia|]. eapply Forall_impl; [exact Hr|]. cbn. lia.
Qed.

Lemma sorted_length l a b :
  StronglySorted Z.lt l -> Forall (fun w => a < w <= b) l -> Z.of_nat (length l) <= Z.max 0 (b - a).
Proof.
  revert a. induction l as [|w l IH]; intros a Hs Hf; cbn [length]; [lia|].
  apply StronglySorted_inv in Hs as [Hs Hw]. apply Forall_cons in Hf as [Hr Hf].
  assert (Hf' : Forall (fun x => w < x <= b) l).
  { rewrite !Forall_forall in *. intros x Hx. specialize (Hw x Hx). specialize (Hf x Hx). lia. }
  specialize (IH w Hs Hf'). lia.
Qed.

(** The ladder is well formed and always computed.  For the step and the
    maximum weight the API admits (at most 100), [StepLadder] returns a
    non-empty, strictly increasing list of at most 100 percentages; an explicit
    ladder that is already strictly increasing is kept as it is, and a computed
    one ends at the maximum weight. *)
Theorem StepLadder_well_formed c :
  positive_or (can_StepWeight c) 20 <= 100 -> positive_or (can_MaxWeight c) 50 <= 100 ->
  exists out, StepLadder c = Some out /\ out <> [] /\ StronglySorted Z.lt out
  /\ Forall (fun w => 0 < w <= 100) out /\ Z.of_nat (length out) <= 100
  /\ (StronglySorted Z.lt (0 :: can_StepWeights c) -> Forall (fun w => w <= 100) (can_StepWeights c) ->
      can_StepWeights c <> [] -> out = can_StepWeights c)
  /\ (can_StepWeights c = [] -> exists pre, out = pre ++ [positive_or (can_MaxWeight c) 50]).
Proof.
  intros Hst Hmx. unfold StepLadder.
  destruct (ladder_filter_sorted 0 (can_StepWeights c)) as [Hs Hf].
  destruct (ladder_filter 0 (can_StepWeights c)) as [|w ws] eqn:E.
  - set (step := positive_or (can_StepWeight c) 20) in *.
    set (maxW := positive_or (can_MaxWeight c) 50) in *.
    assert (0 < step) by (subst step; unfold positive_or; repeat go_split1; go_bools; lia).
    assert (0 < maxW) by (subst maxW; unfold positive_or; repeat go_split1; go_bools; lia).
    destruct (ladder_loop_spec (Z.to_nat maxW) step step maxW) as (out & -> & Hso & Hr); [go_lia..|].
    exists (out ++ [maxW]).
    assert (Hfo : Forall (fun w => 0 < w <= 100) (out ++ [maxW])).
    { apply Forall_app. split; [|by repeat constructor].
      eapply Forall_impl; [exact Hr|]. cbn. lia. }
    pose proof (sorted_length _ _ _ Hso Hfo) as Hlen.
    split; [done|]. split; [by destruct out|]. split; [done|]. split; [done|]. split; [lia|].
    split; [|by eauto]. intros H1 H2 H3. by rewrite (ladder_filter_id 0) in E.
  - exists (w :: ws). pose proof (sorted_length _ _ _ Hs Hf) as Hlen. rewrite <- E in *.
    split; [by rewrite E|]. split; [by rewrite E|]. split; [done|]. split; [done|]. split; [lia|].
    split; [|by intros Hn; rewrite Hn in E].
    intros H1 H2 _. by apply ladder_filter_id.
Qed.

Lemma StepLadder_well_formed_witness :
  exists c out, StepLadder c = Some out /\ out = [20; 40; 50].
Proof.
  exists (MkCanarySpec None [] None
            (MkAnalysisSpec None None None None None None InconclusiveUnset None None
               (MkAnalysisProviderSpec "" "" None) []) TrafficRoutingUnset None None).
  destruct (StepLadder_well_formed
              (MkCanarySpec None [] None
                 (MkAnalysisSpec None None None None None None InconclusiveUnset None None
                    (MkAnalysisProviderSpec "" "" None) []) TrafficRoutingUnset None None))
    as (out & H & _); [cbn; lia|cbn; lia|].
  exists out. split; [exact H|]. vm_compute in H. by injection H as <-.
Defined.

End v1alpha1.
