(* ===== verification/Metrics.v ===== *)
(** * Metric names and histogram buckets (internal/metrics)

    The names and labels shared by the shim that emits the series and the
    controller that queries them, and the snapping of a latency objective to a
    histogram boundary. *)

From S2P Require Import Prelude GoFloat.
Local Open Scope Z_scope.
Local Open Scope go_scope.

Module metrics.

Definition Prefix : string := "llmcp".
Definition RequestsStartedTotal : string := Prefix +:+ "_inference_requests_started_total".
Definition RequestsTotal : string := Prefix +:+ "_inference_requests_total".
Definition RequestDurationSeconds : string := Prefix +:+ "_inference_request_duration_seconds".
Definition TTFTSeconds : string := Prefix +:+ "_inference_ttft_seconds".
Definition TPOTSeconds : string := Prefix +:+ "_inference_tpot_seconds".
Definition OutputTokensTotal : string := Prefix +:+ "_inference_output_tokens_total".
Definition OutputChunksTotal : string := Prefix +:+ "_inference_output_chunks_total".
Definition InterChunkSeconds : string := Prefix +:+ "_inference_inter_chunk_seconds".
Definition ReportedOutputTokensTotal : string := Prefix +:+ "_inference_reported_output_tokens_total".
Definition UsageRequestsTotal : string := Prefix +:+ "_inference_usage_requests_total".
Definition RequestsInFlight : string := Prefix +:+ "_inference_requests_in_flight".
Definition QueueDepth : string := Prefix +:+ "_inference_queue_depth".
Definition UpstreamErrorsTotal : string := Prefix +:+ "_shim_upstream_errors_total".
Definition ShimInfo : string := Prefix +:+ "_shim_info".
Definition CanaryPromotionsTotal : string := Prefix +:+ "_canary_promotions_total".
Definition CanaryRollbacksTotal : string := Prefix +:+ "_canary_rollbacks_total".
Definition CanaryCurrentWeight : string := Prefix +:+ "_canary_current_weight".
Definition CanaryDesiredWeight : string := Prefix +:+ "_canary_desired_weight".
Definition CanaryFailedChecks : string := Prefix +:+ "_canary_failed_checks".
Definition AnalysisVerdictsTotal : string := Prefix +:+ "_analysis_verdicts_total".
Definition AnalysisCheckDurationSeconds : string := Prefix +:+ "_analysis_check_duration_seconds".
Definition AutoscaleDesiredReplicas : string := Prefix +:+ "_autoscale_desired_replicas".
Definition LabelModel : string := "model".
Definition LabelVariant : string := "variant".
Definition LabelOperation : string := "operation".
Definition LabelCode : string := "code".
Definition LabelReason : string := "reason".
Definition LabelNamespace : string := "namespace".
Definition LabelName : string := "name".
Definition LabelModelDeployment : string := "model_deployment".
Definition LabelVerdict : string := "verdict".
Definition OperationChat : string := "chat.completions".
Definition OperationCompletion : string := "completions".
Definition OperationEmbeddings : string := "embeddings".
Definition OperationModels : string := "models".
Definition OperationOther : string := "other".
Definition ReasonUnreachable : string := "unreachable".
Definition ReasonStreamAborted : string := "stream_aborted".
Definition ReasonClientCanceled : string := "client_canceled".

Definition NormalizeOperation (path : string) : string :=
  if path == "/v1/chat/completions" then OperationChat
  else if path == "/v1/completions" then OperationCompletion
  else if path == "/v1/embeddings" then OperationEmbeddings
  else if path == "/v1/models" then OperationModels
  else OperationOther.

(** ** Buckets *)

(** The float literal [n/d]: division rounds to the nearest float, as the
    compiler rounds a decimal literal. *)
Definition lit (n d : Z) : f64.t := f64.div (f64.of_Z n) (f64.of_Z d).

Definition TTFTBuckets : list f64.t :=
  [lit 10 1000; lit 25 1000; lit 50 1000; lit 1 10; lit 15 100; lit 25 100; lit 4 10; lit 6 10;
   lit 8 10; lit 1 1; lit 15 10; lit 2 1; lit 3 1; lit 5 1; lit 75 10; lit 10 1; lit 15 1;
   lit 20 1; lit 30 1].

Definition DurationBuckets : list f64.t :=
  [lit 5 100; lit 1 10; lit 25 100; lit 5 10; lit 1 1; lit 2 1; lit 3 1; lit 5 1; lit 75 10;
   lit 10 1; lit 15 1; lit 20 1; lit 30 1; lit 45 1; lit 60 1; lit 120 1].

Definition TPOTBuckets : list f64.t :=
  [lit 1 1000; lit 25 10000; lit 5 1000; lit 1 100; lit 2 100; lit 35 1000; lit 5 100;
   lit 75 1000; lit 1 10; lit 15 100; lit 25 100; lit 5 10; lit 1 1; lit 25 10].

(** [cmp.Less] on floats, and [==]. *)
Definition cmpLess (x y : f64.t) : bool := (f64.IsNaN x && negb (f64.IsNaN y)) || f64.ltb x y.

Definition float_eq (x y : f64.t) : bool := SpecFloat.SFeqb x y.

(** The loop of [slices.BinarySearch]: the least index in [[i, j)] whose element
    is not less than the target. *)
Fixpoint bsearch (fuel : nat) (i j : nat) (less : nat -> bool) : nat :=
  match fuel with
  | O => i
  | S f =>
      if (i <? j)%nat then
        let h := ((i + j) / 2)%nat in
        if less h then bsearch f (h + 1) j less else bsearch f i h less
      else i
  end.

(** [x[k]], only used inside the bounds. *)
Definition elem_at (x : list f64.t) (k : nat) : f64.t := from_ptr f64.zero (x !! k).

Definition BinarySearch (x : list f64.t) (target : f64.t) : nat * bool :=
  let n := length x in
  let i := bsearch (S n) 0 n (fun h => cmpLess (elem_at x h) target) in
  (i, (i <? n)%nat
      && (float_eq (elem_at x i) target || (f64.IsNaN (elem_at x i) && f64.IsNaN target))).

Definition SnapToBucket (threshold : f64.t) (buckets : list f64.t) : f64.t * bool :=
  match buckets with
  | [] => (threshold, false)
  | _ =>
      let (idx, exact) := BinarySearch buckets threshold in
      if exact then (threshold, false)
      else if (length buckets <=? idx)%nat
      then (elem_at buckets (length buckets - 1), true)
      else (elem_at buckets idx, true)
  end.

(** ** Binary search *)

Lemma bsearch_spec n fuel i j less :
  (j - i < fuel)%nat -> (i <= j <= n)%nat ->
  (forall a b, (a <= b < n)%nat -> less b = true -> less a = true) ->
  let k := bsearch fuel i j less in
  (i <= k <= j)%nat /\ (forall a, (i <= a < k)%nat -> less a = true)
  /\ (forall a, (k <= a < j)%nat -> less a = false).
Proof.
  intros Hf Hij Hmono. revert i j Hf Hij. induction fuel as [|f IH]; intros i j Hf Hij; [lia|].
  cbn [bsearch]. destruct (Nat.ltb_spec i j) as [Hlt|Hge].
  - set (h := ((i + j) / 2)%nat). assert (i <= h < j)%nat.
    { subst h. pose proof (Nat.div_mod_eq (i + j) 2). pose proof (Nat.mod_upper_bound (i + j) 2).
      lia. }
    destruct (less h) eqn:E.
    + destruct (IH (h + 1)%nat j) as (A & B & C); try lia. split; [lia|]. split; [|done].
      intros a Ha. destruct (Nat.le_gt_cases a h) as [H1|H1]; [apply (Hmono a h); done || lia|].
      apply B. lia.
    + destruct (IH i h) as (A & B & C); try lia. split; [lia|]. split; [done|].
      intros a Ha. destruct (Nat.lt_ge_cases a h) as [H1|H1]; [apply C; lia|].
      destruct (less a) eqn:Ea; [|done]. by rewrite (Hmono h a) in E by (done || lia).
  - split; [lia|]. split; intros; lia.
Qed.

Lemma SnapToBucket_nonempty t buckets :
  buckets <> [] ->
  SnapToBucket t buckets =
  let (idx, exact) := BinarySearch buckets t in
  if exact then (t, false)
  else if (length buckets <=? idx)%nat then (elem_at buckets (length buckets - 1), true)
  else (elem_at buckets idx, true).
Proof. by destruct buckets. Qed.

(** A canonical finite float. *)
Definition ordinary (x : f64.t) : Prop := f64.valid x /\ f64.is_finite x = true.

Lemma cmpLess_ordinary x y : ordinary x -> cmpLess x y = f64.ltb x y.
Proof. intros [_ H]. unfold cmpLess. by destruct x. Qed.

Lemma ordinary_trans x y z :
  ordinary x -> ordinary y -> ordinary z -> f64.ltb x y = true -> f64.ltb y z = true ->
  f64.ltb x z = true.
Proof.
  intros [Vx Fx] [Vy Fy] [Vz Fz]. rewrite !ltb_toQ by done. apply QArith_base.Qlt_trans.
Qed.

Lemma ordinary_not_NaN x : ordinary x -> f64.IsNaN x = false.
Proof. intros [_ H]. by destruct x. Qed.

Lemma ordinary_cases x y :
  ordinary x -> ordinary y -> f64.ltb x y = false -> float_eq x y = false -> f64.ltb y x = true.
Proof.
  intros Hx%ordinary_not_NaN Hy%ordinary_not_NaN Hlt Heq.
  pose proof (leb_negb_ltb x y Hx Hy) as Hn.
  destruct (f64.ltb y x) eqn:E; [done|]. exfalso. revert Hn Hlt Heq.
  unfold float_eq, f64.leb, f64.ltb, SpecFloat.SFeqb, SpecFloat.SFleb, SpecFloat.SFltb.
  destruct (SpecFloat.SFcompare x y) as [[]|]; done.
Qed.

(** ** Properties *)

(** An objective is snapped to the least boundary that is not below it.
    For strictly increasing finite buckets and a finite threshold, the binary
    search of [SnapToBucket] returns a boundary not below the threshold such
    that every boundary below it is below the threshold; when the threshold is
    above all of them it returns the last one; and it reports a change exactly
    when the threshold is not itself a boundary. *)
Theorem SnapToBucket_least threshold buckets :
  ordinary threshold -> Forall ordinary buckets -> buckets <> [] ->
  StronglySorted (fun x y => f64.ltb x y = true) buckets ->
  exists k b, buckets !! k = Some b
  /\ (forall a x, (a < k)%nat -> buckets !! a = Some x -> f64.ltb x threshold = true)
  /\ let (snapped, changed) := SnapToBucket threshold buckets in
     (if changed then snapped = b /\ (f64.ltb threshold b = true
                                      \/ k = (length buckets - 1)%nat /\ f64.ltb b threshold = true)
      else snapped = threshold /\ float_eq b threshold = true).
Proof.
  intros Ht Hall Hne Hs.
  assert (Hord : forall k x, buckets !! k = Some x -> ordinary x).
  { intros k x Hk. rewrite Forall_lookup in Hall. by eapply Hall. }
  assert (Hlt : forall a b x y, (a < b)%nat -> buckets !! a = Some x -> buckets !! b = Some y ->
                 f64.ltb x y = true).
  { clear -Hs. intros a b x y Hab. revert a b Hab.
    induction Hs as [|z l Hs IH Hz]; intros a b Hab Ha Hb; [done|].
    destruct b as [|b]; [lia|]. destruct a as [|a]; cbn in *.
    - simplify_eq. rewrite Forall_lookup in Hz. by eapply Hz.
    - apply (IH a b); auto with lia. }
  set (n := length buckets). set (at_ := elem_at buckets).
  assert (Hat : forall k, (k < n)%nat -> buckets !! k = Some (at_ k)).
  { intros k Hk. destruct (lookup_lt_is_Some_2 buckets k Hk) as [x Hx]. subst at_. unfold elem_at. by rewrite Hx. }
  assert (Hn : (0 < n)%nat) by (subst n; destruct buckets; cbn; done || lia).
  set (less := fun h => cmpLess (at_ h) threshold).
  assert (Hless : forall k, (k < n)%nat -> less k = f64.ltb (at_ k) threshold).
  { intros k Hk. subst less. cbn. apply cmpLess_ordinary. eapply Hord, Hat, Hk. }
  destruct (bsearch_spec n (S n) 0 n less) as (Hk & Hbelow & Habove); [lia|lia| |].
  { intros a b Hab Hb. rewrite Hless in * by lia.
    destruct (decide (a = b)) as [->|]; [done|].
    eapply (ordinary_trans _ (at_ b)); eauto with lia.
    eapply Hlt; [|apply Hat; lia|apply Hat; lia]. lia. }
  rewrite (SnapToBucket_nonempty _ _ Hne). unfold BinarySearch. cbv zeta. set (k := bsearch (S n) 0 n less) in *.
  change (bsearch (S (length buckets)) 0 (length buckets)
            (fun h => cmpLess (elem_at buckets h) threshold)) with k.
  change (length buckets) with n. change (elem_at buckets) with at_.
  assert (Hblw : forall a x, (a < k)%nat -> buckets !! a = Some x -> f64.ltb x threshold = true).
  { intros a x Ha Hx. rewrite Hat in Hx by lia. injection Hx as <-.
    rewrite <- Hless by lia. apply Hbelow. lia. }
  assert (Hnan : f64.IsNaN threshold = false) by (by apply ordinary_not_NaN).
  rewrite Hnan, andb_false_r, orb_false_r.
  destruct (Nat.ltb_spec k n) as [Hkn|Hkn]; cbn [andb].
  - exists k, (at_ k). split; [by apply Hat|]. split; [done|].
    destruct (float_eq (at_ k) threshold) eqn:Eq; [done|].
    rewrite (proj2 (Nat.leb_gt n k)) by lia. split; [done|]. left.
    apply ordinary_cases; try done; [eapply Hord, Hat, Hkn|]. rewrite <- Hless by lia.
    apply Habove. lia.
  - rewrite (proj2 (Nat.leb_le n k)) by lia.
    exists (n - 1)%nat, (at_ (n - 1)%nat). split; [apply Hat; lia|]. split; [|split; [done|right]].
    + intros a x Ha. apply Hblw. lia.
    + split; [done|]. apply (Hblw (n - 1)%nat); [lia|apply Hat; lia].
Qed.

Lemma SnapToBucket_least_witness :
  exists k b, TTFTBuckets !! k = Some b
  /\ (forall a x, (a < k)%nat -> TTFTBuckets !! a = Some x -> f64.ltb x (lit 1 2) = true)
  /\ let (snapped, changed) := SnapToBucket (lit 1 2) TTFTBuckets in
     (if changed then snapped = b /\ (f64.ltb (lit 1 2) b = true
                        \/ k = (length TTFTBuckets - 1)%nat /\ f64.ltb b (lit 1 2) = true)
      else snapped = lit 1 2 /\ float_eq b (lit 1 2) = true).
Proof.
  apply (SnapToBucket_least (lit 1 2) TTFTBuckets); [by split| |done|];
    repeat constructor; vm_compute; reflexivity.
Defined.

End metrics.
