(* ===== verification/Naming.v ===== *)
(** * Names, labels and ports (internal/naming)

    Every name the operator gives to a child object.  The only subtle function
    is [withSuffix], which keeps a name within 63 characters by truncating it
    and inserting a digest.  [SafeEncodeString] is the encoder of
    k8s.io/apimachinery/pkg/util/rand: a parameter, of which the lemmas use only
    that it keeps the length. *)

From S2P Require Import Prelude GoFmt ApiTypes.
Import v1alpha1.
Local Open Scope Z_scope.
Local Open Scope go_scope.

Module naming.

Definition Domain : string := "llmcp.io".
Definition AppName : string := "llmcp".
Definition ManagedBy : string := "llmcp-controller".
Definition FieldManager : string := "llmcp-controller".

Definition LabelName : string := "app.kubernetes.io/name".
Definition LabelInstance : string := "app.kubernetes.io/instance".
Definition LabelManagedBy : string := "app.kubernetes.io/managed-by".
Definition LabelComponent : string := "app.kubernetes.io/component".
Definition GrafanaDashboardLabel : string := "grafana_dashboard".
Definition GrafanaDashboardValue : string := "1".
Definition GrafanaFolderAnnotation : string := "grafana_folder".
Definition GrafanaFolder : string := "LLM Inference".
Definition LabelModelDeployment : string := Domain +:+ "/model-deployment".
Definition LabelVariant : string := Domain +:+ "/variant".
Definition LabelRevision : string := Domain +:+ "/revision".
Definition AnnoPromote : string := Domain +:+ "/promote".
Definition AnnoAbort : string := Domain +:+ "/abort".
Definition ComponentInferenceServer : string := "inference-server".
Definition ShimContainerName : string := "shim".

Definition ServicePort : Z := 8080.
Definition EnginePort : Z := 8000.
Definition ShimPort : Z := 8080.
Definition ShimMetricsPort : Z := 9090.
Definition PortNameHTTP : string := "http".
Definition PortNameEngine : string := "engine".
Definition PortNameMetrics : string := "metrics".
Definition ShimHealthPath : string := "/llmcp/healthz".
Definition ShimLivePath : string := "/llmcp/livez".
Definition ShimMetricsPath : string := "/metrics".

Definition maxNameLen : Z := 63.

(** [len(s)]: the number of bytes. *)
Definition len (s : string) : Z := Z.of_nat (String.length s).

(** ** Labels *)

Definition CommonLabels (mdName : string) : gmap string string :=
  <[LabelName := AppName]> (<[LabelInstance := mdName]> (<[LabelManagedBy := ManagedBy]>
    (<[LabelComponent := ComponentInferenceServer]> (<[LabelModelDeployment := mdName]> ∅)))).

Definition SelectorLabels (mdName : string) (variant : Variant) : gmap string string :=
  <[LabelModelDeployment := mdName]> (<[LabelVariant := variant_string variant]> ∅).

Definition PodLabels (mdName : string) (variant : Variant) (revision : string) :
    gmap string string :=
  let labels := SelectorLabels mdName variant ∪ CommonLabels mdName in
  if revision != "" then <[LabelRevision := revision]> labels else labels.

Definition ServiceSelector (mdName : string) : gmap string string :=
  <[LabelModelDeployment := mdName]> ∅.

Definition VariantServiceSelector (mdName : string) (variant : Variant) : gmap string string :=
  SelectorLabels mdName variant.

(** ** Names *)

(** [fnv.New32a]: FNV-1a over the bytes. *)
Fixpoint fnv32a (h : N) (s : string) : N :=
  match s with
  | EmptyString => h
  | String c s' => fnv32a ((N.lxor h (Ascii.N_of_ascii c) * 16777619) mod 4294967296)%N s'
  end.

Definition Sum32 (s : string) : N := fnv32a 2166136261 s.

(** [strings.TrimRight(s, "-")]. *)
Fixpoint TrimRight_dash (s : string) : string :=
  match s with
  | EmptyString => EmptyString
  | String c s' =>
      match TrimRight_dash s' with
      | EmptyString => if c == "-"%char then EmptyString else String c EmptyString
      | t => String c t
      end
  end.

Section Names.
Context (SafeEncodeString : string -> string).

(** [name[:keep]] is in range for the non-empty names Kubernetes admits. *)
Definition withSuffix (name suffix : string) : string :=
  if len name + len suffix <=? maxNameLen then name +:+ suffix
  else
    let digest := SafeEncodeString (format_int (Z.of_N (Sum32 name))) in
    let digest := if 8 <? len digest then gofmt.str_take 8 digest else digest in
    let maxSuffix := maxNameLen - len digest - 2 in
    let suffix :=
      if maxSuffix <? len suffix then gofmt.str_take (Z.to_nat maxSuffix) suffix else suffix in
    let keep := Z.min (maxNameLen - len suffix - len digest - 1) (len name) in
    let keep := Z.max keep 1 in
    TrimRight_dash (gofmt.str_take (Z.to_nat keep) name +:+ "-" +:+ digest +:+ suffix).

Definition PrimaryDeployment (mdName : string) : string := withSuffix mdName "-primary".
Definition CanaryDeployment (mdName : string) : string := withSuffix mdName "-canary".

Definition DeploymentFor (mdName : string) (variant : Variant) : string :=
  match variant with
  | VariantCanary => CanaryDeployment mdName
  | _ => PrimaryDeployment mdName
  end.

Definition Service (mdName : string) : string := withSuffix mdName "".
Definition MetricsService (mdName : string) : string := withSuffix mdName "-metrics".
Definition ServiceMonitor (mdName : string) : string := withSuffix mdName "".
Definition PrometheusRule (mdName : string) : string := withSuffix mdName "-slo".
Definition ControllerRevision (mdName revision : string) : string :=
  withSuffix mdName ("-" +:+ revision).

Definition Endpoint (mdName namespace : string) (port : Z) : string :=
  let port := if port =? 0 then ServicePort else port in
  "http://" +:+ Service mdName +:+ "." +:+ namespace +:+ ".svc:" +:+ format_int port +:+ "/v1".

End Names.

(** ** Lemmas *)

Lemma len_nonneg s : 0 <= len s.
Proof. unfold len. lia. Qed.

Lemma len_app s t : len (s +:+ t) = len s + len t.
Proof.
  unfold len. induction s as [|c s IH]; [done|].
  change (String.length (String c s +:+ t)) with (S (String.length (s +:+ t))).
  change (String.length (String c s)) with (S (String.length s)). lia.
Qed.

Lemma str_take_cons n c s : gofmt.str_take (S n) (String c s) = String c (gofmt.str_take n s).
Proof. done. Qed.

Lemma len_take n s : len (gofmt.str_take n s) = Z.min (Z.of_nat n) (len s).
Proof.
  revert s. induction n as [|n IH]; intros [|c s]; unfold len in *; cbn [String.length]; try done.
  rewrite str_take_cons. cbn [String.length]. specialize (IH s). lia.
Qed.

Lemma TrimRight_len s : len (TrimRight_dash s) <= len s.
Proof.
  induction s as [|c s IH]; [done|]. unfold len in *. cbn [TrimRight_dash].
  destruct (TrimRight_dash s); cbn [String.length] in *; [destruct (_ == _); cbn; lia|lia].
Qed.

(** A text that ends with another character than a dash is left alone. *)
Lemma TrimRight_keep s c : c <> "-"%char -> TrimRight_dash (s +:+ String c "") = s +:+ String c "".
Proof.
  intros Hc. induction s as [|d s IH].
  - change ("" +:+ String c "") with (String c ""). cbn. by rewrite bool_decide_eq_false_2.
  - change (TrimRight_dash (String d s +:+ String c ""))
      with (match TrimRight_dash (s +:+ String c "") with
            | EmptyString => if d == "-"%char then EmptyString else String d EmptyString
            | t => String d t
            end).
    rewrite IH. by destruct s.
Qed.

Lemma app_assoc_str (a b c : string) : (a +:+ b) +:+ c = a +:+ (b +:+ c).
Proof.
  induction a as [|x a IH]; [done|].
  change (String x ((a +:+ b) +:+ c) = String x (a +:+ (b +:+ c))). by rewrite IH.
Qed.

(** The last six bytes of a longer text are those of its tail. *)
Definition tail6 (s : string) : string := gofmt.str_drop (String.length s - 6) s.

Lemma substring_all b : String.substring 0 (String.length b) b = b.
Proof. induction b as [|d b IH]; cbn; [done|]. by rewrite IH. Qed.

Lemma str_drop_app a b : gofmt.str_drop (String.length a) (a +:+ b) = b.
Proof.
  unfold gofmt.str_drop. induction a as [|c a IH]; [|exact IH].
  change ("" +:+ b) with b. cbn [String.length]. rewrite Nat.sub_0_r. apply substring_all.
Qed.

Lemma tail6_app a b : String.length b = 6%nat -> tail6 (a +:+ b) = b.
Proof.
  intros Hb. unfold tail6. pose proof (len_app a b) as H. unfold len in H.
  replace (String.length (a +:+ b) - 6)%nat with (String.length a) by lia. apply str_drop_app.
Qed.

Section Laws.
Context (SafeEncodeString : string -> string).

(** The shape of an over-long name. *)
Lemma withSuffix_long name suffix :
  maxNameLen < len name + len suffix ->
  exists digest, len digest <= 8
  /\ let suffix' := if maxNameLen - len digest - 2 <? len suffix
                    then gofmt.str_take (Z.to_nat (maxNameLen - len digest - 2)) suffix else suffix in
     withSuffix SafeEncodeString name suffix
     = TrimRight_dash (gofmt.str_take (Z.to_nat (Z.max (Z.min (maxNameLen - len suffix' - len digest - 1)
                                                        (len name)) 1)) name
                         +:+ "-" +:+ digest +:+ suffix').
Proof.
  intros H. unfold withSuffix. rewrite (proj2 (Z.leb_gt _ _) H). cbv zeta.
  set (e := SafeEncodeString _).
  exists (if 8 <? len e then gofmt.str_take 8 e else e). split; [|done].
  destruct (Z.ltb_spec 8 (len e)); [rewrite len_take|]; lia.
Qed.

Lemma withSuffix_ends name suffix c :
  len suffix <= 40 -> c <> "-"%char -> (exists pre, suffix = pre +:+ String c "") ->
  exists pre, withSuffix SafeEncodeString name suffix = pre +:+ suffix.
Proof.
  intros Hs Hc [pre ->]. set (suf := pre +:+ String c "") in *.
  destruct (Z.le_gt_cases (len name + len suf) maxNameLen) as [Hle|Hgt].
  - unfold withSuffix. rewrite (proj2 (Z.leb_le _ _) Hle). by exists name.
  - destruct (withSuffix_long name suf Hgt) as (digest & Hd & ->).
    rewrite (proj2 (Z.ltb_ge _ _)) by (unfold maxNameLen; lia).
    set (head := gofmt.str_take _ name).
    assert (E : head +:+ "-" +:+ digest +:+ suf = (head +:+ "-" +:+ digest +:+ pre) +:+ String c "").
    { subst suf. by rewrite !app_assoc_str. }
    rewrite E, TrimRight_keep by done. exists (head +:+ "-" +:+ digest).
    subst suf. by rewrite !app_assoc_str.
Qed.

End Laws.

(** ** Properties *)

(** Every generated name is a valid length.  Whatever the name, the suffix
    and the digest encoder, [withSuffix] returns at most 63 characters, and it
    returns the plain concatenation whenever that already fits. *)
Theorem withSuffix_length enc name suffix :
  len (withSuffix enc name suffix) <= 63
  /\ (len name + len suffix <= 63 -> withSuffix enc name suffix = name +:+ suffix).
Proof.
  destruct (Z.le_gt_cases (len name + len suffix) maxNameLen) as [Hle|Hgt].
  - unfold withSuffix. rewrite (proj2 (Z.leb_le _ _) Hle), len_app. split; [done|done].
  - split; [|unfold maxNameLen in Hgt; lia].
    destruct (withSuffix_long enc name suffix Hgt) as (digest & Hd & ->).
    etransitivity; [apply TrimRight_len|]. rewrite !len_app, len_take.
    pose proof (len_nonneg digest). pose proof (len_nonneg suffix). pose proof (len_nonneg name).
    change (len "-") with 1. unfold maxNameLen in *.
    destruct (Z.ltb_spec (63 - len digest - 2) (len suffix)); rewrite ?len_take; lia.
Qed.

(** The variants never share a Deployment.  For every ModelDeployment name,
    however long, the primary and canary Deployment names differ, so applying
    one variant never overwrites the other. *)
Theorem variant_names_differ enc name : PrimaryDeployment enc name <> CanaryDeployment enc name.
Proof.
  unfold PrimaryDeployment, CanaryDeployment.
  destruct (withSuffix_ends enc name "-primary" "y"%char) as [a Ha]; [done|done|by exists "-primar"|].
  destruct (withSuffix_ends enc name "-canary" "y"%char) as [b Hb]; [done|done|by exists "-canar"|].
  rewrite Ha, Hb. intros E. apply (f_equal tail6) in E.
  change "-primary" with ("-p" +:+ "rimary") in E. change "-canary" with ("-" +:+ "canary") in E.
  rewrite <- !app_assoc_str, !tail6_app in E by done. discriminate E.
Qed.

End naming.
