(* ===== verification/CanaryWeights.v ===== *)
(** * Replica-based traffic splitting (internal/canary/weights.go)

    [Split] divides a replica total between the two variants, [RealizedWeight]
    is the share the division achieves, [IsQuantized] tells when the two
    differ by more than a point.  The lemmas characterise the split exactly
    (the least canary count that reaches the weight, leaving the primary one
    replica) and bound the quantisation error. *)

From S2P Require Import Prelude.
Local Open Scope Z_scope.
Local Open Scope go_scope.

Module weights.

Definition Split (total weight : Z) : Z * Z :=
  if total <=? 0 then (0, 0)
  else if weight <=? 0 then (total, 0)
  else if 100 <=? weight then (0, total)
  else
    let canary := wrap32 (Z.quot (total * weight + 99) 100) in
    let canary := Z.max canary 1 in
    let canary := if total <=? canary then wrap32 (total - 1) else canary in
    let canary := Z.max canary 0 in
    (wrap32 (total - canary), canary).

Definition RealizedWeight (primary canary : Z) : Z :=
  let total := wrap32 (primary + canary) in
  if total <=? 0 then 0
  else wrap32 (Z.quot (wrap64 (canary * 100 + Z.quot total 2)) total).

Definition IsQuantized (desired realized : Z) : bool :=
  let d := wrap32 (desired - realized) in
  let d := if d <? 0 then wrap32 (- d) else d in
  1 <? d.

(** The reference the optimised arithmetic is compared with: the least number
    of canary replicas whose share of the total is at least the weight, but
    never the whole fleet. *)
Definition canary_count (total weight : Z) : Z :=
  Z.min (- ((- (total * weight)) / 100)) (total - 1).

(** ** The split against its reference *)

Lemma quot_ceil a : 0 <= a -> Z.quot (a + 99) 100 = - ((- a) / 100).
Proof.
  intros H. rewrite Z.quot_div_nonneg by lia.
  pose proof (Z.div_mod (a + 99) 100). pose proof (Z.mod_pos_bound (a + 99) 100).
  pose proof (Z.div_mod (- a) 100). pose proof (Z.mod_pos_bound (- a) 100). lia.
Qed.

Lemma Split_interior total weight :
  int32_ok total -> 1 <= total -> 0 < weight < 100 ->
  Split total weight = (total - canary_count total weight, canary_count total weight).
Proof.
  intros Hok Ht Hw. unfold Split, canary_count.
  assert (Hm : 1 * 1 <= total * weight) by (apply Z.mul_le_mono_nonneg; lia).
  assert (HM : total * weight <= total * 99) by (apply Z.mul_le_mono_nonneg_l; lia).
  rewrite quot_ceil by lia.
  pose proof (Z.div_mod (- (total * weight)) 100).
  pose proof (Z.mod_pos_bound (- (total * weight)) 100).
  set (q := - (total * weight) / 100) in *.
  rewrite (wrap32_id (- q)) by go_lia. rewrite (wrap32_id (total - 1)) by go_lia.
  repeat go_split1; go_bools; try lia;
    rewrite wrap32_id by go_lia; f_equal; lia.
Qed.

(** [canary_count] is pinned down by these bounds. *)
Lemma canary_count_spec total weight :
  1 <= total -> 0 < weight < 100 ->
  let c := canary_count total weight in
  0 <= c < total /\ 100 * (c - 1) < total * weight
  /\ (total * weight <= 100 * c \/ c = total - 1) /\ (1 < total -> 1 <= c).
Proof.
  intros Ht Hw. unfold canary_count.
  assert (Hm : 1 * 1 <= total * weight) by (apply Z.mul_le_mono_nonneg; lia).
  assert (HM : total * weight <= total * 99) by (apply Z.mul_le_mono_nonneg_l; lia).
  pose proof (Z.div_mod (- (total * weight)) 100).
  pose proof (Z.mod_pos_bound (- (total * weight)) 100).
  cbv zeta. lia.
Qed.

(** Case analysis over [Split], with the interior already characterised. *)
Lemma Split_cases total weight :
  int32_ok total ->
  (total <= 0 /\ Split total weight = (0, 0))
  \/ (1 <= total /\ weight <= 0 /\ Split total weight = (total, 0))
  \/ (1 <= total /\ 100 <= weight /\ Split total weight = (0, total))
  \/ (1 <= total /\ 0 < weight < 100
      /\ Split total weight = (total - canary_count total weight, canary_count total weight)).
Proof.
  intros Hok.
  destruct (Z.le_gt_cases total 0) as [H0|H0].
  { left. split; [done|]. unfold Split. destruct (Z.leb_spec total 0); [done|lia]. }
  right. assert (1 <= total) by lia.
  destruct (Z.le_gt_cases weight 0) as [Hw|Hw].
  { left. repeat split; try done. unfold Split.
    destruct (Z.leb_spec total 0), (Z.leb_spec weight 0); done || lia. }
  right. destruct (Z.le_gt_cases 100 weight) as [Hw2|Hw2].
  { left. repeat split; try done. unfold Split.
    destruct (Z.leb_spec total 0), (Z.leb_spec weight 0), (Z.leb_spec 100 weight); done || lia. }
  right. repeat split; try done. by apply Split_interior.
Qed.

Lemma Split_sum total weight p c :
  int32_ok total -> 0 <= total -> Split total weight = (p, c) -> p + c = total.
Proof.
  intros Hok H0 H.
  destruct (Split_cases total weight Hok) as [[? E]|[(? & ? & E)|[(? & ? & E)|(? & ? & E)]]];
    rewrite E in H; injection H as <- <-; lia.
Qed.

Lemma Split_bounds total weight p c :
  int32_ok total -> 0 <= total -> Split total weight = (p, c) -> 0 <= p <= total /\ 0 <= c <= total.
Proof.
  intros Hok H0 H.
  destruct (Split_cases total weight Hok) as [[? E]|[(? & ? & E)|[(? & ? & E)|(? & ? & E)]]];
    rewrite E in H; injection H as <- <-; try lia.
  pose proof (canary_count_spec total weight ltac:(lia) ltac:(lia)). cbv zeta in *. lia.
Qed.

(** A canary with no pods: the total is too small, or the weight asks for none. *)
Lemma Split_canary_zero total weight :
  int32_ok total -> 0 < weight -> snd (Split total weight) = 0 -> total <= 1.
Proof.
  intros Hok Hw H.
  destruct (Split_cases total weight Hok) as [[? E]|[(? & ? & E)|[(? & ? & E)|(? & ? & E)]]];
    rewrite E in H; cbn in H; try lia.
  pose proof (canary_count_spec total weight ltac:(lia) ltac:(lia)). cbv zeta in *. lia.
Qed.

(** Below a weight of 100 the primary keeps a replica. *)
Lemma Split_primary total weight :
  int32_ok total -> 1 <= total -> weight < 100 -> 1 <= fst (Split total weight).
Proof.
  intros Hok H1 Hw.
  destruct (Split_cases total weight Hok) as [[? E]|[(? & ? & E)|[(? & ? & E)|(? & ? & E)]]];
    rewrite E; cbn; try lia.
  pose proof (canary_count_spec total weight ltac:(lia) ltac:(lia)). cbv zeta in *. lia.
Qed.

Lemma RealizedWeight_eq p c :
  int32_ok p -> int32_ok c -> 0 <= p -> 0 <= c -> 0 < p + c <= int32_max ->
  RealizedWeight p c = (100 * c + (p + c) / 2) / (p + c) /\ 0 <= RealizedWeight p c <= 100.
Proof.
  intros Hp Hc Hp0 Hc0 Hs. unfold RealizedWeight.
  rewrite (wrap32_id (p + c)) by go_lia.
  destruct (Z.leb_spec (p + c) 0); [lia|].
  rewrite Z.quot_div_nonneg with (b := 2) by lia.
  pose proof (Z.div_mod (p + c) 2). pose proof (Z.mod_pos_bound (p + c) 2).
  rewrite wrap64_id by go_lia. rewrite Z.quot_div_nonneg by lia.
  replace (c * 100) with (100 * c) by lia.
  set (t := p + c) in *. set (n := 100 * c + t / 2) in *.
  pose proof (Z.div_mod n t). pose proof (Z.mod_pos_bound n t).
  assert (0 <= n / t <= 100).
  { split; [apply Z.div_pos; lia|]. apply Z.lt_succ_r, Z.div_lt_upper_bound; lia. }
  rewrite wrap32_id by go_lia. lia.
Qed.

(** Rounding to the nearest percent: the share is off by at most half a point. *)
Lemma RealizedWeight_round p c :
  int32_ok p -> int32_ok c -> 0 <= p -> 0 <= c -> 0 < p + c <= int32_max ->
  2 * Z.abs (RealizedWeight p c * (p + c) - 100 * c) <= p + c.
Proof.
  intros Hp Hc Hp0 Hc0 Hs.
  destruct (RealizedWeight_eq p c) as [-> _]; try done.
  set (t := p + c) in *.
  pose proof (Z.div_mod t 2). pose proof (Z.mod_pos_bound t 2).
  pose proof (Z.div_mod (100 * c + t / 2) t). pose proof (Z.mod_pos_bound (100 * c + t / 2) t).
  lia.
Qed.

(** ** Properties *)

(** The three invariants the source documents for [Split]: the two counts
    add up to the total exactly; a positive weight over more than one replica
    gives the canary a pod; a weight under 100 leaves the primary one. *)
Theorem Split_invariants total weight :
  int32_ok total -> 1 <= total ->
  let (primary, canary) := Split total weight in
  primary + canary = total /\ 0 <= primary <= total /\ 0 <= canary <= total
  /\ (0 < weight -> 1 < total -> 1 <= canary) /\ (weight < 100 -> 1 <= primary).
Proof.
  intros Hok H1. destruct (Split total weight) as [p c] eqn:E.
  pose proof (Split_sum _ _ _ _ Hok ltac:(lia) E).
  pose proof (Split_bounds _ _ _ _ Hok ltac:(lia) E).
  repeat (split; [lia|]). split.
  - intros Hw Ht. destruct (Z.eq_dec c 0) as [->|]; [|lia].
    pose proof (Split_canary_zero total weight Hok Hw). rewrite E in *. cbn in *. lia.
  - intros Hw. pose proof (Split_primary total weight Hok H1 Hw). by rewrite E in *.
Qed.

Lemma Split_invariants_witness :
  int32_ok 3 /\ Split 3 20 = (2, 1) /\ 2 + 1 = 3.
Proof.
  split; [go_lia|]. split; [reflexivity|].
  pose proof (Split_invariants 3 20 ltac:(go_lia) ltac:(lia)) as H. cbn in H. apply H.
Defined.

(** Rounding is up and minimal.  Inside the ladder's range the canary count
    is the least one whose share reaches the requested weight, capped so that
    the primary keeps a replica; and a larger weight never gets fewer pods. *)
Theorem Split_least_count total weight weight' :
  int32_ok total -> 1 <= total -> 0 < weight <= weight' -> weight' < 100 ->
  let c := snd (Split total weight) in
  (forall k, 0 <= k < c -> 100 * k < total * weight)
  /\ (total * weight <= 100 * c \/ c = total - 1)
  /\ c <= snd (Split total weight').
Proof.
  intros Hok H1 Hw Hw'. rewrite !Split_interior by lia || done. cbn.
  pose proof (canary_count_spec total weight ltac:(lia) ltac:(lia)) as A.
  pose proof (canary_count_spec total weight' ltac:(lia) ltac:(lia)) as B.
  assert (total * weight <= total * weight') by (apply Z.mul_le_mono_nonneg_l; lia).
  cbv zeta in *. split; [intros k Hk|]; lia.
Qed.

Lemma Split_least_count_witness :
  snd (Split 3 20) <= snd (Split 3 50) /\ snd (Split 3 50) = 2.
Proof.
  split; [|reflexivity].
  apply (Split_least_count 3 20 50); go_lia.
Defined.

(** The quantisation error is bounded by the replica count: the realised
    share of a split differs from the requested weight by less than
    [100 / total + 1/2] points, so from 67 replicas on a split is never
    reported as quantised. *)
Theorem RealizedWeight_error total weight :
  int32_ok total -> 1 <= total -> 0 <= weight <= 100 ->
  let (primary, canary) := Split total weight in
  let r := RealizedWeight primary canary in
  0 <= r <= 100 /\ 2 * total * Z.abs (r - weight) < 200 + total
  /\ (67 <= total -> IsQuantized weight r = false).
Proof.
  intros Hok H1 Hw. destruct (Split total weight) as [p c] eqn:E. cbv zeta.
  pose proof (Split_sum _ _ _ _ Hok ltac:(lia) E) as Hs.
  pose proof (Split_bounds _ _ _ _ Hok ltac:(lia) E) as Hb.
  destruct (RealizedWeight_eq p c) as [_ Hr]; [go_lia..|].
  pose proof (RealizedWeight_round p c ltac:(go_lia) ltac:(go_lia) ltac:(lia) ltac:(lia) ltac:(go_lia))
    as Hround.
  set (r := RealizedWeight p c) in *. rewrite Hs in Hround.
  assert (Herr : Z.abs (100 * c - weight * total) < 100).
  { destruct (Split_cases total weight Hok) as [[? E']|[(? & ? & E')|[(? & ? & E')|(? & ? & E')]]];
      rewrite E' in E; injection E as <- <-;
      [lia | replace weight with 0 by lia; lia | replace weight with 100 by lia; lia |].
    pose proof (canary_count_spec total weight ltac:(lia) ltac:(lia)). cbv zeta in *.
    assert (total * weight <= total * 99) by (apply Z.mul_le_mono_nonneg_l; lia). lia. }
  assert (Hmain : 2 * total * Z.abs (r - weight) < 200 + total).
  { replace (2 * total * Z.abs (r - weight)) with (2 * Z.abs (r * total - weight * total)); [lia|].
    rewrite <- Z.mul_sub_distr_r, Z.abs_mul, (Z.abs_eq total) by lia. lia. }
  split; [done|]. split; [done|]. intros H67. unfold IsQuantized.
  assert (Z.abs (r - weight) <= 1) by nia.
  rewrite (wrap32_id (weight - r)) by go_lia.
  destruct (Z.ltb_spec (weight - r) 0); [rewrite wrap32_id by go_lia|]; apply Z.ltb_ge; lia.
Qed.

Lemma RealizedWeight_error_witness :
  RealizedWeight 2 1 = 33 /\ 2 * 3 * Z.abs (33 - 20) < 200 + 3.
Proof.
  split; [reflexivity|].
  pose proof (RealizedWeight_error 3 20 ltac:(go_lia) ltac:(lia) ltac:(lia)) as H.
  apply H.
Defined.

End weights.
