(* ===== verification/CanaryVerdict.v ===== *)
(** * Verdict aggregation and the three budgets (internal/canary/verdict.go)

    [Aggregate] collapses the checks of a round into one verdict; [counters]
    with [apply] is what a rollout spends on those verdicts.  The theorems
    relate the loop to the maximum of the ranks and the incremental counters to
    counts over the history of verdicts. *)

From S2P Require Import Prelude GoFloat ApiTypes.
Import v1alpha1.
Local Open Scope Z_scope.
Local Open Scope go_scope.

Module verdict.

(** [Round]: the outcome of one analysis pass. *)
Record Round := MkRound { rd_Verdict : Verdict; rd_Checks : list MetricCheck }.

Definition rank (v : Verdict) : Z :=
  match v with
  | VerdictPass => 0
  | VerdictInconclusive => 1
  | VerdictFail => 2
  | VerdictError => 3
  | VerdictOther _ => 4
  end.

(** The loop body of [Aggregate]. *)
Definition worse (worst : Verdict) (c : MetricCheck) : Verdict :=
  if rank worst <? rank (mc_Verdict c) then mc_Verdict c else worst.

Definition Aggregate (checks : list MetricCheck) : Round :=
  match checks with
  | [] => MkRound VerdictError []
  | _ => MkRound (foldl worse VerdictPass checks) checks
  end.

Record counters := MkCounters { failed : Z; consecErr : Z; consecInconcl : Z }.

Definition counters_zero : counters := MkCounters 0 0 0.

Definition apply (c : counters) (v : Verdict) : counters :=
  match v with
  | VerdictPass => MkCounters (failed c) 0 0
  | VerdictFail => MkCounters (wrap32 (failed c + 1)) 0 0
  | VerdictError => MkCounters (failed c) (wrap32 (consecErr c + 1)) (consecInconcl c)
  | VerdictInconclusive => MkCounters (failed c) 0 (wrap32 (consecInconcl c + 1))
  | VerdictOther _ => c
  end.

#[global] Instance counters_eq_dec : EqDecision counters.
Proof. solve_decision. Defined.

(** ** What the counters are meant to count *)

(** A verdict the API declares. *)
Definition declared (v : Verdict) : bool :=
  match v with VerdictOther _ => false | _ => true end.

Definition count (v : Verdict) (h : list Verdict) : Z :=
  Z.of_nat (length (filter (fun w => w = v) h)).

(** The part of a history after its last verdict that satisfies [p]. *)
Definition since (p : Verdict -> bool) (h : list Verdict) : list Verdict :=
  foldl (fun acc v => if p v then [] else acc ++ [v]) [] h.

(** Errors are forgiven by any answer of the provider, inconclusive rounds by
    any round that was judged, failures by nothing. *)
Definition answered (v : Verdict) : bool :=
  match v with VerdictPass | VerdictFail | VerdictInconclusive => true | _ => false end.
Definition judged (v : Verdict) : bool :=
  match v with VerdictPass | VerdictFail => true | _ => false end.

(** ** Lemmas *)

Lemma rank_inj v w : declared v = true -> rank v = rank w -> v = w.
Proof. destruct v, w; cbn; intros; done || lia. Qed.

Lemma rank_pass v : rank v <= 0 <-> v = VerdictPass.
Proof. destruct v; cbn; split; intros; done || lia. Qed.

(** The loop computes the verdict of greatest rank among its start and the
    checks. *)
Lemma worse_fold checks w :
  rank w <= rank (foldl worse w checks)
  /\ (forall c, c ∈ checks -> rank (mc_Verdict c) <= rank (foldl worse w checks))
  /\ (foldl worse w checks = w \/ exists c, c ∈ checks /\ foldl worse w checks = mc_Verdict c).
Proof.
  revert w. induction checks as [|c checks IH]; intros w; cbn [foldl].
  - split; [lia|]. split; [by intros c ?%elem_of_nil|]. by left.
  - destruct (IH (worse w c)) as (A & B & C).
    assert (Hw : rank w <= rank (worse w c) /\ rank (mc_Verdict c) <= rank (worse w c)
                 /\ (worse w c = w \/ worse w c = mc_Verdict c)).
    { unfold worse. destruct (Z.ltb_spec (rank w) (rank (mc_Verdict c))); auto with lia. }
    destruct Hw as (Hw1 & Hw2 & Hw3). split; [lia|]. split.
    + intros d [->|Hd]%elem_of_cons; [lia|by apply B].
    + destruct C as [C|(d & Hd & C)].
      * destruct Hw3 as [Hw3|Hw3]; rewrite C, Hw3; [by left|].
        right. exists c. split; [by left|done].
      * right. exists d. split; [by right|done].
Qed.

(** The verdict of a non-empty round is that of one of its checks, and of the
    greatest rank. *)
Lemma Aggregate_max checks :
  checks <> [] ->
  (forall c, c ∈ checks -> rank (mc_Verdict c) <= rank (rd_Verdict (Aggregate checks)))
  /\ exists c, c ∈ checks /\ mc_Verdict c = rd_Verdict (Aggregate checks).
Proof.
  destruct checks as [|c0 cs]; [done|]. intros _.
  destruct (worse_fold (c0 :: cs) VerdictPass) as (_ & Hub & Hin).
  unfold Aggregate, rd_Verdict. split; [done|].
  destruct Hin as [E|(c & Hc & E)]; [|by exists c].
  exists c0. split; [by left|]. rewrite E. apply rank_pass.
  specialize (Hub c0 ltac:(by left)). by rewrite E in Hub.
Qed.

Lemma count_snoc v h w : count v (h ++ [w]) = count v h + (if decide (w = v) then 1 else 0).
Proof.
  unfold count. rewrite filter_app, length_app, Nat2Z.inj_add. f_equal.
  rewrite filter_cons, filter_nil. by destruct (decide (w = v)).
Qed.

Lemma since_snoc p h w : since p (h ++ [w]) = if p w then [] else since p h ++ [w].
Proof. unfold since. by rewrite foldl_app. Qed.

Lemma count_le v h : 0 <= count v h <= Z.of_nat (length h).
Proof. unfold count. pose proof (length_filter (fun w => w = v) h). lia. Qed.

Lemma since_length p h : (length (since p h) <= length h)%nat.
Proof.
  induction h as [|w h IH] using rev_ind; [done|].
  rewrite since_snoc, length_app. cbn. destruct (p w); [cbn|rewrite length_app; cbn]; lia.
Qed.

(** ** Properties *)

(** A round is decided by the most alarming check: it passes exactly when
    there is at least one check and every check passed, its verdict has the
    greatest rank among them, and when the verdicts are declared ones the order
    in which the metrics were evaluated does not matter. *)
Theorem Aggregate_spec checks :
  (rd_Verdict (Aggregate checks) = VerdictPass <->
     checks <> [] /\ Forall (fun c => mc_Verdict c = VerdictPass) checks)
  /\ (checks <> [] ->
      (forall c, c ∈ checks -> rank (mc_Verdict c) <= rank (rd_Verdict (Aggregate checks)))
      /\ exists c, c ∈ checks /\ mc_Verdict c = rd_Verdict (Aggregate checks))
  /\ (forall checks', Permutation checks checks' ->
      forallb (fun c => declared (mc_Verdict c)) checks = true ->
      rd_Verdict (Aggregate checks') = rd_Verdict (Aggregate checks)).
Proof.
  split; [|split].
  - destruct checks as [|c0 cs]; [split; [done|by intros []]|].
    destruct (Aggregate_max (c0 :: cs) ltac:(done)) as (Hub & c1 & Hc1 & E1).
    rewrite Forall_forall. split.
    + intros E. split; [done|]. intros c Hc. apply rank_pass.
      specialize (Hub c Hc). by rewrite E in Hub.
    + intros [_ H]. by rewrite <- E1, H.
  - by apply Aggregate_max.
  - intros checks' Hp Hd.
    destruct checks as [|c0 cs]; [by apply Permutation_nil in Hp as ->|].
    destruct checks' as [|c0' cs']; [by apply Permutation_nil_r in Hp|].
    destruct (Aggregate_max (c0 :: cs) ltac:(done)) as (Hub & c1 & Hc1 & E1).
    destruct (Aggregate_max (c0' :: cs') ltac:(done)) as (Hub' & c2 & Hc2 & E2).
    symmetry. apply rank_inj.
    + rewrite <- E1. rewrite forallb_forall in Hd. by apply Hd, list_elem_of_In.
    + assert (c1 ∈ c0' :: cs') as H1 by (by rewrite <- Hp).
      assert (c2 ∈ c0 :: cs) as H2 by (by rewrite Hp).
      specialize (Hub' c1 H1). specialize (Hub c2 H2). rewrite E1 in Hub'. rewrite E2 in Hub. lia.
Qed.

(** The three budgets are disjoint and are spent exactly as documented.
    After any history of declared verdicts, the failure count is the number of
    failed rounds ever, the error count is the number of errors since the
    provider last answered, and the inconclusive count is the number of
    inconclusive rounds since a round was last judged. *)
Theorem counters_history h :
  Z.of_nat (length h) <= int32_max -> forallb declared h = true ->
  foldl apply counters_zero h =
  MkCounters (count VerdictFail h) (count VerdictError (since answered h))
             (count VerdictInconclusive (since judged h)).
Proof.
  induction h as [|v h IH] using rev_ind; [done|].
  rewrite length_app, Nat2Z.inj_add, forallb_app. cbn [length]. intros Hlen [Hd Hv]%andb_true_iff.
  rewrite foldl_app, IH by lia || done. cbn [foldl].
  pose proof (count_le VerdictFail h).
  pose proof (count_le VerdictError (since answered h)). pose proof (since_length answered h).
  pose proof (count_le VerdictInconclusive (since judged h)). pose proof (since_length judged h).
  rewrite !since_snoc, count_snoc.
  destruct v; cbn in Hv |- *; try done; rewrite ?count_snoc; cbn;
    rewrite ?wrap32_id by go_lia; f_equal; try (rewrite decide_False by done); lia.
Qed.

Lemma counters_history_witness :
  foldl apply counters_zero
    [VerdictFail; VerdictError; VerdictPass; VerdictInconclusive; VerdictError; VerdictFail;
     VerdictInconclusive; VerdictError; VerdictError] = MkCounters 2 2 1.
Proof. rewrite counters_history; [reflexivity|done|reflexivity]. Defined.

End verdict.
