(* ===== verification/CanaryState.v ===== *)
(** * The canary state machine (internal/canary/state.go)

    The pure core of the operator: [Observe] binds readiness evidence to the
    current rung, [DueForAnalysis] schedules the analysis rounds and [Next]
    computes the next position from an [Input].  Every function of the file is
    translated branch by branch, messages included; the properties are in
    CanarySafety.v and CanaryRuns.v. *)

From S2P Require Import Prelude GoFloat GoFmt ApiTypes CanaryWeights CanaryVerdict.
Import v1alpha1.
Local Open Scope Z_scope.
Local Open Scope go_scope.

Module state.
Import weights verdict.

(** [Phase] and [Action] are Go string types ([ActionUnset] is the zero value of an
    [Output] no canary produced); any phase can be read back from
    a persisted status, hence [PhaseUnknown]. *)
Inductive Phase :=
  PhaseIdle | PhaseWaiting | PhaseProgressing | PhasePaused | PhasePromoting
  | PhaseRollingBack | PhaseUnknown (s : string).

Inductive Action :=
  ActionUnset | ActionNone | ActionStart | ActionWait | ActionAdvance | ActionPromote | ActionRollback
  | ActionPause.

Record Plan := MkPlan {
  pl_Weights : list Z;
  pl_Interval : time.Duration;
  pl_InitialDelay : time.Duration;
  pl_Window : time.Duration;
  pl_FailureThreshold : Z;
  pl_ConsecutiveErrorLimit : Z;
  pl_InconclusiveLimit : Z;
  pl_OnInconclusive : InconclusiveAction;
  pl_RequireApproval : bool;
  pl_ProgressDeadline : time.Duration }.

Record State := MkState {
  st_Phase : Phase;
  st_Revision : string;
  st_StableRevision : string;
  st_FailedRevision : string;
  st_MetricScopeReady : bool;
  st_Step : Z;
  st_AvailableSince : time.Time;
  st_ReadinessTarget : CanaryReadinessTarget;
  st_LastAnalysis : time.Time;
  st_StartedAt : time.Time;
  st_counters : counters }.

Record DeploymentObservation := MkDeploymentObservation {
  dep_UID : string;
  dep_Revision : string;
  dep_Generation : Z;
  dep_ObservedGeneration : Z;
  dep_Replicas : Z;
  dep_UpdatedReplicas : Z;
  dep_ReadyReplicas : Z;
  dep_AvailableReplicas : Z }.

Record Input := MkInput {
  in_Now : time.Time;
  in_Plan : Plan;
  in_State : State;
  in_TargetRevision : string;
  in_StableRevision : string;
  in_TotalReplicas : Z;
  in_Deployment : DeploymentObservation;
  in_Round : option Round;
  in_Approved : bool;
  in_Aborted : bool }.

Record TrafficObservation := MkTrafficObservation {
  obs_Weight : option Z;
  obs_At : time.Time;
  obs_Window : time.Duration;
  obs_Reason : string }.

Record Output := MkOutput {
  out_Observation : TrafficObservation;
  out_State : State;
  out_Action : Action;
  out_DesiredWeight : Z;
  out_Primary : Z;
  out_Canary : Z;
  out_ReadyReplicas : Z;
  out_AvailableReplicas : Z;
  out_RealizedWeight : Z;
  out_RequeueAfter : time.Duration;
  out_Reason : string;
  out_Message : string }.

#[global] Instance Phase_eq_dec : EqDecision Phase.
Proof. solve_decision. Defined.

#[global] Instance Action_eq_dec : EqDecision Action.
Proof. solve_decision. Defined.

(** Zero values, and the composite literal with the unset fields zero. *)
Definition State_zero : State :=
  MkState PhaseIdle "" "" "" false 0 time.zero CanaryReadinessTarget_zero time.zero time.zero
    counters_zero.

Definition TrafficObservation_zero : TrafficObservation := MkTrafficObservation None time.zero 0 "".

Definition Output_of (st : State) (a : Action) (desired primary canary realized : Z)
    (requeue : time.Duration) (reason message : string) : Output :=
  MkOutput TrafficObservation_zero st a desired primary canary 0 0 realized requeue reason message.

(** [State{Phase: PhaseIdle, FailedRevision: f}]. *)
Definition idle_state (f : string) : State :=
  MkState PhaseIdle "" "" f false 0 time.zero CanaryReadinessTarget_zero time.zero time.zero
    counters_zero.

(** Field assignments. *)
Definition set_Phase (st : State) (p : Phase) : State :=
  MkState p (st_Revision st) (st_StableRevision st) (st_FailedRevision st) (st_MetricScopeReady st)
    (st_Step st) (st_AvailableSince st) (st_ReadinessTarget st) (st_LastAnalysis st)
    (st_StartedAt st) (st_counters st).

Definition set_FailedRevision (st : State) (f : string) : State :=
  MkState (st_Phase st) (st_Revision st) (st_StableRevision st) f (st_MetricScopeReady st)
    (st_Step st) (st_AvailableSince st) (st_ReadinessTarget st) (st_LastAnalysis st)
    (st_StartedAt st) (st_counters st).

Definition set_MetricScopeReady (st : State) (b : bool) : State :=
  MkState (st_Phase st) (st_Revision st) (st_StableRevision st) (st_FailedRevision st) b
    (st_Step st) (st_AvailableSince st) (st_ReadinessTarget st) (st_LastAnalysis st)
    (st_StartedAt st) (st_counters st).

Definition set_AvailableSince (st : State) (t : time.Time) : State :=
  MkState (st_Phase st) (st_Revision st) (st_StableRevision st) (st_FailedRevision st)
    (st_MetricScopeReady st) (st_Step st) t (st_ReadinessTarget st) (st_LastAnalysis st)
    (st_StartedAt st) (st_counters st).

(** [SetCounters] and the accessors (verdict.go). *)
Definition SetCounters (st : State) (f e i : Z) : State :=
  MkState (st_Phase st) (st_Revision st) (st_StableRevision st) (st_FailedRevision st)
    (st_MetricScopeReady st) (st_Step st) (st_AvailableSince st) (st_ReadinessTarget st)
    (st_LastAnalysis st) (st_StartedAt st) (MkCounters (Z.max f 0) (Z.max e 0) (Z.max i 0)).

Definition FailedChecks (st : State) : Z := failed (st_counters st).
Definition ConsecutiveErrors (st : State) : Z := consecErr (st_counters st).
Definition ConsecutiveInconclusive (st : State) : Z := consecInconcl (st_counters st).

(** ** Helpers *)

(** [itoa]: the buffer has 12 bytes, and negating the least [int32] wraps. *)
Definition itoa (n : Z) : string :=
  if n =? 0 then "0"
  else
    let neg := n <? 0 in
    let n := if neg then wrap32 (- n) else n in
    let digits := digits_loop 12 n "" in
    if neg then "-" +:+ digits else digits.

Definition isActive (p : Phase) : bool :=
  match p with
  | PhaseWaiting | PhaseProgressing | PhasePaused => true
  | _ => false
  end.

(** The index is clamped into the ladder first, so the lookup never misses. *)
Definition weightAt (p : Plan) (step : Z) : Z :=
  let n := Z.of_nat (length (pl_Weights p)) in
  if n =? 0 then 0
  else
    let step := Z.max step 0 in
    let step := if n <=? step then wrap32 (wrap32 n - 1) else step in
    from_ptr 0 (pl_Weights p !! Z.to_nat step).

Definition currentWeight (p : Plan) (st : State) : Z := weightAt p (st_Step st).

Definition splitFor (i : Input) (weight : Z) : Z * Z := Split (in_TotalReplicas i) weight.

(** The end of warm-up plus one full window, [t.Add(InitialDelay + Window)]. *)
Definition warm_until (p : Plan) (t : time.Time) : time.Time :=
  time.Add t (time.dadd (pl_InitialDelay p) (pl_Window p)).

Definition nextAnalysisIn (i : Input) (st : State) : time.Duration :=
  if time.IsZero (st_LastAnalysis st) then pl_Interval (in_Plan i)
  else
    let remaining :=
      time.Sub (time.Add (st_LastAnalysis st) (pl_Interval (in_Plan i))) (in_Now i) in
    if remaining <=? 0 then time.Second else remaining.

Definition DueForAnalysis (now : time.Time) (plan : Plan) (st : State) : bool :=
  if (st_Phase st != PhaseProgressing) && (st_Phase st != PhaseWaiting) then false
  else if time.IsZero (st_AvailableSince st) then false
  else if time.Before now (warm_until plan (st_AvailableSince st)) then false
  else if time.IsZero (st_LastAnalysis st) then true
  else negb (time.Before now (time.Add (st_LastAnalysis st) (pl_Interval plan))).

(** ** Observe *)

(** The readiness target of the current rung and deployment. *)
Definition observe_target (i : Input) : CanaryReadinessTarget :=
  let st := in_State i in
  MkCanaryReadinessTarget (st_Step st) (currentWeight (in_Plan i) st) (in_TotalReplicas i)
    (snd (splitFor i (currentWeight (in_Plan i) st)))
    (dep_Generation (in_Deployment i)) (dep_UID (in_Deployment i)).

(** Every planned replica of the current generation is updated, ready and
    available, under the revision being evaluated. *)
Definition observe_ready (i : Input) : bool :=
  let st := in_State i in
  let d := in_Deployment i in
  let count := snd (splitFor i (currentWeight (in_Plan i) st)) in
  (0 <? count) && (dep_Revision d == st_Revision st)
  && (0 <? dep_Generation d) && (dep_UID d != "")
  && (dep_Generation d <=? dep_ObservedGeneration d)
  && (dep_Replicas d =? count) && (dep_UpdatedReplicas d =? count)
  && (dep_ReadyReplicas d =? count) && (dep_AvailableReplicas d =? count).

Definition Observe (i : Input) : Input :=
  let st := in_State i in
  if negb (isActive (st_Phase st)) || (st_Revision st != in_TargetRevision i) then i
  else
    let target := observe_target i in
    let changed := target != st_ReadinessTarget st in
    let ready := observe_ready i in
    let st1 :=
      if (rt_DeploymentUID (st_ReadinessTarget st) != "")
         && (rt_DeploymentUID (st_ReadinessTarget st) != rt_DeploymentUID target)
      then set_MetricScopeReady st false else st in
    let reset := changed || negb ready in
    let st2 :=
      if reset then
        MkState PhaseWaiting (st_Revision st1) (st_StableRevision st1) (st_FailedRevision st1)
          (st_MetricScopeReady st1) (st_Step st1) time.zero target time.zero (st_StartedAt st1)
          (MkCounters (failed (st_counters st1)) 0 0)
      else st1 in
    let st3 :=
      if ready && time.IsZero (st_AvailableSince st2)
      then set_AvailableSince st2 (in_Now i) else st2 in
    MkInput (in_Now i) (in_Plan i) st3 (in_TargetRevision i) (in_StableRevision i)
      (in_TotalReplicas i) (in_Deployment i) (if reset then None else in_Round i)
      (in_Approved i) (in_Aborted i).

(** ** The transitions *)

Definition annoAbort : string := "llmcp.io/abort".
Definition annoPromote : string := "llmcp.io/promote".

Definition capacityHold (i : Input) : Output :=
  Output_of
    (MkState PhaseWaiting (in_TargetRevision i) (in_StableRevision i)
       (st_FailedRevision (in_State i)) false 0 time.zero CanaryReadinessTarget_zero time.zero
       time.zero counters_zero)
    ActionWait 0 (in_TotalReplicas i) 0 0 (pl_Interval (in_Plan i)) ReasonInsufficientReplicas
    ("Replica-based traffic splitting needs at least 2 replicas to divide; "
       +:+ "spec.replicas is " +:+ itoa (in_TotalReplicas i) +:+ ", so revision "
       +:+ in_TargetRevision i
       +:+ " cannot start; holding the stable revision until capacity is increased").

Definition start (i : Input) (reason message : string) : Output :=
  let st :=
    MkState PhaseWaiting (in_TargetRevision i) (in_StableRevision i)
      (st_FailedRevision (in_State i)) false 0 time.zero CanaryReadinessTarget_zero time.zero
      (in_Now i) counters_zero in
  let (primary, canary) := splitFor i (weightAt (in_Plan i) 0) in
  Output_of st ActionStart (weightAt (in_Plan i) 0) primary canary (RealizedWeight primary canary)
    (pl_Interval (in_Plan i)) reason message.

Definition begin (i : Input) : Output :=
  let idle := idle_state (st_FailedRevision (in_State i)) in
  let total := in_TotalReplicas i in
  if (in_TargetRevision i != "") && (in_TargetRevision i == st_FailedRevision (in_State i)) then
    Output_of idle ActionNone 0 total 0 0 0 ReasonCanaryRolledBack
      ("Revision " +:+ in_TargetRevision i +:+ " was rolled back and will not be retried; "
         +:+ "change the spec to try again")
  else if (in_TargetRevision i == in_StableRevision i) || (in_TargetRevision i == "") then
    Output_of idle ActionNone 0 total 0 0 0 ReasonCanaryNotRunning "No canary in flight"
  else if in_StableRevision i == "" then
    Output_of idle ActionNone 0 total 0 0 0 ReasonNoLastGoodRevision
      ("No revision has reached availability yet, so there is nothing to roll back to; "
         +:+ "rolling out directly instead of canarying")
  else if Z.of_nat (length (pl_Weights (in_Plan i))) =? 0 then
    Output_of
      (MkState PhasePromoting (in_TargetRevision i) (in_StableRevision i)
         (st_FailedRevision (in_State i)) false 0 time.zero CanaryReadinessTarget_zero time.zero
         (in_Now i) counters_zero)
      ActionPromote 100 total 0 100 (pl_Interval (in_Plan i)) ReasonCanaryPromoted
      ("The weight ladder is empty; promoting revision " +:+ in_TargetRevision i +:+ " directly")
  else if snd (splitFor i (weightAt (in_Plan i) 0)) =? 0 then capacityHold i
  else start i ReasonCanaryProgressing ("Canary started for revision " +:+ in_TargetRevision i).

Definition promoting (i : Input) (st : State) : Output :=
  if st_Revision st != in_TargetRevision i then begin i
  else if in_StableRevision i == st_Revision st then
    Output_of (idle_state (st_FailedRevision st)) ActionNone 0 (in_TotalReplicas i) 0 0 0
      ReasonCanaryPromoted
      ("Revision " +:+ st_Revision st +:+ " is promoted and serving all traffic")
  else
    Output_of st ActionPromote 100 (in_TotalReplicas i) 0 100 (pl_Interval (in_Plan i))
      ReasonCanaryPromoted
      ("Promoting revision " +:+ st_Revision st +:+ "; waiting for the primary to converge").

Definition paused (i : Input) (st : State) : Output :=
  let (primary, canary) := splitFor i (currentWeight (in_Plan i) st) in
  if in_Approved i then
    Output_of (set_Phase st PhasePromoting) ActionPromote 100 (in_TotalReplicas i) 0 100
      (pl_Interval (in_Plan i)) ReasonCanaryPromoted ("Promotion approved via " +:+ annoPromote)
  else
    Output_of st ActionPause (currentWeight (in_Plan i) st) primary canary
      (RealizedWeight primary canary) 0 ReasonAwaitingApproval
      ("Waiting for approval: set the " +:+ annoPromote +:+ " annotation to " +:+ dq +:+ "true"
         +:+ dq +:+ " to promote").

Definition rollback (i : Input) (st : State) (reason message : string) : Output :=
  Output_of (set_FailedRevision (set_Phase st PhaseRollingBack) (st_Revision st)) ActionRollback
    0 (in_TotalReplicas i) 0 0 0 reason message.

Definition onInconclusive (i : Input) (st : State) (primary canary weight : Z) : Output :=
  match pl_OnInconclusive (in_Plan i) with
  | InconclusiveRollback =>
      rollback i st ReasonAnalysisInconclusive
        ("Rolling back: analysis was inconclusive for " +:+ itoa (ConsecutiveInconclusive st)
           +:+ " consecutive rounds")
  | InconclusivePromote =>
      Output_of (set_Phase st PhasePromoting) ActionPromote 100 (in_TotalReplicas i) 0 100
        (pl_Interval (in_Plan i)) ReasonCanaryPromoted
        ("Promoting despite inconclusive analysis, as onInconclusive: Promote requests. "
           +:+ "No metric evidence supports this promotion.")
  | _ =>
      Output_of (set_Phase st PhaseProgressing) ActionWait weight primary canary
        (RealizedWeight primary canary) (pl_Interval (in_Plan i)) ReasonAnalysisInconclusive
        ("Held at " +:+ itoa weight +:+ "% after " +:+ itoa (ConsecutiveInconclusive st)
           +:+ " inconclusive rounds. Most often there is too little traffic to judge; "
           +:+ "send load, raise the analysis window, or lower minRequestRate.")
  end.

Definition advance (i : Input) (st : State) : Output :=
  let last := wrap32 (wrap32 (Z.of_nat (length (pl_Weights (in_Plan i)))) - 1) in
  if last <=? st_Step st then
    if pl_RequireApproval (in_Plan i) then
      let st := set_Phase st PhasePaused in
      let weight := currentWeight (in_Plan i) st in
      let (primary, canary) := splitFor i weight in
      Output_of st ActionPause weight primary canary (RealizedWeight primary canary) 0
        ReasonAwaitingApproval
        ("Every check passed at the final weight. Set " +:+ annoPromote +:+ "=" +:+ dq +:+ "true"
           +:+ dq +:+ " to promote, or " +:+ annoAbort +:+ "=" +:+ dq +:+ "true" +:+ dq
           +:+ " to roll back.")
    else
      Output_of (set_Phase st PhasePromoting) ActionPromote 100 (in_TotalReplicas i) 0 100
        (pl_Interval (in_Plan i)) ReasonCanaryPromoted
        ("Every check passed through the full weight ladder; promoting " +:+ st_Revision st)
  else
    let st :=
      MkState PhaseWaiting (st_Revision st) (st_StableRevision st) (st_FailedRevision st)
        (st_MetricScopeReady st) (wrap32 (st_Step st + 1)) time.zero (st_ReadinessTarget st)
        time.zero (st_StartedAt st) (st_counters st) in
    let weight := currentWeight (in_Plan i) st in
    let (primary, canary) := splitFor i weight in
    Output_of st ActionAdvance weight primary canary (RealizedWeight primary canary)
      (pl_Interval (in_Plan i)) ReasonCanaryChecksPassed
      ("Checks passed; advancing to " +:+ itoa weight +:+ "% traffic").

(** The closure [hold] of [analyse], over the current value of [st]. *)
Definition hold (i : Input) (st : State) (p : Phase) (reason message : string)
    (requeue : time.Duration) : Output :=
  let weight := currentWeight (in_Plan i) st in
  let (primary, canary) := splitFor i weight in
  Output_of (set_Phase st p) ActionWait weight primary canary (RealizedWeight primary canary)
    requeue reason message.

(** The progress deadline has passed without a complete measurement window. *)
Definition deadline_exceeded (i : Input) (st : State) : bool :=
  time.IsZero (st_LastAnalysis st) && (0 <? pl_ProgressDeadline (in_Plan i))
  && negb (time.IsZero (st_StartedAt st))
  && negb (time.Before (in_Now i) (time.Add (st_StartedAt st) (pl_ProgressDeadline (in_Plan i))))
  && (time.IsZero (st_AvailableSince st)
      || time.Before (in_Now i) (warm_until (in_Plan i) (st_AvailableSince st))).

(** [st.LastAnalysis = in.Now; st.counters = st.apply(verdict)]. *)
Definition consume (i : Input) (st : State) (v : Verdict) : State :=
  MkState (st_Phase st) (st_Revision st) (st_StableRevision st) (st_FailedRevision st)
    (st_MetricScopeReady st) (st_Step st) (st_AvailableSince st) (st_ReadinessTarget st)
    (in_Now i) (st_StartedAt st) (apply (st_counters st) v).

(** The switch of [analyse] over the consumed verdict. *)
Definition judge (i : Input) (st : State) (v : Verdict) : Output :=
  let plan := in_Plan i in
  let weight := currentWeight plan st in
  let (primary, canary) := splitFor i weight in
  let st := consume i st v in
  match v with
  | VerdictError =>
      if pl_ConsecutiveErrorLimit plan <=? ConsecutiveErrors st then
        rollback i st ReasonAnalysisError
          ("Aborting: the metric provider has been unreachable for "
             +:+ itoa (ConsecutiveErrors st) +:+ " consecutive rounds")
      else
        hold i st PhaseProgressing ReasonAnalysisError
          ("Metric provider error (" +:+ itoa (ConsecutiveErrors st) +:+ "/"
             +:+ itoa (pl_ConsecutiveErrorLimit plan)
             +:+ "); holding at the current weight rather than rolling back") (pl_Interval plan)
  | VerdictInconclusive =>
      if pl_InconclusiveLimit plan <=? ConsecutiveInconclusive st then
        onInconclusive i st primary canary weight
      else
        hold i st PhaseProgressing ReasonAnalysisInconclusive
          ("Analysis inconclusive (" +:+ itoa (ConsecutiveInconclusive st) +:+ "/"
             +:+ itoa (pl_InconclusiveLimit plan)
             +:+ "); most often too little traffic to judge") (pl_Interval plan)
  | VerdictFail =>
      if pl_FailureThreshold plan <=? FailedChecks st then
        rollback i st ReasonCanaryRolledBack
          ("Rolling back: " +:+ itoa (FailedChecks st) +:+ " failed checks reached the threshold of "
             +:+ itoa (pl_FailureThreshold plan))
      else
        hold i st PhaseProgressing ReasonCanaryChecksFailed
          ("Check failed (" +:+ itoa (FailedChecks st) +:+ "/" +:+ itoa (pl_FailureThreshold plan)
             +:+ "); holding at the current weight") (pl_Interval plan)
  | VerdictPass | VerdictOther _ => advance i st
  end.

Definition analyse (i : Input) (st : State) : Output :=
  let plan := in_Plan i in
  let canary := snd (splitFor i (currentWeight plan st)) in
  if canary =? 0 then capacityHold i
  else if time.IsZero (st_StartedAt st) then
    start i ReasonCanaryProgressing
      ("Capacity is sufficient; starting the canary at step 0 for revision "
         +:+ in_TargetRevision i)
  else if deadline_exceeded i st then
    rollback i st ReasonCanaryProgressDeadlineExceeded
      ("Canary did not establish a complete ready measurement window within "
         +:+ gofmt.Duration_String (pl_ProgressDeadline plan) +:+ "; rolling back")
  else if time.IsZero (st_AvailableSince st) then
    hold i st PhaseWaiting ReasonCanaryProgressing
      ("Waiting for the current canary generation and all planned replicas "
         +:+ "to become ready and available") (pl_Interval plan)
  else
    let warmUntil := warm_until plan (st_AvailableSince st) in
    if time.Before (in_Now i) warmUntil then
      hold i st PhaseProgressing ReasonCanaryProgressing
        "Waiting for warm-up and a full measurement window for this rung"
        (time.Sub warmUntil (in_Now i))
    else
      match in_Round i with
      | Some r =>
          if DueForAnalysis (in_Now i) plan st then judge i st (rd_Verdict r)
          else hold i st PhaseProgressing ReasonCanaryProgressing "Canary is progressing"
                 (nextAnalysisIn i st)
      | None => hold i st PhaseProgressing ReasonCanaryProgressing "Canary is progressing"
                  (nextAnalysisIn i st)
      end.

Definition Next (i : Input) : Output :=
  let i := Observe i in
  let st := in_State i in
  if in_Aborted i && isActive (st_Phase st) then
    rollback i st ReasonCanaryAborted ("Rollout aborted by " +:+ annoAbort)
  else if isActive (st_Phase st) && (st_Revision st != in_TargetRevision i) then
    if snd (splitFor i (weightAt (in_Plan i) 0)) =? 0 then capacityHold i
    else
      start i ReasonCanaryProgressing
        ("Spec changed mid-rollout; restarting the canary at step 0 for revision "
           +:+ in_TargetRevision i)
  else
    match st_Phase st with
    | PhasePromoting => promoting i st
    | PhaseIdle | PhaseRollingBack => begin i
    | PhasePaused => paused i st
    | PhaseWaiting | PhaseProgressing => analyse i st
    | PhaseUnknown _ => begin i
    end.

End state.
