(* ===== verification/CanaryRules.v ===== *)
(** * The canary state machine as a set of rules

    [rule i o] lists the transitions of [Next] with the guard of each: one
    constructor per way the code can decide.  [Next_rule] shows that [Next]
    always takes one of them, on the observed input; the safety, run and
    liveness theorems are case analyses over it.  The file also collects what
    [Observe] keeps and what it resets. *)

From S2P Require Import Prelude GoFloat GoFmt ApiTypes CanaryWeights CanaryVerdict CanaryState.
Import v1alpha1.
Local Open Scope Z_scope.
Local Open Scope go_scope.

Module rules.
Import weights verdict state.

(** No canary is in flight for the target: the machine decides afresh. *)
Definition fresh (i : Input) : Prop :=
  match st_Phase (in_State i) with
  | PhaseIdle | PhaseRollingBack | PhaseUnknown _ => True
  | PhasePromoting => st_Revision (in_State i) <> in_TargetRevision i
  | _ => False
  end.

(** A canary may be started for the target. *)
Definition startable (i : Input) : Prop :=
  in_TargetRevision i <> "" /\ in_TargetRevision i <> st_FailedRevision (in_State i)
  /\ in_TargetRevision i <> in_StableRevision i /\ in_StableRevision i <> "".

(** The canary in flight is for the target and is being analysed. *)
Definition analysing (i : Input) : Prop :=
  (st_Phase (in_State i) = PhaseWaiting \/ st_Phase (in_State i) = PhaseProgressing)
  /\ st_Revision (in_State i) = in_TargetRevision i /\ in_Aborted i = false.

(** A verdict [v] is consumed: the canary is started, its replicas have been
    ready for the warm-up and a full window, and a round is due. *)
Definition consumes (i : Input) (v : Verdict) : Prop :=
  analysing i /\ st_StartedAt (in_State i) <> time.zero
  /\ st_AvailableSince (in_State i) <> time.zero
  /\ warm_until (in_Plan i) (st_AvailableSince (in_State i)) <= in_Now i
  /\ (exists r, in_Round i = Some r /\ rd_Verdict r = v)
  /\ DueForAnalysis (in_Now i) (in_Plan i) (in_State i) = true
  /\ snd (splitFor i (currentWeight (in_Plan i) (in_State i))) <> 0.

(** The verdicts the switch of [analyse] does not hold the canary for: a pass,
    and any verdict the API does not declare. *)
Definition moves_on (v : Verdict) : Prop :=
  v <> VerdictError /\ v <> VerdictInconclusive /\ v <> VerdictFail.

(** The round handed to the machine, if any, carries one of the four verdicts
    the API declares. *)
Definition declared_round (i : Input) : Prop :=
  forall r, in_Round i = Some r -> declared (rd_Verdict r) = true.

Lemma declared_pass v : declared v = true -> moves_on v <-> v = VerdictPass.
Proof. unfold moves_on. destruct v; naive_solver. Qed.

(** The last rung, as [advance] computes it. *)
Definition last_rung (i : Input) : Z :=
  wrap32 (wrap32 (Z.of_nat (length (pl_Weights (in_Plan i)))) - 1).

(** What [StepLadder] produces: a strictly increasing ladder of percentages. *)
Definition ladder (p : Plan) : Prop :=
  Forall (fun w => 0 < w <= 100) (pl_Weights p) /\ StronglySorted Z.lt (pl_Weights p)
  /\ Z.of_nat (length (pl_Weights p)) <= int32_max.

Definition active (i : Input) : Prop := isActive (st_Phase (in_State i)) = true.

Inductive rule (i : Input) : Output -> Prop :=
  | r_abort m :
      in_Aborted i = true -> active i -> rule i (rollback i (in_State i) ReasonCanaryAborted m)
  | r_capacity :
      (fresh i /\ startable i /\ pl_Weights (in_Plan i) <> []
       \/ active i /\ in_Aborted i = false /\ st_Revision (in_State i) <> in_TargetRevision i
       \/ analysing i) ->
      (exists s, snd (splitFor i (weightAt (in_Plan i) s)) = 0) ->
      rule i (capacityHold i)
  | r_start m :
      (fresh i /\ startable i /\ pl_Weights (in_Plan i) <> []
       \/ active i /\ in_Aborted i = false /\ st_Revision (in_State i) <> in_TargetRevision i
       \/ analysing i /\ st_StartedAt (in_State i) = time.zero) ->
      rule i (start i ReasonCanaryProgressing m)
  | r_idle reason m :
      fresh i -> ~ startable i ->
      rule i (Output_of (idle_state (st_FailedRevision (in_State i))) ActionNone 0
                (in_TotalReplicas i) 0 0 0 reason m)
  | r_empty m :
      fresh i -> startable i -> pl_Weights (in_Plan i) = [] ->
      rule i (Output_of
                (MkState PhasePromoting (in_TargetRevision i) (in_StableRevision i)
                   (st_FailedRevision (in_State i)) false 0 time.zero CanaryReadinessTarget_zero
                   time.zero (in_Now i) counters_zero)
                ActionPromote 100 (in_TotalReplicas i) 0 100 (pl_Interval (in_Plan i))
                ReasonCanaryPromoted m)
  | r_promoted m :
      st_Phase (in_State i) = PhasePromoting -> st_Revision (in_State i) = in_TargetRevision i ->
      in_StableRevision i = st_Revision (in_State i) ->
      rule i (Output_of (idle_state (st_FailedRevision (in_State i))) ActionNone 0
                (in_TotalReplicas i) 0 0 0 ReasonCanaryPromoted m)
  | r_promoting m :
      st_Phase (in_State i) = PhasePromoting -> st_Revision (in_State i) = in_TargetRevision i ->
      in_StableRevision i <> st_Revision (in_State i) ->
      rule i (Output_of (in_State i) ActionPromote 100 (in_TotalReplicas i) 0 100
                (pl_Interval (in_Plan i)) ReasonCanaryPromoted m)
  | r_paused :
      st_Phase (in_State i) = PhasePaused -> st_Revision (in_State i) = in_TargetRevision i ->
      in_Aborted i = false -> rule i (paused i (in_State i))
  | r_deadline m :
      analysing i -> deadline_exceeded i (in_State i) = true ->
      rule i (rollback i (in_State i) ReasonCanaryProgressDeadlineExceeded m)
  | r_hold p m q :
      analysing i -> st_StartedAt (in_State i) <> time.zero ->
      deadline_exceeded i (in_State i) = false ->
      snd (splitFor i (currentWeight (in_Plan i) (in_State i))) <> 0 ->
      p = (if time.IsZero (st_AvailableSince (in_State i)) then PhaseWaiting else PhaseProgressing) ->
      (q = pl_Interval (in_Plan i)
       \/ (in_Now i < warm_until (in_Plan i) (st_AvailableSince (in_State i))
           /\ q = time.Sub (warm_until (in_Plan i) (st_AvailableSince (in_State i))) (in_Now i))
       \/ q = nextAnalysisIn i (in_State i)) ->
      rule i (hold i (in_State i) p ReasonCanaryProgressing m q)
  | r_judge v :
      consumes i v -> rule i (judge i (in_State i) v).

(** ** What [Observe] keeps *)

Lemma Observe_inputs i :
  in_Now (Observe i) = in_Now i /\ in_Plan (Observe i) = in_Plan i
  /\ in_TargetRevision (Observe i) = in_TargetRevision i
  /\ in_StableRevision (Observe i) = in_StableRevision i
  /\ in_TotalReplicas (Observe i) = in_TotalReplicas i
  /\ in_Deployment (Observe i) = in_Deployment i
  /\ in_Approved (Observe i) = in_Approved i /\ in_Aborted (Observe i) = in_Aborted i.
Proof. unfold Observe. cbv zeta. destruct (negb _ || _); repeat split. Qed.

Lemma Observe_state i :
  st_Revision (in_State (Observe i)) = st_Revision (in_State i)
  /\ st_StableRevision (in_State (Observe i)) = st_StableRevision (in_State i)
  /\ st_FailedRevision (in_State (Observe i)) = st_FailedRevision (in_State i)
  /\ st_Step (in_State (Observe i)) = st_Step (in_State i)
  /\ st_StartedAt (in_State (Observe i)) = st_StartedAt (in_State i)
  /\ failed (st_counters (in_State (Observe i))) = failed (st_counters (in_State i)).
Proof.
  unfold Observe. cbv zeta. destruct (negb _ || _); [by repeat split|].
  cbn [in_State]. repeat go_split1; by repeat split.
Qed.

Lemma Observe_id i :
  isActive (st_Phase (in_State i)) = false \/ st_Revision (in_State i) <> in_TargetRevision i ->
  Observe i = i.
Proof.
  intros H. unfold Observe. cbv zeta.
  destruct (isActive _) eqn:E; [|done]. destruct H as [?|H]; [done|].
  by rewrite (bool_decide_eq_false_2 _ H).
Qed.

Lemma Observe_active i :
  isActive (st_Phase (in_State (Observe i))) = isActive (st_Phase (in_State i)).
Proof.
  unfold Observe. cbv zeta. destruct (negb _ || _) eqn:E; [done|]. go_bools.
  cbn [in_State]. rewrite H. repeat go_split1; cbn; done.
Qed.

Lemma Observe_phase i :
  isActive (st_Phase (in_State i)) = false ->
  st_Phase (in_State (Observe i)) = st_Phase (in_State i).
Proof. intros H. rewrite Observe_id; [done|by left]. Qed.

(** Observing drops a round or keeps it, so a declared one stays declared. *)
Lemma declared_observed i v : declared_round i -> consumes (Observe i) v -> declared v = true.
Proof.
  intros Hd (_ & _ & _ & _ & (r & Er & <-) & _). apply Hd. revert Er. unfold Observe. cbv zeta.
  destruct (negb _ || _); [done|]. cbn [in_Round]. by destruct (_ || _).
Qed.

(** The readiness evidence only survives an unchanged target that is ready. *)
Lemma Observe_kept i :
  active i -> st_Revision (in_State i) = in_TargetRevision i ->
  st_LastAnalysis (in_State (Observe i)) <> time.zero \/ in_Round (Observe i) <> None
  \/ st_Phase (in_State (Observe i)) = PhasePaused ->
  observe_ready i = true /\ observe_target i = st_ReadinessTarget (in_State i)
  /\ in_Round (Observe i) = in_Round i
  /\ st_Phase (in_State (Observe i)) = st_Phase (in_State i)
  /\ st_LastAnalysis (in_State (Observe i)) = st_LastAnalysis (in_State i)
  /\ st_counters (in_State (Observe i)) = st_counters (in_State i).
Proof.
  unfold active, Observe. cbv zeta. intros -> ->. rewrite bool_decide_eq_true_2 by done.
  cbn [negb orb in_State in_Round].
  destruct (bool_decide (observe_target i = st_ReadinessTarget (in_State i))) eqn:Ht;
    destruct (observe_ready i) eqn:Hr; cbn [negb orb andb];
    intros H; [|exfalso; revert H..].
  - go_bools. repeat go_split1; by repeat split.
  - repeat go_split1; intros [H|[H|H]]; cbn in H; done.
  - repeat go_split1; intros [H|[H|H]]; cbn in H; done.
  - repeat go_split1; intros [H|[H|H]]; cbn in H; done.
Qed.

(** ** [Next] follows the rules *)

#[global] Instance startable_dec i : Decision (startable i).
Proof. unfold startable. apply _. Defined.

Lemma begin_rule i : fresh i -> rule i (begin i).
Proof.
  intros Hf. unfold begin. cbv zeta. destruct (decide (startable i)) as [Hs|Hs].
  - destruct Hs as (H1 & H2 & H3 & H4).
    rewrite (bool_decide_eq_false_2 _ H1), (bool_decide_eq_false_2 _ H2),
      (bool_decide_eq_false_2 _ H3), (bool_decide_eq_false_2 _ H4).
    cbn [negb andb orb]. destruct (pl_Weights (in_Plan i)) as [|w ws] eqn:Ew.
    { by apply r_empty. }
    rewrite (proj2 (Z.eqb_neq _ 0)) by (cbn [length]; lia).
    destruct (_ =? 0) eqn:Ec; [apply r_capacity|apply r_start]; [|by eexists; apply Z.eqb_eq|];
      left; rewrite Ew; done.
  - repeat go_split1; try (by apply r_idle); exfalso; apply Hs; go_bools; unfold startable;
      apply andb_false_iff in Heqb; rewrite negb_false_iff, bool_decide_eq_true,
        bool_decide_eq_false in Heqb; destruct Heqb; done.
Qed.

Lemma analyse_rule i : analysing i -> rule i (analyse i (in_State i)).
Proof.
  intros Ha. unfold analyse. cbv zeta.
  destruct (snd _ =? 0) eqn:E0; [apply r_capacity; [auto|by eexists; apply Z.eqb_eq]|].
  destruct (time.IsZero (st_StartedAt _)) eqn:E1.
  { apply r_start. right; right. split; [done|]. by apply Z.eqb_eq. }
  apply Z.eqb_neq in E0, E1.
  destruct (deadline_exceeded _ _) eqn:E2; [by apply r_deadline|].
  destruct (time.IsZero (st_AvailableSince _)) eqn:E3; [apply r_hold; rewrite ?E3; auto|].
  destruct (time.Before _ _) eqn:E4; [apply Z.ltb_lt in E4; apply r_hold; rewrite ?E3; auto|].
  destruct (in_Round i) as [r|] eqn:E5; [|apply r_hold; rewrite ?E3; auto].
  destruct (DueForAnalysis _ _ _) eqn:E6; [|apply r_hold; rewrite ?E3; auto].
  apply r_judge. unfold time.IsZero in *. go_bools.
  repeat split; try apply Ha; try done; [apply Z.ltb_ge in E4; done|by exists r].
Qed.

Lemma Next_rule i : rule (Observe i) (Next i).
Proof.
  unfold Next. cbv zeta. set (j := Observe i).
  destruct (in_Aborted j && isActive _) eqn:Ea; [go_bools; by apply r_abort|].
  destruct (isActive (st_Phase (in_State j))) eqn:Eact; cbn [andb].
  - rewrite andb_true_r in Ea. destruct (bool_decide _) eqn:Er; cbn [negb]; go_bools.
    + destruct (st_Phase (in_State j)) eqn:Ep; try done; cbn.
      * apply analyse_rule. repeat split; auto.
      * apply analyse_rule. repeat split; auto.
      * by apply r_paused.
    + destruct (_ =? 0) eqn:Ec; [apply r_capacity; [|by eexists; apply Z.eqb_eq]|apply r_start];
        right; left; done.
  - destruct (st_Phase (in_State j)) eqn:Ep; try done;
      try (apply begin_rule; unfold fresh; by rewrite Ep).
    unfold promoting. destruct (bool_decide (st_Revision _ = _)) eqn:Er; cbn [negb]; go_bools.
    + destruct (bool_decide (in_StableRevision _ = _)) eqn:Es; go_bools;
        [by apply r_promoted|by apply r_promoting].
    + apply begin_rule. unfold fresh. by rewrite Ep.
Qed.

End rules.

(** Eliminate [Next i] into its rules, with [j] the observed input. *)
Ltac next_cases i :=
  let H := fresh "Hrule" in
  pose proof (rules.Next_rule i) as H;
  let o := fresh "o" in
  remember (state.Next i) as o eqn:Eo; clear Eo;
  let j := fresh "j" in
  remember (state.Observe i) as j eqn:Ej;
  inversion H; subst o; clear H.
