(* ===== verification/CanarySafety.v ===== *)
(** * Safety of one decision of the canary state machine

    What a single call of [Next] can and cannot do, whatever the persisted
    state and the observations are: how it divides the replicas, when it may
    roll back, promote or climb, what evidence it needs, and when it asks to be
    called again. *)

From S2P Require Import Prelude GoFloat GoFmt ApiTypes CanaryWeights CanaryVerdict CanaryState CanaryRules.
Import v1alpha1.
Local Open Scope Z_scope.
Local Open Scope go_scope.

Module safety.
Import weights verdict state rules.

(** ** Sample inputs, for the witnesses

    A ladder of two rungs over ten replicas: two canary pods, then five. *)

Definition sample_plan : Plan :=
  MkPlan [20; 50] (30 * time.Second) (60 * time.Second) (60 * time.Second) 3 5 5
    InconclusiveRollback false (600 * time.Second).

Definition sample_dep (count : Z) : DeploymentObservation :=
  MkDeploymentObservation "uid" "new" 1 1 count count count count.

(** At step [s] since [t0], with [f] failures, [e] errors and [n] inconclusive
    rounds already counted. *)
Definition sample_state (ph : Phase) (s t0 f e n : Z) : State :=
  MkState ph "new" "old" "" true s t0
    (MkCanaryReadinessTarget s (weightAt sample_plan s) 10
       (snd (Split 10 (weightAt sample_plan s))) 1 "uid")
    t0 t0 (MkCounters f e n).

Definition sample_input (now : time.Time) (st : State) (count : Z) (v : Verdict) : Input :=
  MkInput now sample_plan st "new" "old" 10 (sample_dep count) (Some (MkRound v [])) false false.

(** ** Shapes of a decision *)

(** [o] sends everything to the primary. *)
Definition all_primary (i : Input) (o : Output) : Prop :=
  out_Primary o = in_TotalReplicas i /\ out_Canary o = 0.

(** [o] divides the total by the weight of a rung. *)
Definition at_rung (i : Input) (o : Output) : Prop :=
  exists s, out_DesiredWeight o = weightAt (in_Plan i) s
  /\ Split (in_TotalReplicas i) (weightAt (in_Plan i) s) = (out_Primary o, out_Canary o)
  /\ out_RealizedWeight o = RealizedWeight (out_Primary o) (out_Canary o).

(** ** Lemmas *)

Lemma weightAt_in p s :
  Z.of_nat (length (pl_Weights p)) <= int32_max -> pl_Weights p <> [] ->
  weightAt p s ∈ pl_Weights p.
Proof.
  intros Hlen Hne. unfold weightAt.
  destruct (pl_Weights p) as [|w ws] eqn:E; [done|].
  rewrite <- E in *. set (n := Z.of_nat (length (pl_Weights p))) in *.
  assert (1 <= n) by (subst n; rewrite E; cbn [length]; lia).
  rewrite (proj2 (Z.eqb_neq n 0)) by lia.
  set (k := if n <=? Z.max s 0 then _ else _).
  assert (0 <= k < n) as Hk.
  { subst k. destruct (Z.leb_spec n (Z.max s 0)); [rewrite (wrap32_id n), wrap32_id by go_lia|]; lia. }
  destruct (lookup_lt_is_Some_2 (pl_Weights p) (Z.to_nat k)) as [x Hx]; [subst n; lia|].
  rewrite Hx. cbn. by eapply list_elem_of_lookup_2.
Qed.

Lemma weightAt_nil p s : pl_Weights p = [] -> weightAt p s = 0.
Proof. intros E. unfold weightAt. by rewrite E. Qed.

Lemma weightAt_first p s : ladder p -> pl_Weights p <> [] -> 0 < weightAt p 0 <= weightAt p s.
Proof.
  intros (Hf & Hs & Hl) Hne. pose proof (weightAt_in p s Hl Hne) as Hin.
  assert (E0 : pl_Weights p !! 0%nat = Some (weightAt p 0)).
  { unfold weightAt. destruct (pl_Weights p) as [|w ws]; [done|].
    cbn [length]. rewrite (proj2 (Z.eqb_neq _ 0)) by lia.
    by rewrite (proj2 (Z.leb_gt _ _)) by lia. }
  destruct (pl_Weights p) as [|w ws] eqn:Ew; [done|]. cbn in E0. injection E0 as <-.
  apply Forall_cons in Hf as [Hw _]. apply StronglySorted_inv in Hs as [_ Hs].
  apply elem_of_cons in Hin as [->|Hin]; [lia|].
  rewrite Forall_forall in Hs. specialize (Hs _ Hin). lia.
Qed.

(** If no replica goes to the canary at some rung, none does at the first. *)
Lemma no_capacity_first p total s :
  ladder p -> int32_ok total -> snd (Split total (weightAt p s)) = 0 ->
  snd (Split total (weightAt p 0)) = 0.
Proof.
  intros Hl Hok H. destruct (decide (pl_Weights p = [])) as [E|E].
  { by rewrite !weightAt_nil in * by done. }
  destruct (weightAt_first p s Hl E) as [H0 Hle].
  assert (Ht : total <= 1) by (eapply (Split_canary_zero total (weightAt p s)); [done|lia|done]).
  destruct (Split_cases total (weightAt p 0) Hok) as [[? ->]|[(? & ? & ->)|[(? & ? & ->)|(? & ? & ->)]]];
    [done|done| |].
  - exfalso. assert (total = 1) as -> by lia. revert H.
    unfold Split. rewrite (proj2 (Z.leb_gt (weightAt p s) 0)) by lia.
    by rewrite (proj2 (Z.leb_le 100 (weightAt p s))) by lia.
  - pose proof (canary_count_spec total (weightAt p 0) ltac:(lia) ltac:(lia)). cbv zeta in *.
    cbn. lia.
Qed.

Lemma hold_at_rung i st p reason m q : at_rung i (hold i st p reason m q).
Proof.
  unfold hold, splitFor, currentWeight. exists (st_Step st).
  destruct (Split _ _) as [x y]. done.
Qed.

Lemma start_at_rung i reason m : at_rung i (start i reason m).
Proof. unfold start, splitFor. exists 0. destruct (Split _ _) as [x y]. done. Qed.

Lemma advance_split i st :
  let o := advance i st in
  (all_primary i o /\ out_Action o = ActionPromote)
  \/ (at_rung i o /\ out_Action o <> ActionPromote).
Proof.
  cbv zeta. unfold advance, splitFor, currentWeight. cbv zeta.
  destruct (_ <=? _); [destruct (pl_RequireApproval _)|].
  - right. cbn [set_Phase st_Step]. destruct (Split _ _) as [x y] eqn:E.
    split; [by exists (st_Step st)|done].
  - by left.
  - right. cbn [st_Step]. destruct (Split _ _) as [x y] eqn:E.
    split; [by eexists|done].
Qed.

Lemma judge_split i st v :
  let o := judge i st v in all_primary i o \/ at_rung i o.
Proof.
  cbv zeta. unfold judge.
  destruct (splitFor i (currentWeight (in_Plan i) st)) as [p c] eqn:E.
  destruct v; try (destruct (advance_split i (consume i st VerdictPass)) as [[? _]|[? _]]; by auto);
    repeat go_split1; try (by left); try (right; apply hold_at_rung).
  - unfold onInconclusive. destruct (pl_OnInconclusive _); try (by left);
      right; exists (st_Step st); cbn; by rewrite <- E.
  - destruct (advance_split i (consume i st (VerdictOther s))) as [[? _]|[? _]]; auto.
Qed.

(** Every decision either sends everything to the primary or splits at a rung. *)
Lemma Next_split i : all_primary i (Next i) \/ at_rung i (Next i).
Proof.
  destruct (Observe_inputs i) as (_ & HP & _ & _ & HT & _).
  assert (Hgen : all_primary (Observe i) (Next i) \/ at_rung (Observe i) (Next i)).
  2: { unfold all_primary, at_rung in *. by rewrite HP, HT in Hgen. }
  destruct (Next_rule i); try (by left); try (right; apply start_at_rung);
    try (right; apply hold_at_rung); try apply judge_split.
  unfold paused. destruct (splitFor _ _) as [p c] eqn:E. destruct (in_Approved _); [by left|].
  right. exists (st_Step (in_State (Observe i))). cbn. by rewrite <- E.
Qed.

(** The two counts a decision asks for add up to the total. *)
Lemma Next_counts i :
  int32_ok (in_TotalReplicas i) -> 0 <= in_TotalReplicas i ->
  out_Primary (Next i) + out_Canary (Next i) = in_TotalReplicas i
  /\ 0 <= out_Primary (Next i) /\ 0 <= out_Canary (Next i).
Proof.
  intros Hok H0. destruct (Next_split i) as [[-> ->]|(s & _ & Hs & _)]; [repeat split; lia|].
  destruct (Split_bounds _ _ _ _ Hok H0 Hs) as [Hbp Hbc]. split; [by eapply Split_sum|lia].
Qed.

(** The state kept by every transition that does not restart the canary. *)
Lemma judge_state i st v :
  let o := judge i st v in
  st_Revision (out_State o) = st_Revision st /\ st_StartedAt (out_State o) = st_StartedAt st
  /\ st_counters (out_State o) = apply (st_counters st) v
  /\ st_LastAnalysis (out_State o) = (if decide (out_Action o = ActionAdvance) then time.zero else in_Now i)
  /\ st_Step (out_State o)
     = (if decide (out_Action o = ActionAdvance) then wrap32 (st_Step st + 1) else st_Step st)
  /\ (out_Action o = ActionAdvance -> moves_on v /\ st_Step st < last_rung i).
Proof.
  cbv zeta. unfold judge, hold, splitFor.
  destruct v; unfold onInconclusive, advance, splitFor; repeat go_split1; go_bools;
    rewrite ?decide_False by done; rewrite ?decide_True by done; cbn;
    repeat split; intros; try done.
Qed.

(** ** Properties *)

(** C2: a rollback always has a cause.  [Next] rolls back only when the operator
    aborted a canary in flight, when the progress deadline passed without a
    complete measurement window, or when a due round was consumed and exhausted
    the budget of its own kind: failures reaching the failure threshold, errors
    reaching the consecutive-error limit, or inconclusive rounds reaching their
    limit under the Rollback policy.  The rejected revision is remembered and
    every replica returns to the primary. *)
Theorem rollback_has_cause i :
  out_Action (Next i) = ActionRollback ->
  let j := Observe i in
  let st' := out_State (Next i) in
  (in_Aborted i = true /\ active i
   \/ analysing j /\ deadline_exceeded j (in_State j) = true
   \/ consumes j VerdictFail /\ pl_FailureThreshold (in_Plan i) <= FailedChecks st'
   \/ consumes j VerdictError /\ pl_ConsecutiveErrorLimit (in_Plan i) <= ConsecutiveErrors st'
   \/ consumes j VerdictInconclusive /\ pl_OnInconclusive (in_Plan i) = InconclusiveRollback
      /\ pl_InconclusiveLimit (in_Plan i) <= ConsecutiveInconclusive st')
  /\ st_Phase st' = PhaseRollingBack /\ st_FailedRevision st' = st_Revision (in_State i)
  /\ out_Primary (Next i) = in_TotalReplicas i /\ out_Canary (Next i) = 0.
Proof.
  destruct (Observe_inputs i) as (_ & HP & _ & _ & HT & _ & _ & HA).
  destruct (Observe_state i) as (HR & _).
  pose proof (Observe_active i) as Hact. unfold active in *.
  rewrite <- HP, <- HT, <- HA, <- HR, <- Hact. cbv zeta.
  destruct (Next_rule i) as [| | | | | | | | | |v Hc]; unfold start, paused, hold; try done; intros Hroll.
  - repeat split; auto.
  - exfalso. revert Hroll. by destruct (splitFor _ _).
  - exfalso. revert Hroll. destruct (splitFor _ _). by destruct (in_Approved _).
  - repeat split; auto.
  - exfalso. revert Hroll. by destruct (splitFor _ _).
  - revert Hroll. unfold judge, hold, advance, onInconclusive, splitFor.
    destruct v; repeat go_split1; go_bools; intros; try done; repeat split; auto 10.
Qed.

Lemma rollback_has_cause_witness :
  let i := sample_input (500 * time.Second)
             (sample_state PhaseProgressing 0 (100 * time.Second) 2 0 0) 2 VerdictFail in
  out_Action (Next i) = ActionRollback /\ st_FailedRevision (out_State (Next i)) = "new".
Proof.
  split; [vm_compute; reflexivity|].
  refine (proj1 (proj2 (proj2 (rollback_has_cause _ _)))). vm_compute. reflexivity.
Defined.

(** C3: a promotion always has a cause.  [Next] promotes only when a promotion of
    the same revision is already converging, when the ladder is empty, when a
    paused canary was approved, when a round with the verdict Pass was consumed
    at the last rung and no approval is required, or when the inconclusive limit
    was reached under the Promote policy.  The round is assumed to carry one of
    the four declared verdicts, as every round of the analyser does
    ([Run_declared]); what an undeclared one does is [unrecognised_verdict_climbs]. *)
Theorem promotion_has_cause i :
  declared_round i -> out_Action (Next i) = ActionPromote ->
  let j := Observe i in
  st_Phase (in_State i) = PhasePromoting /\ st_Revision (in_State i) = in_TargetRevision i
    /\ in_StableRevision i <> in_TargetRevision i
  \/ fresh i /\ startable i /\ pl_Weights (in_Plan i) = []
  \/ st_Phase (in_State j) = PhasePaused /\ in_Approved i = true /\ in_Aborted i = false
     /\ st_Revision (in_State i) = in_TargetRevision i
  \/ consumes j VerdictPass /\ last_rung i <= st_Step (in_State i)
     /\ pl_RequireApproval (in_Plan i) = false
  \/ consumes j VerdictInconclusive /\ pl_OnInconclusive (in_Plan i) = InconclusivePromote
     /\ pl_InconclusiveLimit (in_Plan i) <= ConsecutiveInconclusive (out_State (Next i)).
Proof.
  intros Hd. pose proof (fun v => declared_observed i v Hd) as Hdec.
  destruct (Observe_inputs i) as (_ & HP & HTR & HSR & HT & _ & HAp & HA).
  destruct (Observe_state i) as (HR & _ & _ & HS & _).
  cbv zeta. unfold last_rung. rewrite <- HP, <- HA, <- HAp, <- HR, <- HS, <- HTR, <- HSR.
  assert (Hid : isActive (st_Phase (in_State (Observe i))) = false -> Observe i = i).
  { intros H. apply Observe_id. left. by rewrite <- Observe_active. }
  destruct (Next_rule i) as [| | | |m Hf Hs He| |m Hp Hr Hs| Hp Hr Ha| | |v Hc];
    unfold start, hold; try done; intros Hprom.
  - exfalso. revert Hprom. by destruct (splitFor _ _).
  - right; left. assert (E : Observe i = i)
      by (apply Hid; unfold fresh in Hf; by destruct (st_Phase _)).
    by rewrite E in *.
  - left. assert (E : Observe i = i) by (apply Hid; by rewrite Hp).
    rewrite E in *. by rewrite <- Hr at 2.
  - revert Hprom. unfold paused. destruct (splitFor _ _), (in_Approved _); [|done].
    intros _. right; right; left. done.
  - exfalso. revert Hprom. by destruct (splitFor _ _).
  - right; right; right. pose proof (Hdec v Hc) as Hv. revert Hprom. unfold judge, hold, advance, onInconclusive, splitFor.
    destruct v; repeat go_split1; go_bools; intros; try done;
      [left; done | right; done].
Qed.

Lemma promotion_has_cause_witness :
  let i := sample_input (500 * time.Second)
             (sample_state PhaseProgressing 1 (100 * time.Second) 0 0 0) 5 VerdictPass in
  out_Action (Next i) = ActionPromote /\ last_rung i <= st_Step (in_State i).
Proof.
  split; [vm_compute; reflexivity|].
  destruct (promotion_has_cause
              (sample_input (500 * time.Second)
                 (sample_state PhaseProgressing 1 (100 * time.Second) 0 0 0) 5 VerdictPass))
    as [H|[H|[H|[H|H]]]]; [by intros r [= <-]|vm_compute; reflexivity|..].
  - destruct H as [H _]. discriminate H.
  - destruct H as [H _]. destruct H.
  - destruct H as [_ [H _]]. discriminate H.
  - apply H.
  - destruct H as [_ [H _]]. discriminate H.
Defined.

(** The replica budget is conserved on every branch: the two counts a
    decision asks for are never negative and always add up to the total, and
    with a ladder below 100% the primary always keeps a replica. *)
Theorem Next_replicas i :
  int32_ok (in_TotalReplicas i) -> 0 <= in_TotalReplicas i ->
  Z.of_nat (length (pl_Weights (in_Plan i))) <= int32_max ->
  out_Primary (Next i) + out_Canary (Next i) = in_TotalReplicas i
  /\ 0 <= out_Primary (Next i) /\ 0 <= out_Canary (Next i)
  /\ (1 <= in_TotalReplicas i -> Forall (fun w => w < 100) (pl_Weights (in_Plan i)) ->
      1 <= out_Primary (Next i)).
Proof.
  intros Hok H0 Hlen. destruct (Next_counts i Hok H0) as (Hsum & Hp0 & Hc0).
  do 3 (split; [done|]). intros H1 Hw.
  destruct (Next_split i) as [[-> _]|(s & _ & Hs & _)]; [lia|].
  pose proof (Split_primary _ (weightAt (in_Plan i) s) Hok H1) as Hp. rewrite Hs in Hp. apply Hp.
  destruct (decide (pl_Weights (in_Plan i) = [])) as [E|E].
  - rewrite weightAt_nil by done. lia.
  - rewrite Forall_forall in Hw. by apply Hw, weightAt_in.
Qed.

Lemma Next_replicas_witness :
  let i := sample_input (500 * time.Second)
             (sample_state PhaseProgressing 0 (100 * time.Second) 0 0 0) 2 VerdictPass in
  out_Action (Next i) = ActionAdvance /\ out_Primary (Next i) + out_Canary (Next i) = 10.
Proof.
  split; [vm_compute; reflexivity|].
  refine (proj1 (Next_replicas _ _ _ _)); vm_compute; done.
Defined.

(** Abort outranks everything.  While a canary is in flight an abort rolls it
    back in the same pass, whatever the round, the approval, the readiness or a
    concurrent spec change say. *)
Theorem abort_outranks i :
  active i -> in_Aborted i = true ->
  out_Action (Next i) = ActionRollback /\ out_Reason (Next i) = ReasonCanaryAborted
  /\ out_Canary (Next i) = 0 /\ out_DesiredWeight (Next i) = 0
  /\ st_FailedRevision (out_State (Next i)) = st_Revision (in_State i).
Proof.
  unfold active. intros Hact Hab.
  destruct (Observe_inputs i) as (_ & _ & _ & _ & _ & _ & _ & HA).
  destruct (Observe_state i) as (HR & _).
  unfold Next. cbv zeta. rewrite HA, Observe_active, Hab, Hact. cbn. by rewrite HR.
Qed.

Lemma abort_outranks_witness :
  let i := MkInput 5 sample_plan (sample_state PhasePaused 1 1 0 0 0) "new" "old" 10
             (sample_dep 5) None true true in
  out_Action (Next i) = ActionRollback.
Proof. refine (proj1 (abort_outranks _ _ _)); reflexivity. Defined.

(** A spec change in flight discards the evidence.  When the target moves
    under a canary in flight, the new canary begins at step zero with empty
    budgets, no analysis and no readiness evidence, or the machine holds until
    there is capacity to begin; no verdict of the old revision is carried over. *)
Theorem spec_change_restarts i :
  active i -> st_Revision (in_State i) <> in_TargetRevision i -> in_Aborted i = false ->
  let st' := out_State (Next i) in
  (out_Action (Next i) = ActionStart /\ st_StartedAt st' = in_Now i
   \/ out_Action (Next i) = ActionWait /\ out_Canary (Next i) = 0
      /\ st_StartedAt st' = time.zero)
  /\ st_Revision st' = in_TargetRevision i /\ st_Phase st' = PhaseWaiting /\ st_Step st' = 0
  /\ st_counters st' = counters_zero /\ st_LastAnalysis st' = time.zero
  /\ st_AvailableSince st' = time.zero /\ st_MetricScopeReady st' = false
  /\ st_FailedRevision st' = st_FailedRevision (in_State i).
Proof.
  unfold active. intros Hact Hrev Hab. unfold Next. cbv zeta.
  rewrite (Observe_id i) by (by right). rewrite Hact, Hab, (bool_decide_eq_false_2 _ Hrev). cbn.
  unfold start. destruct (splitFor i _) as [p c]; cbn. destruct (c =? 0); cbn;
    repeat split; auto.
Qed.

Lemma spec_change_restarts_witness :
  let i := MkInput 5 sample_plan (sample_state PhaseProgressing 1 1 2 1 0) "newer" "old" 10
             (sample_dep 5) (Some (MkRound VerdictPass [])) false false in
  out_Action (Next i) = ActionStart /\ st_Step (out_State (Next i)) = 0.
Proof.
  split; [vm_compute; reflexivity|].
  refine (proj1 (proj2 (proj2 (proj2 (spec_change_restarts _ _ _ _))))); done.
Defined.

(** The restart after a spec change does not ask whether the new target was
    rejected before, as [begin] does: going back to a rejected revision while
    another canary is in flight starts its canary again. *)
Theorem restart_ignores_rejection :
  let st := set_FailedRevision (sample_state PhaseProgressing 1 (100 * time.Second) 0 0 0) "bad" in
  let i := MkInput (500 * time.Second) sample_plan st "bad" "old" 10 (sample_dep 5) None false false in
  out_Action (Next i) = ActionStart /\ st_Revision (out_State (Next i)) = "bad"
  /\ st_FailedRevision (out_State (Next i)) = "bad".
Proof. vm_compute. repeat split. Qed.

End safety.
