(* ===== verification/CanaryEvidence.v ===== *)
(** * Evidence, timing and re-entry of the canary state machine

    Which evidence a verdict needs before [Next] reads it, how the step moves,
    when the deadline and the timers fire, and what happens when the machine is
    called again with the state it has just produced.  Two theorems record
    behaviours that differ from what the source documents. *)

From S2P Require Import Prelude GoFloat GoFmt ApiTypes CanaryWeights CanaryVerdict CanaryState CanaryRules CanarySafety.
Import v1alpha1.
Local Open Scope Z_scope.
Local Open Scope go_scope.

Module evidence.
Import weights verdict state rules safety.

(** ** Following passes *)

(** The same pass again, on the state just produced and with no new round. *)
Definition again (i : Input) : Input :=
  MkInput (in_Now i) (in_Plan i) (out_State (Next i)) (in_TargetRevision i) (in_StableRevision i)
    (in_TotalReplicas i) (in_Deployment i) None (in_Approved i) (in_Aborted i).

(** The next pass after an advance, with a later clock and whatever deployment
    and round are observed then. *)
Definition after_advance (i : Input) (now : time.Time) (d : DeploymentObservation)
    (r : option Round) (approved : bool) : Input :=
  MkInput now (in_Plan i) (out_State (Next i)) (in_TargetRevision i) (in_StableRevision i)
    (in_TotalReplicas i) d r approved false.

(** ** Lemmas *)

(** A consumed verdict is what [Next] decides on. *)
Lemma Next_consumes i v :
  consumes (Observe i) v -> Next i = judge (Observe i) (in_State (Observe i)) v.
Proof.
  intros ((Hp & Hr & Ha) & Hst & Hav & Hw & (r & Er & Ev) & Hdue & Hc).
  unfold Next. cbv zeta. set (j := Observe i) in *. rewrite Ha, Hr. cbn [andb].
  rewrite bool_decide_eq_true_2 by done. cbn [negb andb]. rewrite andb_false_r.
  assert (Hd : deadline_exceeded j (in_State j) = false).
  { unfold deadline_exceeded. rewrite (proj2 (Z.eqb_neq _ 0) Hav : time.IsZero _ = false).
    rewrite (proj2 (Z.ltb_ge _ _) Hw : time.Before _ _ = false). cbn. apply andb_false_r. }
  assert (Han : analyse j (in_State j) = judge j (in_State j) v).
  { unfold analyse. cbv zeta. rewrite (proj2 (Z.eqb_neq _ 0) Hc).
    rewrite (proj2 (Z.eqb_neq _ 0) Hst : time.IsZero _ = false), Hd.
    rewrite (proj2 (Z.eqb_neq _ 0) Hav : time.IsZero _ = false).
    rewrite (proj2 (Z.ltb_ge _ _) Hw : time.Before _ _ = false).
    by rewrite Er, Hdue, Ev. }
  by destruct Hp as [-> | ->].
Qed.

(** Observing again changes nothing: the state already carries the target. *)
Lemma Observe_target_idem i : observe_target (Observe i) = observe_target i.
Proof.
  destruct (Observe_inputs i) as (_ & HP & _ & _ & HT & HD & _).
  destruct (Observe_state i) as (_ & _ & _ & HS & _).
  unfold observe_target, splitFor, currentWeight. by rewrite HP, HT, HD, HS.
Qed.

Lemma Observe_ready_idem i : observe_ready (Observe i) = observe_ready i.
Proof.
  destruct (Observe_inputs i) as (_ & HP & _ & _ & HT & HD & _).
  destruct (Observe_state i) as (HR & _ & _ & HS & _).
  unfold observe_ready, splitFor, currentWeight. cbv zeta. by rewrite HP, HT, HD, HS, HR.
Qed.

(** What [Observe] leaves of an active canary of the target revision: either
    nothing was reset, or the evidence is gone and the round with it. *)
Lemma Observe_outcome i :
  active i -> st_Revision (in_State i) = in_TargetRevision i ->
  let st' := in_State (Observe i) in
  (observe_ready i = true /\ observe_target i = st_ReadinessTarget (in_State i)
   /\ in_Round (Observe i) = in_Round i /\ st_Phase st' = st_Phase (in_State i)
   /\ st_LastAnalysis st' = st_LastAnalysis (in_State i)
   /\ st_counters st' = st_counters (in_State i)
   /\ st_AvailableSince st' = (if time.IsZero (st_AvailableSince (in_State i)) then in_Now i
                               else st_AvailableSince (in_State i))
   /\ st_ReadinessTarget st' = observe_target i)
  \/ (in_Round (Observe i) = None /\ st_Phase st' = PhaseWaiting
      /\ st_LastAnalysis st' = time.zero /\ st_ReadinessTarget st' = observe_target i
      /\ st_AvailableSince st' = (if observe_ready i then in_Now i else time.zero)
      /\ consecErr (st_counters st') = 0 /\ consecInconcl (st_counters st') = 0).
Proof.
  unfold active, Observe. cbv zeta. intros -> ->. rewrite bool_decide_eq_true_2 by done.
  cbn [negb orb in_State in_Round].
  destruct (bool_decide (observe_target i = st_ReadinessTarget (in_State i))) eqn:Ht;
    destruct (observe_ready i) eqn:Hr; cbn [negb orb andb].
  - left. go_bools. repeat go_split1; repeat split; cbn in *; congruence.
  - right. repeat go_split1; by repeat split.
  - right. repeat go_split1; by repeat split.
  - right. repeat go_split1; by repeat split.
Qed.

(** The two shapes of an input that [Observe] leaves as it is. *)
Lemma Observe_fix_ready i :
  active i -> st_Revision (in_State i) = in_TargetRevision i -> observe_ready i = true ->
  st_ReadinessTarget (in_State i) = observe_target i ->
  st_AvailableSince (in_State i) <> time.zero \/ st_AvailableSince (in_State i) = in_Now i ->
  Observe i = i.
Proof.
  unfold active. intros Ha Hr Hrd Ht Hav. unfold Observe. cbv zeta.
  rewrite Ha, Hr, Hrd, Ht, !bool_decide_eq_true_2 by done. cbn [negb orb andb].
  rewrite (bool_decide_eq_true_2 (rt_DeploymentUID _ = rt_DeploymentUID _)) by done.
  cbn [negb]. rewrite andb_false_r. destruct i as [now pl st tr sr tot dep rd ap ab]. cbn in *.
  unfold time.IsZero. destruct (Z.eqb_spec (st_AvailableSince st) 0) as [E|E]; [|done].
  f_equal. destruct st; unfold set_AvailableSince; cbn in *. f_equal.
  destruct Hav as [Hav|Hav]; [by destruct Hav|done].
Qed.

Lemma Observe_fix_waiting i :
  st_Phase (in_State i) = PhaseWaiting -> st_Revision (in_State i) = in_TargetRevision i ->
  observe_ready i = false -> st_ReadinessTarget (in_State i) = observe_target i ->
  st_AvailableSince (in_State i) = time.zero -> st_LastAnalysis (in_State i) = time.zero ->
  consecErr (st_counters (in_State i)) = 0 -> consecInconcl (st_counters (in_State i)) = 0 ->
  in_Round i = None -> Observe i = i.
Proof.
  intros Hp Hr Hrd Ht Hav Hla He Hi Hro. unfold Observe. cbv zeta.
  rewrite Hp, Hr, Hrd, Ht, !bool_decide_eq_true_2 by done. cbn [isActive negb orb andb].
  rewrite (bool_decide_eq_true_2 (rt_DeploymentUID _ = rt_DeploymentUID _)) by done.
  cbn [negb]. rewrite andb_false_r. destruct i as [now pl st tr sr tot dep rd ap ab]. cbn in *. subst rd.
  f_equal. destruct st as [ph rv srv fr ms sp av rt la sa [cf ce ci]]; cbn in *.
  rewrite <- Ht. clear Ht Hrd. by subst.
Qed.

(** Fresh evidence is missing at the deadline: the canary is rolled back. *)
Lemma deadline_fires i :
  active i -> st_Revision (in_State i) = in_TargetRevision i -> in_Aborted i = false ->
  snd (splitFor i (currentWeight (in_Plan i) (in_State i))) <> 0 ->
  st_StartedAt (in_State i) <> time.zero -> 0 < pl_ProgressDeadline (in_Plan i) ->
  time.Add (st_StartedAt (in_State i)) (pl_ProgressDeadline (in_Plan i)) <= in_Now i ->
  (st_Phase (in_State (Observe i)) = PhaseWaiting
   /\ st_LastAnalysis (in_State (Observe i)) = time.zero) ->
  st_AvailableSince (in_State (Observe i)) = time.zero
  \/ in_Now i < warm_until (in_Plan i) (st_AvailableSince (in_State (Observe i))) ->
  out_Action (Next i) = ActionRollback
  /\ out_Reason (Next i) = ReasonCanaryProgressDeadlineExceeded.
Proof.
  intros Hact Hrev Hab Hc Hsa Hd Hnow [Hp Hla] Hav.
  destruct (Observe_inputs i) as (HN & HP & HTR & _ & HT & _ & _ & HA).
  destruct (Observe_state i) as (HR & _ & _ & HS & HSA & _).
  unfold Next. cbv zeta. rewrite HA, Hab, HR, HTR, Hrev, Hp. cbn [andb isActive].
  rewrite bool_decide_eq_true_2 by done. cbn [negb]. unfold analyse. cbv zeta.
  unfold splitFor, currentWeight in *. rewrite HP, HT, HS, HSA, (proj2 (Z.eqb_neq _ 0) Hc).
  rewrite (proj2 (Z.eqb_neq _ 0) Hsa : time.IsZero _ = false).
  replace (deadline_exceeded _ _) with true; [done|]. symmetry.
  unfold deadline_exceeded. rewrite Hla, HP, HN, HSA.
  rewrite (proj2 (Z.eqb_neq _ 0) Hsa : time.IsZero _ = false).
  rewrite (proj2 (Z.ltb_lt _ _) Hd), (proj2 (Z.ltb_ge _ _) Hnow : time.Before _ _ = false). cbn.
  destruct Hav as [-> | Hav]; [done|].
  by rewrite (proj2 (Z.ltb_lt _ _) Hav : time.Before _ _ = true), orb_true_r.
Qed.

(** An input whose evidence is already bound, without a round, is held as it is. *)
Lemma Next_rehold j :
  Observe j = j -> analysing j -> st_StartedAt (in_State j) <> time.zero ->
  deadline_exceeded j (in_State j) = false -> in_Round j = None ->
  snd (splitFor j (currentWeight (in_Plan j) (in_State j))) <> 0 ->
  st_Phase (in_State j) =
    (if time.IsZero (st_AvailableSince (in_State j)) then PhaseWaiting else PhaseProgressing) ->
  exists m q, Next j = hold j (in_State j) (st_Phase (in_State j)) ReasonCanaryProgressing m q.
Proof.
  intros Ho (Hp & Hr & Ha) Hsa Hd Hro Hc Hph.
  assert (Hnext : Next j = analyse j (in_State j)).
  { unfold Next. cbv zeta. rewrite Ho, Ha, Hr, bool_decide_eq_true_2 by done.
    cbn [andb negb]. rewrite andb_false_r. by destruct Hp as [-> | ->]. }
  rewrite Hnext. unfold analyse. cbv zeta.
  rewrite (proj2 (Z.eqb_neq _ 0) Hc), (proj2 (Z.eqb_neq _ 0) Hsa : time.IsZero _ = false), Hd, Hro.
  destruct (time.IsZero (st_AvailableSince _)); rewrite Hph; [by eexists _, _|].
  destruct (time.Before _ _); by eexists _, _.
Qed.

(** ** Properties *)

(** C14: no verdict is read without its evidence.  If [Next] consumes a verdict,
    then at this instant every planned replica of the current deployment is
    updated, ready and available under the revision being evaluated, the
    persisted readiness target is the observed one, and it has held since a
    recorded time for at least the warm-up and a full window.  Without such a
    verdict nothing climbs, and the failure budget is kept or the canary
    restarted. *)
Theorem verdict_needs_evidence i :
  0 < time.dadd (pl_InitialDelay (in_Plan i)) (pl_Window (in_Plan i)) ->
  (forall v, consumes (Observe i) v ->
     observe_ready i = true /\ observe_target i = st_ReadinessTarget (in_State i)
     /\ st_AvailableSince (in_State i) <> time.zero
     /\ warm_until (in_Plan i) (st_AvailableSince (in_State i)) <= in_Now i
     /\ exists r, in_Round i = Some r /\ rd_Verdict r = v)
  /\ ((forall v, ~ consumes (Observe i) v) ->
      out_Action (Next i) <> ActionAdvance
      /\ (FailedChecks (out_State (Next i)) = FailedChecks (in_State i)
          \/ FailedChecks (out_State (Next i)) = 0)).
Proof.
  intros Hpos. destruct (Observe_inputs i) as (HN & HP & HTR & _).
  destruct (Observe_state i) as (HR & _ & _ & _ & _ & HF). split.
  - intros v ((Hp & Hr & Ha) & Hst & Hav & Hw & (r & Er & Ev) & Hdue & Hc).
    assert (Hact : active i).
    { unfold active. rewrite <- Observe_active. by destruct Hp as [-> | ->]. }
    destruct (Observe_outcome i Hact) as [H|H]; [by rewrite <- HR, <- HTR| |].
    + destruct H as (Hready & Htgt & Hround & _ & _ & _ & Hsince & _).
      rewrite Hsince, HP, HN in *. unfold time.IsZero in *.
      destruct (Z.eqb_spec (st_AvailableSince (in_State i)) 0) as [E|E].
      * exfalso. unfold warm_until, time.Add in Hw. lia.
      * rewrite Hround in Er. repeat split; eauto.
    + destruct H as (Hround & _). by rewrite Hround in Er.
  - unfold FailedChecks. rewrite <- HF. intros Hno.
    destruct (Next_rule i) as [| | | | | | | | | |v Hc]; try (by split; auto);
      unfold start, hold, paused.
    + destruct (splitFor _ _). split; [done|by right].
    + destruct (splitFor _ _), (in_Approved _); split; by auto.
    + destruct (splitFor _ _). split; [done|by left].
    + by destruct (Hno v).
Qed.

Lemma verdict_needs_evidence_witness :
  let i := sample_input (500 * time.Second)
             (sample_state PhaseProgressing 0 (100 * time.Second) 0 0 0) 2 VerdictPass in
  observe_ready i = true.
Proof.
  refine (proj1 (proj1 (verdict_needs_evidence _ _) VerdictPass _)); [reflexivity|].
  repeat split; try (vm_compute; done); [by right|by eexists].
Defined.

(** The canary climbs one rung at a time and only on a passing round.
    On declared verdicts [Next] advances exactly when a due Pass is consumed
    below the last rung; then the step rises by one and the
    next rung must collect its own evidence.  Otherwise the step stays or the
    canary restarts at zero. *)
Theorem climbs_on_pass_only i :
  declared_round i -> 0 <= st_Step (in_State i) < int32_max ->
  let st' := out_State (Next i) in
  (out_Action (Next i) = ActionAdvance <->
     consumes (Observe i) VerdictPass /\ st_Step (in_State i) < last_rung i)
  /\ (out_Action (Next i) = ActionAdvance ->
      st_Step st' = st_Step (in_State i) + 1 /\ st_AvailableSince st' = time.zero
      /\ st_LastAnalysis st' = time.zero /\ st_Phase st' = PhaseWaiting)
  /\ (out_Action (Next i) <> ActionAdvance ->
      st_Step st' = st_Step (in_State i) \/ st_Step st' = 0).
Proof.
  intros Hdec Hs. destruct (Observe_inputs i) as (_ & HP & _).
  destruct (Observe_state i) as (_ & _ & _ & HS & _).
  cbv zeta. unfold last_rung. rewrite <- HP, <- HS in *. split; [split|split].
  - destruct (Next_rule i) as [| | | | | | | | | |v Hc]; unfold start, hold, paused; try done.
    + by destruct (splitFor _ _).
    + by destruct (splitFor _ _), (in_Approved _).
    + by destruct (splitFor _ _).
    + destruct (judge_state (Observe i) (in_State (Observe i)) v) as (_ & _ & _ & _ & _ & H).
      intros E. destruct (H E) as [Hm Hlt].
      apply (declared_pass v (declared_observed i v Hdec Hc)) in Hm as ->. done.
  - intros [Hc Hlt]. rewrite (Next_consumes i _ Hc).
    unfold judge, advance. destruct (splitFor _ _) as [p c]. cbn [consume st_Step].
    rewrite (proj2 (Z.leb_gt _ _) Hlt). by destruct (splitFor _ _).
  - destruct (Next_rule i) as [| | | | | | | | | |v Hc]; unfold start, hold, paused; try done.
    + by destruct (splitFor _ _).
    + by destruct (splitFor _ _), (in_Approved _).
    + by destruct (splitFor _ _).
    + unfold judge, advance, hold, onInconclusive, splitFor.
      destruct v; repeat go_split1; try done; intros _; cbn;
        rewrite wrap32_id by go_lia; done.
  - destruct (Next_rule i) as [| | | | | | | | | |v Hc]; unfold start, hold, paused; try (by auto).
    + destruct (splitFor _ _); by right.
    + destruct (splitFor _ _), (in_Approved _); by left.
    + destruct (splitFor _ _); by left.
    + destruct (judge_state (Observe i) (in_State (Observe i)) v) as (_ & _ & _ & _ & Hst & _).
      intros Hna. left. by rewrite Hst, decide_False.
Qed.

Lemma climbs_on_pass_only_witness :
  let i := sample_input (500 * time.Second)
             (sample_state PhaseProgressing 0 (100 * time.Second) 0 0 0) 2 VerdictPass in
  st_Step (out_State (Next i)) = 1.
Proof.
  refine (proj1 (proj1 (proj2 (climbs_on_pass_only _ _ _)) _)); [by intros r [= <-]|vm_compute; done..].
Defined.

(** Observing is idempotent: binding the evidence to the rung twice in the
    same pass is the same as binding it once. *)
Theorem Observe_idempotent i : Observe (Observe i) = Observe i.
Proof.
  destruct (isActive (st_Phase (in_State i))) eqn:Ea; [|by rewrite !(Observe_id i (or_introl Ea))].
  destruct (decide (st_Revision (in_State i) = in_TargetRevision i)) as [Er|Er];
    [|by rewrite !(Observe_id i (or_intror Er))].
  destruct (Observe_inputs i) as (HN & _ & HTR & _). destruct (Observe_state i) as (HR & _).
  assert (Hrev : st_Revision (in_State (Observe i)) = in_TargetRevision (Observe i))
    by (by rewrite HR, HTR).
  assert (Hact : active (Observe i)) by (unfold active; by rewrite Observe_active).
  destruct (Observe_outcome i Ea Er) as [H|H].
  - destruct H as (Hrd & _ & _ & _ & _ & _ & Hav & Ht).
    apply Observe_fix_ready; rewrite ?Observe_ready_idem, ?Observe_target_idem; try done.
    rewrite Hav, HN. unfold time.IsZero.
    destruct (Z.eqb_spec (st_AvailableSince (in_State i)) 0); [by right|by left].
  - destruct H as (Hro & Hp & Hla & Ht & Hav & He & Hi).
    destruct (observe_ready i) eqn:Hrd.
    + apply Observe_fix_ready; rewrite ?Observe_ready_idem, ?Observe_target_idem; try done.
      right. by rewrite Hav, HN.
    + apply Observe_fix_waiting; rewrite ?Observe_ready_idem, ?Observe_target_idem; try done.
Qed.

(** The progress deadline is enforced.  A canary in flight that is not
    ready once the deadline since its start has passed is rolled back at the
    next pass, paused or not, with the reason that names the deadline; so a
    candidate that never starts cannot hold the rollout forever. *)
Theorem unready_rolled_back_at_deadline i :
  active i -> st_Revision (in_State i) = in_TargetRevision i -> in_Aborted i = false ->
  snd (splitFor i (currentWeight (in_Plan i) (in_State i))) <> 0 ->
  st_StartedAt (in_State i) <> time.zero -> 0 < pl_ProgressDeadline (in_Plan i) ->
  time.Add (st_StartedAt (in_State i)) (pl_ProgressDeadline (in_Plan i)) <= in_Now i ->
  observe_ready i = false ->
  out_Action (Next i) = ActionRollback
  /\ out_Reason (Next i) = ReasonCanaryProgressDeadlineExceeded.
Proof.
  intros Hact Hrev Hab Hc Hsa Hd Hnow Hrd.
  destruct (Observe_outcome i Hact Hrev) as [H|H]; [by destruct H as [H _]; rewrite H in Hrd|].
  destruct H as (_ & Hp & Hla & _ & Hav & _). rewrite Hrd in Hav.
  apply deadline_fires; auto.
Qed.

Lemma unready_rolled_back_at_deadline_witness :
  let i := sample_input (800 * time.Second)
             (sample_state PhaseProgressing 0 (100 * time.Second) 0 0 0) 1 VerdictPass in
  out_Action (Next i) = ActionRollback.
Proof. refine (proj1 (unready_rolled_back_at_deadline _ _ _ _ _ _ _ _ _)); vm_compute; done. Defined.

(** The machine never forgets to come back.  With a positive interval, a
    decision that leaves the rollout in flight without a human gate asks for a
    strictly positive delay. *)
Theorem requeue_positive i :
  0 < pl_Interval (in_Plan i) ->
  out_Action (Next i) <> ActionNone -> out_Action (Next i) <> ActionRollback ->
  out_Action (Next i) <> ActionPause -> 0 < out_RequeueAfter (Next i).
Proof.
  destruct (Observe_inputs i) as (HN & HP & _). rewrite <- HP. intros Hint.
  destruct (Next_rule i) as [| | | | | | | | |p m q Ha Hs Hd Hn Hph Hq|v Hc];
    unfold start, paused, hold; cbn; try done.
  - by destruct (splitFor _ _).
  - by destruct (splitFor _ _), (in_Approved _).
  - destruct (splitFor _ _). cbn. intros _ _ _. destruct Hq as [-> | [[Hw ->] | ->]]; [done| |].
    + by apply Sub_pos.
    + unfold nextAnalysisIn. repeat go_split1; go_bools; done || lia.
  - unfold judge, advance, hold, onInconclusive, splitFor.
    destruct v; repeat go_split1; try done; intros; cbn; done.
Qed.

Lemma requeue_positive_witness :
  let i := sample_input (150 * time.Second)
             (sample_state PhaseProgressing 0 (100 * time.Second) 0 0 0) 2 VerdictPass in
  0 < out_RequeueAfter (Next i) /\ out_RequeueAfter (Next i) = 70 * time.Second.
Proof. split; [apply requeue_positive; vm_compute; done|vm_compute; reflexivity]. Defined.

(** A state that keeps the evidence [Observe] bound is left as it is by the next
    observation. *)
Lemma Observe_again i st' :
  active i -> st_Revision (in_State i) = in_TargetRevision i ->
  let j := Observe i in
  st_Revision st' = st_Revision (in_State j) -> st_Step st' = st_Step (in_State j) ->
  st_ReadinessTarget st' = st_ReadinessTarget (in_State j) ->
  st_AvailableSince st' = st_AvailableSince (in_State j) -> isActive (st_Phase st') = true ->
  (observe_ready i = false ->
     st_Phase st' = PhaseWaiting /\ st_LastAnalysis st' = st_LastAnalysis (in_State j)
     /\ st_counters st' = st_counters (in_State j)) ->
  let k := MkInput (in_Now i) (in_Plan i) st' (in_TargetRevision i) (in_StableRevision i)
             (in_TotalReplicas i) (in_Deployment i) None (in_Approved i) (in_Aborted i) in
  Observe k = k.
Proof.
  intros Ha Hr j HR HS HT HA Hp Hun k.
  destruct (Observe_state i) as (HR' & _ & _ & HS' & _). fold j in HR', HS'.
  assert (Htk : observe_target k = observe_target i).
  { unfold observe_target, splitFor, currentWeight. cbn. by rewrite HS, HS'. }
  assert (Hrk : observe_ready k = observe_ready i).
  { unfold observe_ready, splitFor, currentWeight. cbn. by rewrite HS, HS', HR, HR'. }
  assert (Hrev : st_Revision (in_State k) = in_TargetRevision k) by (cbn; by rewrite HR, HR').
  destruct (Observe_outcome i Ha Hr) as [H|H]; fold j in H.
  - destruct H as (Hrd & _ & _ & _ & _ & _ & Hav & Ht).
    apply Observe_fix_ready; rewrite ?Hrk, ?Htk; try done; cbn; [by rewrite HT|].
    rewrite HA, Hav. unfold time.IsZero.
    destruct (Z.eqb_spec (st_AvailableSince (in_State i)) 0); [by right|by left].
  - destruct H as (Hro & _ & Hla & Ht & Hav & He & Hi). destruct (observe_ready i) eqn:Hrd.
    + apply Observe_fix_ready; rewrite ?Hrk, ?Htk; try done; cbn; [by rewrite HT|].
      right. by rewrite HA, Hav.
    + destruct (Hun eq_refl) as (Hw & Hl & Hcn).
      apply Observe_fix_waiting; rewrite ?Hrk, ?Htk; cbn; try done; congruence.
Qed.

(** The capacity hold is stable as well: nothing was started. *)
Lemma capacityHold_again i :
  in_Aborted i = false -> snd (Split (in_TotalReplicas i) (weightAt (in_Plan i) 0)) = 0 ->
  st_Step (in_State i) = 0 -> st_Revision (in_State i) = in_TargetRevision i ->
  st_Phase (in_State i) = PhaseWaiting -> Next i = capacityHold i.
Proof.
  intros Hab Hz Hs Hr Hp.
  destruct (Observe_inputs i) as (HN & HP & HTR & HSR & HT & _ & _ & HA).
  destruct (Observe_state i) as (HR & _ & HF & HS & _).
  assert (Ha : st_Phase (in_State (Observe i)) = PhaseWaiting).
  { destruct (Observe_outcome i) as [H|H]; try done; [by unfold active; rewrite Hp| |].
    - destruct H as (_ & _ & _ & -> & _). done.
    - by destruct H as (_ & -> & _). }
  unfold Next. cbv zeta. rewrite HA, Hab, HR, HTR, Hr, Ha. cbn [andb isActive].
  rewrite bool_decide_eq_true_2 by done. cbn [negb]. unfold analyse. cbv zeta.
  unfold splitFor, currentWeight. rewrite HP, HT, HS, Hs, Hz. cbn [Z.eqb].
  unfold capacityHold. by rewrite HP, HT, HTR, HSR, HF.
Qed.

(** A verdict that leads to a wait is consumed by a hold at the current rung. *)
Lemma judge_wait i st v :
  out_Action (judge i st v) = ActionWait ->
  exists reason m q, judge i st v = hold i (consume i st v) PhaseProgressing reason m q.
Proof.
  unfold judge. destruct (splitFor i (currentWeight (in_Plan i) st)) as [p c] eqn:E.
  assert (E' : splitFor i (currentWeight (in_Plan i) (consume i st VerdictInconclusive)) = (p, c))
    by done.
  destruct v; unfold advance, onInconclusive; repeat go_split1; intros; try done;
    try (by eexists _, _, _); unfold hold; rewrite E'; by eexists _, _, _.
Qed.

(** The next pass after a hold holds again. *)
Lemma hold_again i st1 reason m q :
  let j := Observe i in
  let st' := set_Phase st1 (if time.IsZero (st_AvailableSince st1) then PhaseWaiting
                            else PhaseProgressing) in
  analysing j -> Next i = hold j st1 (st_Phase st') reason m q ->
  st_Revision st1 = st_Revision (in_State j) -> st_Step st1 = st_Step (in_State j) ->
  st_ReadinessTarget st1 = st_ReadinessTarget (in_State j) ->
  st_AvailableSince st1 = st_AvailableSince (in_State j) ->
  st_StartedAt st1 <> time.zero -> in_Now i <> time.zero ->
  snd (splitFor j (currentWeight (in_Plan j) st1)) <> 0 ->
  (observe_ready i = false -> st1 = in_State j) ->
  deadline_exceeded j st1 = false ->
  exists m' q', Next (again i) = hold j st' (st_Phase st') ReasonCanaryProgressing m' q'.
Proof.
  intros j st' (Hp & Hr & Hab) Hnext HR HS HT HA Hsa Hnow Hc Hun Hd.
  assert (Hact : active i).
  { unfold active. rewrite <- Observe_active. fold j. by destruct Hp as [-> | ->]. }
  destruct (Observe_inputs i) as (HN & HP & HTR & HSR & HTo & HDe & HAp & HAb).
  destruct (Observe_state i) as (HRi & _ & _ & HSi & _).
  fold j in HN, HP, HTR, HSR, HTo, HDe, HAp, HAb, HRi, HSi.
  assert (Hri : st_Revision (in_State i) = in_TargetRevision i) by (rewrite <- HRi, <- HTR; done).
  assert (Hst : out_State (Next i) = st').
  { rewrite Hnext. unfold hold. by destruct (splitFor _ _). }
  assert (Hk : Observe (again i) = again i).
  { unfold again. rewrite Hst. apply Observe_again; try done; cbn.
    - by destruct (time.IsZero _).
    - intros Hrd. rewrite (Hun Hrd). repeat split.
      destruct (Observe_outcome i Hact Hri) as [H|H]; fold j in H.
      + destruct H as [H _]. by rewrite Hrd in H.
      + destruct H as (_ & _ & _ & _ & Hav & _). by rewrite Hav, Hrd. }
  assert (Ek : again i = MkInput (in_Now j) (in_Plan j) st' (in_TargetRevision j)
                 (in_StableRevision j) (in_TotalReplicas j) (in_Deployment j) None
                 (in_Approved j) (in_Aborted j)).
  { unfold again. by rewrite Hst, HN, HP, HTR, HSR, HTo, HDe, HAp, HAb. }
  destruct (Next_rehold (again i) Hk) as (m' & q' & E).
  - rewrite Ek. repeat split; cbn; [destruct (time.IsZero _); auto|by rewrite HR|done].
  - rewrite Ek. done.
  - rewrite Ek. done.
  - rewrite Ek. done.
  - rewrite Ek. done.
  - rewrite Ek. done.
  - exists m', q'. rewrite E, Ek. done.
Qed.

(** Waiting is idempotent.  When [Next] answers Wait and no abort is
    pending, calling it again at the same instant on the state it produced, with
    no new round, waits again with the same state and the same split; a
    reconcile may run any number of times between two changes. *)
Theorem wait_settles i :
  ladder (in_Plan i) -> int32_ok (in_TotalReplicas i) -> in_Now i <> time.zero ->
  in_Aborted i = false -> out_Action (Next i) = ActionWait ->
  out_Action (Next (again i)) = ActionWait /\ out_State (Next (again i)) = out_State (Next i)
  /\ out_Primary (Next (again i)) = out_Primary (Next i)
  /\ out_Canary (Next (again i)) = out_Canary (Next i).
Proof.
  intros Hl Hok Hnow Hab Hw.
  destruct (Observe_inputs i) as (HN & HP & HTR & HSR & HTo & HDe & HAp & HAb).
  destruct (Observe_state i) as (_ & _ & HF & _).
  pose proof (Next_rule i) as Hrule. remember (Next i) as o eqn:Eo.
  assert (Hsame : forall st1 st2 p p' r r' m m' q q',
    st_Step st1 = st_Step st2 -> set_Phase st1 p = set_Phase st2 p' ->
    out_Action (hold (Observe i) st1 p r m q) = ActionWait
    /\ out_State (hold (Observe i) st1 p r m q) = out_State (hold (Observe i) st2 p' r' m' q')
    /\ out_Primary (hold (Observe i) st1 p r m q) = out_Primary (hold (Observe i) st2 p' r' m' q')
    /\ out_Canary (hold (Observe i) st1 p r m q) = out_Canary (hold (Observe i) st2 p' r' m' q')).
  { intros. unfold hold, currentWeight. rewrite H. by destruct (splitFor _ _). }
  destruct Hrule as [| Hcase [s Hs] | m Hc | | | | | | |p m q Ha Hsa Hd Hn Hph Hq|v Hc]; try done.
  - rewrite capacityHold_again; unfold again; rewrite <- ?Eo; cbn; try done.
    + by rewrite HTo, HTR, HSR.
    + rewrite <- HP, <- HTo. eapply no_capacity_first; [by rewrite HP|by rewrite HTo|apply Hs].
  - revert Hw. unfold start. by destruct (splitFor _ _).
  - revert Hw. unfold paused. by destruct (splitFor _ _), (in_Approved _).
  - subst p.
    destruct (hold_again i (in_State (Observe i)) ReasonCanaryProgressing m q) as (m' & q' & ->);
      try done.
    by apply Hsame.
  - destruct (judge_wait _ _ _ Hw) as (reason & m & q & E). destruct Hc as (Ha & Hsa & Hav & Hwu & (r & Er & Ev) & Hdue & Hn).
    assert (Hz : time.IsZero (st_AvailableSince (in_State (Observe i))) = false) by (by apply Z.eqb_neq).
    destruct (hold_again i (consume (Observe i) (in_State (Observe i)) v) reason m q) as (m' & q' & ->);
      cbn [consume st_AvailableSince] in *; rewrite ?Hz; cbn; try done.
    + by rewrite <- Eo.
    + intros Hrd. exfalso. destruct Ha as (Hp & Hr & _).
      destruct (Observe_outcome i) as [H|H].
      * unfold active. rewrite <- Observe_active. by destruct Hp as [-> | ->].
      * destruct (Observe_state i) as (<- & _). by rewrite <- HTR.
      * destruct H as [H _]. by rewrite Hrd in H.
      * destruct H as [H _]. by rewrite H in Er.
    + unfold deadline_exceeded. cbn. rewrite HN. by rewrite (proj2 (Z.eqb_neq _ 0) Hnow : time.IsZero _ = false).
    + rewrite E. by apply Hsame.
Qed.

Lemma wait_settles_witness :
  let i := sample_input (500 * time.Second)
             (sample_state PhaseProgressing 0 (100 * time.Second) 0 0 0) 2 VerdictFail in
  out_Action (Next i) = ActionWait /\ out_State (Next (again i)) = out_State (Next i).
Proof.
  split; [vm_compute; reflexivity|].
  refine (proj1 (proj2 (wait_settles _ _ _ _ _ _))); try (vm_compute; done).
  repeat split; repeat constructor; vm_compute; done.
Defined.

Lemma advance_state i :
  0 <= st_Step (in_State i) < int32_max -> out_Action (Next i) = ActionAdvance ->
  let st' := out_State (Next i) in
  analysing (Observe i) /\ st_Revision st' = st_Revision (in_State i)
  /\ st_StartedAt st' = st_StartedAt (in_State i) /\ st_StartedAt st' <> time.zero
  /\ st_AvailableSince st' = time.zero /\ st_LastAnalysis st' = time.zero
  /\ st_Phase st' = PhaseWaiting /\ st_Step st' = st_Step (in_State i) + 1.
Proof.
  intros Hs. destruct (Observe_state i) as (HR & _ & _ & HS & HSA & _).
  cbv zeta. rewrite <- HR, <- HSA, <- HS in *.
  destruct (Next_rule i) as [| | | | | | | | | |v Hc]; unfold start, hold, paused; try done.
  - by destruct (splitFor _ _).
  - by destruct (splitFor _ _), (in_Approved _).
  - by destruct (splitFor _ _).
  - destruct Hc as (Ha & Hsa & _). revert Hsa.
    unfold judge, advance, hold, onInconclusive, splitFor.
    destruct v; repeat go_split1; try done; intros Hsa _; cbn in *;
      rewrite wrap32_id by go_lia; done.
Qed.

(** A climbing canary can be rejected by the clock.  The deadline is
    measured from the start of the whole rollout and every rung resets the
    analysis clock, so a canary that advances once that deadline has passed is
    rolled back, and its revision rejected, at the very next pass, although
    every round passed and whatever the deployment then reports.  The API
    documents the deadline as time without progress. *)
Theorem advance_past_deadline_is_rejected i now d r approved :
  0 <= st_Step (in_State i) < int32_max -> out_Action (Next i) = ActionAdvance ->
  0 < pl_ProgressDeadline (in_Plan i) ->
  time.Add (st_StartedAt (in_State i)) (pl_ProgressDeadline (in_Plan i)) <= in_Now i ->
  in_Now i <= now -> 0 < time.dadd (pl_InitialDelay (in_Plan i)) (pl_Window (in_Plan i)) ->
  snd (Split (in_TotalReplicas i) (weightAt (in_Plan i) (st_Step (in_State i) + 1))) <> 0 ->
  let j := after_advance i now d r approved in
  out_Action (Next j) = ActionRollback
  /\ out_Reason (Next j) = ReasonCanaryProgressDeadlineExceeded
  /\ st_FailedRevision (out_State (Next j)) = in_TargetRevision i.
Proof.
  intros Hs Hadv Hd Hdl Hnow Hpos Hc j.
  destruct (advance_state i Hs Hadv) as ((Hp & Hr & Hab) & HR & HSA & Hsa & Hav & Hla & Hph & Hst).
  destruct (Observe_inputs i) as (_ & _ & HTR & _). destruct (Observe_state i) as (HRi & _).
  assert (Hrev : st_Revision (in_State j) = in_TargetRevision j).
  { cbn. by rewrite HR, <- HTR, <- HRi. }
  assert (Hact : active j) by (unfold active; cbn; by rewrite Hph).
  assert (Hroll : out_Action (Next j) = ActionRollback
                  /\ out_Reason (Next j) = ReasonCanaryProgressDeadlineExceeded).
  { apply deadline_fires; try done; cbn.
    - unfold splitFor, currentWeight. cbn. by rewrite Hst.
    - by rewrite HSA; lia.
    - destruct (Observe_outcome j Hact Hrev) as [H|H].
      + destruct H as (_ & _ & _ & -> & -> & _). cbn. by rewrite Hph, Hla.
      + destruct H as (_ & -> & -> & _). done.
    - destruct (Observe_outcome j Hact Hrev) as [H|H].
      + destruct H as (_ & _ & _ & _ & _ & _ & -> & _). cbn. rewrite Hav. right.
        unfold warm_until, time.Add. cbn. lia.
      + destruct H as (_ & _ & _ & _ & -> & _). destruct (observe_ready j); [right|by left].
        unfold warm_until, time.Add. cbn. lia. }
  destruct Hroll as [Ha Hre]. split; [done|]. split; [done|].
  destruct (Observe_state j) as (HRj & _).
  assert (Hf : forall o, rule (Observe j) o -> out_Action o = ActionRollback ->
             st_FailedRevision (out_State o) = st_Revision (in_State (Observe j))).
  { intros o Ho. destruct Ho as [| | | | | | | | | |v Hcv]; unfold start, hold, paused; try done.
    - by destruct (splitFor _ _).
    - by destruct (splitFor _ _), (in_Approved _).
    - by destruct (splitFor _ _).
    - unfold judge, advance, hold, onInconclusive, splitFor.
      destruct v; repeat go_split1; done. }
  rewrite (Hf _ (Next_rule j) Ha), HRj. apply Hrev.
Qed.

Lemma advance_past_deadline_is_rejected_witness :
  let i := sample_input (800 * time.Second)
             (sample_state PhaseProgressing 0 (100 * time.Second) 0 0 0) 2 VerdictPass in
  out_Action (Next i) = ActionAdvance
  /\ out_Action (Next (after_advance i (830 * time.Second) (sample_dep 5) None false))
     = ActionRollback.
Proof.
  split; [vm_compute; reflexivity|].
  refine (proj1 (advance_past_deadline_is_rejected _ _ _ _ _ _ _ _ _ _ _ _)); vm_compute; done.
Defined.

(** An unrecognised verdict is ranked as the most alarming outcome of a
    round but is acted on as a pass.  If some check of a round carries a verdict
    outside the declared ones, the round's verdict is such a verdict; and when
    the machine consumes it, it climbs below the last rung and promotes at it. *)
Theorem unrecognised_verdict_climbs i checks c s :
  c ∈ checks -> mc_Verdict c = VerdictOther s ->
  exists s', rd_Verdict (Aggregate checks) = VerdictOther s'
  /\ (consumes (Observe i) (VerdictOther s') ->
      out_Action (Next i) =
        if last_rung (Observe i) <=? st_Step (in_State (Observe i))
        then (if pl_RequireApproval (in_Plan (Observe i)) then ActionPause else ActionPromote)
        else ActionAdvance).
Proof.
  intros Hc Hv. destruct (Aggregate_max checks) as [Hub (c1 & _ & _)]; [by intros ->; inversion Hc|].
  specialize (Hub c Hc). rewrite Hv in Hub. cbn in Hub.
  destruct (rd_Verdict (Aggregate checks)) as [| | | |s'] eqn:E; cbn in Hub; try lia.
  exists s'. split; [done|]. intros Hcon. rewrite (Next_consumes _ _ Hcon).
  unfold judge, advance, last_rung. destruct (splitFor _ _). cbn [consume st_Step].
  destruct (_ <=? _); [destruct (pl_RequireApproval _)|]; by try destruct (splitFor _ _).
Qed.

Lemma unrecognised_verdict_climbs_witness :
  exists s', rd_Verdict (Aggregate [MkMetricCheck "ttft" (VerdictOther "Degraded") "" "" ""])
             = VerdictOther s'.
Proof.
  destruct (unrecognised_verdict_climbs
              (sample_input (500 * time.Second)
                 (sample_state PhaseProgressing 0 (100 * time.Second) 0 0 0) 2 VerdictPass)
              [MkMetricCheck "ttft" (VerdictOther "Degraded") "" "" ""]
              (MkMetricCheck "ttft" (VerdictOther "Degraded") "" "" "") "Degraded")
    as (s' & H & _); [by left|done|by exists s'].
Defined.

End evidence.
