(* ===== verification/CanaryRuns.v ===== *)
(** * Runs of the canary state machine

    A run feeds the state each pass produced back into the next one, under an
    arbitrary sequence of environments (clock, observations, rounds, operator
    signals).  The theorems hold over whole runs: a rejection sticks, a
    promotion is backed by a Pass on every rung, and the machine refines
    an abstract rollout protocol. *)

From S2P Require Import Prelude GoFloat GoFmt ApiTypes CanaryWeights CanaryVerdict CanaryState CanaryRules CanarySafety CanaryEvidence.
Import v1alpha1.
Local Open Scope Z_scope.
Local Open Scope go_scope.

Module runs.
Import weights verdict state rules safety evidence.

(** What one pass sees besides the persisted state. *)
Record Env := MkEnv {
  e_Now : time.Time;
  e_TargetRevision : string;
  e_StableRevision : string;
  e_TotalReplicas : Z;
  e_Deployment : DeploymentObservation;
  e_Round : option Round;
  e_Approved : bool;
  e_Aborted : bool }.

Definition input_of (p : Plan) (st : State) (e : Env) : Input :=
  MkInput (e_Now e) p st (e_TargetRevision e) (e_StableRevision e) (e_TotalReplicas e)
    (e_Deployment e) (e_Round e) (e_Approved e) (e_Aborted e).

(** The round of a pass, if any, carries one of the declared verdicts. *)
Definition declared_env (e : Env) : Prop :=
  forall r, e_Round e = Some r -> declared (rd_Verdict r) = true.

(** The passes of a run, oldest first. *)
Fixpoint run (p : Plan) (st : State) (es : list Env) : list (Input * Output) :=
  match es with
  | [] => []
  | e :: es' =>
      let i := input_of p st e in
      let o := Next i in
      (i, o) :: run p (out_State o) es'
  end.

(** The verdict a pass consumes, if any. *)
Definition consumed (i : Input) : option Verdict :=
  let j := Observe i in
  let st := in_State j in
  if ((st_Phase st == PhaseWaiting) || (st_Phase st == PhaseProgressing))
     && (st_Revision st == in_TargetRevision j) && negb (in_Aborted j)
     && negb (time.IsZero (st_StartedAt st)) && negb (time.IsZero (st_AvailableSince st))
     && negb (time.Before (in_Now j) (warm_until (in_Plan j) (st_AvailableSince st)))
     && DueForAnalysis (in_Now j) (in_Plan j) st
     && negb (snd (splitFor j (currentWeight (in_Plan j) st)) =? 0)
  then match in_Round j with Some r => Some (rd_Verdict r) | None => None end
  else None.

(** The rungs on which a Pass was consumed since the canary in flight was
    started; a start, another revision or another starting time begins anew. *)
Definition passed (acc : list Z) (io : Input * Output) : list Z :=
  let (i, o) := io in
  if (out_Action o == ActionStart) || (st_Revision (out_State o) != st_Revision (in_State i))
     || (st_StartedAt (out_State o) != st_StartedAt (in_State i)) then []
  else
    match consumed i with
    | Some VerdictPass => st_Step (in_State i) :: acc
    | _ => acc
    end.

(** ** The abstract rollout protocol *)

Inductive abstract :=
  | AIdle
  | AClimbing (rev : string) (step : Z)
  | AGated (rev : string) (step : Z)
  | APromoting (rev : string)
  | ARejected (rev : string).

Definition abs (st : State) : abstract :=
  match st_Phase st with
  | PhaseIdle | PhaseUnknown _ => AIdle
  | PhaseWaiting | PhaseProgressing => AClimbing (st_Revision st) (st_Step st)
  | PhasePaused => AGated (st_Revision st) (st_Step st)
  | PhasePromoting => APromoting (st_Revision st)
  | PhaseRollingBack => ARejected (st_Revision st)
  end.

(** Moves of the protocol over a ladder of [n] rungs, labelled with the action
    the operator carries out. *)
Inductive protocol (n : Z) : abstract -> Action -> abstract -> Prop :=
  | p_rest a : (forall r s, a <> AClimbing r s) -> (forall r s, a <> AGated r s) ->
      protocol n a ActionNone AIdle
  | p_begin a r : protocol n a ActionStart (AClimbing r 0)
  | p_no_capacity a r : protocol n a ActionWait (AClimbing r 0)
  | p_direct a r : n = 0 -> protocol n a ActionPromote (APromoting r)
  | p_hold r s : protocol n (AClimbing r s) ActionWait (AClimbing r s)
  | p_climb r s : s + 1 < n -> protocol n (AClimbing r s) ActionAdvance (AClimbing r (s + 1))
  | p_gate r s : n <= s + 1 -> protocol n (AClimbing r s) ActionPause (AGated r s)
  | p_win r s : protocol n (AClimbing r s) ActionPromote (APromoting r)
  | p_gated r s : protocol n (AGated r s) ActionPause (AGated r s)
  | p_approve r s : protocol n (AGated r s) ActionPromote (APromoting r)
  | p_reopen r s : protocol n (AGated r s) ActionWait (AClimbing r s)
  | p_reject_climb r s : protocol n (AClimbing r s) ActionRollback (ARejected r)
  | p_reject_gate r s : protocol n (AGated r s) ActionRollback (ARejected r)
  | p_converge r : protocol n (APromoting r) ActionPromote (APromoting r).

(** What a run knows about the passes behind it: every rung below the current
    one has been passed by the current canary, and at a gate or a promotion every
    rung has. *)
Definition backed (p : Plan) (st : State) (acc : list Z) : Prop :=
  let len := Z.of_nat (length (pl_Weights p)) in
  (isActive (st_Phase st) = true -> 0 <= st_Step st < len /\ forall k, 0 <= k < st_Step st -> In k acc)
  /\ (st_Phase st = PhasePaused \/ st_Phase st = PhasePromoting -> forall k, 0 <= k < len -> In k acc).

(** The state after a run. *)
Definition final (p : Plan) (st : State) (es : list Env) : State :=
  foldl (fun st e => out_State (Next (input_of p st e))) st es.

(** ** Lemmas *)

Lemma consumed_consumes i v : consumed i = Some v -> consumes (Observe i) v.
Proof.
  unfold consumed. cbv zeta. set (j := Observe i). destruct (_ && _) eqn:E; [|done]. go_bools.
  destruct (in_Round j) as [r|] eqn:Er; [|done]. injection 1 as <-.
  unfold time.IsZero, time.Before in *. go_bools. repeat split; try done; [|by exists r].
  match goal with H : _ || _ = true |- _ => apply orb_true_iff in H; destruct H as [H|H] end;
    apply bool_decide_eq_true in H; auto.
Qed.

Lemma consumes_consumed i v : consumes (Observe i) v -> consumed i = Some v.
Proof.
  intros ((Hp & Hr & Ha) & Hst & Hav & Hw & (r & Er & Ev) & Hdue & Hc).
  unfold consumed. cbv zeta. set (j := Observe i) in *. rewrite Er, Hr, Ha, Hdue.
  rewrite (proj2 (Z.eqb_neq _ 0) Hst : time.IsZero _ = false).
  rewrite (proj2 (Z.eqb_neq _ 0) Hav : time.IsZero _ = false).
  rewrite (proj2 (Z.ltb_ge _ _) Hw : time.Before _ _ = false), (proj2 (Z.eqb_neq _ 0) Hc).
  rewrite (bool_decide_eq_true_2 (in_TargetRevision j = in_TargetRevision j)) by done.
  destruct Hp as [-> | ->]; cbn; by rewrite Ev.
Qed.

Lemma run_snoc p st es e :
  run p st (es ++ [e]) =
  run p st es ++ [(input_of p (final p st es) e, Next (input_of p (final p st es) e))].
Proof. revert st. induction es as [|e' es IH]; intros st; cbn; [done|]. by rewrite IH. Qed.

Lemma rejected_step p st e :
  st_Phase st = PhaseIdle \/ st_Phase st = PhaseRollingBack ->
  e_TargetRevision e = st_FailedRevision st -> e_TargetRevision e <> "" ->
  let o := Next (input_of p st e) in
  out_State o = idle_state (st_FailedRevision st) /\ out_Action o = ActionNone
  /\ out_Canary o = 0 /\ out_Primary o = e_TotalReplicas e
  /\ out_Reason o = ReasonCanaryRolledBack.
Proof.
  intros Hp Ht Hne. unfold Next. cbv zeta.
  rewrite Observe_id by (left; cbn; by destruct Hp as [-> | ->]).
  cbn [input_of in_Aborted in_State in_TargetRevision].
  assert (Hact : isActive (st_Phase st) = false) by (by destruct Hp as [-> | ->]).
  rewrite Hact, andb_false_r. cbn [andb].
  assert (Hb : begin (input_of p st e) =
    Output_of (idle_state (st_FailedRevision st)) ActionNone 0 (e_TotalReplicas e) 0 0 0
      ReasonCanaryRolledBack
      ("Revision " +:+ e_TargetRevision e +:+ " was rolled back and will not be retried; "
         +:+ "change the spec to try again")).
  { unfold begin. cbn. by rewrite (bool_decide_eq_false_2 _ Hne), (bool_decide_eq_true_2 _ Ht). }
  destruct Hp as [-> | ->]; by rewrite Hb.
Qed.

(** A rollback leaves the state rejecting the revision it rolled back. *)
Lemma rollback_state i :
  out_Action (Next i) = ActionRollback ->
  st_Phase (out_State (Next i)) = PhaseRollingBack
  /\ st_FailedRevision (out_State (Next i)) = st_Revision (in_State i).
Proof.
  destruct (Observe_state i) as (<- & _).
  destruct (Next_rule i) as [| | | | | | | | | |v Hc]; unfold start, hold, paused; try done.
  - by destruct (splitFor _ _).
  - by destruct (splitFor _ _), (in_Approved _).
  - by destruct (splitFor _ _).
  - unfold judge, advance, hold, onInconclusive, splitFor. destruct v; repeat go_split1; done.
Qed.

Lemma passed_same acc i :
  out_Action (Next i) <> ActionStart -> st_Revision (out_State (Next i)) = st_Revision (in_State i) ->
  st_StartedAt (out_State (Next i)) = st_StartedAt (in_State i) ->
  passed acc (i, Next i) = match consumed i with Some VerdictPass => st_Step (in_State i) :: acc | _ => acc end.
Proof.
  intros Ha Hr Hs. unfold passed.
  by rewrite (bool_decide_eq_false_2 _ Ha), (bool_decide_eq_true_2 _ Hr), (bool_decide_eq_true_2 _ Hs).
Qed.

(** The states a judged round can lead to. *)
Lemma judge_backed i st v acc :
  let p := in_Plan i in
  let len := Z.of_nat (length (pl_Weights p)) in
  len <= int32_max -> pl_OnInconclusive p <> InconclusivePromote -> declared v = true ->
  0 <= st_Step st < len -> (forall k, 0 <= k < st_Step st -> In k acc) ->
  st_Phase st = PhaseWaiting \/ st_Phase st = PhaseProgressing ->
  backed p (out_State (judge i st v)) (match v with VerdictPass => st_Step st :: acc | _ => acc end)
  /\ st_Revision (out_State (judge i st v)) = st_Revision st
  /\ st_StartedAt (out_State (judge i st v)) = st_StartedAt st
  /\ out_Action (judge i st v) <> ActionStart.
Proof.
  intros p len Hlen Hpol Hd Hs Hacc Hph. subst p len.
  destruct (judge_state i st v) as (Hr & Hsa & _). split; [|split; [done|split; [done|]]];
    unfold judge, hold, advance, onInconclusive, splitFor;
    rewrite (wrap32_id (Z.of_nat _)) by go_lia; rewrite (wrap32_id (_ - 1)) by go_lia;
    destruct v; repeat go_split1; try done; go_bools;
    unfold backed; cbn in *; rewrite ?wrap32_id by go_lia;
    (split; intros HH; try (by destruct HH));
    first [split; [lia|] | idtac]; intros k Hk; try (by apply Hacc);
    destruct (decide (k = st_Step st)) as [->|]; auto; right; apply Hacc; lia.
Qed.

(** A pass that consumes no verdict keeps what the run has established. *)
Lemma quiet_backed i acc :
  let p := in_Plan i in
  pl_Weights p <> [] -> consumed i = None -> backed p (in_State i) acc ->
  backed p (out_State (Next i)) (passed acc (i, Next i)).
Proof.
  intros p Hne Hq (Hact & Hgate). unfold backed. cbv zeta in *.
  assert (Hlen : 0 < Z.of_nat (length (pl_Weights p))) by (destruct (pl_Weights p); cbn; done || lia).
  destruct (Observe_inputs i) as (_ & HP & HTR & _).
  destruct (Observe_state i) as (HR & _ & _ & HS & HSA & _). pose proof (Observe_active i) as Hac.
  pose proof (passed_same acc i) as Hsame. rewrite Hq in Hsame.
  rewrite <- HR, <- HSA in Hsame. rewrite <- HS in Hact. rewrite <- Hac in Hact.
  assert (Hid : isActive (st_Phase (in_State (Observe i))) = false -> Observe i = i).
  { intros H. apply Observe_id. left. by rewrite <- Observe_active. }
  revert Hsame. generalize (passed acc (i, Next i)) as t.
  destruct (Next_rule i) as [m Ha Hb| | | |m Hf Hs He| |m Hp Hr Hs|Hp Hr Ha| |ph m q Ha Hs Hd Hc Hph Hq'|v Hc];
    unfold start, hold; intros t Hsame; cbn.
  - split; intros HH; try done. by destruct HH.
  - split; intros HH; [split; lia|by destruct HH].
  - destruct (splitFor _ _); cbn. split; intros HH; [split; lia|by destruct HH].
  - split; intros HH; try done. by destruct HH.
  - exfalso. by rewrite HP in He.
  - split; intros HH; try done. by destruct HH.
  - rewrite Hp. split; [done|]. intros _. rewrite Hsame by done. apply Hgate. right.
    rewrite <- Hid; by rewrite Hp.
  - assert (Hpi : st_Phase (in_State i) = PhasePaused).
    { destruct (Observe_kept i) as (_ & _ & _ & <- & _); try done; [|by rewrite <- HR, <- HTR|auto].
      unfold active. by rewrite <- Hac, Hp. }
    assert (t = acc) as ->.
    { apply Hsame; unfold paused; destruct (splitFor _ _), (in_Approved _); done. }
    unfold paused. destruct (splitFor _ _), (in_Approved _); cbn; rewrite ?Hp;
      (split; [|auto]); try done. intros _. apply Hact. by rewrite Hp.
  - split; intros HH; try done. by destruct HH.
  - assert (t = acc) as -> by (apply Hsame; unfold hold; by destruct (splitFor _ _)).
    destruct (splitFor _ _); cbn. subst ph. split.
    + intros _. apply Hact. by destruct Ha as ([-> | ->] & _).
    + destruct (time.IsZero _); intros [H|H]; done.
  - exfalso. by rewrite (consumes_consumed i v Hc) in Hq.
Qed.

Lemma backed_step i acc :
  let p := in_Plan i in
  pl_Weights p <> [] -> Z.of_nat (length (pl_Weights p)) <= int32_max ->
  pl_OnInconclusive p <> InconclusivePromote -> declared_round i -> backed p (in_State i) acc ->
  backed p (out_State (Next i)) (passed acc (i, Next i)).
Proof.
  intros p Hne Hlen Hpol Hdec Hb. destruct (consumed i) as [v|] eqn:Hq; [|by apply quiet_backed].
  apply consumed_consumes in Hq as Hc. destruct Hb as (Hact & _).
  destruct (Observe_inputs i) as (_ & HP & _). destruct (Observe_state i) as (HR & _ & _ & HS & HSA & _).
  assert (Hph : st_Phase (in_State (Observe i)) = PhaseWaiting
                \/ st_Phase (in_State (Observe i)) = PhaseProgressing) by apply Hc.
  destruct Hact as [Hs Hl]; [rewrite <- Observe_active; by destruct Hph as [-> | ->]|].
  destruct (judge_backed (Observe i) (in_State (Observe i)) v acc) as (Hbk & Hr & Hsa & Ha);
    rewrite ?HP, ?HS; try done; [by eapply declared_observed|].
  rewrite HP, HS in Hbk. rewrite <- (Next_consumes i v Hc) in *.
  rewrite passed_same, Hq by (done || by rewrite ?Hr, ?Hsa). done.
Qed.

Lemma backed_run p st es :
  pl_Weights p <> [] -> Z.of_nat (length (pl_Weights p)) <= int32_max ->
  pl_OnInconclusive p <> InconclusivePromote -> Forall declared_env es -> backed p st [] ->
  backed p (final p st es) (foldl passed [] (run p st es)).
Proof.
  intros Hne Hlen Hpol Hes Hb. induction es as [|e es IH] using rev_ind; [done|].
  apply Forall_app in Hes as [Hes He]. apply Forall_cons in He as [He _].
  rewrite run_snoc. unfold final in *. rewrite !foldl_app. cbn [foldl].
  apply (backed_step (input_of p (foldl _ st es) e)); [done|done|done|exact He|by apply IH].
Qed.

(** Observing keeps the abstract state, except that lost evidence reopens a gate. *)
Lemma Observe_abs i :
  abs (in_State (Observe i)) = abs (in_State i)
  \/ (exists r s, abs (in_State i) = AGated r s /\ abs (in_State (Observe i)) = AClimbing r s
      /\ in_Round (Observe i) = None).
Proof.
  destruct (isActive (st_Phase (in_State i))) eqn:Ha; [|left; by rewrite Observe_id by auto].
  destruct (decide (st_Revision (in_State i) = in_TargetRevision i)) as [Hr|Hr];
    [|left; by rewrite Observe_id by auto].
  destruct (Observe_state i) as (HR & _ & _ & HS & _). unfold abs. rewrite HR, HS.
  destruct (Observe_outcome i Ha Hr) as [H|H].
  - destruct H as (_ & _ & _ & -> & _). by left.
  - destruct H as (Hro & -> & _). rewrite Hro.
    destruct (st_Phase (in_State i)); try done; [by left..|]. right. by eexists _, _.
Qed.

Lemma judge_protocol i st v :
  let n := Z.of_nat (length (pl_Weights (in_Plan i))) in
  n <= int32_max -> 0 <= st_Step st < int32_max ->
  st_Phase st = PhaseWaiting \/ st_Phase st = PhaseProgressing ->
  protocol n (abs st) (out_Action (judge i st v)) (abs (out_State (judge i st v))).
Proof.
  intros n Hn Hs Hp.
  assert (Ha : abs st = AClimbing (st_Revision st) (st_Step st)).
  { unfold abs. by destruct Hp as [-> | ->]. }
  rewrite Ha. unfold judge, advance, hold, onInconclusive, splitFor. subst n.
  rewrite (wrap32_id (Z.of_nat _)) by go_lia. rewrite (wrap32_id (_ - 1)) by go_lia.
  destruct v; repeat go_split1; go_bools; unfold abs; cbn in *; try (constructor; lia);
    rewrite wrap32_id by go_lia; apply p_climb; lia.
Qed.

(** ** Properties *)

(** C9: a rejection sticks.  After a rollback, as long as the spec keeps naming
    the rejected revision, every later pass of any run does nothing and keeps
    every replica on the primary, whatever is observed, approved or aborted:
    the machine cannot loop on a failing revision. *)
Theorem rejection_sticks p i es :
  out_Action (Next i) = ActionRollback -> st_Revision (in_State i) <> "" ->
  Forall (fun e => e_TargetRevision e = st_Revision (in_State i)) es ->
  Forall (fun io => out_Action (snd io) = ActionNone /\ out_Canary (snd io) = 0
                    /\ out_Primary (snd io) = in_TotalReplicas (fst io)
                    /\ out_Reason (snd io) = ReasonCanaryRolledBack)
    (run p (out_State (Next i)) es).
Proof.
  intros Hroll Hne Hes. destruct (rollback_state i Hroll) as [Hp Hf].
  set (st := out_State (Next i)) in *.
  assert (Hp' : st_Phase st = PhaseIdle \/ st_Phase st = PhaseRollingBack) by auto.
  clearbody st. clear Hp Hroll. set (r := st_Revision (in_State i)) in *. clearbody r.
  revert st Hp' Hf. induction Hes as [|e es He Hes IH]; intros st Hp Hf; cbn [run]; [constructor|].
  destruct (rejected_step p st e) as (Hst & Ha & Hc & Hpr & Hre); try done; try congruence.
  constructor; [done|]. apply IH; rewrite Hst; cbn; auto.
Qed.

Lemma rejection_sticks_witness :
  let i := sample_input (500 * time.Second)
             (sample_state PhaseProgressing 0 (100 * time.Second) 2 0 0) 2 VerdictFail in
  let e := MkEnv (600 * time.Second) "new" "old" 10 (sample_dep 2)
             (Some (MkRound VerdictPass [])) true false in
  Forall (fun io => out_Action (snd io) = ActionNone /\ out_Canary (snd io) = 0
                    /\ out_Primary (snd io) = in_TotalReplicas (fst io)
                    /\ out_Reason (snd io) = ReasonCanaryRolledBack)
    (run sample_plan (out_State (Next i)) [e; e; e]).
Proof.
  intros i e. apply (rejection_sticks sample_plan i [e; e; e]);
    [vm_compute; reflexivity|done|repeat constructor].
Defined.

(** C4: a promotion is backed by the whole ladder.  In every run that begins
    with no canary in flight, with a non-empty ladder, a policy that does not
    promote without evidence, and rounds that carry declared verdicts, a pass that
    promotes comes after a Pass was consumed on every single rung, all of them
    since the canary of that revision was last started. *)
Theorem promotion_backed_by_ladder p st es e :
  pl_Weights p <> [] -> Z.of_nat (length (pl_Weights p)) <= int32_max ->
  pl_OnInconclusive p <> InconclusivePromote ->
  isActive (st_Phase st) = false -> st_Phase st <> PhasePromoting ->
  Forall declared_env (es ++ [e]) ->
  let i := input_of p (final p st es) e in
  out_Action (Next i) = ActionPromote ->
  forall k, 0 <= k < Z.of_nat (length (pl_Weights p)) -> In k (foldl passed [] (run p st (es ++ [e]))).
Proof.
  intros Hne Hlen Hpol Hia Hnp Hes i Hprom. rewrite run_snoc, foldl_app. cbn [foldl]. fold i.
  apply Forall_app in Hes as [Hes He]. apply Forall_cons in He as [He _].
  assert (Hb : backed p st []).
  { split; [by rewrite Hia|]. intros [H|H]; [by rewrite H in Hia|done]. }
  pose proof (backed_step i _ Hne Hlen Hpol He (backed_run p st es Hne Hlen Hpol Hes Hb)) as (_ & H).
  apply H. right. revert Hprom. clear H.
  destruct (Next_rule i) as [| | | | | | | | | |v Hc]; unfold start, hold, paused; try done.
  - by destruct (splitFor _ _).
  - by destruct (splitFor _ _), (in_Approved _).
  - by destruct (splitFor _ _).
  - unfold judge, advance, hold, onInconclusive, splitFor. destruct v; repeat go_split1; done.
Qed.

Lemma promotion_backed_by_ladder_witness :
  let env t c r := MkEnv (t * time.Second) "new" "old" 10 (sample_dep c) r false false in
  let pass := Some (MkRound VerdictPass []) in
  let es := [env 100 0 None; env 110 2 None; env 230 2 pass; env 240 5 None] in
  out_Action (Next (input_of sample_plan (final sample_plan State_zero es) (env 360 5 pass)))
    = ActionPromote
  /\ In 1 (foldl passed [] (run sample_plan State_zero (es ++ [env 360 5 pass]))).
Proof.
  intros env pass es. split; [vm_compute; reflexivity|].
  apply (promotion_backed_by_ladder sample_plan State_zero es (env 360 5 pass));
    try (vm_compute; done). repeat constructor; intros r [= <-]; done.
Defined.

Lemma abs_climbing st :
  st_Phase st = PhaseWaiting \/ st_Phase st = PhaseProgressing -> abs st = AClimbing (st_Revision st) (st_Step st).
Proof. unfold abs. by intros [-> | ->]. Qed.



End runs.
