(* ===== verification/CanaryLiveness.v ===== *)
(** * A healthy canary is promoted

    The liveness counterpart of the safety theorems.  A schedule is any sequence
    of passes with a clock that does not run backwards; a pass sees either the
    planned replicas of the current rung ready or an arbitrary Deployment, and is
    given a passing round whenever one is due.  If the schedule holds, for every
    rung, a stretch of ready passes as long as the warm-up and the window, and it
    stays inside the progress deadline, the canary is promoted - however many
    passes there are, whenever they happen and however often readiness is lost
    between the stretches. *)

From S2P Require Import Prelude GoFloat GoFmt ApiTypes CanaryWeights CanaryVerdict CanaryState CanaryRules CanarySafety CanaryEvidence.
Import v1alpha1.
Local Open Scope Z_scope.
Local Open Scope go_scope.

Module liveness.
Import weights verdict state rules safety evidence.

(** A pass: its time, and the canary Deployment it reads, [None] for the planned
    replicas of the current rung, all ready. *)
Record Tick := MkTick { tk_Now : time.Time; tk_Deployment : option DeploymentObservation }.

(** Warm-up plus window. *)
Definition rung_time (p : Plan) : time.Duration := time.dadd (pl_InitialDelay p) (pl_Window p).

(** A stretch of ready passes that spans a warm-up and a window. *)
Definition ready_stretch (p : Plan) (ticks : list Tick) : Prop :=
  Forall (fun k => tk_Deployment k = None) ticks
  /\ exists a b, head ticks = Some a /\ last ticks = Some b /\ tk_Now a + rung_time p <= tk_Now b.

(** [n] such stretches one after the other, with anything before, between and
    after them. *)
Inductive covers (p : Plan) : nat -> list Tick -> Prop :=
  | covers_none ticks : covers p 0 ticks
  | covers_rung n before stretch after :
      ready_stretch p stretch -> covers p n after -> covers p (S n) (before ++ stretch ++ after).

Section Healthy.
Context (p : Plan) (target stable : string) (total : Z) (checks : list MetricCheck).
(** The UID of the canary Deployment, and its generation while a rung is run. *)
Context (uid : string) (gen : Z -> Z).

Definition healthy_dep (s : Z) : DeploymentObservation :=
  let c := snd (Split total (weightAt p s)) in MkDeploymentObservation uid target (gen s) (gen s) c c c c.

Definition seen (st : State) (k : Tick) : DeploymentObservation :=
  default (healthy_dep (st_Step st)) (tk_Deployment k).

(** The input of a pass: a round is run when one is due, and passes. *)
Definition input_with (st : State) (k : Tick) (r : option Round) : Input :=
  MkInput (tk_Now k) p st target stable total (seen st k) r false false.

Definition input_at (st : State) (k : Tick) : Input :=
  input_with st k
    (if DueForAnalysis (tk_Now k) p (in_State (Observe (input_with st k None)))
     then Some (MkRound VerdictPass checks) else None).

Definition drive (st : State) (ticks : list Tick) : State :=
  foldl (fun st k => out_State (Next (input_at st k))) st ticks.

Context (t0 : time.Time).

(** On rung [s] of the target, without a consumed round; or promoted. *)
Definition climbing (s : Z) (now : time.Time) (st : State) : Prop :=
  (st_Phase st = PhaseWaiting \/ st_Phase st = PhaseProgressing) /\ st_Revision st = target /\ st_Step st = s
  /\ st_StartedAt st = t0 /\ st_LastAnalysis st = time.zero /\ 0 <= st_AvailableSince st <= now.

Definition promoted (st : State) : Prop := st_Phase st = PhasePromoting /\ st_Revision st = target.

(** At least rung [s]. *)
Definition reached (s : Z) (now : time.Time) (st : State) : Prop :=
  (exists s', s <= s' < Z.of_nat (length (pl_Weights p)) /\ 0 <= s' /\ climbing s' now st) \/ promoted st.

(** A pass in its turn: not before the last one, and inside the deadline. *)
Definition on_time (now : time.Time) (k : Tick) : Prop :=
  0 < now <= tk_Now k /\ (0 < pl_ProgressDeadline p -> tk_Now k < t0 + pl_ProgressDeadline p).

Fixpoint timely (now : time.Time) (ticks : list Tick) : Prop :=
  match ticks with
  | [] => True
  | k :: ticks' => on_time now k /\ timely (tk_Now k) ticks'
  end.

(** The time of the last pass. *)
Definition end_of (now : time.Time) (ticks : list Tick) : time.Time := foldl (fun _ k => tk_Now k) now ticks.

(** The evidence clock of rung [s] runs since [a]. *)
Definition ready_since (s : Z) (a : time.Time) (st : State) : Prop :=
  0 < a /\ st_AvailableSince st = a
  /\ st_ReadinessTarget st = MkCanaryReadinessTarget s (weightAt p s) total (snd (Split total (weightAt p s))) (gen s) uid.

Context (Hladder : ladder p) (Hne : pl_Weights p <> []) (Hok : int32_ok total) (H2 : 2 <= total)
  (Hrung : 0 < rung_time p) (Hra : pl_RequireApproval p = false) (Hstable : target <> stable)
  (Huid : uid <> "") (Hgen : forall s, 0 < gen s) (Ht0 : 0 < t0).

Lemma healthy_count s : snd (Split total (weightAt p s)) <> 0 /\ 0 < snd (Split total (weightAt p s)).
Proof.
  destruct (weightAt_first p s Hladder Hne) as [H0 Hle].
  destruct (Split total (weightAt p s)) as [x c] eqn:E.
  pose proof (Split_bounds _ _ _ _ Hok ltac:(lia) E).
  assert (c <> 0); [|cbn; lia]. intros ->.
  pose proof (Split_canary_zero total (weightAt p s) Hok ltac:(lia)) as Hz. rewrite E in Hz.
  specialize (Hz eq_refl). lia.
Qed.

Lemma last_rung_eq i :
  in_Plan i = p -> last_rung i = Z.of_nat (length (pl_Weights p)) - 1.
Proof.
  intros HP. destruct Hladder as (_ & _ & Hl). unfold last_rung. rewrite HP.
  assert (length (pl_Weights p) <> 0%nat) by (by destruct (pl_Weights p)).
  rewrite (wrap32_id (Z.of_nat _)), wrap32_id by go_lia. done.
Qed.

(** What is observed does not depend on the round. *)
Lemma observed_state st k r : in_State (Observe (input_with st k r)) = in_State (Observe (input_with st k None)).
Proof. unfold Observe. cbv zeta. cbn. by destruct (negb _ || _). Qed.

Lemma climbing_observed s now st k r :
  climbing s now st -> on_time now k ->
  let st' := in_State (Observe (input_with st k r)) in
  climbing s (tk_Now k) st'
  /\ (in_Round (Observe (input_with st k r)) = r
      \/ in_Round (Observe (input_with st k r)) = None /\ (st_AvailableSince st' = 0 \/ st_AvailableSince st' = tk_Now k)).
Proof.
  intros (Hp & Hr & Hs & Hsa & Hla & Hav) [Hnow _]. set (i := input_with st k r).
  destruct (Observe_state i) as (HR & _ & _ & HS & HSA & _).
  assert (Ha : active i) by (unfold active, i; cbn; by destruct Hp as [-> | ->]).
  unfold climbing. rewrite HR, HS, HSA.
  destruct (Observe_outcome i Ha Hr) as [H|H].
  - destruct H as (_ & _ & Hro & -> & -> & _ & -> & _). cbn. rewrite Hla. unfold time.IsZero.
    split; [|by left]. destruct (Z.eqb_spec (st_AvailableSince st) 0); split_and!; try done; lia.
  - destruct H as (Hro & -> & -> & _ & -> & _). unfold time.zero. cbn [i input_with in_State in_Now].
    split; [|right; split; [done|]]; destruct (observe_ready i); auto; split_and!; auto; lia.
Qed.

(** A ready pass starts the evidence clock or keeps it running. *)
Lemma ready_observed s now st k r :
  climbing s now st -> on_time now k -> tk_Deployment k = None ->
  exists a, ready_since s a (in_State (Observe (input_with st k r))) /\ a <= tk_Now k
            /\ (forall a', ready_since s a' st -> a = a')
            /\ (in_Round (Observe (input_with st k r)) = r \/ a = tk_Now k).
Proof.
  intros (Hp & Hr & Hs & _ & _ & Hav) [Hnow _] Hk. set (i := input_with st k r).
  assert (Hrd : observe_ready i = true).
  { destruct (healthy_count s) as [_ Hc]. unfold observe_ready, splitFor, currentWeight. cbn. unfold seen.
    rewrite Hk. cbn. rewrite Hr, Hs, !bool_decide_eq_true_2, !Z.eqb_refl, Z.leb_refl by done.
    rewrite (bool_decide_eq_false_2 _ Huid). by rewrite (proj2 (Z.ltb_lt _ _) Hc), (proj2 (Z.ltb_lt _ _) (Hgen s)). }
  assert (Ht : observe_target i = MkCanaryReadinessTarget s (weightAt p s) total (snd (Split total (weightAt p s))) (gen s) uid).
  { unfold observe_target, splitFor, currentWeight. cbn. unfold seen. by rewrite Hk, Hs. }
  assert (Ha : active i) by (unfold active, i; cbn; by destruct Hp as [-> | ->]).
  unfold ready_since. destruct (Observe_outcome i Ha Hr) as [H|H].
  - destruct H as (_ & _ & Hro & _ & _ & _ & Eav & Etg). rewrite Eav, Etg, Ht. cbn [i input_with in_State in_Now].
    unfold time.IsZero. destruct (Z.eqb_spec (st_AvailableSince st) 0) as [Ez|].
    + exists (tk_Now k). split_and!; try done; [lia|intros ? (? & ? & _); lia|by left].
    + exists (st_AvailableSince st). split_and!; try done; [lia|lia|by intros ? (_ & ? & _)|by left].
  - pose proof H as (_ & _ & _ & Etg & Eav & _). rewrite Eav, Etg, Ht, Hrd. exists (tk_Now k). cbn [i input_with in_Now].
    split_and!; try done; [lia| |by right]. intros a' (Hpos & Ha' & Htg).
    assert (E : Observe i = i).
    { apply Observe_fix_ready; [done|done|done| |left; cbn; unfold time.zero; lia].
      etransitivity; [exact Htg|symmetry; exact Ht]. }
    rewrite E, Hrd in Eav. cbn in Eav. congruence.
Qed.

Lemma judged s now i :
  climbing s now (in_State i) -> in_Plan i = p -> in_Now i = now -> 0 <= s < Z.of_nat (length (pl_Weights p)) ->
  reached (s + 1) now (out_State (judge i (in_State i) VerdictPass)).
Proof.
  intros (Hp & Hr & Hs & Hsa & Hla & Hav) HP HN Hlen. unfold judge, advance. fold (last_rung i).
  rewrite (last_rung_eq i HP). cbn [consume st_Step]. rewrite Hs, HP, Hra.
  destruct (splitFor i _), (Z.leb_spec (Z.of_nat (length (pl_Weights p)) - 1) s); [by right|].
  destruct (splitFor i _). left. exists (s + 1). cbn. destruct Hladder as (_ & _ & Hl).
  split; [lia|]. split; [lia|]. unfold climbing. cbn. rewrite wrap32_id by go_lia. unfold time.zero.
  split_and!; auto; lia.
Qed.

Lemma not_late s now st k r :
  climbing s now st -> on_time now k ->
  deadline_exceeded (Observe (input_with st k r)) (in_State (Observe (input_with st k r))) = false.
Proof.
  intros Hc Hk. destruct (climbing_observed s now st k r Hc Hk) as [(_ & _ & _ & Hsa & _) _].
  destruct (Observe_inputs (input_with st k r)) as (HN & HP & _). destruct Hk as [_ Hd].
  unfold deadline_exceeded. rewrite HN, HP, Hsa. cbn [input_with in_Now in_Plan].
  destruct (Z.ltb_spec 0 (pl_ProgressDeadline p)) as [H|H]; [|by rewrite andb_false_r].
  unfold time.Before, time.Add. rewrite (proj2 (Z.ltb_lt _ _) (Hd H)). cbn. by rewrite !andb_false_r.
Qed.

(** Every pass of a canary on a rung. *)
Lemma tick_climbs s now st k :
  climbing s now st -> on_time now k -> 0 <= s < Z.of_nat (length (pl_Weights p)) ->
  let st' := out_State (Next (input_at st k)) in
  reached (s + 1) (tk_Now k) st'
  \/ climbing s (tk_Now k) st' /\ st_AvailableSince st' = st_AvailableSince (in_State (Observe (input_at st k)))
     /\ st_ReadinessTarget st' = st_ReadinessTarget (in_State (Observe (input_at st k))).
Proof.
  intros Hc Hk Hs. cbv zeta. unfold input_at. set (r := if DueForAnalysis _ _ _ then _ else None).
  set (i := input_with st k r). destruct (climbing_observed s now st k r Hc Hk) as [Hoc _]. fold i in Hoc.
  pose proof Hoc as ([Hp|Hp] & Hr & _ & Hsa & _ & _).
  all: destruct (Observe_inputs i) as (HN & HP & HTR & _ & HT & _ & _ & HA).
  all: pose proof (not_late s now st k r Hc Hk) as Hnl; fold i in Hnl.
  all: destruct (Next_rule i) as [m Hab _|_ [s' Hz]|m Hst|re m Hf _|m Hf _ _|m Hpr _ _|m Hpr _ _|Hpa _ _|m _ Hd
    |ph m q Ha' Hsa' Hd Hcn Hph Hq|v Hcn].
  all: try (by rewrite HA in Hab); try (unfold fresh in Hf; by rewrite Hp in Hf); try congruence.
  all: try (exfalso; unfold splitFor in Hz; rewrite HT, HP in Hz; by apply (healthy_count s')).
  all: try (exfalso; unfold fresh, active, analysing in Hst; rewrite Hp, HTR, Hr, Hsa in Hst; cbn in Hst;
            destruct Hst as [[? _]|[(_ & _ & ?)|[_ ?]]]; [done|done|unfold time.zero in *; lia]).
  all: try (right; unfold hold; destruct (splitFor _ _); cbn; split; [|by split];
            destruct Hoc as (_ & H); split; [|exact H]; cbn; subst ph; destruct (time.IsZero _); auto).
  all: left; assert (v = VerdictPass) as -> by
         (destruct Hcn as (_ & _ & _ & _ & (r' & Er & <-) & _); destruct (climbing_observed s now st k r Hc Hk) as [_ [E|[E _]]];
          fold i in E; rewrite E in Er; [|done]; subst r; destruct (DueForAnalysis _ _ _); [by injection Er as <-|done]).
  all: apply judged; [exact Hoc|exact HP|exact HN|exact Hs].
Qed.

(** A ready pass moves the canary up once the evidence clock has run long
    enough. *)
Lemma ready_tick s now st k :
  climbing s now st -> on_time now k -> 0 <= s < Z.of_nat (length (pl_Weights p)) -> tk_Deployment k = None ->
  let st' := out_State (Next (input_at st k)) in
  reached (s + 1) (tk_Now k) st'
  \/ climbing s (tk_Now k) st' /\ exists a, ready_since s a st' /\ a <= tk_Now k < a + rung_time p
       /\ forall a', ready_since s a' st -> a = a'.
Proof.
  intros Hc Hk Hs Hd. cbv zeta. pose proof (tick_climbs s now st k Hc Hk Hs) as Ht. cbv zeta in Ht.
  revert Ht. unfold input_at. rewrite (observed_state st k (if DueForAnalysis _ _ _ then _ else _)).
  set (r := if DueForAnalysis _ _ _ then _ else None). set (i := input_with st k r). intros Ht.
  destruct (ready_observed s now st k r Hc Hk Hd) as (a & (Hpos & Hav & Htg) & Hle & Hsame & Hro). fold i in Hav, Htg, Hro.
  rewrite <- (observed_state st k r) in Ht. fold i in Ht.
  destruct (Z.lt_ge_cases (tk_Now k) (a + rung_time p)) as [Hlt|Hge].
  - destruct Ht as [Ht|(Hc' & Ea & Et)]; [by left|right]. split; [done|]. exists a. unfold ready_since.
    rewrite Ea, Et, Hav, Htg. split; [done|]. split; [lia|done].
  - left. destruct (climbing_observed s now st k r Hc Hk) as [Hoc _]. fold i in Hoc.
    pose proof Hoc as (Hp & Hr & Hst & Hsa & Hla & _). destruct (Observe_inputs i) as (HN & HP & HTR & _ & HT & _ & _ & HA).
    assert (Hdue : DueForAnalysis (tk_Now k) p (in_State (Observe i)) = true).
    { unfold DueForAnalysis. rewrite Hav, Hla. unfold time.IsZero, time.Before, warm_until, time.Add. fold (rung_time p).
      rewrite (proj2 (Z.eqb_neq a 0)), (proj2 (Z.ltb_ge _ _) Hge) by lia. by destruct Hp as [-> | ->]. }
    assert (Hr' : in_Round (Observe i) = Some (MkRound VerdictPass checks)).
    { destruct Hro as [->|]; [|lia]. unfold r. unfold i in Hdue. rewrite observed_state in Hdue. by rewrite Hdue. }
    assert (Hcon : consumes (Observe i) VerdictPass).
    { split; [by split_and!; [|rewrite Hr, HTR|rewrite HA]|]. rewrite Hsa, Hav, HN, HP. unfold warm_until, time.Add, time.zero.
      fold (rung_time p). split_and!; [lia|lia|exact Hge|by eexists|exact Hdue|].
      unfold splitFor, currentWeight. rewrite HT. apply healthy_count. }
    rewrite (Next_consumes i _ Hcon). by apply judged.
Qed.

(** A promotion stays one. *)
Lemma promoted_tick st k : promoted st -> promoted (out_State (Next (input_at st k))).
Proof.
  intros [Hp Hr]. unfold promoted, input_at. set (i := input_with st k _).
  assert (E : Observe i = i) by (apply Observe_id; left; cbn; by rewrite Hp).
  pose proof (Next_rule i) as H. rewrite E in H.
  destruct H as [m Hab _|Hx _|m Hx|re m Hf _|m Hf _ _|m _ _ Hs|m _ _ _|Hpa _ _|m Hx _|ph m q Hx _ _ _ _ _|v (Hx & _)];
    unfold fresh, active, analysing in *; cbn in *; rewrite ?Hp in *; cbn in *; try done; intuition congruence.
Qed.

Lemma reached_tick s now st k : reached s now st -> on_time now k -> reached s (tk_Now k) (out_State (Next (input_at st k))).
Proof.
  intros [(s' & Hs & H0 & Hc)|Hp] Hk; [|right; by apply promoted_tick].
  destruct (tick_climbs s' now st k Hc Hk ltac:(lia)) as [[(s2 & ? & ? & ?)|?]|(? & _)];
    [left; exists s2; split; [lia|done]|by right|left; exists s'; done].
Qed.

Lemma reached_drive s ticks now st :
  reached s now st -> timely now ticks -> reached s (end_of now ticks) (drive st ticks).
Proof.
  revert now st. induction ticks as [|k ticks IH]; intros now st Hr Ht; [done|]. destruct Ht as [Hk Ht].
  apply IH; [by eapply reached_tick|done].
Qed.

(** With the evidence clock running since [a], ready passes up to the end of the
    window move the canary up. *)
Lemma stretch_from s a b ticks now st :
  climbing s now st -> ready_since s a st -> 0 <= s < Z.of_nat (length (pl_Weights p)) ->
  timely now ticks -> Forall (fun k => tk_Deployment k = None) ticks ->
  last ticks = Some b -> a + rung_time p <= tk_Now b -> reached (s + 1) (end_of now ticks) (drive st ticks).
Proof.
  revert now st. induction ticks as [|k ticks IH]; intros now st Hc Ha Hs Ht Hrd Hb Hab; [done|].
  destruct Ht as [Hk Ht]. apply Forall_cons in Hrd as [Hd Hrd].
  destruct (ready_tick s now st k Hc Hk Hs Hd) as [H|(Hc' & a' & Ha' & Hlt & Hsame)].
  - by apply (reached_drive (s + 1) ticks (tk_Now k)).
  - rewrite (Hsame a Ha) in *. destruct ticks as [|k2 ticks]; [injection Hb as <-; lia|].
    by apply (IH (tk_Now k)).
Qed.

Lemma stretch_climbs s ticks now st :
  reached s now st -> 0 <= s -> timely now ticks -> ready_stretch p ticks ->
  reached (s + 1) (end_of now ticks) (drive st ticks).
Proof.
  intros Hr H0 Ht (Hrd & k0 & b & Hh & Hb & Hab). destruct Hr as [(s' & Hs' & H0' & Hc)|Hp].
  2: { apply reached_drive; [by right|done]. }
  destruct (decide (s' = s)) as [->|Hne'].
  2: { apply reached_drive; [left; exists s'; split; [lia|done]|done]. }
  destruct ticks as [|k ticks]; [done|]. injection Hh as ->. destruct Ht as [Hk Ht]. apply Forall_cons in Hrd as [Hd Hrd].
  destruct (ready_tick s now st k0 Hc Hk ltac:(lia) Hd) as [H|(Hc' & a & Ha & Hlt & _)].
  - by apply (reached_drive (s + 1) ticks (tk_Now k0)).
  - destruct ticks as [|k2 ticks]; [injection Hb as <-; lia|].
    apply (stretch_from s a b (k2 :: ticks) (tk_Now k0)); try done; lia.
Qed.

Lemma timely_app now xs ys : timely now (xs ++ ys) <-> timely now xs /\ timely (end_of now xs) ys.
Proof. revert now. induction xs as [|k xs IH]; intros now; cbn; [tauto|]. rewrite IH. tauto. Qed.

Lemma covers_promoted n ticks :
  covers p n ticks -> forall s now st, reached s now st -> 0 <= s ->
  s + Z.of_nat n = Z.of_nat (length (pl_Weights p)) -> timely now ticks -> promoted (drive st ticks).
Proof.
  intros H. induction H as [ticks|n before stretch after Hst _ IH]; intros s now st Hr H0 Hn Ht.
  - destruct (reached_drive s ticks now st Hr Ht) as [(s' & ? & _)|?]; [lia|done].
  - rewrite !timely_app in Ht. destruct Ht as (Hb & Hs & Ha). unfold drive. rewrite !foldl_app.
    eapply (IH (s + 1)); [|lia|lia|exact Ha]. apply stretch_climbs; [|done|done|done]. by apply reached_drive.
Qed.

End Healthy.

(** ** Properties *)



End liveness.
