(* ===== verification/Autoscale.v ===== *)
(** * The autoscaler's recommendation (internal/autoscale/recommend.go)

    [Recommend] turns one observation of the fleet's load into a replica count:
    the guards that hold, the tolerance band, the ceiling of the usage ratio in
    IEEE floats, the clamp and the asymmetric stabilisation over the persisted
    history.  The theorems bound its answer for every float (NaN and infinities
    included), characterise each guard, and show what the history is worth. *)

From S2P Require Import Prelude GoFloat GoFmt.
From Stdlib Require Import SpecFloat QArith Qround.
Local Open Scope Z_scope.
Local Open Scope go_scope.

Module autoscale.

Inductive Direction := DirectionNone | DirectionUp | DirectionDown.

Definition maxHistory : Z := 32.

Record Config := MkConfig {
  cfg_MinReplicas : Z;
  cfg_MaxReplicas : Z;
  cfg_Target : f64.t;
  cfg_Tolerance : f64.t;
  cfg_ScaleUpStabilization : time.Duration;
  cfg_ScaleDownStabilization : time.Duration }.

Record Observation := MkObservation {
  ob_Value : f64.t; ob_Valid : bool; ob_Reason : string }.

Record Recommendation := MkRecommendation { rec_Time : time.Time; rec_Replicas : Z }.

Record Input := MkInput {
  ain_Now : time.Time;
  ain_Current : Z;
  ain_ReadyReplicas : Z;
  ain_Observation : Observation;
  ain_Config : Config;
  ain_History : list Recommendation }.

Record Output := MkOutput {
  aout_Replicas : Z;
  aout_Changed : bool;
  aout_Direction : Direction;
  aout_Raw : Z;
  aout_PerPod : f64.t;
  aout_Valid : bool;
  aout_History : list Recommendation;
  aout_Reason : string;
  aout_Message : string }.

#[global] Instance Direction_eq_dec : EqDecision Direction.
Proof. solve_decision. Defined.

Definition ReasonNoMetrics : string := "NoMetrics".
Definition ReasonWithinTolerance : string := "WithinTolerance".
Definition ReasonScaleUp : string := "ScaleUp".
Definition ReasonScaleDown : string := "ScaleDown".
Definition ReasonStabilized : string := "Stabilized".

(** ** Message formatting *)

Definition itoa (n : Z) : string :=
  if n =? 0 then "0"
  else
    let neg := n <? 0 in
    let n := if neg then wrap32 (- n) else n in
    let digits := digits_loop 12 n "" in
    if neg then "-" +:+ digits else digits.

Definition itoa64 (n : Z) : string :=
  if n =? 0 then "0" else digits_loop 20 n "".

Definition twoDigits (n : Z) : string :=
  if n <? 10 then "0" +:+ itoa64 n else itoa64 n.

Definition formatFixed (v : f64.t) : string :=
  let neg := f64.ltb v f64.zero in
  let v := if neg then f64.opp v else v in
  let whole := f64.to_int64 v in
  let frac := f64.roundZ (f64.mul (f64.sub v (f64.of_Z whole)) (f64.of_Z 100)) in
  let '(whole, frac) :=
    if 100 <=? frac then (wrap64 (whole + 1), frac - 100) else (whole, frac) in
  let out := itoa64 whole +:+ "." +:+ twoDigits frac in
  if neg then "-" +:+ out else out.

(** The loop that drops trailing zeros, on the reversed text. *)
Fixpoint drop_zeros (s : list ascii) : list ascii :=
  match s with
  | c :: s' => if c == "0"%char then drop_zeros s' else s
  | [] => []
  end.

Definition trimZeros (v : f64.t) : string :=
  let out := drop_zeros (rev (Strings.String.list_ascii_of_string (formatFixed v))) in
  let out :=
    match out with
    | c :: s' => if c == "."%char then s' else out
    | [] => []
    end in
  let out := Strings.String.string_of_list_ascii (rev out) in
  if (out == "") || (out == "-") then "0" else out.

Definition formatFloat (v : f64.t) : string :=
  if f64.IsNaN v then "NaN" else if f64.IsInf v then "Inf" else trimZeros v.

(** ** Arithmetic *)

Definition directionOf (from to : Z) : Direction :=
  if from <? to then DirectionUp else if to <? from then DirectionDown else DirectionNone.

Definition clamp (n lo hi : Z) : Z :=
  let lo := Z.max lo 1 in
  let hi := if hi <? lo then lo else hi in
  Z.min (Z.max n lo) hi.

Definition ceilToInt32 (v : f64.t) : Z :=
  if f64.IsNaN v then 0
  else if f64.leb v f64.zero then 0
  else if f64.leb (f64.of_Z int32_max) v then int32_max
  else wrap32 (f64.ceilZ v).

(** ** History *)

Definition prune_keep (cutoff now : time.Time) (r : Recommendation) : bool :=
  negb (time.Before (rec_Time r) cutoff || time.After (rec_Time r) now).

Definition prune (history : list Recommendation) (now : time.Time) (cfg : Config) :
    list Recommendation :=
  let window := Z.max (cfg_ScaleUpStabilization cfg) (cfg_ScaleDownStabilization cfg) in
  let cutoff := time.Add now (time.dneg window) in
  let out := List.filter (prune_keep cutoff now) history in
  if maxHistory <? Z.of_nat (length out)
  then drop (length out - Z.to_nat maxHistory) out else out.

Definition minOver (history : list Recommendation) (cutoff : time.Time) : Z :=
  let '(out, found) :=
    foldl (fun '(out, found) r =>
             if time.Before (rec_Time r) cutoff then (out, found)
             else (Z.min out (rec_Replicas r), true)) (int32_max, false) history in
  if found then out else 0.

Definition maxOver (history : list Recommendation) (cutoff : time.Time) : Z :=
  let '(out, found) :=
    foldl (fun '(out, found) r =>
             if time.Before (rec_Time r) cutoff then (out, found)
             else (Z.max out (rec_Replicas r), true)) (0, false) history in
  if found then out else int32_max.

Definition stabilize (raw current : Z) (history : list Recommendation) (now : time.Time)
    (cfg : Config) : Z :=
  if current <? raw then
    if cfg_ScaleUpStabilization cfg <=? 0 then raw
    else Z.max (minOver history (time.Add now (time.dneg (cfg_ScaleUpStabilization cfg)))) current
  else if raw <? current then
    if cfg_ScaleDownStabilization cfg <=? 0 then raw
    else Z.min (maxOver history (time.Add now (time.dneg (cfg_ScaleDownStabilization cfg)))) current
  else current.

(** ** Recommend *)

(** The closure [hold] of [Recommend]. *)
Definition hold (i : Input) (current : Z) (reason message : string) : Output :=
  MkOutput current (negb (current =? ain_Current i)) (directionOf (ain_Current i) current) current
    f64.zero false (prune (ain_History i) (ain_Now i) (ain_Config i)) reason message.

Definition Recommend (i : Input) : Output :=
  let cfg := ain_Config i in
  let lo := cfg_MinReplicas cfg in
  let hi := cfg_MaxReplicas cfg in
  let current := clamp (ain_Current i) lo hi in
  let obs := ain_Observation i in
  if negb (ob_Valid obs) then
    let reason := if ob_Reason obs == "" then "no usable measurement" else ob_Reason obs in
    hold i current ReasonNoMetrics ("Holding at " +:+ itoa current +:+ " replicas: " +:+ reason)
  else if ain_ReadyReplicas i <? 1 then
    hold i current ReasonNoMetrics
      ("Holding at " +:+ itoa current
         +:+ " replicas: no pods are ready, so there is no per-pod load to measure")
  else if f64.leb (cfg_Target cfg) f64.zero then
    hold i current ReasonNoMetrics
      ("Holding at " +:+ itoa current
         +:+ " replicas: the autoscaling target must be greater than zero")
  else
    let ready := f64.of_Z (ain_ReadyReplicas i) in
    let perPod := f64.div (ob_Value obs) ready in
    let ratio := f64.div perPod (cfg_Target cfg) in
    if f64.leb (f64.abs (f64.sub ratio f64.one)) (cfg_Tolerance cfg) then
      MkOutput current (negb (current =? ain_Current i)) (directionOf (ain_Current i) current)
        current perPod true
        (prune (ain_History i ++ [MkRecommendation (ain_Now i) current]) (ain_Now i) cfg)
        ReasonWithinTolerance
        ("Holding at " +:+ itoa current +:+ " replicas: " +:+ formatFloat perPod
           +:+ " per pod is within " +:+ formatFloat (f64.mul (cfg_Tolerance cfg) (f64.of_Z 100))
           +:+ "% of the target " +:+ formatFloat (cfg_Target cfg))
    else
      let scaled := f64.mul ready ratio in
      let raw := clamp (ceilToInt32 scaled) lo hi in
      let history := prune (ain_History i ++ [MkRecommendation (ain_Now i) raw]) (ain_Now i) cfg in
      let replicas := clamp (stabilize raw current history (ain_Now i) cfg) lo hi in
      let '(reason, message) :=
        if current <? replicas then
          (ReasonScaleUp,
           "Scaling up to " +:+ itoa replicas +:+ " replicas: " +:+ formatFloat perPod
             +:+ " per pod against a target of " +:+ formatFloat (cfg_Target cfg))
        else if replicas <? current then
          (ReasonScaleDown,
           "Scaling down to " +:+ itoa replicas +:+ " replicas: " +:+ formatFloat perPod
             +:+ " per pod against a target of " +:+ formatFloat (cfg_Target cfg))
        else
          (ReasonStabilized,
           "Holding at " +:+ itoa current +:+ " replicas: the metric suggests " +:+ itoa raw
             +:+ ", but the stabilization window has not cleared") in
      MkOutput replicas (negb (replicas =? ain_Current i)) (directionOf current replicas) raw perPod
        true history reason message.

(** The effective bounds: at least one replica, and never an inverted range. *)
Definition floor_of (cfg : Config) : Z := Z.max (cfg_MinReplicas cfg) 1.
Definition ceiling_of (cfg : Config) : Z := Z.max (cfg_MaxReplicas cfg) (floor_of cfg).

(** ** Lemmas *)

Lemma clamp_eq n cfg :
  clamp n (cfg_MinReplicas cfg) (cfg_MaxReplicas cfg)
  = Z.min (Z.max n (floor_of cfg)) (ceiling_of cfg).
Proof.
  unfold clamp, ceiling_of. fold (floor_of cfg).
  destruct (Z.ltb_spec (cfg_MaxReplicas cfg) (floor_of cfg)); lia.
Qed.

Lemma clamp_bounds n cfg :
  floor_of cfg <= clamp n (cfg_MinReplicas cfg) (cfg_MaxReplicas cfg) <= ceiling_of cfg.
Proof. rewrite clamp_eq. unfold ceiling_of. lia. Qed.

Lemma clamp_id n cfg :
  floor_of cfg <= n <= ceiling_of cfg -> clamp n (cfg_MinReplicas cfg) (cfg_MaxReplicas cfg) = n.
Proof. rewrite clamp_eq. lia. Qed.

(** The fold of [minOver]: the least of the start and the entries in the window. *)
Lemma minOver_fold h cutoff a f :
  let '(out, found) :=
    foldl (fun '(out, found) r =>
             if time.Before (rec_Time r) cutoff then (out, found)
             else (Z.min out (rec_Replicas r), true)) (a, f) h in
  out <= a /\ (forall r, r ∈ h -> cutoff <= rec_Time r -> out <= rec_Replicas r)
  /\ (found = true <-> f = true \/ exists r, r ∈ h /\ cutoff <= rec_Time r)
  /\ (out = a \/ exists r, r ∈ h /\ cutoff <= rec_Time r /\ out = rec_Replicas r).
Proof.
  revert a f. induction h as [|x h IH]; intros a f; cbn [foldl].
  - split; [lia|]. split; [by intros r ?%elem_of_nil|]. split; [|by left].
    split; [by left|]. intros [H|(r & H%elem_of_nil & _)]; done.
  - unfold time.Before at 2. destruct (Z.ltb_spec (rec_Time x) cutoff) as [Hx|Hx].
    + specialize (IH a f). destruct (foldl _ _ _) as [out found]. destruct IH as (A & B & C & D).
      split; [done|]. split; [|split].
      * intros r [->|Hr]%elem_of_cons Ht; [lia|by apply B].
      * rewrite C. split; (intros [?|(r & Hr & Ht)]; [by left|right]).
        -- exists r. split; [by right|done].
        -- apply elem_of_cons in Hr as [->|Hr]; [lia|by exists r].
      * destruct D as [D|(r & Hr & Ht)]; [by left|right]. exists r. split; [by right|done].
    + specialize (IH (Z.min a (rec_Replicas x)) true).
      destruct (foldl _ _ _) as [out found]. destruct IH as (A & B & C & D).
      split; [lia|]. split; [|split].
      * intros r [->|Hr]%elem_of_cons Ht; [lia|by apply B].
      * rewrite C. split; [intros _|by left]. right. exists x. split; [by left|done].
      * destruct D as [D|(r & Hr & Ht)].
        -- destruct (Z.le_ge_cases a (rec_Replicas x)); [left; lia|right].
           exists x. split; [by left|lia].
        -- right. exists r. split; [by right|done].
Qed.

(** [maxOver] is [minOver] of the opposite entries, from a start of zero. *)
Lemma maxOver_fold h cutoff a f :
  let '(out, found) :=
    foldl (fun '(out, found) r =>
             if time.Before (rec_Time r) cutoff then (out, found)
             else (Z.max out (rec_Replicas r), true)) (a, f) h in
  a <= out /\ (forall r, r ∈ h -> cutoff <= rec_Time r -> rec_Replicas r <= out)
  /\ (found = true <-> f = true \/ exists r, r ∈ h /\ cutoff <= rec_Time r)
  /\ (out = a \/ exists r, r ∈ h /\ cutoff <= rec_Time r /\ out = rec_Replicas r).
Proof.
  pose proof (minOver_fold ((fun r => MkRecommendation (rec_Time r) (- rec_Replicas r)) <$> h)
                cutoff (- a) f) as H.
  assert (E : foldl (fun '(out, found) r =>
             if time.Before (rec_Time r) cutoff then (out, found)
             else (Z.min out (rec_Replicas r), true)) (- a, f)
             ((fun r => MkRecommendation (rec_Time r) (- rec_Replicas r)) <$> h)
          = let '(out, found) := foldl (fun '(out, found) r =>
             if time.Before (rec_Time r) cutoff then (out, found)
             else (Z.max out (rec_Replicas r), true)) (a, f) h in (- out, found)).
  { clear H. revert a f. induction h as [|x h IH]; intros a f; cbn; [done|].
    destruct (time.Before _ _); rewrite <- IH; [done|]. do 2 f_equal. lia. }
  rewrite E in H. clear E. destruct (foldl _ _ _) as [out found].
  destruct H as (A & B & C & D). split; [lia|]. split; [|split].
  - intros r Hr Ht.
    specialize (B (MkRecommendation (rec_Time r) (- rec_Replicas r))). cbn in B.
    assert (- out <= - rec_Replicas r); [|lia]. apply B; [|done].
    apply list_elem_of_fmap. by exists r.
  - rewrite C. split; (intros [?|(r & Hr & Ht)]; [by left|right]).
    + apply list_elem_of_fmap in Hr as (y & -> & Hy). by exists y.
    + exists (MkRecommendation (rec_Time r) (- rec_Replicas r)). split; [|done].
      apply list_elem_of_fmap. by exists r.
  - destruct D as [D|(r & Hr & Ht & D)]; [left; lia|right].
    apply list_elem_of_fmap in Hr as (y & -> & Hy). exists y. cbn in *. split; [done|lia].
Qed.

Lemma prune_spec h now cfg :
  let window := Z.max (cfg_ScaleUpStabilization cfg) (cfg_ScaleDownStabilization cfg) in
  let kept := List.filter (prune_keep (time.Add now (time.dneg window)) now) h in
  exists dropped, kept = dropped ++ prune h now cfg /\ Z.of_nat (length (prune h now cfg)) <= 32
  /\ (dropped <> [] -> Z.of_nat (length (prune h now cfg)) = 32).
Proof.
  cbv zeta. unfold prune. cbv zeta. set (out := List.filter _ h). unfold maxHistory.
  destruct (Z.ltb_spec 32 (Z.of_nat (length out))) as [H|H].
  - exists (take (length out - Z.to_nat 32) out). rewrite take_drop, length_drop.
    split; [done|]. lia.
  - exists []. split; [done|]. split; [lia|done].
Qed.

Lemma prune_elem h now cfg r :
  r ∈ prune h now cfg ->
  r ∈ h /\ time.Add now (time.dneg (Z.max (cfg_ScaleUpStabilization cfg)
                                     (cfg_ScaleDownStabilization cfg))) <= rec_Time r <= now.
Proof.
  intros Hr. destruct (prune_spec h now cfg) as (d & E & _).
  assert (Hk : r ∈ d ++ prune h now cfg) by (apply elem_of_app; by right).
  rewrite <- E in Hk. apply list_elem_of_In, List.filter_In in Hk as [Hin Hk].
  apply list_elem_of_In in Hin. split; [done|].
  unfold prune_keep, time.Before, time.After in Hk. go_bools. done.
Qed.

(** With sensible windows the newest recommendation is always kept. *)
Lemma prune_newest h now cfg x :
  0 <= Z.max (cfg_ScaleUpStabilization cfg) (cfg_ScaleDownStabilization cfg) <= int64_max ->
  MkRecommendation now x ∈ prune (h ++ [MkRecommendation now x]) now cfg.
Proof.
  intros Hw. unfold prune. cbv zeta. set (w := Z.max _ _) in *.
  rewrite List.filter_app. cbn [List.filter].
  assert (Hk : prune_keep (time.Add now (time.dneg w)) now (MkRecommendation now x) = true).
  { unfold prune_keep, time.Before, time.After, time.Add, time.dneg. cbn.
    rewrite wrap64_id by go_lia. apply negb_true_iff, orb_false_iff.
    split; apply Z.ltb_ge; lia. }
  rewrite Hk. set (k := List.filter _ h). destruct (_ <? _) eqn:E.
  - rewrite drop_app_le; [apply elem_of_app; right; by left|].
    rewrite length_app. cbn. unfold maxHistory. lia.
  - apply elem_of_app. right. by left.
Qed.

(** The recommendation of one poll outside the tolerance band. *)
Lemma stabilize_up raw current h now cfg :
  current < raw -> 0 < cfg_ScaleUpStabilization cfg ->
  MkRecommendation now raw ∈ h -> raw <= int32_max ->
  time.Add now (time.dneg (cfg_ScaleUpStabilization cfg)) <= now ->
  let s := stabilize raw current h now cfg in
  current <= s <= raw
  /\ (current < s -> forall r, r ∈ h ->
       time.Add now (time.dneg (cfg_ScaleUpStabilization cfg)) <= rec_Time r -> s <= rec_Replicas r).
Proof.
  intros Hr Hw Hin Hmx Hc. cbv zeta. unfold stabilize.
  rewrite (proj2 (Z.ltb_lt _ _) Hr), (proj2 (Z.leb_gt _ _) Hw).
  set (cut := time.Add _ _) in *. unfold minOver.
  pose proof (minOver_fold h cut int32_max false) as H. destruct (foldl _ _ _) as [out found].
  destruct H as (A & B & C & D).
  assert (found = true) as -> by (apply C; right; eexists; split; [exact Hin|cbn; lia]).
  specialize (B _ Hin Hc) as B'. cbn in B'. split; [lia|].
  intros Hlt r Hr' Ht. specialize (B r Hr' Ht). lia.
Qed.

Lemma stabilize_down raw current h now cfg :
  raw < current -> 0 < cfg_ScaleDownStabilization cfg ->
  MkRecommendation now raw ∈ h ->
  time.Add now (time.dneg (cfg_ScaleDownStabilization cfg)) <= now ->
  let s := stabilize raw current h now cfg in
  raw <= s <= current
  /\ (s < current -> forall r, r ∈ h ->
       time.Add now (time.dneg (cfg_ScaleDownStabilization cfg)) <= rec_Time r -> rec_Replicas r <= s).
Proof.
  intros Hr Hw Hin Hc. cbv zeta. unfold stabilize.
  rewrite (proj2 (Z.ltb_ge current raw)) by lia.
  rewrite (proj2 (Z.ltb_lt _ _) Hr), (proj2 (Z.leb_gt _ _) Hw).
  set (cut := time.Add _ _) in *. unfold maxOver.
  pose proof (maxOver_fold h cut 0 false) as H. destruct (foldl _ _ _) as [out found].
  destruct H as (A & B & C & D).
  assert (found = true) as -> by (apply C; right; eexists; split; [exact Hin|cbn; lia]).
  specialize (B _ Hin Hc) as B'. cbn in B'. split; [lia|].
  intros Hlt r Hr' Ht. specialize (B r Hr' Ht). lia.
Qed.

(** Both directions together, for the windows the API resolves. *)
Lemma stabilize_spec raw current h now cfg :
  0 <= cfg_ScaleUpStabilization cfg <= int64_max ->
  0 <= cfg_ScaleDownStabilization cfg <= int64_max ->
  MkRecommendation now raw ∈ h -> raw <= int32_max ->
  let s := stabilize raw current h now cfg in
  let since w := time.Add now (time.dneg w) in
  Z.min raw current <= s <= Z.max raw current
  /\ (current < s -> s <= raw /\ (0 < cfg_ScaleUpStabilization cfg -> forall r, r ∈ h ->
        since (cfg_ScaleUpStabilization cfg) <= rec_Time r -> s <= rec_Replicas r))
  /\ (s < current -> raw <= s /\ (0 < cfg_ScaleDownStabilization cfg -> forall r, r ∈ h ->
        since (cfg_ScaleDownStabilization cfg) <= rec_Time r -> rec_Replicas r <= s)).
Proof.
  intros Hup Hdn Hin Hmx s since.
  assert (Hneg : forall w, 0 <= w <= int64_max -> since w <= now).
  { intros w Hw. unfold since, time.Add, time.dneg. rewrite wrap64_id by go_lia. lia. }
  destruct (Z.lt_trichotomy raw current) as [Hlt|[Heq|Hgt]].
  - destruct (Z.eq_dec (cfg_ScaleDownStabilization cfg) 0) as [E|E].
    + assert (s = raw) as ->; [|lia]. unfold s, stabilize. rewrite E.
      rewrite (proj2 (Z.ltb_ge current raw)), (proj2 (Z.ltb_lt raw current)) by lia. done.
    + destruct (stabilize_down raw current h now cfg) as [A B]; try lia; try done.
      { apply Hneg. lia. }
      fold s in A, B. split; [lia|]. split; [lia|]. intros Hs. split; [lia|]. intros _. by apply B.
  - assert (s = current) as ->; [|lia]. unfold s, stabilize. subst.
    by rewrite Z.ltb_irrefl.
  - destruct (Z.eq_dec (cfg_ScaleUpStabilization cfg) 0) as [E|E].
    + assert (s = raw) as ->; [|lia]. unfold s, stabilize. rewrite E.
      by rewrite (proj2 (Z.ltb_lt current raw)) by lia.
    + destruct (stabilize_up raw current h now cfg) as [A B]; try lia; try done.
      { apply Hneg. lia. }
      fold s in A, B. split; [lia|]. split; [|lia]. intros Hs. split; [lia|]. intros _. by apply B.
Qed.

Lemma ceilToInt32_range v : f64.valid v -> 0 <= ceilToInt32 v <= int32_max
  /\ (f64.is_finite v = true -> (0 < f64.toQ v)%Q -> (f64.toQ v < inject_Z int32_max)%Q ->
      ceilToInt32 v = f64.ceilZ v).
Proof.
  intros Hv. unfold ceilToInt32. destruct (f64.IsNaN v) eqn:En; [split; [done|by destruct v]|].
  assert (V0 : f64.valid f64.zero) by done. assert (VM : f64.valid (f64.of_Z int32_max)) by done.
  assert (Hmax : (f64.toQ (f64.of_Z int32_max) == inject_Z int32_max)%Q) by (vm_compute; done).
  rewrite (leb_negb_ltb v f64.zero), (leb_negb_ltb _ v) by done.
  destruct (f64.is_finite v) eqn:Ef.
  - pose proof (ltb_toQ f64.zero v V0 Hv eq_refl Ef) as H0.
    pose proof (ltb_toQ v (f64.of_Z int32_max) Hv VM Ef eq_refl) as HM. rewrite Hmax in HM.
    destruct (f64.ltb f64.zero v); cbn [negb].
    + destruct (f64.ltb v (f64.of_Z int32_max)); cbn [negb].
      * assert (1 <= f64.ceilZ v) by (apply ceilZ_pos, H0; done).
        assert (f64.ceilZ v <= int32_max) by (apply ceilZ_le, Qlt_le_weak, HM; done).
        rewrite wrap32_id by go_lia. split; [go_lia|done].
      * split; [go_lia|]. intros _ _ H. apply HM in H. done.
    + split; [go_lia|]. intros _ H. apply H0 in H. done.
  - split; [|done]. destruct v as [|s| |]; try done. destruct s; vm_compute; split; discriminate.
Qed.

(** Every answer went through the clamp, and [Changed] compares it with the
    current count. *)
Lemma Recommend_range i :
  floor_of (ain_Config i) <= aout_Replicas (Recommend i) <= ceiling_of (ain_Config i)
  /\ floor_of (ain_Config i) <= aout_Raw (Recommend i) <= ceiling_of (ain_Config i)
  /\ aout_Changed (Recommend i) = negb (aout_Replicas (Recommend i) =? ain_Current i).
Proof.
  pose proof (clamp_bounds (ain_Current i) (ain_Config i)).
  unfold Recommend, hold. cbv zeta. repeat go_split1; cbn;
    repeat match goal with |- context [clamp ?n (cfg_MinReplicas ?c) (cfg_MaxReplicas ?c)] =>
      pose proof (clamp_bounds n c); generalize dependent (clamp n (cfg_MinReplicas c) (cfg_MaxReplicas c));
      intros end; repeat split; try done; lia.
Qed.

(** The three guards end in the same hold. *)
Lemma Recommend_hold i :
  ob_Valid (ain_Observation i) = false \/ ain_ReadyReplicas i < 1
    \/ f64.leb (cfg_Target (ain_Config i)) f64.zero = true ->
  exists m, Recommend i =
    hold i (clamp (ain_Current i) (cfg_MinReplicas (ain_Config i)) (cfg_MaxReplicas (ain_Config i)))
      ReasonNoMetrics m.
Proof.
  intros H. unfold Recommend. cbv zeta. destruct (ob_Valid _) eqn:Ev; cbn [negb]; [|by eexists].
  destruct (Z.ltb_spec (ain_ReadyReplicas i) 1); [by eexists|].
  destruct H as [H|[H|H]]; [done|lia|]. rewrite H. by eexists.
Qed.

(** ** Properties *)

(** C19: the recommendation stays inside the configured bounds.  For every
    observation, history and configuration, floats that are NaN or infinite and
    inverted bounds included, the replica count and the raw count are at least
    one and the minimum, and at most the maximum. *)
Theorem Recommend_in_bounds i :
  let cfg := ain_Config i in
  let o := Recommend i in
  floor_of cfg <= aout_Replicas o <= ceiling_of cfg
  /\ floor_of cfg <= aout_Raw o <= ceiling_of cfg /\ 1 <= aout_Replicas o
  /\ aout_Changed o = negb (aout_Replicas o =? ain_Current i).
Proof.
  cbv zeta. destruct (Recommend_range i) as (H & Hr & Hc). repeat (split; [done|]).
  split; [unfold floor_of in H; lia|done].
Qed.

(** Nothing is scaled on a number nobody produced.  Without a usable
    measurement, without a ready pod or with a target that is not positive, the
    answer is the current count brought into the bounds, it is marked as not
    resting on a measurement, and no recommendation is recorded. *)
Theorem Recommend_holds_without_measurement i :
  ob_Valid (ain_Observation i) = false \/ ain_ReadyReplicas i < 1
    \/ f64.leb (cfg_Target (ain_Config i)) f64.zero = true ->
  let o := Recommend i in
  let current := clamp (ain_Current i) (cfg_MinReplicas (ain_Config i)) (cfg_MaxReplicas (ain_Config i)) in
  aout_Replicas o = current /\ aout_Raw o = current /\ aout_Valid o = false
  /\ aout_Reason o = ReasonNoMetrics
  /\ aout_History o = prune (ain_History i) (ain_Now i) (ain_Config i)
  /\ (floor_of (ain_Config i) <= ain_Current i <= ceiling_of (ain_Config i) ->
      aout_Replicas o = ain_Current i /\ aout_Changed o = false /\ aout_Direction o = DirectionNone).
Proof.
  intros H. cbv zeta.
  destruct (Recommend_hold i H) as [m ->]. unfold hold. cbn. repeat (split; [done|]).
  intros Hb. rewrite (clamp_id _ _ Hb), Z.eqb_refl. unfold directionOf. by rewrite Z.ltb_irrefl.
Qed.

Lemma Recommend_holds_without_measurement_witness :
  let cfg := MkConfig 1 10 (f64.of_Z 2) (f64.div f64.one (f64.of_Z 10)) 0 (300 * time.Second) in
  aout_Replicas (Recommend (MkInput 1000 4 4 (MkObservation (f64.of_Z 80) false "query failed") cfg []))
  = 4.
Proof.
  intros cfg.
  apply (Recommend_holds_without_measurement
           (MkInput 1000 4 4 (MkObservation (f64.of_Z 80) false "query failed") cfg [])); [by left|].
  vm_compute. split; discriminate.
Defined.



(** The persisted history is bounded and exact.  [prune] keeps at most 32
    entries, all from the longest window up to now, in order; what it drops
    inside the window is only the oldest when there are more than 32. *)
Theorem prune_bounded h now cfg :
  let window := Z.max (cfg_ScaleUpStabilization cfg) (cfg_ScaleDownStabilization cfg) in
  let cutoff := time.Add now (time.dneg window) in
  Z.of_nat (length (prune h now cfg)) <= 32
  /\ Forall (fun r => r ∈ h /\ cutoff <= rec_Time r <= now) (prune h now cfg)
  /\ (exists dropped, List.filter (prune_keep cutoff now) h = dropped ++ prune h now cfg
      /\ (dropped <> [] -> Z.of_nat (length (prune h now cfg)) = 32))
  /\ prune (prune h now cfg) now cfg = prune h now cfg.
Proof.
  cbv zeta. destruct (prune_spec h now cfg) as (d & E & Hl & Hd). split; [done|]. split.
  { rewrite Forall_forall. intros r Hr. by apply prune_elem in Hr. }
  split; [by exists d|]. set (out := prune h now cfg) in *. unfold prune.
  assert (Hf : List.filter (prune_keep (time.Add now (time.dneg (Z.max (cfg_ScaleUpStabilization cfg)
             (cfg_ScaleDownStabilization cfg)))) now) out = out).
  { apply List.forallb_filter_id, List.forallb_forall. intros r Hr.
    assert (Hk : List.In r (d ++ out)) by (apply List.in_or_app; by right).
    rewrite <- E in Hk. by apply List.filter_In in Hk as [_ Hk]. }
  cbv zeta. rewrite Hf. unfold maxHistory. by rewrite (proj2 (Z.ltb_ge 32 _)) by lia.
Qed.

(** The conversion to a replica count is total and rounds up.  For every
    float the result is between 0 and the largest int32, NaN and non-positive
    values give 0, and inside the range it is the least integer not below the
    exact value. *)
Theorem ceilToInt32_correct v :
  f64.valid v ->
  0 <= ceilToInt32 v <= int32_max /\ (f64.IsNaN v = true -> ceilToInt32 v = 0)
  /\ (f64.leb v f64.zero = true -> ceilToInt32 v = 0)
  /\ (f64.is_finite v = true -> (0 < f64.toQ v)%Q -> (f64.toQ v < inject_Z int32_max)%Q ->
      (inject_Z (ceilToInt32 v - 1) < f64.toQ v)%Q /\ (f64.toQ v <= inject_Z (ceilToInt32 v))%Q).
Proof.
  intros Hv. destruct (ceilToInt32_range v Hv) as [Hr Hc]. split; [done|].
  split; [unfold ceilToInt32; by intros ->|]. split.
  - unfold ceilToInt32. intros ->. by destruct (f64.IsNaN v).
  - intros Hf H0 HM. rewrite (Hc Hf H0 HM). apply ceilZ_spec.
Qed.

Lemma ceilToInt32_correct_witness : 0 <= ceilToInt32 (f64.div (f64.of_Z 7) (f64.of_Z 2)) <= int32_max.
Proof. refine (proj1 (ceilToInt32_correct _ _)). vm_compute. reflexivity. Defined.


End autoscale.
