(* ===== verification/Analysis.v ===== *)
(** * Canary analysis (internal/analysis)

    From a metric specification to a verdict: the PromQL of each built-in
    metric, the provider interface, the evaluation of a sample against its
    range and the round with its traffic gate.  The metric backend is an
    instance of the class [Provider]: an arbitrary state and a query function on
    it, so every theorem holds whatever it answers and however its answers
    change between two queries. *)

From S2P Require Import Prelude GoFloat GoFmt ApiTypes Metrics CanaryVerdict.
From Stdlib Require Import QArith.
Import v1alpha1.
Local Open Scope Z_scope.
Local Open Scope go_scope.

Module analysis.
Import verdict metrics.

(** ** provider.go *)

Definition LiteralNaN : string := "NaN".
Definition LiteralPosInf : string := "+Inf".
Definition LiteralNegInf : string := "-Inf".
Definition statusSuccess : string := "success".

Record Sample := MkSample { smp_Value : f64.t; smp_Count : Z }.

Definition Sample_zero : Sample := MkSample f64.zero 0.

(** A Go [(T, error)] pair: a value or the text of the error. *)
Inductive result (A : Type) := Ok (a : A) | Err (e : string).
Arguments Ok {A} a.
Arguments Err {A} e.

(** The [Provider] interface over a backend state [B]. *)
Class Provider (B : Type) := provider_Query : B -> string -> B * result Sample.

Record QueryContext := MkQueryContext {
  qc_Namespace : string;
  qc_ModelDeployment : string;
  qc_Model : string;
  qc_Variant : string;
  qc_Window : string }.

Definition formatInt (n : Z) : string := if n =? 0 then "0" else digits_loop 20 n "".

(** [time.Duration.Round]: to a multiple of [m], halves away from zero. *)
Definition Duration_Round (d m : time.Duration) : time.Duration :=
  if m <=? 0 then d
  else
    let r := Z.rem d m in
    if d <? 0 then
      let r := - r in
      if r + r <? m then d + r
      else let d1 := wrap64 (d - m + r) in if d1 <? d then d1 else int64_min
    else if r + r <? m then d - r
    else let d1 := wrap64 (d + m - r) in if d <? d1 then d1 else int64_max.

Definition PromDuration (d : time.Duration) : string :=
  let secs := Z.quot (Duration_Round d time.Second) time.Second in
  formatInt (Z.max secs 1) +:+ "s".

(** ** builtin.go *)

Definition clampFloor : string := "1e-9".

Definition validateIdentity (qc : QueryContext) : result unit :=
  if (gofmt.TrimSpace (qc_Namespace qc) == "") || (gofmt.TrimSpace (qc_ModelDeployment qc) == "")
  then Err "metric queries require namespace and ModelDeployment identity"
  else Ok tt.

Definition fleetSelector (qc : QueryContext) : string :=
  LabelNamespace +:+ "=" +:+ gofmt.Quote (qc_Namespace qc) +:+ "," +:+ LabelModelDeployment
    +:+ "=" +:+ gofmt.Quote (qc_ModelDeployment qc).

Definition selector (qc : QueryContext) : string :=
  fleetSelector qc +:+ "," +:+ LabelVariant +:+ "=" +:+ gofmt.Quote (qc_Variant qc).

Definition labelContents (value : string) : string := gofmt.quote_body value.

(** [histogramQuantile], with the quantile already rendered by [%g]. *)
Definition histogramQuantile (q metric sel window : string) : string :=
  "histogram_quantile(" +:+ q +:+ ", sum by (le) (rate(" +:+ metric +:+ "_bucket{" +:+ sel
    +:+ "}[" +:+ window +:+ "])))".

Definition rate_sum (metric sel window : string) : string :=
  "sum(rate(" +:+ metric +:+ "{" +:+ sel +:+ "}[" +:+ window +:+ "]))".

Definition errorRateQuery (qc : QueryContext) : string :=
  let base := selector qc in
  let errSel := base +:+ "," +:+ LabelCode +:+ "=~" +:+ dq +:+ "5.." +:+ dq in
  let total := rate_sum RequestsTotal base (qc_Window qc) in
  "(" +:+ rate_sum RequestsTotal errSel (qc_Window qc) +:+ " or 0 * " +:+ total
    +:+ ") / clamp_min(" +:+ total +:+ ", " +:+ clampFloor +:+ ")".

Definition builtinQuery (b : BuiltinMetric) (qc : QueryContext) : result string :=
  match validateIdentity qc with
  | Err e => Err e
  | Ok _ =>
      let sel := selector qc in
      let window := qc_Window qc in
      match b with
      | MetricTTFTP95 => Ok (histogramQuantile "0.95" TTFTSeconds sel window)
      | MetricTTFTP99 => Ok (histogramQuantile "0.99" TTFTSeconds sel window)
      | MetricRequestDurationP95 => Ok (histogramQuantile "0.95" RequestDurationSeconds sel window)
      | MetricErrorRate => Ok (errorRateQuery qc)
      | MetricSuccessRate => Ok ("1 - (" +:+ errorRateQuery qc +:+ ")")
      | MetricQueueDepth =>
          Ok ("avg(avg_over_time(" +:+ QueueDepth +:+ "{" +:+ sel +:+ "}[" +:+ window +:+ "]))")
      | MetricOutputTokenRate => Ok (rate_sum ReportedOutputTokensTotal sel window)
      | MetricOutputChunkRate => Ok (rate_sum OutputChunksTotal sel window)
      | MetricOther s => Err ("unknown builtin metric " +:+ gofmt.Quote s)
      end
  end.

(** [strings.NewReplacer(...).Replace]: at each position the first pair whose
    key matches is substituted; no key is a prefix of another. *)
Fixpoint replace_at (pairs : list (string * string)) (s : string) : option (string * nat) :=
  match pairs with
  | [] => None
  | (k, v) :: rest =>
      if gofmt.HasPrefix s k then Some (v, String.length k) else replace_at rest s
  end.

Fixpoint Replace (pairs : list (string * string)) (skip : nat) (s : string) : string :=
  match s with
  | EmptyString => EmptyString
  | String c s' =>
      match skip with
      | S n => Replace pairs n s'
      | O =>
          match replace_at pairs s with
          | Some (v, n) => v +:+ Replace pairs (n - 1) s'
          | None => String c (Replace pairs 0 s')
          end
      end
  end.

Definition substitute (query : string) (qc : QueryContext) : string :=
  Replace
    [("{{.Namespace}}", labelContents (qc_Namespace qc));
     ("{{.ModelDeployment}}", labelContents (qc_ModelDeployment qc));
     ("{{.Model}}", labelContents (qc_Model qc));
     ("{{.Variant}}", labelContents (qc_Variant qc));
     ("{{.Window}}", qc_Window qc);
     ("{{ .Namespace }}", labelContents (qc_Namespace qc));
     ("{{ .ModelDeployment }}", labelContents (qc_ModelDeployment qc));
     ("{{ .Model }}", labelContents (qc_Model qc));
     ("{{ .Variant }}", labelContents (qc_Variant qc));
     ("{{ .Window }}", qc_Window qc)] 0 query.

Definition Query (m : AnalysisMetric) (qc : QueryContext) : result string :=
  if am_Query m != "" then Ok (substitute (am_Query m) qc)
  else
    match am_Builtin m with
    | None => Err ("metric " +:+ gofmt.Quote (am_Name m) +:+ " sets neither builtin nor query")
    | Some b => builtinQuery b qc
    end.

Definition UsageSamplesQuery (qc : QueryContext) : result string :=
  match validateIdentity qc with
  | Err e => Err e
  | Ok _ =>
      Ok ("sum(increase(" +:+ UsageRequestsTotal +:+ "{" +:+ selector qc +:+ "}["
            +:+ qc_Window qc +:+ "]))")
  end.

Definition autoscaling_metric_string (m : AutoscalingMetric) : string :=
  match m with
  | AutoscalingMetricUnset => ""
  | AutoscalingQueueDepth => "queue-depth"
  | AutoscalingConcurrency => "concurrency"
  | AutoscalingMetricOther s => s
  end.

Definition AutoscalingQuery (metric : AutoscalingMetric) (qc : QueryContext) : result string :=
  match validateIdentity qc with
  | Err e => Err e
  | Ok _ =>
      let render name :=
        Ok ("sum(avg_over_time(" +:+ name +:+ "{" +:+ fleetSelector qc +:+ "}["
              +:+ qc_Window qc +:+ "]))") in
      match metric with
      | AutoscalingQueueDepth => render QueueDepth
      | AutoscalingConcurrency => render RequestsInFlight
      | _ => Err ("unknown autoscaling metric " +:+ gofmt.Quote (autoscaling_metric_string metric))
      end
  end.

Definition RequestRateQuery (qc : QueryContext) : result string :=
  match validateIdentity qc with
  | Err e => Err e
  | Ok _ => Ok (rate_sum RequestsTotal (selector qc) (qc_Window qc))
  end.

Definition RatioQuery (canaryQuery primaryQuery : string) : string :=
  "(" +:+ canaryQuery +:+ ") / clamp_min(" +:+ primaryQuery +:+ ", " +:+ clampFloor +:+ ")".

(** ** evaluate.go *)

Definition quantityFloat (q : Quantity) : f64.t := milli_float (MilliValue q).

Definition renderValue (v : f64.t) : string :=
  if f64.IsNaN v then LiteralNaN
  else if f64.IsPosInf v then LiteralPosInf
  else if f64.IsNegInf v then LiteralNegInf
  else gofmt.FormatFloat_g 6 v.

Definition renderRange (r : ThresholdRange) : string :=
  match thr_Min r, thr_Max r with
  | Some lo, Some hi => "[" +:+ Quantity_String lo +:+ ", " +:+ Quantity_String hi +:+ "]"
  | Some lo, None => ">= " +:+ Quantity_String lo
  | None, Some hi => "<= " +:+ Quantity_String hi
  | None, None => "unbounded"
  end.

Definition Inconclusive (m : AnalysisMetric) (message : string) : MetricCheck :=
  MkMetricCheck (am_Name m) VerdictInconclusive "" (renderRange (am_ThresholdRange m)) message.

Definition Errored (m : AnalysisMetric) (message : string) : MetricCheck :=
  MkMetricCheck (am_Name m) VerdictError "" (renderRange (am_ThresholdRange m)) message.

(** [Observation] is the [(Sample, error)] of one query. *)
Definition Evaluate (m : AnalysisMetric) (obs : result Sample) : MetricCheck :=
  let threshold := renderRange (am_ThresholdRange m) in
  let check v value msg := MkMetricCheck (am_Name m) v value threshold msg in
  match obs with
  | Err e => check VerdictError "" ("querying the metric provider failed: " +:+ e)
  | Ok s =>
      if smp_Count s =? 0 then
        check VerdictInconclusive ""
          ("the query matched no series; this is not a measurement of zero, "
             +:+ "it is the absence of a measurement")
      else if 1 <? smp_Count s then
        check VerdictError ""
          ("the query returned " +:+ format_int (smp_Count s)
             +:+ " series; it must aggregate to exactly one "
             +:+ "(a missing sum() or sum by (le)), because choosing among them would measure an arbitrary pod")
      else
        let v := smp_Value s in
        let value := renderValue v in
        if f64.IsNaN v then
          check VerdictInconclusive value
            ("the query returned " +:+ LiteralNaN
               +:+ ", which usually means the histogram had no observations "
               +:+ "in the analysis window")
        else if f64.IsInf v then
          check VerdictInconclusive value
            ("the query returned an infinity, which means a ratio's denominator was empty; "
               +:+ "the comparison could not be made")
        else
          let below := match thr_Min (am_ThresholdRange m) with
                       | Some q => f64.ltb v (quantityFloat q) | None => false end in
          let above := match thr_Max (am_ThresholdRange m) with
                       | Some q => f64.ltb (quantityFloat q) v | None => false end in
          if below then
            check VerdictFail value
              (value +:+ " is below the minimum of "
                 +:+ from_ptr "" (Quantity_String <$> thr_Min (am_ThresholdRange m)))
          else if above then
            check VerdictFail value
              (value +:+ " exceeds the maximum of "
                 +:+ from_ptr "" (Quantity_String <$> thr_Max (am_ThresholdRange m)))
          else check VerdictPass value ""
  end.

(** ** analyzer.go *)

Record Request := MkRequest {
  req_Namespace : string;
  req_ModelDeployment : string;
  req_Model : string;
  req_Window : string;
  req_MinRequestRate : f64.t;
  req_MinUsageSamples : Z;
  req_Metrics : list AnalysisMetric }.

Definition request_context (req : Request) (v : Variant) : QueryContext :=
  MkQueryContext (req_Namespace req) (req_ModelDeployment req) (req_Model req)
    (variant_string v) (req_Window req).

Definition allChecks (metrics : list AnalysisMetric) (build : AnalysisMetric -> MetricCheck) :
    list MetricCheck := map build metrics.

(** One finite, single measurement. *)
Definition one_finite (s : Sample) : bool :=
  (smp_Count s =? 1) && negb (f64.IsNaN (smp_Value s)) && negb (f64.IsInf (smp_Value s)).

Section Analyzer.
Context {B : Type} `{Provider B}.

(** A query that may already have failed to render. *)
Definition ask (b : B) (query : result string) : B * result Sample :=
  match query with
  | Err e => (b, Err e)
  | Ok q => provider_Query b q
  end.

(** [gateOnTraffic]: [Some checks] when the round is decided by the gate. *)
Definition gateOnTraffic (b : B) (req : Request) (canaryCtx : QueryContext) :
    B * option (list MetricCheck) :=
  if f64.leb (req_MinRequestRate req) f64.zero then (b, None)
  else
    let (b, answer) := ask b (RequestRateQuery canaryCtx) in
    match answer with
    | Err e =>
        (b, Some (allChecks (req_Metrics req) (fun m =>
               Errored m ("could not measure the canary's request rate: " +:+ e))))
    | Ok s =>
        if smp_Count s =? 0 then
          (b, Some (allChecks (req_Metrics req) (fun m =>
                 Inconclusive m ("the canary has produced no request metrics at all; "
                   +:+ "either it is receiving no traffic or its shim is not being scraped"))))
        else if negb (one_finite s) || f64.ltb (smp_Value s) f64.zero then
          (b, Some (allChecks (req_Metrics req) (fun m =>
                 Inconclusive m "the canary request rate is not one finite nonnegative measurement")))
        else if (smp_Count s =? 1) && f64.ltb (smp_Value s) (req_MinRequestRate req) then
          (b, Some (allChecks (req_Metrics req) (fun m =>
                 Inconclusive m ("the canary is receiving " +:+ gofmt.FormatFloat_g 3 (smp_Value s)
                   +:+ " req/s, below the minimum of "
                   +:+ gofmt.FormatFloat_g 3 (req_MinRequestRate req)
                   +:+ " req/s required to judge it"))))
        else (b, None)
    end.

(** The loop of [runOne] over the variants whose usage samples are required:
    [Some check] when one of them decides. *)
Fixpoint usage_gate (b : B) (m : AnalysisMetric) (minUsageSamples : Z)
    (contexts : list QueryContext) : B * option MetricCheck :=
  match contexts with
  | [] => (b, None)
  | qc :: rest =>
      let (b, answer) := ask b (UsageSamplesQuery qc) in
      match answer with
      | Err e => (b, Some (Errored m ("could not measure reported-usage samples: " +:+ e)))
      | Ok s =>
          if negb (one_finite s) || f64.ltb (smp_Value s) (f64.of_Z minUsageSamples) then
            (b, Some (Inconclusive m (qc_Variant qc +:+ " requires at least "
                   +:+ format_int minUsageSamples
                   +:+ " usage-bearing completions before evaluating reported token throughput")))
          else usage_gate b m minUsageSamples rest
      end
  end.

Definition needs_usage (m : AnalysisMetric) : bool :=
  (am_Query m == "") && (am_Builtin m == Some MetricOutputTokenRate).

Definition runOne (b : B) (m : AnalysisMetric) (canaryCtx primaryCtx : QueryContext)
    (minUsageSamples : Z) : B * MetricCheck :=
  let minUsageSamples := if minUsageSamples <? 1 then 20 else minUsageSamples in
  let contexts :=
    if CompareToPrimaryEnabled m then [canaryCtx; primaryCtx] else [canaryCtx] in
  let (b, gated) :=
    if needs_usage m then usage_gate b m minUsageSamples contexts else (b, None) in
  match gated with
  | Some check => (b, check)
  | None =>
      match Query m canaryCtx with
      | Err e => (b, Errored m ("building the query: " +:+ e))
      | Ok canaryQuery =>
          let query :=
            if CompareToPrimaryEnabled m then
              match Query m primaryCtx with
              | Err e => Err ("building the primary comparison query: " +:+ e)
              | Ok primaryQuery => Ok (RatioQuery canaryQuery primaryQuery)
              end
            else Ok canaryQuery in
          match query with
          | Err e => (b, Errored m e)
          | Ok query =>
              let (b, answer) := provider_Query b query in
              (b, Evaluate m answer)
          end
      end
  end.

(** The loop of [Run] over the metrics. *)
Fixpoint run_metrics (b : B) (req : Request) (metrics : list AnalysisMetric) :
    B * list MetricCheck :=
  match metrics with
  | [] => (b, [])
  | m :: rest =>
      let (b, check) := runOne b m (request_context req VariantCanary)
                          (request_context req VariantPrimary) (req_MinUsageSamples req) in
      let (b, checks) := run_metrics b req rest in
      (b, check :: checks)
  end.

Definition Run (b : B) (req : Request) : B * list MetricCheck :=
  let (b, gated) := gateOnTraffic b req (request_context req VariantCanary) in
  match gated with
  | Some checks => (b, checks)
  | None => run_metrics b req (req_Metrics req)
  end.

End Analyzer.

(** ** Lemmas *)

(** A threshold that is a finite number, or absent. *)
Definition bound_ok (q : option Quantity) : Prop :=
  match q with Some x => ordinary (quantityFloat x) | None => True end.

(** The exact value lies in the range, bounds included. *)
Definition in_range (r : ThresholdRange) (v : f64.t) : Prop :=
  match thr_Min r with Some q => (f64.toQ (quantityFloat q) <= f64.toQ v)%Q | None => True end
  /\ match thr_Max r with Some q => (f64.toQ v <= f64.toQ (quantityFloat q))%Q | None => True end.

Lemma ltb_false_toQ x y :
  ordinary x -> ordinary y -> f64.ltb x y = false <-> (f64.toQ y <= f64.toQ x)%Q.
Proof.
  intros [Vx Fx] [Vy Fy]. pose proof (ltb_toQ x y Vx Vy Fx Fy) as H. split.
  - intros E. apply Qnot_lt_le. intros C. apply H in C. by rewrite E in C.
  - intros E. destruct (f64.ltb x y) eqn:C; [|done]. exfalso. by apply (Qle_not_lt _ _ E), H.
Qed.

Definition below (r : ThresholdRange) (v : f64.t) : bool :=
  match thr_Min r with Some q => f64.ltb v (quantityFloat q) | None => false end.
Definition above (r : ThresholdRange) (v : f64.t) : bool :=
  match thr_Max r with Some q => f64.ltb (quantityFloat q) v | None => false end.

Lemma Evaluate_verdict m s :
  mc_Verdict (Evaluate m (Ok s)) =
  if smp_Count s =? 0 then VerdictInconclusive
  else if 1 <? smp_Count s then VerdictError
  else if negb (f64.is_finite (smp_Value s)) then VerdictInconclusive
  else if below (am_ThresholdRange m) (smp_Value s) || above (am_ThresholdRange m) (smp_Value s)
  then VerdictFail else VerdictPass.
Proof.
  unfold Evaluate. cbv zeta. fold (below (am_ThresholdRange m) (smp_Value s)).
  fold (above (am_ThresholdRange m) (smp_Value s)).
  destruct (smp_Count s =? 0); [done|]. destruct (1 <? smp_Count s); [done|].
  destruct (smp_Value s) eqn:E; cbn [f64.IsNaN f64.IsInf f64.is_finite negb]; try done;
    destruct (below _ _); cbn [orb]; try done; by destruct (above _ _).
Qed.

Lemma in_range_spec r v :
  bound_ok (thr_Min r) -> bound_ok (thr_Max r) -> ordinary v ->
  in_range r v <-> below r v || above r v = false.
Proof.
  intros Hlo Hhi Hv. unfold in_range, below, above, bound_ok in *. rewrite orb_false_iff.
  destruct (thr_Min r), (thr_Max r); rewrite <- ?ltb_false_toQ by done; tauto.
Qed.

Lemma Evaluate_name m obs :
  mc_Name (Evaluate m obs) = am_Name m
  /\ mc_Threshold (Evaluate m obs) = renderRange (am_ThresholdRange m).
Proof. unfold Evaluate. destruct obs as [s|e]; [|done]. cbv zeta. repeat go_split1; done. Qed.

Section Backend.
Context {B : Type} {P : Provider B}.

(** The backend answers some query with a sample. *)
Definition answers : Prop := exists b q s, snd (provider_Query b q) = Ok s.

Lemma ask_answers b q b' s : ask b q = (b', Ok s) -> answers.
Proof. destruct q as [q|e]; cbn; [|done]. intros E. exists b, q, s. by rewrite E. Qed.

Lemma usage_gate_name b m n ctxs b' c :
  usage_gate b m n ctxs = (b', Some c) ->
  mc_Name c = am_Name m /\ mc_Threshold c = renderRange (am_ThresholdRange m)
  /\ (mc_Verdict c = VerdictError \/ mc_Verdict c = VerdictInconclusive /\ answers).
Proof.
  revert b. induction ctxs as [|qc rest IH]; intros b; cbn; [done|].
  destruct (ask b _) as [b1 [s|e]] eqn:Ea.
  - destruct (_ || _); [|apply IH]. intros [= <- <-]. repeat split. right. split; [done|].
    by eapply ask_answers.
  - intros [= <- <-]. by repeat split; auto.
Qed.

(** What a single metric can come out as. *)
Lemma runOne_cases b m cc pc n b' c :
  runOne b m cc pc n = (b', c) ->
  mc_Name c = am_Name m /\ mc_Threshold c = renderRange (am_ThresholdRange m)
  /\ (mc_Verdict c = VerdictError \/ mc_Verdict c = VerdictInconclusive /\ answers
      \/ exists b1 q, provider_Query b1 q = (b', snd (provider_Query b1 q))
         /\ c = Evaluate m (snd (provider_Query b1 q))).
Proof.
  unfold runOne. cbv zeta.
  destruct (if needs_usage m then _ else _) as [b1 [c1|]] eqn:Eg.
  - intros [= <- <-]. destruct (needs_usage m); [|done].
    apply usage_gate_name in Eg as (? & ? & [?|?]); auto.
  - clear Eg. destruct (Query m cc) as [q|e]; [|intros [= <- <-]; auto].
    destruct (if CompareToPrimaryEnabled m then _ else _) as [q'|e]; [|intros [= <- <-]; auto].
    destruct (provider_Query b1 q') as [b2 a] eqn:Eq. intros [= <- <-].
    destruct (Evaluate_name m a). split; [done|]. split; [done|]. right; right.
    exists b1, q'. by rewrite Eq.
Qed.

Lemma run_metrics_length b req ms :
  let cs := snd (run_metrics b req ms) in
  map mc_Name cs = map am_Name ms
  /\ map mc_Threshold cs = map (fun m => renderRange (am_ThresholdRange m)) ms.
Proof.
  revert b. induction ms as [|m ms IH]; intros b; cbn; [done|].
  destruct (runOne _ _ _ _ _) as [b1 c] eqn:E1.
  specialize (IH b1). destruct (run_metrics b1 req ms) as [b2 cs]. cbn in *.
  destruct (runOne_cases _ _ _ _ _ _ _ E1) as (-> & -> & _). destruct IH as [-> ->]. done.
Qed.

Lemma allChecks_names ms f :
  (forall m, mc_Name (f m) = am_Name m /\ mc_Threshold (f m) = renderRange (am_ThresholdRange m)) ->
  map mc_Name (allChecks ms f) = map am_Name ms
  /\ map mc_Threshold (allChecks ms f) = map (fun m => renderRange (am_ThresholdRange m)) ms.
Proof.
  intros H. unfold allChecks. rewrite !map_map. split; apply map_ext; intros m; apply H.
Qed.

(** The gate decides with one verdict for every metric. *)
Lemma gateOnTraffic_checks b req cc b' cs :
  gateOnTraffic b req cc = (b', Some cs) ->
  exists f, cs = allChecks (req_Metrics req) f
  /\ (forall m, mc_Name (f m) = am_Name m /\ mc_Threshold (f m) = renderRange (am_ThresholdRange m))
  /\ ((forall m, mc_Verdict (f m) = VerdictError) \/ (forall m, mc_Verdict (f m) = VerdictInconclusive)).
Proof.
  unfold gateOnTraffic. destruct (f64.leb _ _); [done|].
  destruct (ask b _) as [b1 [s|e]]; [|intros [= <- <-]; eexists; by repeat split; auto].
  repeat go_split1; intros E; inversion E; eexists; repeat split; auto.
Qed.

Lemma Run_names b req :
  map mc_Name (snd (Run b req)) = map am_Name (req_Metrics req)
  /\ map mc_Threshold (snd (Run b req))
     = map (fun m => renderRange (am_ThresholdRange m)) (req_Metrics req).
Proof.
  unfold Run. destruct (gateOnTraffic b req _) as [b1 [cs|]] eqn:Eg; [|apply run_metrics_length].
  destruct (gateOnTraffic_checks _ _ _ _ _ Eg) as (f & -> & Hf & _). by apply allChecks_names.
Qed.

(** Without an answer there is no verdict but Error. *)
Lemma Run_outage b req :
  ~ answers -> Forall (fun c => mc_Verdict c = VerdictError) (snd (Run b req)).
Proof.
  intros Hout.
  assert (Herr : forall b q, exists e, snd (provider_Query b q) = Err e).
  { intros b0 q. destruct (snd (provider_Query b0 q)) as [s|e] eqn:E; [|by exists e].
    exfalso. apply Hout. by exists b0, q, s. }
  assert (Hm : forall b ms, Forall (fun c => mc_Verdict c = VerdictError) (snd (run_metrics b req ms))).
  { intros b0 ms. revert b0. induction ms as [|m ms IH]; intros b0; cbn; [constructor|].
    destruct (runOne _ _ _ _ _) as [b1 c] eqn:E1.
    specialize (IH b1). destruct (run_metrics b1 req ms) as [b2 cs]. constructor; [|done].
    destruct (runOne_cases _ _ _ _ _ _ _ E1) as (_ & _ & [?|[[_ ?]|(b3 & q & _ & ->)]]); [done|done|].
    by destruct (Herr b3 q) as [e ->]. }
  unfold Run. destruct (gateOnTraffic b req _) as [b1 [cs|]] eqn:Eg; [|apply Hm].
  cbn. revert Eg. unfold gateOnTraffic. destruct (f64.leb _ _); [done|].
  destruct (ask b _) as [b2 [s|e]] eqn:Ea; [exfalso; by eapply Hout, ask_answers|].
  intros [= <- <-]. apply Forall_forall. intros c Hc. unfold allChecks in Hc.
  by apply list_elem_of_In, in_map_iff in Hc as (m & <- & _).
Qed.

(** Every check of a round is an Error, Inconclusive, or the evaluation of its
    metric on an answer. *)
Definition comes_from (ms : list AnalysisMetric) (c : MetricCheck) : Prop :=
  mc_Verdict c = VerdictError \/ mc_Verdict c = VerdictInconclusive
  \/ exists m b q, m ∈ ms /\ c = Evaluate m (snd (provider_Query b q)).

Lemma run_metrics_cases b req ms : Forall (comes_from ms) (snd (run_metrics b req ms)).
Proof.
  revert b. induction ms as [|m ms IH]; intros b; cbn; [constructor|].
  destruct (runOne _ _ _ _ _) as [b1 c] eqn:E1. specialize (IH b1).
  destruct (run_metrics b1 req ms) as [b2 cs]. cbn in *. constructor.
  - destruct (runOne_cases _ _ _ _ _ _ _ E1) as (_ & _ & [?|[[? _]|(b3 & q & _ & ->)]]); [by left|by right; left|].
    right; right. exists m, b3, q. split; [left|done].
  - eapply Forall_impl; [exact IH|]. intros k [?|[?|(m' & b' & q & Hm & ->)]]; [by left|by right; left|].
    right; right. exists m', b', q. split; [by right|done].
Qed.

Lemma Run_cases b req : Forall (comes_from (req_Metrics req)) (snd (Run b req)).
Proof.
  unfold Run. destruct (gateOnTraffic b req _) as [b1 [cs|]] eqn:Eg; [|apply run_metrics_cases].
  destruct (gateOnTraffic_checks _ _ _ _ _ Eg) as (f & -> & _ & Hv). apply Forall_forall. intros c Hc.
  apply list_elem_of_In, in_map_iff in Hc as (m & <- & _). destruct Hv as [Hv|Hv]; [left|right; left]; apply Hv.
Qed.

(** The analyser only ever gives declared verdicts, check by check and as a
    round. *)
Lemma Run_declared b req :
  Forall (fun c => declared (mc_Verdict c) = true) (snd (Run b req))
  /\ declared (rd_Verdict (Aggregate (snd (Run b req)))) = true.
Proof.
  assert (H : Forall (fun c => declared (mc_Verdict c) = true) (snd (Run b req))).
  { eapply Forall_impl; [apply Run_cases|]. intros c [->|[->|(m & b' & q & _ & ->)]]; [done|done|].
    destruct (snd (provider_Query b' q)) as [s|e]; [|done]. rewrite Evaluate_verdict. repeat go_split1; done. }
  split; [exact H|]. destruct (snd (Run b req)) as [|c cs] eqn:E; [done|].
  destruct (Aggregate_max (c :: cs)) as (_ & k & Hk & <-); [done|]. rewrite Forall_forall in H. by apply H.
Qed.

(** A passing check was measured: one finite value inside its range. *)
Lemma passing_measured ms c :
  comes_from ms c -> mc_Verdict c = VerdictPass ->
  exists m b q s, m ∈ ms /\ snd (provider_Query b q) = Ok s /\ c = Evaluate m (Ok s)
    /\ smp_Count s <> 0 /\ smp_Count s <= 1 /\ f64.is_finite (smp_Value s) = true
    /\ below (am_ThresholdRange m) (smp_Value s) = false /\ above (am_ThresholdRange m) (smp_Value s) = false.
Proof.
  intros [->|[->|(m & b & q & Hm & ->)]] Hp; [done|done|].
  destruct (snd (provider_Query b q)) as [s|e] eqn:E; [|done]. exists m, b, q, s. rewrite Evaluate_verdict in Hp.
  destruct (Z.eqb_spec (smp_Count s) 0); [done|]. destruct (Z.ltb_spec 1 (smp_Count s)); [done|].
  destruct (f64.is_finite _); [|done]. cbn in Hp. destruct (_ || _) eqn:Eb; [done|]. apply orb_false_iff in Eb as [? ?].
  by split_and!.
Qed.

(** With a positive floor, a check passes only behind a measured rate. *)
Lemma passing_has_traffic b req c :
  c ∈ snd (Run b req) -> mc_Verdict c = VerdictPass ->
  f64.leb (req_MinRequestRate req) f64.zero = false ->
  exists q s, RequestRateQuery (request_context req VariantCanary) = Ok q
    /\ snd (provider_Query b q) = Ok s /\ one_finite s = true
    /\ f64.ltb (smp_Value s) f64.zero = false
    /\ f64.ltb (smp_Value s) (req_MinRequestRate req) = false.
Proof.
  intros Hc Hv Hmin. revert Hc. unfold Run. destruct (gateOnTraffic b req _) as [b1 [cs|]] eqn:Eg.
  - destruct (gateOnTraffic_checks _ _ _ _ _ Eg) as (f & -> & _ & Hf). cbn. intros Hk.
    unfold allChecks in Hk. apply list_elem_of_In, in_map_iff in Hk as (m & <- & _).
    destruct Hf as [Hf|Hf]; by rewrite Hf in Hv.
  - intros _. revert Eg. unfold gateOnTraffic. rewrite Hmin.
    destruct (RequestRateQuery _) as [q|e] eqn:Eq; cbn [ask]; [|done].
    destruct (provider_Query b q) as [b2 [s|e]] eqn:Ep; [|done].
    destruct (smp_Count s =? 0); [done|].
    destruct (negb (one_finite s) || _) eqn:E1; [done|]. go_bools.
    destruct (_ && _) eqn:E2; [done|]. intros _. exists q, s. rewrite Ep.
    repeat split; try done. unfold one_finite in *. go_bools.
    destruct (f64.ltb (smp_Value s) (req_MinRequestRate req)) eqn:E3; [|done].
    exfalso. rewrite andb_true_r in E2. go_bools. lia.
Qed.

End Backend.

(** ** Properties *)

(** A sample is classified by what was measured and nothing else.  For
    finite thresholds and a canonical sample, the verdict is Pass exactly when
    the provider answered with one finite value inside the range (bounds
    included, compared exactly), Fail exactly when that value is outside it,
    Inconclusive exactly when there was no series or no finite number, and Error
    exactly when the query failed or did not aggregate to one series. *)
Theorem Evaluate_classifies m obs :
  bound_ok (thr_Min (am_ThresholdRange m)) -> bound_ok (thr_Max (am_ThresholdRange m)) ->
  (forall s, obs = Ok s -> 0 <= smp_Count s /\ f64.valid (smp_Value s)) ->
  let measured v := exists s, obs = Ok s /\ smp_Count s = 1 /\ smp_Value s = v
                              /\ f64.is_finite v = true in
  let c := Evaluate m obs in
  (mc_Verdict c = VerdictPass <-> exists v, measured v /\ in_range (am_ThresholdRange m) v)
  /\ (mc_Verdict c = VerdictFail <-> exists v, measured v /\ ~ in_range (am_ThresholdRange m) v)
  /\ (mc_Verdict c = VerdictInconclusive <->
        exists s, obs = Ok s /\ (smp_Count s = 0
                  \/ smp_Count s = 1 /\ f64.is_finite (smp_Value s) = false))
  /\ (mc_Verdict c = VerdictError <->
        (exists e, obs = Err e) \/ exists s, obs = Ok s /\ 1 < smp_Count s).
Proof.
  intros Hlo Hhi Hs measured. cbv zeta. destruct obs as [s|e].
  2: { cbn. subst measured. repeat split; intros; try done;
       repeat match goal with H : exists _, _ |- _ => destruct H | H : _ /\ _ |- _ => destruct H
              | H : _ \/ _ |- _ => destruct H end; try done. left. by eexists. }
  destruct (Hs s eq_refl) as [Hc Hv].
  assert (Hm : forall v, measured v <-> smp_Count s = 1 /\ smp_Value s = v /\ f64.is_finite v = true).
  { intros v. subst measured. split; [intros (s' & [= <-] & H); done|intros H; by exists s]. }
  assert (Hone : forall P : Sample -> Prop, (exists s', Ok s = Ok s' /\ P s') <-> P s).
  { intros P. split; [by intros (s' & [= <-] & H)|intros H; by exists s]. }
  rewrite !Hone. clear Hs Hone.
  assert (Hnum : (exists v, measured v /\ in_range (am_ThresholdRange m) v)
                 <-> smp_Count s = 1 /\ f64.is_finite (smp_Value s) = true
                     /\ in_range (am_ThresholdRange m) (smp_Value s)).
  { split; [intros (v & (? & <- & ?)%Hm & ?); done|].
    intros (? & ? & ?). exists (smp_Value s). by rewrite Hm. }
  assert (Hnum' : (exists v, measured v /\ ~ in_range (am_ThresholdRange m) v)
                 <-> smp_Count s = 1 /\ f64.is_finite (smp_Value s) = true
                     /\ ~ in_range (am_ThresholdRange m) (smp_Value s)).
  { split; [intros (v & (? & <- & ?)%Hm & ?); done|].
    intros (? & ? & ?). exists (smp_Value s). by rewrite Hm. }
  rewrite Hnum, Hnum'. clear Hnum Hnum' Hm measured.
  assert (He : ~ (exists e, @Ok Sample s = Err e)) by (by intros [e ?]).
  rewrite Evaluate_verdict.
  destruct (Z.eqb_spec (smp_Count s) 0) as [E0|E0]; [repeat split; intros; try done; intuition lia|].
  destruct (Z.ltb_spec 1 (smp_Count s)) as [E1|E1]; [repeat split; intros; try done; intuition lia|].
  assert (E : smp_Count s = 1) by lia. rewrite E.
  destruct (f64.is_finite (smp_Value s)) eqn:Ef; cbn [negb].
  - pose proof (in_range_spec _ _ Hlo Hhi (conj Hv Ef)) as Hr.
    remember (in_range (am_ThresholdRange m) (smp_Value s)) as R eqn:ER. clear ER.
    destruct (_ || _); repeat split; intros; try done; intuition (done || lia || congruence).
  - repeat split; intros; try done; intuition (done || lia || congruence).
Qed.

Lemma Evaluate_classifies_witness :
  let q := MkQuantity 1500 "1500m" in
  let m := MkAnalysisMetric "ttft" (Some MetricTTFTP95) "" (MkThresholdRange None (Some q)) None in
  mc_Verdict (Evaluate m (Ok (MkSample (lit 3 2) 1))) = VerdictPass.
Proof.
  intros q m.
  apply (Evaluate_classifies m (Ok (MkSample (lit 3 2) 1))); [done|by split|by intros s [= <-]|].
  exists (lit 3 2). split; [by eexists|]. split; [done|]. vm_compute. discriminate.
Defined.

(** A round reports one check per metric, in order.  Whatever the provider
    answers, and whether or not the traffic gate closed, the checks carry the
    names and the thresholds of the requested metrics one for one. *)
Theorem Run_one_check_per_metric {B} {P : Provider B} (b : B) req :
  map mc_Name (snd (Run b req)) = map am_Name (req_Metrics req)
  /\ map mc_Threshold (snd (Run b req))
     = map (fun m => renderRange (am_ThresholdRange m)) (req_Metrics req).
Proof. apply Run_names. Qed.

(** C21: a monitoring outage never spends the rollback budget.  If the provider
    answers no query with a sample, every check of the round is an Error, the
    round aggregates to Error whatever the metrics are, and applying it to the
    counters leaves the failure count as it was. *)
Theorem outage_never_fails {B} {P : Provider B} (b : B) req c :
  ~ answers ->
  Forall (fun k => mc_Verdict k = VerdictError) (snd (Run b req))
  /\ rd_Verdict (Aggregate (snd (Run b req))) = VerdictError
  /\ failed (apply c (rd_Verdict (Aggregate (snd (Run b req))))) = failed c.
Proof.
  intros Hout. pose proof (Run_outage b req Hout) as Hf. split; [done|].
  assert (Ha : rd_Verdict (Aggregate (snd (Run b req))) = VerdictError); [|by rewrite Ha].
  destruct (snd (Run b req)) as [|k ks] eqn:E; [done|].
  destruct (Aggregate_max (k :: ks)) as (_ & k1 & Hk1 & <-); [done|].
  rewrite Forall_forall in Hf. by apply Hf.
Qed.

(** The outage provider. *)
Definition down : Provider unit := fun b _ => (b, Err "connection refused").

Lemma outage_never_fails_witness :
  let req := MkRequest "ns" "md" "m" "60s" f64.one 20
               [MkAnalysisMetric "e" (Some MetricErrorRate) "" (MkThresholdRange None None) None] in
  rd_Verdict (Aggregate (snd (@Run unit down tt req))) = VerdictError.
Proof.
  intros req. apply (@outage_never_fails unit down tt req counters_zero).
  intros (b & q & s & H). discriminate H.
Defined.

(** C22: a check that passes was measured.  Each single passing check of a round
    is the evaluation of one of the requested metrics on an answer of one finite
    value inside the metric's range; and with a positive traffic floor no check
    passes unless the canary's request rate was answered by one finite value at
    or above the floor.  A round passes only when it has a metric and every one of
    its checks passes. *)
Theorem pass_needs_traffic {B} {P : Provider B} (b : B) req :
  (forall c, c ∈ snd (Run b req) -> mc_Verdict c = VerdictPass ->
     (exists m b' q s, m ∈ req_Metrics req /\ snd (provider_Query b' q) = Ok s /\ c = Evaluate m (Ok s)
        /\ smp_Count s <> 0 /\ smp_Count s <= 1 /\ f64.is_finite (smp_Value s) = true
        /\ below (am_ThresholdRange m) (smp_Value s) = false
        /\ above (am_ThresholdRange m) (smp_Value s) = false)
     /\ (f64.leb (req_MinRequestRate req) f64.zero = false ->
         exists q s, RequestRateQuery (request_context req VariantCanary) = Ok q
         /\ snd (provider_Query b q) = Ok s /\ one_finite s = true
         /\ f64.ltb (smp_Value s) f64.zero = false
         /\ f64.ltb (smp_Value s) (req_MinRequestRate req) = false))
  /\ (rd_Verdict (Aggregate (snd (Run b req))) = VerdictPass ->
      req_Metrics req <> [] /\ Forall (fun c => mc_Verdict c = VerdictPass) (snd (Run b req))).
Proof.
  split.
  - intros c Hc Hv. split; [|by apply (passing_has_traffic b req c)].
    pose proof (Run_cases b req) as H. rewrite Forall_forall in H. exact (passing_measured _ _ (H c Hc) Hv).
  - intros Hp. assert (Hne : snd (Run b req) <> []) by (intros E; by rewrite E in Hp). split.
    + intros E. apply Hne. apply (f_equal (@length _)) in E. apply length_zero_iff_nil.
      pose proof (f_equal (@length _) (proj1 (Run_names b req))) as Hl.
      rewrite !length_map in Hl. by rewrite Hl, E.
    + destruct (Aggregate_max _ Hne) as [Hmax _]. rewrite Hp in Hmax.
      apply Forall_forall. intros c Hc. apply rank_pass. by apply Hmax.
Qed.

(** A provider that answers every query with one sample. *)
Definition steady (v : f64.t) : Provider unit := fun b _ => (b, Ok (MkSample v 1)).

Lemma pass_needs_traffic_witness :
  let req := MkRequest "ns" "md" "m" "60s" f64.one 20
               [MkAnalysisMetric "rate" (Some MetricOutputChunkRate) ""
                  (MkThresholdRange (Some (MkQuantity 1000 "1")) None) None] in
  let checks := snd (@Run unit (steady (f64.of_Z 2)) tt req) in
  rd_Verdict (Aggregate checks) = VerdictPass
  /\ Forall (fun c => mc_Verdict c = VerdictPass) checks /\ f64.leb (req_MinRequestRate req) f64.zero = false.
Proof.
  intros req checks. split; [vm_compute; reflexivity|]. split; [|vm_compute; reflexivity].
  refine (proj2 (proj2 (@pass_needs_traffic unit (steady (f64.of_Z 2)) tt req) _)). vm_compute. reflexivity.
Defined.

End analysis.
