(* ===== verification/ControllerRollout.v ===== *)
(** * Rollout planning in the controller

    internal/controller/canary.go, canary_exposure.go and metric_scope.go, with
    [replicasFor] and [progressDeadlineSeconds] of children.go and [soonest] of
    modeldeployment_controller.go.  [planRollout] decides what a pass should
    run; it feeds the state machine of CanaryState.v with what the resource's
    status and the canary Deployment say and with the analysis of Analysis.v.

    The world [B] is the part of the environment that a pass reads and that may
    change under it: the clock and the metric backend.  Each clock reading and
    each query threads it.  Kubernetes events and operator metrics are the list
    of [Effect]s a pass emits. *)

From S2P Require Import Prelude GoFloat GoFmt ApiTypes Metrics Naming CanaryWeights CanaryVerdict CanaryState Analysis.
Import v1alpha1.
Local Open Scope Z_scope.
Local Open Scope go_scope.

Module rollouts.
Import weights verdict state analysis.

(** ** Deployments, as far as the controller reads them *)

Record DeploymentCondition := MkDeploymentCondition {
  dc_Type : string; dc_Status : ConditionStatus; dc_Reason : string }.

Record DeploymentStatus := MkDeploymentStatus {
  ds_ObservedGeneration : Z; ds_Replicas : Z; ds_UpdatedReplicas : Z;
  ds_ReadyReplicas : Z; ds_AvailableReplicas : Z;
  ds_Conditions : list DeploymentCondition }.

Record Deployment := MkDeployment {
  d_UID : string; d_Generation : Z; d_SpecReplicas : option Z;
  d_TemplateLabels : gmap string string; d_Status : DeploymentStatus }.

(** [appsv1.DeploymentProgressing]. *)
Definition DeploymentProgressing : string := "Progressing".

(** A Go map read: the zero value when the key is absent. *)
Definition lookup_or_empty (m : gmap string string) (k : string) : string := from_ptr "" (m !! k).

(** ** The plan of one pass *)

Record rollout := MkRollout {
  rp_PrimaryRevision : string;
  rp_CanaryRevision : string;
  rp_PrimaryReplicas : Z;
  rp_CanaryReplicas : Z;
  rp_Output : Output;
  rp_Round : option Round;
  rp_Active : bool;
  rp_RequeueAfter : time.Duration;
  rp_RolledBack : bool;
  rp_StallReverted : bool }.

(** The zero [canary.Output]. *)
Definition Output_zero : Output := Output_of State_zero ActionUnset 0 0 0 0 0 "" "".

(** Field assignments on an [Output]. *)
Definition out_with_state (o : Output) (st : State) : Output :=
  MkOutput (out_Observation o) st (out_Action o) (out_DesiredWeight o) (out_Primary o)
    (out_Canary o) (out_ReadyReplicas o) (out_AvailableReplicas o) (out_RealizedWeight o)
    (out_RequeueAfter o) (out_Reason o) (out_Message o).

Definition out_with_reason (o : Output) (reason message : string) (requeue : time.Duration) : Output :=
  MkOutput (out_Observation o) (out_State o) (out_Action o) (out_DesiredWeight o) (out_Primary o)
    (out_Canary o) (out_ReadyReplicas o) (out_AvailableReplicas o) (out_RealizedWeight o)
    requeue reason message.

Definition out_with_counts (o : Output) (ready available : Z) : Output :=
  MkOutput (out_Observation o) (out_State o) (out_Action o) (out_DesiredWeight o) (out_Primary o)
    (out_Canary o) ready available (out_RealizedWeight o)
    (out_RequeueAfter o) (out_Reason o) (out_Message o).

Definition out_with_observation (o : Output) (obs : TrafficObservation) (requeue : time.Duration) :
    Output :=
  MkOutput obs (out_State o) (out_Action o) (out_DesiredWeight o) (out_Primary o)
    (out_Canary o) (out_ReadyReplicas o) (out_AvailableReplicas o) (out_RealizedWeight o)
    requeue (out_Reason o) (out_Message o).

Definition out_with_failed (o : Output) (f : string) : Output :=
  out_with_state o (set_FailedRevision (out_State o) f).

Definition in_with_state (i : Input) (st : State) : Input :=
  MkInput (in_Now i) (in_Plan i) st (in_TargetRevision i) (in_StableRevision i)
    (in_TotalReplicas i) (in_Deployment i) (in_Round i) (in_Approved i) (in_Aborted i).

Definition in_with_round (i : Input) (r : Round) : Input :=
  MkInput (in_Now i) (in_Plan i) (in_State i) (in_TargetRevision i) (in_StableRevision i)
    (in_TotalReplicas i) (in_Deployment i) (Some r) (in_Approved i) (in_Aborted i).

(** ** Small helpers *)

Fixpoint firstNonEmpty (vs : list string) : string :=
  match vs with
  | [] => ""
  | v :: vs' => if v != "" then v else firstNonEmpty vs'
  end.

Definition soonest (a b : time.Duration) : time.Duration :=
  if a <=? 0 then Z.max b 0
  else if b <=? 0 then a
  else Z.min a b.

Definition replicasFor (md : ModelDeployment) : Z := from_ptr 1 (sp_Replicas (md_Spec md)).

Definition progressDeadlineSeconds (md : ModelDeployment) : Z :=
  match ro_ProgressDeadline (sp_Rollout (md_Spec md)) with
  | None => 600
  | Some d =>
      let secs := f64.to_int32 (gofmt.Duration_Seconds d) in
      if secs <? 1 then 600 else secs
  end.

Definition annotationEnabled : string := "true".

Definition annotationTrue (md : ModelDeployment) (key : string) : bool :=
  lookup_or_empty (md_Annotations md) key == annotationEnabled.

Fixpoint find_condition (conds : list DeploymentCondition) (t : string) : option DeploymentCondition :=
  match conds with
  | [] => None
  | c :: conds' => if dc_Type c == t then Some c else find_condition conds' t
  end.

Definition findDeploymentCondition (dep : Deployment) (t : string) : option DeploymentCondition :=
  find_condition (ds_Conditions (d_Status dep)) t.

Definition deploymentStalled (dep : option Deployment) : bool :=
  match dep with
  | None => false
  | Some dep =>
      match findDeploymentCondition dep DeploymentProgressing with
      | None => false
      | Some c => (dc_Status c == ConditionFalse) && (dc_Reason c == ReasonProgressDeadlineExceeded)
      end
  end.

(** ** From status to the state machine and back *)

Definition canaryPhaseFrom (p : v1alpha1.Phase) : state.Phase :=
  match p with
  | PhaseCanarying => state.PhaseProgressing
  | v1alpha1.PhasePaused => state.PhasePaused
  | v1alpha1.PhasePromoting => state.PhasePromoting
  | v1alpha1.PhaseRollingBack => state.PhaseRollingBack
  | _ => PhaseIdle
  end.

Definition canaryStateFrom (md : ModelDeployment) : State :=
  match mds_Canary (md_Status md) with
  | None => State_zero
  | Some cs =>
      SetCounters
        (MkState (canaryPhaseFrom (mds_Phase (md_Status md))) (cs_Revision cs) (cs_StableRevision cs)
           (cs_FailedRevision cs) (cs_MetricScopeReady cs) (cs_Step cs)
           (from_ptr time.zero (cs_AvailableSince cs)) (cs_ReadinessTarget cs)
           (from_ptr time.zero (cs_LastAnalysisTime cs)) (from_ptr time.zero (cs_StartTime cs))
           counters_zero)
        (cs_FailedChecks cs) (cs_ConsecutiveErrors cs) (cs_ConsecutiveInconclusive cs)
  end.

(** [&metav1.Time{Time: t}], or nil for the zero time.  The object in memory has
    the whole instant; what is read back of it is [persist] of ControllerPass.v. *)
Definition time_ptr (t : time.Time) : option time.Time := if time.IsZero t then None else Some t.

Definition canaryStatusFrom (out : Output) (round : option Round) (prev : option CanaryStatus) :
    option CanaryStatus :=
  let st := out_State out in
  if (st_Phase st == PhaseIdle) && (st_Revision st == "") && (st_FailedRevision st == "") then None
  else
    let obs := out_Observation out in
    let checks :=
      if time.IsZero (st_LastAnalysis st) then []
      else
        match round with
        | Some r => rd_Checks r
        | None => match prev with Some p => cs_Checks p | None => [] end
        end in
    Some
      (MkCanaryStatus (st_Revision st) (st_StableRevision st) (st_FailedRevision st)
         (out_DesiredWeight out) (out_RealizedWeight out) (obs_Weight obs) (time_ptr (obs_At obs))
         (if time.IsZero (obs_At obs) then None else Some (obs_Window obs)) (obs_Reason obs)
         (st_MetricScopeReady st) (st_Step st) 0
         (FailedChecks st) (ConsecutiveErrors st) (ConsecutiveInconclusive st)
         checks (time_ptr (st_StartedAt st)) (time_ptr (st_LastAnalysis st))
         (time_ptr (st_AvailableSince st)) (st_ReadinessTarget st) (out_ReadyReplicas out)
         (out_AvailableReplicas out) (out_Message out)).

Definition canaryFailedRevision (md : ModelDeployment) : string :=
  match mds_Canary (md_Status md) with
  | None => ""
  | Some cs => cs_FailedRevision cs
  end.

(** The ladder is taken as empty where the [int32] loop of [StepLadder] never
    ends, which needs a weight far beyond the 100 the API admits. *)
Definition canaryPlan (md : ModelDeployment) (c : CanarySpec) : Plan :=
  let a := can_Analysis c in
  MkPlan (from_ptr [] (StepLadder c)) (ResolvedInterval a) (ResolvedInitialDelay a)
    (ResolvedWindow a) (ResolvedFailureThreshold a) (ResolvedConsecutiveErrorLimit a)
    (ResolvedInconclusiveLimit a) (ResolvedOnInconclusive a) (ApprovalRequired c)
    (wrap64 (progressDeadlineSeconds md * time.Second)).

(** The error of a spec whose candidate capacity replica routing cannot honour. *)
Definition validateCanaryRouting (spec : ModelDeploymentSpec) : result unit :=
  if negb (IsCanary (sp_Rollout spec)) then Ok tt
  else
    match ro_Canary (sp_Rollout spec) with
    | None => Ok tt
    | Some c =>
        match can_Scale c with
        | None => Ok tt
        | Some scale =>
            if (can_TrafficRouting c != TrafficRoutingUnset)
               && (can_TrafficRouting c != TrafficRoutingReplica) then Ok tt
            else if negb (is_nil (cscale_Replicas scale)) then
              Err ("replica traffic routing requires proportional capacity: "
                   +:+ "remove spec.rollout.canary.scale.replicas")
            else if cscale_MatchTrafficWeight scale == Some false then
              Err ("replica traffic routing requires "
                   +:+ "spec.rollout.canary.scale.matchTrafficWeight=true or an omitted scale")
            else Ok tt
        end
    end.

(** ** The reconciler's view of the world *)

(** The injected clock and provider, the provider built for a Prometheus
    address, and [resource.MustParse]. *)
Record Reconciler (B : Type) := MkReconciler {
  r_now : B -> B * time.Time;
  r_Provider : option (Provider B);
  r_Prometheus : string -> time.Duration -> Provider B;
  r_MustParse : string -> Quantity }.
Arguments r_now {B}.
Arguments r_Provider {B}.
Arguments r_Prometheus {B}.
Arguments r_MustParse {B}.

Definition observationAwaitingFreshWindow : string := "AwaitingFreshWindow".
Definition observationProviderUnavailable : string := "ProviderUnavailable".
Definition observationMissingSeries : string := "MissingSeries".
Definition observationStaleSamples : string := "StaleSamples".
Definition observationInsufficientTraffic : string := "InsufficientTraffic".
Definition observationMeasured : string := "Measured".

(** The series of one variant, selected by resource identity. *)
Definition variant_selector (metric : string) (md : ModelDeployment) (variant : string) : string :=
  metric +:+ "{namespace=" +:+ gofmt.Quote (md_Namespace md) +:+ ",model_deployment="
    +:+ gofmt.Quote (md_Name md) +:+ ",variant=" +:+ gofmt.Quote variant +:+ "}".

Section Pass.
Context {B : Type} (r : Reconciler B).

Definition providerFor (c : CanarySpec) : option (Provider B) :=
  match r_Provider r with
  | Some p => Some p
  | None =>
      let address := prov_Address (an_Provider (can_Analysis c)) in
      if address == "" then None
      else Some (r_Prometheus r address (ResolvedTimeout (can_Analysis c)))
  end.

(** *** metric_scope.go *)

Definition scope_query (md : ModelDeployment) (window : time.Duration) (now : time.Time)
    (variant : string) : string :=
  let sel := variant_selector metrics.ShimInfo md variant in
  let at_ := gofmt.FormatFloat_f3 (gofmt.unix_seconds now) in
  let since := gofmt.FormatFloat_f3 (gofmt.unix_seconds (time.Add now (time.dneg window))) in
  "count((" +:+ sel +:+ " @ " +:+ at_ +:+ " == 1) and (" +:+ sel +:+ " @ " +:+ at_ +:+ " offset "
    +:+ PromDuration window +:+ " == 1) and (timestamp(" +:+ sel +:+ " @ " +:+ at_ +:+ ") >= "
    +:+ since +:+ "))".

(** The loop over the variants that have replicas. *)
Fixpoint scope_loop (b : B) (p : Provider B) (md : ModelDeployment) (window : time.Duration)
    (now : time.Time) (variants : list (string * Z)) : B * (bool * string) :=
  match variants with
  | [] => (b, (true, "Resource-scoped metric schema is ready"))
  | (name, replicas) :: rest =>
      if replicas <=? 0 then scope_loop b p md window now rest
      else
        let (b, answer) := p b (scope_query md window now name) in
        match answer with
        | Err _ =>
            (b, (false, "Could not verify resource-scoped shim metrics; check provider availability "
                  +:+ "and upgrade pinned old shim images to a controller-compatible version"))
        | Ok s =>
            if negb (one_finite s) || f64.ltb (smp_Value s) (f64.of_Z replicas) then
              (b, (false, "Waiting for " +:+ format_int replicas +:+ " " +:+ name
                    +:+ " shims to expose namespace/model_deployment identity over a full "
                    +:+ PromDuration window +:+ " window; upgrade pinned old shim images"))
            else scope_loop b p md window now rest
        end
  end.

Definition metricsScopeReady (b : B) (provider : option (Provider B)) (md : ModelDeployment)
    (window : time.Duration) (primary candidate : Z) : B * (bool * string) :=
  match provider with
  | Some p =>
      if (window <=? 0) || (md_Namespace md == "") || (md_Name md == "") then
        (b, (false, "Waiting for a configured provider and resource-scoped shim metrics"))
      else
        let (b, now) := r_now r b in
        scope_loop b p md window now [("primary", primary); ("canary", candidate)]
  | None => (b, (false, "Waiting for a configured provider and resource-scoped shim metrics"))
  end.

(** *** canary_exposure.go *)

(** One variant of [sampleCanaryTraffic]: its rate, or the reason there is
    none. *)
Definition variant_rate (b : B) (p : Provider B) (md : ModelDeployment) (now : time.Time)
    (window : time.Duration) (variant : string) : B * (f64.t + string) :=
  let selector := variant_selector metrics.RequestsStartedTotal md variant in
  let at_ := gofmt.FormatFloat_f3 (gofmt.unix_seconds now) in
  let (b, fresh) := p b ("min(timestamp(" +:+ selector +:+ " @ " +:+ at_ +:+ "))") in
  match fresh with
  | Err _ => (b, inr observationProviderUnavailable)
  | Ok fresh =>
      if negb (one_finite fresh) then (b, inr observationMissingSeries)
      else
        let age := f64.sub (gofmt.unix_seconds now) (smp_Value fresh) in
        if f64.ltb age f64.zero || f64.ltb (gofmt.Duration_Seconds window) age then
          (b, inr observationStaleSamples)
        else
          let (b, rate) := p b ("sum(rate(" +:+ selector +:+ "[" +:+ PromDuration window +:+ "] @ "
                                  +:+ at_ +:+ "))") in
          match rate with
          | Err _ => (b, inr observationProviderUnavailable)
          | Ok rate =>
              if negb (one_finite rate) || f64.ltb (smp_Value rate) f64.zero then
                (b, inr observationMissingSeries)
              else (b, inl (smp_Value rate))
          end
  end.

Definition sampleCanaryTraffic (b : B) (provider : option (Provider B)) (md : ModelDeployment)
    (c : CanarySpec) (now : time.Time) (window : time.Duration) : B * TrafficObservation :=
  let failed reason := MkTrafficObservation None now window reason in
  match provider with
  | None => (b, failed observationProviderUnavailable)
  | Some p =>
      let (b, primary) := variant_rate b p md now window "primary" in
      match primary with
      | inr reason => (b, failed reason)
      | inl primary =>
          let (b, candidate) := variant_rate b p md now window "canary" in
          match candidate with
          | inr reason => (b, failed reason)
          | inl candidate =>
              let total := f64.add primary candidate in
              if f64.IsInf total || f64.leb total f64.zero
                 || f64.ltb total (ResolvedMinRequestRate (can_Analysis c)) then
                (b, failed observationInsufficientTraffic)
              else
                let weight := wrap32 (f64.roundZ (f64.mul (f64.of_Z 100) (f64.div candidate total))) in
                (b, MkTrafficObservation (Some weight) now window observationMeasured)
          end
      end
  end.

(** A previous observation of the same rung that is still inside its
    retention. *)
Definition retained (prev : CanaryStatus) (st : State) (plan : Plan) (now : time.Time)
    (retention : time.Duration) : option TrafficObservation :=
  match cs_ObservedAt prev, cs_ObservationWindow prev with
  | Some at_, Some window =>
      if (cs_Revision prev == st_Revision st) && (cs_ReadinessTarget prev == st_ReadinessTarget st)
         && (window =? pl_Window plan)
         && negb (time.Before at_ (warm_until plan (st_AvailableSince st)))
         && negb (time.Before now at_) && time.Before now (time.Add at_ retention)
      then Some (MkTrafficObservation (cs_ObservedWeight prev) at_ window (cs_ObservationReason prev))
      else None
  | _, _ => None
  end.

Definition observeCanaryTraffic (b : B) (md : ModelDeployment) (c : CanarySpec) (plan : Plan)
    (now : time.Time) (out : Output) : B * Output :=
  let st := out_State out in
  if (out_Canary out =? 0) || (st_Revision st == "") then (b, out)
  else if time.IsZero (st_AvailableSince st)
          || time.Before now (warm_until plan (st_AvailableSince st)) then
    let o := out_Observation out in
    (b, out_with_observation out
          (MkTrafficObservation (obs_Weight o) (obs_At o) (obs_Window o) observationAwaitingFreshWindow)
          (out_RequeueAfter out))
  else
    let retention := Z.min (pl_Interval plan) (pl_Window plan) in
    let kept :=
      match mds_Canary (md_Status md) with
      | Some prev => retained prev st plan now retention
      | None => None
      end in
    match kept with
    | Some o =>
        (b, out_with_observation out o
              (soonest (out_RequeueAfter out) (time.Sub (time.Add (obs_At o) retention) now)))
    | None =>
        let (b, o) := sampleCanaryTraffic b (providerFor c) md c now (pl_Window plan) in
        (b, out_with_observation out o (soonest (out_RequeueAfter out) retention))
    end.

(** *** canary.go: the analysis round *)

Definition noProviderMessage : string :=
  "no metric provider is configured: set spec.rollout.canary.analysis.provider.address".

Definition analyse (b : B) (md : ModelDeployment) (c : CanarySpec) : B * Round :=
  let spec := can_Analysis c in
  let metrics := ResolvedMetrics (r_MustParse r) spec in
  match providerFor c with
  | None => (b, Aggregate (map (fun m => Errored m noProviderMessage) metrics))
  | Some p =>
      let (b, _) := r_now r b in
      let (b, checks) :=
        Run (H := p) b
          (MkRequest (md_Namespace md) (md_Name md) (model_Name (sp_Model (md_Spec md)))
             (PromDuration (ResolvedWindow spec)) (ResolvedMinRequestRate spec)
             (ResolvedMinUsageSamples spec) metrics) in
      let (b, _) := r_now r b in
      (b, Aggregate checks)
  end.

(** *** canary.go: planning *)

Definition DeploymentObservation_zero : DeploymentObservation :=
  MkDeploymentObservation "" "" 0 0 0 0 0 0.

Definition deployment_observation (dep : option Deployment) : DeploymentObservation :=
  match dep with
  | Some d =>
      match d_SpecReplicas d with
      | Some n =>
          let s := d_Status d in
          MkDeploymentObservation (d_UID d)
            (lookup_or_empty (d_TemplateLabels d) naming.LabelRevision) (d_Generation d)
            (ds_ObservedGeneration s) n (ds_UpdatedReplicas s) (ds_ReadyReplicas s)
            (ds_AvailableReplicas s)
      | None => DeploymentObservation_zero
      end
  | None => DeploymentObservation_zero
  end.

(** The state machine's input, before the analysis round. *)
Definition canary_input (md : ModelDeployment) (plan : Plan) (now : time.Time) (target : string)
    (canaryDep : option Deployment) (total : Z) : Input :=
  Observe
    (MkInput now plan (canaryStateFrom md) target (mds_LastGoodRevision (md_Status md)) total
       (deployment_observation canaryDep) None (annotationTrue md naming.AnnoPromote)
       (annotationTrue md naming.AnnoAbort)).

(** The round a pass runs, if one is due and the metric schema is in place:
    the input of [Next], and the message of a schema that is not. *)
Definition due_round (b : B) (md : ModelDeployment) (c : CanarySpec) (plan : Plan) (i : Input) :
    B * (Input * option string) :=
  if negb (in_Aborted i) && (st_Revision (canaryStateFrom md) == in_TargetRevision i)
     && DueForAnalysis (in_Now i) plan (in_State i) then
    let '(b, (i, pending)) :=
      if negb (st_MetricScopeReady (in_State i)) then
        let preview := Next i in
        let '(b, (ready, message)) :=
          metricsScopeReady b (providerFor c) md (pl_Window plan) (out_Primary preview)
            (out_Canary preview) in
        if ready then (b, (in_with_state i (set_MetricScopeReady (in_State i) true), None))
        else (b, (i, Some message))
      else (b, (i, None)) in
    match pending with
    | Some message => (b, (i, Some message))
    | None => let (b, round) := analyse b md c in (b, (in_with_round i round, None))
    end
  else (b, (i, None)).

(** What the decision means for the two Deployments. *)
Definition rollout_of (md : ModelDeployment) (target : string) (total : Z) (round : option Round)
    (out : Output) : rollout :=
  let settle revision :=
    MkRollout revision "" total 0 out round false (out_RequeueAfter out) false false in
  let lastGood := mds_LastGoodRevision (md_Status md) in
  match out_Action out with
  | ActionPromote => settle (st_Revision (out_State out))
  | ActionRollback => settle (firstNonEmpty [st_StableRevision (out_State out); lastGood; target])
  | ActionNone => settle target
  | _ =>
      MkRollout (firstNonEmpty [lastGood; target]) (st_Revision (out_State out)) (out_Primary out)
        (out_Canary out) out round (st_Revision (out_State out) != "") (out_RequeueAfter out)
        false false
  end.

Definition planCanary (b : B) (md : ModelDeployment) (c : CanarySpec) (target : string)
    (canaryDep : option Deployment) (total : Z) : B * rollout :=
  let plan := canaryPlan md c in
  let (b, now) := r_now r b in
  let i := canary_input md plan now target canaryDep total in
  let '(b, (i, pending)) := due_round b md c plan i in
  let out := Next i in
  let out :=
    match pending with
    | Some message =>
        out_with_reason out ReasonMetricsScopePending message
          (soonest (out_RequeueAfter out) (pl_Interval plan))
    | None => out
    end in
  let out :=
    out_with_counts out (dep_ReadyReplicas (in_Deployment i)) (dep_AvailableReplicas (in_Deployment i)) in
  let (b, out) := observeCanaryTraffic b md c plan now out in
  (b, rollout_of md target total (in_Round i) out).

Definition holdRejectedRevision (md : ModelDeployment) (res : rollout) (target : string) : rollout :=
  if rp_Active res || rp_RolledBack res then res
  else
    let rejected :=
      firstNonEmpty [st_FailedRevision (out_State (rp_Output res)); canaryFailedRevision md] in
    if (rejected == "") || (rejected != target) then res
    else
      let lastGood := mds_LastGoodRevision (md_Status md) in
      if (lastGood == "") || (lastGood == target) then res
      else
        MkRollout lastGood "" (replicasFor md) 0 (out_with_failed (rp_Output res) rejected)
          (rp_Round res) (rp_Active res) (rp_RequeueAfter res) true (rp_StallReverted res).

Definition guardAgainstStall (md : ModelDeployment) (res : rollout) (primaryDep : option Deployment) :
    rollout :=
  if rp_Active res || rp_RolledBack res then res
  else if negb (AutoRollbackEnabled (sp_Rollout (md_Spec md))) || negb (deploymentStalled primaryDep)
  then res
  else
    let lastGood := mds_LastGoodRevision (md_Status md) in
    if (lastGood == "") || (lastGood == rp_PrimaryRevision res) then res
    else
      MkRollout lastGood "" (rp_PrimaryReplicas res) 0
        (out_with_failed (rp_Output res) (rp_PrimaryRevision res)) (rp_Round res) (rp_Active res)
        (rp_RequeueAfter res) true true.

Definition planRollout (b : B) (md : ModelDeployment) (target : string)
    (primaryDep canaryDep : option Deployment) : B * rollout :=
  let total := replicasFor md in
  let plain := MkRollout target "" total 0 Output_zero None false 0 false false in
  let (b, res) :=
    match ro_Canary (sp_Rollout (md_Spec md)) with
    | Some c =>
        if IsCanary (sp_Rollout (md_Spec md)) then planCanary b md c target canaryDep total
        else (b, plain)
    | None => (b, plain)
    end in
  (b, guardAgainstStall md (holdRejectedRevision md res target) primaryDep).

End Pass.

(** ** Events and operator metrics *)

Record ResourceKey := MkResourceKey { rk_Model : string; rk_Namespace : string; rk_Name : string }.

Definition resourceKeyFor (md : ModelDeployment) : ResourceKey :=
  MkResourceKey (model_Name (sp_Model (md_Spec md))) (md_Namespace md) (md_Name md).

(** What a pass reports to the outside: an event (type, reason, action,
    message) or an update of the operator's own metrics. *)
Inductive Effect :=
  | Event (eventType reason action message : string)
  | RecordCanaryState (key : ResourceKey) (desired realized failedChecks : Z)
  | ForgetCanary (key : ResourceKey)
  | RecordCanaryPromotion (key : ResourceKey)
  | RecordCanaryRollback (key : ResourceKey) (reason : string)
  | RecordAutoscaleDecision (key : ResourceKey) (replicas : Z).

Definition EventTypeNormal : string := "Normal".
Definition EventTypeWarning : string := "Warning".

Fixpoint failed_check (checks : list MetricCheck) : string :=
  match checks with
  | [] => "no failing check was recorded"
  | c :: checks' =>
      if mc_Verdict c == VerdictFail then mc_Name c +:+ ": " +:+ mc_Message c else failed_check checks'
  end.

Definition failedCheckSummary (round : Round) : string := failed_check (rd_Checks round).

(** The switch of [emitRolloutEvents] over the decision. *)
Definition decision_effects (md : ModelDeployment) (out : Output) : list Effect :=
  let prevPhase := mds_Phase (md_Status md) in
  let prevCanary := mds_Canary (md_Status md) in
  let st := out_State out in
  let key := resourceKeyFor md in
  match out_Action out with
  | ActionStart =>
      if match prevCanary with Some cs => cs_Revision cs != st_Revision st | None => true end
      then [Event EventTypeNormal EventReasonCanaryStarted "Canary" (out_Message out)] else []
  | ActionAdvance =>
      if match prevCanary with Some cs => cs_Step cs != st_Step st | None => true end
      then [Event EventTypeNormal EventReasonCanaryAdvanced "Canary" (out_Message out)] else []
  | ActionPromote =>
      if prevPhase != v1alpha1.PhasePromoting
      then [Event EventTypeNormal EventReasonCanaryPromoted "Promote" (out_Message out);
            RecordCanaryPromotion key] else []
  | ActionPause =>
      if prevPhase != v1alpha1.PhasePaused
      then [Event EventTypeNormal EventReasonCanaryPaused "Pause" (out_Message out)] else []
  | ActionRollback =>
      if prevPhase != v1alpha1.PhaseRollingBack
      then [Event EventTypeWarning
              (if out_Reason out == ReasonCanaryAborted then EventReasonCanaryAborted
               else EventReasonCanaryRolledBack) "Rollback" (out_Message out);
            RecordCanaryRollback key (out_Reason out)] else []
  | ActionUnset | ActionNone | ActionWait => []
  end.

Definition emitRolloutEvents (md : ModelDeployment) (res : rollout) : list Effect :=
  let out := rp_Output res in
  let key := resourceKeyFor md in
  if rp_StallReverted res then
    if mds_Phase (md_Status md) != PhaseDegraded
    then [Event EventTypeWarning EventReasonRolloutStalled "Rollback"
            ("Rollout exceeded its progress deadline; reverting to revision "
               +:+ rp_PrimaryRevision res)] else []
  else
    (if rp_Active res
     then [RecordCanaryState key (out_DesiredWeight out) (out_RealizedWeight out)
             (FailedChecks (out_State out))]
     else [ForgetCanary key])
    ++ decision_effects md out
    ++ match rp_Round res with
       | Some round =>
           if (rd_Verdict round == VerdictFail) && (out_Action out != ActionRollback)
           then [Event EventTypeWarning EventReasonAnalysisFailed "Analyze"
                   (out_Message out +:+ " — " +:+ failedCheckSummary round)] else []
       | None => []
       end
    ++ (if IsQuantized (out_DesiredWeight out) (out_RealizedWeight out) && rp_Active res
        then [Event EventTypeWarning EventReasonWeightQuantized "Split"
                ("Requested " +:+ format_int (out_DesiredWeight out)
                   +:+ "% traffic to the canary but "
                   +:+ format_int (wrap32 (out_Primary out + out_Canary out))
                   +:+ " replicas can only express " +:+ format_int (out_RealizedWeight out)
                   +:+ "%; increase spec.replicas for a finer split")] else []).

(** [clearRolloutAnnotations]: the annotations after the merge patch that sets
    the two keys to null. *)
Definition clearRolloutAnnotations (md : ModelDeployment) : gmap string string :=
  if negb (annotationTrue md naming.AnnoPromote) && negb (annotationTrue md naming.AnnoAbort)
  then md_Annotations md
  else delete naming.AnnoPromote (delete naming.AnnoAbort (md_Annotations md)).

End rollouts.
