(* ===== verification/ControllerStatus.v ===== *)
(** * Status (internal/controller/status.go)

    [computeStatus] derives the whole status of a resource from what one pass
    observed; [setInvalidSpec] is the terminal error path.  [SetStatusCondition]
    is apimeta's: a class with the laws its documentation states, so that
    everything below holds for any implementation of them. *)

From S2P Require Import Prelude GoFloat GoFmt ApiTypes Naming CanaryWeights CanaryVerdict CanaryState Analysis ControllerRollout.
Import v1alpha1.
Local Open Scope Z_scope.
Local Open Scope go_scope.

Module status.
Import weights verdict state rollouts.

(** ** Conditions *)

(** [FindStatusCondition]: the first condition of a type. *)
Fixpoint find_status (conds : list Condition) (t : string) : option Condition :=
  match conds with
  | [] => None
  | c :: conds' => if cond_Type c == t then Some c else find_status conds' t
  end.

(** [apimeta.SetStatusCondition]: it sets the condition of that type, leaves
    the others, and changes nothing when that very condition is already there.
    The transition time is not part of [Condition]. *)
Class ConditionSetter := {
  SetStatusCondition : list Condition -> Condition -> list Condition;
  find_set_same conds c : find_status (SetStatusCondition conds c) (cond_Type c) = Some c;
  find_set_other conds c t :
    t <> cond_Type c -> find_status (SetStatusCondition conds c) t = find_status conds t;
  set_present conds c : find_status conds (cond_Type c) = Some c -> SetStatusCondition conds c = conds }.

(** ** What a pass observed *)

(** A [metav1.ConditionStatus] that may be the empty string is an [option]. *)
Record metricsVerdict := MkMetricsVerdict {
  mv_Status : option ConditionStatus; mv_Reason : string; mv_Message : string;
  mv_RequeueAfter : time.Duration }.

Record autoscaleVerdict := MkAutoscaleVerdict {
  av_Status : option ConditionStatus; av_Reason : string; av_Message : string;
  av_Autoscaling : option AutoscalingStatus; av_RequeueAfter : time.Duration }.

Record observed := MkObserved {
  ob_Deployment : option Deployment; ob_CanaryDeployment : option Deployment;
  ob_DesiredReplicas : Z; ob_Revision : string; ob_PrimaryRevision : string;
  ob_Selector : string; ob_Endpoint : string; ob_Rollout : rollout;
  ob_Scaling : autoscaleVerdict; ob_Metrics : metricsVerdict }.

Definition endpointFor (enc : string -> string) (md : ModelDeployment) : string :=
  naming.Endpoint enc (md_Name md) (md_Namespace md) (srv_Port (sp_Serving (md_Spec md))).

Definition pluralReplicas (n : Z) : string :=
  if n =? 1 then "1 replica" else format_int n +:+ " replicas".

Definition modelLoadingMessage (md : ModelDeployment) : string :=
  let src := model_Source (sp_Model (md_Spec md)) in
  match src_HuggingFace src, src_Image src with
  | Some hf, _ =>
      "Downloading " +:+ hf_File hf +:+ " from Hugging Face repository " +:+ hf_Repo hf
        +:+ " and loading it"
  | None, Some im => "Loading the model from image " +:+ im_Image im
  | None, None => "Waiting for the model to load"
  end.

Section Status.
Context {CS : ConditionSetter}.

Definition setCondition (status : ModelDeploymentStatus) (c : Condition) : ModelDeploymentStatus :=
  MkModelDeploymentStatus (mds_ObservedGeneration status) (mds_Phase status) (mds_Replicas status)
    (mds_Selector status) (mds_ReadyReplicas status) (mds_UpdatedReplicas status)
    (mds_AvailableReplicas status) (mds_StableRevision status) (mds_LastGoodRevision status)
    (mds_Endpoint status) (mds_Canary status) (mds_Autoscaling status)
    (SetStatusCondition (mds_Conditions status) c).

Definition spec_valid_condition (generation : Z) : Condition :=
  MkCondition ConditionSpecValid ConditionTrue generation ReasonSpecAccepted "Specification accepted".

Definition setSpecValid (status : ModelDeploymentStatus) (generation : Z) : ModelDeploymentStatus :=
  setCondition status (spec_valid_condition generation).

(** The condition of a verdict, Unknown where it was never evaluated. *)
Definition verdict_condition (type : string) (st : option ConditionStatus) (reason message : string)
    (generation : Z) (unevaluated : string) : Condition :=
  match st with
  | Some s => MkCondition type s generation reason message
  | None => MkCondition type ConditionUnknown generation ReasonReconciling unevaluated
  end.

Definition metrics_condition (v : metricsVerdict) (generation : Z) : Condition :=
  verdict_condition ConditionMetricsRegistered (mv_Status v) (mv_Reason v) (mv_Message v)
    generation "Metric collection has not been evaluated".

Definition setMetricsRegistered (status : ModelDeploymentStatus) (v : metricsVerdict)
    (generation : Z) : ModelDeploymentStatus :=
  setCondition status (metrics_condition v generation).

Definition autoscaling_condition (v : autoscaleVerdict) (generation : Z) : Condition :=
  verdict_condition ConditionAutoscalingReady (av_Status v) (av_Reason v) (av_Message v)
    generation "Autoscaling has not been evaluated".

Definition setAutoscalingReady (status : ModelDeploymentStatus) (v : autoscaleVerdict)
    (generation : Z) : ModelDeploymentStatus :=
  setCondition status (autoscaling_condition v generation).

Definition scope_condition (obs : observed) (generation : Z) : Condition :=
  let out := rp_Output (ob_Rollout obs) in
  let cond s reason message := MkCondition ConditionMetricScopeReady s generation reason message in
  if (0 <? out_Canary out) && (st_Revision (out_State out) != "") then
    if st_MetricScopeReady (out_State out) then
      cond ConditionTrue ReasonMetricsScopeReady "A complete resource-scoped metric window is available"
    else
      cond ConditionFalse ReasonMetricsScopePending
        (if (out_Reason out == ReasonMetricsScopePending) && (out_Message out != "")
         then out_Message out
         else "Waiting for namespace/model_deployment metrics from the current candidate")
  else cond ConditionUnknown ReasonCanaryNotRunning "No canary metric-scope handshake is in progress".

Definition setMetricScopeReady (status : ModelDeploymentStatus) (obs : observed) (generation : Z) :
    ModelDeploymentStatus :=
  setCondition status (scope_condition obs generation).

(** The condition status and whether a canary is in flight. *)
Definition canary_health (out : Output) : ConditionStatus * bool :=
  match out_Action out with
  | ActionRollback => (ConditionFalse, false)
  | ActionStart | ActionAdvance => (ConditionTrue, true)
  | ActionPause => (ConditionTrue, 0 <? out_Canary out)
  | ActionWait =>
      (if out_Reason out == ReasonCanaryChecksFailed then ConditionFalse
       else if (out_Reason out == ReasonAnalysisError) || (out_Reason out == ReasonAnalysisInconclusive)
               || (out_Reason out == ReasonInsufficientReplicas)
               || (out_Reason out == ReasonMetricsScopePending)
       then ConditionUnknown
       else if st_Phase (out_State out) == PhaseWaiting then ConditionUnknown else ConditionTrue, true)
  | ActionPromote => (ConditionTrue, false)
  | ActionUnset | ActionNone => (ConditionUnknown, false)
  end.

Definition healthy_condition (obs : observed) (generation : Z) : Condition :=
  let out := rp_Output (ob_Rollout obs) in
  MkCondition ConditionCanaryHealthy (fst (canary_health out)) generation
    (firstNonEmpty [out_Reason out; ReasonCanaryNotRunning])
    (firstNonEmpty [out_Message out; "No canary in flight"]).

Definition setCanaryHealthy (status : ModelDeploymentStatus) (obs : observed) (generation : Z) :
    ModelDeploymentStatus * bool :=
  (setCondition status (healthy_condition obs generation),
   snd (canary_health (rp_Output (ob_Rollout obs)))).

Definition routing_condition (canary : option CanaryStatus) (obs : observed) (generation : Z) :
    Condition :=
  let out := rp_Output (ob_Rollout obs) in
  let cond s reason message := MkCondition ConditionTrafficRoutingReady s generation reason message in
  if out_Reason out == ReasonInsufficientReplicas then
    cond ConditionFalse (out_Reason out) (out_Message out)
  else if is_nil canary || (out_Canary out =? 0) then
    cond ConditionTrue ReasonCanaryNotRunning "All traffic is served by the primary variant"
  else if IsQuantized (out_DesiredWeight out) (out_RealizedWeight out) then
    cond ConditionTrue ReasonWeightQuantized
      ("Requested " +:+ format_int (out_DesiredWeight out) +:+ "% to the canary; "
         +:+ format_int (wrap32 (out_Primary out + out_Canary out))
         +:+ " replicas can only express " +:+ format_int (out_RealizedWeight out) +:+ "%")
  else
    cond ConditionTrue ReasonTrafficSplit
      ("Configured canary replica share is " +:+ format_int (out_RealizedWeight out) +:+ "%; "
         +:+ format_int (out_ReadyReplicas out) +:+ " of " +:+ format_int (out_Canary out)
         +:+ " desired candidate replicas are ready").

Definition setTrafficRoutingReady (status : ModelDeploymentStatus) (obs : observed) (generation : Z) :
    ModelDeploymentStatus :=
  setCondition status (routing_condition (mds_Canary status) obs generation).

(** The condition [setAvailable] fills in, over the ready count of the status. *)
Definition available_condition (ready : Z) (obs : observed) (generation : Z) : Condition :=
  let cond s reason message := MkCondition ConditionAvailable s generation reason message in
  if ob_DesiredReplicas obs =? 0 then
    cond ConditionTrue ReasonScaledToZero "Scaled to zero replicas"
  else if is_nil (ob_Deployment obs) then
    cond ConditionFalse ReasonReconciling "Waiting for the serving Deployment to be created"
  else if 0 <? ready then
    cond ConditionTrue ReasonMinimumReplicasAvailable (pluralReplicas ready +:+ " ready")
  else cond ConditionFalse ReasonMinimumReplicasUnavailable "No replicas are ready".

Definition setAvailable (status : ModelDeploymentStatus) (obs : observed) (generation : Z) :
    ModelDeploymentStatus * bool :=
  let cond := available_condition (mds_ReadyReplicas status) obs generation in
  (setCondition status cond, cond_Status cond == ConditionTrue).

(** Whether the primary has converged on the revision a rollback chose. *)
Definition reverted (obs : observed) (dep : Deployment) : bool :=
  let s := d_Status dep in
  let n := ob_DesiredReplicas obs in
  is_nil (ob_CanaryDeployment obs) && (d_Generation dep <=? ds_ObservedGeneration s)
  && (ds_UpdatedReplicas s =? n) && (ds_Replicas s =? n) && (ds_AvailableReplicas s =? n).

Definition rolloutComplete (status : ModelDeploymentStatus) (obs : observed) (dep : Deployment) : bool :=
  let n := ob_DesiredReplicas obs in
  (mds_UpdatedReplicas status =? n) && (mds_Replicas status =? n)
  && (mds_AvailableReplicas status =? n)
  && (d_Generation dep <=? ds_ObservedGeneration (d_Status dep)).

(** The condition [setProgressing] fills in, with [progressing] and [stalled]. *)
Definition progress_condition (status : ModelDeploymentStatus) (obs : observed) (generation : Z) :
    Condition * (bool * bool) :=
  let cond s reason message := MkCondition ConditionProgressing s generation reason message in
  match ob_Deployment obs with
  | None =>
      (cond ConditionTrue ReasonNewRevisionDetected "Creating the serving Deployment", (true, false))
  | Some dep =>
      if deploymentStalled (Some dep) then
        (cond ConditionFalse ReasonProgressDeadlineExceeded
           "Rollout has not progressed within spec.rollout.progressDeadline", (false, true))
      else if rp_RolledBack (ob_Rollout obs) && (ob_PrimaryRevision obs != "")
              && (ob_PrimaryRevision obs != ob_Revision obs) then
        if reverted obs dep then
          (cond ConditionFalse ReasonRevisionRejected
             ("Revision " +:+ ob_Revision obs +:+ " was rejected and every replica runs the last known-good "
                +:+ "revision " +:+ ob_PrimaryRevision obs +:+ "; change the spec to roll out again"),
           (false, false))
        else
          (cond ConditionTrue ReasonRolloutInProgress
             ("Reverting to the last known-good revision " +:+ ob_PrimaryRevision obs), (true, false))
      else if rolloutComplete status obs dep then
        (cond ConditionFalse ReasonRolloutComplete "All replicas are running the target revision",
         (false, false))
      else
        (cond ConditionTrue ReasonRolloutInProgress "Rolling out the target revision", (true, false))
  end.

Definition setProgressing (status : ModelDeploymentStatus) (obs : observed) (generation : Z) :
    ModelDeploymentStatus * (bool * bool) :=
  let (cond, verdict) := progress_condition status obs generation in
  (setCondition status cond, verdict).

Definition model_condition (md : ModelDeployment) (available progressing : bool) (generation : Z) :
    Condition :=
  let cond s reason message := MkCondition ConditionModelReady s generation reason message in
  if available then cond ConditionTrue ReasonModelResolved "Model loaded and the engine is serving"
  else if progressing then cond ConditionFalse ReasonModelLoading (modelLoadingMessage md)
  else cond ConditionFalse ReasonEngineUnhealthy "No engine replica has reported healthy".

Definition setModelReady (md : ModelDeployment) (status : ModelDeploymentStatus)
    (available progressing : bool) (generation : Z) : ModelDeploymentStatus :=
  setCondition status (model_condition md available progressing generation).

Definition ready_condition (available progressing : bool) (generation : Z) : Condition :=
  let cond s reason message := MkCondition ConditionReady s generation reason message in
  if available && negb progressing then
    cond ConditionTrue ReasonRolloutComplete "ModelDeployment is serving the target revision"
  else if progressing then cond ConditionFalse ReasonRolloutInProgress "Rollout in progress"
  else cond ConditionFalse ReasonMinimumReplicasUnavailable "No replicas are ready".

Definition setReady (status : ModelDeploymentStatus) (available progressing : bool)
    (generation : Z) : ModelDeploymentStatus :=
  setCondition status (ready_condition available progressing generation).

(** The phase of the replica counts, when no rollout decision outranks it. *)
Definition replica_phase (available progressing stalled : bool) (lastGood : string) : v1alpha1.Phase :=
  if stalled then PhaseDegraded
  else if available && negb progressing then PhaseAvailable
  else if (lastGood == "") && negb available then PhasePending
  else if progressing then v1alpha1.PhaseProgressing
  else PhaseDegraded.

Definition derivePhase (available progressing stalled : bool) (lastGood : string) (plan : rollout) :
    v1alpha1.Phase :=
  match out_Action (rp_Output plan) with
  | ActionStart | ActionAdvance => PhaseCanarying
  | ActionWait =>
      if rp_Active plan then PhaseCanarying
      else replica_phase available progressing stalled lastGood
  | ActionPause => v1alpha1.PhasePaused
  | ActionPromote => v1alpha1.PhasePromoting
  | ActionRollback => v1alpha1.PhaseRollingBack
  | ActionUnset | ActionNone => replica_phase available progressing stalled lastGood
  end.

(** The sum of a counter over the Deployments that exist, on [int32]. *)
Definition sum_counter (f : DeploymentStatus -> Z) (deps : list (option Deployment)) : Z :=
  fold_left (fun acc dep =>
    match dep with Some d => wrap32 (acc + f (d_Status d)) | None => acc end) deps 0.

Definition with_canary_steps (cs : CanaryStatus) (n : Z) : CanaryStatus :=
  MkCanaryStatus (cs_Revision cs) (cs_StableRevision cs) (cs_FailedRevision cs)
    (cs_DesiredWeight cs) (cs_CurrentWeight cs) (cs_ObservedWeight cs) (cs_ObservedAt cs)
    (cs_ObservationWindow cs) (cs_ObservationReason cs) (cs_MetricScopeReady cs) (cs_Step cs) n
    (cs_FailedChecks cs) (cs_ConsecutiveErrors cs) (cs_ConsecutiveInconclusive cs) (cs_Checks cs)
    (cs_StartTime cs) (cs_LastAnalysisTime cs) (cs_AvailableSince cs) (cs_ReadinessTarget cs)
    (cs_ReadyReplicas cs) (cs_AvailableReplicas cs) (cs_Message cs).

(** [status.Canary], with the length of the explicit ladder. *)
Definition canary_block (md : ModelDeployment) (obs : observed) (prev : ModelDeploymentStatus) :
    option CanaryStatus :=
  match canaryStatusFrom (rp_Output (ob_Rollout obs)) (rp_Round (ob_Rollout obs)) (mds_Canary prev),
        ro_Canary (sp_Rollout (md_Spec md)) with
  | Some cs, Some c => Some (with_canary_steps cs (wrap32 (Z.of_nat (length (can_StepWeights c)))))
  | block, _ => block
  end.

(** The status before any condition is set. *)
Definition initial_status (md : ModelDeployment) (obs : observed) (prev : ModelDeploymentStatus) :
    ModelDeploymentStatus :=
  let primaryRevision := firstNonEmpty [ob_PrimaryRevision obs; ob_Revision obs] in
  let both := [ob_Deployment obs; ob_CanaryDeployment obs] in
  let updated :=
    sum_counter ds_UpdatedReplicas
      [if primaryRevision == ob_Revision obs then ob_Deployment obs else None;
       ob_CanaryDeployment obs] in
  MkModelDeploymentStatus (md_Generation md) PhaseUnset (sum_counter ds_Replicas both)
    (ob_Selector obs) (sum_counter ds_ReadyReplicas both) updated
    (sum_counter ds_AvailableReplicas both) primaryRevision (mds_LastGoodRevision prev)
    (ob_Endpoint obs) None None (mds_Conditions prev).

Definition with_blocks (s : ModelDeploymentStatus) (c : option CanaryStatus)
    (a : option AutoscalingStatus) : ModelDeploymentStatus :=
  MkModelDeploymentStatus (mds_ObservedGeneration s) (mds_Phase s) (mds_Replicas s) (mds_Selector s)
    (mds_ReadyReplicas s) (mds_UpdatedReplicas s) (mds_AvailableReplicas s) (mds_StableRevision s)
    (mds_LastGoodRevision s) (mds_Endpoint s) c a (mds_Conditions s).

Definition with_lastGood (s : ModelDeploymentStatus) (lastGood : string) : ModelDeploymentStatus :=
  MkModelDeploymentStatus (mds_ObservedGeneration s) (mds_Phase s) (mds_Replicas s) (mds_Selector s)
    (mds_ReadyReplicas s) (mds_UpdatedReplicas s) (mds_AvailableReplicas s) (mds_StableRevision s)
    lastGood (mds_Endpoint s) (mds_Canary s) (mds_Autoscaling s) (mds_Conditions s).

Definition with_phase (s : ModelDeploymentStatus) (p : v1alpha1.Phase) : ModelDeploymentStatus :=
  MkModelDeploymentStatus (mds_ObservedGeneration s) p (mds_Replicas s) (mds_Selector s)
    (mds_ReadyReplicas s) (mds_UpdatedReplicas s) (mds_AvailableReplicas s) (mds_StableRevision s)
    (mds_LastGoodRevision s) (mds_Endpoint s) (mds_Canary s) (mds_Autoscaling s) (mds_Conditions s).

Definition computeStatus (md : ModelDeployment) (obs : observed) (prev : ModelDeploymentStatus) :
    ModelDeploymentStatus :=
  let generation := md_Generation md in
  let status := initial_status md obs prev in
  let status := setSpecValid status generation in
  let status := setMetricsRegistered status (ob_Metrics obs) generation in
  let (status, available) := setAvailable status obs generation in
  let '(status, (progressing, stalled)) := setProgressing status obs generation in
  let status := setModelReady md status available progressing generation in
  let status := with_blocks status (canary_block md obs prev) (av_Autoscaling (ob_Scaling obs)) in
  let (status, canaryActive) := setCanaryHealthy status obs generation in
  let status := setMetricScopeReady status obs generation in
  let status := setTrafficRoutingReady status obs generation in
  let status := setAutoscalingReady status (ob_Scaling obs) generation in
  let primaryRevision := mds_StableRevision status in
  let status :=
    if available && negb progressing && negb stalled && negb canaryActive && (primaryRevision != "")
    then with_lastGood status primaryRevision else status in
  let status := setReady status available progressing generation in
  with_phase status
    (derivePhase available progressing stalled (mds_LastGoodRevision status) (ob_Rollout obs)).

(** Every condition type that is not reported yet becomes Unknown. *)
Fixpoint seed_conditions (types : list string) (status : ModelDeploymentStatus) (generation : Z)
    (msg : string) : ModelDeploymentStatus :=
  match types with
  | [] => status
  | t :: types' =>
      let status :=
        match find_status (mds_Conditions status) t with
        | Some _ => status
        | None =>
            setCondition status
              (MkCondition t ConditionUnknown generation ReasonInvalidSpec ("Not evaluated: " +:+ msg))
        end in
      seed_conditions types' status generation msg
  end.

Definition setInvalidSpec (status : ModelDeploymentStatus) (generation : Z) (msg : string) :
    ModelDeploymentStatus :=
  let set t status :=
    setCondition status (MkCondition t ConditionFalse generation ReasonInvalidSpec msg) in
  let status := set ConditionReady (set ConditionSpecValid status) in
  with_phase (seed_conditions AllConditionTypes status generation msg) PhaseDegraded.

End Status.
End status.
