(* ===== verification/ControllerPlan.v ===== *)
(** * What a planned pass may look like

    Lemmas and properties of [planRollout] (ControllerRollout.v): the shape of a
    state-machine decision, how the controller turns it into a plan, and that
    the plan conserves the replica budget and keeps a rejected revision out of
    the primary. *)

From S2P Require Import Prelude GoFloat GoFmt ApiTypes Metrics Naming CanaryWeights CanaryVerdict CanaryState CanaryRules CanarySafety Analysis ControllerRollout.
Import v1alpha1.
Local Open Scope Z_scope.
Local Open Scope go_scope.

Module plans.
Import weights verdict state rules safety analysis rollouts.

(** ** The shape of a decision *)

(** The position a canary for [target] is left in, with the recorded rejection
    unchanged. *)
Definition at_target (target rejected : string) (st : State) : Prop :=
  st_Revision st = target /\ st_FailedRevision st = rejected.

Definition decided (i : Input) (o : Output) : Prop :=
  let st := out_State o in
  let ours := at_target (in_TargetRevision i) (st_FailedRevision (in_State i)) st in
  match out_Action o with
  | ActionUnset => False
  | ActionNone => st = idle_state (st_FailedRevision (in_State i))
  | ActionRollback =>
      st_Phase st = PhaseRollingBack /\ st_Revision st = st_Revision (in_State i)
      /\ st_FailedRevision st = st_Revision (in_State i)
      /\ isActive (st_Phase (in_State i)) = true
  | ActionPromote => st_Phase st = PhasePromoting /\ ours
  | ActionStart | ActionAdvance => st_Phase st = PhaseWaiting /\ ours
  | ActionWait => (st_Phase st = PhaseWaiting \/ st_Phase st = PhaseProgressing) /\ ours
  | ActionPause => st_Phase st = PhasePaused /\ ours
  end.

Lemma judge_decided j v :
  consumes j v -> decided j (judge j (in_State j) v).
Proof.
  intros (([Hp|Hp] & HR & _) & _); unfold judge, hold, splitFor;
    destruct v; unfold onInconclusive, advance, splitFor; repeat go_split1;
    unfold decided, at_target; cbn; rewrite ?Hp; auto.
Qed.

Lemma Next_decided i : decided i (Next i).
Proof.
  destruct (Observe_inputs i) as (_ & _ & HT & _). destruct (Observe_state i) as (HR & _ & HF & _).
  assert (H : decided (Observe i) (Next i)).
  2: { unfold decided in *. rewrite HT, HR, HF, Observe_active in H. exact H. }
  destruct (Next_rule i) as [m Ha Hact| |m Hs|reason m Hf Hn|m Hf Hs He|m Hp Hr Hs|m Hp Hr Hs|Hp Hr Ha
    |m Ha Hd|p m q Ha Hs Hd Hc Hp Hq|v Hc]; try (apply judge_decided; done); unfold start, paused, hold, splitFor;
    repeat go_split1; unfold decided, at_target; cbn; auto.
  - destruct Ha as ([E|E] & HR' & _); rewrite E; auto.
  - destruct Ha as (? & ? & ?). subst p. destruct (time.IsZero _); auto.
Qed.

(** ** The input and output of the state machine inside a pass *)

(** What the controller adds to a decision leaves the decision alone. *)
Definition same_decision (o n : Output) : Prop :=
  out_State o = out_State n /\ out_Action o = out_Action n
  /\ out_Primary o = out_Primary n /\ out_Canary o = out_Canary n.

(** The input the machine sees was built from this resource. *)
Definition built_from (md : ModelDeployment) (target : string) (total : Z) (i : Input) : Prop :=
  let st := canaryStateFrom md in
  in_TargetRevision i = target /\ in_StableRevision i = mds_LastGoodRevision (md_Status md)
  /\ in_TotalReplicas i = total
  /\ st_Revision (in_State i) = st_Revision st /\ st_FailedRevision (in_State i) = st_FailedRevision st
  /\ isActive (st_Phase (in_State i)) = isActive (st_Phase st).

Lemma canary_input_built md plan now target dep total :
  built_from md target total (canary_input md plan now target dep total).
Proof.
  unfold canary_input. set (i0 := MkInput _ _ _ _ _ _ _ _ _ _).
  destruct (Observe_inputs i0) as (_ & _ & HT & HS & HN & _).
  destruct (Observe_state i0) as (HR & _ & HF & _). pose proof (Observe_active i0) as HA.
  unfold built_from. rewrite HT, HS, HN, HR, HF, HA. done.
Qed.

Lemma due_round_built {B} (r : Reconciler B) b md c plan target total i :
  built_from md target total i -> built_from md target total (fst (snd (due_round r b md c plan i))).
Proof. intros H. unfold due_round. repeat go_split1; cbn; exact H. Qed.

Lemma observe_same {B} (r : Reconciler B) b md c plan now o :
  same_decision (snd (observeCanaryTraffic r b md c plan now o)) o.
Proof. unfold observeCanaryTraffic. repeat go_split1; done. Qed.

Lemma planCanary_shape {B} (r : Reconciler B) b md c target dep total :
  exists i round o,
    snd (planCanary r b md c target dep total) = rollout_of md target total round o
    /\ same_decision o (Next i) /\ built_from md target total i.
Proof.
  unfold planCanary. destruct (r_now r b) as [b1 now].
  set (i0 := canary_input _ _ _ _ _ _).
  pose proof (due_round_built r b1 md c (canaryPlan md c) target total i0
                (canary_input_built _ _ _ _ _ _)) as Hi.
  destruct (due_round r b1 md c (canaryPlan md c) i0) as [b2 [i pending]]. cbn [fst snd] in Hi.
  set (out := out_with_counts _ _ _).
  pose proof (observe_same r b2 md c (canaryPlan md c) now out) as Ho.
  destruct (observeCanaryTraffic _ _ _ _ _ _ _) as [b3 o]. cbn [snd] in Ho |- *.
  exists i, (in_Round i), o. split; [done|]. split; [|done].
  revert Ho. subst out. unfold same_decision. by destruct pending.
Qed.

(** A plan before the two guards: a plain rollout of the target, or a decision
    of the state machine. *)
Inductive planned (md : ModelDeployment) (target : string) : rollout -> Prop :=
  | planned_plain :
      planned md target (MkRollout target "" (replicasFor md) 0 Output_zero None false 0 false false)
  | planned_canary i round o :
      same_decision o (Next i) -> built_from md target (replicasFor md) i ->
      planned md target (rollout_of md target (replicasFor md) round o).

Lemma planRollout_planned {B} (r : Reconciler B) b md target pd cd :
  exists res, planned md target res
  /\ snd (planRollout r b md target pd cd)
     = guardAgainstStall md (holdRejectedRevision md res target) pd.
Proof.
  unfold planRollout. destruct (ro_Canary _) as [c|]; [|eexists; split; [apply planned_plain|done]].
  destruct (IsCanary _); [|eexists; split; [apply planned_plain|done]].
  destruct (planCanary_shape r b md c target cd (replicasFor md)) as (i & round & o & E & Hs & Hb).
  destruct (planCanary _ _ _ _ _ _ _) as [b' res]. cbn [snd] in *. subst res.
  eexists; split; [by eapply planned_canary|done].
Qed.

(** With a canary in flight the primary keeps the last known-good revision and
    the canary runs the target; otherwise the primary has every replica. *)
Definition well_split (md : ModelDeployment) (target : string) (res : rollout) : Prop :=
  rp_PrimaryReplicas res + rp_CanaryReplicas res = replicasFor md
  /\ 0 <= rp_PrimaryReplicas res /\ 0 <= rp_CanaryReplicas res
  /\ (rp_Active res = true ->
        rp_CanaryRevision res = target
        /\ rp_PrimaryRevision res = firstNonEmpty [mds_LastGoodRevision (md_Status md); target])
  /\ (rp_Active res = false -> rp_CanaryRevision res = "" /\ rp_CanaryReplicas res = 0
        /\ rp_PrimaryReplicas res = replicasFor md).

Lemma planned_well_split md target res :
  planned md target res -> int32_ok (replicasFor md) -> 0 <= replicasFor md -> target <> "" ->
  well_split md target res.
Proof.
  intros Hres Hok H0 Ht. destruct Hres as [|i round o (HS & HA & HP & HC) (HT & _ & HN & _)].
  { unfold well_split; cbn; repeat split; try done; lia. }
  pose proof (Next_decided i) as Hd. pose proof (Next_counts i) as Hn.
  rewrite <- HP, <- HC, HN in Hn. specialize (Hn Hok H0). unfold decided in Hd.
  rewrite <- HA, <- HS, HT in Hd. unfold rollout_of, well_split.
  destruct (out_Action o); try done; cbn.
  all: try (repeat split; try done; lia).
  all: destruct Hd as (_ & HR & _); rewrite HR, (bool_decide_eq_false_2 _ Ht);
    repeat split; try done; lia.
Qed.

(** Both guards only ever replace a plan without a canary by one of the last
    known-good revision, at full size. *)
Lemma hold_well_split md target res :
  0 <= replicasFor md -> well_split md target res ->
  well_split md target (holdRejectedRevision md res target).
Proof.
  intros H0 H. unfold holdRejectedRevision. destruct (rp_Active res || _) eqn:E; [done|].
  apply orb_false_iff in E as [E _]. repeat go_split1; try done. unfold well_split. cbn.
  rewrite E. repeat split; try done; lia.
Qed.

Lemma guard_well_split md target pd res :
  0 <= replicasFor md -> well_split md target res ->
  well_split md target (guardAgainstStall md res pd).
Proof.
  intros H0 H. unfold guardAgainstStall. destruct (rp_Active res || _) eqn:E; [done|].
  apply orb_false_iff in E as [E _]. repeat go_split1; try done.
  destruct H as (_ & _ & _ & _ & H). destruct (H E) as (_ & _ & HP).
  unfold well_split. cbn. rewrite E, HP. repeat split; try done; lia.
Qed.

(** ** A rejected target *)

Lemma canaryState_failed md : st_FailedRevision (canaryStateFrom md) = canaryFailedRevision md.
Proof. unfold canaryStateFrom, canaryFailedRevision. by destruct (mds_Canary _). Qed.

(** With no canary in flight a rejected target is never started again. *)
Lemma Next_rejected i :
  isActive (st_Phase (in_State i)) = false ->
  st_FailedRevision (in_State i) = in_TargetRevision i ->
  out_Action (Next i) = ActionNone \/ out_Action (Next i) = ActionPromote.
Proof.
  intros Hact Hf. pose proof (Next_rule i) as H. rewrite Observe_id in H by auto.
  assert (Hns : ~ startable i) by (intros (_ & Hn & _); done).
  assert (Hna : ~ active i) by (unfold active; by rewrite Hact).
  assert (Hnn : ~ analysing i) by (intros ([E|E] & _); rewrite E in Hact; done).
  destruct H as [| Hs _|m Hs| | | | |Hp| | |v Hc]; auto; try done.
  - destruct Hs as [(_ & Hs & _)|[[Hs _]|Hs]]; done.
  - destruct Hs as [(_ & Hs & _)|[[Hs _]|[Hs _]]]; done.
  - by rewrite Hp in Hact.
  - by destruct Hc as [Hc _].
Qed.

(** The target is rejected and there is a revision to fall back to. *)
Definition fallback (md : ModelDeployment) (target good : string) : Prop :=
  mds_LastGoodRevision (md_Status md) = good /\ good <> "" /\ good <> target /\ target <> "".

Lemma hold_reverts md target good res :
  fallback md target good -> rp_Active res = false -> rp_RolledBack res = false ->
  firstNonEmpty [st_FailedRevision (out_State (rp_Output res)); canaryFailedRevision md] = target ->
  holdRejectedRevision md res target
  = MkRollout good "" (replicasFor md) 0 (out_with_failed (rp_Output res) target) (rp_Round res)
      (rp_Active res) (rp_RequeueAfter res) true (rp_StallReverted res).
Proof.
  intros (HL & Hg & Hgt & Ht) HA HR HF. unfold holdRejectedRevision. rewrite HR, HF, HL, HA.
  cbn [orb]. by rewrite (bool_decide_eq_false_2 _ Ht), (bool_decide_eq_true_2 (target = target)),
    (bool_decide_eq_false_2 _ Hg), (bool_decide_eq_false_2 _ Hgt).
Qed.

Lemma guard_done md res pd : rp_RolledBack res = true -> guardAgainstStall md res pd = res.
Proof. intros H. unfold guardAgainstStall. by rewrite H, orb_true_r. Qed.

Lemma planned_not_rolled_back md target res : planned md target res -> rp_RolledBack res = false.
Proof. intros []; [done|]. unfold rollout_of. by destruct (out_Action o). Qed.

(** The plan of a rejected target with no canary in flight. *)
Lemma planned_rejected md target res :
  planned md target res -> target <> "" -> canaryFailedRevision md = target ->
  isActive (st_Phase (canaryStateFrom md)) = false ->
  rp_Active res = false
  /\ firstNonEmpty [st_FailedRevision (out_State (rp_Output res)); canaryFailedRevision md] = target
  /\ (out_Action (rp_Output res) = ActionUnset /\ out_State (rp_Output res) = State_zero
      \/ out_Action (rp_Output res) = ActionNone /\ out_State (rp_Output res) = idle_state target
      \/ out_Action (rp_Output res) = ActionPromote
         /\ st_Phase (out_State (rp_Output res)) = PhasePromoting).
Proof.
  intros Hres Ht Hf Hact. destruct Hres as [|i round o (HS & HA & _) (HT & _ & _ & _ & HF & HI)].
  { cbn. rewrite Hf, (bool_decide_eq_false_2 _ Ht). cbn. auto. }
  rewrite canaryState_failed, Hf in HF. rewrite Hact in HI.
  pose proof (Next_decided i) as Hd. unfold decided in Hd. rewrite <- HS, HF, HT in Hd.
  destruct (Next_rejected i HI) as [E|E]; [congruence|..]; rewrite E in Hd, HA;
    unfold rollout_of; rewrite HA; cbn [rp_Active rp_Output firstNonEmpty]; rewrite HA.
  - rewrite Hd. cbn. rewrite (bool_decide_eq_false_2 _ Ht). auto 8.
  - destruct Hd as (Hp & _ & ->). rewrite (bool_decide_eq_false_2 _ Ht). auto 8.
Qed.

(** ** A sample resource, for the witnesses *)

Definition no_resources : ResourceRequirements := MkResourceRequirements ∅ ∅.

(** A canary of two rungs over ten replicas. *)
Definition sample_canary : CanarySpec :=
  MkCanarySpec None [20; 50] None
    (MkAnalysisSpec None None None None None None InconclusiveUnset None None
       (MkAnalysisProviderSpec "Prometheus" "http://prometheus:9090" None) [])
    TrafficRoutingReplica None None.

Definition sample_spec (strategy : RolloutStrategyType) : ModelDeploymentSpec :=
  MkModelDeploymentSpec (Some 10)
    (MkModelSpec "qwen" (MkModelSourceSpec (Some (MkImageModelSource "img" "/m.gguf" "")) None None))
    (MkEngineSpec "LlamaCPP" "" "" None None None [] [] no_resources None)
    (MkServingSpec 8080 None (MkShimSpec None "" no_resources ""))
    (MkRolloutSpec strategy None None None None (Some sample_canary))
    (MkObservabilitySpec None None None) None.

Definition sample_status (phase : v1alpha1.Phase) (canary : option CanaryStatus) :
    ModelDeploymentStatus :=
  MkModelDeploymentStatus 1 phase 10 "" 10 10 10 "old" "old" "" canary None [].

Definition sample_md (strategy : RolloutStrategyType) (status : ModelDeploymentStatus) :
    ModelDeployment :=
  MkModelDeployment "demo" "default" "u" "1" 2 None ∅ (sample_spec strategy) status.

(** The clock stands still and every query answers one sample. *)
Definition sample_reconciler_at (now : time.Time) (v : f64.t) : Reconciler unit :=
  MkReconciler unit (fun b => (b, now)) (Some (steady v)) (fun _ _ => steady v)
    (fun s => MkQuantity 1500 s).

Definition sample_reconciler (v : f64.t) : Reconciler unit := sample_reconciler_at (500 * time.Second) v.

(** ** Properties *)

(** C7: a planned pass conserves the replica budget.  Whatever the strategy,
    the status, the Deployments, the metrics and the clock say, the two
    variants of [planRollout] get nonnegative counts that add up to
    [spec.replicas]; without a canary in flight there is no canary revision and
    the primary has every replica; with one, the canary runs the target while
    the primary keeps the last known-good revision. *)
Theorem plan_conserves_replicas {B} (r : Reconciler B) b md target pd cd :
  int32_ok (replicasFor md) -> 0 <= replicasFor md -> target <> "" ->
  well_split md target (snd (planRollout r b md target pd cd)).
Proof.
  intros Hok H0 Ht. destruct (planRollout_planned r b md target pd cd) as (res & Hres & ->).
  by apply guard_well_split, hold_well_split, planned_well_split.
Qed.

Lemma plan_conserves_replicas_witness :
  let md := sample_md RolloutCanary (sample_status PhaseAvailable None) in
  let res := snd (planRollout (sample_reconciler f64.one) tt md "new" None None) in
  rp_Active res = true /\ rp_PrimaryReplicas res = 8 /\ well_split md "new" res.
Proof.
  intros md res. split; [vm_compute; reflexivity|]. split; [vm_compute; reflexivity|].
  apply plan_conserves_replicas; vm_compute; done.
Defined.

End plans.
