(* ===== verification/ControllerPass.v ===== *)
(** * One reconcile pass: plan, apply, observe, record

    [pass] composes [planRollout] and [computeStatus] the way [Reconcile] does;
    the Deployments read before planning and after applying are inputs, so a
    theorem about a pass holds whatever the cluster does in between.  A [Turn]
    is one pass with a freshly read resource; [passes] runs a sequence of them,
    each reading the status the previous one wrote, as the API server kept it:
    [persist] cuts every instant to the second. *)

From S2P Require Import Prelude GoFloat GoFmt ApiTypes Metrics Naming CanaryWeights CanaryVerdict CanaryState CanaryRules Analysis ControllerRollout ControllerStatus ControllerPlan.
Import v1alpha1.
Local Open Scope Z_scope.
Local Open Scope go_scope.

Module reconcile.
Import weights verdict state rules analysis rollouts status plans.

(** [observe]: the selector text is that of the Service's labels. *)
Definition observe (enc : string -> string) (selector : string) (md : ModelDeployment) (rev : string)
    (plan : rollout) (dep canaryDep : option Deployment) (scaling : autoscaleVerdict)
    (metrics : metricsVerdict) : observed :=
  MkObserved dep canaryDep (replicasFor md) rev (rp_PrimaryRevision plan) selector
    (endpointFor enc md) plan scaling metrics.

Definition with_status (md : ModelDeployment) (s : ModelDeploymentStatus) : ModelDeployment :=
  MkModelDeployment (md_Name md) (md_Namespace md) (md_UID md) (md_ResourceVersion md)
    (md_Generation md) (md_DeletionTimestamp md) (md_Annotations md) (md_Spec md) s.

(** A status as it is read back: its instants are [metav1.Time]s, which an API
    object keeps to the second. *)
Definition persist_canary (cs : CanaryStatus) : CanaryStatus :=
  MkCanaryStatus (cs_Revision cs) (cs_StableRevision cs) (cs_FailedRevision cs) (cs_DesiredWeight cs)
    (cs_CurrentWeight cs) (cs_ObservedWeight cs) (time.stored <$> cs_ObservedAt cs) (cs_ObservationWindow cs)
    (cs_ObservationReason cs) (cs_MetricScopeReady cs) (cs_Step cs) (cs_Steps cs) (cs_FailedChecks cs)
    (cs_ConsecutiveErrors cs) (cs_ConsecutiveInconclusive cs) (cs_Checks cs) (time.stored <$> cs_StartTime cs)
    (time.stored <$> cs_LastAnalysisTime cs) (time.stored <$> cs_AvailableSince cs) (cs_ReadinessTarget cs)
    (cs_ReadyReplicas cs) (cs_AvailableReplicas cs) (cs_Message cs).

Definition persist_autoscaling (a : AutoscalingStatus) : AutoscalingStatus :=
  MkAutoscalingStatus (ast_DesiredReplicas a) (ast_CurrentMetric a) (ast_CurrentMetricPerPod a)
    (time.stored <$> ast_LastScaleTime a)
    (map (fun r => MkScaleRecommendation (time.stored (sr_Time r)) (sr_Replicas r)) (ast_Recommendations a))
    (ast_Message a).

Definition persist (s : ModelDeploymentStatus) : ModelDeploymentStatus :=
  MkModelDeploymentStatus (mds_ObservedGeneration s) (mds_Phase s) (mds_Replicas s) (mds_Selector s)
    (mds_ReadyReplicas s) (mds_UpdatedReplicas s) (mds_AvailableReplicas s) (mds_StableRevision s)
    (mds_LastGoodRevision s) (mds_Endpoint s) (persist_canary <$> mds_Canary s)
    (persist_autoscaling <$> mds_Autoscaling s) (mds_Conditions s).

(** What one pass reads: the resource (its status apart), the two Deployments
    before planning and after applying, and the verdicts of the other loops. *)
Record Turn := MkTurn {
  t_md : ModelDeployment; t_selector : string;
  t_primaryBefore : option Deployment; t_canaryBefore : option Deployment;
  t_primaryAfter : option Deployment; t_canaryAfter : option Deployment;
  t_scaling : autoscaleVerdict; t_metrics : metricsVerdict }.

Section Passes.
Context {CS : ConditionSetter} {B : Type} (r : Reconciler B) (enc : string -> string).

Definition pass (b : B) (status : ModelDeploymentStatus) (target : string) (t : Turn) :
    B * (rollout * ModelDeploymentStatus) :=
  let md := with_status (t_md t) status in
  let (b, plan) := planRollout r b md target (t_primaryBefore t) (t_canaryBefore t) in
  let obs := observe enc (t_selector t) md target plan (t_primaryAfter t) (t_canaryAfter t)
               (t_scaling t) (t_metrics t) in
  (b, (plan, computeStatus md obs status)).

(** The plans of a sequence of passes for the same target, each reading back the
    status the one before it recorded. *)
Fixpoint passes (b : B) (status : ModelDeploymentStatus) (target : string) (ts : list Turn) :
    list rollout :=
  match ts with
  | [] => []
  | t :: ts' =>
      let '(b, (plan, status)) := pass b (persist status) target t in
      plan :: passes b status target ts'
  end.
End Passes.

(** ** The fields of a computed status *)

Section Fields.
Context {CS : ConditionSetter}.

(** [available], [progressing] and [stalled] as [computeStatus] derives them. *)
Definition is_available (md : ModelDeployment) (obs : observed) (prev : ModelDeploymentStatus) : bool :=
  cond_Status (available_condition (mds_ReadyReplicas (initial_status md obs prev)) obs
                 (md_Generation md)) == ConditionTrue.

Definition progress (md : ModelDeployment) (obs : observed) (prev : ModelDeploymentStatus) : bool * bool :=
  snd (progress_condition (initial_status md obs prev) obs (md_Generation md)).

(** The revision a pass banks as last known-good. *)
Definition banked (md : ModelDeployment) (obs : observed) (prev : ModelDeploymentStatus) : bool :=
  is_available md obs prev && negb (fst (progress md obs prev)) && negb (snd (progress md obs prev))
  && negb (snd (canary_health (rp_Output (ob_Rollout obs))))
  && (firstNonEmpty [ob_PrimaryRevision obs; ob_Revision obs] != "").

Definition new_lastGood (md : ModelDeployment) (obs : observed) (prev : ModelDeploymentStatus) : string :=
  if banked md obs prev then firstNonEmpty [ob_PrimaryRevision obs; ob_Revision obs]
  else mds_LastGoodRevision prev.

(** The conditions a pass sets, in order. *)
Definition set_conditions (md : ModelDeployment) (obs : observed) (prev : ModelDeploymentStatus) :
    list Condition :=
  let g := md_Generation md in
  let s0 := initial_status md obs prev in
  let avail := is_available md obs prev in
  let prog := fst (progress md obs prev) in
  [ spec_valid_condition g; metrics_condition (ob_Metrics obs) g;
    available_condition (mds_ReadyReplicas s0) obs g; fst (progress_condition s0 obs g);
    model_condition md avail prog g; healthy_condition obs g; scope_condition obs g;
    routing_condition (canary_block md obs prev) obs g; autoscaling_condition (ob_Scaling obs) g;
    ready_condition avail prog g ].

(** Only the counters of the status decide whether a rollout is complete. *)
Lemma progress_frame s c obs g : progress_condition (setCondition s c) obs g = progress_condition s obs g.
Proof. reflexivity. Qed.

Lemma computeStatus_eq md obs prev :
  computeStatus md obs prev =
  let s0 := initial_status md obs prev in
  MkModelDeploymentStatus (md_Generation md)
    (derivePhase (is_available md obs prev) (fst (progress md obs prev)) (snd (progress md obs prev))
       (new_lastGood md obs prev) (ob_Rollout obs))
    (mds_Replicas s0) (ob_Selector obs) (mds_ReadyReplicas s0) (mds_UpdatedReplicas s0)
    (mds_AvailableReplicas s0) (firstNonEmpty [ob_PrimaryRevision obs; ob_Revision obs])
    (new_lastGood md obs prev) (ob_Endpoint obs) (canary_block md obs prev)
    (av_Autoscaling (ob_Scaling obs))
    (fold_left SetStatusCondition (set_conditions md obs prev) (mds_Conditions prev)).
Proof.
  unfold new_lastGood, banked, set_conditions, progress, is_available. cbv zeta.
  unfold computeStatus, setSpecValid, setMetricsRegistered, setAvailable, setProgressing.
  cbn [mds_ReadyReplicas setCondition].
  rewrite !progress_frame.
  assert (H : exists g ph rep sel rdy upd avl stb lg ep cs,
    initial_status md obs prev
    = MkModelDeploymentStatus g ph rep sel rdy upd avl stb lg ep None None cs
    /\ g = md_Generation md /\ sel = ob_Selector obs /\ ep = ob_Endpoint obs
    /\ stb = firstNonEmpty [ob_PrimaryRevision obs; ob_Revision obs]
    /\ lg = mds_LastGoodRevision prev /\ cs = mds_Conditions prev).
  { unfold initial_status. repeat eexists. }
  destruct H as (g & ph & rep & sel & rdy & upd & avl & stb & lg & ep & cs & -> & -> & -> & -> & -> & -> & ->).
  set (s0 := MkModelDeploymentStatus _ _ _ _ _ _ _ _ _ _ _ _ _).
  destruct (progress_condition s0 obs (md_Generation md)) as [c [p st]]. subst s0.
  set (primary := firstNonEmpty _).
  cbn [fst snd mds_ReadyReplicas mds_Replicas mds_UpdatedReplicas mds_AvailableReplicas].
  set (av := _ == ConditionTrue).
  unfold setModelReady, setCanaryHealthy, setMetricScopeReady, setTrafficRoutingReady,
    setAutoscalingReady, setReady.
  cbn [setCondition with_blocks mds_ObservedGeneration mds_Phase mds_Replicas mds_Selector
    mds_ReadyReplicas mds_UpdatedReplicas mds_AvailableReplicas mds_StableRevision
    mds_LastGoodRevision mds_Endpoint mds_Canary mds_Autoscaling mds_Conditions fold_left].
  by destruct (av && _ && _ && _ && _).
Qed.

(** ** Conditions *)

Lemma fold_find_other cs conds t :
  t ∉ map cond_Type cs -> find_status (fold_left SetStatusCondition cs conds) t = find_status conds t.
Proof.
  revert conds. induction cs as [|c cs IH]; intros conds Ht; [done|]. cbn in *.
  apply not_elem_of_cons in Ht as [Hc Ht]. by rewrite IH, find_set_other.
Qed.

Lemma fold_find cs conds c :
  NoDup (map cond_Type cs) -> c ∈ cs ->
  find_status (fold_left SetStatusCondition cs conds) (cond_Type c) = Some c.
Proof.
  revert conds. induction cs as [|d cs IH]; intros conds Hn Hc; [by apply elem_of_nil in Hc|].
  apply NoDup_cons in Hn as [Hd Hn]. apply elem_of_cons in Hc as [->|Hc]; cbn; [|by apply IH].
  rewrite fold_find_other by done. apply find_set_same.
Qed.

(** Setting conditions that are already there changes nothing. *)
Lemma fold_set_present cs conds :
  (forall c, c ∈ cs -> find_status conds (cond_Type c) = Some c) ->
  fold_left SetStatusCondition cs conds = conds.
Proof.
  intros H. induction cs as [|c cs IH]; [done|]. cbn. rewrite set_present by (apply H; left).
  apply IH. intros d Hd. apply H. by right.
Qed.

Lemma set_conditions_types md obs prev :
  map cond_Type (set_conditions md obs prev)
  = [ ConditionSpecValid; ConditionMetricsRegistered; ConditionAvailable; ConditionProgressing;
      ConditionModelReady; ConditionCanaryHealthy; ConditionMetricScopeReady;
      ConditionTrafficRoutingReady; ConditionAutoscalingReady; ConditionReady ].
Proof.
  unfold set_conditions. cbv zeta. cbn [map].
  unfold metrics_condition, autoscaling_condition, verdict_condition, available_condition,
    progress_condition, model_condition, scope_condition, routing_condition, ready_condition.
  f_equal. f_equal; [by destruct (mv_Status _)|]. f_equal; [repeat go_split1; done|].
  f_equal; [repeat go_split1; done|]. f_equal; [repeat go_split1; done|]. f_equal.
  f_equal; [repeat go_split1; done|]. f_equal; [repeat go_split1; done|].
  f_equal; [by destruct (av_Status _)|]. f_equal. repeat go_split1; done.
Qed.

Lemma set_conditions_NoDup md obs prev : NoDup (map cond_Type (set_conditions md obs prev)).
Proof. rewrite set_conditions_types. apply (bool_decide_unpack _). vm_compute. done. Qed.

Lemma set_conditions_all md obs prev t :
  t ∈ AllConditionTypes ->
  exists c, c ∈ set_conditions md obs prev /\ cond_Type c = t.
Proof.
  intros Ht. assert (Hin : t ∈ map cond_Type (set_conditions md obs prev)).
  { rewrite set_conditions_types. revert t Ht. apply Forall_forall, (bool_decide_unpack _).
    vm_compute. done. }
  apply list_elem_of_fmap in Hin as (c & -> & Hc). by exists c.
Qed.

Lemma set_conditions_generation md obs prev :
  Forall (fun c => cond_ObservedGeneration c = md_Generation md) (set_conditions md obs prev).
Proof.
  unfold set_conditions, metrics_condition, autoscaling_condition, verdict_condition,
    available_condition, progress_condition, model_condition, scope_condition, routing_condition,
    ready_condition. cbv zeta.
  repeat (apply Forall_cons; split); [..|by apply Forall_nil]; repeat go_split1; done.
Qed.

Lemma computeStatus_find md obs prev c :
  c ∈ set_conditions md obs prev ->
  find_status (mds_Conditions (computeStatus md obs prev)) (cond_Type c) = Some c.
Proof. intros Hc. rewrite computeStatus_eq. apply fold_find; [apply set_conditions_NoDup|done]. Qed.

(** The seeding loop leaves no type unreported and keeps what was there. *)
Lemma seed_conditions_keeps types st g msg t c :
  find_status (mds_Conditions st) t = Some c ->
  find_status (mds_Conditions (seed_conditions types st g msg)) t = Some c.
Proof.
  revert st. induction types as [|u types IH]; intros st H; [done|]. cbn. apply IH.
  destruct (find_status (mds_Conditions st) u) eqn:E; [done|]. cbn.
  destruct (decide (t = u)) as [->|Hn]; [congruence|]. by rewrite find_set_other.
Qed.

Lemma seed_conditions_all types st g msg t :
  t ∈ types -> exists c, find_status (mds_Conditions (seed_conditions types st g msg)) t = Some c.
Proof.
  revert st. induction types as [|u types IH]; intros st Ht; [by apply elem_of_nil in Ht|].
  apply elem_of_cons in Ht as [->|Ht]; cbn; [|by apply IH].
  destruct (find_status (mds_Conditions st) u) as [c|] eqn:E.
  - exists c. by apply seed_conditions_keeps.
  - eexists. apply seed_conditions_keeps. cbn. apply (find_set_same _ (MkCondition u _ _ _ _)).
Qed.

(** ** Recomputing a status *)

Lemma canary_block_again md obs prev :
  canary_block md obs (computeStatus md obs prev) = canary_block md obs prev.
Proof.
  rewrite computeStatus_eq. unfold canary_block, canaryStatusFrom. cbn [mds_Canary].
  destruct (_ && _ && _); [done|]. destruct (time.IsZero (st_LastAnalysis _)); [done|].
  destruct (rp_Round _); [done|]. by destruct (ro_Canary _).
Qed.

(** Nothing in flight and nothing stalled: the primary has converged. *)
Lemma progress_settled md obs prev :
  progress md obs prev = (false, false) ->
  exists dep, ob_Deployment obs = Some dep /\ deploymentStalled (Some dep) = false
  /\ d_Generation dep <= ds_ObservedGeneration (d_Status dep)
  /\ (reverted obs dep = true \/ rolloutComplete (initial_status md obs prev) obs dep = true).
Proof.
  unfold progress, progress_condition. destruct (ob_Deployment obs) as [dep|]; [|done]. exists dep.
  destruct (deploymentStalled _) eqn:Es; [done|]. split; [done|]. split; [done|].
  destruct (_ && _ && _).
  - destruct (reverted obs dep) eqn:E; [|done]. split; [|by left]. unfold reverted in E. go_bools. lia.
  - destruct (rolloutComplete _ _ _) eqn:E; [|done]. split; [|by right].
    unfold rolloutComplete in E. go_bools. lia.
Qed.

Lemma available_ready md obs prev :
  is_available md obs prev = true -> ob_DesiredReplicas obs <> 0 ->
  0 < mds_ReadyReplicas (initial_status md obs prev).
Proof.
  unfold is_available, available_condition. intros H Hn. rewrite (proj2 (Z.eqb_neq _ _) Hn) in H.
  destruct (is_nil _); [done|]. destruct (Z.ltb_spec 0 (mds_ReadyReplicas (initial_status md obs prev))); done.
Qed.

End Fields.
End reconcile.
