(* ===== verification/ControllerSafety.v ===== *)
(** * Safety of the reconcile loop

    What a sequence of passes guarantees, whatever the cluster, the metric
    backend and the users do between them: a rejected revision stays out of the
    primary, only a serving revision becomes the rollback target, a restart
    resumes the canary where it was, and the status surface is complete and
    settles. *)

From S2P Require Import Prelude GoFloat GoFmt ApiTypes Metrics Naming CanaryWeights CanaryVerdict CanaryState CanaryRules Analysis ControllerRollout ControllerStatus ControllerPlan ControllerPass.
Import v1alpha1.
Local Open Scope Z_scope.
Local Open Scope go_scope.

Module ctlsafety.
Import weights verdict state rules analysis rollouts status plans reconcile.

(** ** The state machine does not see Waiting from Progressing *)

(** The phase a restart restores: the coarse API phase merges the two. *)
Definition restored (p : state.Phase) : state.Phase :=
  match p with PhaseWaiting => state.PhaseProgressing | p => p end.

Definition restored_state (st : State) : State := set_Phase st (restored (st_Phase st)).

(** The state with its instants as they are read back. *)
Definition truncated (st : State) : State :=
  MkState (st_Phase st) (st_Revision st) (st_StableRevision st) (st_FailedRevision st)
    (st_MetricScopeReady st) (st_Step st) (time.stored (st_AvailableSince st)) (st_ReadinessTarget st)
    (time.stored (st_LastAnalysis st)) (time.stored (st_StartedAt st)) (st_counters st).

(** Unset, or at least a second after the zero time. *)
Definition instants_ok (st : State) : Prop :=
  Forall (fun t => t = time.zero \/ time.Second <= t)
    [st_AvailableSince st; st_LastAnalysis st; st_StartedAt st].

Lemma stored_bounds t : time.stored t <= t < time.stored t + time.Second.
Proof. unfold time.stored, time.Second. pose proof (Z.div_mod t 1000000000); pose proof (Z.mod_pos_bound t 1000000000). lia. Qed.

Lemma stored_idemp t : time.stored (time.stored t) = time.stored t.
Proof. unfold time.stored, time.Second. by rewrite Z.div_mul. Qed.

Lemma stored_zero t : t = time.zero \/ time.Second <= t -> time.IsZero (time.stored t) = time.IsZero t.
Proof.
  pose proof (stored_bounds t). unfold time.IsZero, time.zero, time.Second in *. intros [->|Ht]; [done|].
  rewrite !(proj2 (Z.eqb_neq _ 0)); lia.
Qed.

Lemma truncated_idemp st : truncated (truncated st) = truncated st.
Proof. unfold truncated. cbn. by rewrite !stored_idemp. Qed.

(** Read back, a round is due at most a second early. *)
Lemma due_truncated now p st :
  instants_ok st ->
  (DueForAnalysis now p st = true -> DueForAnalysis now p (truncated st) = true)
  /\ (DueForAnalysis now p (truncated st) = true -> DueForAnalysis (now + time.Second) p st = true).
Proof.
  intros H. apply Forall_cons in H as [Ha H]. apply Forall_cons in H as [Hl _].
  unfold DueForAnalysis. cbn [truncated st_Phase st_AvailableSince st_LastAnalysis].
  rewrite (stored_zero _ Ha), (stored_zero _ Hl).
  pose proof (stored_bounds (st_AvailableSince st)). pose proof (stored_bounds (st_LastAnalysis st)).
  destruct (_ && _); [done|]. destruct (time.IsZero (st_AvailableSince st)); [done|].
  unfold time.Before, warm_until, time.Add. set (d := time.dadd _ _). clearbody d.
  destruct (Z.ltb_spec now (time.stored (st_AvailableSince st) + d)),
    (Z.ltb_spec now (st_AvailableSince st + d)),
    (Z.ltb_spec (now + time.Second) (st_AvailableSince st + d)); try lia; try done;
    destruct (time.IsZero (st_LastAnalysis st)); try done; go_lia.
Qed.

(** Nor does the progress deadline fall more than a second early. *)
Lemma deadline_truncated i st :
  deadline_exceeded i (truncated st) = true ->
  time.Add (st_StartedAt st) (pl_ProgressDeadline (in_Plan i)) < in_Now i + time.Second.
Proof.
  pose proof (stored_bounds (st_StartedAt st)). unfold deadline_exceeded. intros E. go_bools.
  unfold time.Before, time.Add in *. cbn [truncated st_StartedAt] in *. go_bools. lia.
Qed.

Lemma analyse_blind i st :
  st_Phase st = PhaseWaiting -> in_State i = st ->
  state.analyse (in_with_state i (set_Phase st state.PhaseProgressing)) (set_Phase st state.PhaseProgressing)
  = state.analyse i st.
Proof.
  intros Hp Hi. destruct i, st. cbn in *. subst.
  unfold state.analyse, in_with_state, set_Phase, capacityHold, start, rollback, hold, judge, consume,
    advance, onInconclusive, splitFor, DueForAnalysis, deadline_exceeded, currentWeight. cbn.
  reflexivity.
Qed.

Definition blind (i : Input) : Input :=
  in_with_state i (set_Phase (in_State i) state.PhaseProgressing).

Lemma Observe_blind i :
  st_Phase (in_State i) = PhaseWaiting ->
  st_Phase (in_State (Observe i)) = PhaseWaiting
  /\ (Observe (blind i) = Observe i \/ Observe (blind i) = blind (Observe i)).
Proof.
  intros Hp. unfold Observe, blind, in_with_state. cbn. rewrite Hp. cbn.
  destruct (st_Revision _ != _); cbn; [by auto|].
  change (observe_target (MkInput _ _ (set_Phase (in_State i) _) _ _ _ _ _ _ _)) with (observe_target i).
  change (observe_ready (MkInput _ _ (set_Phase (in_State i) _) _ _ _ _ _ _ _)) with (observe_ready i).
  set (target := observe_target i). clearbody target.
  destruct (target != _), (observe_ready i), ((_ != "") && _); cbn; auto;
    destruct (time.IsZero (st_AvailableSince (in_State i))); cbn; auto.
Qed.

Lemma Next_blind i : st_Phase (in_State i) = PhaseWaiting -> Next (blind i) = Next i.
Proof.
  intros Hp. destruct (Observe_blind i Hp) as [Hw [E|E]].
  - unfold Next. by rewrite E.
  - unfold Next. rewrite E. cbv zeta. set (j := Observe i) in *.
    change (in_Aborted (blind j)) with (in_Aborted j).
    change (in_State (blind j)) with (set_Phase (in_State j) state.PhaseProgressing).
    cbn [set_Phase st_Phase isActive st_Revision]. rewrite Hw. cbn [isActive andb].
    change (in_TargetRevision (blind j)) with (in_TargetRevision j).
    destruct (in_Aborted j); cbn [andb]; [done|].
    destruct (st_Revision (in_State j) != in_TargetRevision j); [done|].
    by apply analyse_blind.
Qed.

Lemma Next_restored i : Next (in_with_state i (restored_state (in_State i))) = Next i.
Proof.
  assert (Hid : forall p, p = st_Phase (in_State i) ->
            in_with_state i (set_Phase (in_State i) p) = i).
  { intros p ->. by destruct i as [? ? []]. }
  unfold restored_state. destruct (st_Phase (in_State i)) eqn:E; cbn [restored]; try by rewrite Hid.
  by apply Next_blind.
Qed.

(** ** What the status remembers of a decision *)

(** The decisions a pass can end with, and the phase each leaves. *)
Definition persistable (res : rollout) : Prop :=
  let o := rp_Output res in
  match out_Action o with
  | ActionUnset | ActionNone => exists f, out_State o = idle_state f
  | ActionStart | ActionAdvance => st_Phase (out_State o) = PhaseWaiting
  | ActionWait =>
      rp_Active res = true
      /\ (st_Phase (out_State o) = PhaseWaiting \/ st_Phase (out_State o) = state.PhaseProgressing)
  | ActionPause => st_Phase (out_State o) = state.PhasePaused
  | ActionPromote => st_Phase (out_State o) = state.PhasePromoting
  | ActionRollback => st_Phase (out_State o) = state.PhaseRollingBack
  end.

Lemma planned_persistable md target res : planned md target res -> target <> "" -> persistable res.
Proof.
  intros Hres Ht. destruct Hres as [|i round o (HS & HA & _) (HT & _)]; [by exists ""|].
  pose proof (Next_decided i) as Hd. unfold decided in Hd. rewrite <- HA, <- HS in Hd.
  unfold persistable, rollout_of.
  destruct (out_Action o) eqn:E; try done; cbn; rewrite ?E; try tauto; try by eexists.
  destruct Hd as (Hp & -> & _). rewrite HT, (bool_decide_eq_false_2 _ Ht). done.
Qed.

Lemma failed_persistable md o r cr pr b b' :
  forall res, persistable res -> persistable (MkRollout md cr pr 0 (out_with_failed (rp_Output res) o)
                                                 (rp_Round res) (rp_Active res) r b b').
Proof.
  intros res. unfold persistable. cbn. destruct (out_Action _); try done.
  - intros [f ->]. by exists o.
  - intros [f ->]. by exists o.
Qed.

Lemma planRollout_persistable {B} (r : Reconciler B) b md target pd cd :
  target <> "" -> persistable (snd (planRollout r b md target pd cd)).
Proof.
  intros Ht. destruct (planRollout_planned r b md target pd cd) as (res & Hres & ->).
  apply planned_persistable in Hres; [|done]. unfold guardAgainstStall.
  assert (H : persistable (holdRejectedRevision md res target)).
  { unfold holdRejectedRevision. repeat go_split1; try done. by apply failed_persistable. }
  repeat go_split1; try done. by apply failed_persistable.
Qed.

Definition counters_ok (st : State) : Prop :=
  0 <= FailedChecks st /\ 0 <= ConsecutiveErrors st /\ 0 <= ConsecutiveInconclusive st.

Lemma replica_phase_idle a p s lg : canaryPhaseFrom (replica_phase a p s lg) = PhaseIdle.
Proof. unfold replica_phase. repeat go_split1; done. Qed.

Lemma derivePhase_restores a p s lg res :
  persistable res -> canaryPhaseFrom (derivePhase a p s lg res) = restored (st_Phase (out_State (rp_Output res))).
Proof.
  unfold persistable, derivePhase. destruct (out_Action _); try (by intros ->).
  - intros [f ->]. apply replica_phase_idle.
  - intros [f ->]. apply replica_phase_idle.
  - intros [-> [-> | ->]]; done.
Qed.

Lemma time_ptr_back t : from_ptr time.zero (time_ptr t) = t.
Proof. unfold time_ptr, time.IsZero, time.zero. destruct (Z.eqb_spec t 0) as [->|]; done. Qed.

(** Only an idle machine that remembers nothing is recorded as no canary. *)
Lemma persistable_idle res :
  persistable res -> st_Phase (out_State (rp_Output res)) = PhaseIdle ->
  exists f, out_State (rp_Output res) = idle_state f.
Proof.
  unfold persistable. intros H Hp. destruct (out_Action _); try done; try (rewrite Hp in H; done).
  destruct H as [_ [H|H]]; by rewrite Hp in H.
Qed.

Section Restart.
Context {CS : ConditionSetter}.

Lemma canaryState_restored md md' obs prev :
  persistable (ob_Rollout obs) -> counters_ok (out_State (rp_Output (ob_Rollout obs))) ->
  canaryStateFrom (with_status md' (computeStatus md obs prev))
  = restored_state (out_State (rp_Output (ob_Rollout obs))).
Proof.
  intros Hper (Hf & He & Hi). unfold canaryStateFrom. cbn [with_status md_Status].
  rewrite computeStatus_eq. cbn [mds_Canary mds_Phase].
  rewrite derivePhase_restores by done. unfold canary_block, canaryStatusFrom.
  set (out := rp_Output (ob_Rollout obs)) in *. set (st := out_State out) in *.
  destruct ((st_Phase st == PhaseIdle) && _ && _) eqn:E.
  - go_bools. destruct (persistable_idle (ob_Rollout obs) Hper H) as [f Hst].
    change (out_State (rp_Output (ob_Rollout obs))) with st in Hst. rewrite Hst in *.
    cbn in H0. by subst f.
  - unfold FailedChecks, ConsecutiveErrors, ConsecutiveInconclusive in *.
    destruct (ro_Canary _); unfold with_canary_steps, SetCounters; cbn;
      rewrite !time_ptr_back, !Z.max_l by done; destruct st as [? ? ? ? ? ? ? ? ? ? []]; done.
Qed.

(** Read back, the state has its instants cut. *)
Lemma canaryState_persisted md s :
  canaryStateFrom (with_status md (persist s)) = truncated (canaryStateFrom (with_status md s)).
Proof.
  unfold canaryStateFrom. cbn. destruct (mds_Canary s) as [cs|]; [|done].
  unfold truncated, SetCounters. cbn.
  by destruct (cs_AvailableSince cs), (cs_LastAnalysisTime cs), (cs_StartTime cs).
Qed.
End Restart.

(** ** A primary that has converged *)

Definition counts_ok (dep : Deployment) : Prop :=
  int32_ok (ds_UpdatedReplicas (d_Status dep)) /\ int32_ok (ds_Replicas (d_Status dep))
  /\ int32_ok (ds_AvailableReplicas (d_Status dep)).

(** Every desired replica is one of [dep]'s, updated and available. *)
Definition converged (obs : observed) (dep : Deployment) : Prop :=
  ds_UpdatedReplicas (d_Status dep) = ob_DesiredReplicas obs /\ ds_Replicas (d_Status dep) = ob_DesiredReplicas obs
  /\ ds_AvailableReplicas (d_Status dep) = ob_DesiredReplicas obs.

(** Without a canary Deployment the summed counts are the primary's. *)
Lemma settled_converged md obs prev dep :
  ob_Deployment obs = Some dep -> ob_CanaryDeployment obs = None -> ob_DesiredReplicas obs <> 0 -> counts_ok dep ->
  reverted obs dep = true \/ rolloutComplete (initial_status md obs prev) obs dep = true -> converged obs dep.
Proof.
  intros Hd Hn H0 (Hu & Hr & Ha) [H|H]; unfold converged.
  - unfold reverted in H. go_bools. done.
  - unfold rolloutComplete, initial_status in H. cbn in H. rewrite Hd, Hn in H. cbn in H. go_bools.
    destruct (_ == _); cbn in *; rewrite ?Z.add_0_r, ?wrap32_id in * by (done || go_lia); try done; lia.
Qed.

(** ** A rejection, pass after pass *)

(** The recorded status rejects [target] and falls back to [good]; no canary is
    in flight. *)
Definition rejecting (target good : string) (s : ModelDeploymentStatus) : Prop :=
  match mds_Canary s with Some cs => cs_FailedRevision cs = target | None => False end
  /\ mds_LastGoodRevision s = good /\ isActive (canaryPhaseFrom (mds_Phase s)) = false.

(** The plan that keeps the rejected target out. *)
Definition kept_out (good : string) (md : ModelDeployment) (res : rollout) : Prop :=
  rp_PrimaryRevision res = good /\ rp_PrimaryReplicas res = replicasFor md
  /\ rp_CanaryRevision res = "" /\ rp_CanaryReplicas res = 0 /\ rp_Active res = false
  /\ rp_RolledBack res = true.

Section Rejection.
Context {CS : ConditionSetter} {B : Type} (r : Reconciler B) (enc : string -> string).
Context (target good : string).
Hypothesis Ht : target <> "".
Hypothesis Hg : good <> "".
Hypothesis Hgt : good <> target.

Lemma canary_block_failed md obs prev f :
  f <> "" -> st_FailedRevision (out_State (rp_Output (ob_Rollout obs))) = f ->
  match canary_block md obs prev with Some cs => cs_FailedRevision cs = f | None => False end.
Proof.
  intros Hf E. unfold canary_block, canaryStatusFrom. rewrite E, (bool_decide_eq_false_2 _ Hf), andb_false_r.
  by destruct (ro_Canary _).
Qed.

(** Recording a plan that keeps the target out keeps the status rejecting. *)
Lemma record_rejecting md md' sel dep cdep sc me prev plan :
  kept_out good md' plan -> st_FailedRevision (out_State (rp_Output plan)) = target ->
  mds_LastGoodRevision prev = good ->
  isActive (restored (st_Phase (out_State (rp_Output plan)))) = false -> persistable plan ->
  rejecting target good (computeStatus md (observe enc sel md target plan dep cdep sc me) prev).
Proof.
  intros (HP & _) HF HL Hact Hper. set (obs := observe _ _ _ _ _ _ _ _ _). unfold rejecting.
  rewrite computeStatus_eq. cbn [mds_Canary mds_LastGoodRevision mds_Phase]. split; [|split].
  - by apply canary_block_failed.
  - unfold new_lastGood. destruct (banked _ _ _); [|done]. cbn.
    by rewrite HP, (bool_decide_eq_false_2 _ Hg).
  - by rewrite derivePhase_restores.
Qed.

Lemma rejecting_pass b s t :
  rejecting target good s ->
  let '(_, (plan, s')) := pass r enc b s target t in
  kept_out good (t_md t) plan /\ rejecting target good s'.
Proof.
  intros (Hf & HL & Hact). unfold pass. set (md := with_status (t_md t) s).
  assert (Hfail : canaryFailedRevision md = target).
  { unfold canaryFailedRevision. cbn. by destruct (mds_Canary s). }
  assert (Hst : isActive (st_Phase (canaryStateFrom md)) = false).
  { unfold canaryStateFrom. cbn. by destruct (mds_Canary s). }
  destruct (planRollout_planned r b md target (t_primaryBefore t) (t_canaryBefore t)) as (res & Hres & E).
  destruct (planned_rejected md target res Hres Ht Hfail Hst) as (Ha & Hrej & Hdec).
  pose proof (planned_not_rolled_back _ _ _ Hres) as Hrb.
  rewrite (hold_reverts md target good res) in E; [|done..]. rewrite guard_done in E by done.
  destruct (planRollout _ _ _ _ _ _) as [b' plan]. cbn [snd] in E. subst plan.
  split; [done|]. eapply (record_rejecting _ (t_md t)); [done|done|done|..].
  - change (isActive (restored (st_Phase (out_State (rp_Output res)))) = false).
    destruct Hdec as [[_ ->]|[[_ ->]|[_ ->]]]; done.
  - apply failed_persistable. by eapply planned_persistable.
Qed.

Lemma rejecting_persist s : rejecting target good s -> rejecting target good (persist s).
Proof. unfold rejecting, persist. cbn. by destruct (mds_Canary s). Qed.

Lemma rejecting_passes b s ts :
  rejecting target good s ->
  Forall2 (fun t plan => kept_out good (t_md t) plan) ts (passes r enc b s target ts).
Proof.
  revert b s. induction ts as [|t ts IH]; intros b s H; cbn [passes]; [constructor|].
  pose proof (rejecting_pass b _ t (rejecting_persist s H)) as Hp.
  destruct (pass r enc b (persist s) target t) as [b' [plan s']]. destruct Hp as [Hk Hs]. constructor; [done|].
  by apply IH.
Qed.

(** A plan without a canary is at full size and leaves no canary in flight. *)
Lemma planned_inactive md res :
  planned md target res -> rp_Active res = false ->
  rp_PrimaryReplicas res = replicasFor md
  /\ isActive (restored (st_Phase (out_State (rp_Output res)))) = false.
Proof.
  intros Hres Ha. destruct Hres as [|i round o (HS & HA & _) (HT & _)]; [done|].
  pose proof (Next_decided i) as Hd. unfold decided in Hd. rewrite <- HA, <- HS in Hd.
  revert Ha. unfold rollout_of. destruct (out_Action o) eqn:E; cbn; try done.
  all: try (destruct Hd as (Hp & HR & _)).
  all: try (rewrite HR, HT, (bool_decide_eq_false_2 _ Ht); done).
  - by rewrite Hd.
  - by rewrite Hp.
  - by rewrite Hp.
Qed.

(** This pass rejected the target: its canary was rolled back, or its rollout
    stalled and was reverted. *)
Definition rejects (plan : rollout) : Prop :=
  out_Action (rp_Output plan) = ActionRollback /\ st_Revision (out_State (rp_Output plan)) = target
  \/ rp_StallReverted plan = true /\ st_FailedRevision (out_State (rp_Output plan)) = target.

Lemma planned_active md res :
  planned md target res -> rp_Active res = true ->
  out_Action (rp_Output res) <> ActionRollback /\ rp_StallReverted res = false.
Proof.
  intros [|i round o _ _]; [done|]. unfold rollout_of.
  by destruct (out_Action o) eqn:E; cbn; rewrite ?E.
Qed.

Lemma planned_rollback md res :
  planned md target res -> out_Action (rp_Output res) = ActionRollback ->
  st_Revision (out_State (rp_Output res)) = target ->
  rp_Active res = false
  /\ firstNonEmpty [st_FailedRevision (out_State (rp_Output res)); canaryFailedRevision md] = target.
Proof.
  intros Hres HA HR. destruct Hres as [|i round o (HS & HAo & _) (HT & _)]; [done|].
  pose proof (Next_decided i) as Hd. unfold decided in Hd. rewrite <- HAo, <- HS in Hd.
  revert HA HR. unfold rollout_of. destruct (out_Action o) eqn:E; cbn; rewrite ?E; try done.
  intros _ HR. destruct Hd as (_ & HR' & HF & _). split; [done|].
  by rewrite HF, <- HR', HR, (bool_decide_eq_false_2 _ Ht).
Qed.

(** The stall guard leaves a plan alone or reverts it. *)
Lemma guard_cases md res pd :
  guardAgainstStall md res pd = res
  \/ rp_Active res = false
     /\ guardAgainstStall md res pd
        = MkRollout (mds_LastGoodRevision (md_Status md)) "" (rp_PrimaryReplicas res) 0
            (out_with_failed (rp_Output res) (rp_PrimaryRevision res)) (rp_Round res) (rp_Active res)
            (rp_RequeueAfter res) true true.
Proof.
  unfold guardAgainstStall. destruct (rp_Active res || _) eqn:E; [by left|].
  apply orb_false_iff in E as [E _]. repeat go_split1; auto.
Qed.

(** A rejected plan whose target was not rejected before: the guard stalled. *)
Lemma rejects_stalled md res pd :
  planned md target res -> mds_LastGoodRevision (md_Status md) = good ->
  firstNonEmpty [st_FailedRevision (out_State (rp_Output res)); canaryFailedRevision md] <> target ->
  let plan := guardAgainstStall md res pd in
  rejects plan ->
  kept_out good md plan /\ st_FailedRevision (out_State (rp_Output plan)) = target
  /\ isActive (restored (st_Phase (out_State (rp_Output plan)))) = false.
Proof.
  intros Hres HL Hf plan. subst plan.
  assert (Hnr : ~ (out_Action (rp_Output res) = ActionRollback
                   /\ st_Revision (out_State (rp_Output res)) = target)).
  { intros [HA HR]. by destruct (planned_rollback md res Hres HA HR). }
  destruct (guard_cases md res pd) as [->|[Ha ->]]; intros [Hrej|[HS HF]]; try done.
  - exfalso. revert HS. clear -Hres. destruct Hres; [done|]. unfold rollout_of.
    by destruct (out_Action o).
  - destruct (planned_inactive md res Hres Ha) as [HP Hph]. split; [|done]. by rewrite HL.
Qed.

(** The pass that rejects the target already keeps it out of the primary. *)
Lemma rejects_kept_out b md pd cd :
  mds_LastGoodRevision (md_Status md) = good ->
  let plan := snd (planRollout r b md target pd cd) in
  rejects plan ->
  kept_out good md plan /\ st_FailedRevision (out_State (rp_Output plan)) = target
  /\ isActive (restored (st_Phase (out_State (rp_Output plan)))) = false.
Proof.
  intros HL plan. subst plan.
  destruct (planRollout_planned r b md target pd cd) as (res & Hres & ->).
  pose proof (planned_not_rolled_back _ _ _ Hres) as Hrb.
  destruct (decide (firstNonEmpty [st_FailedRevision (out_State (rp_Output res)); canaryFailedRevision md]
                    = target)) as [Hf|Hf]; intros Hrej.
  - destruct (rp_Active res) eqn:Ha.
    + exfalso. revert Hrej. unfold holdRejectedRevision, guardAgainstStall. rewrite Ha. cbn [orb].
      rewrite Ha. cbn [orb]. destruct (planned_active _ _ Hres Ha) as [Hna Hns].
      by intros [[? _]|[? _]]; congruence.
    + rewrite (hold_reverts md target good res), guard_done by done.
      split; [done|]. split; [done|]. by apply (planned_inactive md res).
  - assert (Hh : holdRejectedRevision md res target = res).
    { unfold holdRejectedRevision. rewrite (bool_decide_eq_false_2 _ Hf). cbn [negb].
      rewrite orb_true_r. by destruct (_ || _). }
    rewrite Hh in *. by apply rejects_stalled.
Qed.

Lemma rejects_records b s t :
  mds_LastGoodRevision s = good ->
  let '(_, (plan, s')) := pass r enc b s target t in
  rejects plan -> kept_out good (t_md t) plan /\ rejecting target good s'.
Proof.
  intros HL. unfold pass. set (md := with_status (t_md t) s).
  pose proof (rejects_kept_out b md (t_primaryBefore t) (t_canaryBefore t) HL) as H.
  pose proof (planRollout_persistable r b md target (t_primaryBefore t) (t_canaryBefore t) Ht) as Hper.
  destruct (planRollout _ _ _ _ _ _) as [b' plan]. cbn [snd] in *. intros Hrej.
  destruct (H Hrej) as (Hk & HF & Hact). split; [done|]. by eapply (record_rejecting _ md).
Qed.

End Rejection.

(** ** An implementation of the condition setter, for the witnesses *)

Fixpoint set_in (conds : list Condition) (c : Condition) : list Condition :=
  match conds with
  | [] => [c]
  | d :: conds' => if cond_Type d == cond_Type c then c :: conds' else d :: set_in conds' c
  end.

Lemma set_in_same conds c : find_status (set_in conds c) (cond_Type c) = Some c.
Proof.
  induction conds as [|d conds IH]; cbn; [by rewrite bool_decide_eq_true_2|].
  destruct (cond_Type d == cond_Type c) eqn:E; cbn; [by rewrite bool_decide_eq_true_2|].
  by rewrite E.
Qed.

Lemma set_in_other conds c t :
  t <> cond_Type c -> find_status (set_in conds c) t = find_status conds t.
Proof.
  intros Hn. induction conds as [|d conds IH]; cbn; [by rewrite bool_decide_eq_false_2|].
  destruct (cond_Type d == cond_Type c) eqn:E; cbn; [|by rewrite IH].
  go_bools. by rewrite E, !bool_decide_eq_false_2.
Qed.

Lemma set_in_present conds c : find_status conds (cond_Type c) = Some c -> set_in conds c = conds.
Proof.
  induction conds as [|d conds IH]; cbn; [done|].
  destruct (cond_Type d == cond_Type c); [by intros [= ->]|]. intros H. by rewrite IH.
Qed.

Definition list_setter : ConditionSetter :=
  Build_ConditionSetter set_in set_in_same set_in_other set_in_present.

(** *** Sample passes *)

Definition sample_dep_of (rev : string) (n : Z) : Deployment :=
  MkDeployment "uid" 1 (Some n) {[ naming.LabelRevision := rev ]} (MkDeploymentStatus 1 n n n n []).

Definition stalled_dep : Deployment :=
  MkDeployment "uid" 1 (Some 10) {[ naming.LabelRevision := "new" ]}
    (MkDeploymentStatus 1 10 2 8 8
       [MkDeploymentCondition DeploymentProgressing ConditionFalse ReasonProgressDeadlineExceeded]).

Definition no_scaling : autoscaleVerdict := MkAutoscaleVerdict None "" "" None 0.
Definition no_metrics : metricsVerdict := MkMetricsVerdict None "" "" 0.

Definition sample_turn (strategy : RolloutStrategyType) (before after : option Deployment)
    (cbefore cafter : option Deployment) : Turn :=
  MkTurn (sample_md strategy (sample_status PhaseAvailable None)) "sel" before cbefore after cafter
    no_scaling no_metrics.

(** ** Properties *)

(** C1: a rollback sticks.  Once a pass rejects the target (its canary is rolled
    back, or its rolling update stalls and is reverted) with a last known-good
    revision to fall back to, that pass and every later pass for the same
    target run the whole fleet on the last known-good revision, without a
    canary, whatever strategy, annotations, Deployments, metrics and clock each
    pass sees. *)
Theorem rollback_sticks {CS : ConditionSetter} {B} (r : Reconciler B) enc target good b s t ts :
  target <> "" -> good <> "" -> good <> target -> mds_LastGoodRevision s = good ->
  let '(b', (plan, s')) := pass r enc b s target t in
  rejects target plan ->
  kept_out good (t_md t) plan
  /\ Forall2 (fun t plan => kept_out good (t_md t) plan) ts (passes r enc b' s' target ts).
Proof.
  intros Ht Hg Hgt HL. pose proof (rejects_records r enc target good Ht Hg Hgt b s t HL) as H.
  destruct (pass r enc b s target t) as [b' [plan s']]. intros Hrej. destruct (H Hrej) as [Hk Hs].
  split; [done|]. by apply rejecting_passes.
Qed.

Lemma rollback_sticks_witness :
  let r := sample_reconciler f64.one in
  let stall := sample_turn RolloutRollingUpdate (Some stalled_dep) (Some stalled_dep) None None in
  let calm := sample_turn RolloutRollingUpdate (Some (sample_dep_of "old" 10))
                (Some (sample_dep_of "old" 10)) None None in
  let '(b', (plan, s')) :=
    pass (CS := list_setter) r id tt (sample_status PhaseAvailable None) "new" stall in
  rejects "new" plan
  /\ Forall2 (fun t plan => kept_out "old" (t_md t) plan) [calm; calm]
       (passes (CS := list_setter) r id b' s' "new" [calm; calm]).
Proof.
  intros r stall calm.
  pose proof (rollback_sticks (CS := list_setter) r id "new" "old" tt (sample_status PhaseAvailable None)
                stall [calm; calm] ltac:(done) ltac:(done) ltac:(done) ltac:(done)) as H.
  destruct (pass _ _ _ _ _ _) as [b' [plan s']] eqn:E.
  assert (Hrej : rejects "new" plan).
  { apply (f_equal (fun x => fst (snd x))) in E. cbn [fst snd] in E. subst plan.
    right. split; vm_compute; reflexivity. }
  split; [done|]. by apply H.
Defined.



(** C35: every condition is reported.  After any computed status, and after a
    spec rejection on the very first pass, each condition type of the API is
    present; a computed one also carries the generation it describes. *)
Theorem conditions_always_reported {CS : ConditionSetter} md obs prev generation msg t :
  t ∈ AllConditionTypes ->
  (exists c, find_status (mds_Conditions (computeStatus md obs prev)) t = Some c
     /\ cond_ObservedGeneration c = md_Generation md)
  /\ (exists c, find_status (mds_Conditions (setInvalidSpec prev generation msg)) t = Some c).
Proof.
  intros Ht. split; [|by apply seed_conditions_all].
  destruct (set_conditions_all md obs prev t Ht) as (c & Hc & <-). exists c.
  split; [by apply computeStatus_find|].
  by eapply (proj1 (Forall_forall _ _)) in Hc; [|apply set_conditions_generation].
Qed.

Lemma conditions_always_reported_witness :
  exists c, find_status (mds_Conditions (setInvalidSpec (CS := list_setter)
              (sample_status PhasePending None) 1 "bad")) ConditionModelReady = Some c.
Proof.
  refine (proj2 (conditions_always_reported (CS := list_setter)
    (sample_md RolloutCanary (sample_status PhasePending None))
    (observe id "" (sample_md RolloutCanary (sample_status PhasePending None)) "new"
       (MkRollout "new" "" 10 0 Output_zero None false 0 false false) None None no_scaling no_metrics)
    (sample_status PhasePending None) 1 "bad" ConditionModelReady _)).
  apply (bool_decide_unpack _). vm_compute. done.
Defined.

(** C6: a restart resumes the canary.  The state rebuilt from the status a pass
    recorded, as the API server kept it, is the state that pass decided on up to
    two things: the API phase merges Waiting and Progressing, and the three
    instants have lost their fraction of a second.  The state machine cannot
    tell the first: the next decision is that of the state with its instants
    cut, and exactly that of the state itself when they are whole seconds.  The
    second moves a schedule by less than a second: a round that was due is due,
    one that is due would have been within the second, the progress deadline
    falls less than a second early; and it happens once, for the rebuilt state
    is kept as it is. *)
Theorem restart_resumes {CS : ConditionSetter} {B} (r : Reconciler B) enc b s target t :
  target <> "" ->
  let '(_, (plan, s')) := pass r enc b s target t in
  let st := out_State (rp_Output plan) in
  counters_ok st -> instants_ok st ->
  forall md' i now p, in_State i = st ->
    let st' := canaryStateFrom (with_status md' (persist s')) in
    st' = truncated (restored_state st)
    /\ Next (in_with_state i st') = Next (in_with_state i (truncated st))
    /\ (truncated st = st -> Next (in_with_state i st') = Next i)
    /\ (DueForAnalysis now p st = true -> DueForAnalysis now p st' = true)
    /\ (DueForAnalysis now p st' = true -> DueForAnalysis (now + time.Second) p st = true)
    /\ (deadline_exceeded i st' = true ->
        time.Add (st_StartedAt st) (pl_ProgressDeadline (in_Plan i)) < in_Now i + time.Second)
    /\ truncated st' = st'.
Proof.
  intros Ht. unfold pass. set (md := with_status (t_md t) s).
  pose proof (planRollout_persistable r b md target (t_primaryBefore t) (t_canaryBefore t) Ht) as Hper.
  destruct (planRollout _ _ _ _ _ _) as [b' plan]. cbn [snd] in Hper. intros Hc Hok md' i now p Hi. cbv zeta.
  rewrite canaryState_persisted, canaryState_restored by done. cbn [ob_Rollout observe].
  set (st := out_State (rp_Output plan)) in *.
  assert (HN : Next (in_with_state i (truncated (restored_state st))) = Next (in_with_state i (truncated st))).
  { exact (Next_restored (in_with_state i (truncated st))). }
  assert (HD : forall now, DueForAnalysis now p (truncated (restored_state st)) = DueForAnalysis now p (truncated st)).
  { intros n. unfold DueForAnalysis. cbn. by destruct (st_Phase st). }
  rewrite HN, HD. split_and!; [done|done| |by apply due_truncated|by apply due_truncated| |apply truncated_idemp].
  - intros ->. rewrite <- Hi. by destruct i.
  - exact (deadline_truncated i st).
Qed.

(** A canary started at a fraction of a second. *)
Lemma restart_resumes_witness :
  let now := 1000 * time.Second + 7 in
  let r := sample_reconciler_at now f64.one in
  let t := sample_turn RolloutCanary (Some (sample_dep_of "old" 10)) (Some (sample_dep_of "old" 10))
             None None in
  let res := pass (CS := list_setter) r id tt (sample_status PhaseAvailable None) "new" t in
  st_StartedAt (out_State (rp_Output (fst (snd res)))) = now
  /\ canaryStateFrom (with_status (t_md t) (persist (snd (snd res))))
     = truncated (restored_state (out_State (rp_Output (fst (snd res))))).
Proof.
  intros now r t res. split; [vm_compute; reflexivity|]. subst res.
  pose proof (restart_resumes (CS := list_setter) r id tt (sample_status PhaseAvailable None) "new" t
                ltac:(done)) as H.
  destruct (pass _ _ _ _ _ _) as [b' [plan s']] eqn:E. cbn [fst snd].
  apply (f_equal (fun x => fst (snd x))) in E. cbn [fst snd] in E.
  refine (proj1 (H _ _ (t_md t)
    (in_with_state (canary_input (t_md t) (canaryPlan (t_md t) sample_canary) 0 "new" None 10)
       (out_State (rp_Output plan))) 0 (canaryPlan (t_md t) sample_canary) eq_refl)); subst plan.
  - vm_compute. done.
  - repeat (apply Forall_cons; split); [..|by apply Forall_nil]; vm_compute; auto; right; done.
Defined.

(** C34: the status settles.  Recomputing the status from the same observation
    gives the status back, which is what the no-op check of [updateStatus] looks
    for. *)
Theorem status_settles {CS : ConditionSetter} md obs prev :
  computeStatus md obs (computeStatus md obs prev) = computeStatus md obs prev.
Proof.
  set (s := computeStatus md obs prev). rewrite (computeStatus_eq md obs s).
  assert (Hb : canary_block md obs s = canary_block md obs prev) by apply canary_block_again.
  assert (Hl : new_lastGood md obs s = new_lastGood md obs prev).
  { unfold new_lastGood at 1. change (banked md obs s) with (banked md obs prev). subst s.
    rewrite computeStatus_eq. cbn [mds_LastGoodRevision]. unfold new_lastGood.
    by destruct (banked md obs prev). }
  assert (Hc : set_conditions md obs s = set_conditions md obs prev).
  { unfold set_conditions. rewrite Hb. reflexivity. }
  rewrite Hb, Hl, Hc, fold_set_present.
  - subst s. by rewrite computeStatus_eq.
  - intros c. apply computeStatus_find.
Qed.

Lemma status_settles_witness :
  let md := sample_md RolloutCanary (sample_status PhaseAvailable None) in
  let plan := MkRollout "new" "" 10 0 Output_zero None false 0 false false in
  let obs := observe id "sel" md "new" plan (Some (sample_dep_of "new" 10)) None no_scaling no_metrics in
  let compute := computeStatus (CS := list_setter) md obs in
  compute (md_Status md) <> md_Status md /\ compute (compute (md_Status md)) = compute (md_Status md).
Proof.
  intros md plan obs compute. split; [|exact (status_settles (CS := list_setter) md obs (md_Status md))].
  intros E. apply (f_equal mds_LastGoodRevision) in E. vm_compute in E. discriminate E.
Defined.

(** ** Divergences

    The three theorems below state what the code does where its comments
    promise otherwise. *)

(** A status in the middle of the ladder's last rung, or promoting. *)
Definition sample_canary_status (step failedChecks : Z) (rejected : string) : CanaryStatus :=
  MkCanaryStatus "new" "old" rejected 50 50 None None None "" true step 2 failedChecks 0 0 []
    (Some (100 * time.Second)) (Some (450 * time.Second)) (Some (100 * time.Second))
    (MkCanaryReadinessTarget 1 50 10 5 1 "uid") 5 5 "".

(** [lastGoodRevision] is banked from replica counts alone.  On the promotion
    pass, when the Deployments read back are still the ones from before the
    apply, their counts add up to the desired total, so the promoted revision
    becomes the rollback target while the primary still runs the old one. *)
Theorem promotion_banked_before_convergence :
  let primary := sample_dep_of "old" 5 in
  let canary := sample_dep_of "new" 5 in
  let t := sample_turn RolloutCanary (Some primary) (Some primary) (Some canary) (Some canary) in
  let s := sample_status PhaseCanarying (Some (sample_canary_status 1 0 "")) in
  let '(_, (plan, s')) :=
    pass (CS := list_setter) (sample_reconciler f64.one) id tt s "new" t in
  out_Action (rp_Output plan) = ActionPromote
  /\ lookup_or_empty (d_TemplateLabels primary) naming.LabelRevision = "old"
  /\ mds_LastGoodRevision s = "old" /\ mds_LastGoodRevision s' = "new".
Proof. vm_compute. repeat split. Qed.

(** A promotion that stalls is reverted and its revision rejected, yet the
    phase stays Promoting on the following passes although the whole fleet is
    back on the old revision. *)
Theorem stalled_promotion_stays_promoting :
  let stall := sample_turn RolloutCanary (Some stalled_dep) (Some stalled_dep) None None in
  let calm := sample_turn RolloutCanary (Some (sample_dep_of "old" 10)) (Some (sample_dep_of "old" 10))
                None None in
  let s := sample_status v1alpha1.PhasePromoting (Some (sample_canary_status 1 0 "")) in
  let next b s t := pass (CS := list_setter) (sample_reconciler f64.one) id b s "new" t in
  let '(b, (plan, s)) := next tt s stall in
  let '(b, (plan2, s2)) := next b s calm in
  let '(_, (plan3, s3)) := next b s2 calm in
  rp_StallReverted plan = true /\ rp_PrimaryRevision plan2 = "old" /\ rp_PrimaryRevision plan3 = "old"
  /\ mds_Phase s2 = v1alpha1.PhasePromoting /\ mds_Phase s3 = v1alpha1.PhasePromoting.
Proof. vm_compute. repeat split. Qed.

(** A spec rejected in the middle of a canary forgets the position: the next
    valid pass starts the canary over with its failure budget unspent. *)
Theorem invalid_spec_restarts_canary :
  let t := sample_turn RolloutCanary (Some (sample_dep_of "old" 5)) (Some (sample_dep_of "old" 5))
             (Some (sample_dep_of "new" 5)) (Some (sample_dep_of "new" 5)) in
  let s := setInvalidSpec (CS := list_setter)
             (sample_status PhaseCanarying (Some (sample_canary_status 1 2 ""))) 2 "bad" in
  let '(_, (plan, _)) := pass (CS := list_setter) (sample_reconciler f64.one) id tt s "new" t in
  out_Action (rp_Output plan) = ActionStart /\ st_Step (out_State (rp_Output plan)) = 0
  /\ FailedChecks (out_State (rp_Output plan)) = 0.
Proof. vm_compute. repeat split. Qed.

End ctlsafety.
