(* ===== verification/ControllerWrite.v ===== *)
(** * Writing status back (internal/controller/modeldeployment_controller.go)

    [updateStatus], the terminal error path [failTerminally], the hold of a
    legacy rollout, and the event helpers.  The API server is the class
    [ApiServer] over an arbitrary world [W]: any other writer may act during
    any of its calls.  What is assumed of it is optimistic concurrency: a status
    update takes effect only on the version of the object it was built from, and
    a conflict means that it did not.  After any other error - a timeout, say -
    it may or may not have taken effect.  The log lists the controller's own
    effective writes. *)

From S2P Require Import Prelude GoFloat GoFmt ApiTypes Naming CanaryWeights CanaryVerdict CanaryState Analysis ControllerRollout ControllerStatus ControllerPlan ControllerPass ControllerSafety.
Import v1alpha1.
Local Open Scope Z_scope.
Local Open Scope go_scope.

Module writes.
Import rollouts status reconcile.

(** ** The API server *)

Inductive ApiError := NotFound | ConflictError | OtherApiError (msg : string).

Class ApiServer (W : Type) := {
  Get : W -> W * (ModelDeployment + ApiError);
  UpdateStatus : W -> ModelDeployment -> W * option ApiError;
  (** Each entry: the object that was overwritten, and the status written. *)
  log : W -> list (ModelDeployment * ModelDeploymentStatus);
  get_log w : log (fst (Get w)) = log w;
  update_ok w m :
    snd (UpdateStatus w m) = None ->
    exists cur, md_ResourceVersion cur = md_ResourceVersion m
    /\ log (fst (UpdateStatus w m)) = log w ++ [(cur, md_Status m)];
  update_conflict w m :
    snd (UpdateStatus w m) = Some ConflictError -> log (fst (UpdateStatus w m)) = log w;
  update_unknown w m e :
    snd (UpdateStatus w m) = Some e ->
    log (fst (UpdateStatus w m)) = log w
    \/ exists cur, md_ResourceVersion cur = md_ResourceVersion m
       /\ log (fst (UpdateStatus w m)) = log w ++ [(cur, md_Status m)] }.

(** Whatever the answer, at most one write, over the version the update names. *)
Lemma update_log {W} {S : ApiServer W} w m :
  log (fst (UpdateStatus w m)) = log w
  \/ exists cur, md_ResourceVersion cur = md_ResourceVersion m
     /\ log (fst (UpdateStatus w m)) = log w ++ [(cur, md_Status m)].
Proof. destruct (snd (UpdateStatus w m)) eqn:E; [by eapply update_unknown|right; by apply update_ok]. Qed.

#[global] Instance AutoscalingStatus_eq_dec : EqDecision AutoscalingStatus.
Proof.
  assert (EqDecision ScaleRecommendation) by solve_decision. solve_decision.
Defined.

#[global] Instance CanaryStatus_eq_dec : EqDecision CanaryStatus.
Proof. solve_decision. Defined.

(** [apiequality.Semantic.DeepEqual] on statuses. *)
#[global] Instance ModelDeploymentStatus_eq_dec : EqDecision ModelDeploymentStatus.
Proof. solve_decision. Defined.

(** ** Conditions and events *)

(** [conditionReason]: the first condition of the type decides. *)
Fixpoint conditionReason (conds : list Condition) (condType : string) : string :=
  match conds with
  | [] => ""
  | c :: conds' => if cond_Type c == condType then cond_Reason c else conditionReason conds' condType
  end.

Fixpoint isConditionTrue (conds : list Condition) (condType : string) : bool :=
  match conds with
  | [] => false
  | c :: conds' =>
      if cond_Type c == condType then cond_Status c == ConditionTrue
      else isConditionTrue conds' condType
  end.

(** [event]: nothing without a recorder. *)
Definition event (recorder : bool) (eventType reason action message : string) : list Effect :=
  if recorder then [Event eventType reason action message] else [].

Definition eventOnce (recorder : bool) (md : ModelDeployment) (conditionType reason : string)
    (eventType eventReason action message : string) : list Effect :=
  if conditionReason (mds_Conditions (md_Status md)) conditionType == reason then []
  else event recorder eventType eventReason action message.

Definition noteMetricsUnavailable (recorder : bool) (md : ModelDeployment) (v : metricsVerdict) :
    list Effect :=
  if mv_Status v == Some ConditionTrue then []
  else
    eventOnce recorder md ConditionMetricsRegistered (mv_Reason v) EventTypeWarning
      EventReasonMetricsUnavailable "RegisterMetrics" (mv_Message v).

(** ** The writes *)

(** The errors of [updateStatus]: [errStalePlan], or what the server said. *)
Inductive StatusError := errStalePlan | StatusApiError (e : ApiError).

Definition staleRequeue : time.Duration := 250 * 1000000.

(** [client.IgnoreNotFound]. *)
Definition IgnoreNotFound (e : ApiError) : option ApiError :=
  match e with NotFound => None | e => Some e end.

Section Writes.
Context {CS : ConditionSetter} {W : Type} {S : ApiServer W} (recorder : bool).
(** The number of attempts of [retry.DefaultRetry]. *)
Context (DefaultRetry : nat).

Definition updateStatus (w : W) (md : ModelDeployment) (obs : observed) :
    W * (list Effect * option StatusError) :=
  let (w, read) := Get w in
  match read with
  | inr e => (w, ([], StatusApiError <$> IgnoreNotFound e))
  | inl latest =>
      if md_ResourceVersion latest != md_ResourceVersion md then (w, ([], Some errStalePlan))
      else
        let wasReady := isConditionTrue (mds_Conditions (md_Status latest)) ConditionReady in
        let newStatus := computeStatus latest obs (md_Status latest) in
        if md_Status latest == newStatus then (w, ([], None))
        else
          let nowReady := isConditionTrue (mds_Conditions newStatus) ConditionReady in
          let (w, err) := UpdateStatus w (with_status latest newStatus) in
          match err with
          | Some ConflictError => (w, ([], Some errStalePlan))
          | Some e => (w, ([], Some (StatusApiError e)))
          | None =>
              (w, (if negb wasReady && nowReady
                   then event recorder EventTypeNormal EventReasonRolloutComplete "Rollout"
                          ("Revision " +:+ ob_Revision obs +:+ " is serving")
                   else [], None))
          end
  end.

(** [retry.RetryOnConflict] around one read-modify-write of the status:
    [change] is the new status, or the error the closure returns.  The conflict
    of the last attempt is returned. *)
Fixpoint retry_update (steps : nat) (w : W) (change : ModelDeployment -> ModelDeploymentStatus + string) :
    W * option ApiError :=
  match steps with
  | O => (w, Some ConflictError)
  | Datatypes.S n =>
      let (w, read) := Get w in
      match read with
      | inr ConflictError => retry_update n w change
      | inr e => (w, IgnoreNotFound e)
      | inl latest =>
          match change latest with
          | inr msg => (w, Some (OtherApiError msg))
          | inl status =>
              if md_Status latest == status then (w, None)
              else
                let (w, err) := UpdateStatus w (with_status latest status) in
                match err with
                | Some ConflictError => retry_update n w change
                | err => (w, err)
                end
          end
      end
  end.

Definition with_generation (s : ModelDeploymentStatus) (g : Z) : ModelDeploymentStatus :=
  MkModelDeploymentStatus g (mds_Phase s) (mds_Replicas s) (mds_Selector s) (mds_ReadyReplicas s)
    (mds_UpdatedReplicas s) (mds_AvailableReplicas s) (mds_StableRevision s) (mds_LastGoodRevision s)
    (mds_Endpoint s) (mds_Canary s) (mds_Autoscaling s) (mds_Conditions s).

(** The outcome of a terminal failure: retried after an error of the write, and
    [TerminalError] otherwise. *)
Inductive Failure := Retriable (e : ApiError) | TerminalError (cause : string).

Definition failTerminally (w : W) (cause : string) : W * (list Effect * Failure) :=
  let events := event recorder EventTypeWarning EventReasonInvalidSpec "Validate" cause in
  let (w, err) :=
    retry_update DefaultRetry w (fun latest =>
      inl (setInvalidSpec (with_generation (md_Status latest) (md_Generation latest))
             (md_Generation latest) cause)) in
  (w, (events, match err with Some e => Retriable e | None => TerminalError cause end)).

Definition legacy_hold_message (revisionID : string) : string :=
  "Legacy rollout " +:+ revisionID +:+ " is using pre-migration telemetry. Serving workloads, rung, "
    +:+ "counters, and timestamps are preserved; set " +:+ naming.AnnoAbort
    +:+ "=true to abort safely before telemetry migration".

Definition with_scope_hold (cs : CanaryStatus) (message : string) : CanaryStatus :=
  MkCanaryStatus (cs_Revision cs) (cs_StableRevision cs) (cs_FailedRevision cs)
    (cs_DesiredWeight cs) (cs_CurrentWeight cs) (cs_ObservedWeight cs) (cs_ObservedAt cs)
    (cs_ObservationWindow cs) (cs_ObservationReason cs) false (cs_Step cs) (cs_Steps cs)
    (cs_FailedChecks cs) (cs_ConsecutiveErrors cs) (cs_ConsecutiveInconclusive cs) (cs_Checks cs)
    (cs_StartTime cs) (cs_LastAnalysisTime cs) (cs_AvailableSince cs) (cs_ReadinessTarget cs)
    (cs_ReadyReplicas cs) (cs_AvailableReplicas cs) message.

Definition legacy_hold (revisionID : string) (latest : ModelDeployment) :
    ModelDeploymentStatus + string :=
  let status := md_Status latest in
  let message := legacy_hold_message revisionID in
  let changed :=
    inr "legacy rollout state changed while publishing the telemetry migration hold" in
  match mds_Canary status with
  | None => changed
  | Some cs =>
      if cs_Revision cs != revisionID then changed
      else
        inl (setCondition (with_blocks status (Some (with_scope_hold cs message)) (mds_Autoscaling status))
               (MkCondition ConditionMetricScopeReady ConditionFalse (md_Generation latest)
                  ReasonMetricsScopePending message))
  end.

Definition holdLegacyTelemetryMigration (w : W) (revisionID : string) : W * option ApiError :=
  retry_update DefaultRetry w (legacy_hold revisionID).

(** A read-modify-write, however often it is retried, takes effect at most
    once, with the change of an object of the version it overwrote. *)
Lemma retry_update_log steps w change :
  let w' := fst (retry_update steps w change) in
  log w' = log w
  \/ exists cur latest s, md_ResourceVersion cur = md_ResourceVersion latest /\ change latest = inl s
     /\ log w' = log w ++ [(cur, s)].
Proof.
  revert w. induction steps as [|n IH]; intros w; cbn; [by left|].
  pose proof (get_log w) as Hg. destruct (Get w) as [w1 read]. cbn [fst] in Hg.
  destruct read as [latest|e].
  - destruct (change latest) as [s|] eqn:Ec; [|by left]. destruct (_ == _); [by left|].
    pose proof (update_log w1 (with_status latest s)) as Hlog.
    pose proof (update_conflict w1 (with_status latest s)) as Hconf.
    destruct (UpdateStatus w1 (with_status latest s)) as [w2 err]. cbn [fst snd] in *. rewrite Hg in *.
    assert (Hone : log w2 = log w \/ exists cur l s', md_ResourceVersion cur = md_ResourceVersion l
                     /\ change l = inl s' /\ log w2 = log w ++ [(cur, s')]).
    { destruct Hlog as [?|(cur & ? & ?)]; [by left|right]. by exists cur, latest, s. }
    destruct err as [[]|]; try exact Hone. rewrite <- (Hconf eq_refl). apply IH.
  - destruct e; cbn; [by left| |by left].
    destruct (IH w1) as [->|(cur & l & s' & Hrv & Hs & ->)]; rewrite Hg; [by left|].
    right. by exists cur, l, s'.
Qed.
End Writes.

(** ** A server that holds one object, for the witness *)

Record Single := MkSingle { sg_object : ModelDeployment; sg_log : list (ModelDeployment * ModelDeploymentStatus) }.

(** The object with a new status, as it is kept, and the next version. *)
Definition bump (md : ModelDeployment) (s : ModelDeploymentStatus) : ModelDeployment :=
  MkModelDeployment (md_Name md) (md_Namespace md) (md_UID md) (md_ResourceVersion md +:+ "'")
    (md_Generation md) (md_DeletionTimestamp md) (md_Annotations md) (md_Spec md) (persist s).

Definition single_update (w : Single) (m : ModelDeployment) : Single * option ApiError :=
  if md_ResourceVersion (sg_object w) == md_ResourceVersion m then
    (MkSingle (bump (sg_object w) (md_Status m)) (sg_log w ++ [(sg_object w, md_Status m)]), None)
  else (w, Some ConflictError).

#[refine] Definition single_server : ApiServer Single :=
  {| Get w := (w, inl (sg_object w)); UpdateStatus := single_update; log := sg_log |}.
Proof.
  - done.
  - intros w m. unfold single_update. destruct (_ == _) eqn:E; [|done]. go_bools. intros _.
    by exists (sg_object w).
  - intros w m. unfold single_update. by destruct (_ == _).
  - intros w m e. unfold single_update. destruct (_ == _); [done|]. by left.
Defined.

(** ** Properties *)

#[local] Strategy opaque [computeStatus].

(** C11: a status is written over the version it was computed from.  One
    [updateStatus], with any other writer acting at any moment and whatever the
    API answers, adds at most one write of the controller: the status computed
    from an object that has the version the pass's copy carries (the one the
    pass read, or the one its own patch returned), over an object of that same
    version.  When it reports a stale plan it wrote nothing; an error, a timeout
    included, announces nothing; and it succeeds without a write only when the
    object is gone or already has the computed status. *)
Theorem status_written_over_seen_version {CS : ConditionSetter} {W} {S : ApiServer W} recorder (w : W) md obs :
  let '(w', (events, err)) := updateStatus recorder w md obs in
  (log w' = log w
   \/ exists cur latest,
        log w' = log w ++ [(cur, computeStatus latest obs (md_Status latest))]
        /\ md_ResourceVersion cur = md_ResourceVersion md
        /\ md_ResourceVersion latest = md_ResourceVersion md
        /\ computeStatus latest obs (md_Status latest) <> md_Status latest)
  /\ (err = Some errStalePlan -> log w' = log w) /\ (err <> None -> events = [])
  /\ (err = None -> log w' = log w ->
      snd (Get w) = inr NotFound
      \/ exists latest, snd (Get w) = inl latest /\ md_ResourceVersion latest = md_ResourceVersion md
         /\ computeStatus latest obs (md_Status latest) = md_Status latest).
Proof.
  unfold updateStatus. pose proof (get_log w) as Hg. destruct (Get w) as [w1 read]. cbn [fst snd] in *.
  destruct read as [latest|e]; [|destruct e; cbn; split_and!; auto; done].
  destruct (bool_decide (md_ResourceVersion latest = _)) eqn:Erv; cbn [negb]; [|split_and!; auto; done]. go_bools.
  destruct (bool_decide (md_Status latest = _)) eqn:Es.
  { go_bools. split; [by left|]. split; [discriminate|]. split; [discriminate||done|]. intros _ _. right.
    exists latest. split; [reflexivity|]. split; [exact Erv|exact (eq_sym Es)]. }
  go_bools. remember (computeStatus latest obs (md_Status latest)) as new eqn:Hnew.
  pose proof (update_log w1 (with_status latest new)) as Hlog.
  pose proof (update_ok w1 (with_status latest new)) as Hok.
  pose proof (update_conflict w1 (with_status latest new)) as Hconf.
  destruct (UpdateStatus w1 (with_status latest new)) as [w2 err]. cbn [fst snd] in *. rewrite Hg in *.
  assert (Hone : log w2 = log w \/ exists cur latest0,
      log w2 = log w ++ [(cur, computeStatus latest0 obs (md_Status latest0))]
      /\ md_ResourceVersion cur = md_ResourceVersion md /\ md_ResourceVersion latest0 = md_ResourceVersion md
      /\ computeStatus latest0 obs (md_Status latest0) <> md_Status latest0).
  { destruct Hlog as [?|(cur & Hrv & HL)]; [by left|right]. exists cur, latest. rewrite <- Hnew.
    cbn [with_status md_Status md_ResourceVersion] in HL, Hrv. split; [exact HL|]. split; [exact (eq_trans Hrv Erv)|]. split; [exact Erv|exact (not_eq_sym Es)]. }
  clear Hnew. destruct err as [[]|]; (split; [exact Hone|]); (split; [|split]); try done.
  { by intros _; apply Hconf. }
  intros _ HL. destruct (Hok eq_refl) as (? & _ & HL2). rewrite HL in HL2. apply (f_equal length) in HL2.
  rewrite length_app in HL2. cbn in HL2. lia.
Qed.

(** One write on the version seen, none on a later one. *)
Lemma status_written_over_seen_version_witness :
  let s0 := plans.sample_status PhaseAvailable None in
  let md := plans.sample_md RolloutRollingUpdate s0 in
  let plan := MkRollout "new" "" 10 0 Output_zero None false 0 false false in
  let obs := observe id "sel" md "new" plan (Some (ctlsafety.sample_dep_of "new" 10)) None
               ctlsafety.no_scaling ctlsafety.no_metrics in
  let server o := MkSingle o [] in
  let update o := updateStatus (CS := ctlsafety.list_setter) (S := single_server) true (server o) md obs in
  length (sg_log (fst (update md))) = 1%nat /\ sg_log (fst (update (bump md s0))) = [].
Proof.
  intros s0 md plan obs server update. split; [vm_compute; reflexivity|].
  pose proof (status_written_over_seen_version (CS := ctlsafety.list_setter) (S := single_server) true
                (server (bump md s0)) md obs) as H.
  fold (update (bump md s0)) in H.
  destruct (update (bump md s0)) as [w' [events err]] eqn:E.
  assert (He : err = Some errStalePlan).
  { apply (f_equal (fun x => snd (snd x))) in E. cbn [snd] in E. subst err. vm_compute. reflexivity. }
  cbn [fst]. destruct H as (_ & H & _). exact (H He).
Defined.

End writes.
