(* ===== verification/ControllerAutoscale.v ===== *)
(** * The autoscaling loop (internal/controller/autoscale.go)

    [reconcileAutoscaling] samples the fleet's load through the schema gate,
    asks [Recommend], and writes [spec.replicas].  The list of
    HorizontalPodAutoscalers and the patch are calls of the API server; they
    act on the same world as the clock and the metric backend of
    ControllerRollout.v. *)

From S2P Require Import Prelude GoFloat GoFmt ApiTypes Metrics Naming CanaryWeights CanaryVerdict CanaryState Autoscale Analysis ControllerRollout ControllerStatus ControllerPlan ControllerPass ControllerSafety ControllerWrite.
Import v1alpha1.
Local Open Scope Z_scope.
Local Open Scope go_scope.

Module scaling.
Import analysis rollouts status writes.

Definition kindModelDeployment : string := "ModelDeployment".
Definition Group : string := "inference.llmcp.io".

(** A HorizontalPodAutoscaler, as far as it is read. *)
Record HPA := MkHPA { hpa_Name : string; hpa_Kind : string; hpa_RefName : string; hpa_APIVersion : string }.

(** The answer of the list call; [NoMatch] is an API the cluster lacks. *)
Inductive ListResult := Listed (items : list HPA) | NoMatch | ListFailed (msg : string).

(** The text before the first slash, if there is one. *)
Fixpoint before_slash (s : string) : option string :=
  match s with
  | EmptyString => None
  | String c s' =>
      if c == "/"%char then Some "" else
      match before_slash s' with Some p => Some (String c p) | None => None end
  end.

Definition sameGroup (apiVersion group : string) : bool := before_slash apiVersion == Some group.

Fixpoint find_conflict (items : list HPA) (name : string) : string :=
  match items with
  | [] => ""
  | h :: items' =>
      if (hpa_Kind h == kindModelDeployment) && (hpa_RefName h == name)
         && sameGroup (hpa_APIVersion h) Group
      then hpa_Name h else find_conflict items' name
  end.

Definition externalScalerConflict (md : ModelDeployment) (listed : ListResult) : result string :=
  match listed with
  | NoMatch => Ok ""
  | ListFailed e => Err ("listing HorizontalPodAutoscalers: " +:+ e)
  | Listed items => Ok (find_conflict items (md_Name md))
  end.

Definition recommendationsFrom (status : option AutoscalingStatus) : list autoscale.Recommendation :=
  match status with
  | None => []
  | Some s =>
      map (fun r => autoscale.MkRecommendation (sr_Time r) (sr_Replicas r)) (ast_Recommendations s)
  end.

Definition formatMetric (v : f64.t) : string := gofmt.FormatFloat_g 6 v.

Definition autoscalingStatusFrom (out : autoscale.Output) (obs : autoscale.Observation)
    (prev : option AutoscalingStatus) : AutoscalingStatus :=
  MkAutoscalingStatus (autoscale.aout_Replicas out)
    (if autoscale.ob_Valid obs then formatMetric (autoscale.ob_Value obs) else "")
    (if autoscale.ob_Valid obs then formatMetric (autoscale.aout_PerPod out) else "")
    (match prev with Some p => ast_LastScaleTime p | None => None end)
    (map (fun r => MkScaleRecommendation (autoscale.rec_Time r) (autoscale.rec_Replicas r))
       (autoscale.aout_History out))
    (autoscale.aout_Message out).

Definition autoscalingReason (reason : string) : string :=
  if reason == autoscale.ReasonNoMetrics then ReasonAutoscalingNoMetrics
  else if reason == autoscale.ReasonScaleUp then ReasonScaledUp
  else if reason == autoscale.ReasonScaleDown then ReasonScaledDown
  else ReasonAutoscalingActive.

Definition readyReplicasFor (dep : option Deployment) : Z :=
  match dep with None => 0 | Some d => ds_ReadyReplicas (d_Status d) end.

Definition readyAcrossVariants (primary canary : option Deployment) : Z :=
  wrap32 (readyReplicasFor primary + readyReplicasFor canary).

(** [md.Spec.Replicas = &replicas]. *)
Definition with_replicas (md : ModelDeployment) (n : Z) : ModelDeployment :=
  let s := md_Spec md in
  MkModelDeployment (md_Name md) (md_Namespace md) (md_UID md) (md_ResourceVersion md)
    (md_Generation md) (md_DeletionTimestamp md) (md_Annotations md)
    (MkModelDeploymentSpec (Some n) (sp_Model s) (sp_Engine s) (sp_Serving s) (sp_Rollout s)
       (sp_Observability s) (sp_Autoscaling s)) (md_Status md).

(** [applyReplicas], over the answer to the patch of that count and the text of
    its error.  An accepted patch replaces the resource in memory by the
    server's copy, other writers' changes included. *)
Definition applyReplicas (errorText : ApiError -> string) (md : ModelDeployment) (replicas : Z)
    (patched : ModelDeployment + ApiError) : ModelDeployment * option string :=
  match patched with
  | inr NotFound => (md, None)
  | inr e => (md, Some ("scaling to " +:+ format_int replicas +:+ " replicas: " +:+ errorText e))
  | inl served => (with_replicas served replicas, None)
  end.

Definition autoscaling_config (spec : AutoscalingSpec) : autoscale.Config :=
  autoscale.MkConfig (as_MinReplicas spec) (as_MaxReplicas spec) (ResolvedTarget spec)
    (ResolvedTolerance spec) (ResolvedScaleUpStabilization spec) (ResolvedScaleDownStabilization spec).

Definition no_measurement (reason : string) : autoscale.Observation :=
  autoscale.MkObservation f64.zero false reason.

Definition conflict_message (name : string) : string :=
  "HorizontalPodAutoscaler " +:+ name +:+ " also targets this ModelDeployment while "
    +:+ "spec.autoscaling.mode is Builtin. Two controllers writing .spec.replicas from different "
    +:+ "signals will fight; the built-in autoscaler is standing down. Delete the HPA, or set mode to Off.".

Section Loop.
Context {B : Type} (r : Reconciler B) (recorder : bool) (errorText : ApiError -> string).
(** The list of a namespace's HorizontalPodAutoscalers, and the merge patch of
    the replica count. *)
Context (listHPAs : B -> string -> B * ListResult).
Context (patchReplicas : B -> ModelDeployment -> Z -> B * (ModelDeployment + ApiError)).

Definition autoscalingProviderFor (spec : AutoscalingSpec) : option (Provider B) :=
  match r_Provider r with
  | Some p => Some p
  | None =>
      if prov_Address (as_Provider spec) == "" then None
      else Some (r_Prometheus r (prov_Address (as_Provider spec)) (ResolvedProviderTimeout spec))
  end.

Definition sampleAutoscalingMetricFrom (b : B) (md : ModelDeployment) (spec : AutoscalingSpec)
    (provider : option (Provider B)) : B * autoscale.Observation :=
  match provider with
  | None =>
      (b, no_measurement "no metric provider is configured: set spec.autoscaling.provider.address")
  | Some p =>
      match AutoscalingQuery (ResolvedMetric spec)
              (MkQueryContext (md_Namespace md) (md_Name md) (model_Name (sp_Model (md_Spec md))) ""
                 (PromDuration (ResolvedAutoscalingWindow spec))) with
      | Err e => (b, no_measurement ("building the query: " +:+ e))
      | Ok query =>
          let (b, answer) := p b query in
          match answer with
          | Err e => (b, no_measurement ("querying the metric provider failed: " +:+ e))
          | Ok s =>
              if smp_Count s =? 0 then
                (b, no_measurement ("the query matched no series; this is not a measurement of zero, it is the "
                      +:+ "absence of one — check that the shim is injected and being scraped"))
              else if 1 <? smp_Count s then
                (b, no_measurement ("the query returned " +:+ format_int (smp_Count s)
                      +:+ " series; it must aggregate to exactly one"))
              else if f64.IsNaN (smp_Value s) || f64.IsInf (smp_Value s) then
                (b, no_measurement ("the query returned " +:+ LiteralNaN +:+ " or an infinity"))
              else (b, autoscale.MkObservation (smp_Value s) true "")
          end
      end
  end.

(** The observation of one pass: the schema gate, then the sample. *)
Definition observe_load (b : B) (md : ModelDeployment) (spec : AutoscalingSpec)
    (primaryDep canaryDep : option Deployment) : B * autoscale.Observation :=
  let provider := autoscalingProviderFor spec in
  let '(b, (ready, message)) :=
    metricsScopeReady r b provider md (ResolvedAutoscalingWindow spec) (readyReplicasFor primaryDep)
      (readyReplicasFor canaryDep) in
  if ready then sampleAutoscalingMetricFrom b md spec provider
  else (b, no_measurement ("resource-scoped metric schema is not ready: " +:+ message)).

(** The tail of [reconcileAutoscaling], once nothing else owns the count: the
    resource as written, the verdict, the error and the effects. *)
Definition scale (b : B) (md : ModelDeployment) (spec : AutoscalingSpec)
    (primaryDep canaryDep : option Deployment) :
    B * (ModelDeployment * (autoscaleVerdict * option string) * list Effect) :=
  let (b, obs) := observe_load b md spec primaryDep canaryDep in
  let (b, now) := r_now r b in
  let current := replicasFor md in
  let prev := mds_Autoscaling (md_Status md) in
  let out :=
    autoscale.Recommend
      (autoscale.MkInput now current (readyAcrossVariants primaryDep canaryDep) obs
         (autoscaling_config spec) (recommendationsFrom prev)) in
  let n := autoscale.aout_Replicas out in
  let message := autoscale.aout_Message out in
  let (b, _) := r_now r b in
  let block := autoscalingStatusFrom out obs prev in
  let valid := autoscale.aout_Valid out in
  let verdict block :=
    MkAutoscaleVerdict (Some (if valid then ConditionTrue else ConditionFalse))
      (if valid then autoscalingReason (autoscale.aout_Reason out) else ReasonAutoscalingNoMetrics)
      message (Some block) (ResolvedPollInterval spec) in
  let effects :=
    RecordAutoscaleDecision (resourceKeyFor md) n
    :: (if valid then []
        else eventOnce recorder md ConditionAutoscalingReady ReasonAutoscalingNoMetrics
               EventTypeWarning EventReasonAutoscalingNoMetrics "Autoscale" message) in
  if negb (autoscale.aout_Changed out) then (b, (md, (verdict block, None), effects))
  else
    let (b, patched) := patchReplicas b md n in
    let (md', err) := applyReplicas errorText md n patched in
    match err with
    | Some e => (b, (md', (verdict block, Some e), effects))
    | None =>
        let scaled :=
          match autoscale.aout_Direction out with
          | autoscale.DirectionUp =>
              event recorder EventTypeNormal EventReasonScaledUp "Autoscale" message
          | autoscale.DirectionDown =>
              event recorder EventTypeNormal EventReasonScaledDown "Autoscale" message
          | autoscale.DirectionNone => []
          end in
        let (b, now) := r_now r b in
        let block :=
          MkAutoscalingStatus (ast_DesiredReplicas block) (ast_CurrentMetric block)
            (ast_CurrentMetricPerPod block) (Some now) (ast_Recommendations block) (ast_Message block) in
        (b, (md', (verdict block, None), effects ++ scaled))
    end.

Definition disabled_verdict : autoscaleVerdict :=
  MkAutoscaleVerdict (Some ConditionFalse) ReasonAutoscalingDisabled
    ("Replica count is owned outside this operator: set spec.autoscaling.mode "
       +:+ "to Builtin, or drive .spec.replicas with kubectl scale or a HorizontalPodAutoscaler") None 0.

Definition reconcileAutoscaling (b : B) (md : ModelDeployment)
    (primaryDep canaryDep : option Deployment) :
    B * (ModelDeployment * (autoscaleVerdict * option string) * list Effect) :=
  match sp_Autoscaling (md_Spec md) with
  | None => (b, (md, (disabled_verdict, None), []))
  | Some spec =>
      if negb (AutoscalingEnabled (Some spec)) then (b, (md, (disabled_verdict, None), []))
      else
        let (b, listed) := listHPAs b (md_Namespace md) in
        match externalScalerConflict md listed with
        | Err e =>
            (b, (md, (MkAutoscaleVerdict (Some ConditionUnknown) ReasonReconciling
                        ("Could not check for a conflicting HorizontalPodAutoscaler: " +:+ e) None 0,
                      Some e), []))
        | Ok name =>
            if name != "" then
              (b, (md, (MkAutoscaleVerdict (Some ConditionFalse) ReasonAutoscalingConflict
                          (conflict_message name) None (ResolvedPollInterval spec), None),
                   eventOnce recorder md ConditionAutoscalingReady ReasonAutoscalingConflict
                     EventTypeWarning EventReasonAutoscalingConflict "Autoscale" (conflict_message name)))
            else scale b md spec primaryDep canaryDep
        end
  end.

(** ** Lemmas *)

(** A provider that never answers. *)
Definition silent (spec : AutoscalingSpec) : Prop :=
  forall p b q s, autoscalingProviderFor spec = Some p -> snd (p b q) <> Ok s.

Lemma observe_load_silent b md spec pd cd :
  silent spec -> autoscale.ob_Valid (snd (observe_load b md spec pd cd)) = false.
Proof.
  intros Hs. unfold observe_load.
  destruct (metricsScopeReady _ _ _ _ _ _ _) as [b1 [[] m]]; [|done].
  unfold sampleAutoscalingMetricFrom. destruct (autoscalingProviderFor spec) as [p|] eqn:E; [|done].
  destruct (AutoscalingQuery _ _) as [q|]; [|done].
  pose proof (fun s => Hs p b1 q s E) as Hq. destruct (p b1 q) as [b2 [s|e]]; [|done].
  by destruct (Hq s).
Qed.

(** What a pass may write. *)
Definition allowed_write (spec : AutoscalingSpec) (md md' : ModelDeployment)
    (v : autoscaleVerdict) (n : Z) : Prop :=
  let cfg := autoscaling_config spec in
  (exists b served, snd (patchReplicas b md n) = inl served /\ md' = with_replicas served n)
  /\ autoscale.floor_of cfg <= n <= autoscale.ceiling_of cfg /\ n <> replicasFor md
  /\ (av_Status v = Some ConditionFalse ->
      n = autoscale.clamp (replicasFor md) (as_MinReplicas spec) (as_MaxReplicas spec)).

Lemma invalid_is_clamped i :
  autoscale.aout_Valid (autoscale.Recommend i) = false ->
  autoscale.aout_Replicas (autoscale.Recommend i)
  = autoscale.clamp (autoscale.ain_Current i) (autoscale.cfg_MinReplicas (autoscale.ain_Config i))
      (autoscale.cfg_MaxReplicas (autoscale.ain_Config i)).
Proof. unfold autoscale.Recommend, autoscale.hold. cbv zeta. repeat go_split1; done. Qed.

Lemma scale_writes b md spec pd cd :
  let '(_, (md', (v, err), _)) := scale b md spec pd cd in
  (md' = md \/ exists n, allowed_write spec md md' v n)
  /\ (err <> None -> md' = md) /\ (silent spec -> av_Status v = Some ConditionFalse).
Proof.
  unfold scale. pose proof (observe_load_silent b md spec pd cd) as Hs.
  destruct (observe_load b md spec pd cd) as [b1 obs]. cbn [snd] in Hs. destruct (r_now r b1) as [b2 now].
  set (i := autoscale.MkInput _ _ _ _ _ _). destruct (r_now r b2) as [b3 ?].
  pose proof (autoscale.Recommend_range i) as (Hr & _ & Hc). pose proof (invalid_is_clamped i) as Hi.
  pose proof (autoscale.Recommend_hold i) as Hh.
  assert (Hv : silent spec -> autoscale.aout_Valid (autoscale.Recommend i) = false).
  { intros H. destruct Hh as [m ->]; [left; by apply Hs|done]. }
  clear Hh Hs. set (out := autoscale.Recommend i) in *. clearbody out.
  assert (Hst : silent spec ->
    Some (if autoscale.aout_Valid out then ConditionTrue else ConditionFalse) = Some ConditionFalse).
  { intros H. by rewrite Hv. }
  rewrite Hc. destruct (Z.eqb_spec (autoscale.aout_Replicas out) (autoscale.ain_Current i)) as [E|E];
    cbn [negb]; [by auto|].
  unfold applyReplicas. destruct (patchReplicas b3 md (autoscale.aout_Replicas out)) as [b4 [served|[]]] eqn:Ep;
    try destruct (r_now r b4); try (split; [by left|by auto]); (split; [|by auto]).
  right. eexists. unfold allowed_write. cbn [av_Status].
  split; [exists b3, served; by rewrite Ep|]. repeat (split; [done|]).
  intros Hf. apply Hi. by destruct (autoscale.aout_Valid out).
Qed.
End Loop.

(** ** Properties *)

(** C20: the autoscaler only writes what it may.  Whatever the API server, the
    backend and the clock answer, a pass leaves the resource alone or works
    on with the server's copy at a new replica count, and then only with the
    built-in mode on, no HorizontalPodAutoscaler on the same resource, a count
    inside the bounds that differs from the current one and that the server
    accepted; a failed pass leaves it alone; and when no measurement can be had the written count is
    the current one brought into the bounds. *)
Theorem autoscaling_write_safe {B} (r : Reconciler B) recorder text listHPAs patch b md pd cd :
  let '(_, (md', (v, err), _)) := reconcileAutoscaling r recorder text listHPAs patch b md pd cd in
  (err <> None -> md' = md)
  /\ (md' = md
      \/ exists spec n,
           sp_Autoscaling (md_Spec md) = Some spec /\ as_Mode spec = AutoscalingBuiltin
           /\ externalScalerConflict md (snd (listHPAs b (md_Namespace md))) = Ok ""
           /\ allowed_write patch spec md md' v n
           /\ (silent r spec ->
               n = autoscale.clamp (replicasFor md) (as_MinReplicas spec) (as_MaxReplicas spec))).
Proof.
  unfold reconcileAutoscaling. destruct (sp_Autoscaling (md_Spec md)) as [spec|] eqn:Esp; [|by auto].
  destruct (AutoscalingEnabled (Some spec)) eqn:En; cbn [negb]; [|by auto].
  destruct (listHPAs b (md_Namespace md)) as [b1 listed]. cbn [snd].
  destruct (externalScalerConflict md listed) as [name|] eqn:Ec; [|by auto].
  destruct (bool_decide (name = "")) eqn:Ename; cbn [negb]; [|by auto]. go_bools. subst name.
  apply bool_decide_eq_true in En. pose proof (scale_writes r recorder text patch b1 md spec pd cd) as H.
  destruct (scale _ _ _ _ _ _ _ _ _) as [b' [[md' [v err]] eff]]. destruct H as (Hw & He & Hs).
  split; [done|]. destruct Hw as [Hw|(n & Ha)]; [by left|]. right. exists spec, n.
  do 4 (split; [done|]). intros Hsil. apply Ha. by apply Hs.
Qed.

(** A queue of twenty over four ready pods against a target of two each grows
    the fleet from four to ten; an HPA on the same resource stops it. *)
Example autoscaling_scales_up :
  let spec := MkAutoscalingSpec AutoscalingBuiltin 1 12 AutoscalingQueueDepth None None None None None None
                (MkAnalysisProviderSpec "Prometheus" "" None) in
  let base := plans.sample_spec RolloutRollingUpdate in
  let md := MkModelDeployment "demo" "default" "u" "1" 2 None ∅
              (MkModelDeploymentSpec (Some 4) (sp_Model base) (sp_Engine base) (sp_Serving base)
                 (sp_Rollout base) (sp_Observability base) (Some spec))
              (plans.sample_status PhaseAvailable None) in
  let dep := Some (ctlsafety.sample_dep_of "old" 4) in
  let hpa := MkHPA "web" kindModelDeployment "demo" "inference.llmcp.io/v1beta1" in
  let go listed :=
    reconcileAutoscaling (plans.sample_reconciler (f64.of_Z 20)) true (fun _ => "")
      (fun b _ => (b, listed)) (fun b md _ => (b, inl md)) tt md dep None in
  replicasFor (fst (fst (snd (go (Listed []))))) = 10
  /\ replicasFor (fst (fst (snd (go (Listed [hpa]))))) = 4.
Proof. vm_compute. repeat split. Qed.

End scaling.
