(* ===== verification/ShimSSE.v ===== *)
(** * The stream observer of the metrics shim (cmd/shim/sse.go)

    The shim times the first generated token by watching a response pass by:
    it reassembles lines from arbitrary network reads, joins the data lines of
    an event, and inspects each event when it ends.  Bytes are [ascii];
    decoding the JSON of an event is the parameter [Unmarshal], given by ShimJson.v;
    the clock is read from a world, once per content-bearing event. *)

From S2P Require Import Prelude GoFloat GoFmt.
Local Open Scope Z_scope.
Local Open Scope go_scope.

Module sse.

Definition bytes : Type := list ascii.

(** [len(b)]. *)
Definition blen (b : bytes) : Z := Z.of_nat (length b).

Definition of_string (s : string) : bytes := String.list_ascii_of_string s.

Definition nl : ascii := Ascii.ascii_of_nat 10.
Definition cr : ascii := Ascii.ascii_of_nat 13.

Definition sseDataPrefix : bytes := of_string "data:".
Definition sseDone : bytes := of_string "[DONE]".
Definition maxSSELine : Z := 1048576.

(** ** Package bytes *)

Definition HasPrefix (b p : bytes) : bool := bool_decide (take (length p) b = p).

Definition TrimPrefix (b p : bytes) : bytes := if HasPrefix b p then drop (length p) b else b.

Definition TrimSuffix (b s : bytes) : bytes :=
  if HasPrefix (rev b) (rev s) then take (length b - length s) b else b.

(** The UTF-8 encodings of the white space of [unicode.IsSpace]. *)
Definition spaces : list bytes :=
  map (map Ascii.ascii_of_nat)
    [[9]; [10]; [11]; [12]; [13]; [32]; [194; 133]; [194; 160]; [225; 154; 128];
     [226; 128; 128]; [226; 128; 129]; [226; 128; 130]; [226; 128; 131]; [226; 128; 132];
     [226; 128; 133]; [226; 128; 134]; [226; 128; 135]; [226; 128; 136]; [226; 128; 137];
     [226; 128; 138]; [226; 128; 168]; [226; 128; 169]; [226; 128; 175]; [226; 129; 159];
     [227; 128; 128]]%nat.

(** Remove one of [seps] from the front as long as there is one. *)
Fixpoint trim_front (fuel : nat) (seps : list bytes) (b : bytes) : bytes :=
  match fuel with
  | O => b
  | S n =>
      match List.find (HasPrefix b) seps with
      | Some s => trim_front n seps (drop (length s) b)
      | None => b
      end
  end.

Definition TrimSpace (b : bytes) : bytes :=
  let b := trim_front (length b) spaces b in
  rev (trim_front (length b) (map (@rev ascii) spaces) (rev b)).

(** ** Frames and the state of a request *)

Record completionUsage := MkCompletionUsage { CompletionTokens : option Z }.

Record toolCall := MkToolCall { fn_Name : string; fn_Arguments : string }.

Record choice := MkChoice {
  delta_Content : string; delta_ReasoningContent : string; delta_ToolCalls : list toolCall;
  choice_Text : string }.

Record streamChunk := MkStreamChunk { sc_Usage : option completionUsage; sc_Choices : list choice }.

Definition hasToken (c : streamChunk) : bool :=
  match sc_Choices c with
  | [] => false
  | ch :: _ =>
      existsb (fun call => (fn_Name call != "") || (fn_Arguments call != "")) (delta_ToolCalls ch)
      || (delta_Content ch != "") || (delta_ReasoningContent ch != "") || (choice_Text ch != "")
  end.

(** The fields of [requestState] the observer reads and writes.  [interChunk]
    is nil or the list of the values observed so far. *)
Record requestState := MkRequestState {
  rs_start : time.Time; rs_sawFirstToken : bool; rs_ttft : time.Duration; rs_tokens : Z;
  rs_sawDone : bool; rs_lastContent : time.Time; rs_interChunk : option (list f64.t);
  rs_reportedTokens : Z; rs_hasUsage : bool; rs_readErr : option string }.

Definition observeUsage (s : requestState) (u : option completionUsage) : requestState :=
  match u with
  | Some (MkCompletionUsage (Some n)) =>
      if 0 <=? n then
        MkRequestState (rs_start s) (rs_sawFirstToken s) (rs_ttft s) (rs_tokens s) (rs_sawDone s)
          (rs_lastContent s) (rs_interChunk s) n true (rs_readErr s)
      else s
  | _ => s
  end.

Definition with_done (s : requestState) : requestState :=
  MkRequestState (rs_start s) (rs_sawFirstToken s) (rs_ttft s) (rs_tokens s) true
    (rs_lastContent s) (rs_interChunk s) (rs_reportedTokens s) (rs_hasUsage s) (rs_readErr s).

Definition with_readErr (s : requestState) (e : string) : requestState :=
  MkRequestState (rs_start s) (rs_sawFirstToken s) (rs_ttft s) (rs_tokens s) (rs_sawDone s)
    (rs_lastContent s) (rs_interChunk s) (rs_reportedTokens s) (rs_hasUsage s) (Some e).

(** [max(0, d.Seconds())]. *)
Definition nonnegative_seconds (d : time.Duration) : f64.t :=
  let s := gofmt.Duration_Seconds d in if f64.ltb f64.zero s then s else f64.zero.

(** A content-bearing event at time [now]. *)
Definition note_token (s : requestState) (now : time.Time) : requestState :=
  let '(ttft, chunks) :=
    if rs_sawFirstToken s then
      (rs_ttft s,
       option_map (fun l => l ++ [nonnegative_seconds (time.Sub now (rs_lastContent s))]) (rs_interChunk s))
    else (time.Sub now (rs_start s), rs_interChunk s) in
  MkRequestState (rs_start s) true ttft (wrap64 (rs_tokens s + 1)) (rs_sawDone s) now chunks
    (rs_reportedTokens s) (rs_hasUsage s) (rs_readErr s).

Section Events.
Context {W : Type} (Unmarshal : bytes -> option streamChunk) (now : W -> W * time.Time).

(** [handleEvent] over the request's state and the clock. *)
Definition handleEvent (ws : W * requestState) (payload : bytes) : W * requestState :=
  let (w, s) := ws in
  let payload := TrimSpace payload in
  if blen payload =? 0 then (w, s)
  else if bool_decide (payload = sseDone) then (w, with_done s)
  else
    match Unmarshal payload with
    | None => (w, s)
    | Some chunk =>
        let s := observeUsage s (sc_Usage chunk) in
        if negb (hasToken chunk) then (w, s)
        else let (w, t) := now w in (w, note_token s t)
    end.
End Events.

(** ** The reassembler

    Over any event handler [handle] on a state [S]. *)

Record streamObserver (S : Type) := MkStreamObserver {
  so_state : S; so_buf : bytes; so_overlong : bool; so_data : bytes; so_dropEvent : bool;
  so_finished : bool }.
Arguments MkStreamObserver {S}.
Arguments so_state {S}.
Arguments so_buf {S}.
Arguments so_overlong {S}.
Arguments so_data {S}.
Arguments so_dropEvent {S}.
Arguments so_finished {S}.

Definition newStreamObserver {S} (s : S) : streamObserver S := MkStreamObserver s [] false [] false false.

(** A read of the upstream: the bytes, and how it ended. *)
Inductive ReadEnd := ReadMore | ReadEOF | ReadError (e : string).

(** The newline-terminated pieces of a chunk, and what follows the last one. *)
Fixpoint split_lines (b : bytes) : list bytes * bytes :=
  match b with
  | [] => ([], [])
  | c :: b' =>
      let (ls, tail) := split_lines b' in
      if bool_decide (c = nl) then ([] :: ls, tail)
      else match ls with
           | [] => ([], c :: tail)
           | l :: ls' => ((c :: l) :: ls', tail)
           end
  end.

Section Observer.
Context {S : Type} (handle : S -> bytes -> S).

Definition handleLine (o : streamObserver S) (line : bytes) : streamObserver S :=
  let line := TrimSuffix line [cr] in
  if blen line =? 0 then
    MkStreamObserver (if so_dropEvent o then so_state o else handle (so_state o) (so_data o))
      (so_buf o) (so_overlong o) [] false (so_finished o)
  else if negb (HasPrefix line sseDataPrefix) then o
  else
    let payload := TrimPrefix (drop (length sseDataPrefix) line) (of_string " ") in
    if so_dropEvent o then o
    else if maxSSELine <? blen (so_data o) + blen payload + 1 then
      MkStreamObserver (so_state o) (so_buf o) (so_overlong o) [] true (so_finished o)
    else
      MkStreamObserver (so_state o) (so_buf o) (so_overlong o)
        ((if 0 <? blen (so_data o) then so_data o ++ [nl] else so_data o) ++ payload)
        (so_dropEvent o) (so_finished o).

(** [o.buf.Reset()] with the given flags. *)
Definition reset_buf (o : streamObserver S) (overlong dropEvent : bool) : streamObserver S :=
  MkStreamObserver (so_state o) [] overlong (so_data o) dropEvent (so_finished o).

Definition appendPartial (o : streamObserver S) (chunk : bytes) : streamObserver S :=
  if so_overlong o then o
  else if maxSSELine <? blen (so_buf o) + blen chunk then reset_buf o true (so_dropEvent o)
  else
    MkStreamObserver (so_state o) (so_buf o ++ chunk) (so_overlong o) (so_data o) (so_dropEvent o)
      (so_finished o).

(** The body of the loop of [scan], on one terminated line. *)
Definition take_line (o : streamObserver S) (line : bytes) : streamObserver S :=
  if so_overlong o then reset_buf o false true
  else if maxSSELine <? blen (so_buf o) + blen line then reset_buf o (so_overlong o) true
  else if 0 <? blen (so_buf o) then
    let o := handleLine o (so_buf o ++ line) in reset_buf o (so_overlong o) (so_dropEvent o)
  else handleLine o line.

Definition scan (o : streamObserver S) (chunk : bytes) : streamObserver S :=
  let (ls, tail) := split_lines chunk in
  let o := fold_left take_line ls o in
  match tail with
  | [] => o
  | _ => appendPartial o tail
  end.

(** What [Read] does at the end of the stream, once. *)
Definition finish (o : streamObserver S) : streamObserver S :=
  let o := if so_overlong o
           then MkStreamObserver (so_state o) (so_buf o) true (so_data o) true (so_finished o) else o in
  let o := if negb (so_overlong o) && (0 <? blen (so_buf o)) then handleLine o (so_buf o) else o in
  let s := if negb (so_dropEvent o) && (0 <? blen (so_data o))
           then handle (so_state o) (so_data o) else so_state o in
  MkStreamObserver s [] (so_overlong o) [] false true.

(** [Read], over the answer of the upstream; [fail] records a read error. *)
Definition Read (fail : S -> string -> S) (o : streamObserver S) (chunk : bytes) (e : ReadEnd) :
    streamObserver S :=
  let o := if 0 <? blen chunk then scan o chunk else o in
  match e with
  | ReadMore => o
  | ReadEOF => if so_finished o then o else finish o
  | ReadError msg =>
      MkStreamObserver (fail (so_state o) msg) (so_buf o) (so_overlong o) (so_data o)
        (so_dropEvent o) (so_finished o)
  end.

(** ** Lemmas *)

(** The buffers are bounded, and an abandoned line is not buffered. *)
Definition bounded (o : streamObserver S) : Prop :=
  blen (so_buf o) <= maxSSELine /\ blen (so_data o) <= maxSSELine
  /\ (so_overlong o = true -> so_buf o = []).

Lemma blen_app (a b : bytes) : blen (a ++ b) = blen a + blen b.
Proof. unfold blen. rewrite length_app. lia. Qed.

Lemma blen_nonneg (a : bytes) : 0 <= blen a.
Proof. unfold blen. lia. Qed.

Lemma handleLine_frame o line :
  so_buf (handleLine o line) = so_buf o /\ so_overlong (handleLine o line) = so_overlong o
  /\ so_finished (handleLine o line) = so_finished o.
Proof. unfold handleLine. cbv zeta. repeat go_split1; done. Qed.

Lemma handleLine_data o line :
  blen (so_data o) <= maxSSELine -> blen (so_data (handleLine o line)) <= maxSSELine.
Proof.
  intros H. unfold handleLine. cbv zeta.
  repeat match goal with |- context [if ?b then _ else _] => destruct b eqn:?; cbn end; try done.
  all: rewrite ?blen_app; go_bools; change (blen [nl]) with 1; try lia.
Qed.

Lemma take_line_bounded o line : bounded o -> bounded (take_line o line).
Proof.
  intros (Hb & Hd & Ho). unfold take_line.
  destruct (so_overlong o) eqn:E; [by repeat split|].
  destruct (_ <? _); [by repeat split|].
  destruct (handleLine_frame o (so_buf o ++ line)) as (Hb1 & Ho1 & _).
  destruct (handleLine_frame o line) as (Hb2 & Ho2 & _).
  destruct (_ <? _); unfold bounded; cbn.
  - split; [done|]. split; [by apply handleLine_data|done].
  - rewrite Hb2, Ho2, E. split; [done|]. split; [by apply handleLine_data|done].
Qed.

Lemma appendPartial_bounded o chunk : bounded o -> bounded (appendPartial o chunk).
Proof.
  intros H. pose proof H as (Hb & Hd & Ho). unfold appendPartial.
  destruct (so_overlong o) eqn:E; [done|].
  destruct (Z.ltb_spec maxSSELine (blen (so_buf o) + blen chunk)); [by repeat split|].
  unfold bounded. cbn. by rewrite blen_app.
Qed.

Lemma fold_bounded ls o : bounded o -> bounded (fold_left take_line ls o).
Proof. revert o. induction ls as [|l ls IH]; intros o H; [done|]. apply IH. by apply take_line_bounded. Qed.

Lemma scan_bounded o chunk : bounded o -> bounded (scan o chunk).
Proof.
  intros H. unfold scan. destruct (split_lines chunk) as [ls tail]. apply (fold_bounded ls) in H.
  destruct tail; [done|]. by apply appendPartial_bounded.
Qed.

(** Buffering in two steps is buffering at once. *)
Lemma appendPartial_nil o : bounded o -> appendPartial o [] = o.
Proof.
  intros (Hb & _). unfold appendPartial. destruct (so_overlong o) eqn:E; [done|].
  change (blen []) with 0. destruct (Z.ltb_spec maxSSELine (blen (so_buf o) + 0)); [lia|].
  rewrite app_nil_r. destruct o; cbn in *. by rewrite E.
Qed.

Lemma appendPartial_app o a b : appendPartial (appendPartial o a) b = appendPartial o (a ++ b).
Proof.
  pose proof (blen_nonneg b). unfold appendPartial at 2 3. rewrite blen_app.
  destruct (so_overlong o) eqn:E; [unfold appendPartial; by rewrite E|].
  destruct (Z.ltb_spec maxSSELine (blen (so_buf o) + blen a)).
  - rewrite (proj2 (Z.ltb_lt maxSSELine (blen (so_buf o) + (blen a + blen b)))) by lia.
    done.
  - unfold appendPartial. cbn. rewrite blen_app, Z.add_assoc, <- app_assoc. done.
Qed.

(** [o.buf.Reset()]. *)
Definition flush (o : streamObserver S) : streamObserver S := reset_buf o (so_overlong o) (so_dropEvent o).

Definition with_buf (o : streamObserver S) (b : bytes) : streamObserver S :=
  MkStreamObserver (so_state o) b (so_overlong o) (so_data o) (so_dropEvent o) (so_finished o).

Lemma flush_nil o : so_buf o = [] -> flush o = o.
Proof. destruct o. cbn. by intros ->. Qed.

(** A line is handled without looking at the buffer. *)
Lemma flush_handleLine o b line : flush (handleLine (with_buf o b) line) = flush (handleLine o line).
Proof. unfold handleLine. cbn. repeat go_split1; done. Qed.

Lemma take_line_eq o line :
  so_overlong o = false -> blen (so_buf o) + blen line <= maxSSELine ->
  take_line o line = flush (handleLine o (so_buf o ++ line)).
Proof.
  intros E Hl. unfold take_line. rewrite E, (proj2 (Z.ltb_ge _ _) Hl).
  destruct (Z.ltb_spec 0 (blen (so_buf o))) as [|Hz]; [done|].
  destruct (handleLine_frame o line) as (Hb & _).
  assert (Hn : so_buf o = []).
  { unfold blen in Hz. destruct (so_buf o); [done|]. cbn in Hz. lia. }
  rewrite Hn in *. cbn [app]. by rewrite flush_nil.
Qed.

(** A line that arrives in two pieces is the line. *)
Lemma take_line_app o a l : bounded o -> take_line (appendPartial o a) l = take_line o (a ++ l).
Proof.
  intros (Hb & _ & Ho). pose proof (blen_nonneg l). unfold appendPartial.
  destruct (so_overlong o) eqn:E; [unfold take_line; by rewrite E|].
  destruct (Z.ltb_spec maxSSELine (blen (so_buf o) + blen a)).
  { unfold take_line, reset_buf. cbn. rewrite E, blen_app.
    by rewrite (proj2 (Z.ltb_lt maxSSELine (blen (so_buf o) + (blen a + blen l)))) by lia. }
  rewrite <- E. fold (with_buf o (so_buf o ++ a)).
  destruct (Z.le_gt_cases (blen (so_buf o) + blen a + blen l) maxSSELine).
  - rewrite !take_line_eq; cbn; rewrite ?blen_app; try done; try lia.
    by rewrite flush_handleLine, app_assoc.
  - unfold take_line. cbn. rewrite E, !blen_app.
    rewrite (proj2 (Z.ltb_lt _ (blen (so_buf o) + blen a + blen l))) by lia.
    by rewrite (proj2 (Z.ltb_lt _ (blen (so_buf o) + (blen a + blen l)))) by lia.
Qed.

Lemma split_lines_app a b :
  split_lines (a ++ b) =
  let (la, ta) := split_lines a in
  let (lb, tb) := split_lines b in
  match lb with
  | [] => (la, ta ++ tb)
  | l :: lb' => (la ++ (ta ++ l) :: lb', tb)
  end.
Proof.
  induction a as [|c a IH]; cbn [app split_lines].
  - destruct (split_lines b) as [[|l lb] tb]; done.
  - rewrite IH. destruct (split_lines a) as [la ta], (split_lines b) as [lb tb].
    destruct (bool_decide (c = nl)), la, lb; done.
Qed.

Lemma scan_eq o chunk :
  bounded o ->
  scan o chunk = let (ls, tail) := split_lines chunk in appendPartial (fold_left take_line ls o) tail.
Proof.
  intros H. unfold scan. destruct (split_lines chunk) as [ls [|c tail]]; [|done].
  by rewrite appendPartial_nil by by apply fold_bounded.
Qed.

(** Scanning two chunks is scanning their concatenation. *)
Lemma scan_app o a b : bounded o -> scan (scan o a) b = scan o (a ++ b).
Proof.
  intros H. rewrite (scan_eq (scan o a)) by by apply scan_bounded.
  rewrite !(scan_eq o), split_lines_app by done.
  destruct (split_lines a) as [la ta], (split_lines b) as [lb tb].
  assert (Hl : bounded (fold_left take_line la o)) by by apply fold_bounded.
  destruct lb as [|l lb]; cbn [fold_left].
  - apply appendPartial_app.
  - by rewrite fold_left_app, take_line_app.
Qed.

(** The loop of the source: a chunk with a newline gives its first line to the
    body of the loop and goes on with the rest; one without is buffered. *)
Lemma split_lines_none line : nl ∉ line -> split_lines line = ([], line).
Proof.
  induction line as [|c line IH]; [done|]. intros H. apply not_elem_of_cons in H as [Hc H].
  cbn. rewrite (IH H). by rewrite bool_decide_eq_false_2 by done.
Qed.

Lemma scan_line o line rest : nl ∉ line -> scan o (line ++ nl :: rest) = scan (take_line o line) rest.
Proof.
  intros H. unfold scan. rewrite split_lines_app, (split_lines_none line) by done.
  cbn [split_lines]. destruct (split_lines rest) as [ls tail].
  rewrite bool_decide_eq_true_2 by done. cbn [fold_left app]. by rewrite app_nil_r.
Qed.

Lemma scan_partial o chunk : nl ∉ chunk -> chunk <> [] -> scan o chunk = appendPartial o chunk.
Proof. intros H Hn. unfold scan. rewrite (split_lines_none chunk) by done. by destruct chunk. Qed.

Lemma Read_more fail o chunk : Read fail o chunk ReadMore = scan o chunk.
Proof. unfold Read. destruct (Z.ltb_spec 0 (blen chunk)) as [|Hz]; [done|]. by destruct chunk. Qed.

Lemma Read_eof fail o chunk :
  Read fail o chunk ReadEOF = let o := scan o chunk in if so_finished o then o else finish o.
Proof.
  unfold Read. destruct (Z.ltb_spec 0 (blen chunk)) as [|Hz]; [done|]. by destruct chunk.
Qed.

Lemma reads_scan fail chunks o :
  bounded o -> fold_left (fun o c => Read fail o c ReadMore) chunks o = scan o (concat chunks).
Proof.
  revert o. induction chunks as [|c chunks IH]; intros o H; [done|].
  cbn [fold_left concat]. rewrite Read_more, IH by by apply scan_bounded. by apply scan_app.
Qed.

Lemma new_bounded s : bounded (newStreamObserver s).
Proof. repeat split; cbn; done. Qed.

Lemma finish_bounded o : bounded (finish o).
Proof. by repeat split. Qed.

Lemma Read_bounded fail o chunk e : bounded o -> bounded (Read fail o chunk e).
Proof.
  intros H. unfold Read. assert (Hs : bounded (if 0 <? blen chunk then scan o chunk else o)).
  { destruct (0 <? _); [by apply scan_bounded|done]. }
  destruct e; [done| |done]. destruct (so_finished _); [done|]. apply finish_bounded.
Qed.

(** A line of the form the servers emit. *)
Lemma TrimSuffix_other line : last line <> Some cr -> TrimSuffix line [cr] = line.
Proof.
  destruct line as [|c line _] using rev_ind; [done|]. rewrite last_snoc. intros H.
  unfold TrimSuffix, HasPrefix. rewrite rev_app_distr. cbn [rev app length].
  rewrite bool_decide_eq_false_2; [done|]. cbn. rewrite take_0. congruence.
Qed.

Lemma handleLine_blank o :
  so_dropEvent o = false ->
  handleLine o [] = MkStreamObserver (handle (so_state o) (so_data o)) (so_buf o) (so_overlong o) []
                      false (so_finished o).
Proof. intros H. unfold handleLine. cbn. by rewrite H. Qed.

Definition data_line (p : bytes) : bytes := of_string "data: " ++ p.

Lemma blen_data_line p : blen (data_line p) = 6 + blen p.
Proof. unfold data_line. by rewrite blen_app. Qed.

Lemma handleLine_data_line s p f :
  last p <> Some cr -> blen p < maxSSELine ->
  handleLine (MkStreamObserver s [] false [] false f) (data_line p) = MkStreamObserver s [] false p false f.
Proof.
  intros Hc Hl. unfold handleLine. rewrite TrimSuffix_other.
  2:{ unfold data_line. rewrite last_app. destruct (last p); [congruence|done]. }
  rewrite (proj2 (Z.eqb_neq (blen (data_line p)) 0)) 
    by (rewrite blen_data_line; pose proof (blen_nonneg p); lia).
  change (HasPrefix (data_line p) sseDataPrefix) with true.
  change (TrimPrefix _ _) with p. cbn [negb so_dropEvent so_data so_state so_buf so_overlong so_finished].
  change (blen []) with 0. rewrite (proj2 (Z.ltb_ge maxSSELine (0 + blen p + 1))) by lia. done.
Qed.
End Observer.

(** An event as the servers write it: one data line and a blank line. *)
Definition frame (p : bytes) : bytes := data_line p ++ nl :: [nl].

(** A payload that fits on one line. *)
Definition one_line (p : bytes) : Prop :=
  (nl ∉ p) /\ last p <> Some cr /\ blen (data_line p) <= maxSSELine.

Lemma scan_frame {S} (handle : S -> bytes -> S) s p rest :
  one_line p ->
  scan handle (newStreamObserver s) (frame p ++ rest) = scan handle (newStreamObserver (handle s p)) rest.
Proof.
  intros (Hn & Hc & Hl). unfold frame. rewrite <- app_assoc. cbn [app].
  rewrite scan_line.
  2:{ unfold data_line. rewrite elem_of_app. intros [H|H]; [|done].
      repeat (apply elem_of_cons in H as [H|H]; [done|]). by apply elem_of_nil in H. }
  change (nl :: rest) with ([] ++ nl :: rest).
  rewrite scan_line by apply not_elem_of_nil. f_equal.
  rewrite (take_line_eq _ (newStreamObserver s)) by done. cbn [so_buf newStreamObserver app]. unfold newStreamObserver.
  rewrite blen_data_line in Hl. by rewrite handleLine_data_line by first [done|lia].
Qed.

Lemma scan_frames {S} (handle : S -> bytes -> S) ps s :
  Forall one_line ps ->
  scan handle (newStreamObserver s) (concat (map frame ps)) = newStreamObserver (fold_left handle ps s).
Proof.
  intros H. revert s. induction H as [|p ps Hp H IH]; intros s; [done|].
  cbn [map concat fold_left]. by rewrite scan_frame.
Qed.

(** ** Usage of a response that is not streamed *)

Record usageObserver := MkUsageObserver { uo_state : requestState; uo_buf : bytes; uo_overlong : bool }.

Section Usage.
(** [json.Unmarshal] of a response: [None] is an error. *)
Context (UnmarshalUsage : bytes -> option (option completionUsage)).

Definition usage_copy (o : usageObserver) (chunk : bytes) : usageObserver :=
  if uo_overlong o then o
  else if maxSSELine <? blen (uo_buf o) + blen chunk then MkUsageObserver (uo_state o) [] true
  else MkUsageObserver (uo_state o) (uo_buf o ++ chunk) false.

Definition usage_decode (s : requestState) (b : bytes) : requestState :=
  match UnmarshalUsage b with
  | Some u => observeUsage s u
  | None => s
  end.

(** [usageObserver.Read], over the answer of the upstream. *)
Definition usage_Read (o : usageObserver) (chunk : bytes) (e : ReadEnd) : usageObserver :=
  let o := usage_copy o chunk in
  match e with
  | ReadMore => o
  | ReadEOF =>
      if uo_overlong o then o
      else MkUsageObserver (usage_decode (uo_state o) (uo_buf o)) (uo_buf o) (uo_overlong o)
  | ReadError msg => MkUsageObserver (with_readErr (uo_state o) msg) (uo_buf o) (uo_overlong o)
  end.

Lemma usage_copies s b chunks :
  blen b <= maxSSELine ->
  fold_left usage_copy chunks (MkUsageObserver s b false)
  = if maxSSELine <? blen (b ++ concat chunks) then MkUsageObserver s [] true
    else MkUsageObserver s (b ++ concat chunks) false.
Proof.
  assert (Hlong : forall cs, fold_left usage_copy cs (MkUsageObserver s [] true) = MkUsageObserver s [] true).
  { induction cs as [|c cs IH]; [done|]. apply IH. }
  revert b. induction chunks as [|c chunks IH]; intros b Hb; cbn [fold_left concat].
  - rewrite app_nil_r. by rewrite (proj2 (Z.ltb_ge _ _) Hb).
  - pose proof (blen_nonneg (concat chunks)). unfold usage_copy at 2. cbn [uo_overlong uo_buf uo_state].
    destruct (Z.ltb_spec maxSSELine (blen b + blen c)).
    + rewrite Hlong, !blen_app. by rewrite (proj2 (Z.ltb_lt _ (blen b + (blen c + _)))) by lia.
    + rewrite IH by (rewrite blen_app; lia). by rewrite <- app_assoc.
Qed.

(** A response that is not streamed reports the usage of the whole body when it
    fits in the buffer, and nothing otherwise, however it is cut. *)
Theorem usage_of_whole_body s chunks last :
  let body := concat chunks ++ last in
  uo_state (usage_Read (fold_left (fun o c => usage_Read o c ReadMore) chunks (MkUsageObserver s [] false))
              last ReadEOF)
  = if maxSSELine <? blen body then s else usage_decode s body.
Proof.
  cbv zeta. unfold usage_Read. cbv zeta.
  change (usage_copy (fold_left _ chunks ?o) last) with (fold_left usage_copy [last] (fold_left usage_copy chunks o)).
  rewrite <- fold_left_app, usage_copies by done. cbn [app]. rewrite concat_app. cbn [concat].
  rewrite app_nil_r. by destruct (_ <? _).
Qed.
End Usage.

(** ** Properties *)

(** C28: how the network cuts a stream is invisible.  Whatever the reads and
    wherever they cut lines and events, the observer ends in the state it
    would reach on the whole stream in one read: the same events in the same
    order, so the same first token and counts, for any event handler. *)
Theorem sse_chunking_invisible {S} (handle : S -> bytes -> S) fail s chunks last :
  Read handle fail (fold_left (fun o c => Read handle fail o c ReadMore) chunks (newStreamObserver s))
    last ReadEOF
  = Read handle fail (newStreamObserver s) (concat chunks ++ last) ReadEOF.
Proof.
  rewrite reads_scan by apply new_bounded. rewrite !Read_eof, scan_app by apply new_bounded. done.
Qed.

(** C40: The observer's memory is bounded.  Whatever the upstream sends, after
    any sequence of reads neither the line buffer nor the event buffer holds
    more than [maxSSELine] bytes. *)
Theorem sse_memory_bounded {S} (handle : S -> bytes -> S) fail s reads :
  let o := fold_left (fun o '(c, e) => Read handle fail o c e) reads (newStreamObserver s) in
  blen (so_buf o) <= maxSSELine /\ blen (so_data o) <= maxSSELine.
Proof.
  cbv zeta. set (o := newStreamObserver s). assert (H : bounded o) by apply new_bounded.
  clearbody o. revert o H. induction reads as [|[c e] reads IH]; intros o H; cbn.
  - destruct H as (? & ? & _). done.
  - apply IH. by apply Read_bounded.
Qed.

(** Every event is dispatched once, in order, however it is cut.  A stream
    of events written one per data line, in any chunks, hands exactly the
    payloads to the event handler, in the order they were written, and leaves
    nothing pending. *)
Theorem sse_events_dispatched {S} (handle : S -> bytes -> S) fail s ps chunks :
  Forall one_line ps -> concat chunks = concat (map frame ps) ->
  fold_left (fun o c => Read handle fail o c ReadMore) chunks (newStreamObserver s)
  = newStreamObserver (fold_left handle ps s).
Proof. intros H E. rewrite reads_scan by apply new_bounded. rewrite E. by apply scan_frames. Qed.

Lemma sse_events_dispatched_witness :
  let ps := [of_string "{}"; of_string "[DONE]"] in
  let whole := concat (map frame ps) in
  fold_left (fun o c => Read (fun l p => l ++ [p]) (fun l _ => l) o c ReadMore)
    [take 3 whole; drop 3 whole] (newStreamObserver [])
  = newStreamObserver ps.
Proof.
  apply (sse_events_dispatched (fun l p => l ++ [p]) (fun l _ => l) []
           [of_string "{}"; of_string "[DONE]"]); [|vm_compute; reflexivity].
  assert (H : forall p, bool_decide (nl ∈ p) = false -> bool_decide (last p = Some cr) = false ->
                        (blen (data_line p) <=? maxSSELine) = true -> one_line p).
  { intros p H1%bool_decide_eq_false H2%bool_decide_eq_false H3%Z.leb_le. by repeat split. }
  repeat constructor; apply H; vm_compute; reflexivity.
Defined.

(** ** Examples *)

(** The opening role frame carries no token, the second frame does; its line is
    cut in the middle and ends in CRLF. *)
Example sse_first_token :
  let crlf := String cr (String nl "") in
  let decode (b : bytes) :=
    if bool_decide (b = of_string "role") then Some (MkStreamChunk None [MkChoice "" "" [] ""])
    else Some (MkStreamChunk None [MkChoice "Hi" "" [] ""]) in
  let now (w : Z) := (w + 1, w) in
  let s0 := (100, MkRequestState 40 false 0 0 false 0 None 0 false None) in
  let fail (ws : Z * requestState) e := (fst ws, with_readErr (snd ws) e) in
  let handle := handleEvent decode now in
  let o := Read handle fail (newStreamObserver s0)
             (of_string (": ping" +:+ crlf +:+ "data: role" +:+ crlf +:+ crlf +:+ "da")) ReadMore in
  let o := Read handle fail o (of_string ("ta: tok" +:+ crlf +:+ crlf +:+ "data: [DONE]")) ReadEOF in
  let s := snd (so_state o) in
  rs_ttft s = 60 /\ rs_tokens s = 1 /\ rs_sawDone s = true.
Proof. vm_compute. repeat split. Qed.

End sse.
