(* ===== verification/KubeTypes.v ===== *)
(** * Kubernetes objects the operator renders

    The parts of core/v1 and apps/v1 that the engine profile and the child
    objects set or read: containers, probes, pods, Deployments and Services.  A
    pointer is an [option]; an apply configuration is the same record, with
    [None] for a field it does not declare. *)

From S2P Require Import Prelude ApiTypes.
Import v1alpha1.
Local Open Scope Z_scope.

Module kube.

Record ContainerPort := MkContainerPort {
  cp_Name : string; cp_ContainerPort : Z; cp_Protocol : string }.

Definition ProtocolTCP : string := "TCP".

Record VolumeMount := MkVolumeMount { vm_Name : string; vm_MountPath : string; vm_ReadOnly : bool }.

Record SecurityContext := MkSecurityContext {
  sc_AllowPrivilegeEscalation : option bool; sc_ReadOnlyRootFilesystem : option bool;
  sc_RunAsNonRoot : option bool; sc_CapabilitiesDrop : list string;
  sc_SeccompProfile : option string }.

Definition SeccompProfileTypeRuntimeDefault : string := "RuntimeDefault".

Record HTTPGetAction := MkHTTPGetAction { hg_Path : string; hg_Port : Z; hg_Scheme : string }.

Record Probe := MkProbe {
  pb_HTTPGet : option HTTPGetAction; pb_TimeoutSeconds : Z; pb_PeriodSeconds : Z;
  pb_SuccessThreshold : Z; pb_FailureThreshold : Z }.

Record Container := MkContainer {
  c_Name : string; c_Image : string; c_ImagePullPolicy : string; c_RestartPolicy : option string;
  c_Command : list string; c_Args : list string; c_Ports : list ContainerPort;
  c_Env : list EnvVar; c_VolumeMounts : list VolumeMount; c_Resources : ResourceRequirements;
  c_SecurityContext : option SecurityContext; c_StartupProbe : option Probe;
  c_ReadinessProbe : option Probe; c_LivenessProbe : option Probe;
  c_TerminationMessagePath : string; c_TerminationMessagePolicy : string }.

Definition PullIfNotPresent : string := "IfNotPresent".
Definition ContainerRestartPolicyAlways : string := "Always".

Definition no_resources : ResourceRequirements := MkResourceRequirements ∅ ∅.

(** The zero [corev1.Container]. *)
Definition Container_zero : Container :=
  MkContainer "" "" "" None [] [] [] [] [] no_resources None None None None "" "".

Record PodSecurityContext := MkPodSecurityContext {
  psc_RunAsNonRoot : bool; psc_RunAsUser : Z; psc_RunAsGroup : Z; psc_FSGroup : Z;
  psc_SeccompProfile : string }.

(** A volume by its name; every volume here is an [emptyDir]. *)
Record Volume := MkVolume { vol_Name : string; vol_EmptyDir : bool }.

Record PodSpec := MkPodSpec {
  ps_RestartPolicy : string; ps_TerminationGracePeriodSeconds : option Z; ps_DNSPolicy : string;
  ps_SchedulerName : string; ps_SecurityContext : option PodSecurityContext;
  ps_InitContainers : list Container; ps_Containers : list Container; ps_Volumes : list Volume }.

Record PodTemplate := MkPodTemplate { pt_Labels : gmap string string; pt_Spec : PodSpec }.

Record OwnerReference := MkOwnerReference {
  or_APIVersion : string; or_Kind : string; or_Name : string; or_UID : string;
  or_Controller : bool; or_BlockOwnerDeletion : bool }.

Inductive DeploymentStrategy :=
  | Recreate
  | RollingUpdate (maxSurge maxUnavailable : option string).

(** The apply configuration of a Deployment. *)
Record DeploymentApply := MkDeploymentApply {
  da_Name : string; da_Namespace : string; da_Labels : gmap string string;
  da_Owner : OwnerReference; da_Replicas : Z; da_RevisionHistoryLimit : Z;
  da_ProgressDeadlineSeconds : Z; da_Selector : gmap string string;
  da_Strategy : DeploymentStrategy; da_Template : PodTemplate }.

Record ServicePort := MkServicePort {
  svp_Name : string; svp_Port : Z; svp_Protocol : string; svp_TargetPort : string }.

(** The apply configuration of a Service. *)
Record ServiceApply := MkServiceApply {
  sa_Name : string; sa_Namespace : string; sa_Labels : gmap string string;
  sa_Owner : OwnerReference; sa_Type : string; sa_ClusterIP : option string;
  sa_PublishNotReadyAddresses : option bool; sa_Selector : gmap string string;
  sa_Ports : list ServicePort }.

Definition ServiceTypeClusterIP : string := "ClusterIP".
Definition ClusterIPNone : string := "None".
Definition ResourceCPU : string := "cpu".
Definition ResourceMemory : string := "memory".

#[global] Instance Quantity_eq_dec : EqDecision Quantity.
Proof. solve_decision. Defined.

#[global] Instance SecretKeySelector_eq_dec : EqDecision SecretKeySelector.
Proof. solve_decision. Defined.

#[global] Instance EnvVarSource_eq_dec : EqDecision EnvVarSource.
Proof. solve_decision. Defined.

#[global] Instance EnvVar_eq_dec : EqDecision EnvVar.
Proof. solve_decision. Defined.

#[global] Instance ResourceRequirements_eq_dec : EqDecision ResourceRequirements.
Proof. solve_decision. Defined.

#[global] Instance Probe_eq_dec : EqDecision Probe.
Proof. assert (EqDecision HTTPGetAction) by solve_decision. solve_decision. Defined.

#[global] Instance Container_eq_dec : EqDecision Container.
Proof.
  assert (EqDecision ContainerPort) by solve_decision.
  assert (EqDecision VolumeMount) by solve_decision.
  assert (EqDecision SecurityContext) by solve_decision. solve_decision.
Defined.

#[global] Instance PodSpec_eq_dec : EqDecision PodSpec.
Proof.
  assert (EqDecision PodSecurityContext) by solve_decision.
  assert (EqDecision Volume) by solve_decision. solve_decision.
Defined.

#[global] Instance ModelSpec_eq_dec : EqDecision ModelSpec.
Proof.
  assert (EqDecision ImageModelSource) by solve_decision.
  assert (EqDecision HuggingFaceModelSource) by solve_decision.
  assert (EqDecision PVCModelSource) by solve_decision.
  assert (EqDecision ModelSourceSpec) by solve_decision. solve_decision.
Defined.

#[global] Instance EngineSpec_eq_dec : EqDecision EngineSpec.
Proof. solve_decision. Defined.

#[global] Instance ShimSpec_eq_dec : EqDecision ShimSpec.
Proof. solve_decision. Defined.

End kube.
