(* ===== verification/Engine.v ===== *)
(** * Engine profiles (internal/engine)

    The seam between the controller and the inference servers: the [Profile]
    interface as a record of operations, the registry keyed by engine type, the
    resolution of the thread count, and the llama.cpp profile with its table of
    controller-owned settings.  Errors are their texts. *)

From S2P Require Import Prelude GoFmt GoStrings ApiTypes KubeTypes Naming.
From stdpp Require Import sorting.
Import v1alpha1.
Local Open Scope Z_scope.
Local Open Scope go_scope.

Module engine.
Import kube.

Definition ModelVolumeName : string := "model".
Definition ContainerName : string := "engine".
Definition EngineLlamaCPP : string := "llamacpp".

(** ** The interface (engine.go) *)

Record BuildContext := MkBuildContext {
  bc_MD : option ModelDeployment; bc_Variant : Variant; bc_ModelPath : string;
  bc_CacheDir : string; bc_Threads : Z; bc_Port : Z }.

Record BuildResult := MkBuildResult { br_Container : Container; br_HealthPath : string }.

Record Profile := MkProfile {
  p_Type : string;
  p_DefaultImage : string;
  p_Validate : option ModelDeploymentSpec -> option string;
  p_Build : BuildContext -> BuildResult + string }.

Definition registry : Type := gmap string Profile.

(** [Register]: [None] is a panic. *)
Definition Register (reg : registry) (p : option Profile) : option registry :=
  match p with
  | None => None
  | Some p =>
      if p_Type p == "" then None
      else if negb (is_nil (reg !! p_Type p)) then None
      else Some (<[p_Type p := p]> reg)
  end.

(** The keys in the order [range registry] happens to visit them. *)
Definition map_order (reg : registry) (order : list string) : Prop :=
  order ≡ₚ (map_to_list reg).*1.

Definition registeredTypesLocked (order : list string) : list string := gostrings.Sort order.

Definition Get (reg : registry) (order : list string) (t : string) : Profile + string :=
  match reg !! t with
  | Some p => inl p
  | None =>
      inr ("engine: unknown engine type " +:+ gofmt.Quote t +:+ "; supported types are: "
           +:+ gostrings.Join (registeredTypesLocked order) ", ")
  end.

(** ** Threads (threads.go) *)

Definition atLeastOneThread (n : Z) : Z := if n <? 1 then 1 else n.

(** Integer division truncates towards zero. *)
Definition coresFrom (q : Quantity) : Z :=
  let cores := Z.quot (MilliValue q) 1000 in
  if cores <? 1 then 1
  else if int32_max <? cores then int32_max
  else wrap32 cores.

Definition ThreadsFor (spec : option ModelDeploymentSpec) (fallback : Z) : Z :=
  match spec with
  | None => atLeastOneThread fallback
  | Some spec =>
      match eng_Threads (sp_Engine spec) with
      | Some n => atLeastOneThread n
      | None =>
          let res := eng_Resources (sp_Engine spec) in
          match rr_Limits res !! ResourceCPU with
          | Some q => coresFrom q
          | None =>
              match rr_Requests res !! ResourceCPU with
              | Some q => coresFrom q
              | None => atLeastOneThread fallback
              end
          end
      end
  end.

(** ** Controller-owned settings (llamacpp_reserved.go) *)

Definition llamaCPPHostFlag : string := "--host".
Definition llamaCPPPortFlag : string := "--port".
Definition llamaCPPParallelFlag : string := "--parallel".
Definition llamaCPPAPIKeyEnvVar : string := "LLAMA_API_KEY".
Definition llamaCPPCacheEnvVar : string := "LLAMA_CACHE".
Definition llamaCPPHFTokenEnvVar : string := "HF_TOKEN".

Definition settingModelSource : string := ".spec.model.source".
Definition settingModelSourceAndPath : string := ".spec.model.source and .spec.model.path".
Definition settingHFRepo : string := ".spec.model.source.huggingFace.repo".
Definition settingHFFile : string := ".spec.model.source.huggingFace.file".
Definition settingHFToken : string := ".spec.model.source.huggingFace.tokenSecretRef".
Definition settingServingHost : string := "the controller-managed serving host".
Definition settingServingPort : string := ".spec.serving.port (the external Service port)".
Definition settingModelName : string := ".spec.model.name".
Definition settingMaxConcurrency : string := ".spec.engine.maxConcurrency".
Definition settingThreads : string := ".spec.engine.threads".
Definition settingContextSize : string := ".spec.engine.contextSize".
Definition settingMetricsEndpoint : string := "the controller-managed metrics endpoint".
Definition settingAPIKey : string := ".spec.engine.apiKeySecretRef".

Definition llamaCPPReservedFlags : gmap string string := list_to_map
  [("-m", settingModelSourceAndPath); ("--model", settingModelSourceAndPath);
   ("-mu", settingModelSource); ("--model-url", settingModelSource);
   ("-dr", settingModelSource); ("--docker-repo", settingModelSource);
   ("-hf", settingHFRepo); ("-hfr", settingHFRepo); ("--hf-repo", settingHFRepo);
   ("-hff", settingHFFile); ("--hf-file", settingHFFile);
   ("-hft", settingHFToken); ("--hf-token", settingHFToken);
   (llamaCPPHostFlag, settingServingHost); (llamaCPPPortFlag, settingServingPort);
   ("-a", settingModelName); ("--alias", settingModelName);
   ("-np", settingMaxConcurrency); (llamaCPPParallelFlag, settingMaxConcurrency);
   ("-t", settingThreads); ("--threads", settingThreads);
   ("-tb", settingThreads); ("--threads-batch", settingThreads);
   ("-c", settingContextSize); ("--ctx-size", settingContextSize);
   ("--metrics", settingMetricsEndpoint);
   ("--api-key", settingAPIKey); ("--api-key-file", settingAPIKey);
   ("--models-dir", settingModelSource); ("--models-preset", settingModelSource)].

Definition llamaCPPReservedEnv : gmap string string := list_to_map
  [("LLAMA_ARG_MODEL", settingModelSourceAndPath);
   ("LLAMA_ARG_MODEL_URL", settingModelSource);
   ("LLAMA_ARG_DOCKER_REPO", settingModelSource);
   ("LLAMA_ARG_HF_REPO", settingHFRepo);
   ("LLAMA_ARG_HF_FILE", settingHFFile);
   ("HF_TOKEN", settingHFToken);
   ("LLAMA_ARG_HOST", settingServingHost);
   ("LLAMA_ARG_PORT", settingServingPort);
   ("LLAMA_ARG_ALIAS", settingModelName);
   ("LLAMA_ARG_N_PARALLEL", settingMaxConcurrency);
   ("LLAMA_ARG_THREADS", settingThreads);
   ("LLAMA_ARG_CTX_SIZE", settingContextSize);
   ("LLAMA_ARG_ENDPOINT_METRICS", settingMetricsEndpoint);
   ("LLAMA_CACHE", "the controller-managed model cache");
   (llamaCPPAPIKeyEnvVar, settingAPIKey);
   ("LLAMA_ARG_API_KEY_FILE", settingAPIKey);
   ("LLAMA_ARG_API_KEY", settingAPIKey);
   ("LLAMA_ARG_MODELS_DIR", settingModelSource);
   ("LLAMA_ARG_MODELS_PRESET", settingModelSource)].

(** The flag an argument sets, with underscores spelled as hyphens. *)
Definition flag_of (arg : string) : string :=
  gostrings.ReplaceAll (gostrings.Cut arg "=").1.1 "_" "-".

(** One extra argument: the error it causes, if any. *)
Definition reserved_arg (arg : string) : option string :=
  if gofmt.Contains arg "$(" then
    Some ("llamacpp: .spec.engine.extraArgs must use literal arguments; "
          +:+ "environment expansion can override controller-owned settings")
  else
    match llamaCPPReservedFlags !! flag_of arg with
    | Some field =>
        Some ("llamacpp: .spec.engine.extraArgs setting " +:+ gofmt.Quote (flag_of arg)
              +:+ " is controller-owned; use " +:+ field)
    | None => None
    end.

Definition reserved_env (env : EnvVar) : option string :=
  match llamaCPPReservedEnv !! env_Name env with
  | Some field =>
      Some ("llamacpp: .spec.engine.env setting " +:+ gofmt.Quote (env_Name env)
            +:+ " is controller-owned; use " +:+ field)
  | None => None
  end.

(** The first error of a loop. *)
Fixpoint first_error {A} (f : A -> option string) (xs : list A) : option string :=
  match xs with
  | [] => None
  | x :: xs' => match f x with Some e => Some e | None => first_error f xs' end
  end.

Definition validateLlamaCPPReservedSettings (spec : ModelDeploymentSpec) : option string :=
  match first_error reserved_arg (eng_ExtraArgs (sp_Engine spec)) with
  | Some e => Some e
  | None => first_error reserved_env (eng_Env (sp_Engine spec))
  end.

(** ** The llama.cpp profile (llamacpp.go) *)

Definition LlamaCPPDefaultImage : string := "ghcr.io/ggml-org/llama.cpp:server-b10731".
Definition LlamaCPPHealthPath : string := "/health".
Definition defaultContextSize : Z := 4096.
Definition defaultMaxConcurrency : Z := 4.
Definition defaultThreads : Z := 1.

Definition Validate (spec : option ModelDeploymentSpec) : option string :=
  match spec with
  | None => Some "llamacpp: nil spec"
  | Some spec =>
      match validateLlamaCPPReservedSettings spec with
      | Some e => Some e
      | None =>
          let src := model_Source (sp_Model spec) in
          if negb (is_nil (src_PersistentVolumeClaim src)) then
            Some ("llamacpp: model source .spec.model.source.persistentVolumeClaim is not implemented yet; "
                  +:+ "use .spec.model.source.image or .spec.model.source.huggingFace")
          else
            match src_HuggingFace src with
            | Some hf =>
                if hf_File hf == "" then
                  Some ("llamacpp: .spec.model.source.huggingFace.file is required; "
                        +:+ "llama.cpp serves a single GGUF file and a repository usually holds several "
                        +:+ "quantisations (e.g. " +:+ dq +:+ "Qwen3-0.6B-Q4_K_M.gguf" +:+ dq +:+ ")")
                else None
            | None =>
                if is_nil (src_Image src) then
                  Some ("llamacpp: one of .spec.model.source.image or "
                        +:+ ".spec.model.source.huggingFace is required")
                else None
            end
      end
  end.

Definition int32OrDefault (p : option Z) (def : Z) : Z :=
  match p with
  | None => def
  | Some n => if n <? 1 then def else n
  end.

Definition orDefaultThreads (n : Z) : Z := if n <? 1 then defaultThreads else n.

(** The model arguments: a staged file, or the repository to download from. *)
Definition model_args (spec : ModelDeploymentSpec) (bc : BuildContext) : list string :=
  if bc_ModelPath bc != "" then ["-m"; bc_ModelPath bc]
  else
    match src_HuggingFace (model_Source (sp_Model spec)) with
    | Some hf => ["--hf-repo"; hf_Repo hf; "--hf-file"; hf_File hf]
    | None => []
    end.

(** The arguments the controller owns, in their fixed order. *)
Definition owned_args (spec : ModelDeploymentSpec) (bc : BuildContext) (port : Z) : list string :=
  [llamaCPPHostFlag; "0.0.0.0"; llamaCPPPortFlag; format_int port]
  ++ model_args spec bc
  ++ ["-c"; format_int (int32OrDefault (eng_ContextSize (sp_Engine spec)) defaultContextSize);
      llamaCPPParallelFlag;
      format_int (int32OrDefault (eng_MaxConcurrency (sp_Engine spec)) defaultMaxConcurrency);
      "-t"; format_int (atLeastOneThread (orDefaultThreads (bc_Threads bc)));
      "--metrics"; "--alias"; model_Name (sp_Model spec)].

Definition llamaCPPArgs (spec : ModelDeploymentSpec) (bc : BuildContext) (port : Z) : list string :=
  owned_args spec bc port ++ eng_ExtraArgs (sp_Engine spec).

Definition ensureTrailingSlash (dir : string) : string :=
  if gostrings.HasSuffix dir "/" then dir else dir +:+ "/".

Definition hf_token (spec : ModelDeploymentSpec) : option SecretKeySelector :=
  match src_HuggingFace (model_Source (sp_Model spec)) with
  | Some hf => hf_TokenSecretRef hf
  | None => None
  end.

(** The variables the controller adds after the user's. *)
Definition owned_env (spec : ModelDeploymentSpec) (cacheDir : string) : list EnvVar :=
  match eng_APIKeySecretRef (sp_Engine spec) with
  | Some ref => [MkEnvVar llamaCPPAPIKeyEnvVar "" (Some (SecretKeyRef ref))]
  | None => []
  end
  ++ (if cacheDir != "" then [MkEnvVar llamaCPPCacheEnvVar (ensureTrailingSlash cacheDir) None] else [])
  ++ match hf_token spec with
     | Some ref => [MkEnvVar llamaCPPHFTokenEnvVar "" (Some (SecretKeyRef ref))]
     | None => []
     end.

(** A nil and an empty slice are both the empty list. *)
Definition llamaCPPEnv (spec : ModelDeploymentSpec) (cacheDir : string) : list EnvVar :=
  eng_Env (sp_Engine spec) ++ owned_env spec cacheDir.

Definition llamaCPPVolumeMounts (modelPath cacheDir : string) : list VolumeMount :=
  if modelPath != "" then [MkVolumeMount ModelVolumeName (gopath.Dir modelPath) true]
  else if cacheDir != "" then [MkVolumeMount ModelVolumeName cacheDir false]
  else [].

Definition hardenedSecurityContext : SecurityContext :=
  MkSecurityContext (Some false) (Some true) (Some true) ["ALL"] (Some SeccompProfileTypeRuntimeDefault).

Definition Build (bc : BuildContext) : BuildResult + string :=
  match bc_MD bc with
  | None => inr "llamacpp: BuildContext.MD is nil"
  | Some md =>
      let spec := md_Spec md in
      match validateLlamaCPPReservedSettings spec with
      | Some err => inr err
      | None =>
          let port := if bc_Port bc =? 0 then naming.EnginePort else bc_Port bc in
          let image := if eng_Image (sp_Engine spec) == "" then LlamaCPPDefaultImage
                       else eng_Image (sp_Engine spec) in
          let container :=
            MkContainer ContainerName image (eng_ImagePullPolicy (sp_Engine spec)) None []
              (llamaCPPArgs spec bc port)
              [MkContainerPort naming.PortNameEngine port ProtocolTCP]
              (llamaCPPEnv spec (bc_CacheDir bc))
              (llamaCPPVolumeMounts (bc_ModelPath bc) (bc_CacheDir bc))
              (eng_Resources (sp_Engine spec)) (Some hardenedSecurityContext) None None None "" "" in
          inl (MkBuildResult container LlamaCPPHealthPath)
      end
  end.

Definition llamaCPP : Profile := MkProfile EngineLlamaCPP LlamaCPPDefaultImage Validate Build.

(** The registry after [init]. *)
Definition init : option registry := Register ∅ (Some llamaCPP).

(** ** Lemmas *)

Lemma first_error_None {A} (f : A -> option string) xs :
  first_error f xs = None <-> Forall (fun x => f x = None) xs.
Proof.
  induction xs as [|x xs IH]; cbn; [by split|]. rewrite Forall_cons, <- IH. by destruct (f x); naive_solver.
Qed.

Lemma validate_None spec :
  validateLlamaCPPReservedSettings spec = None <->
  Forall (fun a => reserved_arg a = None) (eng_ExtraArgs (sp_Engine spec))
  /\ Forall (fun e => reserved_env e = None) (eng_Env (sp_Engine spec)).
Proof.
  unfold validateLlamaCPPReservedSettings. rewrite <- !first_error_None.
  destruct (first_error reserved_arg _); naive_solver.
Qed.

Lemma reserved_arg_None arg :
  reserved_arg arg = None <->
  gofmt.Contains arg "$(" = false /\ llamaCPPReservedFlags !! flag_of arg = None.
Proof.
  unfold reserved_arg. destruct (gofmt.Contains _ _); [naive_solver|].
  destruct (_ !! _); naive_solver.
Qed.

Lemma reserved_env_None env :
  reserved_env env = None <-> llamaCPPReservedEnv !! env_Name env = None.
Proof. unfold reserved_env. destruct (_ !! _); naive_solver. Qed.

Lemma Build_inv bc r :
  Build bc = inl r ->
  exists md, bc_MD bc = Some md /\ validateLlamaCPPReservedSettings (md_Spec md) = None
  /\ c_Args (br_Container r)
     = llamaCPPArgs (md_Spec md) bc (if bc_Port bc =? 0 then naming.EnginePort else bc_Port bc)
  /\ c_Env (br_Container r) = llamaCPPEnv (md_Spec md) (bc_CacheDir bc).
Proof.
  unfold Build. destruct (bc_MD bc) as [md|]; [|done].
  destruct (validateLlamaCPPReservedSettings _) eqn:E; [done|]. intros [= <-]. by exists md.
Qed.

(** Entries named by a reserved variable. *)
Definition named (n : string) (env : list EnvVar) : list EnvVar :=
  List.filter (fun e => env_Name e == n) env.

Lemma named_user_none n env :
  is_Some (llamaCPPReservedEnv !! n) -> Forall (fun e => reserved_env e = None) env -> named n env = [].
Proof.
  intros [f Hf] H. induction H as [|e env He H IH]; cbn; [done|].
  apply reserved_env_None in He. rewrite bool_decide_eq_false_2; [done|]. intros <-. congruence.
Qed.

Lemma atLeastOneThread_pos n : 1 <= atLeastOneThread n.
Proof. unfold atLeastOneThread. destruct (Z.ltb_spec n 1); lia. Qed.

Lemma atLeastOneThread_int32 n : int32_ok n -> int32_ok (atLeastOneThread n).
Proof. unfold atLeastOneThread. destruct (Z.ltb_spec n 1); go_lia. Qed.

Lemma coresFrom_spec q :
  1 <= coresFrom q <= int32_max
  /\ (1000 <= MilliValue q -> coresFrom q * 1000 <= MilliValue q)
  /\ (MilliValue q < 1000 * int32_max -> MilliValue q < (coresFrom q + 1) * 1000).
Proof.
  unfold coresFrom. cbv zeta. pose proof (Z.quot_rem (MilliValue q) 1000 ltac:(done)) as Hq.
  pose proof (Z.rem_bound_abs (MilliValue q) 1000 ltac:(done)) as Hr.
  destruct (Z.ltb_spec (Z.quot (MilliValue q) 1000) 1); [go_lia|].
  pose proof (Z.rem_sign_nz (MilliValue q) 1000 ltac:(done)).
  destruct (Z.ltb_spec int32_max (Z.quot (MilliValue q) 1000)); [|rewrite wrap32_id by go_lia]; go_lia.
Qed.

(** ** Properties *)

(** C26: an extra setting cannot override the controller, and none is lost.  A
    container is built only for a resource, whose settings it carries: the
    arguments are the controller's followed by exactly the user's, the
    environment is exactly the user's followed by the controller's; no user
    argument spells a controller-owned flag in any form or contains an expansion,
    and each controller-owned variable has exactly the value the controller gave
    it, so at most one: the API key and the Hugging Face token are the secrets
    the resource names. *)
Theorem Build_settings_owned bc r :
  Build bc = inl r ->
  exists md, bc_MD bc = Some md
    /\ let spec := md_Spec md in
    c_Args (br_Container r)
      = owned_args spec bc (if bc_Port bc =? 0 then naming.EnginePort else bc_Port bc)
        ++ eng_ExtraArgs (sp_Engine spec)
    /\ c_Env (br_Container r) = eng_Env (sp_Engine spec) ++ owned_env spec (bc_CacheDir bc)
    /\ Forall (fun a => llamaCPPReservedFlags !! flag_of a = None /\ gofmt.Contains a "$(" = false)
         (eng_ExtraArgs (sp_Engine spec))
    /\ (forall n, is_Some (llamaCPPReservedEnv !! n) ->
         named n (c_Env (br_Container r)) = named n (owned_env spec (bc_CacheDir bc))
         /\ (length (named n (c_Env (br_Container r))) <= 1)%nat)
    /\ (forall ref, eng_APIKeySecretRef (sp_Engine spec) = Some ref ->
         named llamaCPPAPIKeyEnvVar (c_Env (br_Container r))
         = [MkEnvVar llamaCPPAPIKeyEnvVar "" (Some (SecretKeyRef ref))])
    /\ (forall ref, hf_token spec = Some ref ->
         named llamaCPPHFTokenEnvVar (c_Env (br_Container r))
         = [MkEnvVar llamaCPPHFTokenEnvVar "" (Some (SecretKeyRef ref))]).
Proof.
  intros H. destruct (Build_inv _ _ H) as (md & Hmd & Hv & Ha & He). exists md. split; [exact Hmd|]. cbv zeta.
  apply validate_None in Hv as [Hargs Henv]. split; [done|]. split; [done|]. split.
  { eapply Forall_impl; [exact Hargs|]. intros a Hn. by apply reserved_arg_None in Hn as [? ?]. }
  assert (Hown : forall n, is_Some (llamaCPPReservedEnv !! n) ->
            named n (c_Env (br_Container r)) = named n (owned_env (md_Spec md) (bc_CacheDir bc))).
  { intros n Hn. rewrite He. unfold llamaCPPEnv, named. rewrite List.filter_app.
    fold (named n (eng_Env (sp_Engine (md_Spec md)))). by rewrite named_user_none. }
  split; [intros n Hn; rewrite Hown by done; split; [done|]|split; intros ref Href; rewrite Hown by (vm_compute; eauto)].
  - unfold owned_env, hf_token. destruct (eng_APIKeySecretRef _), (bc_CacheDir bc != ""), (src_HuggingFace _) as [[? ? [?|]]|];
      cbn; repeat case_bool_decide; cbn; try lia; subst; done.
  - unfold owned_env. rewrite Href. by destruct (bc_CacheDir bc != ""), (hf_token _).
  - unfold owned_env. rewrite Href. by destruct (bc_CacheDir bc != ""), (eng_APIKeySecretRef _).
Qed.

(** Every flag and variable the profile sets itself is in its table of
    reserved settings, so the table covers what it has to protect. *)
Theorem owned_settings_reserved spec bc cacheDir :
  Forall (fun f => is_Some (llamaCPPReservedFlags !! f))
    ([llamaCPPHostFlag; llamaCPPPortFlag] ++ take 1 (model_args spec bc) ++ take 1 (drop 2 (model_args spec bc))
     ++ ["-c"; llamaCPPParallelFlag; "-t"; "--metrics"; "--alias"])
  /\ Forall (fun e => is_Some (llamaCPPReservedEnv !! env_Name e)) (owned_env spec cacheDir).
Proof.
  split.
  - unfold model_args. destruct (bc_ModelPath bc != ""); [|destruct (src_HuggingFace _)];
      cbn [take drop app]; repeat constructor; vm_compute; eauto.
  - unfold owned_env. destruct (eng_APIKeySecretRef _), (cacheDir != ""), (hf_token spec);
      cbn [app]; repeat constructor; vm_compute; eauto.
Qed.

(** The thread count is positive and fits an [int32]; without an explicit
    value it never exceeds the CPU limit of at least one core, else the CPU
    request, and wastes less than one core of it. *)
Theorem threads_fit_cpu spec fallback :
  int32_ok fallback -> (forall n, eng_Threads (sp_Engine spec) = Some n -> int32_ok n) ->
  let n := ThreadsFor (Some spec) fallback in
  let res := eng_Resources (sp_Engine spec) in
  1 <= n <= int32_max
  /\ forall q,
       eng_Threads (sp_Engine spec) = None ->
       rr_Limits res !! ResourceCPU = Some q
       \/ (rr_Limits res !! ResourceCPU = None /\ rr_Requests res !! ResourceCPU = Some q) ->
       1000 <= MilliValue q < 1000 * int32_max -> n * 1000 <= MilliValue q < (n + 1) * 1000.
Proof.
  intros Hf Ht n res. subst n. unfold ThreadsFor. fold res. split.
  - destruct (eng_Threads _) as [t|].
    { pose proof (atLeastOneThread_pos t). pose proof (atLeastOneThread_int32 t (Ht t eq_refl)). go_lia. }
    pose proof (atLeastOneThread_pos fallback). pose proof (atLeastOneThread_int32 fallback Hf).
    repeat case_match; try go_lia; apply coresFrom_spec.
  - intros q -> Hq Hm. destruct (coresFrom_spec q) as (_ & H1 & H2).
    destruct Hq as [-> |[-> ->]]; split; lia.
Qed.

(** A spec is accepted exactly when no setting is reserved and its one
    source is an image or a repository with a named file, and every accepted
    spec builds. *)
Theorem valid_spec_builds spec :
  let src := model_Source (sp_Model spec) in
  (Validate (Some spec) = None <->
   validateLlamaCPPReservedSettings spec = None /\ src_PersistentVolumeClaim src = None
   /\ ((exists hf, src_HuggingFace src = Some hf /\ hf_File hf <> "")
       \/ (src_HuggingFace src = None /\ is_Some (src_Image src))))
  /\ forall md bc,
       Validate (Some spec) = None -> md_Spec md = spec -> bc_MD bc = Some md ->
       exists r, Build bc = inl r /\ br_HealthPath r = LlamaCPPHealthPath.
Proof.
  cbv zeta. unfold Validate. split.
  - destruct (validateLlamaCPPReservedSettings spec); [naive_solver|].
    destruct (src_PersistentVolumeClaim _); [naive_solver|]. cbn [negb is_nil].
    destruct (src_HuggingFace _) as [hf|].
    + case_bool_decide; naive_solver.
    + destruct (src_Image _); cbn; naive_solver.
  - intros md bc Hv <- Hbc. unfold Build. rewrite Hbc.
    destruct (validateLlamaCPPReservedSettings _); [done|]. by eexists.
Qed.

(** The error for an unknown engine type does not depend on the order in
    which the registry's map is visited, so the condition it ends up in is
    byte-stable. *)
Theorem unknown_engine_stable reg o1 o2 t :
  map_order reg o1 -> map_order reg o2 -> Get reg o1 t = Get reg o2 t.
Proof.
  unfold map_order, Get, registeredTypesLocked. intros H1 H2.
  destruct (reg !! t); [done|]. by rewrite (gostrings.Sort_perm o1 o2) by by rewrite H1.
Qed.

End engine.
