(* ===== verification/ControllerChildren.v ===== *)
(** * Child objects (internal/controller/children.go and shim.go)

    [buildChildren] renders the Deployments and Services of a ModelDeployment
    from one rendering plan per variant, over any engine profile.  Encoding a
    typed object as JSON and decoding it as an apply configuration is the
    parameter [applyConfigFrom]; [resource.MustParse] is a parameter too. *)

From S2P Require Import Prelude GoFloat GoFmt GoStrings ApiTypes KubeTypes Naming Engine CanaryWeights CanaryVerdict CanaryState Analysis ControllerRollout.
Import v1alpha1.
Local Open Scope Z_scope.
Local Open Scope go_scope.

Module children.
Import kube engine rollouts.

Definition modelMountPath : string := "/models".
Definition modelStagingPath : string := "/mnt/model".
Definition modelInitContainerName : string := "model-init".
Definition defaultRevisionHistoryLimit : Z := 3.
Definition probePeriodSeconds : Z := 5.
Definition nonRootUID : Z := 65532.
Definition nonRootGID : Z := 65532.
Definition DefaultShimImage : string := "ghcr.io/surajm20061998/llmcp-shim:v0.1.0".
Definition kindModelDeployment : string := "ModelDeployment".
(** [GroupVersion.String()]. *)
Definition apiVersion : string := "inference.llmcp.io/v1alpha1".
(** [observability.ComponentMetrics]. *)
Definition ComponentMetrics : string := "metrics".

Definition runtimeModelPath (src : ImageModelSource) : string :=
  gopath.Join modelMountPath (gopath.Base (im_Path src)).

Record desiredChildren := MkDesiredChildren {
  dc_Deployment : DeploymentApply; dc_Service : ServiceApply; dc_MetricsService : ServiceApply;
  dc_CanaryDeployment : option DeploymentApply }.

Record renderOptions := MkRenderOptions { ShimImage : string }.

Definition shimImage (o : renderOptions) : string :=
  if ShimImage o == "" then DefaultShimImage else ShimImage o.

Record variantPlan := MkVariantPlan {
  vp_Spec : ModelDeploymentSpec; vp_Revision : string; vp_Replicas : Z }.

Definition withSpec (md : ModelDeployment) (spec : ModelDeploymentSpec) : ModelDeployment :=
  MkModelDeployment (md_Name md) (md_Namespace md) (md_UID md) (md_ResourceVersion md)
    (md_Generation md) (md_DeletionTimestamp md) (md_Annotations md) spec (md_Status md).

Definition singleVariant (md : ModelDeployment) (revision : string) : variantPlan :=
  MkVariantPlan (md_Spec md) revision (replicasFor md).

Definition buildStrategy (md : ModelDeployment) : DeploymentStrategy :=
  let ro := sp_Rollout (md_Spec md) in
  if ro_Type ro == RolloutRecreate then Recreate
  else RollingUpdate (ro_MaxSurge ro) (ro_MaxUnavailable ro).

(** ** Probes *)

(** [int32(timeout.Seconds())], and [int32] arithmetic below. *)
Definition startupFailureThreshold (md : ModelDeployment) : Z :=
  let fallback := 300 in
  let seconds :=
    match srv_StartupTimeout (sp_Serving (md_Spec md)) with
    | Some d => let s := f64.to_int32 (gofmt.Duration_Seconds d) in if 0 <? s then s else fallback
    | None => fallback
    end in
  Z.max (Z.quot (wrap32 (seconds + probePeriodSeconds - 1)) probePeriodSeconds) 1.

(** [intstr.FromInt32(naming.EnginePort)] is the port. *)
Definition engine_probe (healthPath : string) (timeout period success failures : Z) : Probe :=
  MkProbe (Some (MkHTTPGetAction healthPath naming.EnginePort "")) timeout period success failures.

Definition withProbes (c : Container) (healthPath : string) (md : ModelDeployment) : Container :=
  MkContainer (c_Name c) (c_Image c) (c_ImagePullPolicy c) (c_RestartPolicy c) (c_Command c)
    (c_Args c) (c_Ports c) (c_Env c) (c_VolumeMounts c) (c_Resources c) (c_SecurityContext c)
    (Some (engine_probe healthPath 0 probePeriodSeconds 0 (startupFailureThreshold md)))
    (Some (engine_probe healthPath 3 probePeriodSeconds 1 3))
    (Some (engine_probe healthPath 5 10 0 6))
    (c_TerminationMessagePath c) (c_TerminationMessagePolicy c).

(** ** The metrics sidecar (shim.go) *)

Definition shimStartupPeriodSeconds : Z := 1.
Definition shimStartupFailureThresh : Z := 30.
Definition shimReadinessPeriodSeconds : Z := 5.
Definition shimReadinessFailureThresh : Z := 3.
Definition shimLivenessPeriodSeconds : Z := 10.
Definition shimLivenessFailureThresh : Z := 6.

Definition maxConcurrencyFor (md : ModelDeployment) : Z :=
  match eng_MaxConcurrency (sp_Engine (md_Spec md)) with
  | Some n => if 0 <? n then n else 4
  | None => 4
  end.

Definition shimArgs (md : ModelDeployment) (variant : Variant) (healthPath logLevel : string) :
    list string :=
  ["--listen=:" +:+ format_int naming.ShimPort;
   "--metrics-listen=:" +:+ format_int naming.ShimMetricsPort;
   "--upstream=http://127.0.0.1:" +:+ format_int naming.EnginePort;
   "--health-path=" +:+ healthPath;
   "--model=" +:+ model_Name (sp_Model (md_Spec md));
   "--namespace=" +:+ md_Namespace md;
   "--model-deployment=" +:+ md_Name md;
   "--variant=" +:+ variant_string variant;
   "--max-concurrency=" +:+ format_int (maxConcurrencyFor md);
   "--log-level=" +:+ logLevel].

Definition shimProbe (path : string) (period failures : Z) : Probe :=
  MkProbe (Some (MkHTTPGetAction path naming.ShimPort "")) 2 period 1 failures.

Definition shimSecurityContext : SecurityContext :=
  MkSecurityContext (Some false) (Some true) (Some true) ["ALL"] (Some SeccompProfileTypeRuntimeDefault).

Section Rendering.
Context (MustParse : string -> Quantity) (enc : string -> string).
Context (applyConfigFrom : Container -> Container + string).

Definition shimCPURequest : Quantity := MustParse "50m".
Definition shimMemoryRequest : Quantity := MustParse "64Mi".
Definition shimMemoryLimit : Quantity := MustParse "128Mi".

Definition shimResources (shim : ShimSpec) : ResourceRequirements :=
  let r := shim_Resources shim in
  if negb (bool_decide (rr_Requests r = ∅)) || negb (bool_decide (rr_Limits r = ∅)) then r
  else
    MkResourceRequirements (<[ResourceMemory := shimMemoryLimit]> ∅)
      (<[ResourceCPU := shimCPURequest]> (<[ResourceMemory := shimMemoryRequest]> ∅)).

Definition buildShimContainer (md : ModelDeployment) (variant : Variant) (healthPath image : string) :
    Container :=
  let shim := srv_Shim (sp_Serving (md_Spec md)) in
  let image := if shim_Image shim != "" then shim_Image shim else image in
  let logLevel := if shim_LogLevel shim == "" then "info" else shim_LogLevel shim in
  MkContainer naming.ShimContainerName image (eng_ImagePullPolicy (sp_Engine (md_Spec md)))
    (Some ContainerRestartPolicyAlways) []
    (shimArgs md variant healthPath logLevel)
    [MkContainerPort naming.PortNameHTTP naming.ShimPort ProtocolTCP;
     MkContainerPort naming.PortNameMetrics naming.ShimMetricsPort ProtocolTCP]
    [] [] (shimResources shim) (Some shimSecurityContext)
    (Some (shimProbe naming.ShimLivePath shimStartupPeriodSeconds shimStartupFailureThresh))
    (Some (shimProbe naming.ShimHealthPath shimReadinessPeriodSeconds shimReadinessFailureThresh))
    (Some (shimProbe naming.ShimLivePath shimLivenessPeriodSeconds shimLivenessFailureThresh))
    "" "".

(** ** The serving pod *)

Definition buildModelInitContainer (src : ImageModelSource) : Container :=
  let dest := gopath.Join modelStagingPath (gopath.Base (im_Path src)) in
  MkContainer modelInitContainerName (im_Image src) (im_PullPolicy src) None
    ["cp"; im_Path src; dest] [] [] []
    [MkVolumeMount ModelVolumeName modelStagingPath false] no_resources
    (Some (MkSecurityContext (Some false) (Some true) (Some true) ["ALL"] None))
    None None None "" "".

(** The model path, the cache directory and the init containers. *)
Definition buildModelDelivery (md : ModelDeployment) : (string * string * list Container) + string :=
  let src := model_Source (sp_Model (md_Spec md)) in
  match src_Image src, src_HuggingFace src with
  | Some image, _ =>
      match applyConfigFrom (buildModelInitContainer image) with
      | inr e => inr ("converting model init container: " +:+ e)
      | inl initAC => inl (runtimeModelPath image, "", [initAC])
      end
  | None, Some _ => inl ("", modelMountPath, [])
  | None, None =>
      inr ("no implemented model source in .spec.model.source: " +:+ "set .image or .huggingFace")
  end.

Definition pod_security : PodSecurityContext :=
  MkPodSecurityContext true nonRootUID nonRootGID nonRootGID SeccompProfileTypeRuntimeDefault.

Definition buildPodSpec (md : ModelDeployment) (prof : Profile) (variant : Variant)
    (opts : renderOptions) : PodSpec + string :=
  delivery <?- buildModelDelivery md ;;
  let '(modelPath, cacheDir, initContainers) := delivery in
  match p_Build prof (MkBuildContext (Some md) variant modelPath cacheDir
                        (ThreadsFor (Some (md_Spec md)) 1) naming.EnginePort) with
  | inr e => inr ("building engine container: " +:+ e)
  | inl built =>
      match applyConfigFrom (withProbes (br_Container built) (br_HealthPath built) md) with
      | inr e => inr ("converting engine container: " +:+ e)
      | inl engineAC =>
          let shim :=
            if ShimEnabled (sp_Serving (md_Spec md)) then
              match applyConfigFrom (buildShimContainer md variant (br_HealthPath built) (shimImage opts)) with
              | inr e => inr ("converting shim container: " +:+ e)
              | inl shimAC => inl [shimAC]
              end
            else inl [] in
          sidecars <?- shim ;;
          inl (MkPodSpec "" None "" "" (Some pod_security) (initContainers ++ sidecars) [engineAC]
                 [MkVolume ModelVolumeName true])
      end
  end.

(** ** Deployments and Services *)

Definition ownerReference (md : ModelDeployment) : OwnerReference :=
  MkOwnerReference apiVersion kindModelDeployment (md_Name md) (md_UID md) true true.

Definition buildDeployment (md : ModelDeployment) (prof : Profile) (revision : string)
    (variant : Variant) (replicas : Z) (opts : renderOptions) : DeploymentApply + string :=
  podSpec <?- buildPodSpec md prof variant opts ;;
  inl (MkDeploymentApply (naming.DeploymentFor enc (md_Name md) variant) (md_Namespace md)
         (<[naming.LabelRevision := revision]>
            (<[naming.LabelVariant := variant_string variant]> (naming.CommonLabels (md_Name md))))
         (ownerReference md) replicas defaultRevisionHistoryLimit (progressDeadlineSeconds md)
         (naming.SelectorLabels (md_Name md) variant) (buildStrategy md)
         (MkPodTemplate (naming.PodLabels (md_Name md) variant revision) podSpec)).

Definition servingTargetPort (md : ModelDeployment) : string :=
  if ShimEnabled (sp_Serving (md_Spec md)) then naming.PortNameHTTP else naming.PortNameEngine.

Definition buildService (md : ModelDeployment) : ServiceApply :=
  let port := srv_Port (sp_Serving (md_Spec md)) in
  let port := if port =? 0 then naming.ServicePort else port in
  MkServiceApply (naming.Service enc (md_Name md)) (md_Namespace md)
    (naming.CommonLabels (md_Name md)) (ownerReference md) ServiceTypeClusterIP None None
    (naming.ServiceSelector (md_Name md))
    [MkServicePort naming.PortNameHTTP port ProtocolTCP (servingTargetPort md)].

Definition buildMetricsService (md : ModelDeployment) : ServiceApply :=
  let ports :=
    (if ShimEnabled (sp_Serving (md_Spec md)) then
       [MkServicePort naming.PortNameMetrics naming.ShimMetricsPort ProtocolTCP naming.PortNameMetrics]
     else [])
    ++ [MkServicePort naming.PortNameEngine naming.EnginePort ProtocolTCP naming.PortNameEngine] in
  MkServiceApply (naming.MetricsService enc (md_Name md)) (md_Namespace md)
    (<[naming.LabelComponent := ComponentMetrics]> (naming.CommonLabels (md_Name md)))
    (ownerReference md) ServiceTypeClusterIP (Some ClusterIPNone) (Some true)
    (naming.ServiceSelector (md_Name md)) ports.

Definition buildChildren (md : ModelDeployment) (prof : Profile) (primary : variantPlan)
    (canary : option variantPlan) (opts : renderOptions) : desiredChildren + string :=
  match buildDeployment (withSpec md (vp_Spec primary)) prof (vp_Revision primary) VariantPrimary
          (vp_Replicas primary) opts with
  | inr e => inr ("rendering the primary variant: " +:+ e)
  | inl dep =>
      match canary with
      | None => inl (MkDesiredChildren dep (buildService md) (buildMetricsService md) None)
      | Some canary =>
          match buildDeployment (withSpec md (vp_Spec canary)) prof (vp_Revision canary) VariantCanary
                  (vp_Replicas canary) opts with
          | inr e => inr ("rendering the canary variant: " +:+ e)
          | inl canaryDep =>
              inl (MkDesiredChildren dep (buildService md) (buildMetricsService md) (Some canaryDep))
          end
      end
  end.

(** [metav1.LabelSelectorAsSelector] and its [String] are a parameter. *)
Definition serviceSelectorString (asSelector : gmap string string -> string + string)
    (md : ModelDeployment) : string + string :=
  match asSelector (naming.ServiceSelector (md_Name md)) with
  | inr e => inr ("serialising status selector: " +:+ e)
  | inl sel => inl sel
  end.

(** ** Lemmas *)

(** What the children of a successful rendering are made of. *)
Lemma buildChildren_inv md prof primary canary opts ch :
  buildChildren md prof primary canary opts = inl ch ->
  dc_Service ch = buildService md /\ dc_MetricsService ch = buildMetricsService md
  /\ buildDeployment (withSpec md (vp_Spec primary)) prof (vp_Revision primary) VariantPrimary
       (vp_Replicas primary) opts = inl (dc_Deployment ch)
  /\ match canary, dc_CanaryDeployment ch with
     | None, None => True
     | Some c, Some d =>
         buildDeployment (withSpec md (vp_Spec c)) prof (vp_Revision c) VariantCanary (vp_Replicas c) opts
         = inl d
     | _, _ => False
     end.
Proof.
  unfold buildChildren. destruct (buildDeployment _ _ _ VariantPrimary _ _) as [dep|] eqn:E; [|done].
  destruct canary as [c|]; [|by intros [= <-]].
  destruct (buildDeployment _ _ _ VariantCanary _ _) eqn:E2; [|done]. by intros [= <-].
Qed.

Lemma buildDeployment_inv md prof rev variant replicas opts d :
  buildDeployment md prof rev variant replicas opts = inl d ->
  exists ps, buildPodSpec md prof variant opts = inl ps
  /\ da_Replicas d = replicas /\ da_Selector d = naming.SelectorLabels (md_Name md) variant
  /\ da_Template d = MkPodTemplate (naming.PodLabels (md_Name md) variant rev) ps
  /\ da_Name d = naming.DeploymentFor enc (md_Name md) variant.
Proof. unfold buildDeployment. destruct (buildPodSpec _ _ _ _) as [ps|]; [|done]. intros [= <-]. by exists ps. Qed.

(** Encoding as an apply configuration keeps the object. *)
Context (Hconv : forall c, applyConfigFrom c = inl c).

(** The containers of a pod of the llama.cpp profile. *)
Definition delivery_of (md : ModelDeployment) : option (string * string * list Container) :=
  let src := model_Source (sp_Model (md_Spec md)) in
  match src_Image src, src_HuggingFace src with
  | Some image, _ => Some (runtimeModelPath image, "", [buildModelInitContainer image])
  | None, Some _ => Some ("", modelMountPath, [])
  | None, None => None
  end.

Definition engine_container (md : ModelDeployment) (variant : Variant) (modelPath cacheDir : string) :
    Container :=
  let bc := MkBuildContext (Some md) variant modelPath cacheDir (ThreadsFor (Some (md_Spec md)) 1)
              naming.EnginePort in
  let spec := md_Spec md in
  withProbes
    (MkContainer ContainerName
       (if eng_Image (sp_Engine spec) == "" then LlamaCPPDefaultImage else eng_Image (sp_Engine spec))
       (eng_ImagePullPolicy (sp_Engine spec)) None [] (llamaCPPArgs spec bc naming.EnginePort)
       [MkContainerPort naming.PortNameEngine naming.EnginePort ProtocolTCP]
       (llamaCPPEnv spec cacheDir) (llamaCPPVolumeMounts modelPath cacheDir)
       (eng_Resources (sp_Engine spec)) (Some hardenedSecurityContext) None None None "" "")
    LlamaCPPHealthPath md.

Definition sidecars_of (md : ModelDeployment) (variant : Variant) (opts : renderOptions) : list Container :=
  if ShimEnabled (sp_Serving (md_Spec md))
  then [buildShimContainer md variant LlamaCPPHealthPath (shimImage opts)] else [].

Lemma buildPodSpec_llama md variant opts ps :
  buildPodSpec md llamaCPP variant opts = inl ps ->
  exists modelPath cacheDir inits,
    delivery_of md = Some (modelPath, cacheDir, inits)
    /\ ps = MkPodSpec "" None "" "" (Some pod_security) (inits ++ sidecars_of md variant opts)
             [engine_container md variant modelPath cacheDir] [MkVolume ModelVolumeName true].
Proof.
  unfold buildPodSpec, buildModelDelivery, delivery_of, sidecars_of.
  destruct (src_Image _) as [image|]; [rewrite Hconv|destruct (src_HuggingFace _); [|done]];
    cbn [p_Build llamaCPP]; unfold Build; cbn [bc_MD bc_Port bc_ModelPath bc_CacheDir];
    (destruct (validateLlamaCPPReservedSettings _); [done|]); cbn [br_Container br_HealthPath];
    rewrite Hconv; destruct (ShimEnabled _); rewrite ?Hconv; intros [= <-]; repeat eexists.
Qed.

(** ** Properties *)

(** The named port of a container port in a pod. *)
Definition exposes (ps : PodSpec) (port : string) (c : Container) : Prop :=
  In c (ps_InitContainers ps ++ ps_Containers ps) /\ In port (map cp_Name (c_Ports c)).

(** The ports a pod of the profile names. *)
Lemma pod_ports md variant opts ps :
  buildPodSpec md llamaCPP variant opts = inl ps ->
  concat (map (fun c => map cp_Name (c_Ports c)) (ps_InitContainers ps ++ ps_Containers ps))
  = (if ShimEnabled (sp_Serving (md_Spec md)) then [naming.PortNameHTTP; naming.PortNameMetrics] else [])
    ++ [naming.PortNameEngine].
Proof.
  intros H. apply buildPodSpec_llama in H as (mp & cd & inits & Hd & ->).
  cbn [ps_InitContainers ps_Containers]. unfold sidecars_of, delivery_of in *.
  destruct (src_Image _); [|destruct (src_HuggingFace _); [|done]]; injection Hd as <- <- <-;
    destruct (ShimEnabled _); done.
Qed.

Lemma exposes_iff ps port :
  (exists c, exposes ps port c) <->
  In port (concat (map (fun c => map cp_Name (c_Ports c)) (ps_InitContainers ps ++ ps_Containers ps))).
Proof.
  unfold exposes. rewrite in_concat. split.
  - intros (c & Hc & Hp). exists (map cp_Name (c_Ports c)). split; [|done]. apply in_map_iff. by exists c.
  - intros (l & Hl & Hp). apply in_map_iff in Hl as (c & <- & Hc). by exists c.
Qed.

(** What the Services resolve to.  For the pods of a variant rendered from
    the spec [vs] while the resource's own spec is that of [md], the serving
    Service's target port exists in the pod exactly when the variant has the
    shim or the resource does not ask for it; every target of the metrics
    Service exists under the same condition; and port names are unique. *)
Theorem service_resolves_iff md vs variant opts ps :
  buildPodSpec (withSpec md vs) llamaCPP variant opts = inl ps ->
  let agrees := ShimEnabled (sp_Serving (md_Spec md)) = true -> ShimEnabled (sp_Serving vs) = true in
  (Forall (fun p => exists c, exposes ps (svp_TargetPort p) c) (sa_Ports (buildService md)) <-> agrees)
  /\ (Forall (fun p => exists c, exposes ps (svp_TargetPort p) c) (sa_Ports (buildMetricsService md))
      <-> agrees)
  /\ NoDup (concat (map (fun c => map cp_Name (c_Ports c)) (ps_InitContainers ps ++ ps_Containers ps))).
Proof.
  intros H agrees. apply pod_ports in H. cbn [md_Spec withSpec] in H. subst agrees.
  assert (HF : forall l, Forall (fun p => exists c, exposes ps (svp_TargetPort p) c) l
               <-> Forall (fun p => In (svp_TargetPort p)
                     ((if ShimEnabled (sp_Serving vs) then [naming.PortNameHTTP; naming.PortNameMetrics]
                       else []) ++ [naming.PortNameEngine])) l).
  { intros l. rewrite <- H. apply Forall_iff. intros p. apply exposes_iff. }
  rewrite !HF, H. unfold buildMetricsService, buildService, servingTargetPort. cbn [sa_Ports].
  destruct (ShimEnabled (sp_Serving (md_Spec md))), (ShimEnabled (sp_Serving vs));
    (split; [|split]); cbn; rewrite ?Forall_cons, ?Forall_nil; cbn; try naive_solver;
    apply (bool_decide_unpack _); vm_compute; done.
Qed.

(** A canary that turns the shim on takes the stable pods out of service.
    While the resource asks for the shim and the primary still runs a revision
    without it, no container of a primary pod has the port the serving Service
    targets. *)
Theorem shim_toggle_unroutes_primary md prof_opts primary canary ch :
  buildChildren md llamaCPP primary canary prof_opts = inl ch ->
  ShimEnabled (sp_Serving (md_Spec md)) = true ->
  ShimEnabled (sp_Serving (vp_Spec primary)) = false ->
  forall p c, In p (sa_Ports (dc_Service ch)) ->
    ~ exposes (pt_Spec (da_Template (dc_Deployment ch))) (svp_TargetPort p) c.
Proof.
  intros H Hmd Hvs p c Hp Hc. apply buildChildren_inv in H as (Hs & _ & Hd & _).
  apply buildDeployment_inv in Hd as (ps & Hps & _ & _ & Ht & _). rewrite Ht in Hc. cbn in Hc.
  apply pod_ports in Hps. cbn [md_Spec withSpec] in Hps. rewrite Hvs in Hps.
  rewrite Hs in Hp. unfold buildService, servingTargetPort in Hp. rewrite Hmd in Hp.
  destruct Hp as [<-|[]]. assert (Hx : exists c, exposes ps naming.PortNameHTTP c) by by exists c.
  apply exposes_iff in Hx. rewrite Hps in Hx. by destruct Hx as [|[]].
Qed.

(** The labels of a pod include its variant's selector and the Service's. *)
Lemma PodLabels_variant name variant rev :
  naming.PodLabels name variant rev !! naming.LabelVariant = Some (variant_string variant).
Proof. unfold naming.PodLabels. destruct (_ != _); reflexivity. Qed.

Lemma PodLabels_selector name variant rev :
  naming.SelectorLabels name variant ⊆ naming.PodLabels name variant rev.
Proof.
  unfold naming.PodLabels. destruct (_ != _); [|apply map_union_subseteq_l].
  etransitivity; [apply map_union_subseteq_l|]. by apply insert_subseteq.
Qed.

Lemma ServiceSelector_variant name variant : naming.ServiceSelector name ⊆ naming.SelectorLabels name variant.
Proof. unfold naming.ServiceSelector, naming.SelectorLabels. apply insert_mono. apply map_empty_subseteq. Qed.

Lemma selector_other name v1 v2 rev :
  variant_string v1 <> variant_string v2 ->
  ~ naming.SelectorLabels name v1 ⊆ naming.PodLabels name v2 rev.
Proof.
  intros Hv H. eapply (lookup_weaken _ _ naming.LabelVariant (variant_string v1)) in H; [|done].
  rewrite PodLabels_variant in H. congruence.
Qed.

(** C27: selectors and labels agree.  Every Deployment selects its own pods, the
    Services select the pods of every variant, and no Deployment selects the
    other variant's pods. *)
Theorem selectors_match md prof primary canary opts ch :
  buildChildren md prof primary canary opts = inl ch ->
  let tmpl d := pt_Labels (da_Template d) in
  let deps := dc_Deployment ch :: option_list (dc_CanaryDeployment ch) in
  Forall (fun d => da_Selector d ⊆ tmpl d /\ sa_Selector (dc_Service ch) ⊆ tmpl d
                   /\ sa_Selector (dc_MetricsService ch) ⊆ tmpl d) deps
  /\ forall d, dc_CanaryDeployment ch = Some d ->
       ~ da_Selector (dc_Deployment ch) ⊆ tmpl d /\ ~ da_Selector d ⊆ tmpl (dc_Deployment ch).
Proof.
  intros H tmpl deps. apply buildChildren_inv in H as (-> & -> & Hp & Hc).
  assert (Hd : forall n v r x d, buildDeployment n prof r v x opts = inl d -> md_Name n = md_Name md ->
    (da_Selector d ⊆ tmpl d /\ naming.ServiceSelector (md_Name md) ⊆ tmpl d
     /\ naming.ServiceSelector (md_Name md) ⊆ tmpl d)
    /\ da_Selector d = naming.SelectorLabels (md_Name md) v
    /\ tmpl d = naming.PodLabels (md_Name md) v r).
  { intros n v r x d Hd En. apply buildDeployment_inv in Hd as (ps & _ & _ & Es & Et & _).
    subst tmpl. cbn. rewrite Es, Et, En. cbn [pt_Labels]. pose proof (PodLabels_selector (md_Name md) v r).
    pose proof (ServiceSelector_variant (md_Name md) v). repeat split; try done; by etransitivity. }
  destruct (Hd _ _ _ _ _ Hp eq_refl) as (H1 & H2 & H3). subst deps.
  destruct canary as [c|], (dc_CanaryDeployment ch) as [d|]; try done; cbn [option_list].
  - destruct (Hd _ _ _ _ _ Hc eq_refl) as (H4 & H5 & H6). split; [apply Forall_cons_2; [exact H1|]; apply Forall_cons_2; [exact H4|done]|].
    intros d' [= <-]. rewrite H2, H3, H5, H6. split; by apply selector_other.
  - split; [apply Forall_cons_2; [exact H1|done]|done].
Qed.

(** The engine reads the file the init container copied.  With an image
    source whose path ends in a file name, the init container copies it into
    the model volume, the engine mounts that volume read-only, and the path the
    engine is given names, inside that mount, the file that was copied. *)
Theorem model_file_staged md variant opts ps image :
  buildPodSpec md llamaCPP variant opts = inl ps ->
  src_Image (model_Source (sp_Model (md_Spec md))) = Some image ->
  gopath.proper (gopath.Base (im_Path image)) ->
  exists c init file mount,
    ps_Containers ps = [c] /\ In init (ps_InitContainers ps)
    /\ c_Command init = ["cp"; im_Path image; vm_MountPath mount +:+ "/" +:+ file]
    /\ c_VolumeMounts init = [mount] /\ vm_Name mount = ModelVolumeName
    /\ c_VolumeMounts c = [MkVolumeMount ModelVolumeName modelMountPath true]
    /\ (exists pre post, c_Args c = pre ++ "-m" :: (modelMountPath +:+ "/" +:+ file) :: post)
    /\ file = gopath.Base (im_Path image).
Proof.
  intros H Hi Hb. apply buildPodSpec_llama in H as (mp & cd & inits & Hd & ->).
  unfold delivery_of in Hd. rewrite Hi in Hd. injection Hd as <- <- <-.
  assert (Hmount : gopath.canonical modelMountPath ["models"]).
  { split; [reflexivity|]. split; [done|]. by repeat constructor. }
  assert (Hstage : gopath.canonical modelStagingPath ["mnt"; "model"]).
  { split; [reflexivity|]. split; [done|]. by repeat constructor. }
  pose proof (gopath.Join_child _ _ _ Hmount Hb) as Hrun.
  eexists _, (buildModelInitContainer image), (gopath.Base (im_Path image)),
    (MkVolumeMount ModelVolumeName modelStagingPath false).
  split; [reflexivity|]. split; [by left|]. cbn [ps_Containers].
  split; [|split; [done|split; [done|split; [|split; [|done]]]]].
  - unfold buildModelInitContainer. cbn [c_Command vm_MountPath]. by rewrite (gopath.Join_child _ _ _ Hstage Hb).
  - unfold engine_container, runtimeModelPath. rewrite Hrun. cbn [c_VolumeMounts withProbes].
    unfold llamaCPPVolumeMounts. rewrite bool_decide_eq_false_2 by done. cbn [negb].
    by rewrite (gopath.Dir_child _ _ _ Hmount Hb).
  - unfold engine_container, runtimeModelPath. rewrite Hrun. cbn [c_Args withProbes].
    unfold llamaCPPArgs, owned_args, model_args. cbn [bc_ModelPath].
    rewrite bool_decide_eq_false_2 by done. cbn [negb app].
    by exists [llamaCPPHostFlag; "0.0.0.0"; llamaCPPPortFlag; format_int naming.EnginePort]; eexists.
Qed.

(** Every container of a pod runs unprivileged on a read-only root
    filesystem, and the engine's only writable mount is the download cache. *)
Theorem pods_hardened md variant opts ps :
  buildPodSpec md llamaCPP variant opts = inl ps ->
  Forall (fun c => exists sc, c_SecurityContext c = Some sc
            /\ sc_AllowPrivilegeEscalation sc = Some false
            /\ sc_ReadOnlyRootFilesystem sc = Some true
            /\ sc_RunAsNonRoot sc = Some true /\ sc_CapabilitiesDrop sc = ["ALL"])
    (ps_InitContainers ps ++ ps_Containers ps)
  /\ Forall (fun c => Forall (fun m => vm_ReadOnly m = true
                \/ (src_Image (model_Source (sp_Model (md_Spec md))) = None
                    /\ vm_MountPath m = modelMountPath)) (c_VolumeMounts c))
       (ps_Containers ps).
Proof.
  intros H. apply buildPodSpec_llama in H as (mp & cd & inits & Hd & ->).
  unfold delivery_of, sidecars_of in *. cbn [ps_InitContainers ps_Containers].
  destruct (src_Image _) as [image|]; [|destruct (src_HuggingFace _); [|done]]; injection Hd as <- <- <-;
    (split; [destruct (ShimEnabled _); cbn [app]; repeat constructor; by eexists|]);
    (apply Forall_cons_2; [|done]); cbn [c_VolumeMounts engine_container withProbes];
    unfold llamaCPPVolumeMounts.
  - destruct (_ != _); repeat constructor.
  - apply Forall_cons_2; [by right|done].
Qed.

(** A fair comparison.  From the same spec the pods of the two variants run
    the same engine container, volumes and security context; the only
    difference is the variant the sidecar labels its metrics with. *)
Theorem variants_same_engine md opts p c :
  buildPodSpec md llamaCPP VariantPrimary opts = inl p ->
  buildPodSpec md llamaCPP VariantCanary opts = inl c ->
  ps_Containers p = ps_Containers c /\ ps_Volumes p = ps_Volumes c
  /\ ps_SecurityContext p = ps_SecurityContext c
  /\ Forall2 (fun a b => a = b
        \/ (c_Name a = naming.ShimContainerName /\ c_Name b = naming.ShimContainerName
            /\ exists pre post, c_Args a = pre ++ "--variant=primary" :: post
               /\ c_Args b = pre ++ "--variant=canary" :: post))
       (ps_InitContainers p) (ps_InitContainers c).
Proof.
  intros Hp Hc. apply buildPodSpec_llama in Hp as (mp & cd & inits & Hd & ->).
  apply buildPodSpec_llama in Hc as (mp' & cd' & inits' & Hd' & ->).
  rewrite Hd in Hd'. injection Hd' as <- <- <-.
  cbn [ps_Containers ps_Volumes ps_SecurityContext ps_InitContainers].
  split; [reflexivity|]. split; [done|]. split; [done|]. apply Forall2_app.
  - apply Forall_Forall2_diag, List.Forall_forall. by left.
  - unfold sidecars_of. destruct (ShimEnabled _); [|done]. apply Forall2_cons. split; [|done]. right. split; [done|]. split; [done|].
    unfold buildShimContainer, shimArgs. cbn [c_Args variant_string].
    by eexists [_; _; _; _; _; _; _], _.
Qed.

End Rendering.

(** The startup probe honours the whole seconds of the budget.  The probe
    waits for at least that long and less than one period longer, whenever the
    sum fits an [int32]. *)
Theorem startup_budget_honoured md :
  let secs := match srv_StartupTimeout (sp_Serving (md_Spec md)) with
              | Some d => f64.to_int32 (gofmt.Duration_Seconds d) | None => 300 end in
  let budget := startupFailureThreshold md * probePeriodSeconds in
  0 < secs <= int32_max - 4 -> secs <= budget < secs + probePeriodSeconds.
Proof.
  intros secs budget Hs. subst secs budget. unfold startupFailureThreshold, probePeriodSeconds. cbv zeta.
  set (s := match srv_StartupTimeout _ with Some d => _ | None => 300 end) in Hs |- *.
  replace (match srv_StartupTimeout (sp_Serving (md_Spec md)) with Some d => _ | None => 300 end) with s.
  2:{ subst s. destruct (srv_StartupTimeout _); [|done]. by rewrite (proj2 (Z.ltb_lt _ _)) by lia. }
  rewrite wrap32_id, Z.quot_div_nonneg by go_lia.
  pose proof (Z.div_mod (s + 5 - 1) 5 ltac:(done)). pose proof (Z.mod_pos_bound (s + 5 - 1) 5 ltac:(done)).
  lia.
Qed.

End children.
