(* ===== verification/Revision.v ===== *)
(** * Revisions and their history (internal/revision)

    What a revision is (hash.go): a projection of the resolved spec, encoded as
    JSON and named by a hash of those bytes; and how revisions are kept
    (history.go): as ControllerRevision objects, recorded once, pruned oldest
    first.  JSON is the class [PayloadCodec]: what is assumed of it is that
    decoding inverts encoding, for the well-formed UTF-8 text the API server
    admits.  The API server is the class [HistoryAPI]: any call may fail or
    answer from a stale cache, and its logs list what the recorder created and
    deleted. *)

From S2P Require Import Prelude GoFmt GoStrings ApiTypes KubeTypes Naming.
From stdpp Require Import sorting.
Import v1alpha1.
Local Open Scope Z_scope.
Local Open Scope go_scope.

Module revision.
Import kube.

(** ** Payloads (hash.go) *)

Record revisionServing := MkRevisionServing { rvs_Port : Z; rvs_Shim : ShimSpec }.

Record revisionInput := MkRevisionInput {
  rvi_Model : ModelSpec; rvi_Engine : EngineSpec; rvi_Serving : revisionServing }.

Definition PayloadVersionV2 : string := "v2".

Record workloadServingV2 := MkWorkloadServingV2 {
  ws_StartupTimeout : option time.Duration; ws_Shim : ShimSpec }.

Record workloadV2 := MkWorkloadV2 {
  wl_Model : ModelSpec; wl_Engine : EngineSpec; wl_Serving : workloadServingV2 }.

Record versionedPayload := MkVersionedPayload { vpl_Version : string; vpl_Workload : workloadV2 }.

Record Snapshot := MkSnapshot { sn_Revision : string; sn_Raw : string }.

Record Decoded := MkDecoded { de_Spec : ModelDeploymentSpec; de_Version : string }.

Definition Legacy (d : Decoded) : bool := de_Version d == "".

(** [json.Marshal] and [json.Unmarshal] on the payload types; an error is its
    text.  The header is the [version] field alone. *)
Class PayloadCodec := {
  MarshalV2 : versionedPayload -> string + string;
  MarshalLegacy : revisionInput -> string + string;
  UnmarshalHeader : string -> string + string;
  UnmarshalV2 : string -> versionedPayload + string;
  UnmarshalLegacy : string -> revisionInput + string;
  marshal_v2_nonempty p raw : MarshalV2 p = inl raw -> raw <> "";
  marshal_legacy_nonempty p raw : MarshalLegacy p = inl raw -> raw <> "";
  header_v2 p raw : MarshalV2 p = inl raw -> UnmarshalHeader raw = inl (vpl_Version p);
  header_legacy p raw : MarshalLegacy p = inl raw -> UnmarshalHeader raw = inl "";
  v2_roundtrip p raw : MarshalV2 p = inl raw -> UnmarshalV2 raw = inl p;
  legacy_roundtrip p raw : MarshalLegacy p = inl raw -> UnmarshalLegacy raw = inl p }.

(** The zero values of the fields history does not store. *)
Definition no_shim : ShimSpec := MkShimSpec None "" no_resources "".
Definition no_rollout : RolloutSpec := MkRolloutSpec (RolloutOther "") None None None None None.
Definition no_observability : ObservabilitySpec := MkObservabilitySpec None None None.
Definition no_model : ModelSpec := MkModelSpec "" (MkModelSourceSpec None None None).
Definition no_engine : EngineSpec := MkEngineSpec "" "" "" None None None [] [] no_resources None.
Definition spec_of (m : ModelSpec) (e : EngineSpec) (s : ServingSpec) : ModelDeploymentSpec :=
  MkModelDeploymentSpec None m e s no_rollout no_observability None.
Definition spec_zero : ModelDeploymentSpec :=
  spec_of no_model no_engine (MkServingSpec 0 None no_shim).

Definition validateEffectiveSpec (spec : ModelDeploymentSpec) : option string :=
  let e := sp_Engine spec in
  let s := sp_Serving spec in
  if eng_Type e == "" then Some "revision: effective engine type is empty"
  else if eng_Image e == "" then Some "revision: effective engine image is empty"
  else if eng_ImagePullPolicy e == "" then Some "revision: effective engine image pull policy is empty"
  else if is_nil (eng_ContextSize e) then Some "revision: effective engine context size is unresolved"
  else if is_nil (eng_MaxConcurrency e) then Some "revision: effective engine concurrency is unresolved"
  else if is_nil (eng_Threads e) then Some "revision: effective engine thread count is unresolved"
  else if is_nil (srv_StartupTimeout s) then Some "revision: effective startup timeout is unresolved"
  else if is_nil (shim_Enabled (srv_Shim s)) then Some "revision: effective shim enablement is unresolved"
  else
    let image_ok :=
      match src_Image (model_Source (sp_Model spec)) with
      | Some image => negb ((im_Path image == "") || (im_PullPolicy image == ""))
      | None => true
      end in
    if negb image_ok then Some "revision: effective model image path or pull policy is unresolved"
    else
      let shim := srv_Shim s in
      if ShimEnabled s
         && ((shim_Image shim == "") || (shim_LogLevel shim == "")
             || (bool_decide (rr_Requests (shim_Resources shim) = ∅)
                 && bool_decide (rr_Limits (shim_Resources shim) = ∅)))
      then Some "revision: effective shim image, log level, or resources are unresolved"
      else None.

(** [revisionPayload] of a possibly nil spec. *)
Definition revisionPayload (spec : option ModelDeploymentSpec) : revisionInput :=
  let spec := from_ptr spec_zero spec in
  MkRevisionInput (sp_Model spec) (sp_Engine spec)
    (MkRevisionServing (srv_Port (sp_Serving spec)) (srv_Shim (sp_Serving spec))).

Section Hash.
Context {C : PayloadCodec} (enc : string -> string).

Definition hashBytes (data : string) : string := enc (format_int (Z.of_N (naming.Sum32 data))).

Definition NewSnapshot (spec : option ModelDeploymentSpec) : Snapshot + string :=
  match spec with
  | None => inr "revision: cannot snapshot a nil effective workload"
  | Some spec =>
      match validateEffectiveSpec spec with
      | Some err => inr err
      | None =>
          let payload :=
            MkVersionedPayload PayloadVersionV2
              (MkWorkloadV2 (sp_Model spec) (sp_Engine spec)
                 (MkWorkloadServingV2 (srv_StartupTimeout (sp_Serving spec)) (srv_Shim (sp_Serving spec)))) in
          match MarshalV2 payload with
          | inr err => inr ("revision: encoding " +:+ PayloadVersionV2 +:+ " payload: " +:+ err)
          | inl raw => inl (MkSnapshot (hashBytes raw) raw)
          end
      end
  end.

Definition Decode (raw : string) : Decoded + string :=
  if raw == "" then inr "revision: empty payload"
  else
    match UnmarshalHeader raw with
    | inr err => inr ("revision: decoding payload header: " +:+ err)
    | inl version =>
        if version == "" then
          match UnmarshalLegacy raw with
          | inr err => inr ("revision: decoding legacy payload: " +:+ err)
          | inl legacy =>
              inl (MkDecoded
                     (spec_of (rvi_Model legacy) (rvi_Engine legacy)
                        (MkServingSpec (rvs_Port (rvi_Serving legacy)) None (rvs_Shim (rvi_Serving legacy))))
                     "")
          end
        else if version != PayloadVersionV2 then
          inr ("revision: unsupported payload version " +:+ gofmt.Quote version)
        else
          match UnmarshalV2 raw with
          | inr err => inr ("revision: decoding " +:+ PayloadVersionV2 +:+ " payload: " +:+ err)
          | inl payload =>
              let w := vpl_Workload payload in
              inl (MkDecoded
                     (spec_of (wl_Model w) (wl_Engine w)
                        (MkServingSpec 0 (ws_StartupTimeout (wl_Serving w)) (ws_Shim (wl_Serving w))))
                     (vpl_Version payload))
          end
    end.

Definition Encode (spec : option ModelDeploymentSpec) : string + string :=
  MarshalLegacy (revisionPayload spec).

Definition Hash (spec : option ModelDeploymentSpec) : string :=
  match Encode spec with
  | inl data => hashBytes data
  | inr err => hashBytes ("llmcp: revision encode error: " +:+ err)
  end.
End Hash.

(** ** History (history.go) *)

(** [appsv1.ControllerRevision]. *)
Record ControllerRevision := MkControllerRevision {
  cr_Name : string; cr_Namespace : string; cr_Labels : gmap string string;
  cr_Data : string; cr_Revision : Z }.

Inductive ApiError := NotFound | AlreadyExists | OtherApiError (msg : string).

(** A Go error: a text, an API error, or a text wrapping an error. *)
Inductive goerror := Errorf (msg : string) | Api (e : ApiError) | Wrap (msg : string) (e : goerror).

(** [apierrors.IsNotFound], which looks through wrapping. *)
Fixpoint IsNotFound (e : goerror) : bool :=
  match e with
  | Api NotFound => true
  | Wrap _ e => IsNotFound e
  | _ => false
  end.

Class HistoryAPI (W : Type) := {
  GetCR : W -> string -> string -> W * (ControllerRevision + ApiError);
  (** The objects of a namespace with that value of [LabelModelDeployment]. *)
  ListCR : W -> string -> string -> W * (list ControllerRevision + ApiError);
  CreateCR : W -> ControllerRevision -> W * option ApiError;
  DeleteCR : W -> ControllerRevision -> W * option ApiError;
  created : W -> list ControllerRevision;
  deleted : W -> list ControllerRevision;
  get_quiet w ns n :
    created (fst (GetCR w ns n)) = created w /\ deleted (fst (GetCR w ns n)) = deleted w;
  list_quiet w ns n :
    created (fst (ListCR w ns n)) = created w /\ deleted (fst (ListCR w ns n)) = deleted w;
  create_ok w cr :
    snd (CreateCR w cr) = None -> created (fst (CreateCR w cr)) = created w ++ [cr];
  create_err w cr : snd (CreateCR w cr) <> None -> created (fst (CreateCR w cr)) = created w;
  create_keeps w cr : deleted (fst (CreateCR w cr)) = deleted w;
  delete_ok w cr :
    snd (DeleteCR w cr) = None -> deleted (fst (DeleteCR w cr)) = deleted w ++ [cr];
  delete_err w cr : snd (DeleteCR w cr) <> None -> deleted (fst (DeleteCR w cr)) = deleted w;
  delete_keeps w cr : created (fst (DeleteCR w cr)) = created w }.

(** The order of [List]: by sequence number, ties by name. *)
Definition cr_le (a b : ControllerRevision) : Prop :=
  cr_Revision a < cr_Revision b \/ (cr_Revision a = cr_Revision b /\ gostrings.str_le (cr_Name a) (cr_Name b)).

#[global] Instance cr_le_dec a b : Decision (cr_le a b).
Proof. unfold cr_le. apply _. Defined.

Section History.
Context {C : PayloadCodec} {W : Type} {A : HistoryAPI W} (enc : string -> string).
(** [controllerutil.SetControllerReference]: the error it returns, if any. *)
Context (SetControllerReference : ModelDeployment -> option string).

Definition at_md (md : ModelDeployment) : string := md_Namespace md +:+ "/" +:+ md_Name md.

Definition Get (w : W) (md : option ModelDeployment) (revision : string) :
    W * (ControllerRevision + goerror) :=
  match md with
  | None => (w, inr (Errorf "revision: cannot get a revision of a nil ModelDeployment"))
  | Some md =>
      let (w, r) := GetCR w (md_Namespace md) (naming.ControllerRevision enc (md_Name md) revision) in
      match r with
      | inl cr => (w, inl cr)
      | inr e => (w, inr (Api e))
      end
  end.

Definition List (w : W) (md : option ModelDeployment) : W * (list ControllerRevision + goerror) :=
  match md with
  | None => (w, inr (Errorf "revision: cannot list revisions of a nil ModelDeployment"))
  | Some md =>
      let (w, r) := ListCR w (md_Namespace md) (md_Name md) in
      match r with
      | inr e => (w, inr (Wrap ("revision: listing revisions of " +:+ at_md md +:+ ": ") (Api e)))
      | inl items => (w, inl (merge_sort cr_le items))
      end
  end.

Definition max_revision (revisions : list ControllerRevision) : Z :=
  fold_left (fun m cr => if m <? cr_Revision cr then cr_Revision cr else m) revisions 0.

Definition nextRevisionNumber (w : W) (md : ModelDeployment) : W * (Z + goerror) :=
  let (w, r) := List w (Some md) in
  match r with
  | inr e => (w, inr e)
  | inl revisions => (w, inl (wrap64 (max_revision revisions + 1)))
  end.

(** The bytes to record, checked against the identity they are recorded under. *)
Definition payload_bytes (md : ModelDeployment) (revision : string) (payload : list string) :
    string + goerror :=
  match payload with
  | [] =>
      match Encode (Some (md_Spec md)) with
      | inl data => inl data
      | inr err => inr (Errorf ("revision: encoding spec of " +:+ at_md md +:+ ": " +:+ err))
      end
  | [data] =>
      if data == "" then inr (Errorf ("revision: cannot record an empty payload for " +:+ at_md md))
      else if hashBytes enc data != revision then
        inr (Errorf ("revision: payload identity " +:+ hashBytes enc data
                     +:+ " does not match requested revision " +:+ revision +:+ " for " +:+ at_md md))
      else inl data
  | _ => inr (Errorf ("revision: expected at most one payload for " +:+ at_md md))
  end.

(** The object [Record] creates. *)
Definition new_revision (md : ModelDeployment) (revision data : string) (next : Z) : ControllerRevision :=
  MkControllerRevision (naming.ControllerRevision enc (md_Name md) revision) (md_Namespace md)
    (<[naming.LabelRevision := revision]> (naming.CommonLabels (md_Name md))) data next.

(** Creating it, and adopting the object that won a race. *)
Definition create_or_adopt (w : W) (md : ModelDeployment) (revision data : string)
    (cr : ControllerRevision) : W * ((ControllerRevision * bool) + goerror) :=
  let (w, err) := CreateCR w cr in
  match err with
  | None => (w, inl (cr, true))
  | Some AlreadyExists =>
      let (w, adopted) := Get w (Some md) revision in
      match adopted with
      | inr e => (w, inr e)
      | inl cr' =>
          if cr_Data cr' != data then
            (w, inr (Errorf ("revision: raced " +:+ cr_Namespace cr' +:+ "/" +:+ cr_Name cr'
                             +:+ " has different payload bytes for identity " +:+ revision)))
          else (w, inl (cr', false))
      end
  | Some e => (w, inr (Wrap ("revision: creating " +:+ cr_Namespace cr +:+ "/" +:+ cr_Name cr +:+ ": ") (Api e)))
  end.

Definition Record_ (w : W) (md : option ModelDeployment) (revision : string) (payload : list string) :
    W * ((ControllerRevision * bool) + goerror) :=
  match md with
  | None => (w, inr (Errorf "revision: cannot record a nil ModelDeployment"))
  | Some md =>
      if revision == "" then (w, inr (Errorf ("revision: cannot record an empty revision for " +:+ at_md md)))
      else
        match payload_bytes md revision payload with
        | inr e => (w, inr e)
        | inl data =>
            let (w, existing) := Get w (Some md) revision in
            match existing with
            | inl cr =>
                if cr_Data cr != data then
                  (w, inr (Errorf ("revision: existing " +:+ cr_Namespace cr +:+ "/" +:+ cr_Name cr
                                   +:+ " has different payload bytes for identity " +:+ revision)))
                else (w, inl (cr, false))
            | inr e =>
                if negb (IsNotFound e) then (w, inr e)
                else
                  let (w, next) := nextRevisionNumber w md in
                  match next with
                  | inr e => (w, inr e)
                  | inl next =>
                      let cr := new_revision md revision data next in
                      match SetControllerReference md with
                      | Some e =>
                          (w, inr (Errorf ("revision: setting owner reference on " +:+ cr_Name cr +:+ ": " +:+ e)))
                      | None => create_or_adopt w md revision data cr
                      end
                  end
            end
        end
  end.

Definition SpecFrom (cr : option ControllerRevision) : ModelDeploymentSpec + string :=
  match cr with
  | None => inr "revision: cannot decode a nil ControllerRevision"
  | Some cr =>
      let at_cr := cr_Namespace cr +:+ "/" +:+ cr_Name cr in
      if cr_Data cr == "" then inr ("revision: ControllerRevision " +:+ at_cr +:+ " has an empty payload")
      else
        match Decode (cr_Data cr) with
        | inr err => inr ("revision: decoding ControllerRevision " +:+ at_cr +:+ ": " +:+ err)
        | inl decoded => inl (de_Spec decoded)
        end
  end.

(** Whether [Prune] must keep an object. *)
Definition pinned (md : ModelDeployment) (keep : list string) (cr : ControllerRevision) : bool :=
  let keys := concat (map (fun k => if k == "" then [] else [k; naming.ControllerRevision enc (md_Name md) k]) keep) in
  bool_decide (cr_Name cr ∈ keys) || bool_decide (from_ptr "" (cr_Labels cr !! naming.LabelRevision) ∈ keys).

(** The deleting loop of [Prune], oldest first. *)
Fixpoint prune_loop (w : W) (md : ModelDeployment) (keep : list string) (excess : Z)
    (revisions : list ControllerRevision) : W * option goerror :=
  match revisions with
  | [] => (w, None)
  | cr :: rest =>
      if excess <=? 0 then (w, None)
      else if pinned md keep cr then prune_loop w md keep excess rest
      else
        let (w, err) := DeleteCR w cr in
        match err with
        | None | Some NotFound => prune_loop w md keep (excess - 1) rest
        | Some e => (w, Some (Wrap ("revision: deleting " +:+ cr_Namespace cr +:+ "/" +:+ cr_Name cr +:+ ": ") (Api e)))
        end
  end.

Definition Prune (w : W) (md : option ModelDeployment) (limit : Z) (keep : list string) :
    W * option goerror :=
  match md with
  | None => (w, Some (Errorf "revision: cannot prune revisions of a nil ModelDeployment"))
  | Some md =>
      if limit <? 0 then (w, None)
      else
        let (w, r) := List w (Some md) in
        match r with
        | inr e => (w, Some e)
        | inl revisions =>
            let excess := Z.of_nat (length revisions) - limit in
            if excess <=? 0 then (w, None) else prune_loop w md keep excess revisions
        end
  end.

(** ** Lemmas *)

Lemma Get_quiet w md rev :
  created (fst (Get w md rev)) = created w /\ deleted (fst (Get w md rev)) = deleted w.
Proof.
  unfold Get. destruct md as [md|]; [|done].
  pose proof (get_quiet w (md_Namespace md) (naming.ControllerRevision enc (md_Name md) rev)) as H.
  destruct (GetCR _ _ _) as [w' [cr|e]]; done.
Qed.

Lemma List_quiet w md :
  created (fst (List w md)) = created w /\ deleted (fst (List w md)) = deleted w.
Proof.
  unfold List. destruct md as [md|]; [|done].
  pose proof (list_quiet w (md_Namespace md) (md_Name md)) as H.
  destruct (ListCR _ _ _) as [w' [cr|e]]; done.
Qed.

Lemma next_quiet w md :
  created (fst (nextRevisionNumber w md)) = created w
  /\ deleted (fst (nextRevisionNumber w md)) = deleted w.
Proof.
  unfold nextRevisionNumber. pose proof (List_quiet w (Some md)).
  destruct (List w (Some md)) as [w' [l|e]]; done.
Qed.

Lemma max_revision_ge l m :
  m <= fold_left (fun m cr => if m <? cr_Revision cr then cr_Revision cr else m) l m
  /\ Forall (fun cr => cr_Revision cr <= fold_left (fun m cr => if m <? cr_Revision cr then cr_Revision cr else m) l m) l.
Proof.
  revert m. induction l as [|cr l IH]; intros m; cbn; [by split|].
  destruct (IH (if m <? cr_Revision cr then cr_Revision cr else m)) as [H1 H2].
  destruct (Z.ltb_spec m (cr_Revision cr)); (split; [lia|]); constructor; try done; lia.
Qed.

(** What recording a revision does to the history. *)
Definition recorded (w w' : W) (data : string) (r : (ControllerRevision * bool) + goerror) : Prop :=
  deleted w' = deleted w
  /\ match r with
     | inl (cr, isNew) => cr_Data cr = data /\ created w' = created w ++ (if isNew then [cr] else [])
     | inr _ => created w' = created w
     end.

Lemma create_or_adopt_recorded w md rev data cr w' r :
  cr_Data cr = data -> create_or_adopt w md rev data cr = (w', r) -> recorded w w' data r.
Proof.
  intros Hd. unfold create_or_adopt. pose proof (create_ok w cr) as H1. pose proof (create_err w cr) as H2.
  pose proof (create_keeps w cr) as H3. destruct (CreateCR w cr) as [w1 [[]|]]; cbn [fst snd] in *.
  2:{ pose proof (Get_quiet w1 (Some md) rev) as [H4 H5].
      destruct (Get w1 (Some md) rev) as [w2 [cr'|e]]; cbn [fst] in *.
      - case_bool_decide as Hdata; intros [= <- <-]; split; cbn; try congruence;
          rewrite ?app_nil_r; rewrite H4, H2 by done; done.
      - intros [= <- <-]. split; [congruence|]. rewrite H4. by apply H2. }
  all: intros [= <- <-]; split; cbn; try done; by auto.
Qed.

Lemma payload_bytes_identity md rev raw data :
  payload_bytes md rev [raw] = inl data -> data = raw /\ hashBytes enc raw = rev.
Proof.
  unfold payload_bytes. repeat case_bool_decide; try done. by intros [= <-].
Qed.

Lemma Record_recorded w md rev raw w' r :
  Record_ w (Some md) rev [raw] = (w', r) ->
  recorded w w' raw r /\ (forall cr isNew, r = inl (cr, isNew) -> hashBytes enc raw = rev).
Proof.
  unfold Record_. case_bool_decide; [by intros [= <- <-]|].
  destruct (payload_bytes md rev [raw]) as [data|e] eqn:Hp; [|by intros [= <- <-]].
  apply payload_bytes_identity in Hp as [-> Hh]. pose proof (Get_quiet w (Some md) rev) as [G1 G2].
  destruct (Get w (Some md) rev) as [w1 [cr|e]]; cbn in G1, G2.
  { case_bool_decide as Hd; intros [= <- <-]; (split; [|done]); split; cbn; try done.
    by rewrite app_nil_r. }
  destruct (negb (IsNotFound e)); [by intros [= <- <-]|].
  pose proof (next_quiet w1 md) as [N1 N2].
  destruct (nextRevisionNumber w1 md) as [w2 [next|e2]]; cbn in N1, N2;
    [|intros [= <- <-]; split; [split; cbn; congruence|done]].
  destruct (SetControllerReference md); [intros [= <- <-]; split; [split; cbn; congruence|done]|].
  intros Hc. split; [|done]. apply create_or_adopt_recorded in Hc; [|done].
  unfold recorded in *. by rewrite <- G1, <- G2, <- N1, <- N2.
Qed.

(** Recording never deletes, whatever the payload. *)
Lemma Record_keeps w md rev payload w' r :
  Record_ w (Some md) rev payload = (w', r) -> deleted w' = deleted w.
Proof.
  unfold Record_. case_bool_decide; [by intros [= <- <-]|].
  destruct (payload_bytes md rev payload) as [data|e]; [|by intros [= <- <-]].
  pose proof (Get_quiet w (Some md) rev) as [_ G]. destruct (Get w (Some md) rev) as [w1 [cr|e]]; cbn in G.
  { by destruct (cr_Data cr != data); intros [= <- <-]. }
  destruct (negb (IsNotFound e)); [by intros [= <- <-]|].
  pose proof (next_quiet w1 md) as [_ N]. destruct (nextRevisionNumber w1 md) as [w2 [next|e2]]; cbn in N;
    [|intros [= <- <-]; congruence].
  destruct (SetControllerReference md); [intros [= <- <-]; congruence|].
  intros Hc. apply create_or_adopt_recorded in Hc as [Hc _]; [|done]. congruence.
Qed.

(** The victims of the pruning loop. *)
Lemma prune_loop_victims w md keep excess l :
  0 <= excess ->
  exists victims,
    deleted (fst (prune_loop w md keep excess l)) = deleted w ++ victims
    /\ created (fst (prune_loop w md keep excess l)) = created w
    /\ victims `sublist_of` take (Z.to_nat excess) (List.filter (fun cr => negb (pinned md keep cr)) l).
Proof.
  revert w excess. induction l as [|cr l IH]; intros w excess He; cbn.
  { exists []. rewrite app_nil_r, take_nil. done. }
  destruct (Z.leb_spec excess 0).
  { exists []. replace (Z.to_nat excess) with 0%nat by lia. rewrite app_nil_r. done. }
  destruct (pinned md keep cr); cbn; [by apply IH|].
  replace (Z.to_nat excess) with (S (Z.to_nat (excess - 1))) by lia. cbn [take].
  pose proof (delete_ok w cr) as D1. pose proof (delete_err w cr) as D2. pose proof (delete_keeps w cr) as D3.
  destruct (DeleteCR w cr) as [w1 [[]|]]; cbn in D1, D2, D3.
  - destruct (IH w1 (excess - 1) ltac:(lia)) as (v & -> & -> & Hv).
    exists v. rewrite D2 by done. split; [done|]. split; [done|]. by constructor.
  - exists []. rewrite app_nil_r. cbn. rewrite D2 by done. repeat split; try done. apply sublist_nil_l.
  - exists []. rewrite app_nil_r. cbn. rewrite D2 by done. repeat split; try done. apply sublist_nil_l.
  - destruct (IH w1 (excess - 1) ltac:(lia)) as (v & -> & -> & Hv).
    exists (cr :: v). rewrite D1 by done. rewrite <- app_assoc. split; [done|]. split; [done|]. by constructor.
Qed.

Lemma prune_loop_all w md keep excess l :
  (forall w cr, snd (DeleteCR w cr) = None) -> 0 <= excess ->
  snd (prune_loop w md keep excess l) = None
  /\ deleted (fst (prune_loop w md keep excess l))
     = deleted w ++ take (Z.to_nat excess) (List.filter (fun cr => negb (pinned md keep cr)) l).
Proof.
  intros Hdel. revert w excess. induction l as [|cr l IH]; intros w excess He; cbn.
  { by rewrite take_nil, app_nil_r. }
  destruct (Z.leb_spec excess 0).
  { replace (Z.to_nat excess) with 0%nat by lia. by rewrite app_nil_r. }
  destruct (pinned md keep cr); cbn; [by apply IH|].
  replace (Z.to_nat excess) with (S (Z.to_nat (excess - 1))) by lia. cbn [take].
  pose proof (delete_ok w cr) as D1. specialize (Hdel w cr) as Hd.
  destruct (DeleteCR w cr) as [w1 err]; cbn in *. subst err.
  destruct (IH w1 (excess - 1) ltac:(lia)) as [-> ->]. rewrite D1 by done. by rewrite <- app_assoc.
Qed.

(** ** Properties *)

(** C16: history is content-addressed and append-only.  Recording a payload
    succeeds only under the hash of those very bytes and returns an object that
    holds them; it adds exactly that object when it reports a creation, nothing
    otherwise, and never deletes. *)
Theorem Record_append_only w md rev raw w' r :
  Record_ w (Some md) rev [raw] = (w', r) ->
  deleted w' = deleted w
  /\ match r with
     | inl (cr, isNew) =>
         hashBytes enc raw = rev /\ cr_Data cr = raw
         /\ created w' = created w ++ (if isNew then [cr] else [])
     | inr _ => created w' = created w
     end.
Proof.
  intros H. apply Record_recorded in H as [[H1 H2] H3]. split; [done|].
  destruct r as [[cr isNew]|e]; [|done]. destruct H2 as [H2 H4]. split; [by eapply H3|]. done.
Qed.

(** C17: pruning keeps what a rollback needs.  Whatever the API server answers,
    [Prune] creates nothing and deletes only unpinned objects, in the order of
    age and at most as many as exceed the limit; when the deletions succeed it
    deletes exactly the oldest unpinned ones. *)
Theorem Prune_keeps_pinned w md limit keep items w1 :
  0 <= limit -> ListCR w (md_Namespace md) (md_Name md) = (w1, inl items) ->
  let sorted := merge_sort cr_le items in
  let excess := Z.to_nat (Z.of_nat (length items) - limit) in
  let w' := fst (Prune w (Some md) limit keep) in
  let unpinned := List.filter (fun cr => negb (pinned md keep cr)) sorted in
  created w' = created w
  /\ (exists victims, deleted w' = deleted w ++ victims /\ victims `sublist_of` take excess unpinned)
  /\ ((forall w cr, snd (DeleteCR w cr) = None) -> deleted w' = deleted w ++ take excess unpinned).
Proof.
  intros Hl HL sorted excess w' unpinned. subst w'. unfold Prune, List.
  rewrite (proj2 (Z.ltb_ge _ _) Hl), HL.
  pose proof (list_quiet w (md_Namespace md) (md_Name md)) as [Q1 Q2]. rewrite HL in Q1, Q2. cbn in Q1, Q2.
  assert (Hlen : length (merge_sort cr_le items) = length items).
  { by rewrite (merge_sort_Permutation cr_le items). }
  rewrite Hlen. fold sorted. destruct (Z.leb_spec (Z.of_nat (length items) - limit) 0) as [Hx|Hx].
  - cbn. subst excess. replace (Z.to_nat _) with 0%nat by lia. cbn [take]. rewrite app_nil_r.
    split; [done|]. split; [|done]. exists []. by rewrite app_nil_r.
  - destruct (prune_loop_victims w1 md keep (Z.of_nat (length items) - limit) sorted ltac:(lia))
      as (v & Hv & Hc & Hs).
    split; [congruence|]. split; [exists v; by rewrite Hv, Q2|].
    intros Hdel. destruct (prune_loop_all w1 md keep (Z.of_nat (length items) - limit) sorted Hdel ltac:(lia))
      as [_ ->]. by rewrite Q2.
Qed.

(** Pruning never deletes a pinned object, whatever the API server answers. *)
Lemma Prune_unpinned w md limit keep :
  exists victims, deleted (fst (Prune w (Some md) limit keep)) = deleted w ++ victims
  /\ created (fst (Prune w (Some md) limit keep)) = created w
  /\ Forall (fun cr => pinned md keep cr = false) victims.
Proof.
  unfold Prune. destruct (limit <? 0); [exists []; by rewrite app_nil_r|].
  pose proof (List_quiet w (Some md)) as [Q1 Q2].
  destruct (List w (Some md)) as [w1 [l|e]]; cbn in Q1, Q2 |- *; [|exists []; by rewrite app_nil_r].
  destruct (Z.leb_spec (Z.of_nat (length l) - limit) 0); [exists []; by rewrite app_nil_r|].
  destruct (prune_loop_victims w1 md keep (Z.of_nat (length l) - limit) l ltac:(lia)) as (v & Hv & Hc & Hs).
  exists v. rewrite Hv, Hc, Q1, Q2. split; [done|]. split; [done|].
  apply List.Forall_forall. intros cr Hin.
  assert (Hf : In cr (List.filter (fun cr => negb (pinned md keep cr)) l)).
  { apply list_elem_of_In. eapply elem_of_submseteq; [by apply list_elem_of_In|].
    etransitivity; [by apply sublist_submseteq|]. apply submseteq_take. }
  apply filter_In in Hf as [_ Hf]. by apply negb_true_iff in Hf.
Qed.

(** A recorded object is pinned by its hash. *)
Lemma pinned_by_hash md keep rev data n :
  rev <> "" -> rev ∈ keep -> pinned md keep (new_revision md rev data n) = true.
Proof.
  intros Hr Hk. unfold pinned, new_revision. cbn [cr_Name cr_Labels]. apply orb_true_iff. left.
  apply bool_decide_eq_true. apply list_elem_of_In, in_concat.
  exists [rev; naming.ControllerRevision enc (md_Name md) rev]. split; [|cbn; auto].
  apply in_map_iff. exists rev. rewrite bool_decide_eq_false_2 by done. split; [done|].
  by apply list_elem_of_In.
Qed.

(** Sequence numbers grow.  A newly recorded revision is numbered above
    every revision the list returned, short of the end of [int64]. *)
Theorem next_number_above w md items w1 w2 n :
  ListCR w (md_Namespace md) (md_Name md) = (w1, inl items) ->
  nextRevisionNumber w md = (w2, inl n) ->
  Forall (fun cr => cr_Revision cr < int64_max) items ->
  1 <= n /\ Forall (fun cr => cr_Revision cr < n) items.
Proof.
  intros HL. unfold nextRevisionNumber, List. rewrite HL. intros [= <- <-] Hb.
  pose proof (merge_sort_Permutation cr_le items) as HP.
  destruct (max_revision_ge (merge_sort cr_le items) 0) as [H0 Hm].
  assert (Hlt : max_revision (merge_sort cr_le items) < int64_max).
  { unfold max_revision. clear Hm HL. rewrite <- HP in Hb. revert Hb. generalize (merge_sort cr_le items).
    intros l. assert (Hz : 0 < int64_max) by done. revert Hz. generalize 0. clear.
    induction l as [|cr l IH]; intros m Hm Hb; cbn; [done|]. inversion Hb; subst.
    destruct (m <? cr_Revision cr); by apply IH. }
  fold (max_revision (merge_sort cr_le items)) in H0, Hm.
  rewrite wrap64_id by go_lia. split; [lia|]. rewrite HP in Hm.
  eapply Forall_impl; [exact Hm|]. cbn. lia.
Qed.
End History.

(** The payload of a snapshot decodes to the workload it was taken of. *)
Lemma snapshot_decodes {C : PayloadCodec} enc spec s :
  NewSnapshot enc (Some spec) = inl s ->
  exists d, Decode (sn_Raw s) = inl d /\ Legacy d = false
  /\ de_Spec d = spec_of (sp_Model spec) (sp_Engine spec)
       (MkServingSpec 0 (srv_StartupTimeout (sp_Serving spec)) (srv_Shim (sp_Serving spec))).
Proof.
  unfold NewSnapshot. destruct (validateEffectiveSpec spec); [done|].
  destruct (MarshalV2 _) as [raw|] eqn:E; [|done]. intros [= <-]. cbn [sn_Raw].
  unfold Decode. rewrite bool_decide_eq_false_2 by (by eapply marshal_v2_nonempty).
  rewrite (header_v2 _ _ E). cbn [vpl_Version]. rewrite bool_decide_eq_false_2 by done.
  rewrite bool_decide_eq_true_2 by done. cbn [negb]. rewrite (v2_roundtrip _ _ E). by eexists.
Qed.

(** A snapshot decodes to the workload it was taken of.  The payload of a
    snapshot is named by its hash and decodes, as a versioned one, to the same
    model, engine, startup timeout and shim, with every other field zero. *)
Theorem snapshot_roundtrip {C : PayloadCodec} enc spec s :
  NewSnapshot enc (Some spec) = inl s ->
  sn_Revision s = hashBytes enc (sn_Raw s)
  /\ exists d, Decode (sn_Raw s) = inl d /\ Legacy d = false
     /\ de_Spec d = spec_of (sp_Model spec) (sp_Engine spec)
          (MkServingSpec 0 (srv_StartupTimeout (sp_Serving spec)) (srv_Shim (sp_Serving spec))).
Proof.
  intros H. split; [|by apply snapshot_decodes in H].
  unfold NewSnapshot in H. destruct (validateEffectiveSpec spec); [done|].
  destruct (MarshalV2 _); [|done]. by injection H as <-.
Qed.

(** A legacy record decodes to what the old controller encoded, and is
    recognised as legacy. *)
Theorem legacy_roundtrips {C : PayloadCodec} spec raw :
  Encode (Some spec) = inl raw ->
  exists d, Decode raw = inl d /\ Legacy d = true
  /\ Encode (Some (de_Spec d)) = inl raw
  /\ de_Spec d = spec_of (sp_Model spec) (sp_Engine spec)
       (MkServingSpec (srv_Port (sp_Serving spec)) None (srv_Shim (sp_Serving spec))).
Proof.
  unfold Encode. intros E. unfold Decode.
  rewrite bool_decide_eq_false_2 by (by eapply marshal_legacy_nonempty).
  rewrite (header_legacy _ _ E), bool_decide_eq_true_2 by done.
  rewrite (legacy_roundtrip _ _ E). eexists. split; [done|]. split; [done|]. by split.
Qed.

End revision.
