(* ===== verification/ControllerMigration.v ===== *)
(** * Revision snapshots, migration and rendering of a plan

    internal/controller/revision_snapshot.go, and [renderRollout],
    [specForRevision], [recordRevision] and [deploymentFor] of
    modeldeployment_controller.go.  A pass freezes every default into the
    snapshot it records, renders each variant from its own recorded workload,
    and during an upgrade adopts the identity of a legacy record only on
    evidence.  [apiequality.Semantic.DeepDerivative] and the conversion of an
    apply configuration to a typed object are parameters. *)

From S2P Require Import Prelude GoFloat GoFmt GoStrings ApiTypes KubeTypes Naming Engine CanaryWeights CanaryVerdict CanaryState Analysis ControllerRollout ControllerChildren Revision.
Import v1alpha1.
Local Open Scope Z_scope.
Local Open Scope go_scope.

Module migration.
Import kube engine rollouts children revision.

Definition defaultModelImagePath : string := "/weights/model.gguf".
Definition defaultShimLogLevel : string := "info".
Definition defaultStartupTimeout : time.Duration := 300 * time.Second.
Definition defaultContextSize : Z := 4096.
Definition defaultMaxConcurrency : Z := 4.
Definition revisionHistoryLimit : Z := 10.

(** A Deployment with the pod its template describes. *)
Record LiveDeployment := MkLiveDeployment { ld_Deployment : Deployment; ld_Pod : PodSpec }.

Definition ld_Revision (d : LiveDeployment) : string :=
  lookup_or_empty (d_TemplateLabels (ld_Deployment d)) naming.LabelRevision.

Definition ld_Template (d : LiveDeployment) : PodTemplate :=
  MkPodTemplate (d_TemplateLabels (ld_Deployment d)) (ld_Pod d).

Definition or_string (s d : string) : string := if s == "" then d else s.

Definition or_ptr {A} (p : option A) (d : A) : option A :=
  match p with Some x => Some x | None => Some d end.

(** ** Freezing the defaults *)

Definition resolved_model (m : ModelSpec) : ModelSpec :=
  let src := model_Source m in
  MkModelSpec (model_Name m)
    (MkModelSourceSpec
       (match src_Image src with
        | Some image =>
            Some (MkImageModelSource (im_Image image) (or_string (im_Path image) defaultModelImagePath)
                    (or_string (im_PullPolicy image) PullIfNotPresent))
        | None => None
        end)
       (src_HuggingFace src) (src_PersistentVolumeClaim src)).

(** [engine.ThreadsFor(&resolved, 1)] reads only the engine. *)
Definition resolved_engine (spec : ModelDeploymentSpec) (prof : Profile) : EngineSpec :=
  let e := sp_Engine spec in
  MkEngineSpec (or_string (eng_Type e) (p_Type prof)) (or_string (eng_Image e) (p_DefaultImage prof))
    (or_string (eng_ImagePullPolicy e) PullIfNotPresent)
    (or_ptr (eng_ContextSize e) defaultContextSize)
    (or_ptr (eng_MaxConcurrency e) defaultMaxConcurrency)
    (or_ptr (eng_Threads e) (ThreadsFor (Some spec) 1))
    (eng_ExtraArgs e) (eng_Env e) (eng_Resources e) (eng_APIKeySecretRef e).

Section Migration.
Context (MustParse : string -> Quantity) (enc : string -> string).

Definition resolved_shim (s : ServingSpec) (opts : renderOptions) : ShimSpec :=
  let shim := srv_Shim s in
  if negb (ShimEnabled s) then MkShimSpec (Some false) "" no_resources ""
  else
    MkShimSpec (Some true) (or_string (shim_Image shim) (shimImage opts)) (shimResources MustParse shim)
      (or_string (shim_LogLevel shim) defaultShimLogLevel).

Definition resolvedRevisionSpec (md : ModelDeployment) (prof : Profile) (opts : renderOptions) :
    ModelDeploymentSpec :=
  let spec := md_Spec md in
  let s := sp_Serving spec in
  MkModelDeploymentSpec (sp_Replicas spec) (resolved_model (sp_Model spec)) (resolved_engine spec prof)
    (MkServingSpec (srv_Port s) (or_ptr (srv_StartupTimeout s) defaultStartupTimeout) (resolved_shim s opts))
    (sp_Rollout spec) (sp_Observability spec) (sp_Autoscaling spec).

Definition mergeWorkloadSpec (live workload : ModelDeploymentSpec) (legacy : bool) : ModelDeploymentSpec :=
  MkModelDeploymentSpec (sp_Replicas live) (sp_Model workload) (sp_Engine workload)
    (MkServingSpec (if legacy then srv_Port (sp_Serving workload) else srv_Port (sp_Serving live))
       (srv_StartupTimeout (sp_Serving workload)) (srv_Shim (sp_Serving workload)))
    (sp_Rollout live) (sp_Observability live) (sp_Autoscaling live).

(** ** The evidence of a legacy rollout *)

Record legacyMigrationReference := MkLegacyReference {
  lr_revision : string; lr_deployment : option LiveDeployment; lr_variant : Variant; lr_noRender : bool }.

Inductive workloadMigrationMatch := workloadDifferent | workloadExact | workloadLegacyTelemetry.

Definition legacyRolloutActive (md : ModelDeployment) : bool :=
  match mds_Phase (md_Status md) with
  | PhaseCanarying | PhasePaused | PhasePromoting => true
  | _ => false
  end.

Fixpoint containerNamed (containers : list Container) (name : string) : option Container :=
  match containers with
  | [] => None
  | c :: cs => if c_Name c == name then Some c else containerNamed cs name
  end.

Definition startupTimeoutMatchesDeployment (md : ModelDeployment) (resolved : ModelDeploymentSpec)
    (primary : option LiveDeployment) : bool :=
  match primary with
  | None => false
  | Some primary =>
      let stable := firstNonEmpty [mds_LastGoodRevision (md_Status md); mds_StableRevision (md_Status md)] in
      if (stable == "") || (ld_Revision primary != stable) then false
      else
        match containerNamed (ps_Containers (ld_Pod primary)) ContainerName with
        | None => false
        | Some c =>
            match c_StartupProbe c with
            | None => false
            | Some probe =>
                (pb_PeriodSeconds probe =? probePeriodSeconds)
                && (pb_FailureThreshold probe =? startupFailureThreshold (withSpec md resolved))
            end
        end
  end.

(** The reference the canary block of the status names, by phase. *)
Definition canary_reference (md : ModelDeployment) (primary canary : option LiveDeployment) :
    option legacyMigrationReference :=
  match mds_Canary (md_Status md) with
  | None => None
  | Some cs =>
      if cs_Revision cs == "" then None
      else
        match mds_Phase (md_Status md) with
        | PhaseCanarying | PhasePaused =>
            Some (MkLegacyReference (cs_Revision cs) canary VariantCanary false)
        | PhasePromoting => Some (MkLegacyReference (cs_Revision cs) primary VariantPrimary false)
        | PhaseRollingBack => Some (MkLegacyReference (cs_Revision cs) None VariantCanary true)
        | _ => None
        end
  end.

Definition legacyReferenceFrom (md : option ModelDeployment) (primary canary : option LiveDeployment) :
    option legacyMigrationReference :=
  match md with
  | None => None
  | Some md =>
      match canary_reference md primary canary with
      | Some ref => Some ref
      | None =>
          let failed := match mds_Canary (md_Status md) with Some cs => cs_FailedRevision cs | None => "" end in
          if failed != "" then Some (MkLegacyReference failed None VariantCanary true)
          else
            match primary with
            | None => None
            | Some p =>
                let rev := ld_Revision p in
                if (rev == "")
                   || ((rev != mds_LastGoodRevision (md_Status md))
                       && (rev != mds_StableRevision (md_Status md))) then None
                else Some (MkLegacyReference rev (Some p) VariantPrimary false)
            end
      end
  end.

(** [apiequality.Semantic.DeepEqual] on the recorded fields. *)
Definition legacyRecordedWorkloadEqual (live stored : ModelDeploymentSpec) : bool :=
  (sp_Model live == sp_Model stored) && (sp_Engine live == sp_Engine stored)
  && (srv_Shim (sp_Serving live) == srv_Shim (sp_Serving stored)).

Definition default_probe (p : option Probe) : option Probe :=
  match p with
  | None => None
  | Some p =>
      Some (MkProbe
              (match pb_HTTPGet p with
               | Some h => Some (MkHTTPGetAction (hg_Path h) (hg_Port h) (or_string (hg_Scheme h) "HTTP"))
               | None => None
               end)
              (if pb_TimeoutSeconds p =? 0 then 1 else pb_TimeoutSeconds p) (pb_PeriodSeconds p)
              (if pb_SuccessThreshold p =? 0 then 1 else pb_SuccessThreshold p) (pb_FailureThreshold p))
  end.

Definition default_container (c : Container) : Container :=
  MkContainer (c_Name c) (c_Image c) (c_ImagePullPolicy c) (c_RestartPolicy c) (c_Command c)
    (c_Args c) (c_Ports c) (c_Env c) (c_VolumeMounts c) (c_Resources c) (c_SecurityContext c)
    (default_probe (c_StartupProbe c)) (default_probe (c_ReadinessProbe c))
    (default_probe (c_LivenessProbe c))
    (or_string (c_TerminationMessagePath c) "/dev/termination-log")
    (or_string (c_TerminationMessagePolicy c) "File").

Definition applyPodStorageDefaults (spec : PodSpec) : PodSpec :=
  MkPodSpec (or_string (ps_RestartPolicy spec) "Always")
    (or_ptr (ps_TerminationGracePeriodSeconds spec) 30)
    (or_string (ps_DNSPolicy spec) "ClusterFirst")
    (or_string (ps_SchedulerName spec) "default-scheduler") (ps_SecurityContext spec)
    (map default_container (ps_InitContainers spec)) (map default_container (ps_Containers spec))
    (ps_Volumes spec).

Definition withoutMetricScopeArgs (args : list string) : list string :=
  List.filter (fun arg => negb (gofmt.HasPrefix arg "--namespace="
                                || gofmt.HasPrefix arg "--model-deployment=")) args.

Definition with_args (c : Container) (args : list string) : Container :=
  MkContainer (c_Name c) (c_Image c) (c_ImagePullPolicy c) (c_RestartPolicy c) (c_Command c)
    args (c_Ports c) (c_Env c) (c_VolumeMounts c) (c_Resources c) (c_SecurityContext c)
    (c_StartupProbe c) (c_ReadinessProbe c) (c_LivenessProbe c)
    (c_TerminationMessagePath c) (c_TerminationMessagePolicy c).

(** The first shim container, without its scope arguments. *)
Fixpoint strip_shim (containers : list Container) : list Container :=
  match containers with
  | [] => []
  | c :: cs =>
      if c_Name c == naming.ShimContainerName then with_args c (withoutMetricScopeArgs (c_Args c)) :: cs
      else c :: strip_shim cs
  end.

Definition legacy_shape (t : PodTemplate) : PodTemplate :=
  let ps := pt_Spec t in
  MkPodTemplate (pt_Labels t)
    (MkPodSpec (ps_RestartPolicy ps) (ps_TerminationGracePeriodSeconds ps) (ps_DNSPolicy ps)
       (ps_SchedulerName ps) (ps_SecurityContext ps) (strip_shim (ps_InitContainers ps))
       (ps_Containers ps) (ps_Volumes ps)).

Context (applyConfigFrom : Container -> Container + string).
(** The pod template of the typed Deployment an apply configuration decodes to. *)
Context (typedTemplate : DeploymentApply -> PodTemplate + string).
Context (DeepDerivative : PodTemplate -> PodTemplate -> bool).

Definition currentWorkloadMatchesDeployment (md : ModelDeployment) (prof : Profile)
    (resolved : ModelDeploymentSpec) (revisionID : string) (variant : Variant) (live : LiveDeployment)
    (opts : renderOptions) : workloadMigrationMatch + string :=
  desired <?- buildDeployment MustParse enc applyConfigFrom (withSpec md resolved) prof revisionID variant
                (replicasFor md) opts ;;
  typed <?- typedTemplate desired ;;
  let typed := MkPodTemplate (pt_Labels typed) (applyPodStorageDefaults (pt_Spec typed)) in
  if DeepDerivative typed (ld_Template live) then inl workloadExact
  else if DeepDerivative (legacy_shape typed) (ld_Template live) then inl workloadLegacyTelemetry
  else inl workloadDifferent.

(** ** The identity a pass works with *)

Context {C : PayloadCodec} {W : Type} {A : HistoryAPI W}.

(** [variant] rendered with [%s]. *)
Definition adopt_live (md : ModelDeployment) (prof : Profile) (resolved : ModelDeploymentSpec)
    (v2Revision : string) (ref : legacyMigrationReference) (opts : renderOptions) :
    (string * bool * bool) + goerror :=
  match lr_deployment ref with
  | None =>
      inr (Errorf ("legacy rollout identity " +:+ lr_revision ref +:+ " has no matching live "
                   +:+ variant_string (lr_variant ref) +:+ " Deployment; refusing to guess effective runtime defaults"))
  | Some live =>
      if ld_Revision live != lr_revision ref then
        inr (Errorf ("legacy rollout identity " +:+ lr_revision ref +:+ " conflicts with live "
                     +:+ variant_string (lr_variant ref) +:+ " Deployment revision "
                     +:+ gofmt.Quote (ld_Revision live)))
      else
        match currentWorkloadMatchesDeployment md prof resolved (lr_revision ref) (lr_variant ref) live opts with
        | inr err =>
            inr (Errorf ("comparing legacy rollout identity " +:+ lr_revision ref
                         +:+ " with its live workload: " +:+ err))
        | inl workloadDifferent => inl (v2Revision, false, false)
        | inl workloadExact => inl (lr_revision ref, true, false)
        | inl workloadLegacyTelemetry => inl (lr_revision ref, true, legacyRolloutActive md)
        end
  end.

(** What follows once the record of the persisted identity has been read. *)
Definition adopt_recorded (md : ModelDeployment) (prof : Profile) (resolved : ModelDeploymentSpec)
    (v2Revision : string) (primary : option LiveDeployment) (ref : legacyMigrationReference)
    (raw : string) (opts : renderOptions) : (string * bool * bool) + goerror :=
  match Decode raw with
  | inr err => inr (Errorf ("decoding persisted rollout identity " +:+ lr_revision ref +:+ ": " +:+ err))
  | inl stored =>
      if negb (Legacy stored) then inl (v2Revision, false, false)
      else
        match Encode (Some (de_Spec stored)) with
        | inr err => inr (Errorf ("re-encoding legacy rollout identity " +:+ lr_revision ref +:+ ": " +:+ err))
        | inl canonical =>
            if (canonical != raw) || (Hash enc (Some (de_Spec stored)) != lr_revision ref) then
              inr (Errorf ("ControllerRevision " +:+ lr_revision ref +:+ " does not contain the canonical payload for its persisted identity; refusing legacy adoption"))
            else if negb (legacyRecordedWorkloadEqual (md_Spec md) (de_Spec stored)) then
              inl (v2Revision, false, false)
            else if lr_noRender ref then
              if negb (startupTimeoutMatchesDeployment md resolved primary) then
                inr (Errorf ("legacy rejected revision " +:+ lr_revision ref +:+ " has no live candidate and the primary Deployment does not prove its omitted serving.startupTimeout; refusing to guess equivalence"))
              else inl (lr_revision ref, true, false)
            else adopt_live md prof resolved v2Revision ref opts
        end
  end.

Definition targetRevisionForMigration (w : W) (md : ModelDeployment) (prof : Profile)
    (resolved : ModelDeploymentSpec) (v2Revision : string) (primary canary : option LiveDeployment)
    (opts : renderOptions) : W * ((string * bool * bool) + goerror) :=
  match legacyReferenceFrom (Some md) primary canary with
  | None => (w, inl (v2Revision, false, false))
  | Some ref =>
      if (lr_revision ref == "") || (lr_revision ref == v2Revision) then (w, inl (v2Revision, false, false))
      else
        let (w, got) := Get enc w (Some md) (lr_revision ref) in
        match got with
        | inr e =>
            if IsNotFound e then
              (w, inr (Wrap ("persisted rollout identity " +:+ lr_revision ref +:+ " has no ControllerRevision; refusing to infer whether the v2 hash is only a schema change: ") e))
            else (w, inr (Wrap ("reading persisted rollout identity " +:+ lr_revision ref +:+ ": ") e))
        | inl cr => (w, adopt_recorded md prof resolved v2Revision primary ref (cr_Data cr) opts)
        end
  end.

(** ** Rendering a plan *)

(** [r.Get] of a Deployment by namespace and name. *)
Context (readDeployment : W -> string -> string -> W * (LiveDeployment + ApiError)).

Definition deploymentFor (w : W) (md : ModelDeployment) (name : string) :
    W * (option LiveDeployment + goerror) :=
  let (w, r) := readDeployment w (md_Namespace md) name in
  match r with
  | inl d => (w, inl (Some d))
  | inr NotFound => (w, inl None)
  | inr e => (w, inr (Wrap ("reading Deployment " +:+ name +:+ ": ") (Api e)))
  end.

(** The shim's settings as the running sidecar shows them. *)
Definition recover_shim (shim : ShimSpec) (c : Container) : ShimSpec :=
  let level :=
    if shim_LogLevel shim == "" then
      from_ptr "" (head (omap (fun arg => gostrings.CutPrefix arg "--log-level=") (c_Args c)))
    else shim_LogLevel shim in
  MkShimSpec (shim_Enabled shim) (c_Image c) (c_Resources c) level.

Definition recover_engine (e : EngineSpec) (c : Container) : EngineSpec :=
  MkEngineSpec (eng_Type e) (c_Image c) (c_ImagePullPolicy c) (eng_ContextSize e) (eng_MaxConcurrency e)
    (eng_Threads e) (eng_ExtraArgs e) (eng_Env e) (eng_Resources e) (eng_APIKeySecretRef e).

(** What the primary pod says about a legacy revision's unrecorded settings. *)
Definition recover_legacy (revisionID : string) (stored : ModelDeploymentSpec) (ps : PodSpec) :
    ModelDeploymentSpec + goerror :=
  let no_engine :=
    inr (Errorf ("legacy revision " +:+ revisionID +:+ " cannot recover its engine image and startup probe from the primary Deployment")) in
  match containerNamed (ps_Containers ps) ContainerName with
  | None => no_engine
  | Some c =>
      match c_StartupProbe c with
      | None => no_engine
      | Some probe =>
          if (c_Image c == "") || (pb_PeriodSeconds probe <? 1) || (pb_FailureThreshold probe <? 1)
          then no_engine
          else
            let seconds := wrap64 (pb_PeriodSeconds probe * pb_FailureThreshold probe) in
            let timeout := wrap64 (seconds * time.Second) in
            let s := sp_Serving stored in
            let rebuilt shim :=
              MkModelDeploymentSpec (sp_Replicas stored) (sp_Model stored) (recover_engine (sp_Engine stored) c)
                (MkServingSpec (srv_Port s) (Some timeout) shim) (sp_Rollout stored)
                (sp_Observability stored) (sp_Autoscaling stored) in
            if ShimEnabled s then
              match containerNamed (ps_InitContainers ps) naming.ShimContainerName with
              | None => inr (Errorf ("legacy revision " +:+ revisionID +:+ " cannot recover its shim image from the primary Deployment"))
              | Some shim =>
                  if c_Image shim == "" then
                    inr (Errorf ("legacy revision " +:+ revisionID +:+ " cannot recover its shim image from the primary Deployment"))
                  else inl (rebuilt (recover_shim (srv_Shim s) shim))
              end
            else inl (rebuilt (srv_Shim s))
      end
  end.

Definition resolveLegacyRevisionSpec (w : W) (md : ModelDeployment) (revisionID : string)
    (stored : ModelDeploymentSpec) (prof : Profile) (opts : renderOptions) :
    W * (ModelDeploymentSpec + goerror) :=
  let (w, read) := deploymentFor w md (naming.PrimaryDeployment enc (md_Name md)) in
  let gone :=
    inr (Errorf ("legacy revision " +:+ revisionID +:+ " omitted effective runtime defaults and no matching primary Deployment remains; "
                 +:+ "refusing to guess rollback configuration")) in
  match read with
  | inr e => (w, inr e)
  | inl None => (w, gone)
  | inl (Some primary) =>
      if ld_Revision primary != revisionID then (w, gone)
      else
        match recover_legacy revisionID stored (ld_Pod primary) with
        | inr e => (w, inr e)
        | inl stored => (w, inl (resolvedRevisionSpec (withSpec md stored) prof opts))
        end
  end.

(** The engine profiles, and the order in which their map is visited. *)
Context (reg : registry) (order : list string).

Definition specForRevision (w : W) (md : ModelDeployment) (target want : string)
    (resolvedTarget : option ModelDeploymentSpec) (opts : renderOptions) :
    W * (ModelDeploymentSpec + goerror) :=
  if (want == "") || (want == target) then
    match resolvedTarget with
    | Some t => (w, inl (mergeWorkloadSpec (md_Spec md) t false))
    | None => (w, inl (md_Spec md))
    end
  else
    let (w, got) := Get enc w (Some md) want in
    match got with
    | inr e =>
        if IsNotFound e then
          (w, inr (Wrap ("revision history " +:+ want +:+ " is missing; refusing to replace the stable workload with the live candidate: ") e))
        else (w, inr (Wrap ("reading revision " +:+ want +:+ ": ") e))
    | inl cr =>
        match Decode (cr_Data cr) with
        | inr err => (w, inr (Errorf ("decoding revision " +:+ want +:+ ": " +:+ err)))
        | inl stored =>
            if negb (Legacy stored) then (w, inl (mergeWorkloadSpec (md_Spec md) (de_Spec stored) false))
            else
              let legacyType := or_string (eng_Type (sp_Engine (de_Spec stored))) EngineLlamaCPP in
              match engine.Get reg order legacyType with
              | inr err => (w, inr (Errorf ("resolving legacy revision " +:+ want +:+ ": " +:+ err)))
              | inl legacyProfile =>
                  let (w, r) := resolveLegacyRevisionSpec w md want (de_Spec stored) legacyProfile opts in
                  match r with
                  | inr e => (w, inr (Wrap ("resolving legacy revision " +:+ want +:+ ": ") e))
                  | inl spec => (w, inl (mergeWorkloadSpec (md_Spec md) spec true))
                  end
              end
        end
    end.

Definition renderRollout (w : W) (md : ModelDeployment) (prof : Profile) (targetSpec : ModelDeploymentSpec)
    (target : string) (plan : rollout) (opts : renderOptions) : W * (desiredChildren + goerror) :=
  let render primary canary :=
    match buildChildren MustParse enc applyConfigFrom md prof primary canary opts with
    | inl ch => inl ch
    | inr e => inr (Errorf e)
    end in
  let (w, p) := specForRevision w md target (rp_PrimaryRevision plan) (Some targetSpec) opts in
  match p with
  | inr e => (w, inr e)
  | inl primarySpec =>
      let primary := MkVariantPlan primarySpec (rp_PrimaryRevision plan) (rp_PrimaryReplicas plan) in
      if (rp_CanaryRevision plan == "") || (rp_CanaryReplicas plan <=? 0) then (w, render primary None)
      else
        let (w, c) := specForRevision w md target (rp_CanaryRevision plan) (Some targetSpec) opts in
        match c with
        | inr e => (w, inr e)
        | inl canarySpec =>
            (w, render primary (Some (MkVariantPlan canarySpec (rp_CanaryRevision plan) (rp_CanaryReplicas plan))))
        end
  end.

(** ** Recording the target *)

Context (SetControllerReference : ModelDeployment -> option string).
(** Whether the reconciler has an event recorder. *)
Context (recorder : bool).

(** The revisions a rollout in flight needs. *)
Definition kept_revisions (md : ModelDeployment) (rev : string) : list string :=
  [rev; mds_StableRevision (md_Status md); mds_LastGoodRevision (md_Status md)]
  ++ match mds_Canary (md_Status md) with
     | Some cs => [cs_Revision cs; cs_StableRevision cs; cs_FailedRevision cs]
     | None => []
     end.

Definition recordRevision (w : W) (md : ModelDeployment) (rev : string) (payload : list string) :
    W * (list Effect * option goerror) :=
  let (w, r) := Record_ enc SetControllerReference w (Some md) rev payload in
  match r with
  | inr e => (w, ([], Some e))
  | inl (_, isNew) =>
      let events :=
        if isNew && recorder then [Event EventTypeNormal EventReasonRevisionCreated "RecordRevision" ("Recorded revision " +:+ rev)]
        else [] in
      let (w, err) := Prune enc w (Some md) revisionHistoryLimit (kept_revisions md rev) in
      (w, (events, err))
  end.


(** ** Lemmas *)

Lemma or_string_idem s d d' : d <> "" -> or_string (or_string s d) d' = or_string s d.
Proof. intros H. unfold or_string. repeat case_bool_decide; congruence. Qed.

Lemma or_string_ne s d : d <> "" -> or_string s d <> "".
Proof. intros H. unfold or_string. case_bool_decide; congruence. Qed.

Lemma or_ptr_idem {T} (p : option T) d d' : or_ptr (or_ptr p d) d' = or_ptr p d.
Proof. by destruct p. Qed.

Lemma shimImage_ne opts : shimImage opts <> "".
Proof. unfold shimImage. by case_bool_decide. Qed.

Lemma ThreadsFor_engine a b n :
  sp_Engine a = sp_Engine b -> ThreadsFor (Some a) n = ThreadsFor (Some b) n.
Proof. unfold ThreadsFor. by intros ->. Qed.

Lemma shimResources_nonempty shim :
  rr_Requests (shimResources MustParse shim) <> ∅ \/ rr_Limits (shimResources MustParse shim) <> ∅.
Proof.
  unfold shimResources. destruct (_ || _) eqn:E.
  - apply orb_true_iff in E as [E|E]; go_bools; auto.
  - cbn. left. apply insert_non_empty.
Qed.

Lemma shimResources_idem e i l shim :
  shimResources MustParse (MkShimSpec e i (shimResources MustParse shim) l) = shimResources MustParse shim.
Proof.
  unfold shimResources at 1. cbn [shim_Resources]. destruct (shimResources_nonempty shim) as [H|H].
  - by rewrite (bool_decide_eq_false_2 (rr_Requests _ = ∅)) by done.
  - rewrite (bool_decide_eq_false_2 (rr_Limits _ = ∅)) by done. by rewrite orb_true_r.
Qed.

Lemma resolved_shim_idem port t t' s opts opts' :
  resolved_shim (MkServingSpec port t (resolved_shim s opts)) opts' = resolved_shim s opts
  /\ ShimEnabled (MkServingSpec port t' (resolved_shim s opts)) = ShimEnabled s.
Proof.
  unfold resolved_shim at 2 3 4. destruct (ShimEnabled s) eqn:E; cbn [negb]; [|done].
  split; [|done]. unfold resolved_shim. cbn [srv_Shim ShimEnabled shim_Enabled from_ptr negb shim_Image shim_LogLevel].
  by rewrite shimResources_idem, !or_string_idem by (apply shimImage_ne || done).
Qed.

(** ** Properties *)

(** A validated spec can always be recorded.  The resolved spec has every
    value a snapshot requires, so only the encoder can refuse it. *)
Theorem resolved_spec_effective md prof opts :
  p_Type prof <> "" -> p_DefaultImage prof <> "" ->
  validateEffectiveSpec (resolvedRevisionSpec md prof opts) = None.
Proof.
  intros Ht Hi. unfold validateEffectiveSpec, resolvedRevisionSpec. cbv zeta.
  cbn [sp_Engine sp_Serving sp_Model eng_Type eng_Image eng_ImagePullPolicy eng_ContextSize
    eng_MaxConcurrency eng_Threads resolved_engine srv_StartupTimeout srv_Shim model_Source resolved_model src_Image].
  rewrite !bool_decide_eq_false_2 by (apply or_string_ne; done).
  replace (is_nil (or_ptr (eng_ContextSize _) _)) with false by by destruct (eng_ContextSize _).
  replace (is_nil (or_ptr (eng_MaxConcurrency _) _)) with false by by destruct (eng_MaxConcurrency _).
  replace (is_nil (or_ptr (eng_Threads _) _)) with false by by destruct (eng_Threads _).
  replace (is_nil (or_ptr (srv_StartupTimeout _) _)) with false by by destruct (srv_StartupTimeout _).
  replace (is_nil (shim_Enabled (resolved_shim _ opts))) with false
    by (unfold resolved_shim; by destruct (ShimEnabled _)).
  match goal with |- context [negb ?b] => replace b with true end.
  2:{ destruct (src_Image _); [|done]. cbn [im_Path im_PullPolicy].
      by rewrite !bool_decide_eq_false_2 by (by apply or_string_ne). }
  cbn [negb]. unfold resolved_shim. destruct (ShimEnabled (sp_Serving (md_Spec md))); [|done].
  cbn [negb ShimEnabled srv_Shim shim_Enabled from_ptr shim_Image shim_LogLevel shim_Resources].
  rewrite !(bool_decide_eq_false_2 (or_string _ _ = "")) by (apply or_string_ne; [apply shimImage_ne || done]).
  destruct (shimResources_nonempty (srv_Shim (sp_Serving (md_Spec md)))) as [H|H];
    rewrite (bool_decide_eq_false_2 _ H); by rewrite ?andb_false_r.
Qed.

(** A recorded workload is frozen.  Resolving a resolved spec again, under
    any other controller's defaults, profile and sidecar image, changes nothing. *)
Theorem resolved_spec_frozen md prof opts prof' opts' :
  p_Type prof <> "" -> p_DefaultImage prof <> "" ->
  resolvedRevisionSpec (withSpec md (resolvedRevisionSpec md prof opts)) prof' opts'
  = resolvedRevisionSpec md prof opts.
Proof.
  intros Ht Hi. unfold resolvedRevisionSpec at 1. cbv zeta. cbn [md_Spec withSpec].
  unfold resolvedRevisionSpec. cbv zeta.
  cbn [sp_Replicas sp_Model sp_Engine sp_Serving sp_Rollout sp_Observability sp_Autoscaling srv_Port srv_StartupTimeout].
  f_equal.
  - unfold resolved_model. cbn [model_Name model_Source src_Image src_HuggingFace src_PersistentVolumeClaim].
    destruct (src_Image _) as [image|]; [|done]. cbn [im_Image im_Path im_PullPolicy].
    by rewrite !or_string_idem.
  - unfold resolved_engine. cbn [sp_Engine eng_Type eng_Image eng_ImagePullPolicy eng_ContextSize
      eng_MaxConcurrency eng_Threads eng_ExtraArgs eng_Env eng_Resources eng_APIKeySecretRef].
    by rewrite !or_string_idem, !or_ptr_idem.
  - rewrite or_ptr_idem. f_equal. apply resolved_shim_idem. exact None.
Qed.

(** Scaling is not a release.  Two resources that agree on model, engine,
    startup timeout and shim have the same snapshot, whatever their replicas,
    port, rollout policy, observability and autoscaling. *)
Theorem scaling_keeps_revision md md' prof opts :
  sp_Model (md_Spec md) = sp_Model (md_Spec md') ->
  sp_Engine (md_Spec md) = sp_Engine (md_Spec md') ->
  srv_StartupTimeout (sp_Serving (md_Spec md)) = srv_StartupTimeout (sp_Serving (md_Spec md')) ->
  srv_Shim (sp_Serving (md_Spec md)) = srv_Shim (sp_Serving (md_Spec md')) ->
  NewSnapshot enc (Some (resolvedRevisionSpec md prof opts))
  = NewSnapshot enc (Some (resolvedRevisionSpec md' prof opts)).
Proof.
  intros Hm He Ht Hs.
  assert (Hshim : resolved_shim (sp_Serving (md_Spec md)) opts = resolved_shim (sp_Serving (md_Spec md')) opts).
  { unfold resolved_shim, ShimEnabled. by rewrite Hs. }
  assert (Heng : resolved_engine (md_Spec md) prof = resolved_engine (md_Spec md') prof).
  { unfold resolved_engine. by rewrite (ThreadsFor_engine _ _ 1 He), He. }
  unfold NewSnapshot, validateEffectiveSpec, resolvedRevisionSpec. cbv zeta.
  cbn [sp_Engine sp_Serving sp_Model srv_StartupTimeout srv_Shim ShimEnabled]. by rewrite Hm, Ht, Hshim, Heng.
Qed.

(** C15: a rollback runs what was recorded.  When history holds the snapshot of a
    workload, the spec reconstructed for its revision has that model, engine,
    startup timeout and shim, and everything that is not part of a workload
    comes from the live resource. *)
Theorem rollback_restores_workload w md target old s cr w' rt opts :
  NewSnapshot enc (Some old) = inl s -> sn_Revision s <> "" -> sn_Revision s <> target ->
  Get enc w (Some md) (sn_Revision s) = (w', inl cr) -> cr_Data cr = sn_Raw s ->
  exists spec,
    specForRevision w md target (sn_Revision s) rt opts = (w', inl spec)
    /\ sp_Model spec = sp_Model old /\ sp_Engine spec = sp_Engine old
    /\ srv_StartupTimeout (sp_Serving spec) = srv_StartupTimeout (sp_Serving old)
    /\ srv_Shim (sp_Serving spec) = srv_Shim (sp_Serving old)
    /\ sp_Replicas spec = sp_Replicas (md_Spec md) /\ sp_Rollout spec = sp_Rollout (md_Spec md)
    /\ srv_Port (sp_Serving spec) = srv_Port (sp_Serving (md_Spec md))
    /\ sp_Observability spec = sp_Observability (md_Spec md)
    /\ sp_Autoscaling spec = sp_Autoscaling (md_Spec md).
Proof.
  intros Hs Hne Ht Hg Hd. apply snapshot_decodes in Hs as (d & Hdec & Hleg & Hspec).
  unfold specForRevision. rewrite !bool_decide_eq_false_2 by done. cbn [orb].
  rewrite Hg, Hd, Hdec, Hleg. cbn [negb]. eexists. split; [done|].
  unfold mergeWorkloadSpec. rewrite Hspec. cbn. repeat split.
Qed.

(** A canary compares two revisions.  Rendering a plan whose primary and
    canary name different recorded revisions builds the primary from the
    recorded workload and the canary from the resolved target, with the replica
    counts of the plan. *)
Theorem canary_compares_revisions w md prof targetSpec target plan opts old s cr w' w2 ch :
  NewSnapshot enc (Some old) = inl s -> sn_Revision s <> "" -> sn_Revision s <> target ->
  Get enc w (Some md) (sn_Revision s) = (w', inl cr) -> cr_Data cr = sn_Raw s ->
  rp_PrimaryRevision plan = sn_Revision s -> rp_CanaryRevision plan = target -> target <> "" ->
  0 < rp_CanaryReplicas plan ->
  renderRollout w md prof targetSpec target plan opts = (w2, inl ch) ->
  exists canary,
    dc_CanaryDeployment ch = Some canary
    /\ da_Replicas (dc_Deployment ch) = rp_PrimaryReplicas plan
    /\ da_Replicas canary = rp_CanaryReplicas plan
    /\ (exists p, buildPodSpec MustParse applyConfigFrom
                    (withSpec md (mergeWorkloadSpec (md_Spec md) old false)) prof VariantPrimary opts = inl p
         /\ pt_Spec (da_Template (dc_Deployment ch)) = p)
    /\ (exists c, buildPodSpec MustParse applyConfigFrom
                    (withSpec md (mergeWorkloadSpec (md_Spec md) targetSpec false)) prof VariantCanary opts = inl c
         /\ pt_Spec (da_Template canary) = c).
Proof.
  intros Hs Hne Ht Hg Hd Hp Hc Htn Hr. apply snapshot_decodes in Hs as (d & Hdec & Hleg & Hspec).
  unfold renderRollout. cbv zeta. unfold specForRevision at 1. rewrite Hp.
  rewrite !(bool_decide_eq_false_2 (sn_Revision s = _)) by done. cbn [orb]. rewrite Hg, Hd, Hdec, Hleg. cbn [negb].
  rewrite Hc, (bool_decide_eq_false_2 (target = "")), (proj2 (Z.leb_gt _ _) Hr) by done. cbn [orb].
  unfold specForRevision. rewrite (bool_decide_eq_false_2 (target = "")), bool_decide_eq_true_2 by done. cbn [orb].
  destruct (buildChildren _ _ _ _ _ _ _ _) as [ch'|] eqn:Hb; [|done]. intros [= _ <-].
  apply buildChildren_inv in Hb as (_ & _ & Hb1 & Hb2).
  destruct (dc_CanaryDeployment ch') as [canary|]; [|done]. exists canary. split; [done|].
  apply buildDeployment_inv in Hb1 as (p & Hp1 & Hp2 & _ & Hp3 & _).
  apply buildDeployment_inv in Hb2 as (c & Hc1 & Hc2 & _ & Hc3 & _).
  split; [done|]. split; [done|]. rewrite Hp3, Hc3. cbn [pt_Spec].
  split; eexists; (split; [|reflexivity]); [|done].
  revert Hp1. unfold mergeWorkloadSpec. rewrite Hspec. by cbn.
Qed.

(** C18: a legacy identity is adopted only on evidence.  When the migration keeps
    a persisted identity, that identity is the one the status refers to, its
    record is a legacy one holding exactly the canonical bytes its hash names,
    every recorded field still matches the live spec, and either the running
    Deployment carries that identity and matches the workload, or the rejected
    target is not rendered and the primary proves the startup timeout.  The hold
    is asked for only while a rollout is active.  Otherwise the identity is the
    current one. *)
Theorem adoption_needs_evidence w md prof resolved v2 primary canary opts w' rev adopted hold :
  targetRevisionForMigration w md prof resolved v2 primary canary opts = (w', inl (rev, adopted, hold)) ->
  (adopted = false /\ rev = v2 /\ hold = false)
  \/ (adopted = true /\ (hold = true -> legacyRolloutActive md = true)
      /\ exists ref cr d,
           legacyReferenceFrom (Some md) primary canary = Some ref /\ lr_revision ref = rev
           /\ snd (Get enc w (Some md) rev) = inl cr
           /\ Decode (cr_Data cr) = inl d /\ Legacy d = true
           /\ Encode (Some (de_Spec d)) = inl (cr_Data cr) /\ Hash enc (Some (de_Spec d)) = rev
           /\ sp_Model (md_Spec md) = sp_Model (de_Spec d) /\ sp_Engine (md_Spec md) = sp_Engine (de_Spec d)
           /\ srv_Shim (sp_Serving (md_Spec md)) = srv_Shim (sp_Serving (de_Spec d))
           /\ ((lr_noRender ref = true /\ startupTimeoutMatchesDeployment md resolved primary = true)
               \/ exists live m, lr_deployment ref = Some live /\ ld_Revision live = rev
                  /\ currentWorkloadMatchesDeployment md prof resolved rev (lr_variant ref) live opts = inl m
                  /\ m <> workloadDifferent)).
Proof.
  unfold targetRevisionForMigration.
  destruct (legacyReferenceFrom (Some md) primary canary) as [ref|] eqn:Href; [|intros [= <- <- <- <-]; auto].
  destruct (_ || _); [intros [= <- <- <- <-]; auto|].
  destruct (Get enc w (Some md) (lr_revision ref)) as [w1 [cr|e]] eqn:Hg; [|by destruct (IsNotFound e)].
  intros [= <- Ha]. unfold adopt_recorded in Ha.
  destruct (Decode (cr_Data cr)) as [d|] eqn:Hd; [|done].
  destruct (Legacy d) eqn:Hl; cbn [negb] in Ha; [|injection Ha as <- <- <-; auto].
  destruct (Encode _) as [canonical|] eqn:He; [|done].
  destruct (_ || _) eqn:Ho in Ha; [done|]. apply orb_false_iff in Ho as [Ho1 Ho2]. go_bools. subst canonical.
  destruct (legacyRecordedWorkloadEqual _ _) eqn:Hq; cbn [negb] in Ha; [|injection Ha as <- <- <-; auto].
  unfold legacyRecordedWorkloadEqual in Hq. go_bools.
  destruct (lr_noRender ref) eqn:Hn.
  - destruct (startupTimeoutMatchesDeployment _ _ _) eqn:Hst; [|done]. cbn [negb] in Ha.
    injection Ha as <- <- <-. right. split; [done|]. split; [done|]. exists ref, cr, d.
    rewrite Hg. repeat (split; [done|]). by left.
  - unfold adopt_live in Ha. destruct (lr_deployment ref) as [live|] eqn:Hlive; [|done].
    case_bool_decide as Hrev; [|done]. cbn [negb] in Ha.
    destruct (currentWorkloadMatchesDeployment _ _ _ _ _ _ _) as [m|] eqn:Hm; [|done].
    destruct m; injection Ha as <- <- <-; [by left| |]; right; (split; [done|]); (split; [done|]);
      exists ref, cr, d; rewrite Hg; repeat (split; [done|]); right; by exists live; eexists.
Qed.

(** Recording a revision never deletes one a rollout in flight needs: the
    target, the stable and last known-good revisions, and the three the canary
    block names. *)
Theorem recording_keeps_history w md rev payload w' r :
  recordRevision w md rev payload = (w', r) ->
  exists victims, deleted w' = deleted w ++ victims
  /\ forall k data n, k ∈ kept_revisions md rev -> k <> "" -> new_revision enc md k data n ∉ victims.
Proof.
  unfold recordRevision. destruct (Record_ _ _ _ _ _ _) as [w1 [[cr isNew]|e]] eqn:Hr.
  - pose proof (Record_keeps _ _ _ _ _ _ _ _ Hr) as Hk.
    destruct (Prune_unpinned enc w1 md revisionHistoryLimit (kept_revisions md rev)) as (v & Hv & _ & Hu).
    destruct (Prune _ _ _ _ _) as [w2 err]. cbn in Hv. intros [= <- <-]. exists v. rewrite Hv, Hk. split; [done|].
    intros k data n Hin Hne Hx. rewrite List.Forall_forall in Hu. apply list_elem_of_In, Hu in Hx.
    by rewrite pinned_by_hash in Hx.
  - intros [= <- <-]. exists []. rewrite (Record_keeps _ _ _ _ _ _ _ _ Hr), app_nil_r. split; [done|].
    intros. apply not_elem_of_nil.
Qed.

End Migration.
End migration.
