(* ===== verification/Observability.v ===== *)
(** * Monitoring objects (internal/observability, and the SLO accessors)

    The ServiceMonitor (servicemonitor.go) and the PrometheusRule with its
    recording rules and burn-rate alerts (prometheusrule.go) that the operator
    applies as unstructured content.  An [any] value is a string, a boolean, a
    list or a map; a map is the list of its entries. *)

From S2P Require Import Prelude GoFloat GoFmt ApiTypes KubeTypes Metrics Naming.
Import v1alpha1.
Local Open Scope Z_scope.
Local Open Scope go_scope.

Module slo.

(** ** Accessors (observability_types.go) *)

Definition PrometheusRuleEnabled (o : ObservabilitySpec) : bool :=
  match ob_PrometheusRule o with Some p => from_ptr true (pr_Enabled p) | None => true end.

Definition LongWindowAlertsEnabled (o : option ObservabilitySpec) : bool :=
  match o with
  | Some o => match ob_PrometheusRule o with Some p => from_ptr false (pr_LongWindowAlerts p) | None => false end
  | None => false
  end.

Definition ServiceMonitorEnabled (o : ObservabilitySpec) : bool :=
  match ob_ServiceMonitor o with Some m => from_ptr true (sm_Enabled m) | None => true end.

Definition EngineMetricsScraped (o : option ObservabilitySpec) : bool :=
  match o with
  | Some o => match ob_ServiceMonitor o with Some m => from_ptr true (sm_ScrapeEngineMetrics m) | None => true end
  | None => true
  end.

Definition defaultTTFTThresholdMilli : Z := 1500.
Definition defaultTTFTObjectiveMilli : Z := 990.
Definition defaultAvailObjectiveMilli : Z := 995.

Definition ResolvedTTFTThreshold (s : option SLOSpec) : f64.t :=
  match s with
  | Some s => match slo_TTFTThreshold s with
              | Some q => milli_float (MilliValue q)
              | None => milli_float defaultTTFTThresholdMilli
              end
  | None => milli_float defaultTTFTThresholdMilli
  end.

Definition objectiveOr (q : option Quantity) (fallbackMilli : Z) : f64.t :=
  match q with
  | None => milli_float fallbackMilli
  | Some q =>
      let v := milli_float (MilliValue q) in
      if f64.leb v f64.zero || f64.leb f64.one v then milli_float fallbackMilli else v
  end.

Definition ttftObjective (s : option SLOSpec) : option Quantity :=
  match s with Some s => slo_TTFTObjective s | None => None end.

Definition ResolvedTTFTObjective (s : option SLOSpec) : f64.t :=
  objectiveOr (ttftObjective s) defaultTTFTObjectiveMilli.

Definition ResolvedAvailabilityObjective (s : option SLOSpec) : f64.t :=
  match s with
  | None => objectiveOr None defaultAvailObjectiveMilli
  | Some s => objectiveOr (slo_AvailabilityObjective s) defaultAvailObjectiveMilli
  end.

End slo.

Module observability.
Import kube slo.

(** ** Unstructured content (fields.go, gvk.go) *)

#[warnings="-register-all"]
Inductive any := AStr (s : string) | ABool (b : bool) | AList (l : list any) | AMap (m : list (string * any)).

Definition fieldAPIVersion : string := "apiVersion".
Definition fieldKind : string := "kind".
Definition fieldMetadata : string := "metadata".
Definition fieldSpec : string := "spec".
Definition fieldName : string := "name".
Definition fieldNamespace : string := "namespace".
Definition fieldLabels : string := "labels".
Definition fieldAnnotations : string := "annotations".
Definition fieldOwnerReferences : string := "ownerReferences".
Definition fieldInterval : string := "interval".
Definition fieldExpr : string := "expr".
Definition fieldRules : string := "rules".
Definition fieldGroups : string := "groups".
Definition fieldRecord : string := "record".
Definition fieldAlert : string := "alert".
Definition fieldFor : string := "for".
Definition fieldPort : string := "port".
Definition fieldPath : string := "path".
Definition fieldScheme : string := "scheme".
Definition fieldScrapeTimeout : string := "scrapeTimeout".
Definition fieldHonorLabels : string := "honorLabels".
Definition labelSeverity : string := "severity".
Definition labelSLO : string := "slo".
Definition annotationSummary : string := "summary".
Definition annotationDesc : string := "description".
Definition annotationRunbook : string := "runbook_url".
Definition severityCritical : string := "critical".
Definition severityWarning : string := "warning".
Definition severityInfo : string := "info".
Definition alertNoTraffic : string := "LLMCPNoTraffic".
Definition runbookURL : string := "https://github.com/surajm20061998/LLM_Inference_Control_Plane/blob/main/docs/slo.md".
Definition MonitoringGroup : string := "monitoring.coreos.com".
Definition MonitoringVersion : string := "v1".
Definition KindServiceMonitor : string := "ServiceMonitor".
Definition KindPrometheusRule : string := "PrometheusRule".

(** Group, version and kind. *)
Definition GVK : Type := string * string * string.
Definition ServiceMonitorGVK : GVK := (MonitoringGroup, MonitoringVersion, KindServiceMonitor).
Definition PrometheusRuleGVK : GVK := (MonitoringGroup, MonitoringVersion, KindPrometheusRule).

Definition ComponentMetrics : string := "metrics".
Definition ComponentSLO : string := "slo".
Definition labelMetricName : string := "__name__".

(** Inserting the keys in sorted order gives the same map. *)
Definition toStringMap (m : gmap string string) : any :=
  AMap (map (fun '(k, v) => (k, AStr v)) (map_to_list m)).

Definition ownerRefMap (ref : OwnerReference) : any :=
  AMap [("apiVersion", AStr (or_APIVersion ref)); ("kind", AStr (or_Kind ref)); ("name", AStr (or_Name ref));
        ("uid", AStr (or_UID ref)); ("controller", ABool (or_Controller ref));
        ("blockOwnerDeletion", ABool (or_BlockOwnerDeletion ref))].

(** ** Scraping (servicemonitor.go) *)

Definition defaultInterval : time.Duration := 15 * time.Second.
Definition defaultScrapeTimeout : time.Duration := 10 * time.Second.
Definition engineScrapeInterval : time.Duration := 30 * time.Second.

Record ServiceMonitorInput := MkServiceMonitorInput {
  smi_Name : string; smi_Namespace : string; smi_OwnerRef : OwnerReference;
  smi_Spec : option ObservabilitySpec; smi_ShimEnabled : bool }.

Definition monitor_spec (o : option ObservabilitySpec) : option ServiceMonitorSpec :=
  match o with Some o => ob_ServiceMonitor o | None => None end.

Definition scrapeTimings (spec : option ObservabilitySpec) : time.Duration * time.Duration :=
  let pick (v : option time.Duration) d := match v with Some x => if 0 <? x then x else d | None => d end in
  let '(interval, timeout) :=
    match monitor_spec spec with
    | Some m => (pick (sm_Interval m) defaultInterval, pick (sm_ScrapeTimeout m) defaultScrapeTimeout)
    | None => (defaultInterval, defaultScrapeTimeout)
    end in
  (interval, if interval <? timeout then interval else timeout).

(** [d.Round(time.Second)]: halves away from zero, for the positive durations
    [scrapeTimings] returns, saturating at the end of [Duration]. *)
Definition round_seconds (d : time.Duration) : Z :=
  let r := d mod time.Second in
  if r + r <? time.Second then d / time.Second
  else if int64_max <? d + time.Second - r then int64_max / time.Second
  else (d + time.Second - r) / time.Second.

Definition seconds_of (d : time.Duration) : Z := Z.max (round_seconds d) 1.

Definition duration (d : time.Duration) : string := format_int (seconds_of d) +:+ "s".

Definition shimEndpoint (interval timeout : time.Duration) : any :=
  AMap [(fieldPort, AStr naming.PortNameMetrics); (fieldPath, AStr naming.ShimMetricsPath);
        (fieldScheme, AStr "http"); (fieldInterval, AStr (duration interval));
        (fieldScrapeTimeout, AStr (duration timeout)); (fieldHonorLabels, ABool false)].

Definition engineEndpoint (timeout : time.Duration) : any :=
  AMap [(fieldPort, AStr naming.PortNameEngine); (fieldPath, AStr naming.ShimMetricsPath);
        (fieldScheme, AStr "http"); (fieldInterval, AStr (duration engineScrapeInterval));
        (fieldScrapeTimeout, AStr (duration timeout)); (fieldHonorLabels, ABool false);
        ("metricRelabelings", AList [AMap
           [("sourceLabels", AList [AStr labelMetricName]); ("regex", AStr "llamacpp:(.*)");
            ("targetLabel", AStr labelMetricName); ("replacement", AStr "llamacpp_$1");
            ("action", AStr "replace")]])].

Definition endpoints (shim : bool) (spec : option ObservabilitySpec) : list any :=
  let '(interval, timeout) := scrapeTimings spec in
  (if shim then [shimEndpoint interval timeout] else [])
  ++ (if EngineMetricsScraped spec then [engineEndpoint timeout] else []).

Section Rendering.
Context (enc : string -> string).

Definition BuildServiceMonitor (i : ServiceMonitorInput) : any :=
  let extra := match monitor_spec (smi_Spec i) with Some m => sm_Labels m | None => ∅ end in
  let labels := extra ∪ naming.CommonLabels (smi_Name i) in
  AMap [(fieldAPIVersion, AStr (MonitoringGroup +:+ "/" +:+ MonitoringVersion));
        (fieldKind, AStr KindServiceMonitor);
        (fieldMetadata, AMap
           [(fieldName, AStr (naming.ServiceMonitor enc (smi_Name i)));
            (fieldNamespace, AStr (smi_Namespace i)); (fieldLabels, toStringMap labels);
            (fieldOwnerReferences, AList [ownerRefMap (smi_OwnerRef i)])]);
        (fieldSpec, AMap
           [("jobLabel", AStr naming.LabelInstance);
            ("selector", AMap [("matchLabels", AMap
               [(naming.LabelModelDeployment, AStr (smi_Name i)); (naming.LabelComponent, AStr ComponentMetrics)])]);
            ("namespaceSelector", AMap [("matchNames", AList [AStr (smi_Namespace i)])]);
            ("podTargetLabels", AList [AStr naming.LabelVariant; AStr naming.LabelRevision]);
            ("endpoints", AList (endpoints (smi_ShimEnabled i) (smi_Spec i)))])].

(** ** SLO rules (prometheusrule.go) *)

Definition recordTTFTSLI : string := "llmcp:ttft_sli:ratio_rate".
Definition recordAvailSLI : string := "llmcp:availability_sli:ratio_rate".
Definition recordTTFTObjective : string := "llmcp:slo_ttft:objective".
Definition recordAvailabilityObjective : string := "llmcp:slo_availability:objective".

Record burnWindow := MkBurnWindow {
  bw_Name : string; bw_Factor : f64.t; bw_Long : string; bw_Short : string;
  bw_Severity : string; bw_For : string }.

Definition fastBurnLadder : list burnWindow :=
  [MkBurnWindow "FastBurn" (metrics.lit 144 10) "1h" "5m" severityCritical "2m";
   MkBurnWindow "SlowBurn" (f64.of_Z 6) "6h" "30m" severityWarning "15m"].

Definition longBurnLadder : list burnWindow :=
  [MkBurnWindow "SlowBurnDaily" (f64.of_Z 3) "1d" "2h" severityWarning "1h";
   MkBurnWindow "SlowBurnWeekly" (f64.of_Z 1) "3d" "6h" severityInfo "3h"].

Definition fastRecordingWindows : list string := ["5m"; "30m"; "1h"; "6h"].
Definition longRecordingWindows : list string := ["2h"; "6h"; "1d"; "3d"].

Record PrometheusRuleInput := MkPrometheusRuleInput {
  pri_Name : string; pri_Namespace : string; pri_Model : string; pri_OwnerRef : OwnerReference;
  pri_Spec : option ObservabilitySpec }.

Definition slo_spec (o : option ObservabilitySpec) : option SLOSpec :=
  match o with Some o => ob_SLO o | None => None end.

Definition SnappedThreshold (spec : option ObservabilitySpec) : f64.t * bool :=
  metrics.SnapToBucket (ResolvedTTFTThreshold (slo_spec spec)) metrics.TTFTBuckets.

Definition FormatBucket (v : f64.t) : string := gofmt.FormatFloat_f v.

Definition formatG (v : f64.t) : string := gofmt.FormatFloat_g 6 v.

Definition resourceSelector (i : PrometheusRuleInput) : string :=
  metrics.LabelNamespace +:+ "=" +:+ gofmt.Quote (pri_Namespace i) +:+ ","
  +:+ metrics.LabelModelDeployment +:+ "=" +:+ gofmt.Quote (pri_Name i).

Definition ruleIdentityLabels (i : PrometheusRuleInput) : any :=
  AMap [(metrics.LabelNamespace, AStr (pri_Namespace i)); (metrics.LabelModelDeployment, AStr (pri_Name i));
        (metrics.LabelModel, AStr (pri_Model i))].

(** A rule: its name and its content. *)
Definition rule (name expr : string) (labels : any) : any :=
  AMap [(fieldRecord, AStr name); (fieldExpr, AStr expr); (fieldLabels, labels)].

Definition ttft_rule (i : PrometheusRuleInput) (le w : string) : any :=
  let sel := resourceSelector i in
  let t := metrics.TTFTSeconds in
  rule (recordTTFTSLI +:+ w)
    ("1 - (clamp_min(sum(rate(" +:+ t +:+ "_count{" +:+ sel +:+ "}[" +:+ w +:+ "])) - sum(rate(" +:+ t
     +:+ "_bucket{" +:+ sel +:+ ",le=" +:+ gofmt.Quote le +:+ "}[" +:+ w +:+ "])), 0) "
     +:+ "/ clamp_min(sum(rate(" +:+ t +:+ "_count{" +:+ sel +:+ "}[" +:+ w +:+ "])), 1e-9))")
    (ruleIdentityLabels i).

Definition avail_rule (i : PrometheusRuleInput) (w : string) : any :=
  let sel := resourceSelector i in
  let t := metrics.RequestsTotal in
  rule (recordAvailSLI +:+ w)
    ("1 - ((sum(rate(" +:+ t +:+ "{" +:+ sel +:+ "," +:+ metrics.LabelCode +:+ "=~" +:+ dq +:+ "5.." +:+ dq
     +:+ "}[" +:+ w +:+ "])) or vector(0)) "
     +:+ "/ clamp_min(sum(rate(" +:+ t +:+ "{" +:+ sel +:+ "}[" +:+ w +:+ "])), 1e-9))")
    (ruleIdentityLabels i).

Definition objective_rule (i : PrometheusRuleInput) (name : string) (value : f64.t) : any :=
  rule name ("vector(" +:+ formatG value +:+ ")") (ruleIdentityLabels i).

Definition recordingRules (i : PrometheusRuleInput) (threshold : f64.t) (windows : list string) : list any :=
  let le := FormatBucket threshold in
  let s := slo_spec (pri_Spec i) in
  map (ttft_rule i le) windows ++ map (avail_rule i) windows
  ++ [objective_rule i recordTTFTObjective (ResolvedTTFTObjective s);
      objective_rule i recordAvailabilityObjective (ResolvedAvailabilityObjective s)].

Record burnAlertInput := MkBurnAlertInput {
  ba_Alert : string; ba_Record : string; ba_Objective : f64.t; ba_Rung : burnWindow;
  ba_MD : PrometheusRuleInput; ba_Summary : string; ba_Description : string; ba_SLO : string }.

(** The burn rate above which an alert fires. *)
Definition burn_limit (objective factor : f64.t) : f64.t := f64.mul factor (f64.sub f64.one objective).

Definition newline : string := String (Ascii.ascii_of_nat 10) "".

Definition burn_expr (record : string) (rung : burnWindow) (sel : string) (limit : f64.t) : string :=
  "(1 - " +:+ record +:+ bw_Long rung +:+ "{" +:+ sel +:+ "}) > " +:+ formatG limit +:+ newline +:+ "and"
  +:+ newline +:+ "(1 - " +:+ record +:+ bw_Short rung +:+ "{" +:+ sel +:+ "}) > " +:+ formatG limit.

Definition burnAlert (i : burnAlertInput) : any :=
  let limit := burn_limit (ba_Objective i) (bw_Factor (ba_Rung i)) in
  AMap [(fieldAlert, AStr (ba_Alert i));
        (fieldExpr, AStr (burn_expr (ba_Record i) (ba_Rung i) (resourceSelector (ba_MD i)) limit));
        (fieldFor, AStr (bw_For (ba_Rung i)));
        (fieldLabels, AMap
           [(labelSeverity, AStr (bw_Severity (ba_Rung i))); (labelSLO, AStr (ba_SLO i));
            (metrics.LabelModel, AStr (pri_Model (ba_MD i)));
            (metrics.LabelModelDeployment, AStr (pri_Name (ba_MD i)));
            (fieldNamespace, AStr (pri_Namespace (ba_MD i)))]);
        (fieldAnnotations, AMap
           [(annotationSummary, AStr (ba_Summary i)); (annotationDesc, AStr (ba_Description i));
            (annotationRunbook, AStr runbookURL)])].

Definition noTrafficAlert (i : PrometheusRuleInput) : any :=
  AMap [(fieldAlert, AStr alertNoTraffic);
        (fieldExpr, AStr ("sum(rate(" +:+ metrics.RequestsTotal +:+ "{" +:+ resourceSelector i
           +:+ "}[10m])) == 0 and on() (sum(" +:+ metrics.ShimInfo +:+ "{" +:+ resourceSelector i +:+ "}) > 0)"));
        (fieldFor, AStr "15m");
        (fieldLabels, AMap
           [(labelSeverity, AStr severityWarning); (labelSLO, AStr "traffic");
            (metrics.LabelModel, AStr (pri_Model i)); (metrics.LabelModelDeployment, AStr (pri_Name i));
            (fieldNamespace, AStr (pri_Namespace i))]);
        (fieldAnnotations, AMap
           [(annotationSummary, AStr (pri_Name i +:+ " has shims reporting but no requests for 10 minutes"));
            (annotationDesc, AStr ("The pods are up and being scraped, but nothing is reaching them. "
               +:+ "Every SLO for this deployment currently evaluates to a perfect score because "
               +:+ "both SLIs are ratios over zero traffic — so this alert, not those, is the one "
               +:+ "that can tell you the difference between 'no problems' and 'no data'."));
            (annotationRunbook, AStr runbookURL)])].

(** The [%.4g] verb. *)
Definition g4 (x : f64.t) : string := gofmt.FormatFloat_g 4 x.

Definition ttft_alert (i : PrometheusRuleInput) (objective threshold : f64.t) (r : burnWindow) : burnAlertInput :=
  MkBurnAlertInput ("LLMCPTTFTBudget" +:+ bw_Name r) recordTTFTSLI objective r i
    ("Time-to-first-token budget for " +:+ pri_Name i +:+ " is burning at " +:+ g4 (bw_Factor r) +:+ "x")
    ("Over the last " +:+ bw_Long r +:+ " and the last " +:+ bw_Short r +:+ ", more than " +:+ g4 (bw_Factor r)
     +:+ "x the allowed share of requests " +:+ "took longer than " +:+ gofmt.Sprint_g threshold
     +:+ "s to produce their first token. The " +:+ g4 (f64.mul objective (f64.of_Z 100))
     +:+ "% objective's error " +:+ "budget is being consumed " +:+ g4 (bw_Factor r) +:+ "x faster than sustainable.")
    "ttft".

Definition avail_alert (i : PrometheusRuleInput) (objective : f64.t) (r : burnWindow) : burnAlertInput :=
  MkBurnAlertInput ("LLMCPAvailabilityBudget" +:+ bw_Name r) recordAvailSLI objective r i
    ("Availability budget for " +:+ pri_Name i +:+ " is burning at " +:+ g4 (bw_Factor r) +:+ "x")
    ("Over the last " +:+ bw_Long r +:+ " and the last " +:+ bw_Short r +:+ ", more than " +:+ g4 (bw_Factor r)
     +:+ "x the allowed share of requests " +:+ "failed with a 5xx. The " +:+ g4 (f64.mul objective (f64.of_Z 100))
     +:+ "% objective's error budget is being consumed " +:+ g4 (bw_Factor r) +:+ "x faster than sustainable.")
    "availability".

Definition alertRules (i : PrometheusRuleInput) (ttftObj availObj threshold : f64.t)
    (ladder : list burnWindow) : list any :=
  map (fun r => burnAlert (ttft_alert i ttftObj threshold r)) ladder
  ++ map (fun r => burnAlert (avail_alert i availObj r)) ladder
  ++ [noTrafficAlert i].

Fixpoint dedupe_from (seen : list string) (l : list string) : list string :=
  match l with
  | [] => []
  | v :: l' => if bool_decide (v ∈ seen) then dedupe_from seen l' else v :: dedupe_from (v :: seen) l'
  end.

Definition dedupe (l : list string) : list string := dedupe_from [] l.

Definition windows_of (long : bool) : list string :=
  dedupe (fastRecordingWindows ++ (if long then longRecordingWindows else [])).

Definition ladder_of (long : bool) : list burnWindow :=
  fastBurnLadder ++ (if long then longBurnLadder else []).

Definition sli_rules (i : PrometheusRuleInput) : list any :=
  recordingRules i (fst (SnappedThreshold (pri_Spec i))) (windows_of (LongWindowAlertsEnabled (pri_Spec i))).

Definition slo_alerts (i : PrometheusRuleInput) : list any :=
  let s := slo_spec (pri_Spec i) in
  alertRules i (ResolvedTTFTObjective s) (ResolvedAvailabilityObjective s)
    (fst (SnappedThreshold (pri_Spec i))) (ladder_of (LongWindowAlertsEnabled (pri_Spec i))).

Definition BuildPrometheusRule (i : PrometheusRuleInput) : any :=
  let extra := match pri_Spec i with
               | Some o => match ob_PrometheusRule o with Some p => pr_Labels p | None => ∅ end
               | None => ∅
               end in
  let labels := extra ∪ <[naming.LabelComponent := ComponentSLO]> (naming.CommonLabels (pri_Name i)) in
  AMap [(fieldAPIVersion, AStr (MonitoringGroup +:+ "/" +:+ MonitoringVersion));
        (fieldKind, AStr KindPrometheusRule);
        (fieldMetadata, AMap
           [(fieldName, AStr (naming.PrometheusRule enc (pri_Name i)));
            (fieldNamespace, AStr (pri_Namespace i)); (fieldLabels, toStringMap labels);
            (fieldOwnerReferences, AList [ownerRefMap (pri_OwnerRef i)])]);
        (fieldSpec, AMap [(fieldGroups, AList
           [AMap [(fieldName, AStr (pri_Name i +:+ ".sli")); (fieldInterval, AStr "30s");
                  (fieldRules, AList (sli_rules i))];
            AMap [(fieldName, AStr (pri_Name i +:+ ".slo")); (fieldInterval, AStr "30s");
                  (fieldRules, AList (slo_alerts i))]])])].

End Rendering.

(** ** Lemmas *)

(** The text of a field of a map. *)
Definition field (k : string) (a : any) : option string :=
  match a with
  | AMap m => match List.find (fun kv => kv.1 == k) m with Some (_, AStr s) => Some s | _ => None end
  | _ => None
  end.

Definition record_names (rules : list any) : list string := omap (field fieldRecord) rules.

Lemma record_names_map (rule_of : string -> any) (name : string -> string) ws :
  (forall w, field fieldRecord (rule_of w) = Some (name w)) ->
  omap (field fieldRecord) (map rule_of ws) = map name ws.
Proof. intros H. induction ws as [|w ws IH]; [done|]. cbn [map omap list_omap]. by rewrite H, IH. Qed.

Lemma record_names_rules i threshold windows :
  record_names (recordingRules i threshold windows)
  = map (fun w => recordTTFTSLI +:+ w) windows ++ map (fun w => recordAvailSLI +:+ w) windows
    ++ [recordTTFTObjective; recordAvailabilityObjective].
Proof.
  unfold record_names, recordingRules. rewrite !omap_app.
  rewrite (record_names_map _ (fun w => recordTTFTSLI +:+ w)), (record_names_map _ (fun w => recordAvailSLI +:+ w))
    by reflexivity. reflexivity.
Qed.

(** Every window of the ladder is recorded, and no window twice. *)
Lemma ladder_windows_recorded long :
  Forall (fun r => In (bw_Long r) (windows_of long) /\ In (bw_Short r) (windows_of long)) (ladder_of long)
  /\ NoDup (record_names (recordingRules (MkPrometheusRuleInput "" "" "" (MkOwnerReference "" "" "" "" true true) None)
               f64.zero (windows_of long))).
Proof.
  split.
  - destruct long; unfold ladder_of, fastBurnLadder, longBurnLadder; cbn [app];
      repeat (apply Forall_cons_2; [split; cbn [bw_Long bw_Short]; vm_compute; tauto|]); apply Forall_nil_2.
  - rewrite record_names_rules. apply (bool_decide_unpack _). destruct long; vm_compute; done.
Qed.

Lemma SFeqb_finite s m e x : SpecFloat.SFeqb (SpecFloat.S754_finite s m e) x = true -> x = SpecFloat.S754_finite s m e.
Proof.
  unfold SpecFloat.SFeqb, SpecFloat.SFcompare. destruct x as [?|?| |s' m' e']; try (by destruct s).
  - by destruct s, s0.
  - destruct s, s'; try done; destruct (e ?= e') eqn:Ee; try done; apply Z.compare_eq in Ee as <-;
      change (Pos.compare_cont Eq m m') with (m ?= m')%positive;
      destruct (m ?= m')%positive eqn:Em; cbn; try done; by apply Pos.compare_eq in Em as <-.
Qed.

(** The interval and the timeout a ServiceMonitor asks for. *)
Lemma round_seconds_mono a b : 0 < a <= b -> b <= int64_max -> round_seconds a <= round_seconds b.
Proof.
  intros [Ha Hab] Hb. unfold round_seconds. set (S := time.Second). assert (HS : 0 < S) by done.
  pose proof (Z.div_mod a S ltac:(lia)) as Da. pose proof (Z.div_mod b S ltac:(lia)) as Db.
  pose proof (Z.mod_pos_bound a S HS). pose proof (Z.mod_pos_bound b S HS).
  pose proof (Z.div_le_mono a b S HS Hab).
  assert (Hup : forall x, (x + S - x mod S) / S = x / S + 1).
  { intros x. rewrite <- (Z.div_add x 1 S) by lia. pose proof (Z.div_mod x S ltac:(lia)).
    replace (x + S - x mod S) with ((x / S + 1) * S) by lia. rewrite Z.div_mul by lia.
    rewrite Z.div_add by lia. done. }
  pose proof (Z.div_mod int64_max S ltac:(lia)). pose proof (Z.mod_pos_bound int64_max S HS).
  pose proof (Z.div_le_mono a int64_max S HS ltac:(lia)). pose proof (Z.div_le_mono b int64_max S HS Hb).
  assert (int64_max mod S + int64_max mod S >= S) by (vm_compute; discriminate).
  rewrite !Hup.
  destruct (Z.ltb_spec (a mod S + a mod S) S), (Z.ltb_spec (b mod S + b mod S) S),
    (Z.ltb_spec int64_max (a + S - a mod S)), (Z.ltb_spec int64_max (b + S - b mod S)); nia.
Qed.

Lemma scrapeTimings_bounds spec :
  (forall m, monitor_spec spec = Some m ->
     from_ptr 0 (sm_Interval m) <= int64_max /\ from_ptr 0 (sm_ScrapeTimeout m) <= int64_max) ->
  let '(interval, timeout) := scrapeTimings spec in 0 < timeout <= interval /\ interval <= int64_max.
Proof.
  intros H. unfold scrapeTimings. destruct (monitor_spec spec) as [m|]; [|done].
  destruct (H m eq_refl) as [H1 H2].
  set (i := match sm_Interval m with Some x => _ | None => _ end).
  set (t := match sm_ScrapeTimeout m with Some x => _ | None => _ end).
  assert (0 < i <= int64_max).
  { subst i. destruct (sm_Interval m) as [x|]; [|done]. cbn in H1. destruct (Z.ltb_spec 0 x); done. }
  assert (0 < t) by (subst t; destruct (sm_ScrapeTimeout m) as [x|]; [destruct (Z.ltb_spec 0 x)|]; done).
  destruct (Z.ltb_spec i t); lia.
Qed.

(** ** Properties *)

(** C33: every series an alert reads is recorded.  Each alert of a rendered rule
    is the traffic alert or a burn-rate alert over two windows of one SLI, and
    the recording rules of the same object define that SLI over both windows,
    each name once, with the selector's identity. *)
Theorem alerts_read_recorded_series i a :
  In a (slo_alerts i) ->
  (a = noTrafficAlert i
   \/ exists record rung limit,
        field fieldExpr a = Some (burn_expr record rung (resourceSelector i) limit)
        /\ In (record +:+ bw_Long rung) (record_names (sli_rules i))
        /\ In (record +:+ bw_Short rung) (record_names (sli_rules i)))
  /\ NoDup (record_names (sli_rules i)).
Proof.
  unfold slo_alerts, sli_rules, alertRules. rewrite record_names_rules.
  destruct (ladder_windows_recorded (LongWindowAlertsEnabled (pri_Spec i))) as [Hl Hn].
  rewrite record_names_rules in Hn. intros H. split; [|done]. rewrite List.Forall_forall in Hl.
  apply in_app_iff in H as [H|H]; [|apply in_app_iff in H as [H|[H|[]]]; [|by left]];
    apply in_map_iff in H as (r & <- & Hr); apply Hl in Hr as [H1 H2]; right;
    eexists _, r, _; (split; [reflexivity|]); rewrite !in_app_iff, !in_map_iff; cbn [ba_Record ttft_alert avail_alert].
  - split; left; by eexists.
  - split; right; left; by eexists.
Qed.

(** The first alert of a rule without any setting burns the latency budget over
    an hour and five minutes. *)
Lemma alerts_read_recorded_series_witness :
  let i := MkPrometheusRuleInput "demo" "default" "qwen" (MkOwnerReference "" "" "" "" true true) None in
  exists a, head (slo_alerts i) = Some a /\ a <> noTrafficAlert i
  /\ exists record rung, In (record +:+ bw_Long rung) (record_names (sli_rules i)).
Proof.
  intros i. destruct (slo_alerts i) as [|a l] eqn:E; [exfalso; clear -E; discriminate E|].
  assert (Ha : a <> noTrafficAlert i).
  { intros ->. apply (f_equal (fun l => match l with AMap ((_, AStr n) :: _) :: _ => n | _ => "" end)) in E.
    vm_compute in E. discriminate E. }
  exists a. split; [reflexivity|]. split; [exact Ha|].
  destruct (alerts_read_recorded_series i a) as [[H|(record & rung & limit & _ & H & _)] _].
  - rewrite E. by left.
  - by destruct Ha.
  - exists record, rung. exact H.
Defined.

(** The latency SLI selects a bucket that exists.  Whatever threshold the
    spec asks for, the [le] value of the rules is the text of a histogram
    boundary. *)
Theorem le_is_a_boundary spec :
  In (FormatBucket (fst (SnappedThreshold spec))) (map FormatBucket metrics.TTFTBuckets).
Proof.
  unfold SnappedThreshold. set (t := ResolvedTTFTThreshold _). rewrite metrics.SnapToBucket_nonempty by done.
  assert (Hat : forall k, (k < length metrics.TTFTBuckets)%nat ->
                  In (metrics.elem_at metrics.TTFTBuckets k) metrics.TTFTBuckets).
  { intros k Hk. unfold metrics.elem_at. destruct (metrics.TTFTBuckets !! k) eqn:E.
    - change (In t0 metrics.TTFTBuckets). apply list_elem_of_In. by eapply list_elem_of_lookup_2.
    - apply lookup_ge_None in E. lia. }
  unfold metrics.BinarySearch. cbv zeta. set (k := metrics.bsearch _ _ _ _).
  destruct (Nat.ltb_spec k (length metrics.TTFTBuckets)) as [Hk|Hk]; cbn [andb].
  - destruct (_ || _) eqn:E; cbn [fst].
    + assert (Hf : Forall (fun x => match x with SpecFloat.S754_finite _ _ _ => True | _ => False end) metrics.TTFTBuckets)
        by (vm_compute; repeat constructor).
      rewrite List.Forall_forall in Hf. specialize (Hf _ (Hat k Hk)).
      destruct (metrics.elem_at metrics.TTFTBuckets k) as [| | |s m e] eqn:Ex; try done.
      apply orb_true_iff in E as [E|E]; [|done]. apply SFeqb_finite in E. subst t. rewrite E, <- Ex.
      by apply in_map, Hat.
    + rewrite (proj2 (Nat.leb_gt _ _) Hk). cbn [fst]. by apply in_map, Hat.
  - rewrite (proj2 (Nat.leb_le _ _) Hk). cbn [fst]. apply in_map, Hat. cbn. lia.
Qed.

(** An objective never leaves the open unit interval, so the error budget of
    a burn-rate alert is never zero or negative. *)
Theorem objective_in_unit s :
  f64.leb (ResolvedTTFTObjective s) f64.zero = false /\ f64.leb f64.one (ResolvedTTFTObjective s) = false
  /\ f64.leb (ResolvedAvailabilityObjective s) f64.zero = false
  /\ f64.leb f64.one (ResolvedAvailabilityObjective s) = false.
Proof.
  assert (H : forall q m, f64.leb (milli_float m) f64.zero = false -> f64.leb f64.one (milli_float m) = false ->
    f64.leb (objectiveOr q m) f64.zero = false /\ f64.leb f64.one (objectiveOr q m) = false).
  { intros q m H1 H2. unfold objectiveOr. destruct q as [q|]; [|done]. cbv zeta.
    destruct (_ || _) eqn:E; [done|]. by apply orb_false_iff in E. }
  unfold ResolvedTTFTObjective, ResolvedAvailabilityObjective. destruct s as [s|];
    (split; [|split; [|split]]); apply H; vm_compute; done.
Qed.

(** The scrape of the sidecar is never rejected: its timeout never exceeds
    its interval, as rendered in seconds. *)
Theorem shim_scrape_accepted spec :
  (forall m, monitor_spec spec = Some m ->
     from_ptr 0 (sm_Interval m) <= int64_max /\ from_ptr 0 (sm_ScrapeTimeout m) <= int64_max) ->
  let '(interval, timeout) := scrapeTimings spec in 1 <= seconds_of timeout <= seconds_of interval.
Proof.
  intros H. apply scrapeTimings_bounds in H. destruct (scrapeTimings spec) as [interval timeout].
  destruct H as [H1 H2]. pose proof (round_seconds_mono timeout interval H1 H2). unfold seconds_of. lia.
Qed.

(** The scrape of the engine can be rejected.  The engine endpoint has its
    own fixed interval but takes the timeout that was clamped to the sidecar's:
    with a scrape interval of one minute and a timeout of 45 seconds, its
    timeout exceeds its interval. *)
Theorem engine_scrape_rejected :
  exists spec, EngineMetricsScraped spec = true
  /\ let '(interval, timeout) := scrapeTimings spec in
     seconds_of timeout <= seconds_of interval
     /\ endpoints true spec = [shimEndpoint interval timeout; engineEndpoint timeout]
     /\ field fieldInterval (engineEndpoint timeout) = Some "30s"
     /\ field fieldScrapeTimeout (engineEndpoint timeout) = Some "45s".
Proof.
  exists (Some (MkObservabilitySpec
    (Some (MkServiceMonitorSpec None (Some (60 * time.Second)) (Some (45 * time.Second)) ∅ None)) None None)).
  vm_compute. repeat split; discriminate.
Qed.

End observability.
