(* ===== verification/Discovery.v ===== *)
(** * Discovery of optional kinds (internal/discovery)

    [Prober.Has] asks the API server whether it serves a kind and remembers the
    answer, a yes longer than a no; a failure to ask is an error and is not
    remembered.  The discovery client and the clock are parameters over a
    world [W].  The body of [Has] is written once, as the program [has] over its
    three steps - the two critical sections of the prober's mutex, [lookup] and
    [store], and the request between them: [Has] runs it alone, and the relation
    [step] interleaves the steps of any number of callers. *)

From S2P Require Import Prelude GoStrings ApiTypes KubeTypes Observability.
Local Open Scope Z_scope.
Local Open Scope go_scope.

Module discovery.
Import observability.

Definition PresentTTL : time.Duration := 10 * time.Minute.
Definition AbsentTTL : time.Duration := 30 * time.Second.

Record entry := MkEntry { en_present : bool; en_expiresAt : time.Time }.

Record Prober := MkProber {
  p_presentTTL : time.Duration; p_absentTTL : time.Duration; p_cache : gmap GVK entry }.

Definition NewFor : Prober := MkProber PresentTTL AbsentTTL ∅.

Definition WithTTLs (present absent : time.Duration) (p : Prober) : Prober :=
  MkProber present absent (p_cache p).

Definition ttl (p : Prober) (present : bool) : time.Duration :=
  if present then p_presentTTL p else p_absentTTL p.

(** [schema.GroupVersion.String]. *)
Definition gv_string (gv : string * string) : string :=
  if gv.1 == "" then gv.2 else gv.1 +:+ "/" +:+ gv.2.

Definition GroupVersion (gvk : GVK) : string * string := gvk.1.
Definition Kind (gvk : GVK) : string := gvk.2.

(** An error of the discovery client: its text, whether [apierrors.IsNotFound]
    holds of it, and, when it is an [ErrGroupDiscoveryFailed], the failed groups
    in the order the map is visited, each with whether its cause is a
    [NotFound]. *)
Record ClientError := MkClientError {
  ce_Text : string; ce_NotFound : bool; ce_Groups : option (list ((string * string) * bool)) }.

Fixpoint group_cause (groups : list ((string * string) * bool)) (gv : string) : bool :=
  match groups with
  | [] => false
  | (failed, notFound) :: groups' => if gv_string failed == gv then notFound else group_cause groups' gv
  end.

Definition isGroupDiscoveryFailure (e : ClientError) (gv : string) : bool :=
  match ce_Groups e with
  | None => false
  | Some groups => group_cause groups gv
  end.

(** What an answer of the server says about a kind; the resources of a group
    version are their kinds. *)
Definition conclude (gvk : GVK) (answer : list string + ClientError) : bool + string :=
  let gv := gv_string (GroupVersion gvk) in
  match answer with
  | inr e =>
      if ce_NotFound e || isGroupDiscoveryFailure e gv then inl false
      else inr ("discovering " +:+ gv +:+ ": " +:+ ce_Text e)
  | inl kinds => inl (existsb (fun k => k == Kind gvk) kinds)
  end.

(** The critical sections of the mutex, at a reading of the clock. *)
Definition lookup (now : time.Time) (p : Prober) (gvk : GVK) : option bool :=
  match p_cache p !! gvk with
  | None => None
  | Some e => if negb (time.Before now (en_expiresAt e)) then None else Some (en_present e)
  end.

Definition store (now : time.Time) (p : Prober) (gvk : GVK) (present : bool) : Prober :=
  MkProber (p_presentTTL p) (p_absentTTL p)
    (<[gvk := MkEntry present (time.Add now (ttl p present))]> (p_cache p)).

Definition Invalidate (p : Prober) (gvk : GVK) : Prober :=
  MkProber (p_presentTTL p) (p_absentTTL p) (delete gvk (p_cache p)).

(** A method of the prober, up to its next step: a critical section, a request
    to the API server, or the return. *)
Inductive prog :=
  | OpLookup (gvk : GVK) (k : option bool -> prog)
  | OpAsk (gv : string) (k : list string + ClientError -> prog)
  | OpStore (gvk : GVK) (present : bool) (k : prog)
  | OpReturn (r : bool + string).

(** The body of [Has]. *)
Definition has (gvk : GVK) : prog :=
  OpLookup gvk (fun cached =>
    match cached with
    | Some b => OpReturn (inl b)
    | None =>
        OpAsk (gv_string (GroupVersion gvk)) (fun answer =>
          match conclude gvk answer with
          | inr err => OpReturn (inr err)
          | inl present => OpStore gvk present (OpReturn (inl present))
          end)
    end).

Section Prober.
Context {W : Type} (Now : W -> W * time.Time).
Context (ServerResourcesForGroupVersion : W -> string -> W * (list string + ClientError)).

(** A method run alone.  The clock is read by [lookup] only for a kind in the
    cache. *)
Fixpoint exec (m : prog) (w : W) (p : Prober) : (W * Prober) * (bool + string) :=
  match m with
  | OpLookup gvk k =>
      let (w, cached) :=
        match p_cache p !! gvk with
        | None => (w, None)
        | Some _ => let (w, now) := Now w in (w, lookup now p gvk)
        end in
      exec (k cached) w p
  | OpAsk gv k => let (w, answer) := ServerResourcesForGroupVersion w gv in exec (k answer) w p
  | OpStore gvk present k => let (w, now) := Now w in exec k w (store now p gvk present)
  | OpReturn r => ((w, p), r)
  end.

Definition Has (w : W) (p : Prober) (gvk : GVK) : (W * Prober) * (bool + string) := exec (has gvk) w p.
End Prober.

(** [Static]: fixed answers. *)
Record Static := MkStatic { st_Present : gmap GVK bool; st_Err : option string }.

Definition Static_Has (s : Static) (gvk : GVK) : bool + string :=
  match st_Err s with
  | Some e => inr e
  | None => inl (default false (st_Present s !! gvk))
  end.

(** ** Interleaved callers *)

(** The clock, the prober, and where each call of [Has] in progress stands. *)
Record shared := MkShared { sh_now : time.Time; sh_prober : Prober; sh_calls : list prog }.

(** One step of one caller, or of the world around them.
    [served t gv answer]: at time [t] the API server answered [answer], an error
    of the client included, to a request for the group version [gv].  A caller
    that has its answer may wait any time before its next step. *)
Inductive step (served : time.Time -> string -> list string + ClientError -> Prop) : shared -> shared -> Prop :=
  | step_tick now now' p cs : now <= now' -> step served (MkShared now p cs) (MkShared now' p cs)
  | step_call now p cs gvk : step served (MkShared now p cs) (MkShared now p (has gvk :: cs))
  | step_lookup now p cs1 gvk k cs2 :
      step served (MkShared now p (cs1 ++ OpLookup gvk k :: cs2))
        (MkShared now p (cs1 ++ k (lookup now p gvk) :: cs2))
  | step_ask now p cs1 gv k cs2 answer :
      served now gv answer ->
      step served (MkShared now p (cs1 ++ OpAsk gv k :: cs2)) (MkShared now p (cs1 ++ k answer :: cs2))
  | step_store now p cs1 gvk b k cs2 :
      step served (MkShared now p (cs1 ++ OpStore gvk b k :: cs2)) (MkShared now (store now p gvk b) (cs1 ++ k :: cs2))
  | step_invalidate now p cs gvk : step served (MkShared now p cs) (MkShared now (Invalidate p gvk) cs).

Definition initial (now : time.Time) (present absent : time.Duration) : shared :=
  MkShared now (WithTTLs present absent NewFor) [].

(** ** Lemmas *)

(** What an answer must say to be evidence for [b]: a kind is there when its
    group version lists it, and not there when it does not or when the group
    version itself is not served.  Any other failure is evidence for nothing. *)
Definition evidence (gvk : GVK) (b : bool) (answer : list string + ClientError) : Prop :=
  match answer with
  | inl kinds => b = true <-> In (Kind gvk) kinds
  | inr e => b = false /\ (ce_NotFound e = true \/ isGroupDiscoveryFailure e (gv_string (GroupVersion gvk)) = true)
  end.

Lemma conclude_evidence gvk answer :
  match conclude gvk answer with
  | inl b => evidence gvk b answer
  | inr _ => exists e, answer = inr e /\ ce_NotFound e = false
                /\ isGroupDiscoveryFailure e (gv_string (GroupVersion gvk)) = false
  end.
Proof.
  unfold conclude. destruct answer as [kinds|e]; cbn.
  - rewrite existsb_exists. split.
    + intros (k & Hin & Hk). apply bool_decide_eq_true in Hk as <-. done.
    + intros Hin. exists (Kind gvk). split; [done|]. by apply bool_decide_eq_true.
  - destruct (_ || _) eqn:E; [split; [done|by apply orb_true_iff in E]|].
    exists e. split; [done|]. by apply orb_false_iff in E.
Qed.

Section Interleaved.
Context (served : time.Time -> string -> list string + ClientError -> Prop) (present absent : time.Duration).

(** By [now], the server had given an answer that is evidence for [b]. *)
Definition grounded (now : time.Time) (gvk : GVK) (b : bool) : Prop :=
  exists asked answer, served asked (gv_string (GroupVersion gvk)) answer /\ evidence gvk b answer /\ asked <= now.

(** A call of [Has] in progress: one about to store an answer holds evidence. *)
Inductive in_progress (now : time.Time) : prog -> Prop :=
  | at_start gvk : in_progress now (has gvk)
  | at_server gvk :
      in_progress now (OpAsk (gv_string (GroupVersion gvk)) (fun answer =>
        match conclude gvk answer with
        | inr err => OpReturn (inr err)
        | inl b => OpStore gvk b (OpReturn (inl b))
        end))
  | at_store gvk b : grounded now gvk b -> in_progress now (OpStore gvk b (OpReturn (inl b)))
  | returned r : in_progress now (OpReturn r).

Lemma grounded_later now now' gvk b : now <= now' -> grounded now gvk b -> grounded now' gvk b.
Proof. intros Hle (t & a & ? & ? & ?). exists t, a. split_and!; [done|done|lia]. Qed.

Lemma in_progress_later now now' m : now <= now' -> in_progress now m -> in_progress now' m.
Proof. intros Hle []; constructor. by eapply grounded_later. Qed.

(** The lifetimes stay, every call is one of [Has], and every remembered answer
    was stored on evidence, for its lifetime. *)
Definition shared_inv (s : shared) : Prop :=
  p_presentTTL (sh_prober s) = present /\ p_absentTTL (sh_prober s) = absent
  /\ Forall (in_progress (sh_now s)) (sh_calls s)
  /\ (forall gvk e, p_cache (sh_prober s) !! gvk = Some e ->
        exists stored, grounded stored gvk (en_present e) /\ stored <= sh_now s
        /\ en_expiresAt e = stored + ttl (sh_prober s) (en_present e)).

(** One caller moves, the others stand. *)
Lemma move_call now cs1 m m' cs2 :
  (in_progress now m -> in_progress now m') ->
  Forall (in_progress now) (cs1 ++ m :: cs2) -> Forall (in_progress now) (cs1 ++ m' :: cs2).
Proof. rewrite !Forall_app, !Forall_cons. tauto. Qed.

Lemma step_inv s s' : shared_inv s -> step served s s' -> shared_inv s'.
Proof.
  intros (Hp & Ha & Hf & Hc) Hs.
  destruct Hs as [now now' p cs Hle|now p cs gvk|now p cs1 gvk k cs2|now p cs1 gv k cs2 answer Hsv|now p cs1 gvk b k cs2|now p cs gvk];
    unfold shared_inv; cbn [sh_now sh_prober sh_calls] in *; (split; [done|split; [done|split]]); try done.
  - eapply Forall_impl; [exact Hf|]. intros m. by apply in_progress_later.
  - intros g e He. destruct (Hc g e He) as (t & ? & ? & ?). exists t. split; [done|]. split; [lia|done].
  - apply Forall_cons. split; [constructor|done].
  - revert Hf. apply move_call. intros Hm. inversion Hm; subst. destruct (lookup now p gvk); constructor.
  - revert Hf. apply move_call. intros Hm. inversion Hm; subst.
    pose proof (conclude_evidence gvk answer) as Hev. destruct (conclude gvk answer) as [b|err]; constructor.
    by exists now, answer.
  - revert Hf. apply move_call. intros Hm. inversion Hm; subst. constructor.
  - assert (Hg : grounded now gvk b).
    { apply Forall_app in Hf as [_ Hf]. apply Forall_cons in Hf as [Hm _]. by inversion Hm. }
    intros g e He. cbn in He. destruct (decide (g = gvk)) as [->|Hne].
    + rewrite lookup_insert_eq in He. injection He as <-. by exists now.
    + rewrite lookup_insert_ne in He by done. by apply Hc.
  - intros g e He. cbn in He. apply lookup_delete_Some in He as [_ He]. by apply Hc.
Qed.

Lemma reachable_inv now s : rtc (step served) (initial now present absent) s -> shared_inv s.
Proof.
  intros H. assert (H0 : shared_inv (initial now present absent)) by (by split_and!).
  induction H as [|x y z Hxy _ IH]; [done|]. apply IH. by eapply step_inv.
Qed.
End Interleaved.

(** ** Properties *)

(** C25: an answer from the cache is fresh and was earned.  However calls of
    [Has] interleave - their lookups, requests and stores, and invalidations, at
    any instants - and whatever the server answers or fails to answer, what
    [lookup] returns rests on an answer of the server that says so: the kind
    listed for a yes; the kind not listed, or the group version not served, for a
    no; never another failure.  It was stored after that answer and less than its
    lifetime ago, so an absence is believed for at most the short one. *)
Theorem cached_answer_fresh served now present absent s gvk b :
  rtc (step served) (initial now present absent) s ->
  lookup (sh_now s) (sh_prober s) gvk = Some b ->
  exists asked answer stored, served asked (gv_string (GroupVersion gvk)) answer /\ evidence gvk b answer
  /\ asked <= stored <= sh_now s /\ sh_now s < stored + (if b then present else absent).
Proof.
  intros (Hp & Ha & _ & Hc)%reachable_inv Hl. unfold lookup, time.Before in Hl.
  destruct (p_cache (sh_prober s) !! gvk) as [e|] eqn:He; [|done].
  destruct (Z.ltb_spec (sh_now s) (en_expiresAt e)) as [Hlt|]; cbn in Hl; [|done]. injection Hl as <-.
  destruct (Hc gvk e He) as (stored & (asked & answer & Hsv & Hev & Hle) & Hst & Hexp). exists asked, answer, stored.
  split; [done|]. split; [done|]. split; [lia|]. unfold ttl in Hexp. destruct (en_present e); lia.
Qed.

(** A yes the server gave at time 5, to a lookup at time 3, is stored at time 7
    and still served ten minutes less a tick later. *)
Lemma cached_answer_fresh_witness :
  let served t (_ : string) (answer : list string + ClientError) := t = 5 /\ answer = inl ["ServiceMonitor"] in
  let now := 7 + PresentTTL - 1 in
  exists asked answer stored, served asked (gv_string (GroupVersion ServiceMonitorGVK)) answer
  /\ evidence ServiceMonitorGVK true answer /\ asked <= stored <= now /\ now < stored + PresentTTL.
Proof.
  intros served now.
  set (s := MkShared now (store 7 (WithTTLs PresentTTL AbsentTTL NewFor) ServiceMonitorGVK true) [OpReturn (inl true)]).
  apply (cached_answer_fresh served 3 PresentTTL AbsentTTL s ServiceMonitorGVK true).
  - eapply rtc_l; [apply (step_call served 3 _ [] ServiceMonitorGVK)|].
    eapply rtc_l; [apply (step_lookup served 3 _ [])|]. eapply rtc_l; [apply (step_tick served 3 5); lia|].
    eapply rtc_l; [apply (step_ask served 5 _ []); by split|]. eapply rtc_l; [apply (step_tick served 5 7); lia|].
    eapply rtc_l; [apply (step_store served 7 _ [])|].
    eapply rtc_l; [apply (step_tick served 7 now); by vm_compute|apply rtc_refl].
  - by vm_compute.
Defined.

(** Absence needs evidence, and a failure to ask teaches nothing.  When no
    cached answer applies, [Has] answers only what the server's answer is evidence
    for; and an error, which is any other failure, leaves the cache as it was. *)
Theorem absence_needs_evidence {W} Now SR (w : W) p gvk :
  let '((_, p'), r) := Has Now SR w p gvk in
  match r with
  | inl b =>
      p' = p /\ (exists now, lookup now p gvk = Some b)
      \/ exists w0 now, p' = store now p gvk b /\ evidence gvk b (snd (SR w0 (gv_string (GroupVersion gvk))))
  | inr _ =>
      p' = p /\ exists w0 e, snd (SR w0 (gv_string (GroupVersion gvk))) = inr e /\ ce_NotFound e = false
      /\ isGroupDiscoveryFailure e (gv_string (GroupVersion gvk)) = false
  end.
Proof.
  unfold Has. cbn [has exec].
  destruct (match p_cache p !! gvk with Some _ => _ | None => _ end) as [w1 c] eqn:Ec.
  destruct c as [b|]; cbn [exec].
  { left. split; [done|]. destruct (p_cache p !! gvk) eqn:E; [|done]. destruct (Now w) as [w2 now].
    exists now. by injection Ec. }
  clear Ec. pose proof (conclude_evidence gvk (snd (SR w1 (gv_string (GroupVersion gvk))))) as Hev.
  destruct (SR w1 (gv_string (GroupVersion gvk))) as [w2 answer] eqn:Ea. cbn [snd] in Hev.
  destruct (conclude gvk answer) as [b|err]; cbn [exec].
  - destruct (Now w2) as [w3 now]. right. exists w1, now. by rewrite Ea.
  - split; [done|]. destruct Hev as (e & -> & Hev). exists w1, e. by rewrite Ea.
Qed.

End discovery.
