(* ===== verification/ControllerObservability.v ===== *)
(** * The observability loop (internal/controller/observability.go)

    [reconcileObservability] keeps the ServiceMonitor and the PrometheusRule of
    one resource in step with its spec and reports the MetricsRegistered
    verdict.  The prober is the interface [Discovery] (Discovery.v gives the
    implementation); the API server is the class [MonitoringAPI] over a world
    [W], in which any other writer may act during any call.  What is assumed of
    it: an apply that names a resource version replaces only an object of that
    version, a delete that names a UID removes only an object of that UID, and
    every stored object has a version. *)

From S2P Require Import Prelude GoFmt GoStrings ApiTypes KubeTypes Naming ControllerStatus ControllerPlan ControllerChildren Observability Discovery.
Import v1alpha1.
Local Open Scope Z_scope.
Local Open Scope go_scope.

Module monitoring.
Import kube status slo observability discovery.

(** ** Objects and the API server *)

(** The metadata of a stored object. *)
Record Existing := MkExisting {
  ex_UID : string; ex_ResourceVersion : string; ex_Owners : list OwnerReference }.

(** [metav1.IsControlledBy]: the first controlling owner decides. *)
Definition IsControlledBy (ex : Existing) (md : ModelDeployment) : bool :=
  match List.find or_Controller (ex_Owners ex) with
  | Some ref => or_UID ref == md_UID md
  | None => false
  end.

Inductive ApiError := NotFound | NoMatch | OtherApiError (msg : string).

Definition absent_error (e : ApiError) : bool :=
  match e with NotFound | NoMatch => true | OtherApiError _ => false end.

Inductive Write :=
  | Created (content : any)
  | Applied (over : Existing) (content : any)
  | Deleted (over : Existing) (gvk : GVK) (namespace name : string).

Class MonitoringAPI (W : Type) := {
  GetObj : W -> GVK -> string -> string -> W * (Existing + ApiError);
  CreateObj : W -> any -> W * (Existing + ApiError);
  (** A forced apply with a resource version. *)
  ApplyObj : W -> any -> string -> W * option ApiError;
  (** A delete with a UID as precondition. *)
  DeleteObj : W -> GVK -> string -> string -> string -> W * option ApiError;
  ResetMapper : W -> W;
  errorText : ApiError -> string;
  writes : W -> list Write;
  get_quiet w g ns n : writes (fst (GetObj w g ns n)) = writes w;
  reset_quiet w : writes (ResetMapper w) = writes w;
  get_versioned w g ns n ex : snd (GetObj w g ns n) = inl ex -> ex_ResourceVersion ex <> "";
  create_versioned w d ex : snd (CreateObj w d) = inl ex -> ex_ResourceVersion ex <> "";
  create_effect w d :
    writes (fst (CreateObj w d)) = writes w \/ writes (fst (CreateObj w d)) = writes w ++ [Created d];
  apply_effect w d v :
    v <> "" ->
    writes (fst (ApplyObj w d v)) = writes w
    \/ exists cur, ex_ResourceVersion cur = v /\ writes (fst (ApplyObj w d v)) = writes w ++ [Applied cur d];
  apply_ok w d v :
    snd (ApplyObj w d v) = None -> exists cur, writes (fst (ApplyObj w d v)) = writes w ++ [Applied cur d];
  delete_effect w g ns n uid :
    writes (fst (DeleteObj w g ns n uid)) = writes w
    \/ exists cur, ex_UID cur = uid /\ writes (fst (DeleteObj w g ns n uid)) = writes w ++ [Deleted cur g ns n] }.

(** The prober as the controller sees it; [Invalidate] is optional.  Neither
    writes a monitoring object. *)
Record Discovery (W : Type) `{MonitoringAPI W} := MkDiscovery {
  d_Has : W -> GVK -> W * (bool + string);
  d_Invalidate : option (W -> GVK -> W);
  has_quiet w g : writes (fst (d_Has w g)) = writes w;
  invalidate_quiet w g f : d_Invalidate = Some f -> writes (f w g) = writes w }.
Arguments d_Has {W _}.
Arguments d_Invalidate {W _}.

(** ** Content of a rendered object *)

Fixpoint nested (path : list string) (a : any) : option any :=
  match path with
  | [] => Some a
  | k :: path' =>
      match a with
      | AMap m => match List.find (fun kv => kv.1 == k) m with Some (_, v) => nested path' v | None => None end
      | _ => None
      end
  end.

Definition nested_string (path : list string) (a : any) : string :=
  match nested path a with Some (AStr s) => s | _ => "" end.

(** [GroupVersionKind] of unstructured content. *)
Definition gvk_of (a : any) : GVK :=
  let apiVersion := nested_string [fieldAPIVersion] a in
  let kind := nested_string [fieldKind] a in
  let '(group, version, found) := gostrings.Cut apiVersion "/"%char in
  if found then (group, version, kind) else ("", apiVersion, kind).

Section Loop.
Context {W : Type} `{A : MonitoringAPI W} (prober : option (Discovery W)) (enc : string -> string).

Definition invalidateMissingObservabilityKind (w : W) (gvk : GVK) (err : option ApiError) : W :=
  match err with
  | None => w
  | Some e =>
      if negb (absent_error e) then w
      else
        let w :=
          match prober with
          | Some d => match d_Invalidate d with Some f => f w gvk | None => w end
          | None => w
          end in
        ResetMapper w
  end.

(** [applyObservabilityChild]; an error is its text. *)
Definition applyObservabilityChild (w : W) (md : ModelDeployment) (desired : any) : W * option string :=
  let gvk := gvk_of desired in
  let name := nested_string [fieldMetadata; fieldName] desired in
  let (w, got) := GetObj w gvk (nested_string [fieldMetadata; fieldNamespace] desired) name in
  let (w, existing) :=
    match got with
    | inr NotFound => CreateObj w desired
    | got => (w, got)
    end in
  match existing with
  | inr e => (invalidateMissingObservabilityKind w gvk (Some e), Some (errorText e))
  | inl existing =>
      if negb (IsControlledBy existing md) then
        (w, Some ("refusing to apply " +:+ Kind gvk +:+ " " +:+ name
                  +:+ ": object is not owned by this ModelDeployment"))
      else
        let (w, err) := ApplyObj w desired (ex_ResourceVersion existing) in
        (invalidateMissingObservabilityKind w gvk err, errorText <$> err)
  end.

Definition deleteObservabilityChild (w : W) (md : ModelDeployment) (gvk : GVK) (name : string) :
    W * option string :=
  let (w, got) := GetObj w gvk (md_Namespace md) name in
  match got with
  | inr e => (w, if absent_error e then None else Some (errorText e))
  | inl obj =>
      if negb (IsControlledBy obj md) then
        (w, Some ("refusing to delete " +:+ Kind gvk +:+ " " +:+ name
                  +:+ ": object is not owned by this ModelDeployment"))
      else
        let (w, err) := DeleteObj w gvk (md_Namespace md) name (ex_UID obj) in
        match err with
        | None => (w, None)
        | Some e =>
            if absent_error e then (w, None)
            else (w, Some ("deleting disabled " +:+ Kind gvk +:+ " " +:+ name +:+ ": " +:+ errorText e))
        end
  end.

Definition ownerReferenceFor (md : ModelDeployment) : OwnerReference :=
  MkOwnerReference children.apiVersion children.kindModelDeployment (md_Name md) (md_UID md) true true.

(** The two objects of a resource. *)
Definition servicemonitor_of (md : ModelDeployment) : any :=
  BuildServiceMonitor enc
    (MkServiceMonitorInput (md_Name md) (md_Namespace md) (ownerReferenceFor md)
       (Some (sp_Observability (md_Spec md))) (ShimEnabled (sp_Serving (md_Spec md)))).

Definition prometheusrule_of (md : ModelDeployment) : any :=
  BuildPrometheusRule enc
    (MkPrometheusRuleInput (md_Name md) (md_Namespace md) (model_Name (sp_Model (md_Spec md)))
       (ownerReferenceFor md) (Some (sp_Observability (md_Spec md)))).

Definition snapped_note (md : ModelDeployment) : string :=
  let (snapped, changed) := SnappedThreshold (Some (sp_Observability (md_Spec md))) in
  if changed then
    " (the TTFT threshold was snapped up to " +:+ gofmt.Sprint_g snapped
      +:+ "s, the nearest histogram bucket boundary at or above the configured value — a threshold "
      +:+ "between boundaries would select no bucket and the alert could never fire)"
  else "".

(** [reconcilePrometheusRule]: the message fragment, the status to report with
    an error, and the error. *)
Definition reconcilePrometheusRule (w : W) (md : ModelDeployment) :
    W * (string * ConditionStatus * option string) :=
  if negb (PrometheusRuleEnabled (sp_Observability (md_Spec md))) then
    let (w, err) := deleteObservabilityChild w md PrometheusRuleGVK (naming.PrometheusRule enc (md_Name md)) in
    match err with
    | Some e => (w, ("", ConditionFalse, Some e))
    | None => (w, ("; SLO rules disabled", ConditionTrue, None))
    end
  else
    match prober with
    | None => (w, ("; SLO rules not probed", ConditionUnknown, None))
    | Some d =>
        let (w, present) := d_Has d w PrometheusRuleGVK in
        match present with
        | inr e => (w, ("", ConditionUnknown, Some ("probing for " +:+ KindPrometheusRule +:+ ": " +:+ e)))
        | inl false => (w, ("; no PrometheusRule CRD in this cluster, so no SLO alerts", ConditionTrue, None))
        | inl true =>
            let (w, err) := applyObservabilityChild w md (prometheusrule_of md) in
            match err with
            | Some e => (w, ("", ConditionFalse, Some ("applying PrometheusRule: " +:+ e)))
            | None =>
                (w, ("; SLO rules in " +:+ naming.PrometheusRule enc (md_Name md) +:+ snapped_note md,
                     ConditionTrue, None))
            end
        end
    end.

(** [observabilityResync]: whether every enabled kind is served, asked in
    order until one is not. *)
Fixpoint all_served (w : W) (kinds : list (bool * GVK)) : W * bool :=
  match kinds with
  | [] => (w, true)
  | (on, gvk) :: kinds' =>
      if negb on then all_served w kinds'
      else
        match prober with
        | None => (w, false)
        | Some d =>
            let (w, present) := d_Has d w gvk in
            match present with
            | inl true => all_served w kinds'
            | _ => (w, false)
            end
        end
  end.

Definition jitter (md : ModelDeployment) : time.Duration :=
  270 * time.Second
  + Z.of_N (naming.Sum32 (md_UID md +:+ "/" +:+ md_Namespace md +:+ "/" +:+ md_Name md) mod 61) * time.Second.

Definition observabilityResync (w : W) (md : ModelDeployment) : W * time.Duration :=
  let o := sp_Observability (md_Spec md) in
  let enabled := [(ServiceMonitorEnabled o, ServiceMonitorGVK); (PrometheusRuleEnabled o, PrometheusRuleGVK)] in
  let (w, served) := all_served w enabled in
  if negb served then (w, AbsentTTL)
  else if negb (existsb fst enabled) then (w, 0)
  else (w, jitter md).

(** The body of [reconcileObservability], before its deferred resync: the
    verdict's status, reason and message, and the error. *)
Definition monitor_verdict (w : W) (md : ModelDeployment) :
    W * (ConditionStatus * string * string * option string) :=
  let '(w, (rulesMsg, rulesStatus, err)) := reconcilePrometheusRule w md in
  match err with
  | Some e => (w, (rulesStatus, ReasonReconciling, "Reconciling the PrometheusRule failed: " +:+ e, Some e))
  | None =>
      if negb (ServiceMonitorEnabled (sp_Observability (md_Spec md))) then
        let (w, err) := deleteObservabilityChild w md ServiceMonitorGVK (naming.ServiceMonitor enc (md_Name md)) in
        match err with
        | Some e =>
            (w, (ConditionUnknown, ReasonReconciling, "Could not remove the disabled ServiceMonitor: " +:+ e, Some e))
        | None =>
            (w, (ConditionFalse, ReasonServiceMonitorDisabled,
                 "spec.observability.serviceMonitor.enabled is false; no ServiceMonitor is created, "
                   +:+ "so nothing scrapes this deployment", None))
        end
      else
        match prober with
        | None => (w, (ConditionUnknown, ReasonReconciling, "Metric collection has not been probed", None))
        | Some d =>
            let (w, present) := d_Has d w ServiceMonitorGVK in
            match present with
            | inr e =>
                (w, (ConditionUnknown, ReasonReconciling,
                     "Could not determine whether the cluster serves ServiceMonitor: " +:+ e,
                     Some ("probing for " +:+ KindServiceMonitor +:+ ": " +:+ e)))
            | inl false =>
                (w, (ConditionFalse, ReasonPrometheusOperatorCRDsAbsent,
                     "The cluster does not serve " +:+ MonitoringGroup +:+ "/" +:+ MonitoringVersion +:+ " "
                       +:+ KindServiceMonitor +:+ "; install prometheus-operator to collect metrics. "
                       +:+ "The workload is serving normally.", None))
            | inl true =>
                let (w, err) := applyObservabilityChild w md (servicemonitor_of md) in
                match err with
                | Some e =>
                    (w, (ConditionFalse, ReasonReconciling, "Applying the ServiceMonitor failed: " +:+ e,
                         Some ("applying ServiceMonitor: " +:+ e)))
                | None =>
                    if negb (ShimEnabled (sp_Serving (md_Spec md))) then
                      (w, (ConditionFalse, ReasonShimDisabled,
                           "spec.serving.shim.enabled is false, so no llmcp_* metric is produced; canary "
                             +:+ "analysis and the built-in autoscaler have no inputs", None))
                    else
                      (w, (ConditionTrue, ReasonMetricsRegistered,
                           "Shim injected and ServiceMonitor " +:+ naming.ServiceMonitor enc (md_Name md)
                             +:+ " applied" +:+ rulesMsg, None))
                end
            end
        end
  end.

Definition reconcileObservability (w : W) (md : ModelDeployment) : W * (metricsVerdict * option string) :=
  let '(w, (st, reason, message, err)) := monitor_verdict w md in
  let (w, after) := observabilityResync w md in
  (w, (MkMetricsVerdict (Some st) reason message after, err)).

(** ** Lemmas *)

(** The names of the two objects, and what may be written for a resource: its
    two rendered objects are created, or applied over the version of an object
    that was read (or just created) and is controlled by it; and an object is
    deleted only by the UID of one that was read and is controlled by it. *)
Definition ours (md : ModelDeployment) (x : Write) : Prop :=
  let rendered d := d = servicemonitor_of md \/ d = prometheusrule_of md in
  match x with
  | Created d => rendered d
  | Applied cur d =>
      rendered d /\ exists w ex, IsControlledBy ex md = true /\ ex_ResourceVersion cur = ex_ResourceVersion ex
      /\ (snd (GetObj w (gvk_of d) (nested_string [fieldMetadata; fieldNamespace] d)
                (nested_string [fieldMetadata; fieldName] d)) = inl ex
          \/ snd (CreateObj w d) = inl ex)
  | Deleted cur gvk ns name =>
      ((gvk, ns, name) = (ServiceMonitorGVK, md_Namespace md, naming.ServiceMonitor enc (md_Name md))
       \/ (gvk, ns, name) = (PrometheusRuleGVK, md_Namespace md, naming.PrometheusRule enc (md_Name md)))
      /\ exists w ex, IsControlledBy ex md = true /\ ex_UID cur = ex_UID ex
      /\ snd (GetObj w gvk ns name) = inl ex
  end.

(** [w'] extends [w] by writes of this resource. *)
Definition extends (md : ModelDeployment) (w w' : W) : Prop :=
  exists l, writes w' = writes w ++ l /\ Forall (ours md) l.

Lemma extends_refl md w w' : writes w' = writes w -> extends md w w'.
Proof. intros E. exists []. by rewrite app_nil_r. Qed.

Lemma extends_trans md w1 w2 w3 : extends md w1 w2 -> extends md w2 w3 -> extends md w1 w3.
Proof.
  intros (l1 & E1 & H1) (l2 & E2 & H2). exists (l1 ++ l2). rewrite E2, E1, app_assoc.
  split; [done|]. by apply Forall_app.
Qed.

Lemma extends_one md w w' x : writes w' = writes w ++ [x] -> ours md x -> extends md w w'.
Proof. intros E H. exists [x]. split; [done|by constructor]. Qed.

Lemma invalidate_quietly w gvk e : writes (invalidateMissingObservabilityKind w gvk e) = writes w.
Proof.
  unfold invalidateMissingObservabilityKind. destruct e as [e|]; [|done].
  destruct (absent_error e); [|done]. cbn [negb]. rewrite reset_quiet. destruct prober as [d|]; [|done].
  destruct (d_Invalidate d) as [f|] eqn:E; [|done]. by eapply invalidate_quiet.
Qed.

Lemma apply_extends w md d :
  d = servicemonitor_of md \/ d = prometheusrule_of md ->
  extends md w (fst (applyObservabilityChild w md d))
  /\ (snd (applyObservabilityChild w md d) = None ->
      exists cur w0, writes (fst (applyObservabilityChild w md d)) = writes w0 ++ [Applied cur d]).
Proof.
  intros Hd. unfold applyObservabilityChild. set (g := gvk_of d). set (ns := nested_string _ d).
  set (n := nested_string _ d).
  pose proof (get_quiet w g ns n) as Hq. pose proof (get_versioned w g ns n) as Hv.
  destruct (GetObj w g ns n) as [w1 got] eqn:Eg. cbn [fst snd] in *.
  destruct (match got with inr NotFound => _ | _ => _ end) as [w2 existing] eqn:Ee.
  assert (H2 : extends md w w2 /\ forall ex, existing = inl ex -> ex_ResourceVersion ex <> ""
    /\ exists w0, snd (GetObj w0 g ns n) = inl ex \/ snd (CreateObj w0 d) = inl ex).
  { destruct got as [ex|[]].
    2:{ pose proof (create_effect w1 d) as Hc. pose proof (create_versioned w1 d) as Hcv. rewrite Ee in Hc, Hcv.
        cbn [fst snd] in Hc, Hcv. split.
        - destruct Hc as [Hc|Hc]; [apply extends_refl; congruence|]. eapply extends_one; [by rewrite Hc, Hq|done].
        - intros ex ->. split; [by apply Hcv|]. exists w1. right. by rewrite Ee. }
    all: injection Ee as <- <-; (split; [by apply extends_refl|]); intros ex' [=].
    subst ex'. split; [by apply Hv|]. exists w. left. by rewrite Eg. }
  clear Ee Hv Eg. destruct H2 as [H2 Hex]. destruct existing as [ex|e].
  2:{ cbn [fst snd]. split; [|done]. eapply extends_trans; [exact H2|]. apply extends_refl, invalidate_quietly. }
  destruct (IsControlledBy ex md) eqn:Ec; cbn [negb]; [|by split].
  destruct (Hex ex eq_refl) as [Hne (w0 & Hsrc)].
  pose proof (apply_effect w2 d (ex_ResourceVersion ex) Hne) as Ha. pose proof (apply_ok w2 d (ex_ResourceVersion ex)) as Ho.
  destruct (ApplyObj w2 d (ex_ResourceVersion ex)) as [w3 err]. cbn [fst snd] in *. rewrite invalidate_quietly. split.
  - eapply extends_trans; [exact H2|]. destruct Ha as [Ha|(cur & Hcur & Ha)].
    + apply extends_refl. by rewrite invalidate_quietly.
    + eapply extends_one; [by rewrite invalidate_quietly|]. split; [done|]. exists w0, ex. by rewrite Hcur.
  - destruct err; [done|]. intros _. destruct (Ho eq_refl) as (cur & E). by exists cur, w2.
Qed.

Lemma delete_extends w md gvk name :
  (gvk, name) = (ServiceMonitorGVK, naming.ServiceMonitor enc (md_Name md))
  \/ (gvk, name) = (PrometheusRuleGVK, naming.PrometheusRule enc (md_Name md)) ->
  extends md w (fst (deleteObservabilityChild w md gvk name)).
Proof.
  intros Hn. unfold deleteObservabilityChild.
  pose proof (get_quiet w gvk (md_Namespace md) name) as Hq.
  destruct (GetObj w gvk (md_Namespace md) name) as [w1 [ex|e]] eqn:Eg; cbn [fst snd] in *;
    [|by apply extends_refl].
  destruct (IsControlledBy ex md) eqn:Ec; cbn [negb]; [|by apply extends_refl].
  pose proof (delete_effect w1 gvk (md_Namespace md) name (ex_UID ex)) as Hd.
  destruct (DeleteObj w1 gvk (md_Namespace md) name (ex_UID ex)) as [w2 err]. cbn [fst] in Hd.
  assert (H : extends md w w2).
  { destruct Hd as [Hd|(cur & Hcur & Hd)]; [apply extends_refl; congruence|].
    eapply extends_one; [by rewrite Hd, Hq|]. split; [|exists w, ex; by rewrite Eg].
    destruct Hn as [[= -> ->]|[= -> ->]]; [by left|by right]. }
  destruct err as [e|]; [|done]. by destruct (absent_error e).
Qed.

Lemma has_extends md d w gvk : extends md w (fst (d_Has d w gvk)).
Proof. apply extends_refl, has_quiet. Qed.

Lemma rule_extends w md : extends md w (fst (reconcilePrometheusRule w md)).
Proof.
  unfold reconcilePrometheusRule. destruct (PrometheusRuleEnabled _); cbn [negb].
  - destruct prober as [d|] eqn:Ep; [|by apply extends_refl].
    pose proof (has_extends md d w PrometheusRuleGVK) as Hh.
    destruct (d_Has d w PrometheusRuleGVK) as [w1 [[]|e]]; try done.
    destruct (apply_extends w1 md (prometheusrule_of md) (or_intror eq_refl)) as [Ha _].
    destruct (applyObservabilityChild w1 md (prometheusrule_of md)) as [w2 [e|]];
      (eapply extends_trans; [exact Hh|exact Ha]).
  - pose proof (delete_extends w md PrometheusRuleGVK _ (or_intror eq_refl)) as H.
    destruct (deleteObservabilityChild _ _ _ _) as [w1 [e|]]; exact H.
Qed.

Lemma served_extends md w kinds : extends md w (fst (all_served w kinds)).
Proof.
  revert w. induction kinds as [|[on gvk] kinds IH]; intros w; cbn; [by apply extends_refl|].
  destruct on; cbn [negb]; [|by apply IH]. destruct prober as [d|] eqn:Ep; [|by apply extends_refl].
  pose proof (has_extends md d w gvk) as Hh. destruct (d_Has d w gvk) as [w1 [[]|e]]; try exact Hh.
  eapply extends_trans; [exact Hh|apply IH].
Qed.

Lemma verdict_extends w md : extends md w (fst (monitor_verdict w md)).
Proof.
  unfold monitor_verdict. pose proof (rule_extends w md) as Hr.
  destruct (reconcilePrometheusRule w md) as [w1 [[msg st] [e|]]]; [done|]. cbn [fst] in Hr.
  destruct (ServiceMonitorEnabled _); cbn [negb].
  - destruct prober as [d|]; [|done]. pose proof (has_extends md d w1 ServiceMonitorGVK) as Hh.
    destruct (d_Has d w1 ServiceMonitorGVK) as [w2 [[]|e]]; try (by eapply extends_trans).
    destruct (apply_extends w2 md (servicemonitor_of md) (or_introl eq_refl)) as [Ha _].
    destruct (applyObservabilityChild w2 md (servicemonitor_of md)) as [w3 [e|]]; [|destruct (ShimEnabled _)];
      (eapply extends_trans; [exact Hr|]; eapply extends_trans; [exact Hh|exact Ha]).
  - pose proof (delete_extends w1 md ServiceMonitorGVK _ (or_introl eq_refl)) as H.
    destruct (deleteObservabilityChild _ _ _ _) as [w2 [e|]]; (eapply extends_trans; [exact Hr|exact H]).
Qed.

(** When the verdict is True, the last write is the ServiceMonitor. *)
Lemma verdict_true w md w' reason message err :
  monitor_verdict w md = (w', (ConditionTrue, reason, message, err)) ->
  err = None /\ reason = ReasonMetricsRegistered /\ ShimEnabled (sp_Serving (md_Spec md)) = true
  /\ ServiceMonitorEnabled (sp_Observability (md_Spec md)) = true /\ is_Some prober
  /\ exists cur w0, writes w' = writes w0 ++ [Applied cur (servicemonitor_of md)].
Proof.
  unfold monitor_verdict. destruct (reconcilePrometheusRule w md) as [w1 [[msg st] [e|]]] eqn:Er.
  { intros [= -> -> <- <- <-]. exfalso. revert Er. unfold reconcilePrometheusRule.
    destruct (PrometheusRuleEnabled _); cbn [negb]; [|by destruct (deleteObservabilityChild _ _ _ _) as [? []]].
    destruct prober as [d|]; [|done]. destruct (d_Has d w PrometheusRuleGVK) as [w2 [[]|]]; try done.
    by destruct (applyObservabilityChild _ _ _) as [? []]. }
  destruct (ServiceMonitorEnabled _) eqn:Es; cbn [negb]; [|by destruct (deleteObservabilityChild _ _ _ _) as [? []]].
  destruct prober as [d|]; [|done]. destruct (d_Has d w1 ServiceMonitorGVK) as [w2 [[]|e]]; try done.
  destruct (apply_extends w2 md (servicemonitor_of md) (or_introl eq_refl)) as [_ Ha].
  destruct (applyObservabilityChild w2 md (servicemonitor_of md)) as [w3 [e|]]; [done|].
  destruct (ShimEnabled _) eqn:Eh; [|done]. intros [= <- <- <- <-]. cbn in Ha. by split_and!; auto.
Qed.

(** ** Properties *)

(** C24: the operator touches only its own monitoring objects.  Whatever the
    cluster and the other writers do, each effective write of the loop creates
    one of the resource's two rendered objects, applies one over the version of
    an object the server returned and that the resource controls, or deletes,
    by UID, one that the resource controls. *)
Theorem monitoring_writes_owned w md :
  exists l, writes (fst (reconcileObservability w md)) = writes w ++ l /\ Forall (ours md) l.
Proof.
  change (extends md w (fst (reconcileObservability w md))). unfold reconcileObservability.
  pose proof (verdict_extends w md) as Hv.
  destruct (monitor_verdict w md) as [w1 [[[st reason] message] err]]. cbn [fst] in Hv.
  unfold observabilityResync. set (kinds := [_; _]). pose proof (served_extends md w1 kinds) as Hs.
  destruct (all_served w1 kinds) as [w2 []]; [destruct (existsb _ kinds)|]; cbn [negb fst] in *;
    by eapply extends_trans.
Qed.

(** MetricsRegistered is True only when metrics are wired up.  A True
    verdict comes without an error, with the sidecar and the ServiceMonitor
    enabled, after probing, and with an accepted apply of the rendered
    ServiceMonitor as the last write. *)
Theorem registered_means_wired w md :
  let '(w', (v, err)) := reconcileObservability w md in
  mv_Status v = Some ConditionTrue ->
  err = None /\ mv_Reason v = ReasonMetricsRegistered
  /\ ShimEnabled (sp_Serving (md_Spec md)) = true
  /\ ServiceMonitorEnabled (sp_Observability (md_Spec md)) = true /\ is_Some prober
  /\ exists cur w0, writes w' = writes w0 ++ [Applied cur (servicemonitor_of md)].
Proof.
  unfold reconcileObservability.
  destruct (monitor_verdict w md) as [w1 [[[st reason] message] err]] eqn:E.
  destruct (observabilityResync w1 md) as [w2 after] eqn:Er. cbn. intros [= ->].
  apply verdict_true in E as (-> & -> & Hs & Hm & Hp & cur & w0 & Hw). repeat (split; [done|]). exists cur, w0.
  rewrite <- Hw. revert Er. unfold observabilityResync. set (kinds := [_; _]).
  assert (Hq : forall kinds w, writes (fst (all_served w kinds)) = writes w).
  { intros ks. induction ks as [|[on g] ks IH]; intros w'; cbn; [done|]. destruct on; cbn; [|done].
    destruct prober as [d|]; [|done]. pose proof (has_quiet _ d w' g) as H.
    destruct (d_Has d w' g) as [w3 [[]|]]; cbn in *; try done. by rewrite IH. }
  specialize (Hq kinds w1). destruct (all_served w1 kinds) as [w3 []]; [destruct (existsb _ kinds)|];
    cbn in *; by intros [= <- <-].
Qed.

(** A failed probe is Unknown, never an absence.  If the prober cannot say
    whether a kind it is first asked about is served, the verdict is Unknown and
    the pass is retried. *)
Theorem failed_probe_is_unknown w md d e :
  prober = Some d ->
  PrometheusRuleEnabled (sp_Observability (md_Spec md)) = true ->
  snd (d_Has d w PrometheusRuleGVK) = inr e ->
  let '(_, (v, err)) := reconcileObservability w md in
  mv_Status v = Some ConditionUnknown /\ err = Some ("probing for PrometheusRule: " +:+ e).
Proof.
  intros Hp He Hh. unfold reconcileObservability, monitor_verdict, reconcilePrometheusRule. rewrite He, Hp.
  cbn [negb]. destruct (d_Has d w PrometheusRuleGVK) as [w1 r]. cbn in Hh. subst r.
  by destruct (observabilityResync w1 md).
Qed.

(** Optional kinds are revisited on a timer.  The wake-up of a pass is zero
    exactly when both monitoring objects are switched off; otherwise it is the
    short one while a kind is missing or unknown, and between 270 and 330
    seconds, fixed per resource, when every enabled kind is served. *)
Theorem resync_bounds w md :
  let after := mv_RequeueAfter (fst (snd (reconcileObservability w md))) in
  let off := negb (ServiceMonitorEnabled (sp_Observability (md_Spec md)))
             && negb (PrometheusRuleEnabled (sp_Observability (md_Spec md))) in
  if off then after = 0
  else after = AbsentTTL \/ (after = jitter md /\ 270 * time.Second <= after <= 330 * time.Second).
Proof.
  cbv zeta. unfold reconcileObservability.
  destruct (monitor_verdict w md) as [w1 [[[st reason] message] err]].
  unfold observabilityResync. cbn [existsb fst].
  assert (Hj : 270 * time.Second <= jitter md <= 330 * time.Second).
  { unfold jitter. set (h := naming.Sum32 _). pose proof (N.mod_lt h 61 ltac:(done)) as H.
    unfold time.Second. set (k := (h mod 61)%N) in *. clearbody k. lia. }
  destruct (ServiceMonitorEnabled _) eqn:E1, (PrometheusRuleEnabled _) eqn:E2;
    destruct (all_served w1 _) as [w2 []] eqn:Es; cbn; auto; by cbn in Es.
Qed.

End Loop.

(** ** A server with one writer, and the prober of Discovery.v *)

(** Objects by kind, namespace and name; a new object's version counts the
    writes. *)
Record Store := MkStore {
  s_objects : gmap (GVK * string * string) Existing; s_writes : list Write }.

Definition next_version (s : Store) : string := format_int (Z.of_nat (length (s_writes s)) + 1).

(** The owner references of rendered content. *)
Definition owners_of (content : any) : list OwnerReference :=
  match nested [fieldMetadata; fieldOwnerReferences] content with
  | Some (AList refs) =>
      map (fun r => MkOwnerReference (nested_string ["apiVersion"] r) (nested_string ["kind"] r)
                      (nested_string ["name"] r) (nested_string ["uid"] r) true true) refs
  | _ => []
  end.

Definition key_of (content : any) : GVK * string * string :=
  (gvk_of content, nested_string [fieldMetadata; fieldNamespace] content,
   nested_string [fieldMetadata; fieldName] content).

Definition store_put (s : Store) (content : any) (uid : string) (x : Write) : Store * Existing :=
  let ex := MkExisting uid (next_version s) (owners_of content) in
  (MkStore (<[key_of content := ex]> (s_objects s)) (s_writes s ++ [x]), ex).

Definition store_create (s : Store) (content : any) : Store * (Existing + ApiError) :=
  match s_objects s !! key_of content with
  | Some _ => (s, inr (OtherApiError "already exists"))
  | None =>
      let (s', ex) := store_put s content (next_version s) (Created content) in
      (s', if ex_ResourceVersion ex == "" then inr (OtherApiError "") else inl ex)
  end.

Definition store_apply (s : Store) (content : any) (v : string) : Store * option ApiError :=
  match s_objects s !! key_of content with
  | None => (s, Some NotFound)
  | Some ex =>
      if ex_ResourceVersion ex != v then (s, Some (OtherApiError "conflict"))
      else (fst (store_put s content (ex_UID ex) (Applied ex content)), None)
  end.

Definition store_delete (s : Store) (g : GVK) (ns n uid : string) : Store * option ApiError :=
  match s_objects s !! (g, ns, n) with
  | None => (s, Some NotFound)
  | Some ex =>
      if ex_UID ex != uid then (s, Some (OtherApiError "conflict"))
      else (MkStore (delete (g, ns, n) (s_objects s)) (s_writes s ++ [Deleted ex g ns n]), None)
  end.

Definition store_get (s : Store) (g : GVK) (ns n : string) : Store * (Existing + ApiError) :=
  (s, match s_objects s !! (g, ns, n) with
      | Some ex => if ex_ResourceVersion ex == "" then inr (OtherApiError "") else inl ex
      | None => inr NotFound
      end).

(** Beside the store, a prober's state and a clock. *)
Definition World : Type := Store * (time.Time * Prober).

Definition on_store {R} (f : Store -> Store * R) (w : World) : World * R :=
  let (s, x) := f (fst w) in ((s, snd w), x).

#[refine] Instance store_api : MonitoringAPI World := {|
  GetObj w g ns n := on_store (fun s => store_get s g ns n) w;
  CreateObj w d := on_store (fun s => store_create s d) w;
  ApplyObj w d v := on_store (fun s => store_apply s d v) w;
  DeleteObj w g ns n uid := on_store (fun s => store_delete s g ns n uid) w;
  ResetMapper w := w;
  errorText e := match e with NotFound => "not found" | NoMatch => "no match" | OtherApiError m => m end;
  writes w := s_writes (fst w) |}.
Proof.
  all: unfold on_store, store_get, store_create, store_apply, store_delete, store_put; cbn; try done.
  - intros w g ns n ex. destruct (_ !! _) as [e|]; [|done]. destruct (bool_decide _) eqn:E; [done|].
    intros [= <-]. by apply bool_decide_eq_false in E.
  - intros w d ex. destruct (_ !! _) as [e|]; [done|]. cbn. destruct (bool_decide _) eqn:E; [done|].
    intros [= <-]. by apply bool_decide_eq_false in E.
  - intros w d. destruct (_ !! _); cbn; auto.
  - intros w d v Hv. destruct (_ !! _) as [ex|]; [|by left]. destruct (bool_decide _) eqn:E; cbn; [|by left].
    apply bool_decide_eq_true in E. right. by exists ex.
  - intros w d v. destruct (_ !! _) as [ex|]; [|done]. destruct (bool_decide _) eqn:E; cbn; [|done].
    intros _. by exists ex.
  - intros w g ns n uid. destruct (_ !! _) as [ex|]; [|by left]. destruct (bool_decide _) eqn:E; cbn; [|by left].
    apply bool_decide_eq_true in E. right. by exists ex.
Defined.

(** The prober of Discovery.v against a server whose answers are fixed, as the
    interface of the loop. *)
Definition prober_Has (answer : string -> list string + ClientError) (w : World) (g : GVK) :
    World * (bool + string) :=
  let '(s, (now, p)) := w in
  let '((now', p'), r) := discovery.Has (fun t => (t, t)) (fun t gv => (t, answer gv)) now p g in
  ((s, (now', p')), r).

Definition prober_Invalidate (w : World) (g : GVK) : World :=
  let '(s, (now, p)) := w in (s, (now, Invalidate p g)).

#[refine] Definition prober_discovery (answer : string -> list string + ClientError) : Discovery World :=
  MkDiscovery World store_api (prober_Has answer) (Some prober_Invalidate) _ _.
Proof.
  - intros [s [now p]] g. unfold prober_Has. by destruct (discovery.Has _ _ _ _ _) as [[? ?] ?].
  - intros [s [now p]] g f [= <-]. done.
Defined.

Definition sample_answer (gv : string) : list string + ClientError :=
  if gv == "monitoring.coreos.com/v1" then inl [KindPrometheusRule; KindServiceMonitor]
  else inr (MkClientError "no" true None).

Definition sample_world : World := (MkStore ∅ [], (0, NewFor)).

(** On an empty cluster that serves both kinds, two objects are created and
    applied. *)
Lemma registered_means_wired_witness :
  exists cur w0,
    writes (fst (reconcileObservability (Some (prober_discovery sample_answer)) id sample_world
                   (plans.sample_md RolloutRollingUpdate (plans.sample_status PhaseAvailable None))))
    = writes w0 ++ [Applied cur (servicemonitor_of id (plans.sample_md RolloutRollingUpdate (plans.sample_status PhaseAvailable None)))].
Proof.
  pose proof (registered_means_wired (Some (prober_discovery sample_answer)) id sample_world
                (plans.sample_md RolloutRollingUpdate (plans.sample_status PhaseAvailable None))) as H.
  destruct (reconcileObservability _ _ _ _) as [w' [v err]] eqn:E.
  destruct H as (_ & _ & _ & _ & _ & H); [|exact H].
  change v with (fst (snd (w', (v, err)))). rewrite <- E. vm_compute. reflexivity.
Defined.

End monitoring.
