(* ===== verification/ControllerReconcile.v ===== *)
(** * The reconcile loop as a whole (modeldeployment_controller.go)

    [Reconcile] composes every part of the controller in the order of the code:
    read, validate, snapshot, migrate, record, autoscale, plan, render, apply,
    delete, report, monitor, observe, write status.  All of them act on one world [W].
    A pass is a computation of the monad [M]: it changes the world, lists the
    calls it makes, and either goes on with a value or stops with the outcome
    the work queue sees.  The parts of the API server that only this loop uses
    are the record [Client]. *)

From S2P Require Import Prelude GoFloat GoFmt GoStrings ApiTypes KubeTypes Naming Engine CanaryWeights CanaryVerdict CanaryState Analysis ControllerRollout ControllerStatus ControllerPlan ControllerPass ControllerWrite ControllerAutoscale ControllerChildren Revision ControllerMigration Observability Discovery ControllerObservability.
Import v1alpha1.
Local Open Scope Z_scope.
Local Open Scope go_scope.

Module controller.
Import kube engine analysis rollouts plans status writes children.

(** ** Passes *)

Inductive Call :=
  | ApplyDeployment (d : DeploymentApply)
  | ApplyService (s : ServiceApply)
  | DeleteDeployment (namespace name : string)
  | PatchAnnotations (namespace name : string)
  | ForgetNamespacedName (namespace name : string)
  | Report (e : Effect).

(** What the work queue sees: success with a wake-up, an error to retry, or a
    [reconcile.TerminalError]. *)
Inductive Outcome := Done (requeueAfter : time.Duration) | Failed (err : string) | Terminal (cause : string).

Section Monad.
Context {W : Type}.

Definition M (A : Type) : Type := W -> W * (list Call * (A + Outcome)).

Definition ret {A} (a : A) : M A := fun w => (w, ([], inl a)).
Definition stop {A} (o : Outcome) : M A := fun w => (w, ([], inr o)).
Definition say (calls : list Call) : M unit := fun w => (w, (calls, inl tt)).
Definition act {A} (f : W -> W * A) : M A := fun w => let (w, a) := f w in (w, ([], inl a)).

Definition bind {A B} (m : M A) (k : A -> M B) : M B := fun w =>
  let '(w, (c, r)) := m w in
  match r with
  | inr o => (w, (c, inr o))
  | inl a => let '(w, (c', r')) := k a w in (w, (c ++ c', r'))
  end.
End Monad.
Arguments M : clear implicits.

Declare Scope pass_scope.
Notation "'let*' p ':=' m 'in' k" := (bind m (fun p => k))
  (at level 10, p pattern, m at level 100, k at level 200,
   format "'[v' 'let*'  p  ':='  m  'in' '/' k ']'") : pass_scope.
Local Open Scope pass_scope.

(** The calls of the client that no other file models.  An accepted patch
    returns the server's copy of the resource. *)
Record Client (W : Type) := MkClient {
  cl_Deployment : W -> string -> string -> W * (migration.LiveDeployment + revision.ApiError);
  cl_ApplyDeployment : W -> DeploymentApply -> W * option string;
  cl_ApplyService : W -> ServiceApply -> W * option string;
  cl_DeleteDeployment : W -> string -> string -> W * option ApiError;
  cl_PatchAnnotations : W -> ModelDeployment -> W * (ModelDeployment + ApiError);
  cl_ListHPAs : W -> string -> W * scaling.ListResult;
  cl_PatchReplicas : W -> ModelDeployment -> Z -> W * (ModelDeployment + ApiError);
  cl_SetControllerReference : ModelDeployment -> option string;
  cl_ErrorText : ApiError -> string;
  cl_RevisionErrorText : revision.ApiError -> string }.
Arguments cl_Deployment {W}.
Arguments cl_ApplyDeployment {W}.
Arguments cl_ApplyService {W}.
Arguments cl_DeleteDeployment {W}.
Arguments cl_PatchAnnotations {W}.
Arguments cl_ListHPAs {W}.
Arguments cl_PatchReplicas {W}.
Arguments cl_SetControllerReference {W}.
Arguments cl_ErrorText {W}.
Arguments cl_RevisionErrorText {W}.

(** The operator's configuration, and the library functions it calls. *)
Record Operator := MkOperator {
  cf_Recorder : bool; cf_Options : renderOptions; cf_Registry : registry; cf_Order : list string;
  cf_DefaultRetry : nat; cf_enc : string -> string;
  cf_applyConfigFrom : Container -> Container + string;
  cf_typedTemplate : DeploymentApply -> PodTemplate + string;
  cf_DeepDerivative : PodTemplate -> PodTemplate -> bool;
  cf_asSelector : gmap string string -> string + string }.

Section Reconcile.
Context {CS : ConditionSetter} {PC : revision.PayloadCodec} {W : Type} {S : ApiServer W}
  {HA : revision.HistoryAPI W} {MA : monitoring.MonitoringAPI W}.
Context (r : Reconciler W) (cl : Client W) (cf : Operator) (prober : option (monitoring.Discovery W)).

Fixpoint error_text (e : revision.goerror) : string :=
  match e with
  | revision.Errorf msg => msg
  | revision.Api e => cl_RevisionErrorText cl e
  | revision.Wrap msg e => msg +:+ error_text e
  end.

(** Events reach a recorder only when there is one. *)
Definition report (effects : list Effect) : M W unit :=
  say (map Report (List.filter (fun e => match e with Event _ _ _ _ => cf_Recorder cf | _ => true end) effects)).

Definition fail_terminally {A} (cause : string) : M W A :=
  let* (events, failure) := act (fun w => failTerminally (cf_Recorder cf) (cf_DefaultRetry cf) w cause) in
  let* _ := report events in
  match failure with
  | Retriable e => stop (Failed (cl_ErrorText cl e))
  | TerminalError cause => stop (Terminal cause)
  end.

(** An error ends the pass. *)
Definition must {A} (x : A + revision.goerror) : M W A :=
  match x with inl a => ret a | inr e => stop (Failed (error_text e)) end.

Definition check {A} (x : A + string) : M W A :=
  match x with inl a => ret a | inr e => fail_terminally e end.

Definition check_none (x : option string) : M W unit :=
  match x with None => ret tt | Some e => fail_terminally e end.

Definition try (x : option string) : M W unit :=
  match x with None => ret tt | Some e => stop (Failed e) end.

Definition primary_for (md : ModelDeployment) : M W (option migration.LiveDeployment) :=
  let* x := act (fun w => migration.deploymentFor (cl_Deployment cl) w md
                       (naming.PrimaryDeployment (cf_enc cf) (md_Name md))) in
  must x.

Definition canaryDeploymentFor (md : ModelDeployment) : M W (option migration.LiveDeployment) :=
  let* x := act (fun w => cl_Deployment cl w (md_Namespace md) (naming.CanaryDeployment (cf_enc cf) (md_Name md))) in
  match x with
  | inl d => ret (Some d)
  | inr revision.NotFound => ret None
  | inr e => stop (Failed ("reading canary Deployment: " +:+ cl_RevisionErrorText cl e))
  end.

(** The resource, or the end of the pass for one that is gone or going. *)
Definition fetch (namespace name : string) : M W ModelDeployment :=
  let* got := act Get in
  match got with
  | inr NotFound => let* _ := say [ForgetNamespacedName namespace name] in stop (Done 0)
  | inr e => stop (Failed (cl_ErrorText cl e))
  | inl md => if is_nil (md_DeletionTimestamp md) then ret md else stop (Done 0)
  end.

(** The profile of a usable spec, the resolved spec and its snapshot. *)
Definition validated (md : ModelDeployment) :
    M W (Profile * ModelDeploymentSpec * revision.Snapshot) :=
  let* _ := match validateCanaryRouting (md_Spec md) with Ok _ => ret tt | Err e => fail_terminally e end in
  let* prof := check (engine.Get (cf_Registry cf) (cf_Order cf) (eng_Type (sp_Engine (md_Spec md)))) in
  let* _ := check_none (p_Validate prof (Some (md_Spec md))) in
  let resolvedSpec := migration.resolvedRevisionSpec (r_MustParse r) md prof (cf_Options cf) in
  let* snapshot := check (revision.NewSnapshot (cf_enc cf) (Some resolvedSpec)) in
  ret (prof, resolvedSpec, snapshot).

(** The identity of the target: adopted, held, or recorded. *)
Definition identify (md : ModelDeployment) (prof : Profile) (resolvedSpec : ModelDeploymentSpec)
    (snapshot : revision.Snapshot) (primaryDep canaryDep : option migration.LiveDeployment) : M W string :=
  let* x := act (fun w => migration.targetRevisionForMigration (r_MustParse r) (cf_enc cf) (cf_applyConfigFrom cf)
                       (cf_typedTemplate cf) (cf_DeepDerivative cf) w md prof resolvedSpec
                       (revision.sn_Revision snapshot) primaryDep canaryDep (cf_Options cf)) in
  match x with
  | inr e => stop (Failed ("resolving revision migration: " +:+ error_text e))
  | inl (rev, adoptedLegacy, holdLegacy) =>
      if holdLegacy && negb (annotationTrue md naming.AnnoAbort) then
        let* err := act (fun w => holdLegacyTelemetryMigration (cf_DefaultRetry cf) w rev) in
        stop (match err with Some e => Failed (cl_ErrorText cl e) | None => Done 0 end)
      else if adoptedLegacy then ret rev
      else
        let* (events, err) := act (fun w => migration.recordRevision (cf_enc cf) (cl_SetControllerReference cl)
                                 (cf_Recorder cf) w md rev [revision.sn_Raw snapshot]) in
        let* _ := report events in
        match err with
        | Some e => stop (Failed ("recording revision: " +:+ error_text e))
        | None => ret rev
        end
  end.

(** What a pass decided: the resource, the target, the plan, the children, and
    the autoscaler's verdict and deferred error. *)
Record decision := MkDecision {
  d_MD : ModelDeployment; d_Rev : string; d_Plan : rollout; d_Desired : desiredChildren;
  d_Scaling : autoscaleVerdict; d_ScaleErr : option string }.

Definition decide_pass (namespace name : string) : M W decision :=
  let* md := fetch namespace name in
  let* (prof, resolvedSpec, snapshot) := validated md in
  let* primaryDep := primary_for md in
  let* canaryDep := canaryDeploymentFor md in
  let* rev := identify md prof resolvedSpec snapshot primaryDep canaryDep in
  let primary := migration.ld_Deployment <$> primaryDep in
  let canary := migration.ld_Deployment <$> canaryDep in
  let* (md, (scaling, scaleErr), effects) :=
    act (fun w => scaling.reconcileAutoscaling r (cf_Recorder cf) (cl_ErrorText cl) (cl_ListHPAs cl)
                    (cl_PatchReplicas cl) w md primary canary) in
  let* _ := report effects in
  let* plan := act (fun w => planRollout r w md rev primary canary) in
  let* rendered := act (fun w => migration.renderRollout (r_MustParse r) (cf_enc cf) (cf_applyConfigFrom cf)
                              (cl_Deployment cl) (cf_Registry cf) (cf_Order cf) w md prof resolvedSpec rev plan
                              (cf_Options cf)) in
  match rendered with
  | inr e => fail_terminally (error_text e)
  | inl desired => ret (MkDecision md rev plan desired scaling scaleErr)
  end.

(** One child write and what follows a rejection. *)
Definition write_child (c : Call) (f : W -> W * option string) (what : string) : M W unit :=
  let* _ := say [c] in
  let* err := act f in
  match err with None => ret tt | Some e => stop (Failed (what +:+ e)) end.

Definition applyChildren (desired : desiredChildren) : M W unit :=
  let dep := dc_Deployment desired in
  let svc := dc_Service desired in
  let metrics := dc_MetricsService desired in
  let* _ := write_child (ApplyDeployment dep) (fun w => cl_ApplyDeployment cl w dep) "applying Deployment: " in
  let* _ := write_child (ApplyService svc) (fun w => cl_ApplyService cl w svc) "applying Service: " in
  let* _ := write_child (ApplyService metrics) (fun w => cl_ApplyService cl w metrics) "applying metrics Service: " in
  match dc_CanaryDeployment desired with
  | Some canary =>
      write_child (ApplyDeployment canary) (fun w => cl_ApplyDeployment cl w canary) "applying canary Deployment: "
  | None => ret tt
  end.

Definition deleteCanaryDeployment (md : ModelDeployment) : M W unit :=
  let name := naming.CanaryDeployment (cf_enc cf) (md_Name md) in
  write_child (DeleteDeployment (md_Namespace md) name)
    (fun w => let (w, err) := cl_DeleteDeployment cl w (md_Namespace md) name in
              (w, match err with Some e => cl_ErrorText cl <$> IgnoreNotFound e | None => None end))
    "deleting canary Deployment: ".

Definition enact (d : decision) : M W unit :=
  let* _ := applyChildren (d_Desired d) in
  match dc_CanaryDeployment (d_Desired d) with
  | None => deleteCanaryDeployment (d_MD d)
  | Some _ => ret tt
  end.

(** [clearRolloutAnnotations]: the resource as the server's answer leaves it. *)
Definition clear_annotations (md : ModelDeployment) : M W ModelDeployment :=
  if negb (annotationTrue md naming.AnnoPromote) && negb (annotationTrue md naming.AnnoAbort) then ret md
  else
    let* _ := say [PatchAnnotations (md_Namespace md) (md_Name md)] in
    let* patched := act (fun w => cl_PatchAnnotations cl w md) in
    match patched with
    | inl served => ret served
    | inr NotFound => ret md
    | inr e => stop (Failed ("clearing rollout annotations: " +:+ cl_ErrorText cl e))
    end.

Definition observe_cluster (md : ModelDeployment) (rev : string) (plan : rollout)
    (scaling : autoscaleVerdict) (verdict : metricsVerdict) : M W observed :=
  match serviceSelectorString (cf_asSelector cf) md with
  | inr e => stop (Failed e)
  | inl selector =>
      let* dep := primary_for md in
      let* canaryDep := canaryDeploymentFor md in
      ret (reconcile.observe (cf_enc cf) selector md rev plan (migration.ld_Deployment <$> dep)
             (migration.ld_Deployment <$> canaryDep) scaling verdict)
  end.

(** Everything after the children are written. *)
Definition conclude_pass (d : decision) : M W unit :=
  let plan := d_Plan d in
  let* _ := report (emitRolloutEvents (d_MD d) plan) in
  let* md := clear_annotations (d_MD d) in
  let* (verdict, metricsErr) := act (fun w => monitoring.reconcileObservability prober (cf_enc cf) w md) in
  let* _ := report (noteMetricsUnavailable (cf_Recorder cf) md verdict) in
  let* obs := observe_cluster md (d_Rev d) plan (d_Scaling d) verdict in
  let* (events, err) := act (fun w => updateStatus (cf_Recorder cf) w md obs) in
  let* _ := report events in
  match err with
  | Some errStalePlan => stop (Done staleRequeue)
  | Some (StatusApiError e) => stop (Failed (cl_ErrorText cl e))
  | None =>
      let* _ := try metricsErr in
      let* _ := try (d_ScaleErr d) in
      stop (Done (soonest (soonest (rp_RequeueAfter plan) (av_RequeueAfter (d_Scaling d))) (mv_RequeueAfter verdict)))
  end.

Definition reconcile_pass (namespace name : string) : M W unit :=
  let* d := decide_pass namespace name in
  let* _ := enact d in
  conclude_pass d.

(** [Reconcile]: the world, the calls and the outcome; every branch of
    [reconcile_pass] stops. *)
Definition Reconcile (w : W) (namespace name : string) : W * (list Call * Outcome) :=
  let '(w, (calls, x)) := reconcile_pass namespace name w in
  (w, (calls, match x with inr o => o | inl _ => Done 0 end)).

(** ** Lemmas on passes *)

(** A bind that goes on, and one that ends. *)
Lemma bind_inl {A B} (m : M W A) (k : A -> M W B) w w' c b :
  bind m k w = (w', (c, inl b)) ->
  exists w1 c1 a c2, m w = (w1, (c1, inl a)) /\ k a w1 = (w', (c2, inl b)) /\ c = c1 ++ c2.
Proof.
  unfold bind. destruct (m w) as [w1 [c1 [a|o]]]; [|done].
  destruct (k a w1) as [w2 [c2 x]] eqn:E. intros [= -> <- ->]. by exists w1, c1, a, c2.
Qed.

(** A child write. *)
Definition is_child (c : Call) : bool :=
  match c with ApplyDeployment _ | ApplyService _ | DeleteDeployment _ _ => true | _ => false end.

Definition child_calls (cs : list Call) : list Call := List.filter is_child cs.

Lemma child_calls_app a b : child_calls (a ++ b) = child_calls a ++ child_calls b.
Proof. apply List.filter_app. Qed.

(** A computation that writes no child, and one that does not end terminally. *)
Definition quiet {A} (m : M W A) : Prop := forall w, child_calls (fst (snd (m w))) = [].
Definition transient {A} (m : M W A) : Prop := forall w cause, snd (snd (m w)) <> inr (Terminal cause).

Lemma quiet_ret {A} (a : A) : quiet (ret a).
Proof. done. Qed.
Lemma quiet_stop {A} o : quiet (stop (A := A) o).
Proof. done. Qed.
Lemma quiet_act {A} (f : W -> W * A) : quiet (act f).
Proof. intros w. unfold act. by destruct (f w). Qed.
Lemma quiet_say cs : child_calls cs = [] -> quiet (say cs).
Proof. intros H w. exact H. Qed.
Lemma quiet_report effs : quiet (report effs).
Proof.
  apply quiet_say. unfold child_calls. induction (List.filter _ effs) as [|e es IH]; [done|]. exact IH.
Qed.
Lemma quiet_bind {A B} (m : M W A) (k : A -> M W B) : quiet m -> (forall a, quiet (k a)) -> quiet (bind m k).
Proof.
  intros Hm Hk w. unfold bind. specialize (Hm w). destruct (m w) as [w1 [c1 [a|o]]]; cbn [fst snd] in *; [|done].
  specialize (Hk a w1). destruct (k a w1) as [w2 [c2 x]]. cbn [fst snd] in *. by rewrite child_calls_app, Hm, Hk.
Qed.

Lemma transient_ret {A} (a : A) : transient (ret a).
Proof. done. Qed.
Lemma transient_say cs : transient (say cs).
Proof. done. Qed.
Lemma transient_act {A} (f : W -> W * A) : transient (act f).
Proof. intros w cause. unfold act. by destruct (f w). Qed.
Lemma transient_stop {A} o : (forall cause, o <> Terminal cause) -> transient (stop (A := A) o).
Proof. intros H w cause [= E]. by apply (H cause). Qed.
Lemma transient_bind {A B} (m : M W A) (k : A -> M W B) :
  transient m -> (forall a, transient (k a)) -> transient (bind m k).
Proof.
  intros Hm Hk w cause. unfold bind. specialize (Hm w cause). destruct (m w) as [w1 [c1 [a|o]]]; cbn in *; [|congruence].
  specialize (Hk a w1 cause). by destruct (k a w1) as [w2 [c2 x]].
Qed.

Ltac pass_step :=
  first
    [ apply quiet_ret | apply quiet_stop | apply quiet_act | apply quiet_report | apply quiet_say; reflexivity
    | apply transient_ret | apply transient_say | apply transient_act
    | apply transient_stop; intros ? ?; discriminate
    | apply quiet_bind; [|intros ?] | apply transient_bind; [|intros ?]
    | match goal with |- context [match ?x with _ => _ end] => destruct x end
    | progress cbv zeta ].

Lemma quiet_fail {A} cause : quiet (fail_terminally (A := A) cause).
Proof. unfold fail_terminally. repeat pass_step. Qed.

Lemma decide_quiet ns n : quiet (decide_pass ns n).
Proof.
  unfold decide_pass, fetch, validated, identify, primary_for, canaryDeploymentFor, must, check, check_none.
  repeat (pass_step || apply quiet_fail).
Qed.

Lemma enact_transient d : transient (enact d).
Proof.
  unfold enact, applyChildren, deleteCanaryDeployment, write_child. repeat pass_step.
Qed.

Lemma conclude_quiet d : quiet (conclude_pass d).
Proof.
  unfold conclude_pass, clear_annotations, observe_cluster, primary_for, canaryDeploymentFor, must, try.
  repeat pass_step.
Qed.

Lemma conclude_transient d : transient (conclude_pass d).
Proof.
  unfold conclude_pass, clear_annotations, observe_cluster, primary_for, canaryDeploymentFor, must, try, report.
  repeat pass_step.
Qed.

(** The child writes of a complete pass, in order. *)
Definition script (md : ModelDeployment) (ch : desiredChildren) : list Call :=
  [ApplyDeployment (dc_Deployment ch); ApplyService (dc_Service ch); ApplyService (dc_MetricsService ch)]
  ++ match dc_CanaryDeployment ch with
     | Some canary => [ApplyDeployment canary]
     | None => [DeleteDeployment (md_Namespace md) (naming.CanaryDeployment (cf_enc cf) (md_Name md))]
     end.

Lemma write_child_eq c f what w :
  write_child c f what w
  = let (w', err) := f w in
    (w', ([c], match err with None => inl tt | Some e => inr (Failed (what +:+ e)) end)).
Proof. unfold write_child, bind, say, act. destruct (f w) as [w' [e|]]; done. Qed.

Lemma enact_script d w :
  let '(_, (c, x)) := enact d w in
  c `prefix_of` script (d_MD d) (d_Desired d)
  /\ match x with inl _ => c = script (d_MD d) (d_Desired d) | inr o => exists e, o = Failed e end.
Proof.
  unfold enact, applyChildren, deleteCanaryDeployment, script. destruct (d_Desired d) as [dep svc met can].
  cbn [dc_Deployment dc_Service dc_MetricsService dc_CanaryDeployment]. unfold bind. rewrite write_child_eq.
  destruct (cl_ApplyDeployment cl w dep) as [w1 [e1|]];
    [split; [by eexists|by eexists]|]. rewrite write_child_eq.
  destruct (cl_ApplyService cl w1 svc) as [w2 [e2|]]; [split; [by eexists|by eexists]|]. rewrite write_child_eq.
  destruct (cl_ApplyService cl w2 met) as [w3 [e3|]]; [split; [by eexists|by eexists]|].
  destruct can as [canary|]; cbn [ret app]; rewrite write_child_eq.
  - destruct (cl_ApplyDeployment cl w3 canary) as [w4 [e4|]]; (split; [by eexists|]); [by eexists|done].
  - destruct (cl_DeleteDeployment cl w3 _ _) as [w4 err]. destruct (match err with Some _ => _ | None => _ end) as [e4|];
      (split; [by eexists|]); [by eexists|done].
Qed.

Ltac pass_inv :=
  repeat match goal with
  | H : bind _ _ _ = (_, (_, inl _)) |- _ =>
      let w1 := fresh "w" in let c1 := fresh "c" in let a := fresh "a" in let c2 := fresh "c" in
      let E := fresh "E" in
      apply bind_inl in H as (w1 & c1 & a & c2 & E & H & ->); cbv beta zeta iota in H
  | H : (let '(_, _) := ?a in _) _ = _ |- _ => destruct a
  end.

Lemma act_inl {A} (f : W -> W * A) w w' c a : act f w = (w', (c, inl a)) -> snd (f w) = a.
Proof. unfold act. destruct (f w). by intros [= _ _ <-]. Qed.

Lemma fail_not_inl {A} cause w w' c (a : A) : fail_terminally cause w <> (w', (c, inl a)).
Proof. unfold fail_terminally. intros H. pass_inv. by destruct f. Qed.

(** The children carry the counts and the revisions of the plan. *)
Definition renders (md : ModelDeployment) (plan : rollout) (ch : desiredChildren) : Prop :=
  da_Replicas (dc_Deployment ch) = rp_PrimaryReplicas plan
  /\ pt_Labels (da_Template (dc_Deployment ch))
     = naming.PodLabels (md_Name md) VariantPrimary (rp_PrimaryRevision plan)
  /\ match dc_CanaryDeployment ch with
     | Some canary =>
         rp_CanaryRevision plan <> "" /\ 0 < rp_CanaryReplicas plan
         /\ da_Replicas canary = rp_CanaryReplicas plan
         /\ pt_Labels (da_Template canary) = naming.PodLabels (md_Name md) VariantCanary (rp_CanaryRevision plan)
     | None => rp_CanaryRevision plan = "" \/ rp_CanaryReplicas plan <= 0
     end.

Lemma build_renders md prof p_spec c_spec plan opts canary ch :
  buildChildren (r_MustParse r) (cf_enc cf) (cf_applyConfigFrom cf) md prof
    (MkVariantPlan p_spec (rp_PrimaryRevision plan) (rp_PrimaryReplicas plan)) canary opts = inl ch ->
  match canary with
  | None => rp_CanaryRevision plan = "" \/ rp_CanaryReplicas plan <= 0
  | Some c => c = MkVariantPlan c_spec (rp_CanaryRevision plan) (rp_CanaryReplicas plan)
              /\ rp_CanaryRevision plan <> "" /\ 0 < rp_CanaryReplicas plan
  end -> renders md plan ch.
Proof.
  intros (_ & _ & Hp & Hc)%buildChildren_inv Hcan.
  apply buildDeployment_inv in Hp as (ps & _ & Hr & _ & Ht & _). cbn in Hr, Ht.
  split; [done|]. rewrite Ht. split; [done|]. destruct canary as [c|], (dc_CanaryDeployment ch) as [dep|]; try done.
  destruct Hcan as (-> & Hne & Hpos). apply buildDeployment_inv in Hc as (pc & _ & Hrc & _ & Htc & _).
  by rewrite Htc.
Qed.

Lemma render_renders b md prof resolved target plan opts ch :
  snd (migration.renderRollout (r_MustParse r) (cf_enc cf) (cf_applyConfigFrom cf) (cl_Deployment cl)
         (cf_Registry cf) (cf_Order cf) b md prof resolved target plan opts) = inl ch -> renders md plan ch.
Proof.
  unfold migration.renderRollout. cbv zeta.
  destruct (migration.specForRevision _ _ _ _ _ _ _ _ _ _ _) as [b1 [p_spec|]]; [|done].
  destruct (_ || _) eqn:Eo.
  - destruct (buildChildren _ _ _ _ _ _ None _) as [ch'|] eqn:Eb; [|done]. intros [= ->].
    eapply (build_renders md prof p_spec p_spec plan opts None); [done|].
    apply orb_true_iff in Eo as [E|E]; [left; by apply bool_decide_eq_true in E|right; lia].
  - destruct (migration.specForRevision _ _ _ _ _ b1 _ _ _ _ _) as [b2 [c_spec|]]; [|done].
    destruct (buildChildren _ _ _ _ _ _ (Some _) _) as [ch'|] eqn:Eb; [|done]. intros [= ->].
    eapply (build_renders md prof p_spec c_spec plan opts (Some _)); [done|].
    apply orb_false_iff in Eo as [E1 E2]. apply bool_decide_eq_false in E1. split; [done|]. split; [done|lia].
Qed.

(** The target is the snapshot's revision or the persisted identity it adopts. *)
Lemma target_revision w md prof resolved v2 pd cd opts rev adopted hold :
  snd (migration.targetRevisionForMigration (r_MustParse r) (cf_enc cf) (cf_applyConfigFrom cf)
         (cf_typedTemplate cf) (cf_DeepDerivative cf) w md prof resolved v2 pd cd opts) = inl (rev, adopted, hold) ->
  rev = v2 \/ rev <> "" /\ exists ref, migration.legacyReferenceFrom (Some md) pd cd = Some ref
                                    /\ migration.lr_revision ref = rev.
Proof.
  unfold migration.targetRevisionForMigration.
  destruct (migration.legacyReferenceFrom _ _ _) as [ref|] eqn:Href; [|intros [= <- _ _]; by left].
  destruct (_ || _) eqn:E; [intros [= <- _ _]; by left|]. apply orb_false_iff in E as [E _]. apply bool_decide_eq_false in E.
  destruct (revision.Get _ _ _ _) as [w1 [cr|e]]; [|by destruct (revision.IsNotFound e)].
  unfold migration.adopt_recorded, migration.adopt_live. cbn [snd]. intros H.
  repeat (match type of H with context [match ?x with _ => _ end] => destruct x end; try done).
  all: injection H as <- _ _; first [by left | right; split; [done|by exists ref]].
Qed.

(** The autoscaler leaves the resource alone or goes on with the answer to its
    patch. *)
Lemma autoscaled_resource w md pd cd :
  let md' := fst (fst (snd (scaling.reconcileAutoscaling r (cf_Recorder cf) (cl_ErrorText cl) (cl_ListHPAs cl)
                    (cl_PatchReplicas cl) w md pd cd))) in
  md' = md \/ exists b n served, snd (cl_PatchReplicas cl b md n) = inl served /\ md' = scaling.with_replicas served n.
Proof.
  unfold scaling.reconcileAutoscaling. destruct (sp_Autoscaling (md_Spec md)) as [spec|]; [|by left].
  destruct (negb _); [by left|]. destruct (cl_ListHPAs cl w (md_Namespace md)) as [w1 listed].
  destruct (scaling.externalScalerConflict md listed) as [name|]; [|by left]. destruct (_ != ""); [by left|].
  pose proof (scaling.scale_writes r (cf_Recorder cf) (cl_ErrorText cl) (cl_PatchReplicas cl) w1 md spec pd cd) as H.
  destruct (scaling.scale _ _ _ _ _ _ _ _ _) as [w2 [[md' [v err]] eff]]. cbn [fst snd].
  destruct H as ([->|(n & (b & served & Hp & ->) & _)] & _); [by left|right; by exists b, n, served].
Qed.

(** A Deployment as the pass read it: there, or not found. *)
Definition was_read (md : ModelDeployment) (name : string) (dep : option migration.LiveDeployment) : Prop :=
  exists b, match snd (cl_Deployment cl b (md_Namespace md) name) with
            | inl d => dep = Some d
            | inr revision.NotFound => dep = None
            | inr _ => False
            end.

(** What a pass decided on: the resource it read, or the answer to the
    autoscaler's patch of it; the revision of that resource's resolved spec, or
    the persisted identity it adopts; the plan for the two and the Deployments the
    pass read; and the children that carry the plan. *)
Definition decided_from (w : W) (d : decision) : Prop :=
  exists read prof snapshot primaryDep canaryDep,
    snd (Get w) = inl read
    /\ was_read read (naming.PrimaryDeployment (cf_enc cf) (md_Name read)) primaryDep
    /\ was_read read (naming.CanaryDeployment (cf_enc cf) (md_Name read)) canaryDep
    /\ (d_MD d = read
        \/ exists b n served, snd (cl_PatchReplicas cl b read n) = inl served /\ d_MD d = scaling.with_replicas served n)
    /\ engine.Get (cf_Registry cf) (cf_Order cf) (eng_Type (sp_Engine (md_Spec read))) = inl prof
    /\ revision.NewSnapshot (cf_enc cf)
         (Some (migration.resolvedRevisionSpec (r_MustParse r) read prof (cf_Options cf))) = inl snapshot
    /\ (d_Rev d = revision.sn_Revision snapshot
        \/ d_Rev d <> "" /\ exists ref, migration.legacyReferenceFrom (Some read) primaryDep canaryDep = Some ref
                                   /\ migration.lr_revision ref = d_Rev d)
    /\ (exists b, d_Plan d = snd (planRollout r b (d_MD d) (d_Rev d) (migration.ld_Deployment <$> primaryDep)
                                 (migration.ld_Deployment <$> canaryDep)))
    /\ renders (d_MD d) (d_Plan d) (d_Desired d).

Lemma fetch_inl ns n w w' c md : fetch ns n w = (w', (c, inl md)) -> snd (Get w) = inl md.
Proof.
  unfold fetch. intros H. pass_inv. apply act_inl in E as <-. destruct (snd (Get w)) as [md'|e].
  - destruct (is_nil _); [by injection H as _ _ ->|done].
  - by destruct e.
Qed.

Lemma validated_inl md w w' c prof resolved snapshot :
  validated md w = (w', (c, inl (prof, resolved, snapshot))) ->
  engine.Get (cf_Registry cf) (cf_Order cf) (eng_Type (sp_Engine (md_Spec md))) = inl prof
  /\ resolved = migration.resolvedRevisionSpec (r_MustParse r) md prof (cf_Options cf)
  /\ revision.NewSnapshot (cf_enc cf) (Some resolved) = inl snapshot.
Proof.
  unfold validated, check. intros H. pass_inv.
  repeat match goal with
  | E : match ?x with inl _ => _ | inr _ => _ end _ = _ |- _ =>
      destruct x eqn:?; [injection E as _ _ ->|by apply fail_not_inl in E]
  end. by injection H as _ _ <- <- <-.
Qed.

Lemma identify_inl md prof resolved snapshot pd cd w w' c rev :
  identify md prof resolved snapshot pd cd w = (w', (c, inl rev)) ->
  rev = revision.sn_Revision snapshot
  \/ rev <> "" /\ exists ref, migration.legacyReferenceFrom (Some md) pd cd = Some ref
                         /\ migration.lr_revision ref = rev.
Proof.
  unfold identify. intros H. pass_inv. apply act_inl in E. destruct a as [[[rv adopted] hold]|e]; [|done].
  apply target_revision in E.
  assert (rev = rv) as ->.
  { destruct (_ && _); pass_inv; [done|]. destruct adopted; [by injection H as _ _ ->|]. pass_inv.
    destruct o; [done|]. by injection H as _ _ ->. }
  exact E.
Qed.

Lemma primary_inl md w w' c dep :
  primary_for md w = (w', (c, inl dep)) -> was_read md (naming.PrimaryDeployment (cf_enc cf) (md_Name md)) dep.
Proof.
  unfold primary_for. intros H. pass_inv. apply act_inl in E. exists w. unfold migration.deploymentFor in E.
  destruct (cl_Deployment cl w (md_Namespace md) _) as [w1 [d|e]]; cbn in *.
  - subst a. by injection H as _ _ <-.
  - destruct e; subst a; [|done..]. by injection H as _ _ <-.
Qed.

Lemma canary_inl md w w' c dep :
  canaryDeploymentFor md w = (w', (c, inl dep)) -> was_read md (naming.CanaryDeployment (cf_enc cf) (md_Name md)) dep.
Proof.
  unfold canaryDeploymentFor. intros H. pass_inv. apply act_inl in E. exists w. rewrite E.
  destruct a as [d|e]; [by injection H as _ _ <-|]. destruct e; try done. by injection H as _ _ <-.
Qed.

Lemma decide_inv ns n w w' c d : decide_pass ns n w = (w', (c, inl d)) -> decided_from w d.
Proof.
  unfold decide_pass. intros H. pass_inv.
  repeat match goal with
  | E : fetch _ _ _ = _ |- _ => apply fetch_inl in E
  | E : validated _ _ = _ |- _ => apply validated_inl in E as (? & ? & ?)
  | E : identify _ _ _ _ _ _ _ = _ |- _ => apply identify_inl in E
  | E : primary_for _ _ = _ |- _ => apply primary_inl in E
  | E : canaryDeploymentFor _ _ = _ |- _ => apply canary_inl in E
  | E : act _ _ = _ |- _ => apply act_inl in E
  end.
  match goal with H : match ?x with inl _ => _ | inr _ => _ end _ = _ |- _ => destruct x as [desired|e]; [|by apply fail_not_inl in H] end.
  injection H as _ _ <-. unfold decided_from. cbn [d_MD d_Rev d_Plan d_Desired].
  eexists _, _, _, _, _. do 3 (split; [eassumption|]).
  split; [|split; [eassumption|split; [subst; eassumption|split; [eassumption|]]]].
  - match goal with E : snd (scaling.reconcileAutoscaling _ _ _ _ _ ?w ?md ?pd ?cd) = _ |- _ =>
      pose proof (autoscaled_resource w md pd cd) as Ha; cbv zeta in Ha; rewrite E in Ha end. exact Ha.
  - split; [by eexists|]. by eapply render_renders.
Qed.

(** How a pass unfolds. *)
Lemma Reconcile_stages w ns n :
  let '(_, (calls, o)) := Reconcile w ns n in
  match snd (snd (decide_pass ns n w)) with
  | inr _ => child_calls calls = []
  | inl d =>
      decided_from w d /\ child_calls calls `prefix_of` script (d_MD d) (d_Desired d)
      /\ (forall cause, o <> Terminal cause)
      /\ (forall t, o = Done t -> child_calls calls = script (d_MD d) (d_Desired d))
  end.
Proof.
  unfold Reconcile, reconcile_pass, bind. pose proof (decide_quiet ns n w) as Hq.
  destruct (decide_pass ns n w) as [w1 [c1 [d|o]]] eqn:Ed; cbn [fst snd] in *; [|done].
  apply decide_inv in Ed. pose proof (enact_script d w1) as He. destruct (enact d w1) as [w2 [c2 [[]|o]]].
  - destruct He as [_ ->]. pose proof (conclude_quiet d w2) as Hc. pose proof (conclude_transient d w2) as Ht.
    destruct (conclude_pass d w2) as [w3 [c3 x]]. cbn [fst snd] in *. rewrite !child_calls_app, Hq, Hc, app_nil_r.
    assert (Hs : child_calls (script (d_MD d) (d_Desired d)) = script (d_MD d) (d_Desired d))
      by (unfold script; by destruct (dc_CanaryDeployment _)).
    cbn [app]. rewrite Hs. split; [done|]. split; [done|]. split; [|done].
    intros cause Hx. destruct x as [|o]; [done|]. by apply (Ht cause); rewrite Hx.
  - destruct He as [Hp (e & ->)]. rewrite child_calls_app, Hq. cbn [app].
    assert (Hs : child_calls c2 = c2).
    { destruct Hp as [l Hl]. unfold script in Hl. unfold child_calls.
      apply forallb_filter_id, forallb_forall. intros x Hx.
      assert (Hin : In x (script (d_MD d) (d_Desired d))) by (unfold script; rewrite Hl; apply in_app_iff; by left).
      unfold script in Hin. destruct (dc_CanaryDeployment _); cbn in Hin; by decompose sum Hin; subst. }
    rewrite Hs. by split_and!.
Qed.

(** The target has a name, when encoding keeps text non-empty. *)
Lemma decided_named w d : (forall s, s <> "" -> cf_enc cf s <> "") -> decided_from w d -> d_Rev d <> "".
Proof.
  intros He (read & prof & snapshot & pd & cd & _ & _ & _ & _ & _ & Hn & [->|[? _]] & _); [|done].
  revert Hn. unfold revision.NewSnapshot. destruct (revision.validateEffectiveSpec _); [done|].
  destruct (revision.MarshalV2 _) as [raw|]; [|done]. intros [= <-]. apply He, format_int_ne.
Qed.

(** The children of a decision share the replicas, on the revisions of the plan. *)
Lemma decided_split w d :
  decided_from w d -> int32_ok (replicasFor (d_MD d)) -> 0 <= replicasFor (d_MD d) -> d_Rev d <> "" ->
  let ch := d_Desired d in
  da_Replicas (dc_Deployment ch) + from_ptr 0 (da_Replicas <$> dc_CanaryDeployment ch) = replicasFor (d_MD d)
  /\ forall canary, dc_CanaryDeployment ch = Some canary ->
       0 < da_Replicas canary
       /\ pt_Labels (da_Template canary) = naming.PodLabels (md_Name (d_MD d)) VariantCanary (d_Rev d)
       /\ pt_Labels (da_Template (dc_Deployment ch))
          = naming.PodLabels (md_Name (d_MD d)) VariantPrimary
              (firstNonEmpty [mds_LastGoodRevision (md_Status (d_MD d)); d_Rev d]).
Proof.
  intros (_ & _ & _ & pd & cd & _ & _ & _ & _ & _ & _ & _ & (b & Hplan) & Hr1 & Hr2 & Hr3) Hok H0 Ht ch. subst ch.
  destruct (planRollout_planned r b (d_MD d) (d_Rev d) (migration.ld_Deployment <$> pd) (migration.ld_Deployment <$> cd)) as (res & Hres & Eplan).
  assert (Hw : well_split (d_MD d) (d_Rev d) (d_Plan d)).
  { rewrite Hplan, Eplan. by apply guard_well_split, hold_well_split, planned_well_split. }
  destruct Hw as (Hsum & Hpos & Hcpos & Hact & Hinact). split.
  - rewrite Hr1. destruct (dc_CanaryDeployment (d_Desired d)) as [canary|]; cbn.
    + destruct Hr3 as (_ & _ & -> & _). done.
    + destruct (rp_Active (d_Plan d)); [|by destruct (Hinact eq_refl) as (_ & Hz & Hq); lia].
      destruct Hr3 as [Hr3|Hr3]; [|lia]. destruct (Hact eq_refl) as [Hc _]. congruence.
  - intros canary Hcan. rewrite Hcan in Hr3. destruct Hr3 as (Hne & Hlt & Hrep & Hlab).
    destruct (rp_Active (d_Plan d)); [|by destruct (Hinact eq_refl) as [Hz _]].
    destruct (Hact eq_refl) as [Hc Hpr]. rewrite Hrep, Hlab, Hr2, Hc, Hpr. done.
Qed.

(** Every pass that gets as far as its conclusion stops there. *)
Lemma bind_stops {A B} (m : M W A) (k : A -> M W B) w :
  (forall a w, exists o, snd (snd (k a w)) = inr o) -> exists o, snd (snd (bind m k w)) = inr o.
Proof.
  intros H. unfold bind. destruct (m w) as [w1 [c1 [a|o]]]; [|by eexists].
  destruct (H a w1) as [o Ho]. destruct (k a w1) as [w2 [c2 x]]. by exists o.
Qed.

Lemma reconcile_pass_stops ns n w : exists o, snd (snd (reconcile_pass ns n w)) = inr o.
Proof.
  unfold reconcile_pass. apply bind_stops. intros d w1. apply bind_stops. intros _ w2.
  unfold conclude_pass. cbv zeta. apply bind_stops. intros _ w3. apply bind_stops. intros md w4.
  apply bind_stops. intros [verdict merr] w5. apply bind_stops. intros _ w6. apply bind_stops. intros obs w7.
  apply bind_stops. intros [events err] w8. apply bind_stops. intros _ w9.
  destruct err as [[|e]|]; [by eexists..|]. apply bind_stops. intros _ w10. apply bind_stops. intros _ w11.
  by eexists.
Qed.

(** ** Properties *)

(** C13: a pass that cannot proceed touches no workload.  If a pass ends
    terminally - an invalid spec, an unknown engine, a revision whose history is
    missing, a child that cannot be rendered - it has applied and deleted
    nothing. *)
Theorem terminal_touches_nothing w ns n w' calls cause :
  Reconcile w ns n = (w', (calls, Terminal cause)) -> child_calls calls = [].
Proof.
  intros H. pose proof (Reconcile_stages w ns n) as Hs. rewrite H in Hs.
  destruct (snd (snd (decide_pass ns n w))) as [d|]; [|done]. destruct Hs as (_ & _ & Ht & _). by destruct (Ht cause).
Qed.

(** C12: a pass writes its plan, in order.  Whatever the cluster, the metric
    backend and the clock answer: a pass that ends before its decision writes no
    child.  Otherwise the decision is for the resource the pass read (or the
    answer to the autoscaler's patch of it), with the revision of that resource's
    resolved spec (or the persisted identity it adopts) as target, and its
    children carry the counts and revisions [planRollout] gives for the two and the
    Deployments it read.  The
    child writes are an initial part of: the primary Deployment, the two Services,
    and then the canary Deployment or, without a canary, its deletion; all of them
    when the pass succeeds.  The two Deployments share the replicas of the
    resource exactly, and a canary is only ever applied for the target, beside a
    primary on the last known-good revision. *)
Theorem pass_writes_plan w ns n :
  let '(_, (calls, o)) := Reconcile w ns n in
  match snd (snd (decide_pass ns n w)) with
  | inr _ => child_calls calls = []
  | inl d =>
      let md := d_MD d in
      let ch := d_Desired d in
      decided_from w d
      /\ child_calls calls `prefix_of` script md ch
      /\ (forall t, o = Done t -> child_calls calls = script md ch)
      /\ ((forall s, s <> "" -> cf_enc cf s <> "") -> int32_ok (replicasFor md) -> 0 <= replicasFor md ->
          da_Replicas (dc_Deployment ch) + from_ptr 0 (da_Replicas <$> dc_CanaryDeployment ch) = replicasFor md
          /\ forall canary, dc_CanaryDeployment ch = Some canary ->
               0 < da_Replicas canary
               /\ pt_Labels (da_Template canary) = naming.PodLabels (md_Name md) VariantCanary (d_Rev d)
               /\ pt_Labels (da_Template (dc_Deployment ch))
                  = naming.PodLabels (md_Name md) VariantPrimary
                      (firstNonEmpty [mds_LastGoodRevision (md_Status md); d_Rev d]))
  end.
Proof.
  pose proof (Reconcile_stages w ns n) as Hs. destruct (Reconcile w ns n) as [w' [calls o]].
  destruct (snd (snd (decide_pass ns n w))) as [d|]; [|done]. destruct Hs as (Hd & Hp & _ & Ho).
  cbv zeta. do 3 (split; [done|]). intros He Hok H0. by apply (decided_split w); [..|apply (decided_named w)].
Qed.

End Reconcile.

End controller.
