(* ===== verification/ControllerSim.v ===== *)
(** * A cluster to run passes on

    A concrete world in which every parameter of the controller's model is a
    function: one ModelDeployment, a ControllerRevision store, an API server
    that accepts every write, a codec for the payloads of two specs, one of them in the legacy
    format too.  The
    witnesses of the theorems about revisions, rendering and whole passes run
    here, and so does a pass during which the resource is edited. *)

From S2P Require Import Prelude GoFloat GoFmt GoStrings ApiTypes KubeTypes Naming Engine CanaryWeights CanaryVerdict CanaryState Analysis ControllerRollout ControllerStatus ControllerPlan ControllerPass ControllerSafety ControllerWrite ControllerAutoscale ControllerChildren Revision ControllerMigration Observability Discovery ControllerObservability ControllerReconcile.
Import v1alpha1.
Local Open Scope Z_scope.
Local Open Scope go_scope.

Module sim.
Import kube engine rollouts plans status writes children controller.

(** ** The codec *)

#[global] Instance versionedPayload_eq_dec : EqDecision revision.versionedPayload.
Proof.
  assert (EqDecision revision.workloadServingV2) by solve_decision.
  assert (EqDecision revision.workloadV2) by solve_decision. solve_decision.
Defined.

#[global] Instance revisionInput_eq_dec : EqDecision revision.revisionInput.
Proof. assert (EqDecision revision.revisionServing) by solve_decision. solve_decision. Defined.

(** Two payloads of the current format and one of the legacy format, each with
    a text of its own. *)
Section Codec.
Context (a b : revision.versionedPayload) (l : revision.revisionInput).

Definition marshal (p : revision.versionedPayload) : string + string :=
  if bool_decide (p = a) then inl "{a}" else if bool_decide (p = b) then inl "{b}" else inr "unsupported payload".

Definition unmarshal (raw : string) : revision.versionedPayload + string :=
  if raw == "{a}" then inl a else if raw == "{b}" then inl b else inr "unknown payload".

Definition marshal_legacy (p : revision.revisionInput) : string + string :=
  if bool_decide (p = l) then inl "{l}" else inr "unsupported payload".

Definition unmarshal_legacy (raw : string) : revision.revisionInput + string :=
  if raw == "{l}" then inl l else inr "unknown payload".

Definition unmarshal_header (raw : string) : string + string :=
  if raw == "{l}" then inl ""
  else match unmarshal raw with inl p => inl (revision.vpl_Version p) | inr e => inr e end.

Lemma unmarshal_marshal p raw :
  marshal p = inl raw -> unmarshal raw = inl p /\ raw <> "" /\ unmarshal_header raw = inl (revision.vpl_Version p).
Proof. unfold marshal, unmarshal. repeat case_bool_decide; intros [= <-]; subst; by split_and!. Qed.

Lemma unmarshal_marshal_legacy p raw :
  marshal_legacy p = inl raw -> unmarshal_legacy raw = inl p /\ raw = "{l}".
Proof. unfold marshal_legacy, unmarshal_legacy. case_bool_decide; intros [= <-]. by subst. Qed.

#[refine] Definition small_codec : revision.PayloadCodec := {|
  revision.MarshalV2 := marshal;
  revision.MarshalLegacy := marshal_legacy;
  revision.UnmarshalHeader := unmarshal_header;
  revision.UnmarshalV2 := unmarshal;
  revision.UnmarshalLegacy := unmarshal_legacy |}.
Proof.
  all: intros p raw H; first [apply unmarshal_marshal in H as (? & ? & ?) | apply unmarshal_marshal_legacy in H as [? ->]];
    done.
Defined.
End Codec.

(** ** The world *)

(** The resource and the controller's status writes, the stored revisions with
    the logs, and an edit another writer is about to make. *)
Record Sim := MkSim {
  sim_single : Single; sim_revisions : list revision.ControllerRevision;
  sim_created : list revision.ControllerRevision; sim_deleted : list revision.ControllerRevision;
  sim_edit : option ModelDeployment }.

Definition on_single {R} (f : Single -> Single * R) (w : Sim) : Sim * R :=
  let (s, x) := f (sim_single w) in
  (MkSim s (sim_revisions w) (sim_created w) (sim_deleted w) (sim_edit w), x).

#[refine] Instance sim_server : ApiServer Sim := {|
  Get w := on_single (fun s => (s, inl (sg_object s))) w;
  UpdateStatus w m := on_single (fun s => single_update s m) w;
  log w := sg_log (sim_single w) |}.
Proof.
  - done.
  - intros w m. unfold on_single, single_update. destruct (_ == _) eqn:E; cbn; [|done]. go_bools. intros _.
    by exists (sg_object (sim_single w)).
  - intros w m. unfold on_single, single_update. by destruct (_ == _).
  - intros w m e. unfold on_single, single_update. destruct (_ == _); [done|]. by left.
Defined.

Definition revision_named (ns n : string) (cr : revision.ControllerRevision) : bool :=
  (revision.cr_Namespace cr == ns) && (revision.cr_Name cr == n).

Definition create_revision (w : Sim) (cr : revision.ControllerRevision) : Sim * option revision.ApiError :=
  if existsb (revision_named (revision.cr_Namespace cr) (revision.cr_Name cr)) (sim_revisions w)
  then (w, Some revision.AlreadyExists)
  else (MkSim (sim_single w) (cr :: sim_revisions w) (sim_created w ++ [cr]) (sim_deleted w) (sim_edit w), None).

Definition delete_revision (w : Sim) (cr : revision.ControllerRevision) : Sim * option revision.ApiError :=
  (MkSim (sim_single w)
     (List.filter (fun x => negb (revision_named (revision.cr_Namespace cr) (revision.cr_Name cr) x)) (sim_revisions w))
     (sim_created w) (sim_deleted w ++ [cr]) (sim_edit w), None).

#[refine] Instance sim_history : revision.HistoryAPI Sim := {|
  revision.GetCR w ns n :=
    (w, match List.find (revision_named ns n) (sim_revisions w) with
        | Some cr => inl cr | None => inr revision.NotFound end);
  revision.ListCR w ns n :=
    (w, inl (List.filter (fun cr => (revision.cr_Namespace cr == ns)
                && bool_decide (revision.cr_Labels cr !! naming.LabelModelDeployment = Some n)) (sim_revisions w)));
  revision.CreateCR := create_revision;
  revision.DeleteCR := delete_revision;
  revision.created := sim_created;
  revision.deleted := sim_deleted |}.
Proof.
  all: try done; intros w cr; unfold create_revision; by destruct (existsb _ _).
Defined.

(** A cluster without prometheus-operator. *)
#[refine] Instance sim_monitoring : monitoring.MonitoringAPI Sim := {|
  monitoring.GetObj w _ _ _ := (w, inr monitoring.NoMatch);
  monitoring.CreateObj w _ := (w, inr monitoring.NoMatch);
  monitoring.ApplyObj w _ _ := (w, Some monitoring.NoMatch);
  monitoring.DeleteObj w _ _ _ _ := (w, Some monitoring.NoMatch);
  monitoring.ResetMapper w := w;
  monitoring.errorText _ := "no match";
  monitoring.writes _ := [] |}.
Proof. all: try done; by left. Defined.

(** The patch: the pending edit lands first, the two annotations go, and the
    answer is the server's copy. *)
Definition patched (md : ModelDeployment) : ModelDeployment :=
  MkModelDeployment (md_Name md) (md_Namespace md) (md_UID md) (md_ResourceVersion md +:+ "'")
    (md_Generation md) (md_DeletionTimestamp md) (clearRolloutAnnotations md) (md_Spec md) (md_Status md).

Definition patch_annotations (w : Sim) (_ : ModelDeployment) : Sim * (ModelDeployment + ApiError) :=
  let s := sim_single w in
  let served := patched (from_ptr (sg_object s) (sim_edit w)) in
  (MkSim (MkSingle served (sg_log s)) (sim_revisions w) (sim_created w) (sim_deleted w) None, inl served).

Definition client : Client Sim :=
  MkClient Sim (fun w _ _ => (w, inr revision.NotFound)) (fun w _ => (w, None)) (fun w _ => (w, None))
    (fun w _ _ => (w, Some NotFound)) patch_annotations (fun w _ => (w, scaling.Listed []))
    (fun w md n => (w, inl (scaling.with_replicas md n))) (fun _ => None) (fun _ => "") (fun _ => "").

Definition clocked : Reconciler Sim :=
  MkReconciler Sim (fun w => (w, 500 * time.Second)) None
    (fun _ _ w _ => (w, analysis.Err "unreachable")) (fun s => MkQuantity 1500 s).

Definition config : Operator :=
  MkOperator true (MkRenderOptions "") (from_ptr ∅ engine.init) [EngineLlamaCPP] 5 id inl
    (fun d => inl (da_Template d)) (fun a b => bool_decide (pt_Spec a = pt_Spec b)) (fun _ => inl "sel").

(** ** Resources *)

Definition status0 : ModelDeploymentStatus :=
  MkModelDeploymentStatus 1 PhasePending 0 "" 0 0 0 "" "" "" None None [].

Definition resource (version : string) (generation : Z) (annotations : gmap string string)
    (path : string) (status : ModelDeploymentStatus) : ModelDeployment :=
  let s := sample_spec RolloutCanary in
  MkModelDeployment "demo" "default" "u" version generation None annotations
    (MkModelDeploymentSpec (sp_Replicas s)
       (MkModelSpec "qwen" (MkModelSourceSpec (Some (MkImageModelSource "img" path "")) None None))
       (MkEngineSpec EngineLlamaCPP "" "" None None None [] [] no_resources None) (sp_Serving s) (sp_Rollout s) (sp_Observability s) (sp_Autoscaling s)) status.

Definition resolved (md : ModelDeployment) : ModelDeploymentSpec :=
  migration.resolvedRevisionSpec (r_MustParse clocked) md llamaCPP (cf_Options config).

Definition payload (md : ModelDeployment) : revision.versionedPayload :=
  let s := resolved md in
  revision.MkVersionedPayload revision.PayloadVersionV2
    (revision.MkWorkloadV2 (sp_Model s) (sp_Engine s)
       (revision.MkWorkloadServingV2 (srv_StartupTimeout (sp_Serving s)) (srv_Shim (sp_Serving s)))).

Definition old_md : ModelDeployment := resource "1" 2 ∅ "/old.gguf" status0.
Definition new_md : ModelDeployment := resource "2" 3 ∅ "/new.gguf" status0.

#[export] Instance codec : revision.PayloadCodec := small_codec (payload old_md) (payload new_md) (revision.revisionPayload (Some (md_Spec old_md))).
#[export] Instance setter : ConditionSetter := ctlsafety.list_setter.

Definition world (md : ModelDeployment) (edit : option ModelDeployment) : Sim :=
  MkSim (MkSingle md []) [] [] [] edit.

Definition run (w : Sim) : Sim * (list Call * Outcome) := Reconcile clocked client config None w "default" "demo".

(** The names of the child writes. *)
Definition child_names (calls : list Call) : list string :=
  omap (fun c => match c with
                 | ApplyDeployment d => Some ("apply " +:+ da_Name d)
                 | ApplyService s => Some ("apply " +:+ sa_Name s)
                 | DeleteDeployment _ n => Some ("delete " +:+ n)
                 | _ => None
                 end) calls.

(** A first pass applies the primary and the Services, removes any canary, and
    records the revision and the status. *)
Example first_pass :
  let '(w, (calls, o)) := run (world old_md None) in
  child_names calls = ["apply demo-primary"; "apply demo"; "apply demo-metrics"; "delete demo-canary"]
  /\ map revision.cr_Data (sim_created w) = ["{a}"] /\ length (sg_log (sim_single w)) = 1%nat
  /\ match o with Done t => t = Discovery.discovery.AbsentTTL | _ => False end.
Proof. vm_compute. done. Qed.

(** ** A pass during which the resource is edited *)

Definition armed : gmap string string := {[ naming.AnnoPromote := "true" ]}.

(** The revision of a resource's spec, and the revisions a pass applied. *)
Definition revision_of (md : ModelDeployment) : string :=
  match revision.NewSnapshot (cf_enc config) (Some (resolved md)) with
  | inl s => revision.sn_Revision s
  | inr _ => ""
  end.

Definition applied_revisions (calls : list Call) : list string :=
  omap (fun c => match c with
                 | ApplyDeployment d => pt_Labels (da_Template d) !! naming.LabelRevision
                 | _ => None
                 end) calls.

(** A patch hides a concurrent edit from the staleness check.  A user edits the
    spec after the pass has read it and before the pass clears the promote
    annotation.  The patch refreshes the pass's copy, so the check of
    [updateStatus] compares the edit with itself: the pass succeeds and writes one
    status that claims the edited generation, although the only workload it
    applied is of the revision it read. *)
Example edit_hidden_by_patch :
  let old := resource "1" 2 armed "/old.gguf" status0 in
  let edited := resource "2" 3 armed "/new.gguf" status0 in
  let '(w, (calls, o)) := run (world old (Some edited)) in
  revision_of edited <> revision_of old
  /\ applied_revisions calls = [revision_of old]
  /\ map (fun '(cur, st) => (md_Generation cur, mds_ObservedGeneration st)) (sg_log (sim_single w)) = [(3, 3)]
  /\ map revision.cr_Data (sim_created w) = ["{a}"]
  /\ match o with Done _ => True | _ => False end.
Proof. vm_compute. split_and!; done. Qed.

(** Without the annotation there is no patch, and the same edit is caught. *)
Example edit_caught_without_patch :
  let old := resource "1" 2 ∅ "/old.gguf" status0 in
  let w0 := world old None in
  let '(w, (calls, o)) :=
    Reconcile clocked
      (MkClient Sim (cl_Deployment client) (cl_ApplyDeployment client)
         (fun w _ => (MkSim (MkSingle new_md (sg_log (sim_single w))) (sim_revisions w) (sim_created w)
                        (sim_deleted w) None, None))
         (cl_DeleteDeployment client) (cl_PatchAnnotations client) (cl_ListHPAs client) (cl_PatchReplicas client)
         (fun _ => None) (fun _ => "") (fun _ => "")) config None w0 "default" "demo" in
  sg_log (sim_single w) = [] /\ o = Done staleRequeue.
Proof. vm_compute. done. Qed.

(** ** Witnesses *)

(** An engine nobody registered ends the pass before anything is touched. *)
Lemma terminal_touches_nothing_witness :
  let bad := MkOperator true (MkRenderOptions "") ∅ [] 5 id inl
               (fun d => inl (da_Template d)) (fun _ _ => true) (fun _ => inl "sel") in
  let '(w, (calls, o)) := Reconcile clocked client bad None (world old_md None) "default" "demo" in
  o = Terminal ("engine: unknown engine type " +:+ gofmt.Quote EngineLlamaCPP +:+ "; supported types are: ") /\ child_calls calls = [].
Proof.
  intros bad. destruct (Reconcile clocked client bad None (world old_md None) "default" "demo") as [w [calls o]] eqn:E.
  assert (Ho : o = Terminal ("engine: unknown engine type " +:+ gofmt.Quote EngineLlamaCPP +:+ "; supported types are: ")).
  { change o with (snd (snd (w, (calls, o)))). rewrite <- E. vm_compute. reflexivity. }
  split; [exact Ho|]. subst o.
  exact (terminal_touches_nothing clocked client bad None (world old_md None) "default" "demo" w calls _ E).
Defined.

(** The first pass decides on the resource as it is stored, for the revision of
    its spec, and writes the whole script. *)
Lemma pass_writes_plan_witness :
  let w0 := world old_md None in
  let '(w, (calls, o)) := run w0 in
  exists d, snd (snd (decide_pass clocked client config "default" "demo" w0)) = inl d
    /\ d_Rev d = revision_of old_md /\ decided_from clocked client config w0 d
    /\ child_calls calls = script config (d_MD d) (d_Desired d) /\ child_calls calls <> []
    /\ da_Replicas (dc_Deployment (d_Desired d)) + from_ptr 0 (da_Replicas <$> dc_CanaryDeployment (d_Desired d))
       = replicasFor (d_MD d).
Proof.
  intros w0. pose proof (pass_writes_plan clocked client config None w0 "default" "demo") as H.
  fold (run w0) in H. destruct (run w0) as [w [calls o]] eqn:E.
  assert (Hd : match snd (snd (decide_pass clocked client config "default" "demo" w0)) with
               | inl d => Some (d_Rev d, replicasFor (d_MD d)) | inr _ => None end = Some (revision_of old_md, 10)).
  { vm_compute. reflexivity. }
  destruct (snd (snd (decide_pass clocked client config "default" "demo" w0))) as [d|]; [|done].
  injection Hd as Hrev Hn. exists d. destruct H as (H1 & _ & H3 & H4).
  assert (Ho : exists t, o = Done t /\ child_calls calls <> []).
  { pose proof (f_equal (fun x => snd (snd x)) E) as Eo. pose proof (f_equal (fun x => fst (snd x)) E) as Ec.
    cbn [fst snd] in Eo, Ec. rewrite <- Eo, <- Ec. eexists. split; [vm_compute; reflexivity|]. vm_compute. discriminate. }
  destruct Ho as (t & -> & Hne). split; [done|]. split; [exact Hrev|]. split; [exact H1|].
  split; [exact (H3 t eq_refl)|]. split; [exact Hne|]. refine (proj1 (H4 _ _ _)).
  - intros s Hs. exact Hs.
  - rewrite Hn. unfold int32_ok. vm_compute. split; discriminate.
  - rewrite Hn. discriminate.
Defined.

End sim.
