(* ===== verification/ControllerWitness.v ===== *)
(** * Theorems at concrete inputs

    The cluster of ControllerSim.v satisfies the hypotheses of the theorems on
    engine profiles, child objects, revisions and their migration: each lemma
    here applies one of them to it. *)

From S2P Require Import Prelude GoFloat GoFmt GoStrings ApiTypes KubeTypes Naming Engine CanaryState ControllerRollout ControllerStatus ControllerPlan ControllerWrite ControllerChildren Revision ControllerMigration ControllerReconcile ControllerSim.
Import v1alpha1.
Local Open Scope Z_scope.
Local Open Scope go_scope.

Module witness.
Import kube engine rollouts children revision migration controller sim.

Definition parse : string -> Quantity := r_MustParse clocked.
Definition opts : renderOptions := cf_Options config.

(** An engine that is always built; the impossible case is computed away. *)
Ltac computed x v E :=
  destruct x as [v|?] eqn:E; [|exfalso; clear -E; vm_compute in E; discriminate E].

Definition bc : BuildContext := MkBuildContext (Some old_md) VariantPrimary "/models/old.gguf" "" 4 0.

Lemma Build_settings_owned_witness :
  exists r md, Build bc = inl r /\ bc_MD bc = Some md
  /\ c_Args (br_Container r) = owned_args (md_Spec md) bc naming.EnginePort ++ eng_ExtraArgs (sp_Engine (md_Spec md)).
Proof.
  computed (Build bc) r E. destruct (Build_settings_owned bc r E) as (md & Hmd & H & _).
  exists r, md. split; [reflexivity|]. split; [exact Hmd|exact H].
Defined.

Definition plan_of (md : ModelDeployment) (rev : string) (n : Z) : variantPlan :=
  MkVariantPlan (md_Spec md) rev n.

Lemma selectors_match_witness :
  exists ch canary,
    buildChildren parse id inl new_md llamaCPP (plan_of old_md "r1" 8) (Some (plan_of new_md "r2" 2)) opts = inl ch
    /\ dc_CanaryDeployment ch = Some canary
    /\ sa_Selector (dc_Service ch) ⊆ pt_Labels (da_Template (dc_Deployment ch))
    /\ ~ da_Selector (dc_Deployment ch) ⊆ pt_Labels (da_Template canary).
Proof.
  computed (buildChildren parse id inl new_md llamaCPP (plan_of old_md "r1" 8) (Some (plan_of new_md "r2" 2)) opts) ch E.
  destruct (selectors_match parse id inl new_md llamaCPP _ _ opts ch E) as [H1 H2].
  destruct (dc_CanaryDeployment ch) as [canary|] eqn:Ec.
  - exists ch, canary. split; [reflexivity|]. split; [exact Ec|].
    apply Forall_cons_1 in H1 as [(_ & Hs & _) _]. split; [exact Hs|]. exact (proj1 (H2 canary eq_refl)).
  - exfalso. clear -E Ec.
    assert (H : match buildChildren parse id inl new_md llamaCPP (plan_of old_md "r1" 8)
                        (Some (plan_of new_md "r2" 2)) opts with
                | inl ch => is_Some (dc_CanaryDeployment ch) | inr _ => True end)
      by (vm_compute; eexists; reflexivity).
    rewrite E, Ec in H. by destruct H.
Defined.

Lemma model_file_staged_witness :
  exists ps c init,
    buildPodSpec parse inl old_md llamaCPP VariantPrimary opts = inl ps
    /\ ps_Containers ps = [c] /\ In init (ps_InitContainers ps)
    /\ exists mount, c_Command init = ["cp"; "/old.gguf"; vm_MountPath mount +:+ "/old.gguf"].
Proof.
  computed (buildPodSpec parse inl old_md llamaCPP VariantPrimary opts) ps E.
  destruct (model_file_staged parse inl (fun c => eq_refl) old_md VariantPrimary opts ps
              (MkImageModelSource "img" "/old.gguf" "") E eq_refl) as (c & init & file & mount & H1 & H2 & H3 & _ & _ & _ & _ & ->).
  { apply (bool_decide_unpack _). vm_compute. exact I. }
  exists ps, c, init. split; [reflexivity|]. split; [exact H1|]. split; [exact H2|]. exists mount. exact H3.
Defined.

(** The spec of [old_md] with the sidecar off. *)
Definition shimless : ModelDeploymentSpec :=
  let s := md_Spec old_md in
  MkModelDeploymentSpec (sp_Replicas s) (sp_Model s) (sp_Engine s)
    (MkServingSpec 8080 None (MkShimSpec (Some false) "" no_resources "")) (sp_Rollout s) (sp_Observability s)
    (sp_Autoscaling s).

(** Turning the sidecar on while the primary still runs without it: the only
    port of the Service resolves on none of the primary's containers. *)
Lemma shim_toggle_unroutes_primary_witness :
  exists ch p,
    buildChildren parse id inl new_md llamaCPP (MkVariantPlan shimless "r1" 8) (Some (plan_of new_md "r2" 2)) opts = inl ch
    /\ sa_Ports (dc_Service ch) = [p]
    /\ forall c, ~ exposes (pt_Spec (da_Template (dc_Deployment ch))) (svp_TargetPort p) c.
Proof.
  computed (buildChildren parse id inl new_md llamaCPP (MkVariantPlan shimless "r1" 8) (Some (plan_of new_md "r2" 2)) opts) ch E.
  pose proof (shim_toggle_unroutes_primary parse id inl (fun c => eq_refl) new_md opts _ _ ch E eq_refl eq_refl) as H.
  assert (Hp : exists p, sa_Ports (dc_Service ch) = [p]).
  { apply buildChildren_inv in E as (-> & _). eexists. reflexivity. }
  destruct Hp as [p Hp]. exists ch, p. split; [reflexivity|]. split; [exact Hp|]. intros c. apply H. rewrite Hp. by left.
Defined.

Lemma snapshot_roundtrip_witness :
  exists s d, NewSnapshot id (Some (resolved old_md)) = inl s /\ Decode (sn_Raw s) = inl d
  /\ sp_Engine (de_Spec d) = sp_Engine (resolved old_md).
Proof.
  computed (NewSnapshot id (Some (resolved old_md))) s E.
  destruct (snapshot_roundtrip id (resolved old_md) s E) as (_ & d & H & _ & Hd).
  exists s, d. split; [reflexivity|]. split; [exact H|]. rewrite Hd. reflexivity.
Defined.

(** Recording the revision of [old_md] creates it, once. *)
Lemma Record_append_only_witness :
  let rev := hashBytes id "{a}" in
  let '(w1, r1) := Record_ id (fun _ => None) (world old_md None) (Some old_md) rev ["{a}"] in
  let '(w2, r2) := Record_ id (fun _ => None) w1 (Some old_md) rev ["{a}"] in
  length (sim_created w1) = 1%nat /\ sim_created w2 = sim_created w1 /\ sim_deleted w2 = [].
Proof.
  cbv zeta.
  destruct (Record_ id (fun _ => None) (world old_md None) (Some old_md) (hashBytes id "{a}") ["{a}"]) as [w1 r1] eqn:E1.
  destruct (Record_ id (fun _ => None) w1 (Some old_md) (hashBytes id "{a}") ["{a}"]) as [w2 r2] eqn:E2.
  pose proof (Record_append_only id (fun _ => None) _ _ _ _ _ _ E1) as [D1 H1].
  pose proof (Record_append_only id (fun _ => None) _ _ _ _ _ _ E2) as [D2 H2].
  assert (C1 : w1 = fst (w1, r1)) by reflexivity. rewrite <- E1 in C1. rewrite C1 in E2.
  assert (Hn : match r2 with inl (_, isNew) => isNew = false | inr _ => True end).
  { change r2 with (snd (w2, r2)). rewrite <- E2. vm_compute. reflexivity. }
  split; [|split].
  - rewrite C1. vm_compute. reflexivity.
  - destruct r2 as [[cr []]|e]; [discriminate Hn| |exact H2]. destruct H2 as (_ & _ & H2).
    transitivity (sim_created w1 ++ []); [exact H2|apply app_nil_r].
  - transitivity (sim_deleted w1); [exact D2|exact D1].
Defined.

Definition numbered (k : string) (n : Z) : ControllerRevision := new_revision id old_md k "{a}" n.

(** Three revisions, a limit of one, the oldest pinned: the second goes, and
    with it the newest, which is not pinned either. *)
Lemma Prune_keeps_pinned_witness :
  let w := MkSim (writes.MkSingle old_md []) [numbered "r3" 3; numbered "r1" 1; numbered "r2" 2] [] [] None in
  sim_deleted (fst (Prune id w (Some old_md) 1 ["r1"])) = [numbered "r2" 2; numbered "r3" 3].
Proof.
  intros w.
  destruct (Prune_keeps_pinned id w old_md 1 ["r1"] [numbered "r3" 3; numbered "r1" 1; numbered "r2" 2] w) as (_ & _ & H).
  - lia.
  - vm_compute. reflexivity.
  - transitivity (deleted (fst (Prune id w (Some old_md) 1 ["r1"]))); [reflexivity|].
    rewrite H by reflexivity. vm_compute. reflexivity.
Defined.

Definition other_profile : Profile := MkProfile "other" "other:latest" (fun _ => None) (fun _ => inr "unused").

Lemma resolved_spec_frozen_witness :
  eng_Image (sp_Engine (md_Spec old_md)) = ""
  /\ resolvedRevisionSpec parse (withSpec old_md (resolved old_md)) other_profile (MkRenderOptions "shim:9")
     = resolved old_md.
Proof.
  split; [reflexivity|].
  apply (resolved_spec_frozen parse old_md llamaCPP opts other_profile (MkRenderOptions "shim:9")); by vm_compute.
Defined.

(** A cluster that has recorded [old_md] and whose resource is now [new_md]. *)
Definition old_rev : string := revision_of old_md.
Definition new_rev : string := revision_of new_md.
Definition recorded_world : Sim :=
  MkSim (writes.MkSingle new_md []) [new_revision id old_md old_rev "{a}" 1] [] [] None.
Definition old_snapshot : Snapshot := MkSnapshot old_rev "{a}".

Lemma rollback_restores_workload_witness :
  exists spec,
    snd (specForRevision parse id (cl_Deployment client) ∅ [] recorded_world new_md new_rev old_rev None opts) = inl spec
    /\ sp_Model spec = sp_Model (resolved old_md) /\ sp_Replicas spec = sp_Replicas (md_Spec new_md).
Proof.
  destruct (rollback_restores_workload parse id (cl_Deployment client) ∅ [] recorded_world new_md new_rev
              (resolved old_md) old_snapshot (new_revision id old_md old_rev "{a}" 1) recorded_world None opts)
    as (spec & H & Hm & _ & _ & _ & Hr & _).
  1-5: by vm_compute.
  exists spec. split; [|split; [exact Hm|exact Hr]].
  change old_rev with (sn_Revision old_snapshot). rewrite H. reflexivity.
Defined.

Definition split_plan : rollout := MkRollout old_rev new_rev 8 2 Output_zero None true 0 false false.

Lemma canary_compares_revisions_witness :
  exists ch canary,
    snd (renderRollout parse id inl (cl_Deployment client) ∅ [] recorded_world new_md llamaCPP (resolved new_md)
           new_rev split_plan opts) = inl ch
    /\ dc_CanaryDeployment ch = Some canary /\ da_Replicas (dc_Deployment ch) = 8 /\ da_Replicas canary = 2.
Proof.
  destruct (renderRollout parse id inl (cl_Deployment client) ∅ [] recorded_world new_md llamaCPP (resolved new_md)
              new_rev split_plan opts) as [w2 [ch|e]] eqn:E.
  2:{ exfalso. clear -E. assert (H : match snd (renderRollout parse id inl (cl_Deployment client) ∅ [] recorded_world new_md
        llamaCPP (resolved new_md) new_rev split_plan opts) with inl _ => True | inr _ => False end) by (vm_compute; exact I).
      rewrite E in H. exact H. }
  destruct (canary_compares_revisions parse id inl (cl_Deployment client) ∅ [] recorded_world new_md llamaCPP
              (resolved new_md) new_rev split_plan opts (resolved old_md) old_snapshot
              (new_revision id old_md old_rev "{a}" 1) recorded_world w2 ch) as (canary & H1 & H2 & H3 & _);
    [by vm_compute..|exact E|].
  exists ch, canary. split; [reflexivity|]. split; [exact H1|]. split; [exact H2|exact H3].
Defined.

(** ** A legacy rollout *)

Definition legacy_rev : string := Hash id (Some (md_Spec old_md)).

Definition legacy_status : ModelDeploymentStatus :=
  MkModelDeploymentStatus 1 PhaseAvailable 10 "" 10 10 10 legacy_rev legacy_rev "" None None [].
Definition legacy_md : ModelDeployment := resource "1" 2 ∅ "/old.gguf" legacy_status.

(** The running primary, as the current renderer would write it. *)
Definition legacy_live : LiveDeployment :=
  match buildDeployment parse id inl (withSpec legacy_md (resolved legacy_md)) llamaCPP legacy_rev VariantPrimary 10 opts with
  | inl d =>
      MkLiveDeployment
        (MkDeployment "uid" 1 (Some 10) {[ naming.LabelRevision := legacy_rev ]} (MkDeploymentStatus 1 10 10 10 10 []))
        (applyPodStorageDefaults (pt_Spec (da_Template d)))
  | inr _ => MkLiveDeployment (MkDeployment "" 0 None ∅ (MkDeploymentStatus 0 0 0 0 0 []))
               (MkPodSpec "" None "" "" None [] [] [])
  end.

Definition legacy_world : Sim :=
  MkSim (writes.MkSingle legacy_md []) [new_revision id legacy_md legacy_rev "{l}" 1] [] [] None.

(** The persisted identity is kept: its record is the canonical legacy payload
    and the running primary is the workload of today's spec. *)
Lemma adoption_needs_evidence_witness :
  exists ref, legacyReferenceFrom (Some legacy_md) (Some legacy_live) None = Some ref
  /\ lr_revision ref = legacy_rev.
Proof.
  destruct (adoption_needs_evidence parse id inl (cf_typedTemplate config) (cf_DeepDerivative config) legacy_world
              legacy_md llamaCPP (resolved legacy_md) new_rev (Some legacy_live) None opts
              legacy_world legacy_rev true false) as [[H _]|(_ & _ & ref & cr & d & H1 & H2 & _)].
  - vm_compute. reflexivity.
  - discriminate H.
  - exists ref. split; [exact H1|exact H2].
Defined.

End witness.
