(* ===== verification/OperatorMetrics.v ===== *)
(** * The operator's own metrics (internal/observability/metrics.go)

    The eight metric vectors the operator registers, as maps from label sets to
    values, and every function that updates or forgets them.  A call with the
    wrong label names panics, which is [None].  [record_call] is what the calls
    of a pass (ControllerReconcile.v) do to the vectors, so the theorems are
    about whole sequences of passes. *)

From S2P Require Import Prelude GoFloat GoFmt ApiTypes KubeTypes Metrics CanaryState ControllerRollout ControllerPlan ControllerReconcile.
Import v1alpha1.
Local Open Scope Z_scope.
Local Open Scope go_scope.

Module opmetrics.
Import metrics state rollouts.

(** ** Vectors of package prometheus *)

Notation Labels := (gmap string string).

Record Vec (A : Type) := MkVec { v_Name : string; v_Help : string; v_Labels : list string; v_Series : gmap Labels A }.
Arguments MkVec {A}.
Arguments v_Name {A}.
Arguments v_Help {A}.
Arguments v_Labels {A}.
Arguments v_Series {A}.

Definition with_series {A} (v : Vec A) (s : gmap Labels A) : Vec A := MkVec (v_Name v) (v_Help v) (v_Labels v) s.

(** A label set fits a vector when it names exactly the vector's labels. *)
Definition fits (names : list string) (l : Labels) : bool := bool_decide (dom l = list_to_set names).

(** [vec.With(labels)] followed by an update of the series it gives. *)
Definition With {A} (v : Vec A) (l : Labels) (f : option A -> A) : option (Vec A) :=
  if fits (v_Labels v) l then Some (with_series v (<[l := f (v_Series v !! l)]> (v_Series v))) else None.

Definition Inc (n : option Z) : Z := from_ptr 0 n + 1.
Definition Set_ (x : f64.t) (_ : option f64.t) : f64.t := x.
Definition ObserveValue (x : f64.t) (h : option (list f64.t)) : list f64.t := from_ptr [] h ++ [x].

(** [vec.Delete(labels)] does nothing for labels that do not fit. *)
Definition Delete {A} (v : Vec A) (l : Labels) : Vec A :=
  if fits (v_Labels v) l then with_series v (delete l (v_Series v)) else v.

(** [vec.DeletePartialMatch(labels)]. *)
Definition DeletePartialMatch {A} (v : Vec A) (partial : Labels) : Vec A :=
  with_series v (filter (fun kv => ~ partial ⊆ fst kv) (v_Series v)).

(** ** The collectors *)

Definition resourceLabels : list string := [LabelModel; LabelNamespace; LabelName].
Definition resourceLabelsWith (extra : string) : list string := resourceLabels ++ [extra].

Record Registry := MkRegistry {
  CanaryPromotions : Vec Z;
  CanaryRollbacks : Vec Z;
  CanaryCurrentWeight : Vec f64.t;
  CanaryDesiredWeight : Vec f64.t;
  CanaryFailedChecks : Vec f64.t;
  AnalysisVerdicts : Vec Z;
  AnalysisCheckDuration : Vec (list f64.t);
  AutoscaleDesiredReplicas : Vec f64.t }.

Definition initial : Registry :=
  MkRegistry
    (MkVec CanaryPromotionsTotal "Canaries promoted to primary, by ModelDeployment." resourceLabels ∅)
    (MkVec CanaryRollbacksTotal "Canaries rolled back, by ModelDeployment and cause."
       (resourceLabelsWith LabelReason) ∅)
    (MkVec metrics.CanaryCurrentWeight "Traffic share the canary is actually receiving, after quantisation."
       resourceLabels ∅)
    (MkVec metrics.CanaryDesiredWeight "Traffic share the current canary step requested, before quantisation."
       resourceLabels ∅)
    (MkVec metrics.CanaryFailedChecks "Analysis rounds that failed a threshold in the current canary."
       resourceLabels ∅)
    (MkVec AnalysisVerdictsTotal "Canary analysis rounds by verdict: Pass, Fail, Inconclusive or Error."
       (resourceLabelsWith LabelVerdict) ∅)
    (MkVec AnalysisCheckDurationSeconds
       "Wall time of one canary analysis round, including every metric query." resourceLabels ∅)
    (MkVec metrics.AutoscaleDesiredReplicas
       "Replica count the built-in autoscaler most recently asked for." resourceLabels ∅).

(** The buckets of the one histogram. *)
Definition analysisBuckets : list f64.t :=
  [lit 1 1000; lit 5 1000; lit 1 100; lit 5 100; lit 1 10; lit 25 100; lit 5 10; lit 1 1; lit 25 10; lit 5 1; lit 10 1].

Definition labels (k : ResourceKey) : Labels :=
  <[LabelModel := rk_Model k]> (<[LabelNamespace := rk_Namespace k]> (<[LabelName := rk_Name k]> ∅)).

(** ** Updates *)

Definition on_promotions r v := MkRegistry v (CanaryRollbacks r) (CanaryCurrentWeight r) (CanaryDesiredWeight r)
  (CanaryFailedChecks r) (AnalysisVerdicts r) (AnalysisCheckDuration r) (AutoscaleDesiredReplicas r).
Definition on_rollbacks r v := MkRegistry (CanaryPromotions r) v (CanaryCurrentWeight r) (CanaryDesiredWeight r)
  (CanaryFailedChecks r) (AnalysisVerdicts r) (AnalysisCheckDuration r) (AutoscaleDesiredReplicas r).
Definition on_canary r cur des failed := MkRegistry (CanaryPromotions r) (CanaryRollbacks r) cur des
  failed (AnalysisVerdicts r) (AnalysisCheckDuration r) (AutoscaleDesiredReplicas r).
Definition on_analysis r verdicts durations := MkRegistry (CanaryPromotions r) (CanaryRollbacks r)
  (CanaryCurrentWeight r) (CanaryDesiredWeight r) (CanaryFailedChecks r) verdicts durations (AutoscaleDesiredReplicas r).
Definition on_autoscale r v := MkRegistry (CanaryPromotions r) (CanaryRollbacks r) (CanaryCurrentWeight r)
  (CanaryDesiredWeight r) (CanaryFailedChecks r) (AnalysisVerdicts r) (AnalysisCheckDuration r) v.

Definition RecordCanaryPromotion (r : Registry) (k : ResourceKey) : option Registry :=
  v ← With (CanaryPromotions r) (labels k) Inc; Some (on_promotions r v).

Definition RecordCanaryRollback (r : Registry) (k : ResourceKey) (reason : string) : option Registry :=
  v ← With (CanaryRollbacks r) (<[LabelReason := reason]> (labels k)) Inc; Some (on_rollbacks r v).

Definition RecordCanaryState (r : Registry) (k : ResourceKey) (desiredWeight currentWeight failedChecks : Z) :
    option Registry :=
  des ← With (CanaryDesiredWeight r) (labels k) (Set_ (f64.of_Z desiredWeight));
  cur ← With (CanaryCurrentWeight r) (labels k) (Set_ (f64.of_Z currentWeight));
  failed ← With (CanaryFailedChecks r) (labels k) (Set_ (f64.of_Z failedChecks));
  Some (on_canary r cur des failed).

Definition RecordAnalysisRound (r : Registry) (k : ResourceKey) (verdict : string) (took : time.Duration) :
    option Registry :=
  verdicts ← With (AnalysisVerdicts r) (<[LabelVerdict := verdict]> (labels k)) Inc;
  durations ← With (AnalysisCheckDuration r) (labels k) (ObserveValue (gofmt.Duration_Seconds took));
  Some (on_analysis r verdicts durations).

Definition RecordAutoscaleDecision (r : Registry) (k : ResourceKey) (replicas : Z) : option Registry :=
  v ← With (AutoscaleDesiredReplicas r) (labels k) (Set_ (f64.of_Z replicas)); Some (on_autoscale r v).

Definition ForgetCanary (r : Registry) (k : ResourceKey) : Registry :=
  on_canary r (Delete (CanaryCurrentWeight r) (labels k)) (Delete (CanaryDesiredWeight r) (labels k))
    (Delete (CanaryFailedChecks r) (labels k)).

Definition ForgetNamespacedName (r : Registry) (namespace name : string) : Registry :=
  let partial : Labels := <[LabelNamespace := namespace]> (<[LabelName := name]> ∅) in
  on_autoscale
    (on_canary r (DeletePartialMatch (CanaryCurrentWeight r) partial)
       (DeletePartialMatch (CanaryDesiredWeight r) partial) (DeletePartialMatch (CanaryFailedChecks r) partial))
    (DeletePartialMatch (AutoscaleDesiredReplicas r) partial).

(** ** The calls of a pass *)

Definition record_effect (r : Registry) (e : Effect) : option Registry :=
  match e with
  | Event _ _ _ _ => Some r
  | rollouts.RecordCanaryState k d c f => RecordCanaryState r k d c f
  | rollouts.ForgetCanary k => Some (ForgetCanary r k)
  | rollouts.RecordCanaryPromotion k => RecordCanaryPromotion r k
  | rollouts.RecordCanaryRollback k reason => RecordCanaryRollback r k reason
  | rollouts.RecordAutoscaleDecision k n => RecordAutoscaleDecision r k n
  end.

Definition record_call (r : Registry) (c : controller.Call) : option Registry :=
  match c with
  | controller.Report e => record_effect r e
  | controller.ForgetNamespacedName ns name => Some (ForgetNamespacedName r ns name)
  | _ => Some r
  end.

(** The calls of any number of passes, in order. *)
Fixpoint record_calls (r : Registry) (l : list controller.Call) : option Registry :=
  match l with
  | [] => Some r
  | c :: l' => r' ← record_call r c; record_calls r' l'
  end.

(** ** What the series should say *)

#[export] Instance ResourceKey_eq_dec : EqDecision ResourceKey.
Proof. solve_decision. Defined.

(** The gauges of a resource, as the history of calls determines them: desired
    weight, realised weight and failed checks of the canary in flight, and the
    replicas last asked for. *)
Definition names_key (k : ResourceKey) (ns name : string) : bool := (rk_Namespace k == ns) && (rk_Name k == name).

Definition canary_after (k : ResourceKey) (g : option (Z * Z * Z)) (c : controller.Call) : option (Z * Z * Z) :=
  match c with
  | controller.Report (rollouts.RecordCanaryState k' d cur f) => if k' == k then Some (d, cur, f) else g
  | controller.Report (rollouts.ForgetCanary k') => if k' == k then None else g
  | controller.ForgetNamespacedName ns name => if names_key k ns name then None else g
  | _ => g
  end.

Definition replicas_after (k : ResourceKey) (g : option Z) (c : controller.Call) : option Z :=
  match c with
  | controller.Report (rollouts.RecordAutoscaleDecision k' n) => if k' == k then Some n else g
  | controller.ForgetNamespacedName ns name => if names_key k ns name then None else g
  | _ => g
  end.

Definition is_promotion (k : ResourceKey) (c : controller.Call) : bool :=
  match c with controller.Report (rollouts.RecordCanaryPromotion k') => k' == k | _ => false end.

Definition is_rollback (k : ResourceKey) (reason : string) (c : controller.Call) : bool :=
  match c with controller.Report (rollouts.RecordCanaryRollback k' why) => (k' == k) && (why == reason) | _ => false end.

Definition count {A} (p : A -> bool) (l : list A) : Z := Z.of_nat (length (List.filter p l)).

(** ** Lemmas *)

Lemma labels_inj k k' : labels k = labels k' -> k = k'.
Proof.
  intros H. destruct k as [m n x], k' as [m' n' x'].
  pose proof (f_equal (fun m : gmap string string => m !! LabelModel) H) as H1. pose proof (f_equal (fun m : gmap string string => m !! LabelNamespace) H) as H2.
  pose proof (f_equal (fun m : gmap string string => m !! LabelName) H) as H3. unfold labels in *. cbn [rk_Model rk_Namespace rk_Name] in *.
  rewrite !lookup_insert_eq in H1. rewrite !(lookup_insert_ne _ LabelModel LabelNamespace), !lookup_insert_eq in H2 by done.
  rewrite !(lookup_insert_ne _ LabelModel LabelName), !(lookup_insert_ne _ LabelNamespace LabelName), !lookup_insert_eq in H3 by done. congruence.
Qed.

Lemma labels_fresh k extra : extra <> LabelModel -> extra <> LabelNamespace -> extra <> LabelName -> labels k !! extra = None.
Proof. intros. unfold labels. rewrite !lookup_insert_ne by done. apply lookup_empty. Qed.

Lemma labels_with_inj extra k v k' v' :
  extra <> LabelModel -> extra <> LabelNamespace -> extra <> LabelName ->
  <[extra := v]> (labels k) = <[extra := v']> (labels k') -> k = k' /\ v = v'.
Proof.
  intros H1 H2 H3 H. split.
  - apply labels_inj. apply (f_equal (fun m : gmap string string => delete extra m)) in H.
    rewrite !delete_insert_id in H by (by apply labels_fresh). done.
  - apply (f_equal (fun m : gmap string string => m !! extra)) in H. rewrite !lookup_insert_eq in H. congruence.
Qed.

Lemma fits_labels k : fits resourceLabels (labels k) = true.
Proof. unfold fits, labels, resourceLabels. apply bool_decide_eq_true_2. rewrite !dom_insert_L, dom_empty_L. cbn. set_solver. Qed.

Lemma fits_labels_with k extra v : fits (resourceLabelsWith extra) (<[extra := v]> (labels k)) = true.
Proof.
  unfold fits, labels, resourceLabelsWith, resourceLabels. apply bool_decide_eq_true_2.
  rewrite !dom_insert_L, dom_empty_L. cbn. set_solver.
Qed.

Lemma partial_labels k ns name :
  (<[LabelNamespace := ns]> (<[LabelName := name]> ∅) : Labels) ⊆ labels k <-> names_key k ns name = true.
Proof.
  unfold names_key. rewrite andb_true_iff, !bool_decide_eq_true. split.
  - intros H. split; symmetry; apply (inj Some).
    + transitivity (labels k !! LabelNamespace); [symmetry; eapply lookup_weaken; [|exact H]; done|done].
    + transitivity (labels k !! LabelName); [symmetry; eapply lookup_weaken; [|exact H]; done|done].
  - intros [<- <-]. apply insert_subseteq_l; [done|]. apply insert_subseteq_l; [done|].
    apply map_empty_subseteq.
Qed.

Lemma With_fits {A} (v : Vec A) l f :
  fits (v_Labels v) l = true -> With v l f = Some (with_series v (<[l := f (v_Series v !! l)]> (v_Series v))).
Proof. intros H. unfold With. by rewrite H. Qed.

Lemma insert_labels {A} (m : gmap Labels A) k k' x :
  <[labels k' := x]> m !! labels k = if k' == k then Some x else m !! labels k.
Proof.
  destruct (bool_decide (k' = k)) eqn:E; go_bools; [subst; apply lookup_insert_eq|].
  apply lookup_insert_ne. intros H%labels_inj. done.
Qed.

Lemma delete_labels {A} (m : gmap Labels A) k k' :
  delete (labels k') m !! labels k = if k' == k then None else m !! labels k.
Proof.
  destruct (bool_decide (k' = k)) eqn:E; go_bools; [subst; apply lookup_delete_eq|].
  apply lookup_delete_ne. intros H%labels_inj. done.
Qed.

Lemma filter_labels {A} (m : gmap Labels A) k ns name :
  filter (fun kv => ~ (<[LabelNamespace := ns]> (<[LabelName := name]> ∅) : Labels) ⊆ fst kv) m !! labels k
  = if names_key k ns name then None else m !! labels k.
Proof.
  rewrite map_lookup_filter. destruct (m !! labels k) as [x|] eqn:E; cbn; [|by destruct (names_key k ns name)].
  destruct (names_key k ns name) eqn:En.
  - apply partial_labels in En. by rewrite option_guard_False by (intros H; by apply H).
  - rewrite option_guard_True; [done|]. intros H. apply partial_labels in H. congruence.
Qed.

Lemma insert_labels_with {A} (m : gmap Labels A) extra k v k' v' x :
  extra <> LabelModel -> extra <> LabelNamespace -> extra <> LabelName ->
  <[<[extra := v']> (labels k') := x]> m !! <[extra := v]> (labels k)
  = if (k' == k) && (v' == v) then Some x else m !! <[extra := v]> (labels k).
Proof.
  intros H1 H2 H3. destruct ((k' == k) && (v' == v)) eqn:E; go_bools.
  - subst. apply lookup_insert_eq.
  - apply lookup_insert_ne. intros H. apply labels_with_inj in H as [-> ->]; [|done..].
    by rewrite !bool_decide_eq_true_2 in E.
Qed.

(** ** The invariant *)

(** Every vector keeps the labels it was declared with. *)
Definition declared (r : Registry) : Prop :=
  v_Labels (CanaryPromotions r) = resourceLabels /\ v_Labels (CanaryRollbacks r) = resourceLabelsWith LabelReason
  /\ v_Labels (CanaryCurrentWeight r) = resourceLabels /\ v_Labels (CanaryDesiredWeight r) = resourceLabels
  /\ v_Labels (CanaryFailedChecks r) = resourceLabels /\ v_Labels (AutoscaleDesiredReplicas r) = resourceLabels.

(** The series of [k] say what the history says. *)
Definition agrees (k : ResourceKey) (canary : option (Z * Z * Z)) (replicas : option Z) (promotions : Z)
    (rollbacks : string -> Z) (r : Registry) : Prop :=
  v_Series (CanaryDesiredWeight r) !! labels k = (fun g => f64.of_Z (fst (fst g))) <$> canary
  /\ v_Series (CanaryCurrentWeight r) !! labels k = (fun g => f64.of_Z (snd (fst g))) <$> canary
  /\ v_Series (CanaryFailedChecks r) !! labels k = (fun g => f64.of_Z (snd g)) <$> canary
  /\ v_Series (AutoscaleDesiredReplicas r) !! labels k = f64.of_Z <$> replicas
  /\ from_ptr 0 (v_Series (CanaryPromotions r) !! labels k) = promotions
  /\ (forall reason, from_ptr 0 (v_Series (CanaryRollbacks r) !! <[LabelReason := reason]> (labels k)) = rollbacks reason).

Ltac vecs :=
  unfold agrees, ForgetNamespacedName, DeletePartialMatch, on_autoscale, on_canary, on_promotions, on_rollbacks, with_series;
  cbn [v_Series v_Labels CanaryPromotions CanaryRollbacks CanaryCurrentWeight CanaryDesiredWeight CanaryFailedChecks
       AutoscaleDesiredReplicas].

Lemma record_call_agrees k canary replicas promotions rollbacks r c :
  declared r -> agrees k canary replicas promotions rollbacks r ->
  exists r', record_call r c = Some r' /\ declared r'
    /\ agrees k (canary_after k canary c) (replicas_after k replicas c)
         (promotions + if is_promotion k c then 1 else 0)
         (fun reason => rollbacks reason + if is_rollback k reason c then 1 else 0) r'.
Proof.
  intros (D1 & D2 & D3 & D4 & D5 & D6) (A1 & A2 & A3 & A4 & A5 & A6).
  assert (Hsame : exists r', Some r = Some r' /\ declared r'
            /\ agrees k canary replicas (promotions + 0) (fun reason => rollbacks reason + 0) r').
  { exists r. split; [done|]. split; [by split_and!|]. split_and!; try done; [lia|]. intros reason. by rewrite A6, Z.add_0_r. }
  destruct c as [d|svc|ns name|ns name|ns name|[ | k' d cur f | k' | k' | k' why | k' n]]; cbn [record_call record_effect]; try exact Hsame; clear Hsame;
    cbn [canary_after replicas_after is_promotion is_rollback].
  - eexists. split; [done|]. split; [by split_and!|]. vecs. rewrite !filter_labels.
    destruct (names_key k ns name); split_and!; try done; try lia; intros; by rewrite A6, Z.add_0_r.
  - unfold RecordCanaryState. rewrite !With_fits by (rewrite ?D3, ?D4, ?D5; apply fits_labels). eexists. split; [done|].
    split; [by split_and!|]. vecs. rewrite !insert_labels. unfold Set_.
    destruct (bool_decide (k' = k)); split_and!; try done; try lia; intros; by rewrite A6, Z.add_0_r.
  - eexists. split; [done|]. unfold ForgetCanary, Delete. rewrite D3, D4, D5, !fits_labels. split; [by split_and!|].
    vecs. rewrite !delete_labels.
    destruct (bool_decide (k' = k)); split_and!; try done; try lia; intros; by rewrite A6, Z.add_0_r.
  - unfold RecordCanaryPromotion. rewrite With_fits by (rewrite D1; apply fits_labels). eexists. split; [done|].
    split; [by split_and!|]. vecs. rewrite insert_labels. split_and!; try done; [|intros; by rewrite A6, Z.add_0_r].
    destruct (bool_decide (k' = k)) eqn:E; go_bools; [subst k'; change (Inc (v_Series (CanaryPromotions r) !! labels k) = promotions + 1); unfold Inc; lia|lia].
  - unfold RecordCanaryRollback. rewrite With_fits by (rewrite D2; apply fits_labels_with). eexists. split; [done|].
    split; [by split_and!|]. vecs. split_and!; try done; [lia|]. intros reason.
    rewrite insert_labels_with by done. destruct ((k' == k) && (why == reason)) eqn:E; go_bools.
    + subst. by rewrite <- A6.
    + by rewrite A6, Z.add_0_r.
  - unfold RecordAutoscaleDecision. rewrite With_fits by (rewrite D6; apply fits_labels). eexists. split; [done|].
    split; [by split_and!|]. vecs. rewrite insert_labels. unfold Set_.
    destruct (bool_decide (k' = k)); split_and!; try done; try lia; intros; by rewrite A6, Z.add_0_r.
Qed.

Lemma count_cons {A} (p : A -> bool) x l : count p (x :: l) = (if p x then 1 else 0) + count p l.
Proof. unfold count. cbn. destruct (p x); cbn [length]; lia. Qed.

Lemma record_calls_agree k l canary replicas promotions rollbacks r :
  declared r -> agrees k canary replicas promotions rollbacks r ->
  exists r', record_calls r l = Some r'
    /\ agrees k (fold_left (canary_after k) l canary) (fold_left (replicas_after k) l replicas)
         (promotions + count (is_promotion k) l) (fun reason => rollbacks reason + count (is_rollback k reason) l) r'.
Proof.
  revert canary replicas promotions rollbacks r. induction l as [|c l IH]; intros canary replicas promotions rollbacks r Hd Ha.
  - exists r. split; [done|]. destruct Ha as (A1 & A2 & A3 & A4 & A5 & A6). unfold agrees, count. cbn.
    split_and!; try done; [rewrite Z.add_0_r; exact A5|]. intros reason. rewrite Z.add_0_r. apply A6.
  - destruct (record_call_agrees k _ _ _ _ r c Hd Ha) as (r1 & E1 & Hd1 & Ha1).
    destruct (IH _ _ _ _ r1 Hd1 Ha1) as (r2 & E2 & A1 & A2 & A3 & A4 & A5 & A6).
    exists r2. cbn [record_calls]. rewrite E1. split; [exact E2|]. cbn [fold_left]. split_and!; try done.
    + rewrite A5, count_cons. lia.
    + intros reason. rewrite A6, count_cons. lia.
Qed.

Lemma history_exact k l :
  exists r, record_calls initial l = Some r
    /\ agrees k (fold_left (canary_after k) l None) (fold_left (replicas_after k) l None)
         (count (is_promotion k) l) (fun reason => count (is_rollback k reason) l) r.
Proof.
  apply (record_calls_agree k l None None 0 (fun _ => 0) initial); [by split_and!|].
  unfold agrees, initial. cbn [v_Series CanaryPromotions CanaryRollbacks CanaryCurrentWeight CanaryDesiredWeight
    CanaryFailedChecks AutoscaleDesiredReplicas]. split_and!; try apply lookup_empty; [by rewrite lookup_empty|].
  intros reason. by rewrite lookup_empty.
Qed.

(** What a pass reports is keyed by the resource it is for. *)
Definition keyed (k : ResourceKey) (e : Effect) : Prop :=
  match e with
  | Event _ _ _ _ => True
  | rollouts.RecordCanaryState k' _ _ _ | rollouts.ForgetCanary k' | rollouts.RecordCanaryPromotion k'
  | rollouts.RecordCanaryRollback k' _ | rollouts.RecordAutoscaleDecision k' _ => k' = k
  end.

Lemma emitRolloutEvents_keyed md res : Forall (keyed (resourceKeyFor md)) (emitRolloutEvents md res).
Proof.
  unfold emitRolloutEvents, decision_effects. cbv zeta.
  destruct (rp_StallReverted res); [destruct (_ != _); repeat constructor|].
  rewrite !Forall_app. split_and!.
  - destruct (rp_Active res); repeat constructor.
  - destruct (out_Action (rp_Output res)); repeat case_match; repeat constructor.
  - destruct (rp_Round res); [|constructor]. destruct (_ && _); repeat constructor.
  - destruct (_ && _); repeat constructor.
Qed.

Lemma passes_keyed md ress : Forall (keyed (resourceKeyFor md)) (flat_map (emitRolloutEvents md) ress).
Proof. induction ress; cbn; [constructor|]. apply Forall_app. split; [apply emitRolloutEvents_keyed|done]. Qed.

Lemma keyed_elsewhere k k' l g :
  k' <> k -> Forall (keyed k') l -> fold_left (canary_after k) (map controller.Report l) g = g.
Proof.
  intros Hne H. revert g. induction H as [|e l He _ IH]; intros g; [done|]. cbn [map fold_left]. rewrite IH.
  destruct e; cbn in *; subst; try done; by rewrite bool_decide_eq_false_2.
Qed.

(** Effects that leave the canary gauges alone. *)
Definition quiet (e : Effect) : Prop :=
  match e with rollouts.RecordCanaryState _ _ _ _ | rollouts.ForgetCanary _ => False | _ => True end.

Lemma quiet_gauges k l g : Forall quiet l -> fold_left (canary_after k) (map controller.Report l) g = g.
Proof.
  intros H. revert g. induction H as [|e l He _ IH]; intros g; [done|]. cbn [map fold_left]. rewrite IH.
  by destruct e.
Qed.

Lemma emit_active md res g :
  rp_Active res = true -> rp_StallReverted res = false ->
  fold_left (canary_after (resourceKeyFor md)) (map controller.Report (emitRolloutEvents md res)) g
  = Some (out_DesiredWeight (rp_Output res), out_RealizedWeight (rp_Output res), FailedChecks (out_State (rp_Output res))).
Proof.
  intros Hact Hst. unfold emitRolloutEvents. cbv zeta. rewrite Hst, Hact. cbn [app map fold_left].
  rewrite quiet_gauges.
  - cbn [canary_after]. by rewrite bool_decide_eq_true_2.
  - rewrite !Forall_app. split_and!.
    + unfold decision_effects. cbv zeta. destruct (out_Action (rp_Output res)); repeat case_match; repeat constructor.
    + destruct (rp_Round res); [|constructor]. destruct (_ && _); repeat constructor.
    + destruct (_ && _); repeat constructor.
Qed.

(** ** Properties *)

(** The operator's metrics are a function of what happened.  Whatever passes
    ran, no update panics; a resource's canary gauges show exactly the state its
    last pass with a canary in flight reported, and are absent once a pass
    without one, or the deletion of the resource, has been recorded; its
    promotion and rollback counters are the number of transitions reported, and
    deleting the resource leaves them. *)
Theorem operator_metrics_exact k l :
  exists r, record_calls initial l = Some r
    /\ agrees k (fold_left (canary_after k) l None) (fold_left (replicas_after k) l None)
         (count (is_promotion k) l) (fun reason => count (is_rollback k reason) l) r.
Proof. apply history_exact. Qed.

(** Changing the model of a resource strands its canary gauges.  If a pass
    with a canary in flight is followed by passes for a spec with another model
    name, the gauges of the old name keep reporting that canary, however many
    passes follow and even when none has a canary; only deleting the resource
    removes them. *)
Theorem rename_strands_gauges md md' res ress :
  md_Namespace md' = md_Namespace md -> md_Name md' = md_Name md ->
  model_Name (sp_Model (md_Spec md')) <> model_Name (sp_Model (md_Spec md)) ->
  rp_Active res = true -> rp_StallReverted res = false ->
  let weight r := v_Series (CanaryCurrentWeight r) !! labels (resourceKeyFor md) in
  let calls := map controller.Report (emitRolloutEvents md res ++ flat_map (emitRolloutEvents md') ress) in
  exists r, record_calls initial calls = Some r
    /\ weight r = Some (f64.of_Z (out_RealizedWeight (rp_Output res)))
    /\ weight (ForgetNamespacedName r (md_Namespace md') (md_Name md')) = None.
Proof.
  intros Hns Hname Hmodel Hact Hst weight calls. set (k := resourceKeyFor md).
  destruct (history_exact k calls) as (r & E & _ & A2 & _). exists r. split; [exact E|]. split.
  - unfold weight. fold k. rewrite A2. unfold calls. rewrite map_app, fold_left_app. unfold k.
    rewrite (keyed_elsewhere _ (resourceKeyFor md')).
    + by rewrite emit_active.
    + intros H. apply Hmodel. exact (f_equal rk_Model H).
    + apply passes_keyed.
  - unfold weight. vecs. rewrite filter_labels. unfold names_key. cbn. by rewrite Hns, Hname, !bool_decide_eq_true_2.
Qed.

(** A canary started by [planRollout], then a rename together with the return to
    the old revision: the last pass has no canary, and the gauge still shows 20%. *)
Lemma rename_strands_gauges_witness :
  let md := plans.sample_md RolloutCanary (plans.sample_status PhaseAvailable None) in
  let md' := plans.sample_md RolloutRollingUpdate (plans.sample_status PhaseAvailable None) in
  let sp := md_Spec md' in
  let renamed := MkModelDeployment "demo" "default" "u" "2" 3 None ∅
                   (MkModelDeploymentSpec (sp_Replicas sp) (MkModelSpec "renamed" (model_Source (sp_Model sp)))
                      (sp_Engine sp) (sp_Serving sp) (sp_Rollout sp) (sp_Observability sp) (sp_Autoscaling sp))
                   (md_Status md') in
  let res := snd (planRollout (plans.sample_reconciler f64.one) tt md "new" None None) in
  let res' := snd (planRollout (plans.sample_reconciler f64.one) tt renamed "old" None None) in
  rp_Active res' = false
  /\ exists r, record_calls initial (map controller.Report (emitRolloutEvents md res ++ flat_map (emitRolloutEvents renamed) [res'])) = Some r
       /\ v_Series (CanaryCurrentWeight r) !! labels (resourceKeyFor md) = Some (f64.of_Z 20).
Proof.
  intros md md' sp renamed res res'. split; [vm_compute; reflexivity|].
  destruct (rename_strands_gauges md renamed res [res']) as (r & E & H & _); [reflexivity..| | | |].
  - vm_compute. discriminate.
  - vm_compute. reflexivity.
  - vm_compute. reflexivity.
  - exists r. split; [exact E|exact H].
Defined.

End opmetrics.
