(* ===== verification/GoStrconv.v ===== *)
(** * Package strconv of Go's standard library

    Integers in base 0, with their base prefixes and underscores, as package flag
    reads them; floats, correctly rounded, with their special values; durations
    ([time.ParseDuration]); and the decimal digits that are printed read back. *)

From S2P Require Import Prelude GoFloat GoFmt.
From Stdlib Require Import SpecFloat.
Local Open Scope Z_scope.
Local Open Scope go_scope.

Module strconv.

(** [lower(c)] and the value of a digit; an underscore is not one. *)
Definition code (c : ascii) : Z := Z.of_N (Ascii.N_of_ascii c).
Definition lower (c : ascii) : Z := Z.lor (code c) 32.

Definition digit_of (c : ascii) : option Z :=
  if (48 <=? code c) && (code c <=? 57) then Some (code c - 48)
  else if (97 <=? lower c) && (lower c <=? 122) then Some (lower c - 97 + 10)
  else None.

Definition errSyntax : string := "parse error".
Definition errRange : string := "value out of range".
Definition maxUint64 : Z := 18446744073709551615.

(** The loop of [ParseUint] in base 0: underscores are skipped. *)
Fixpoint parse_digits (base acc : Z) (s : string) : Z + string :=
  match s with
  | EmptyString => inl acc
  | String c s' =>
      if c == "_"%char then parse_digits base acc s'
      else
        match digit_of c with
        | None => inr errSyntax
        | Some d =>
            if base <=? d then inr errSyntax
            else if maxUint64 <? acc * base + d then inr errRange
            else parse_digits base (acc * base + d) s'
        end
  end.

Definition has_underscore (s : string) : bool := existsb (fun c => c == "_"%char) (String.list_ascii_of_string s).

Inductive Last := AtStart | AtDigit | AtUnderscore | AtOther.

Fixpoint underscores_ok (hex : bool) (last : Last) (s : string) : bool :=
  match s with
  | EmptyString => match last with AtUnderscore => false | _ => true end
  | String c s' =>
      if ((48 <=? code c) && (code c <=? 57)) || (hex && (97 <=? lower c) && (lower c <=? 102))
      then underscores_ok hex AtDigit s'
      else if c == "_"%char then
        match last with AtDigit => underscores_ok hex AtUnderscore s' | _ => false end
      else match last with AtUnderscore => false | _ => underscores_ok hex AtOther s' end
  end.

(** The base prefix of an unsigned literal: the base and what follows. *)
Definition base_prefix (s : string) : Z * string :=
  match s with
  | String z (String c (String d rest)) =>
      if negb (z == "0"%char) then (10, s)
      else if lower c =? 98 then (2, String d rest)
      else if lower c =? 111 then (8, String d rest)
      else if lower c =? 120 then (16, String d rest)
      else (8, String c (String d rest))
  | String z rest => if z == "0"%char then (8, rest) else (10, s)
  | EmptyString => (10, s)
  end.

(** [underscoreOK] of an unsigned literal. *)
Definition underscoreOK (s : string) : bool :=
  match s with
  | String z (String c rest) =>
      if (z == "0"%char) && ((lower c =? 98) || (lower c =? 111) || (lower c =? 120))
      then underscores_ok (lower c =? 120) AtDigit rest
      else underscores_ok false AtStart s
  | _ => underscores_ok false AtStart s
  end.

Definition ParseUint0 (s : string) : Z + string :=
  if s == "" then inr errSyntax
  else
    let (base, digits) := base_prefix s in
    match parse_digits base 0 digits with
    | inr e => inr e
    | inl n => if has_underscore digits && negb (underscoreOK s) then inr errSyntax else inl n
    end.

(** [ParseInt(s, 0, 64)]; the error is the one package flag reports. *)
Definition ParseInt0 (s : string) : Z + string :=
  let '(neg, digits) :=
    match s with
    | String c s' => if c == "+"%char then (false, s') else if c == "-"%char then (true, s') else (false, s)
    | EmptyString => (false, s)
    end in
  match ParseUint0 digits with
  | inr e => inr e
  | inl un =>
      if negb neg && (9223372036854775808 <=? un) then inr errRange
      else if neg && (9223372036854775808 <? un) then inr errRange
      else inl (if neg then - un else un)
  end.

(** ** Floats *)

(** What the scan of a mantissa has seen: its value, its digits without leading
    zeros, its digits after the point, whether there was a digit, a point, an
    underscore; and what follows. *)
Record mantissa := MkMantissa {
  mt_value : Z; mt_digits : Z; mt_after : Z; mt_any : bool; mt_dot : bool; mt_under : bool; mt_rest : string }.

Definition float_digit (base : Z) (c : ascii) : option Z :=
  if (48 <=? code c) && (code c <=? 57) then Some (code c - 48)
  else if (base =? 16) && (97 <=? lower c) && (lower c <=? 102) then Some (lower c - 97 + 10)
  else None.

(** The loop of [readFloat]. *)
Fixpoint read_mantissa (base : Z) (m : mantissa) (s : string) : mantissa :=
  let '(MkMantissa v nd after any dot under _) := m in
  match s with
  | EmptyString => MkMantissa v nd after any dot under s
  | String c s' =>
      if c == "_"%char then read_mantissa base (MkMantissa v nd after any dot true s') s'
      else if (c == "."%char) && negb dot then read_mantissa base (MkMantissa v nd after any true under s') s'
      else
        match float_digit base c with
        | None => MkMantissa v nd after any dot under s
        | Some d =>
            let after := if dot then after + 1 else after in
            if (d =? 0) && (nd =? 0) then read_mantissa base (MkMantissa v nd after true dot under s') s'
            else read_mantissa base (MkMantissa (v * base + d) (nd + 1) after true dot under s') s'
        end
  end.

(** The digits of an exponent, whether there was an underscore, what follows. *)
Fixpoint exponent_digits (e : Z) (under : bool) (s : string) : Z * bool * string :=
  match s with
  | EmptyString => (e, under, s)
  | String c s' =>
      if c == "_"%char then exponent_digits e true s'
      else if (48 <=? code c) && (code c <=? 57)
      then exponent_digits (if e <? 10000 then e * 10 + (code c - 48) else e) under s'
      else (e, under, s)
  end.

(** An exponent after its letter: a sign and at least one digit. *)
Definition read_exponent (s : string) : option (Z * bool * string) :=
  let '(esign, s) :=
    match s with
    | String c s' => if c == "+"%char then (1, s') else if c == "-"%char then (-1, s') else (1, s)
    | EmptyString => (1, s)
    end in
  match s with
  | String c _ =>
      if (48 <=? code c) && (code c <=? 57) then
        let '(e, under, rest) := exponent_digits 0 false s in Some (esign * e, under, rest)
      else None
  | EmptyString => None
  end.

(** The value of a decimal or hexadecimal mantissa with an exponent, rounded to
    nearest even; far outside the range it is not computed. *)
Definition float_value (base : Z) (m : mantissa) (e : Z) : f64.t :=
  match mt_value m with
  | Zpos v =>
      if base =? 16 then SpecFloat.binary_normalize f64.prec f64.emax (Zpos v) (e - 4 * mt_after m) false
      else
        let exp := e - mt_after m in
        if 310 <? mt_digits m + exp then S754_infinity false
        else if mt_digits m + exp <? -330 then f64.zero
        else gofmt.read_decimal v exp
  | _ => f64.zero
  end.

Definition errParseFloat (s what : string) : string :=
  "strconv.ParseFloat: parsing " +:+ gofmt.Quote s +:+ ": " +:+ what.

(** A sign, and what follows. *)
Definition cut_sign (s : string) : bool * string :=
  match s with
  | String c s' => if c == "+"%char then (false, s') else if c == "-"%char then (true, s') else (false, s)
  | EmptyString => (false, s)
  end.

Definition signed (neg : bool) (x : f64.t) : f64.t := if neg then f64.opp x else x.

(** [readFloat] and the conversion, of what follows the sign. *)
Definition read_float (text : string) (neg : bool) (s : string) : f64.t + string :=
  let '(base, body) :=
    match s with
    | String z (String x (String d rest)) => if (z == "0"%char) && (lower x =? 120) then (16, String d rest) else (10, s)
    | _ => (10, s)
    end in
  let m := read_mantissa base (MkMantissa 0 0 0 false false false "") body in
  let exponent :=
    match mt_rest m with
    | String c rest =>
        if lower c =? (if base =? 16 then 112 else 101) then read_exponent rest
        else if base =? 16 then None else Some (0, false, mt_rest m)
    | EmptyString => if base =? 16 then None else Some (0, false, "")
    end in
  match exponent with
  | Some (e, under, EmptyString) =>
      if negb (mt_any m) || ((mt_under m || under) && negb (underscoreOK s))
      then inr (errParseFloat text "invalid syntax")
      else
        let x := float_value base m e in
        if f64.IsInf x then inr (errParseFloat text "value out of range") else inl (signed neg x)
  | _ => inr (errParseFloat text "invalid syntax")
  end.

(** ASCII letters in lower case. *)
Fixpoint ascii_lower (s : string) : string :=
  match s with
  | EmptyString => ""
  | String c s' => String (if (65 <=? code c) && (code c <=? 90) then Ascii.ascii_of_N (Z.to_N (code c + 32)) else c) (ascii_lower s')
  end.

(** [strconv.ParseFloat(s, 64)]. *)
Definition ParseFloat (s : string) : f64.t + string :=
  let (neg, rest) := cut_sign s in
  let word := ascii_lower rest in
  if (word == "inf") || (word == "infinity") then inl (S754_infinity neg)
  else if ascii_lower s == "nan" then inl S754_nan
  else read_float s neg rest.

(** ** Decimal numbers read back *)

(** A string of decimal digits. *)
Fixpoint decimal (s : string) : Prop :=
  match s with
  | EmptyString => True
  | String c s' => 48 <= code c <= 57 /\ decimal s'
  end.

Lemma decimal_ne c k : 48 <= code c <= 57 -> (code k <? 48) || (57 <? code k) = true -> (c == k) = false.
Proof. intros Hc Hk. apply bool_decide_eq_false_2. intros ->. go_bools; lia. Qed.

Lemma code_digit d : 0 <= d <= 9 -> code (digit d) = 48 + d.
Proof. intros H. unfold code, digit. rewrite Ascii.N_ascii_embedding by lia. lia. Qed.

Lemma digits_decimal fuel n acc : 0 <= n -> decimal acc -> decimal (digits_loop fuel n acc).
Proof.
  revert n acc. induction fuel as [|f IH]; intros n acc Hn Ha; cbn [digits_loop]; [done|].
  destruct (0 <? n); [|done]. pose proof (Z.mod_pos_bound n 10 ltac:(lia)).
  apply IH; [apply Z.div_pos; lia|]. cbn [decimal]. rewrite code_digit by lia. split; [lia|done].
Qed.

(** The first digit of a positive number is not zero. *)
Lemma digits_head fuel n acc c s :
  0 < n < 10 ^ Z.of_nat fuel -> digits_loop fuel n acc = String c s -> code c <> 48.
Proof.
  revert n acc. induction fuel as [|f IH]; intros n acc Hn; [cbn in Hn; lia|]. cbn [digits_loop].
  rewrite (proj2 (Z.ltb_lt 0 n)) by lia. rewrite Nat2Z.inj_succ, Z.pow_succ_r in Hn by lia.
  destruct (Z.eq_dec (n / 10) 0) as [E|E].
  - rewrite E. destruct f; cbn [digits_loop]; intros [= <- _];
      pose proof (Z.div_mod n 10 ltac:(lia)); pose proof (Z.mod_pos_bound n 10 ltac:(lia)); rewrite code_digit by lia; lia.
  - apply IH. pose proof (Z.div_pos n 10 ltac:(lia) ltac:(lia)). split; [lia|]. apply Z.div_lt_upper_bound; lia.
Qed.

Lemma dec_value_ge s v : decimal s -> 0 <= v -> v <= dec_value v s.
Proof.
  revert v. induction s as [|c s IH]; intros v Hd Hv; cbn; [lia|]. destruct Hd as [Hc Hd]. unfold code in Hc.
  specialize (IH (10 * v + (Z.of_N (Ascii.N_of_ascii c) - 48)) Hd ltac:(lia)). lia.
Qed.

Lemma parse_digits_decimal s v :
  decimal s -> 0 <= v -> dec_value v s <= maxUint64 -> parse_digits 10 v s = inl (dec_value v s).
Proof.
  revert v. induction s as [|c s IH]; intros v Hd Hv Hm; [done|]. cbn [parse_digits dec_value] in *.
  destruct Hd as [Hc Hd]. rewrite (decimal_ne c "_"%char Hc) by done.
  unfold digit_of. rewrite (proj2 (Z.leb_le 48 (code c))), (proj2 (Z.leb_le (code c) 57)) by lia. cbn [andb].
  rewrite (proj2 (Z.leb_gt 10 (code c - 48))) by lia. unfold code in *.
  set (d := Z.of_N (Ascii.N_of_ascii c)) in *.
  pose proof (dec_value_ge s (10 * v + (d - 48)) Hd ltac:(lia)).
  rewrite (proj2 (Z.ltb_ge maxUint64 (v * 10 + (d - 48)))) by lia.
  replace (v * 10 + (d - 48)) with (10 * v + (d - 48)) by lia. apply IH; [done|lia|done].
Qed.

Lemma decimal_no_underscore s : decimal s -> has_underscore s = false.
Proof.
  induction s as [|c s IH]; [done|]. intros [Hc Hd]. unfold has_underscore in *. cbn.
  rewrite (decimal_ne c "_"%char Hc) by done. by apply IH.
Qed.

(** Reading the decimal of a positive [int64] gives the number. *)
Lemma ParseInt0_format n : 0 < n <= int64_max -> ParseInt0 (format_int n) = inl n.
Proof.
  intros Hn. pose proof (format_int_value n ltac:(lia)) as Hval.
  assert (Hdec : decimal (format_int n)).
  { unfold format_int. destruct (Z.eqb_spec n 0); [lia|]. destruct (Z.ltb_spec n 0); [lia|]. by apply digits_decimal; [lia|]. }
  assert (Hhead : forall c s, format_int n = String c s -> code c <> 48 /\ 48 <= code c <= 57).
  { intros c s E. split; [|rewrite E in Hdec; by destruct Hdec]. revert E. unfold format_int.
    destruct (Z.eqb_spec n 0); [lia|]. destruct (Z.ltb_spec n 0); [lia|]. apply digits_head.
    unfold int64_max in Hn. cbn. lia. }
  destruct (format_int n) as [|c s] eqn:E; [cbn in Hval; lia|]. destruct (Hhead c s eq_refl) as [Hc0 Hc].
  unfold ParseInt0. rewrite (decimal_ne c "+"%char Hc), (decimal_ne c "-"%char Hc) by done.
  assert (Hb : base_prefix (String c s) = (10, String c s)).
  { unfold base_prefix. assert (Hz : (c == "0"%char) = false)
      by (apply bool_decide_eq_false_2; intros ->; by apply Hc0). destruct s as [|? [|? ?]]; by rewrite Hz. }
  unfold ParseUint0. rewrite bool_decide_eq_false_2 by done. rewrite Hb.
  rewrite parse_digits_decimal; [|done|lia|rewrite Hval; unfold int64_max, maxUint64 in *; lia].
  rewrite decimal_no_underscore by done. cbn [andb negb]. rewrite Hval.
  unfold int64_max in Hn. by rewrite (proj2 (Z.leb_gt _ _)) by lia.
Qed.

End strconv.

Example ParseFloat_decimal : strconv.ParseFloat "0.95" = inl (f64.div (f64.of_Z 95) (f64.of_Z 100)).
Proof. vm_compute. reflexivity. Qed.

Example ParseFloat_forms :
  strconv.ParseFloat "1_00e-2" = inl f64.one /\ strconv.ParseFloat "0x1p-1" = inl (f64.div f64.one (f64.of_Z 2))
  /\ strconv.ParseFloat "-Inf" = inl (S754_infinity true) /\ strconv.ParseFloat "NaN" = inl S754_nan
  /\ strconv.ParseFloat "-0" = inl (S754_zero true)
  /\ strconv.ParseFloat "5e-324" = inl (S754_finite false 1 (-1074)).
Proof. vm_compute. done. Qed.

Example ParseFloat_rejects :
  strconv.ParseFloat "1e309" = inr (strconv.errParseFloat "1e309" "value out of range")
  /\ strconv.ParseFloat "" = inr (strconv.errParseFloat "" "invalid syntax")
  /\ strconv.ParseFloat "1._5" = inr (strconv.errParseFloat "1._5" "invalid syntax")
  /\ strconv.ParseFloat "1.2.3" = inr (strconv.errParseFloat "1.2.3" "invalid syntax")
  /\ strconv.ParseFloat "+nan" = inr (strconv.errParseFloat "+nan" "invalid syntax").
Proof. vm_compute. done. Qed.
