(* ===== verification/GoJson.v ===== *)
(** * Package encoding/json of Go's standard library

    The encoder and the decoder as the repository uses them: strings with Go's
    escapes (HTML characters included) and its replacement of invalid UTF-8, the
    grammar with its limit on nesting, and values of Go types described by [ty],
    which decode into an existing value the way reflection does: keys match
    exactly or up to case, unknown keys are skipped, null leaves a scalar alone
    and clears a pointer or a slice, a repeated key is decoded into what the
    first one left, and a mismatch is an error that does not stop the rest. *)

From S2P Require Import Prelude GoFmt.
Local Open Scope Z_scope.
Local Open Scope go_scope.

Module json.

Definition bytes : Type := list ascii.

Definition of_string (s : string) : bytes := String.list_ascii_of_string s.
Definition to_string (b : bytes) : string := String.string_of_list_ascii b.

Definition code (c : ascii) : Z := Z.of_N (Ascii.N_of_ascii c).
Definition chr (z : Z) : ascii := Ascii.ascii_of_N (Z.to_N z).
Definition between (lo hi : Z) (c : ascii) : bool := (lo <=? code c) && (code c <=? hi).

Definition quote_char : ascii := Ascii.ascii_of_nat 34.
Definition backslash : ascii := Ascii.ascii_of_nat 92.

(** ** UTF-8 *)

Definition continuation (c : ascii) : bool := between 128 191 c.

(** The second byte a first byte of a sequence of three or four bytes admits. *)
Definition second_of_three (c c1 : ascii) : bool :=
  if code c =? 224 then between 160 191 c1
  else if code c =? 237 then between 128 159 c1
  else between 225 239 c && continuation c1.

Definition second_of_four (c c1 : ascii) : bool :=
  if code c =? 240 then between 144 191 c1
  else if code c =? 244 then between 128 143 c1
  else between 241 243 c && continuation c1.

(** [utf8.DecodeRune] on a first byte that is not ASCII: the size of the encoded
    rune, and 0 where the encoding is invalid. *)
Definition rune_size (b : bytes) : nat :=
  match b with
  | c :: c1 :: b2 =>
      if between 194 223 c then if continuation c1 then 2%nat else 0%nat
      else if second_of_three c c1 then
        match b2 with c2 :: _ => if continuation c2 then 3%nat else 0%nat | [] => 0%nat end
      else if second_of_four c c1 then
        match b2 with
        | c2 :: c3 :: _ => if continuation c2 && continuation c3 then 4%nat else 0%nat
        | _ => 0%nat
        end
      else 0%nat
  | _ => 0%nat
  end.

(** U+FFFD, and the two separators JavaScript takes for line ends. *)
Definition replacement : bytes := map chr [239; 191; 189].
Definition line_separator : bytes := map chr [226; 128; 168].
Definition paragraph_separator : bytes := map chr [226; 128; 169].

(** A string as its runes; a byte that starts none is [Invalid]. *)
Inductive Rune :=
  | Ascii_ (c : ascii)
  | Multi (seq : bytes)
  | Invalid.

Fixpoint runes_fuel (fuel : nat) (b : bytes) : list Rune :=
  match fuel, b with
  | S n, c :: b' =>
      if code c <? 128 then Ascii_ c :: runes_fuel n b'
      else
        match rune_size b with
        | O => Invalid :: runes_fuel n b'
        | k => Multi (take k b) :: runes_fuel n (drop k b)
        end
  | _, _ => []
  end.

Definition runes (b : bytes) : list Rune := runes_fuel (length b) b.

Definition rune_bytes (r : Rune) : bytes :=
  match r with Ascii_ c => [c] | Multi s => s | Invalid => replacement end.

(** The string with every invalid byte replaced. *)
Definition coerce (b : bytes) : bytes := concat (map rune_bytes (runes b)).

(** [utf8.EncodeRune]. *)
Definition EncodeRune (r : Z) : bytes :=
  if r <? 128 then [chr r]
  else if r <? 2048 then [chr (192 + r / 64); chr (128 + r mod 64)]
  else if r <? 65536 then [chr (224 + r / 4096); chr (128 + (r / 64) mod 64); chr (128 + r mod 64)]
  else [chr (240 + r / 262144); chr (128 + (r / 4096) mod 64); chr (128 + (r / 64) mod 64); chr (128 + r mod 64)].

(** ** Strings *)

Definition hex (n : Z) : ascii := if n <? 10 then chr (48 + n) else chr (87 + n).

Definition escape_ascii (c : ascii) : bytes :=
  if (c == quote_char) || (c == backslash) then [backslash; c]
  else if code c =? 8 then [backslash; "b"%char]
  else if code c =? 9 then [backslash; "t"%char]
  else if code c =? 10 then [backslash; "n"%char]
  else if code c =? 12 then [backslash; "f"%char]
  else if code c =? 13 then [backslash; "r"%char]
  else if (code c <? 32) || (c == "<"%char) || (c == ">"%char) || (c == "&"%char)
  then backslash :: of_string "u00" ++ [hex (code c / 16); hex (code c mod 16)]
  else [c].

(** One rune as [appendString] writes it. *)
Definition escape (r : Rune) : bytes :=
  match r with
  | Ascii_ c => escape_ascii c
  | Invalid => backslash :: of_string "ufffd"
  | Multi s =>
      if s == line_separator then backslash :: of_string "u2028"
      else if s == paragraph_separator then backslash :: of_string "u2029"
      else s
  end.

Definition quote (b : bytes) : bytes := quote_char :: concat (map escape (runes b)) ++ [quote_char].

Definition hex_value (c : ascii) : option Z :=
  if between 48 57 c then Some (code c - 48)
  else if between 97 102 c then Some (code c - 87)
  else if between 65 70 c then Some (code c - 55)
  else None.

(** The four hex digits of a [\u] escape. *)
Definition hex4 (b : bytes) : option (Z * bytes) :=
  match b with
  | c0 :: c1 :: c2 :: c3 :: b' =>
      match hex_value c0, hex_value c1, hex_value c2, hex_value c3 with
      | Some v0, Some v1, Some v2, Some v3 => Some (4096 * v0 + 256 * v1 + 16 * v2 + v3, b')
      | _, _, _, _ => None
      end
  | _ => None
  end.

(** [getu4] of what follows a surrogate. *)
Definition low_surrogate (b : bytes) : option (Z * bytes) :=
  match b with
  | c :: u :: b' =>
      if (c == backslash) && (u == "u"%char) then
        match hex4 b' with
        | Some (r, rest) => if (56320 <=? r) && (r <=? 57343) then Some (r, rest) else None
        | None => None
        end
      else None
  | _ => None
  end.

(** The rune of a [\u] escape: a surrogate pair is one rune, half a pair is
    replaced. *)
Definition unicode_escape (b : bytes) : option (bytes * bytes) :=
  match hex4 b with
  | None => None
  | Some (r, rest) =>
      if (55296 <=? r) && (r <=? 57343) then
        match (if r <=? 56319 then low_surrogate rest else None) with
        | Some (lo, rest') => Some (EncodeRune (65536 + (r - 55296) * 1024 + (lo - 56320)), rest')
        | None => Some (replacement, rest)
        end
      else Some (EncodeRune r, rest)
  end.

(** What follows a backslash. *)
Definition unescape (b : bytes) : option (bytes * bytes) :=
  match b with
  | [] => None
  | c :: b' =>
      if (c == quote_char) || (c == backslash) || (c == "/"%char) then Some ([c], b')
      else if c == "b"%char then Some ([chr 8], b')
      else if c == "f"%char then Some ([chr 12], b')
      else if c == "n"%char then Some ([chr 10], b')
      else if c == "r"%char then Some ([chr 13], b')
      else if c == "t"%char then Some ([chr 9], b')
      else if c == "u"%char then unicode_escape b'
      else None
  end.

(** One character of a string that does not end it: what is decoded and what is
    left. *)
Definition string_step (c : ascii) (b' : bytes) : option bytes * bytes :=
  if c == backslash then
    match unescape b' with Some (d, rest) => (Some d, rest) | None => (None, b') end
  else if code c <? 128 then (Some [c], b')
  else
    match rune_size (c :: b') with
    | O => (Some replacement, b')
    | k => (Some (take k (c :: b')), drop k (c :: b'))
    end.

(** The string after its opening quote, and what follows its closing quote. *)
Fixpoint string_body (fuel : nat) (b : bytes) : option (bytes * bytes) :=
  match fuel, b with
  | S n, c :: b' =>
      if c == quote_char then Some ([], b')
      else if code c <? 32 then None
      else
        let '(decoded, rest) := string_step c b' in
        match decoded, string_body n rest with
        | Some d, Some (s, rest') => Some (d ++ s, rest')
        | _, _ => None
        end
  | _, _ => None
  end.

(** ** Values

    An element or a member carries the text it was written as. *)

Inductive node :=
  | Null
  | Bool (b : bool)
  | Num (lit : bytes)
  | Str (s : bytes)
  | Arr (items : list (bytes * node))
  | Obj (members : list (bytes * (bytes * node))).

Fixpoint join (xs : list bytes) : bytes :=
  match xs with
  | [] => []
  | [x] => x
  | x :: xs' => x ++ ","%char :: join xs'
  end.

Definition member_text (m : bytes * (bytes * node)) : bytes := quote (fst m) ++ ":"%char :: fst (snd m).

(** The text of a value in the encoder's compact form. *)
Definition print (j : node) : bytes :=
  match j with
  | Null => of_string "null"
  | Bool b => of_string (if b then "true" else "false")
  | Num lit => lit
  | Str s => quote s
  | Arr items => "["%char :: join (map fst items) ++ ["]"%char]
  | Obj members => "{"%char :: join (map member_text members) ++ ["}"%char]
  end.

(** ** The grammar *)

Definition isSpace (c : ascii) : bool :=
  (code c =? 32) || (code c =? 9) || (code c =? 10) || (code c =? 13).

Fixpoint skip (b : bytes) : bytes :=
  match b with
  | c :: b' => if isSpace c then skip b' else b
  | [] => []
  end.

Definition is_digit (c : ascii) : bool := between 48 57 c.

Fixpoint digits (b : bytes) : bytes * bytes :=
  match b with
  | c :: b' => if is_digit c then let '(ds, rest) := digits b' in (c :: ds, rest) else ([], b)
  | [] => ([], [])
  end.

(** At least one digit. *)
Definition some_digits (b : bytes) : option (bytes * bytes) :=
  match digits b with ([], _) => None | r => Some r end.

Definition integer_part (b : bytes) : option (bytes * bytes) :=
  match b with
  | c :: b' => if c == "0"%char then Some ([c], b') else some_digits b
  | [] => None
  end.

Definition fraction (b : bytes) : option (bytes * bytes) :=
  match b with
  | c :: b' => if c == "."%char then '(ds, rest) ← some_digits b'; Some (c :: ds, rest) else Some ([], b)
  | [] => Some ([], [])
  end.

Definition sign (b : bytes) : bytes * bytes :=
  match b with
  | c :: b' => if (c == "+"%char) || (c == "-"%char) then ([c], b') else ([], b)
  | [] => ([], [])
  end.

Definition exponent (b : bytes) : option (bytes * bytes) :=
  match b with
  | c :: b' =>
      if (c == "e"%char) || (c == "E"%char) then
        let '(s, b1) := sign b' in '(ds, rest) ← some_digits b1; Some (c :: s ++ ds, rest)
      else Some ([], b)
  | [] => Some ([], [])
  end.

(** A number literal and what follows it. *)
Definition number (b : bytes) : option (bytes * bytes) :=
  let '(minus, b0) := match b with c :: b' => if c == "-"%char then ([c], b') else ([], b) | [] => ([], []) end in
  '(i, b1) ← integer_part b0;
  '(f, b2) ← fraction b1;
  '(e, b3) ← exponent b2;
  Some (minus ++ i ++ f ++ e, b3).

(** [word] and what follows it. *)
Definition literal (word b : bytes) : option bytes :=
  if bool_decide (take (length word) b = word) then Some (drop (length word) b) else None.

Definition maxNestingDepth : Z := 10000.

(** The text read when [rest] is left of [b]. *)
Definition consumed (b rest : bytes) : bytes := take (length b - length rest) b.

Fixpoint value (fuel : nat) (depth : Z) (b : bytes) {struct fuel} : option (node * bytes) :=
  match fuel, b with
  | S n, c :: b' =>
      if c == quote_char then '(s, rest) ← string_body (length b') b'; Some (Str s, rest)
      else if c == "["%char then
        if maxNestingDepth <=? depth then None
        else
          match skip b' with
          | c1 :: rest =>
              if c1 == "]"%char then Some (Arr [], rest)
              else '(l, rest) ← elements n (depth + 1) (c1 :: rest); Some (Arr l, rest)
          | [] => None
          end
      else if c == "{"%char then
        if maxNestingDepth <=? depth then None
        else
          match skip b' with
          | c1 :: rest =>
              if c1 == "}"%char then Some (Obj [], rest)
              else '(l, rest) ← members n (depth + 1) (c1 :: rest); Some (Obj l, rest)
          | [] => None
          end
      else if c == "n"%char then rest ← literal (of_string "null") b; Some (Null, rest)
      else if c == "t"%char then rest ← literal (of_string "true") b; Some (Bool true, rest)
      else if c == "f"%char then rest ← literal (of_string "false") b; Some (Bool false, rest)
      else '(lit, rest) ← number b; Some (Num lit, rest)
  | _, _ => None
  end
with elements (fuel : nat) (depth : Z) (b : bytes) {struct fuel} : option (list (bytes * node) * bytes) :=
  match fuel with
  | O => None
  | S n =>
      '(j, rest) ← value n depth b;
      match skip rest with
      | c :: r =>
          if c == "]"%char then Some ([(consumed b rest, j)], r)
          else if c == ","%char then '(l, r') ← elements n depth (skip r); Some ((consumed b rest, j) :: l, r')
          else None
      | [] => None
      end
  end
with members (fuel : nat) (depth : Z) (b : bytes) {struct fuel} :
    option (list (bytes * (bytes * node)) * bytes) :=
  match fuel, b with
  | S n, q :: b' =>
      if negb (q == quote_char) then None
      else
        '(k, r1) ← string_body (length b') b';
        match skip r1 with
        | c0 :: r2 =>
            if negb (c0 == ":"%char) then None
            else
              let b2 := skip r2 in
              '(j, rest) ← value n depth b2;
              match skip rest with
              | c :: r =>
                  if c == "}"%char then Some ([(k, (consumed b2 rest, j))], r)
                  else if c == ","%char
                  then '(l, r') ← members n depth (skip r); Some ((k, (consumed b2 rest, j)) :: l, r')
                  else None
              | [] => None
              end
        | [] => None
        end
  | _, _ => None
  end.

(** Enough for any text: see [value_fuel]. *)
Definition fuel_for (b : bytes) : nat := S (2 * length b).

(** The first value of [b], the text it is written as, and the rest. *)
Definition first_value (b : bytes) : option (bytes * node * bytes) :=
  let b := skip b in
  '(j, rest) ← value (fuel_for b) 0 b; Some (consumed b rest, j, rest).

(** [b] as one value. *)
Definition parse (b : bytes) : option (bytes * node) :=
  '(raw, j, rest) ← first_value b;
  if bool_decide (skip rest = []) then Some (raw, j) else None.

(** ** Types

    The Go types that are encoded or decoded; a field has its name of the [json]
    tag and whether it is left out when empty. *)

Inductive ty :=
  | TString
  | TBool
  | TInt (lo hi : Z)
  | TRawMessage
  | TPtr (t : ty)
  | TSlice (t : ty)
  | TStruct (fs : fields)
with fields :=
  | FNil
  | FCons (name : string) (omitempty : bool) (t : ty) (fs : fields).

Definition TInt64 : ty := TInt int64_min int64_max.

(** A slice is nil, or its elements and what the rest of its array still holds. *)
Definition slice (A : Type) : Type := option (list A * list A).

Definition elems {A} (s : slice A) : list A := match s with Some (xs, _) => xs | None => [] end.

Fixpoint interp (t : ty) : Type :=
  match t with
  | TString => string
  | TBool => bool
  | TInt _ _ => Z
  | TRawMessage => option bytes
  | TPtr t => option (interp t)
  | TSlice t => slice (interp t)
  | TStruct fs => struct_of fs
  end
with struct_of (fs : fields) : Type :=
  match fs with
  | FNil => unit
  | FCons _ _ t fs => interp t * struct_of fs
  end.

Fixpoint zero (t : ty) : interp t :=
  match t with
  | TString => ""
  | TBool => false
  | TInt _ _ => 0
  | TRawMessage => None
  | TPtr _ => None
  | TSlice _ => None
  | TStruct fs => zero_struct fs
  end
with zero_struct (fs : fields) : struct_of fs :=
  match fs with
  | FNil => tt
  | FCons _ _ t fs => (zero t, zero_struct fs)
  end.

(** ** Decoding *)

Definition ParseInt (lit : bytes) : option Z :=
  let '(neg, ds) := match lit with c :: l => if c == "-"%char then (true, l) else (false, lit) | [] => (false, []) end in
  if forallb is_digit ds && negb (bool_decide (ds = []))
  then let n := dec_value 0 (to_string ds) in Some (if neg then - n else n) else None.

(** [foldName]: ASCII letters in upper case, and the two other letters that fold
    to an ASCII one. *)
Definition fold_rune (r : Rune) : bytes :=
  match r with
  | Ascii_ c => if between 97 122 c then [chr (code c - 32)] else [c]
  | Multi s =>
      if s == map chr [226; 132; 170] then ["K"%char]
      else if s == map chr [197; 191] then ["S"%char]
      else s
  | Invalid => replacement
  end.

Definition foldName (b : bytes) : bytes := concat (map fold_rune (runes b)).

Fixpoint has_field (fs : fields) (key : bytes) : bool :=
  match fs with
  | FNil => false
  | FCons name _ _ fs => bool_decide (of_string name = key) || has_field fs key
  end.

(** Whether a key selects a field: its own name, or where no field has that very
    name the same name up to case. *)
Definition selects (exact : bool) (name : string) (key : bytes) : bool :=
  if exact then bool_decide (of_string name = key)
  else bool_decide (foldName (of_string name) = foldName key).

(** The elements of an array, each decoded into the cell it lands in. *)
Fixpoint decode_items {A} (d : bytes -> node -> A -> bool * A) (z : A) (items : list (bytes * node)) (cells : list A) :
    bool * list A * list A :=
  match items with
  | [] => (true, [], cells)
  | (raw, j) :: items' =>
      let '(cell, cells') := match cells with c :: cs => (c, cs) | [] => (z, []) end in
      let '(ok, x) := d raw j cell in
      let '(ok', xs, spare) := decode_items d z items' cells' in
      (ok && ok', x :: xs, spare)
  end.

(** The members of an object, in order. *)
Fixpoint decode_members {S} (set : bytes -> bytes -> node -> S -> bool * S) (ms : list (bytes * (bytes * node))) (s : S) :
    bool * S :=
  match ms with
  | [] => (true, s)
  | (key, (raw, j)) :: ms' =>
      let '(ok, s') := set key raw j s in
      let '(ok', s'') := decode_members set ms' s' in (ok && ok', s'')
  end.

(** [value], [object], [array] and [literalStore] of the decoder: whether the
    types agreed everywhere, and the value as it is left. *)
Fixpoint decode (t : ty) : bytes -> node -> interp t -> bool * interp t :=
  match t return bytes -> node -> interp t -> bool * interp t with
  | TString => fun _ j v => match j with Null => (true, v) | Str s => (true, to_string s) | _ => (false, v) end
  | TBool => fun _ j v => match j with Null => (true, v) | Bool b => (true, b) | _ => (false, v) end
  | TInt lo hi => fun _ j v =>
      match j with
      | Null => (true, v)
      | Num lit =>
          match ParseInt lit with
          | Some n => if (lo <=? n) && (n <=? hi) then (true, n) else (false, v)
          | None => (false, v)
          end
      | _ => (false, v)
      end
  | TRawMessage => fun raw _ _ => (true, Some raw)
  | TPtr t => fun raw j v =>
      match j with
      | Null => (true, None)
      | _ => let '(ok, x) := decode t raw j (from_ptr (zero t) v) in (ok, Some x)
      end
  | TSlice t => fun raw j v =>
      match j with
      | Null => (true, None)
      | Arr [] => (true, Some ([], []))
      | Arr items =>
          let '(ok, xs, spare) :=
            decode_items (decode t) (zero t) items (match v with Some (xs, spare) => xs ++ spare | None => [] end) in
          (ok, Some (xs, spare))
      | _ => (false, v)
      end
  | TStruct fs => fun raw j v =>
      match j with
      | Null => (true, v)
      | Obj ms => decode_members (fun key raw j s => set_field fs (has_field fs key) key raw j s) ms v
      | _ => (false, v)
      end
  end
with set_field (fs : fields) : bool -> bytes -> bytes -> node -> struct_of fs -> bool * struct_of fs :=
  match fs return bool -> bytes -> bytes -> node -> struct_of fs -> bool * struct_of fs with
  | FNil => fun _ _ _ _ s => (true, s)
  | FCons name _ t fs => fun exact key raw j s =>
      if selects exact name key
      then let '(ok, x) := decode t raw j (fst s) in (ok, (x, snd s))
      else let '(ok, s') := set_field fs exact key raw j (snd s) in (ok, (fst s, s'))
  end.

(** [json.Unmarshal] into a fresh variable; [None] is an error. *)
Definition Unmarshal (t : ty) (b : bytes) : option (interp t) :=
  '(raw, j) ← parse b;
  let '(ok, v) := decode t raw j (zero t) in if ok then Some v else None.

(** [json.NewDecoder(r).Decode]: what follows the first value is not read. *)
Definition Decode (t : ty) (b : bytes) : option (interp t) :=
  '(raw, j, _) ← first_value b;
  let '(ok, v) := decode t raw j (zero t) in if ok then Some v else None.

(** ** Encoding *)

Definition is_empty (t : ty) : interp t -> bool :=
  match t return interp t -> bool with
  | TString => fun s => s == ""
  | TBool => negb
  | TInt _ _ => fun n => n =? 0
  | TRawMessage => fun r => bool_decide (from_ptr [] r = [])
  | TPtr _ => is_nil
  | TSlice _ => fun s => match elems s with [] => true | _ => false end
  | TStruct _ => fun _ => false
  end.

Definition with_text (j : node) : bytes * node := (print j, j).

Fixpoint encode (t : ty) : interp t -> node :=
  match t return interp t -> node with
  | TString => fun s => Str (of_string s)
  | TBool => Bool
  | TInt _ _ => fun n => Num (of_string (format_int n))
  | TRawMessage => fun _ => Null
  | TPtr t => fun p => match p with Some x => encode t x | None => Null end
  | TSlice t => fun s => match s with Some (xs, _) => Arr (map (fun x => with_text (encode t x)) xs) | None => Null end
  | TStruct fs => fun s => Obj (encode_fields fs s)
  end
with encode_fields (fs : fields) : struct_of fs -> list (bytes * (bytes * node)) :=
  match fs return struct_of fs -> list (bytes * (bytes * node)) with
  | FNil => fun _ => []
  | FCons name omitempty t fs => fun s =>
      let rest := encode_fields fs (snd s) in
      if omitempty && is_empty t (fst s) then rest
      else (of_string name, with_text (encode t (fst s))) :: rest
  end.

(** [json.Marshal].  A type with a [json.RawMessage] is only ever decoded here. *)
Fixpoint encodable (t : ty) : bool :=
  match t with
  | TRawMessage => false
  | TPtr t => encodable t
  | TSlice t => encodable t
  | TStruct fs => encodable_fields fs
  | _ => true
  end
with encodable_fields (fs : fields) : bool :=
  match fs with
  | FNil => true
  | FCons _ _ t fs => encodable t && encodable_fields fs
  end.

Definition Marshal (t : ty) (v : interp t) : option bytes :=
  if encodable t then Some (print (encode t v)) else None.

End json.
