(* ===== verification/GoJsonFacts.v ===== *)
(** * What the repository relies on of encoding/json

    The fuel of the parser is enough for any text, a quoted string reads back as
    itself with invalid bytes replaced, and what the encoder prints the parser
    reads back, so that the answer of one program is decoded by another. *)

From S2P Require Import Prelude GoFmt GoStrconv GoJson.
Import json.
Local Open Scope Z_scope.
Local Open Scope go_scope.

Module json_facts.

(** ** Strings *)

(** A rune as [runes] produces it. *)
Definition wf_rune (r : Rune) : Prop :=
  match r with
  | Ascii_ c => code c < 128
  | Multi s => forall tail, rune_size (s ++ tail) = length s /\ s <> [] /\ Forall (fun c => 128 <= code c) s
  | Invalid => True
  end.

Lemma rune_size_local b tail :
  rune_size b <> O -> (rune_size b <= length b)%nat /\ rune_size (take (rune_size b) b ++ tail) = rune_size b.
Proof.
  destruct b as [|c [|c1 b2]]; [done|done|]. cbn [rune_size]. intros H.
  destruct (between 194 223 c) eqn:E1.
  { destruct (continuation c1) eqn:E2; [|done]. cbn. rewrite E1, E2. split; [lia|done]. }
  destruct (second_of_three c c1) eqn:E2.
  { destruct b2 as [|c2 b3]; [done|]. destruct (continuation c2) eqn:E3; [|done].
    cbn. rewrite E1, E2, E3. split; [lia|done]. }
  destruct (second_of_four c c1) eqn:E3; [|done].
  destruct b2 as [|c2 [|c3 b4]]; [done|done|]. destruct (continuation c2 && continuation c3) eqn:E4; [|done].
  cbn. rewrite E1, E2, E3, E4. split; [lia|done].
Qed.

(** The bytes of an encoded rune are not ASCII. *)
Lemma rune_high b c b' : b = c :: b' -> 128 <= code c -> Forall (fun c => 128 <= code c) (take (rune_size b) b).
Proof.
  intros -> Hc. assert (Hb : forall lo hi x, 128 <= lo -> between lo hi x = true -> 128 <= code x).
  { intros lo hi x Hlo H. unfold between in H. go_bools. lia. }
  assert (Hcont : forall x, continuation x = true -> 128 <= code x) by (intros x; by apply Hb).
  destruct b' as [|c1 b2]; [done|]. cbn [rune_size].
  destruct (between 194 223 c).
  { destruct (continuation c1) eqn:E; [|constructor]. repeat constructor; auto. }
  destruct (second_of_three c c1) eqn:E2.
  { assert (H1 : 128 <= code c1).
    { unfold second_of_three in E2. case_match; [by apply (Hb 160 191)|]. case_match; [by apply (Hb 128 159)|]. go_bools. auto. }
    destruct b2 as [|c2 b3]; [constructor|]. destruct (continuation c2) eqn:E3; [|constructor]. repeat constructor; auto. }
  destruct (second_of_four c c1) eqn:E3; [|constructor].
  assert (H1 : 128 <= code c1).
  { unfold second_of_four in E3. case_match; [by apply (Hb 144 191)|]. case_match; [by apply (Hb 128 143)|]. go_bools. auto. }
  destruct b2 as [|c2 [|c3 b4]]; [constructor..|]. destruct (continuation c2 && continuation c3) eqn:E4; [|constructor].
  go_bools. repeat constructor; auto.
Qed.

Lemma runes_fuel_wf n b : Forall wf_rune (runes_fuel n b).
Proof.
  revert b. induction n as [|n IH]; intros b; [constructor|]. destruct b as [|c b]; [constructor|].
  cbn [runes_fuel]. destruct (Z.ltb_spec (code c) 128) as [Hc|Hc]; [by constructor|].
  destruct (rune_size (c :: b)) as [|k] eqn:E; [by constructor|]. constructor; [|apply IH].
  intros tail. pose proof (rune_size_local (c :: b) tail ltac:(by rewrite E)) as [Hl Hs]. rewrite E in Hl, Hs.
  rewrite Hs. split; [rewrite length_take; lia|]. split; [done|].
  rewrite <- E. by apply (rune_high (c :: b) c b).
Qed.

Lemma escape_nonempty r : wf_rune r -> (1 <= length (escape r))%nat.
Proof.
  destruct r as [c|s|]; cbn [escape]; [|intros H|intros _; cbn; lia].
  - intros _. unfold escape_ascii. repeat (case_match; [cbn; lia|]). cbn. lia.
  - destruct (H []) as (_ & Hne & _). destruct s as [|c s']; [done|]. repeat (case_match; [cbn; lia|]). cbn. lia.
Qed.

(** Reading one ASCII character back. *)
Lemma read_ascii n c tail :
  code c < 128 ->
  string_body (S n) (escape_ascii c ++ tail)
  = '(s, rest) ← string_body n tail; Some (c :: s, rest).
Proof.
  intros Hc. destruct c as [[] [] [] [] [] [] [] []]; try (exfalso; revert Hc; vm_compute; congruence);
    lazy -[string_body mbind option_bind]; cbn [string_body]; lazy -[string_body mbind option_bind];
    destruct (string_body n tail) as [[? ?]|]; reflexivity.
Qed.

Lemma high_byte c : 128 <= code c -> (c == quote_char) = false /\ (c == backslash) = false.
Proof. intros H. split; apply bool_decide_eq_false_2; intros ->; revert H; vm_compute; congruence. Qed.

(** Reading one rune back takes one step. *)
Lemma read_rune n r tail :
  wf_rune r ->
  string_body (S n) (escape r ++ tail) = '(s, rest) ← string_body n tail; Some (rune_bytes r ++ s, rest).
Proof.
  destruct r as [c|s|]; cbn [escape rune_bytes wf_rune]; intros H.
  - by apply read_ascii.
  - destruct (s == line_separator) eqn:E1; [apply bool_decide_eq_true in E1 as ->; reflexivity|].
    destruct (s == paragraph_separator) eqn:E2; [apply bool_decide_eq_true in E2 as ->; reflexivity|].
    destruct (H tail) as (Hs & Hne & Hall). destruct s as [|c s']; [done|]. inversion Hall as [|? ? Hc _]; subst. destruct (high_byte c Hc) as [Hq Hb].
    change ((c :: s') ++ tail) with (c :: (s' ++ tail)) in *. cbn [string_body]. unfold string_step. rewrite Hq, Hb.
    rewrite (proj2 (Z.ltb_ge (code c) 32)), (proj2 (Z.ltb_ge (code c) 128)) by lia. rewrite Hs. cbn [length].
    change (c :: s' ++ tail) with ((c :: s') ++ tail).
    rewrite (take_app_length' (c :: s') tail), (drop_app_length' (c :: s') tail) by done.
    by destruct (string_body n tail) as [[? ?]|].
  - reflexivity.
Qed.

Lemma read_runes rs n rest :
  Forall wf_rune rs -> (length rs < n)%nat ->
  string_body n (concat (map escape rs) ++ quote_char :: rest) = Some (concat (map rune_bytes rs), rest).
Proof.
  intros H. revert n. induction H as [|r rs Hr _ IH]; intros n Hn; (destruct n as [|n]; [cbn in Hn; lia|]).
  - reflexivity.
  - cbn [map concat]. rewrite <- app_assoc, read_rune, IH by (done || (cbn in Hn; lia)). done.
Qed.

Lemma runes_short rs : Forall wf_rune rs -> (length rs <= length (concat (map escape rs)))%nat.
Proof.
  induction 1 as [|r rs Hr _ IH]; [done|]. cbn [map concat length]. rewrite length_app.
  pose proof (escape_nonempty r Hr). lia.
Qed.

(** A quoted string reads back as itself, invalid bytes replaced. *)
Lemma read_quoted s n rest :
  (length (concat (map escape (runes s))) < n)%nat ->
  string_body n (concat (map escape (runes s)) ++ quote_char :: rest) = Some (coerce s, rest).
Proof.
  intros Hn. apply read_runes; [apply runes_fuel_wf|].
  pose proof (runes_short (runes s) (runes_fuel_wf _ _)). lia.
Qed.

Lemma quote_app s rest :
  quote s ++ rest = quote_char :: (concat (map escape (runes s)) ++ quote_char :: rest).
Proof. unfold quote. cbn [app]. by rewrite <- app_assoc. Qed.

(** Nothing printed is a control character. *)
Definition visible (b : bytes) : Prop := Forall (fun c => 32 <= code c) b.

Lemma visible_dec b : forallb (fun c => 32 <=? code c) b = true -> visible b.
Proof. rewrite forallb_forall, <- List.Forall_forall. intros H. eapply Forall_impl; [exact H|]. intros c. apply Z.leb_le. Qed.

Lemma escape_visible r : wf_rune r -> visible (escape r).
Proof.
  destruct r as [c|s|]; cbn [escape wf_rune]; intros H.
  - destruct c as [[] [] [] [] [] [] [] []]; try (exfalso; revert H; vm_compute; congruence);
      apply visible_dec; reflexivity.
  - do 2 (case_match; [by apply visible_dec|]).
    destruct (H []) as (_ & _ & Hall). eapply Forall_impl; [exact Hall|]. cbn. lia.
  - by apply visible_dec.
Qed.

Lemma quote_visible s : visible (quote s).
Proof.
  unfold quote, visible. constructor; [vm_compute; discriminate|]. apply Forall_app. split; [|repeat constructor; vm_compute; discriminate].
  apply Forall_concat, List.Forall_map. eapply Forall_impl; [apply runes_fuel_wf|]. intros r. apply escape_visible.
Qed.

(** An escape is at most six times as long as what it stands for. *)
Lemma escape_multi_length s : s <> [] -> (length (escape (Multi s)) <= 6 * length s)%nat.
Proof. intros H. assert ((1 <= length s)%nat) by (destruct s; [done|cbn; lia]). cbn [escape]. repeat (case_match; [cbn; lia|]). lia. Qed.

Lemma runes_escape_length n b :
  (length (concat (map escape (runes_fuel n b))) <= 6 * length b)%nat.
Proof.
  revert b. induction n as [|n IH]; intros b; [cbn; lia|]. destruct b as [|c b]; [cbn; lia|]. cbn [runes_fuel].
  destruct (code c <? 128).
  { cbn [map concat escape]. rewrite length_app. specialize (IH b). cbn [length].
    assert ((length (escape_ascii c) <= 6)%nat); [|lia]. unfold escape_ascii. repeat (case_match; [cbn; lia|]). cbn. lia. }
  destruct (rune_size (c :: b)) as [|k] eqn:E.
  { cbn [map concat escape]. rewrite length_app. specialize (IH b). cbn [length of_string]. cbn. lia. }
  cbn [map concat]. rewrite length_app. specialize (IH (drop (S k) (c :: b))). rewrite length_drop in IH.
  destruct (rune_size_local (c :: b) [] ltac:(by rewrite E)) as [Hl _]. rewrite E in Hl.
  pose proof (escape_multi_length (take (S k) (c :: b)) ltac:(done)) as Hm.
  rewrite length_take, Nat.min_l in Hm by done. lia.
Qed.

Lemma quote_length s : (length (quote s) <= 6 * length s + 2)%nat.
Proof. unfold quote. cbn [length]. rewrite length_app. pose proof (runes_escape_length (length s) s). unfold runes. cbn. lia. Qed.

(** An ASCII string is its own coercion. *)
Lemma coerce_ascii s : forallb (fun c => code c <? 128) s = true -> coerce s = s.
Proof.
  unfold coerce, runes. generalize (le_n (length s)). generalize (length s) at 2 3 as n. intros n.
  revert s. induction n as [|n IH]; intros s Hn Hs; [destruct s; [done|cbn in Hn; lia]|].
  destruct s as [|c s]; [done|]. cbn [forallb] in Hs. apply andb_true_iff in Hs as [Hc Hs]. cbn [runes_fuel]. rewrite Hc.
  cbn. f_equal. apply IH; [cbn in Hn; lia|done].
Qed.

(** ** Numbers *)

(** What may follow a value inside an array or an object, or at the end. *)
Definition stops (rest : bytes) : Prop :=
  match rest with [] => True | c :: _ => c = ","%char \/ c = "]"%char \/ c = "}"%char end.

(** A literal the grammar reads whole. *)
Definition number_ok (lit : bytes) : Prop :=
  (forall rest, stops rest -> number (lit ++ rest) = Some (lit, rest))
  /\ exists c l, lit = c :: l /\ ((c == "-"%char) || is_digit c) = true.

Lemma stop_char rest c b : stops rest -> rest = c :: b ->
  is_digit c = false /\ (c == "."%char) = false /\ (c == "e"%char) = false /\ (c == "E"%char) = false.
Proof. intros H ->. by destruct H as [->|[->| ->]]. Qed.

Lemma digits_all ds rest :
  forallb is_digit ds = true -> stops rest -> digits (ds ++ rest) = (ds, rest).
Proof.
  intros Hd Hr. induction ds as [|c ds IH].
  - destruct rest as [|c rest]; [done|]. destruct (stop_char _ c rest Hr eq_refl) as [E _]. cbn. by rewrite E.
  - cbn [forallb] in Hd. apply andb_true_iff in Hd as [Hc Hd]. cbn. by rewrite Hc, IH.
Qed.

Lemma no_tail rest : stops rest -> fraction rest = Some ([], rest) /\ exponent rest = Some ([], rest).
Proof.
  intros Hr. destruct rest as [|c rest]; [done|]. destruct (stop_char _ c rest Hr eq_refl) as (_ & E1 & E2 & E3).
  cbn. by rewrite E1, E2, E3.
Qed.

Lemma digit_not_minus c : is_digit c = true -> (c == "-"%char) = false.
Proof. intros H. apply bool_decide_eq_false_2. intros ->. by vm_compute in H. Qed.

(** Digits, not zero first or zero alone. *)
Definition plain_digits (ds : bytes) : Prop :=
  ds = ["0"%char] \/ exists c l, ds = c :: l /\ (c == "0"%char) = false /\ forallb is_digit ds = true.

Lemma integer_all ds rest : plain_digits ds -> stops rest -> integer_part (ds ++ rest) = Some (ds, rest).
Proof.
  intros [->|(c & l & -> & Hc & Hd)] Hr; [done|].
  cbn [app integer_part]. rewrite Hc. unfold some_digits.
  change (c :: l ++ rest) with ((c :: l) ++ rest). by rewrite digits_all.
Qed.

Lemma plain_head ds : plain_digits ds -> exists c l, ds = c :: l /\ is_digit c = true.
Proof.
  intros [->|(c & l & -> & _ & Hd)]; [by eexists _, _|]. cbn in Hd. apply andb_true_iff in Hd as [Hd _]. by exists c, l.
Qed.

Lemma number_plain (neg : bool) ds :
  plain_digits ds -> number_ok ((if neg then ["-"%char] else []) ++ ds).
Proof.
  intros Hd. destruct (plain_head ds Hd) as (c & l & E & Hc). split.
  - intros rest Hr. destruct (no_tail rest Hr) as [Hf He]. unfold number. rewrite <- app_assoc.
    destruct neg; cbn [app].
    + change (bool_decide ("-"%char = "-"%char)) with true. cbv iota.
      rewrite integer_all by done. cbn [mbind option_bind]. rewrite Hf. cbn [mbind option_bind]. rewrite He.
      cbn [mbind option_bind]. by rewrite !app_nil_r.
    + subst ds. cbn [app]. rewrite (digit_not_minus c Hc). change (c :: l ++ rest) with ((c :: l) ++ rest).
      rewrite integer_all by done. cbn [mbind option_bind]. rewrite Hf. cbn [mbind option_bind]. rewrite He.
      cbn [mbind option_bind]. by rewrite !app_nil_r.
  - destruct neg; [by eexists _, _|]. exists c, l. rewrite E. split; [done|]. by rewrite Hc, orb_true_r.
Qed.

Lemma decimal_digits s : strconv.decimal s -> forallb is_digit (of_string s) = true.
Proof.
  induction s as [|c s IH]; [done|]. intros [Hc Hd]. unfold of_string in *. cbn. rewrite IH by done.
  unfold is_digit, between. unfold strconv.code in Hc. unfold code. rewrite andb_true_r.
  apply andb_true_iff. split; apply Z.leb_le; lia.
Qed.

Lemma positive_digits n : 0 < n <= - int64_min -> plain_digits (of_string (digits_loop 20 n "")).
Proof.
  intros Hn. right. assert (Hp : n < 10 ^ Z.of_nat 20) by (unfold int64_min in Hn; cbn; lia).
  assert (Hd : strconv.decimal (digits_loop 20 n "")) by (apply strconv.digits_decimal; [lia|done]).
  destruct (digits_loop 20 n "") as [|c s] eqn:E.
  - pose proof (digits_loop_value 20 n "" ltac:(lia)) as Hv. rewrite E in Hv. cbn in Hv. lia.
  - exists c, (of_string s). split; [done|]. split; [|by apply decimal_digits].
    pose proof (strconv.digits_head 20 n "" c s ltac:(lia) E) as Hc.
    apply bool_decide_eq_false_2. intros ->. by apply Hc.
Qed.

(** A printed [int64] is a number literal, and reads back. *)
Lemma format_int_number n : int64_ok n -> number_ok (of_string (format_int n)).
Proof.
  intros Hn. unfold int64_ok, int64_max in Hn. unfold format_int. destruct (Z.eqb_spec n 0) as [->|H0].
  { apply (number_plain false ["0"%char]). by left. }
  destruct (Z.ltb_spec n 0) as [H|H].
  - apply (number_plain true (of_string (digits_loop 20 (- n) ""))), positive_digits. lia.
  - apply (number_plain false (of_string (digits_loop 20 n ""))), positive_digits. unfold int64_min in *. lia.
Qed.

(** ** What is printed is read back *)

(** A tree whose texts are the printed ones, of at most [n] levels. *)
Fixpoint printable (n : nat) (j : node) : Prop :=
  match n with
  | O => False
  | S n =>
      match j with
      | Num lit => number_ok lit
      | Arr items => Forall (fun x => fst x = print (snd x) /\ printable n (snd x)) items
      | Obj members => Forall (fun m => fst (snd m) = print (snd (snd m)) /\ printable n (snd (snd m))) members
      | _ => True
      end
  end.

Lemma printable_obj n ms :
  Forall (fun m => fst (snd m) = print (snd (snd m)) /\ printable n (snd (snd m))) ms -> printable (S n) (Obj ms).
Proof. done. Qed.

Lemma printable_arr n items :
  Forall (fun x => fst x = print (snd x) /\ printable n (snd x)) items -> printable (S n) (Arr items).
Proof. done. Qed.

(** The tree as it is read back: invalid bytes of strings are replaced. *)
Fixpoint norm (j : node) : node :=
  match j with
  | Str s => Str (coerce s)
  | Arr items => Arr (map (fun x => (fst x, norm (snd x))) items)
  | Obj members => Obj (map (fun m => (coerce (fst m), (fst (snd m), norm (snd (snd m))))) members)
  | _ => j
  end.

Lemma print_head n j : printable n j ->
  exists c l, print j = c :: l /\ isSpace c = false /\ (c == "]"%char) = false /\ (c == "}"%char) = false.
Proof.
  destruct n as [|n]; [done|]. destruct j as [|[]|lit|s|items|ms]; cbn [print printable]; intros H;
    try (by eexists _, _).
  destruct H as [_ (c & l & -> & Hc)]. exists c, l. split; [done|].
  apply orb_true_iff in Hc as [Hc|Hc]; [apply bool_decide_eq_true in Hc as ->; done|].
  unfold is_digit, between in Hc. go_bools. unfold isSpace.
  rewrite !(proj2 (Z.eqb_neq _ _)) by lia.
  split_and!; [done|..]; apply bool_decide_eq_false_2; intros ->; vm_compute in *; congruence.
Qed.

Lemma skip_head c l : isSpace c = false -> skip (c :: l) = c :: l.
Proof. intros H. cbn. by rewrite H. Qed.

Lemma consumed_app a rest : consumed (a ++ rest) rest = a.
Proof. unfold consumed. rewrite length_app, Nat.add_sub. by rewrite take_app_length. Qed.

Lemma join_cons x y ys : join (x :: y :: ys) = x ++ ","%char :: join (y :: ys).
Proof. done. Qed.

Section Read.
Context (n : nat).

(** What [value] does on the printed text of a value of [n] levels. *)
Hypothesis read_value : forall fuel depth j rest,
  printable n j -> depth + Z.of_nat n <= maxNestingDepth -> stops rest ->
  (2 * length (print j) < fuel)%nat -> value fuel depth (print j ++ rest) = Some (norm j, rest).

Lemma read_elements items fuel depth rest :
  items <> [] -> Forall (fun x => fst x = print (snd x) /\ printable n (snd x)) items ->
  depth + Z.of_nat n <= maxNestingDepth -> (2 * length (join (map fst items)) + 1 < fuel)%nat ->
  elements fuel depth (join (map fst items) ++ "]"%char :: rest)
  = Some (map (fun x => (fst x, norm (snd x))) items, rest).
Proof.
  intros Hne H Hd. revert fuel. induction H as [|[raw j] items [Hr Hp] Hall IH]; [done|]. intros fuel Hf.
  cbn [fst snd] in *. subst raw. destruct fuel as [|fuel]; [lia|]. destruct items as [|[raw' j'] items].
  - cbn [map join fst snd] in *. cbn [elements].
    rewrite read_value by (done || (cbn; by right; left) || lia). cbn [mbind option_bind].
    rewrite consumed_app. done.
  - cbn [map fst snd] in *. rewrite join_cons in *. rewrite length_app in Hf. cbn [length] in Hf.
    rewrite <- app_assoc. cbn [app elements]. rewrite read_value by (done || (cbn; by left) || lia).
    cbn [mbind option_bind]. rewrite skip_head by done.
    change (bool_decide (","%char = "]"%char)) with false. change (bool_decide (","%char = ","%char)) with true. cbv iota.
    assert (Hs : skip (join (raw' :: map fst items) ++ "]"%char :: rest) = join (raw' :: map fst items) ++ "]"%char :: rest).
    { inversion Hall as [|? ? [Hr' Hp'] _]; subst. cbn [fst snd] in *. subst raw'.
      destruct (print_head n j' Hp') as (c & l & E & Hc & _).
      destruct (map fst items) as [|z zs]; cbn [join]; rewrite E; cbn [app]; by apply skip_head. }
    rewrite Hs, IH by (done || lia). cbn [mbind option_bind map fst snd]. rewrite consumed_app. done.
Qed.

Lemma skip_member m ms rest : skip (join (member_text m :: ms) ++ rest) = join (member_text m :: ms) ++ rest.
Proof. destruct ms; cbn [join]; unfold member_text, quote; cbn [app]; by apply skip_head. Qed.

(** One member, up to what follows its value. *)
Lemma read_member_name k r2 :
  (let b' := concat (map escape (runes k)) ++ quote_char :: ":"%char :: r2 in string_body (length b') b')
  = Some (coerce k, ":"%char :: r2).
Proof. cbv zeta. apply read_quoted. rewrite length_app. cbn. lia. Qed.

Lemma read_members ms fuel depth rest :
  ms <> [] -> Forall (fun m => fst (snd m) = print (snd (snd m)) /\ printable n (snd (snd m))) ms ->
  depth + Z.of_nat n <= maxNestingDepth -> (2 * length (join (map member_text ms)) + 1 < fuel)%nat ->
  members fuel depth (join (map member_text ms) ++ "}"%char :: rest)
  = Some (map (fun m => (coerce (fst m), (fst (snd m), norm (snd (snd m))))) ms, rest).
Proof.
  intros Hne H Hd. revert fuel. induction H as [|[k [raw j]] ms [Hr Hp] Hall IH]; [done|]. intros fuel Hf.
  cbn [fst snd] in *. subst raw. destruct fuel as [|fuel]; [lia|].
  destruct (print_head n j Hp) as (c0 & l0 & E0 & Hc0 & _).
  assert (Hhead : forall tail, member_text (k, (print j, j)) ++ tail
                  = quote_char :: (concat (map escape (runes k)) ++ quote_char :: ":"%char :: print j ++ tail)).
  { intros tail. unfold member_text. cbn [fst snd]. rewrite <- app_assoc. cbn [app]. by rewrite quote_app. }
  assert (Hlen : (2 * length (print j) < 2 * length (member_text (k, (print j, j))))%nat).
  { unfold member_text. cbn [fst snd]. rewrite length_app. cbn [length]. lia. }
  assert (Hskip : forall tail, skip (print j ++ tail) = print j ++ tail).
  { intros tail. rewrite E0. cbn [app]. by apply skip_head. }
  destruct ms as [|m' ms].
  - cbn [map join] in *. rewrite Hhead. cbn [members].
    change (bool_decide (quote_char = quote_char)) with true. cbn [negb].
    rewrite read_member_name. cbn [mbind option_bind]. rewrite skip_head by done.
    change (bool_decide (":"%char = ":"%char)) with true. cbn [negb]. rewrite Hskip, read_value by (done || (cbn; by right; right) || lia).
    cbn [mbind option_bind]. rewrite consumed_app. done.
  - cbn [map] in *. rewrite join_cons in *. rewrite length_app in Hf. cbn [length] in Hf.
    rewrite <- app_assoc, Hhead. cbn [members app].
    change (bool_decide (quote_char = quote_char)) with true. cbn [negb].
    rewrite read_member_name. cbn [mbind option_bind]. rewrite skip_head by done.
    change (bool_decide (":"%char = ":"%char)) with true. cbn [negb]. rewrite Hskip, read_value by (done || (cbn; by left) || lia).
    cbn [mbind option_bind]. rewrite skip_head by done.
    change (bool_decide (","%char = "}"%char)) with false. change (bool_decide (","%char = ","%char)) with true. cbv iota.
    rewrite skip_member, IH by (done || lia). cbn [mbind option_bind fst snd]. rewrite consumed_app. done.
Qed.
End Read.

Lemma digit_head_not c k : ((c == "-"%char) || is_digit c) = true -> (code k <? 45) || (57 <? code k) = true -> (c == k) = false.
Proof.
  intros Hc Hk. apply bool_decide_eq_false_2. intros ->. unfold is_digit, between in Hc.
  apply orb_true_iff in Hc as [Hc|Hc]; go_bools; [subst; by vm_compute in Hk|].
  apply orb_true_iff in Hk as [Hk|Hk]; go_bools; lia.
Qed.

(** What is printed is read back, whatever follows. *)
Lemma read_printed n fuel depth j rest :
  printable n j -> depth + Z.of_nat n <= maxNestingDepth -> stops rest ->
  (2 * length (print j) < fuel)%nat -> value fuel depth (print j ++ rest) = Some (norm j, rest).
Proof.
  revert fuel depth j rest. induction n as [|n IH]; intros fuel depth j rest Hp Hd Hr Hf; [done|].
  destruct fuel as [|fuel]; [lia|]. destruct j as [|[]|lit|s|items|ms]; cbn [printable print norm] in *.
  - done.
  - done.
  - done.
  - destruct Hp as [Hnum (c & l & -> & Hc)]. cbn [app value].
    rewrite !(digit_head_not c) by done. change (c :: l ++ rest) with ((c :: l) ++ rest). by rewrite Hnum.
  - rewrite quote_app. cbn [value]. change (bool_decide (quote_char = quote_char)) with true. cbv iota.
    rewrite read_quoted by (rewrite length_app; cbn; lia). done.
  - cbn [app value length] in *. rewrite <- app_assoc. cbn [app].
    change (bool_decide ("["%char = quote_char)) with false. change (bool_decide ("["%char = "["%char)) with true. cbv iota.
    rewrite (proj2 (Z.leb_gt maxNestingDepth depth)) by (destruct items as [|? ?]; [lia|lia]).
    destruct items as [|[raw j] items]; [done|].
    inversion Hp as [|? ? [Hr' Hp'] _]; subst. cbn [fst snd] in *. subst raw.
    destruct (print_head n j Hp') as (c & l & E & Hc & Hb & _).
    assert (Hj : exists t, join (map fst ((print j, j) :: items)) ++ "]"%char :: rest = c :: t).
    { cbn [map fst]. destruct (map fst items); cbn [join]; rewrite E; by eexists. }
    destruct Hj as [t Ht]. rewrite Ht, skip_head, Hb by done. rewrite <- Ht.
    rewrite length_app in Hf. rewrite (read_elements n IH) by (done || lia). done.
  - cbn [app value length] in *. rewrite <- app_assoc. cbn [app].
    change (bool_decide ("{"%char = quote_char)) with false. change (bool_decide ("{"%char = "["%char)) with false.
    change (bool_decide ("{"%char = "{"%char)) with true. cbv iota.
    rewrite (proj2 (Z.leb_gt maxNestingDepth depth)) by lia.
    destruct ms as [|m ms]; [done|].
    assert (Hj : exists t, join (map member_text (m :: ms)) ++ "}"%char :: rest = quote_char :: t).
    { cbn [map]. destruct (map member_text ms); cbn [join]; unfold member_text, quote; by eexists. }
    destruct Hj as [t Ht]. rewrite Ht, skip_head by done.
    change (bool_decide (quote_char = "}"%char)) with false. cbv iota. rewrite <- Ht.
    rewrite length_app in Hf. rewrite (read_members n IH) by (done || lia). done.
Qed.

Lemma first_value_printed n j :
  printable n j -> Z.of_nat n <= maxNestingDepth -> first_value (print j) = Some (print j, norm j, []).
Proof.
  intros Hp Hn. unfold first_value. destruct (print_head n j Hp) as (c & l & E & Hc & _).
  replace (skip (print j)) with (print j) by (rewrite E; symmetry; by apply skip_head).
  pose proof (read_printed n (fuel_for (print j)) 0 j [] Hp ltac:(lia) I ltac:(unfold fuel_for; lia)) as H.
  rewrite app_nil_r in H. rewrite H. cbn [mbind option_bind].
  pose proof (consumed_app (print j) []) as Hc'. rewrite app_nil_r in Hc'. by rewrite Hc'.
Qed.

Lemma parse_printed n j :
  printable n j -> Z.of_nat n <= maxNestingDepth -> parse (print j) = Some (print j, norm j).
Proof. intros Hp Hn. unfold parse. by rewrite (first_value_printed n j Hp Hn). Qed.

(** ** The encoder *)

Scheme ty_mut := Induction for ty Sort Prop
  with fields_mut := Induction for fields Sort Prop.
Combined Scheme ty_fields_ind from ty_mut, fields_mut.

(** The integers of a value are [int64]s. *)
Fixpoint ints_ok (t : ty) : interp t -> Prop :=
  match t return interp t -> Prop with
  | TInt _ _ => fun n => int64_ok n
  | TPtr t => fun p => match p with Some x => ints_ok t x | None => True end
  | TSlice t => fun s => Forall (ints_ok t) (elems s)
  | TStruct fs => fun s => ints_ok_struct fs s
  | _ => fun _ => True
  end
with ints_ok_struct (fs : fields) : struct_of fs -> Prop :=
  match fs return struct_of fs -> Prop with
  | FNil => fun _ => True
  | FCons _ _ t fs => fun s => ints_ok t (fst s) /\ ints_ok_struct fs (snd s)
  end.

(** The levels of a value of a type. *)
Fixpoint levels (t : ty) : nat :=
  match t with
  | TPtr t => levels t
  | TSlice t => S (levels t)
  | TStruct fs => S (levels_fields fs)
  | _ => 1
  end
with levels_fields (fs : fields) : nat :=
  match fs with
  | FNil => O
  | FCons _ _ t fs => Nat.max (levels t) (levels_fields fs)
  end.

Lemma printable_mono n m j : (n <= m)%nat -> printable n j -> printable m j.
Proof.
  revert m j. induction n as [|n IH]; intros m j Hm Hp; [done|]. destruct m as [|m]; [lia|].
  destruct j; cbn [printable] in *; try done; (eapply Forall_impl; [exact Hp|]); cbn; intros x [? ?]; (split; [done|]); (apply IH; [lia|done]).
Qed.

Lemma printable_null t : printable (levels t) Null.
Proof. induction t using ty_mut with (P0 := fun _ => True); done. Qed.

Lemma encode_printable :
  (forall t v, ints_ok t v -> printable (levels t) (encode t v))
  /\ (forall fs s, ints_ok_struct fs s ->
        Forall (fun m => fst (snd m) = print (snd (snd m)) /\ printable (levels_fields fs) (snd (snd m))) (encode_fields fs s)).
Proof.
  apply ty_fields_ind; cbn [interp struct_of levels levels_fields encode encode_fields ints_ok ints_ok_struct]; try done.
  - intros lo hi n Hn. by apply format_int_number.
  - intros t IH [x|] Hx; [by apply IH|apply printable_null].
  - intros t IH [[xs sp]|] Hx; [|done]. cbn. rewrite List.Forall_map. eapply Forall_impl; [exact Hx|].
    cbn. intros x H. split; [done|by apply IH].
  - intros name om t IHt fs IHfs [x s] [Hx Hs]. cbn [fst snd] in *.
    assert (Hrest : Forall (fun m => fst (snd m) = print (snd (snd m)) /\
              printable (levels t `max` levels_fields fs) (snd (snd m))) (encode_fields fs s)).
    { eapply Forall_impl; [exact (IHfs s Hs)|]. cbn. intros m [? ?]. split; [done|]. eapply printable_mono; [|done]. lia. }
    destruct (om && is_empty t x); [done|]. constructor; [|done]. cbn. split; [done|].
    eapply printable_mono; [|by apply IHt]. lia.
Qed.

(** A printed value decoded at any type. *)
Lemma Unmarshal_encoded t t' v :
  ints_ok t v -> (levels t <= 100)%nat ->
  Unmarshal t' (print (encode t v))
  = let '(ok, w) := decode t' (print (encode t v)) (norm (encode t v)) (zero t') in if ok then Some w else None.
Proof.
  intros Hv Hl. unfold Unmarshal. rewrite (parse_printed (levels t)); [done|by apply encode_printable|].
  unfold maxNestingDepth. lia.
Qed.

(** ** The fuel is enough *)

Lemma skip_length b : (length (skip b) <= length b)%nat.
Proof. induction b as [|c b IH]; [done|]. cbn. destruct (isSpace c); cbn; lia. Qed.

Lemma hex4_length b r rest : hex4 b = Some (r, rest) -> (length rest < length b)%nat.
Proof.
  unfold hex4. destruct b as [|c0 [|c1 [|c2 [|c3 b]]]]; try done.
  repeat case_match; try done. intros [= _ <-]. cbn. lia.
Qed.

Lemma low_surrogate_length b r rest : low_surrogate b = Some (r, rest) -> (length rest < length b)%nat.
Proof.
  unfold low_surrogate. destruct b as [|c [|u b]]; try done. case_match; [|done].
  destruct (hex4 b) as [[r' b']|] eqn:E; [|done]. apply hex4_length in E. case_match; [|done]. intros [= _ <-]. cbn. lia.
Qed.

Lemma unescape_length b d rest : unescape b = Some (d, rest) -> (length rest < length b)%nat.
Proof.
  unfold unescape. destruct b as [|c b]; [done|].
  do 6 (case_match; [intros [= _ <-]; cbn; lia|]). case_match; [|done].
  unfold unicode_escape. destruct (hex4 b) as [[r b1]|] eqn:E; [|done]. apply hex4_length in E.
  case_match; [|intros [= _ <-]; cbn; lia].
  destruct (if r <=? 56319 then low_surrogate b1 else None) as [[lo b2]|] eqn:El; intros [= _ <-]; [|cbn; lia].
  destruct (r <=? 56319); [|done]. apply low_surrogate_length in El. cbn. lia.
Qed.

Lemma string_step_length c b' : (length (snd (string_step c b')) <= length b')%nat.
Proof.
  unfold string_step. destruct (c == backslash).
  { destruct (unescape b') as [[d rest]|] eqn:E; cbn; [apply unescape_length in E; lia|lia]. }
  destruct (code c <? 128); [done|]. destruct (rune_size (c :: b')); [done|]. cbn. rewrite length_drop. lia.
Qed.

Lemma string_body_fuel n m b : (length b <= n)%nat -> (length b <= m)%nat -> string_body n b = string_body m b.
Proof.
  revert m b. induction n as [|n IH]; intros m b Hn Hm.
  { destruct b; [|cbn in Hn; lia]. by destruct m. }
  destruct b as [|c b']; [by destruct m|]. destruct m as [|m]; [cbn in Hm; lia|]. cbn [length] in *. cbn [string_body].
  destruct (c == quote_char); [done|]. destruct (code c <? 32); [done|].
  pose proof (string_step_length c b') as Hl.
  destruct (string_step c b') as [d rest]. cbn [snd] in Hl. rewrite (IH m rest) by lia. done.
Qed.

Lemma string_body_length n b s rest : string_body n b = Some (s, rest) -> (length rest < length b)%nat.
Proof.
  revert b s rest. induction n as [|n IH]; intros b s rest; [done|]. destruct b as [|c b']; [done|]. cbn [string_body].
  destruct (c == quote_char); [intros [= _ <-]; cbn; lia|]. destruct (code c <? 32); [done|].
  pose proof (string_step_length c b') as Hl.
  destruct (string_step c b') as [d r]. cbn [snd] in Hl. destruct d as [d|]; [|done].
  destruct (string_body n r) as [[s' r']|] eqn:E; [|done]. intros [= _ <-]. apply IH in E. cbn. lia.
Qed.

Lemma digits_length b : (length (fst (digits b)) + length (snd (digits b)) = length b)%nat.
Proof. induction b as [|c b IH]; [done|]. cbn. destruct (is_digit c); [|done]. destruct (digits b). cbn in *. lia. Qed.

Lemma some_digits_length b ds rest : some_digits b = Some (ds, rest) -> (length rest < length b)%nat.
Proof.
  unfold some_digits. pose proof (digits_length b) as H. destruct (digits b) as [[|d l] r]; [done|].
  intros [= _ <-]. cbn in H. lia.
Qed.

Lemma number_length b lit rest : number b = Some (lit, rest) -> (length rest < length b)%nat.
Proof.
  unfold number. intros H.
  assert (Hm : exists minus b0, (length b0 <= length b)%nat /\
            ('(i, b1) ← integer_part b0; '(f, b2) ← fraction b1; '(e, b3) ← exponent b2; Some (minus ++ i ++ f ++ e, b3)) = Some (lit, rest)).
  { destruct b as [|c b']; [by exists [], []|]. destruct (c == "-"%char); eexists _, _; (split; [|exact H]); cbn; lia. }
  clear H. destruct Hm as (minus & b0 & Hl & H).
  destruct (integer_part b0) as [[i b1]|] eqn:Ei; [|done]. cbn [mbind option_bind] in H.
  destruct (fraction b1) as [[f b2]|] eqn:Ef; [|done]. cbn [mbind option_bind] in H.
  destruct (exponent b2) as [[e b3]|] eqn:Ee; [|done]. injection H as _ <-.
  assert (H1 : (length b1 < length b0)%nat).
  { destruct b0 as [|c0 b0']; [done|]. cbn [integer_part] in Ei. destruct (c0 == "0"%char).
    - injection Ei as _ <-. cbn. lia.
    - by apply some_digits_length in Ei. }
  assert (H2 : (length b2 <= length b1)%nat).
  { destruct b1 as [|c1 b1']; cbn [fraction] in Ef; [by injection Ef as _ <-|]. destruct (c1 == "."%char); [|by injection Ef as _ <-].
    destruct (some_digits b1') as [[ds r]|] eqn:E; [|done]. injection Ef as _ <-. apply some_digits_length in E. cbn. lia. }
  assert (H3 : (length b3 <= length b2)%nat).
  { destruct b2 as [|c2 b2']; cbn [exponent] in Ee; [by injection Ee as _ <-|]. case_match; [|by injection Ee as _ <-].
    destruct (sign b2') as [sg r1] eqn:Es. destruct (some_digits r1) as [[ds r]|] eqn:E; [|done]. injection Ee as _ <-.
    apply some_digits_length in E. assert ((length r1 <= length b2')%nat); [|cbn; lia].
    unfold sign in Es. destruct b2' as [|z ?]; [by injection Es as _ <-|]. case_match; injection Es as _ <-; cbn; lia. }
  lia.
Qed.

Lemma literal_length w b rest : w <> [] -> literal w b = Some rest -> b <> [] -> (length rest < length b)%nat.
Proof.
  unfold literal. case_match; [|done]. intros Hw [= <-] Hb. rewrite length_drop. destruct w, b; cbn; try done. lia.
Qed.

(** Collect what is known of the lengths of what is left. *)
Ltac shorter IHv IHe IHm :=
  repeat match goal with
  | H : string_body _ _ = Some _ |- _ => apply string_body_length in H
  | H : value _ _ _ = Some _ |- _ => apply IHv in H
  | H : elements _ _ _ = Some _ |- _ => apply IHe in H
  | H : members _ _ _ = Some _ |- _ => apply IHm in H
  | H : number _ = Some _ |- _ => apply number_length in H
  | H : literal _ _ = Some _ |- _ => apply literal_length in H; [|done|done]
  | H : skip ?b = _ |- _ => let K := fresh in pose proof (skip_length b) as K; rewrite H in K; clear H
  | _ : context [length (skip ?b)] |- _ => pose proof (skip_length b); generalize dependent (length (skip b)); intros
  end; cbn in *; lia.

Ltac cases := repeat case_match; unfold mbind, option_bind in *; repeat case_match; try done.

(** Reading takes at least one character. *)
Lemma value_length n :
  (forall d b j rest, value n d b = Some (j, rest) -> (length rest < length b)%nat)
  /\ (forall d b l rest, elements n d b = Some (l, rest) -> (length rest < length b)%nat)
  /\ (forall d b l rest, members n d b = Some (l, rest) -> (length rest < length b)%nat).
Proof.
  induction n as [|n (IHv & IHe & IHm)]; [split_and!; intros; by destruct b|]. split_and!.
  - intros d b j rest. destruct b as [|c b']; [done|]. cbn [value]. cases; intros [= _ <-]; shorter IHv IHe IHm.
  - intros d b l rest. cbn [elements]. cases; intros [= _ <-]; shorter IHv IHe IHm.
  - intros d b l rest. destruct b as [|q b']; [done|]. cbn [members]. cases; intros [= _ <-]; shorter IHv IHe IHm.
Qed.

(** Any two amounts of fuel that are enough agree. *)
Definition same_upto (k : nat) : Prop :=
  (forall n m d b, (length b <= k -> 2 * length b < n -> 2 * length b < m -> value n d b = value m d b)%nat)
  /\ (forall n m d b, (length b <= k -> 2 * length b + 1 < n -> 2 * length b + 1 < m -> elements n d b = elements m d b)%nat)
  /\ (forall n m d b, (length b <= k -> 2 * length b + 1 < n -> 2 * length b + 1 < m -> members n d b = members m d b)%nat).

Lemma same_value k :
  (forall k', (k' < k)%nat -> same_upto k') ->
  forall n m d b, (length b <= k -> 2 * length b < n -> 2 * length b < m -> value n d b = value m d b)%nat.
Proof.
  intros IH n m d b Hb Hn Hm. destruct n as [|n], m as [|m]; [lia..|]. destruct b as [|c b']; [done|].
  cbn [length] in *. cbn [value]. pose proof (skip_length b') as Hs.
  destruct (skip b') as [|c1 r]; [done|]. destruct (IH (length (c1 :: r)) ltac:(lia)) as (_ & He & Hm').
  cbn [length] in *. rewrite (He n m), (Hm' n m) by (cbn; lia). done.
Qed.

Lemma value_same k : same_upto k.
Proof.
  induction k as [k IH] using lt_wf_ind. pose proof (same_value k IH) as Hv. split; [done|]. split.
  - intros n m d b Hb Hn Hm. destruct n as [|n], m as [|m]; [lia..|]. cbn [elements].
    rewrite (Hv n m) by lia. destruct (value m d b) as [[j rest]|] eqn:E; [|done]. cbn [mbind option_bind].
    apply value_length in E. pose proof (skip_length rest) as Hs. destruct (skip rest) as [|c r]; [done|]. cbn in Hs.
    pose proof (skip_length r) as Hr.
    destruct (IH (length (skip r)) ltac:(lia)) as (_ & He & _). rewrite (He n m) by lia. done.
  - intros n m d b Hb Hn Hm. destruct n as [|n], m as [|m]; [lia..|]. destruct b as [|q b']; [done|]. cbn [members length] in *.
    destruct (negb _); [done|]. destruct (string_body _ b') as [[s r1]|] eqn:Es; [|done]. cbn [mbind option_bind].
    apply string_body_length in Es. pose proof (skip_length r1) as Hs. destruct (skip r1) as [|c0 r2]; [done|]. cbn in Hs.
    destruct (negb _); [done|]. pose proof (skip_length r2) as Hs2.
    rewrite (Hv n m) by lia. destruct (value m d (skip r2)) as [[j rest]|] eqn:E; [|done]. cbn [mbind option_bind].
    apply value_length in E. pose proof (skip_length rest) as Hs3. destruct (skip rest) as [|c r]; [done|]. cbn in Hs3.
    pose proof (skip_length r) as Hr.
    destruct (IH (length (skip r)) ltac:(lia)) as (_ & _ & Hmem). rewrite (Hmem n m) by lia. done.
Qed.

(** More fuel than [fuel_for] changes nothing. *)
Lemma value_fuel n d b : (fuel_for b <= n)%nat -> value n d b = value (fuel_for b) d b.
Proof. intros H. unfold fuel_for in *. by apply (value_same (length b)); lia. Qed.

(** ** What the encoder prints *)

Lemma join_visible xs : Forall visible xs -> visible (join xs).
Proof.
  induction 1 as [|x xs Hx Hxs IH]; [constructor|]. destruct xs as [|y ys]; [done|]. rewrite join_cons.
  apply Forall_app. split; [done|]. constructor; [vm_compute; discriminate|done].
Qed.

Lemma digits_visible s : forallb is_digit s = true -> visible s.
Proof.
  rewrite forallb_forall, <- List.Forall_forall. intros H. eapply Forall_impl; [exact H|]. intros c Hc.
  unfold is_digit, between in Hc. go_bools. lia.
Qed.

Lemma format_int_visible n : visible (of_string (format_int n)).
Proof.
  unfold format_int. destruct (n =? 0); [by apply visible_dec|]. destruct (Z.ltb_spec n 0).
  - apply List.Forall_cons; [vm_compute; discriminate|].
    apply digits_visible, decimal_digits, strconv.digits_decimal; [lia|done].
  - apply digits_visible, decimal_digits, strconv.digits_decimal; [lia|done].
Qed.

Lemma encode_visible :
  (forall t v, visible (print (encode t v)))
  /\ (forall fs s, Forall visible (map member_text (encode_fields fs s))).
Proof.
  apply ty_fields_ind; cbn [interp struct_of encode encode_fields].
  - intros s. apply quote_visible.
  - intros []; by apply visible_dec.
  - intros lo hi n. apply format_int_visible.
  - intros r. by apply visible_dec.
  - intros t IH [x|]; [apply IH|by apply visible_dec].
  - intros t IH [[xs sp]|]; [|by apply visible_dec]. cbn [print]. constructor; [vm_compute; discriminate|].
    apply Forall_app. split; [|by apply visible_dec]. apply join_visible. rewrite !List.Forall_map.
    apply List.Forall_forall. intros x _. apply IH.
  - intros fs IH s. cbn [print]. constructor; [vm_compute; discriminate|].
    apply Forall_app. split; [|by apply visible_dec]. apply join_visible, IH.
  - intros s. constructor.
  - intros name om t IHt fs IHfs [x s]. cbn [fst snd]. destruct (om && is_empty t x); [apply IHfs|].
    cbn [map]. constructor; [|apply IHfs]. unfold member_text. cbn [fst snd with_text].
    apply Forall_app. split; [apply quote_visible|]. constructor; [vm_compute; discriminate|apply IHt].
Qed.

Lemma digits_loop_length fuel n acc : (String.length (digits_loop fuel n acc) <= fuel + String.length acc)%nat.
Proof.
  revert n acc. induction fuel as [|f IH]; intros n acc; cbn [digits_loop]; [lia|]. destruct (0 <? n); [|lia].
  etransitivity; [apply IH|]. cbn. lia.
Qed.

Lemma of_string_length s : length (of_string s) = String.length s.
Proof. induction s as [|c s IH]; [done|]. cbn. f_equal. exact IH. Qed.

Lemma format_int_length n : (length (of_string (format_int n)) <= 21)%nat.
Proof.
  rewrite of_string_length. unfold format_int. destruct (n =? 0); [cbn; lia|]. destruct (n <? 0).
  - pose proof (digits_loop_length 20 (- n) "") as H. cbn [String.length] in H.
    change ("-" +:+ ?s) with (String "-" s). cbn [String.length]. lia.
  - pose proof (digits_loop_length 20 n "") as H. cbn [String.length] in H. lia.
Qed.

(** The text of an object is delimited by braces. *)
Lemma print_object ms : exists b, print (Obj ms) = "{"%char :: b ++ ["}"%char].
Proof. by eexists. Qed.


(** ** Keys no field answers to *)

Fixpoint unselected (exact : bool) (fs : fields) (key : bytes) : bool :=
  match fs with
  | FNil => true
  | FCons name _ _ fs => negb (selects exact name key) && unselected exact fs key
  end.

Lemma set_unselected exact fs key raw j s : unselected exact fs key = true -> set_field fs exact key raw j s = (true, s).
Proof.
  revert s. induction fs as [|name om t fs IH]; intros s H; [done|]. destruct s as [x s]. cbn [unselected] in H. go_bools.
  cbn [set_field]. rewrite H. cbn [snd fst]. by rewrite IH.
Qed.

(** A member no field answers to is skipped. *)
Lemma decode_skip fs raw key m ms s :
  unselected (has_field fs key) fs key = true ->
  decode (TStruct fs) raw (Obj ((key, m) :: ms)) s = decode (TStruct fs) raw (Obj ms) s.
Proof.
  intros H. destruct m as [r j]. cbn [decode decode_members]. rewrite set_unselected by done.
  match goal with |- context [decode_members ?f ms s] => by destruct (decode_members f ms s) end.
Qed.


(** ** A type that reads less

    [t'] reads less than [t] along [p] when decoding at [t'] ends in the
    projection of what decoding at [t] ends in, and fails only where that fails. *)

Definition follows {A B} (p : A -> B) (x : bool * A) (y : bool * B) : Prop :=
  snd y = p (snd x) /\ (fst x = true -> fst y = true).

Definition reads_less (t t' : ty) (p : interp t -> interp t') : Prop :=
  forall raw j v, follows p (decode t raw j v) (decode t' raw j (p v)).

Lemma reads_same t : reads_less t t id.
Proof. by intros raw j v. Qed.

Definition map_slice {A B} (p : A -> B) (s : slice A) : slice B :=
  option_map (fun x => (map p (fst x), map p (snd x))) s.

Lemma items_less {A B} (p : A -> B) d d' z z' items cells :
  (forall raw j v, follows p (d raw j v) (d' raw j (p v))) -> p z = z' ->
  let '(ok, xs, sp) := decode_items d z items cells in
  let '(ok', xs', sp') := decode_items d' z' items (map p cells) in
  xs' = map p xs /\ sp' = map p sp /\ (ok = true -> ok' = true).
Proof.
  intros Hd Hz. revert cells. induction items as [|[raw j] items IH]; intros cells; [done|]. cbn [decode_items].
  assert (Hc : exists c cs, (match cells with c :: cs => (c, cs) | [] => (z, []) end) = (c, cs)
                /\ (match map p cells with c :: cs => (c, cs) | [] => (z', []) end) = (p c, map p cs)).
  { destruct cells as [|c cs]; [exists z, []; by rewrite Hz|by exists c, cs]. }
  destruct Hc as (c & cs & -> & ->). specialize (Hd raw j c). specialize (IH cs).
  destruct (d raw j c) as [ok x], (d' raw j (p c)) as [ok' x']. destruct Hd as [Hx Hok]. cbn [fst snd] in *. subst x'.
  destruct (decode_items d z items cs) as [[oks xs] sp], (decode_items d' z' items (map p cs)) as [[oks' xs'] sp'].
  destruct IH as (-> & -> & Hoks). split_and!; [done|done|]. intros [? ?]%andb_true_iff. apply andb_true_iff. auto.
Qed.

Lemma slice_less t t' p : reads_less t t' p -> p (zero t) = zero t' -> reads_less (TSlice t) (TSlice t') (map_slice p).
Proof.
  intros Hp Hz raw j v. destruct j as [| | | |[|i items]|]; try done. cbn [decode].
  pose proof (items_less p (decode t) (decode t') (zero t) (zero t') (i :: items)
                (match v with Some (xs, spare) => xs ++ spare | None => [] end) Hp Hz) as H.
  assert (E : map p (match v with Some (xs, spare) => xs ++ spare | None => [] end)
              = match map_slice p v with Some (xs, spare) => xs ++ spare | None => [] end).
  { destruct v as [[xs sp]|]; [apply map_app|done]. }
  cbn [interp] in *. rewrite E in H.
  destruct (decode_items (decode t) _ _ _) as [[ok xs] sp], (decode_items (decode t') _ _ _) as [[ok' xs'] sp'].
  destruct H as (-> & -> & Hok). by split.
Qed.

Lemma struct_less fs fs' (p : struct_of fs -> struct_of fs') :
  (forall key raw j s, follows p (set_field fs (has_field fs key) key raw j s)
                         (set_field fs' (has_field fs' key) key raw j (p s))) ->
  reads_less (TStruct fs) (TStruct fs') p.
Proof.
  intros H raw j v. destruct j as [| | | | |ms]; try done. cbn [decode]. revert v.
  induction ms as [|[key [r x]] ms IH]; intros v; [done|]. cbn [decode_members]. specialize (H key r x v).
  destruct (set_field fs _ _ _ _ v) as [ok s], (set_field fs' _ _ _ _ (p v)) as [ok' s']. destruct H as [Hs Hok].
  cbn [fst snd] in *. subst s'. specialize (IH s).
  destruct (decode_members _ ms s) as [oks s2], (decode_members _ ms (p s)) as [oks' s2']. destruct IH as [Hs2 Hoks].
  cbn [fst snd] in *. split; [done|]. intros [? ?]%andb_true_iff. cbn. apply andb_true_iff. auto.
Qed.


End json_facts.
