(* ===== verification/Dashboards.v ===== *)
(** * The embedded dashboards (internal/observability/dashboards.go, cmd/main.go)

    Reading the dashboards out of the binary and publishing them as ConfigMaps.
    The embedded directory and the text of a decoding error are parameters;
    applying a ConfigMap acts on a world. *)

From stdpp Require Import sorting.
From S2P Require Import Prelude GoFmt GoStrings GoJson Naming.
Local Open Scope Z_scope.
Local Open Scope go_scope.

Module dashboards.

Record Dashboard := MkDashboard { d_Key : string; d_Name : string; d_JSON : string; d_UID : string }.

Definition dashboardDir : string := "dashboards".
Definition dashboardNamePrefix : string := naming.AppName +:+ "-dashboard-".

(** A file of the embedded directory; reading it may fail. *)
Record Entry := MkEntry { e_Name : string; e_IsDir : bool; e_Body : string + string }.

(** [strings.HasSuffix(s, ".json")] and [strings.TrimSuffix]: the stem, if it has
    the suffix. *)
Fixpoint json_stem (s : string) : option string :=
  if s == ".json" then Some ""
  else match s with EmptyString => None | String c s' => String c <$> json_stem s' end.

Record Head := MkHead { h_UID : string; h_Title : string }.

Record ConfigMap := MkConfigMap {
  m_Name : string; m_Namespace : string; m_Labels : gmap string string; m_Annotations : gmap string string;
  m_Data : gmap string string }.

Definition DashboardConfigMap (d : Dashboard) (namespace : string) : ConfigMap :=
  MkConfigMap (d_Name d) namespace
    (<[naming.LabelName := naming.AppName]> (<[naming.LabelManagedBy := naming.ManagedBy]>
      (<[naming.LabelComponent := "dashboard"]>
        (<[naming.GrafanaDashboardLabel := naming.GrafanaDashboardValue]> ∅))))
    {[naming.GrafanaFolderAnnotation := naming.GrafanaFolder]}
    {[d_Key d := d_JSON d]}.

Definition key_le (a b : Dashboard) : Prop := gostrings.str_le (d_Key a) (d_Key b).
#[global] Instance key_le_dec a b : Decision (key_le a b) := decide (gostrings.str_le (d_Key a) (d_Key b)).

Section Dashboards.
(** [fs.ReadDir] of the embedded directory; the text of an error of
    [json.Unmarshal]. *)
Context (ReadDir : list Entry + string) (json_error : string -> string).

Definition head_t : json.ty :=
  json.TStruct (json.FCons "uid" false json.TString (json.FCons "title" false json.TString json.FNil)).

Definition Unmarshal (body : string) : Head + string :=
  match json.Unmarshal head_t (json.of_string body) with
  | Some v => inl (MkHead (fst v) (fst (snd v)))
  | None => inr (json_error body)
  end.

Definition dashboardUID (body : string) : string + string :=
  match Unmarshal body with
  | inr e => inr ("not valid JSON: " +:+ e)
  | inl head =>
      if h_UID head == "" then
        inr ("has no top-level " +:+ gofmt.Quote "uid" +:+ "; Grafana keys dashboards on it, "
             +:+ "so without one every redeploy creates a duplicate instead of an update")
      else if h_Title head == "" then inr ("has no top-level " +:+ gofmt.Quote "title")
      else inl (h_UID head)
  end.

Fixpoint read_all (entries : list Entry) : list Dashboard + string :=
  match entries with
  | [] => inl []
  | e :: entries' =>
      match (if e_IsDir e then None else json_stem (e_Name e)) with
      | None => read_all entries'
      | Some stem =>
          match e_Body e with
          | inr err => inr ("reading dashboard " +:+ e_Name e +:+ ": " +:+ err)
          | inl body =>
              match dashboardUID body with
              | inr err => inr ("dashboard " +:+ e_Name e +:+ ": " +:+ err)
              | inl uid =>
                  match read_all entries' with
                  | inr err => inr err
                  | inl ds => inl (MkDashboard (e_Name e) (dashboardNamePrefix +:+ stem) body uid :: ds)
                  end
              end
          end
      end
  end.

Definition Dashboards : list Dashboard + string :=
  match ReadDir with
  | inr e => inr ("reading embedded dashboards: " +:+ e)
  | inl entries => match read_all entries with inr e => inr e | inl ds => inl (merge_sort key_le ds) end
  end.

Context {W : Type} (Apply : W -> ConfigMap -> W * option string).

(** The loop of [InstallDashboards]: the world, the ConfigMaps applied with
    success, and the error that ended it. *)
Fixpoint install_loop (w : W) (namespace : string) (ds : list Dashboard) : W * (list ConfigMap * option string) :=
  match ds with
  | [] => (w, ([], None))
  | d :: ds' =>
      let cm := DashboardConfigMap d namespace in
      match Apply w cm with
      | (w, Some e) => (w, ([], Some ("applying dashboard " +:+ d_Name d +:+ ": " +:+ e)))
      | (w, None) => let '(w, (applied, err)) := install_loop w namespace ds' in (w, (cm :: applied, err))
      end
  end.

Definition InstallDashboards (w : W) (namespace : string) : W * (list ConfigMap * option string) :=
  match Dashboards with
  | inr e => (w, ([], Some e))
  | inl ds => install_loop w namespace ds
  end.

(** [dashboardInstaller.Start]: a failure is logged and never returned. *)
Definition Start (w : W) (namespace : string) : W * option string := (fst (InstallDashboards w namespace), None).

(** ** Properties *)

(** The JSON files of a directory. *)
Definition json_files (entries : list Entry) : list string :=
  map e_Name (List.filter (fun e => negb (e_IsDir e) && negb (is_nil (json_stem (e_Name e)))) entries).

Lemma json_stem_spec s t : json_stem s = Some t -> s = t +:+ ".json".
Proof.
  revert t. induction s as [|c s IH]; intros t; cbn [json_stem].
  - rewrite bool_decide_eq_false_2 by done. done.
  - destruct (bool_decide (String c s = ".json")) eqn:E; [intros [= <-]; by go_bools|].
    destruct (json_stem s) as [t'|] eqn:Es; [|done]. cbn. intros [= <-]. by rewrite (IH t' eq_refl) at 1.
Qed.

(** What each dashboard read is made of. *)
Definition from_file (d : Dashboard) : Prop :=
  exists stem, d_Key d = stem +:+ ".json" /\ d_Name d = dashboardNamePrefix +:+ stem /\ d_UID d <> "".

Lemma dashboardUID_nonempty body uid : dashboardUID body = inl uid -> uid <> "".
Proof.
  unfold dashboardUID. destruct (Unmarshal body) as [h|]; [|done].
  destruct (bool_decide (h_UID h = "")) eqn:E; [done|]. destruct (bool_decide (h_Title h = "")); [done|]. intros H. injection H as <-. by go_bools.
Qed.

Lemma read_all_spec entries ds :
  read_all entries = inl ds -> map d_Key ds = json_files entries /\ Forall from_file ds.
Proof.
  revert ds. induction entries as [|e entries IH]; intros ds; cbn [read_all].
  { intros [= <-]. done. }
  unfold json_files in *. cbn [List.filter]. destruct (e_IsDir e); cbn [negb andb]; [apply IH|].
  destruct (json_stem (e_Name e)) as [stem|] eqn:Es; cbn [is_nil negb]; [|apply IH].
  destruct (e_Body e) as [body|]; [|done]. destruct (dashboardUID body) as [uid|] eqn:Eu; [|done].
  destruct (read_all entries) as [ds'|]; [|done]. intros [= <-]. destruct (IH ds' eq_refl) as [H1 H2]. cbn. split; [by rewrite H1|].
  constructor; [|done]. exists stem. split; [by apply json_stem_spec|]. split; [done|]. by eapply dashboardUID_nonempty.
Qed.

Lemma install_prefix w namespace ds :
  let '(_, (applied, err)) := install_loop w namespace ds in
  applied `prefix_of` map (fun d => DashboardConfigMap d namespace) ds
  /\ (err = None -> applied = map (fun d => DashboardConfigMap d namespace) ds).
Proof.
  revert w. induction ds as [|d ds IH]; intros w; cbn [install_loop map]; [done|].
  destruct (Apply w _) as [w1 [e|]]; [split; [apply prefix_nil|done]|].
  specialize (IH w1). destruct (install_loop w1 namespace ds) as [w2 [applied err]]. destruct IH as [H1 H2].
  split; [by apply prefix_cons|]. intros He. by rewrite (H2 He).
Qed.

#[local] Instance key_le_total : Total key_le.
Proof. intros a b. unfold key_le. apply (total gostrings.str_le). Qed.
#[local] Instance key_le_trans : Transitive key_le.
Proof. intros a b c. unfold key_le. apply (transitivity (R := gostrings.str_le)). Qed.

(** Publishing the dashboards never stops the operator and is orderly.
    Whatever the embedded files and the API server do, the installer returns no
    error; what it applied is an initial part, all of it without an error, of one
    ConfigMap per JSON file, in the order of the file names, each named after its
    file, carrying the label the Grafana sidecar looks for, and holding a
    dashboard with an identity. *)
Theorem dashboards_published w namespace :
  snd (Start w namespace) = None
  /\ let '(_, (applied, err)) := InstallDashboards w namespace in
     match Dashboards with
     | inr e => applied = [] /\ err = Some e
     | inl ds =>
         StronglySorted key_le ds /\ Forall from_file ds
         /\ (exists entries, ReadDir = inl entries /\ map d_Key ds ≡ₚ json_files entries)
         /\ applied `prefix_of` map (fun d => DashboardConfigMap d namespace) ds
         /\ (err = None -> applied = map (fun d => DashboardConfigMap d namespace) ds)
         /\ Forall (fun m => m_Labels m !! naming.GrafanaDashboardLabel = Some "1" /\ m_Namespace m = namespace) applied
     end.
Proof.
  split; [done|]. unfold InstallDashboards. destruct Dashboards as [ds|e] eqn:Ed; [|done].
  pose proof (install_prefix w namespace ds) as Hp.
  destruct (install_loop w namespace ds) as [w' [applied err]]. destruct Hp as [H1 H2].
  unfold Dashboards in Ed. destruct ReadDir as [entries|]; [|done]. destruct (read_all entries) as [ds0|] eqn:Er; [|done].
  injection Ed as <-. destruct (read_all_spec entries ds0 Er) as [K1 K2].
  pose proof (merge_sort_Permutation key_le ds0) as Hperm. split_and!; try done.
  - apply StronglySorted_merge_sort; apply _.
  - by rewrite Hperm.
  - exists entries. split; [done|]. rewrite <- K1. by apply Permutation_map.
  - destruct H1 as [rest H1]. assert (Hall : Forall (fun m => m_Labels m !! naming.GrafanaDashboardLabel = Some "1" /\ m_Namespace m = namespace)
        (map (fun d => DashboardConfigMap d namespace) (merge_sort key_le ds0))).
    { apply Forall_map, Forall_true. intros d. split; [|done]. vm_compute. done. }
    rewrite H1 in Hall. by apply Forall_app in Hall as [? _].
Qed.
End Dashboards.

Definition resolveDashboardNamespace (flagValue : string) (getenv : string -> string) : string :=
  if flagValue != "" then flagValue
  else if getenv "POD_NAMESPACE" != "" then getenv "POD_NAMESPACE" else "llmcp-system".

End dashboards.
