(* ===== verification/GoMime.v ===== *)
(** * [mime.ParseMediaType], [strings.ToLower] and [time.ParseDuration]

    The parts of Go's standard library the shim reads headers and flags with.  A
    header is compared with ASCII names only, so lower case is modelled as far as
    it can produce ASCII: the ASCII capitals and the two other runes whose lower
    case is an ASCII letter. *)

From S2P Require Import Prelude GoFloat GoFmt GoStrings GoStrconv GoJson ShimSSE.
Local Open Scope Z_scope.
Local Open Scope go_scope.

Module mime.
Import sse.

Definition code (c : ascii) : Z := Z.of_N (Ascii.N_of_ascii c).

Definition lower_rune (r : json.Rune) : bytes :=
  match r with
  | json.Ascii_ c => if (65 <=? code c) && (code c <=? 90) then [Ascii.ascii_of_N (Z.to_N (code c + 32))] else [c]
  | json.Multi s =>
      if s == map json.chr [226; 132; 170] then ["k"%char]
      else if s == map json.chr [196; 176] then ["i"%char]
      else s
  | json.Invalid => json.replacement
  end.

Definition ToLower (b : bytes) : bytes := concat (map lower_rune (json.runes b)).

(** The separators of RFC 1521 and RFC 2045. *)
Definition tspecials : bytes := of_string "()<>@,;:\/[]?=" ++ [json.quote_char].

Definition isTSpecial (c : ascii) : bool := bool_decide (c ∈ tspecials).

Definition isTokenChar (c : ascii) : bool := (33 <=? code c) && (code c <=? 126) && negb (isTSpecial c).

Fixpoint consumeToken (v : bytes) : bytes * bytes :=
  match v with
  | c :: v' => if isTokenChar c then let '(t, rest) := consumeToken v' in (c :: t, rest) else ([], v)
  | [] => ([], [])
  end.

(** A quoted string after its opening quote; [None] when it does not end. *)
Fixpoint quoted (v : bytes) : option (bytes * bytes) :=
  match v with
  | [] => None
  | r :: v' =>
      if r == json.quote_char then Some ([], v')
      else
        match v' with
        | c :: v'' =>
            if (r == json.backslash) && isTSpecial c
            then '(s, rest) ← quoted v''; Some (c :: s, rest)
            else if (r == cr) || (r == nl) then None
            else '(s, rest) ← quoted v'; Some (r :: s, rest)
        | [] => None
        end
  end.

Definition consumeValue (v : bytes) : bytes * bytes :=
  match v with
  | [] => ([], [])
  | c :: v' =>
      if c == json.quote_char then match quoted v' with Some r => r | None => ([], v) end
      else consumeToken v
  end.

(** [strings.TrimLeftFunc(v, unicode.IsSpace)]. *)
Definition trimLeft (v : bytes) : bytes := trim_front (length v) spaces v.

(** What follows a character expected after white space. *)
Definition after (c : ascii) (v : bytes) : option bytes :=
  match trimLeft v with
  | x :: v' => if x == c then Some (trimLeft v') else None
  | [] => None
  end.

(** [consumeMediaParam]: the name, the value and the rest. *)
Definition consumeMediaParam (v : bytes) : option (bytes * bytes * bytes) :=
  rest ← after ";"%char v;
  let '(param, rest) := consumeToken rest in
  if bool_decide (param = []) then None
  else
    rest ← after "="%char rest;
    let '(value, rest2) := consumeValue rest in
    if bool_decide (value = []) && bool_decide (rest2 = rest) then None
    else Some (ToLower param, value, rest2).

(** The loop over the parameters: whether they are well formed, and whether a
    name is given two values. *)
Inductive Params := ParamsOk | InvalidParameter | DuplicateName.

Fixpoint parse_params (fuel : nat) (params : list (bytes * bytes)) (v : bytes) : Params :=
  match fuel with
  | O => ParamsOk
  | S n =>
      let v := trimLeft v in
      if bool_decide (v = []) then ParamsOk
      else
        match consumeMediaParam v with
        | None => if bool_decide (TrimSpace v = of_string ";") then ParamsOk else InvalidParameter
        | Some (key, value, rest) =>
            match List.find (fun p => bool_decide (fst p = key)) params with
            | Some (_, value') =>
                if bool_decide (value' = value) then parse_params n params rest else DuplicateName
            | None => parse_params n ((key, value) :: params) rest
            end
        end
  end.

Fixpoint cut_semicolon (v : bytes) : bytes * bytes :=
  match v with
  | c :: v' => if c == ";"%char then ([], v) else let '(b, rest) := cut_semicolon v' in (c :: b, rest)
  | [] => ([], [])
  end.

(** [checkMediaTypeDisposition]: a token, or two with a slash. *)
Definition media_type_ok (s : bytes) : bool :=
  match consumeToken s with
  | ([], _) => false
  | (_, []) => true
  | (_, c :: rest) =>
      if c == "/"%char then
        match consumeToken rest with
        | ([], _) => false
        | (_, rest') => bool_decide (rest' = [])
        end
      else false
  end.

(** [mime.ParseMediaType]: the media type and whether there was an error. *)
Definition ParseMediaType (header : string) : string * bool :=
  let v := of_string header in
  let '(base, rest) := cut_semicolon v in
  let mediatype := TrimSpace (ToLower base) in
  if negb (media_type_ok mediatype) then ("", true)
  else
    match parse_params (S (length rest)) [] rest with
    | ParamsOk => (json.to_string mediatype, false)
    | InvalidParameter => (json.to_string mediatype, true)
    | DuplicateName => ("", true)
    end.

(** [strings.EqualFold] of two ASCII strings. *)
Definition EqualFold (a b : string) : bool := bool_decide (strconv.ascii_lower a = strconv.ascii_lower b).

End mime.

Module duration.
Import strconv.

(** [1<<63]. *)
Definition limit : Z := 9223372036854775808.

Definition is_digit (c : ascii) : bool := (48 <=? code c) && (code c <=? 57).

(** [leadingInt]: [None] on overflow. *)
Fixpoint leadingInt (x : Z) (s : string) : option (Z * string) :=
  match s with
  | String c s' =>
      if is_digit c then
        if limit / 10 <? x then None
        else
          let x := x * 10 + (code c - 48) in
          if limit <? x then None else leadingInt x s'
      else Some (x, s)
  | EmptyString => Some (x, s)
  end.

(** [leadingFraction]: digits past what fits are dropped. *)
Fixpoint leadingFraction (x scale : Z) (overflow : bool) (s : string) : Z * Z * string :=
  match s with
  | String c s' =>
      if is_digit c then
        if overflow then leadingFraction x scale true s'
        else if (limit - 1) / 10 <? x then leadingFraction x scale true s'
        else
          let y := x * 10 + (code c - 48) in
          if limit <? y then leadingFraction x scale true s'
          else leadingFraction y (scale * 10) false s'
      else (x, scale, s)
  | EmptyString => (x, scale, s)
  end.

(** The unit: up to a point or a digit. *)
Fixpoint cut_unit (s : string) : string * string :=
  match s with
  | String c s' => if (c == "."%char) || is_digit c then ("", s) else let '(u, rest) := cut_unit s' in (String c u, rest)
  | EmptyString => ("", s)
  end.

Definition micro (a b : Z) : string := json.to_string (map json.chr [a; b]) +:+ "s".

Definition unitMap (u : string) : option Z :=
  if u == "ns" then Some 1
  else if (u == "us") || (u == micro 194 181) || (u == micro 206 188) then Some 1000
  else if u == "ms" then Some 1000000
  else if u == "s" then Some time.Second
  else if u == "m" then Some time.Minute
  else if u == "h" then Some time.Hour
  else None.

Definition wrapu64 (z : Z) : Z := z mod 18446744073709551616.

(** [uint64(float64(f) * (float64(unit) / scale))]. *)
Definition fraction_ns (f scale unit : Z) : Z :=
  f64.to_int64 (f64.mul (f64.of_Z f) (f64.div (f64.of_Z unit) (f64.of_Z scale))).

Definition invalid (orig : string) : string := "time: invalid duration " +:+ gofmt.Quote orig.

(** One number with its unit: its value and the rest. *)
Definition component (orig s : string) : (Z * string) + string :=
  match s with
  | String c _ =>
      if negb ((c == "."%char) || is_digit c) then inr (invalid orig)
      else
        match leadingInt 0 s with
        | None => inr (invalid orig)
        | Some (v, s1) =>
            let pre := is_digit c in
            let '(f, scale, s2, post) :=
              match s1 with
              | String d s1' =>
                  if d == "."%char then
                    let '(f, scale, s2) := leadingFraction 0 1 false s1' in
                    (f, scale, s2, negb (s2 == s1'))
                  else (0, 1, s1, false)
              | EmptyString => (0, 1, s1, false)
              end in
            if negb pre && negb post then inr (invalid orig)
            else
              let '(u, rest) := cut_unit s2 in
              if u == "" then inr ("time: missing unit in duration " +:+ gofmt.Quote orig)
              else
                match unitMap u with
                | None => inr ("time: unknown unit " +:+ gofmt.Quote u +:+ " in duration " +:+ gofmt.Quote orig)
                | Some unit =>
                    if limit / unit <? v then inr (invalid orig)
                    else
                      let v := v * unit in
                      let v := if 0 <? f then v + fraction_ns f scale unit else v in
                      if limit <? v then inr (invalid orig) else inl (v, rest)
                end
        end
  | EmptyString => inr (invalid orig)
  end.

Fixpoint components (fuel : nat) (orig : string) (d : Z) (s : string) : Z + string :=
  match fuel, s with
  | _, EmptyString => inl d
  | S n, _ =>
      match component orig s with
      | inr e => inr e
      | inl (v, rest) =>
          let d := wrapu64 (d + v) in
          if limit <? d then inr (invalid orig) else components n orig d rest
      end
  | O, _ => inr (invalid orig)
  end.

(** [time.ParseDuration]. *)
Definition ParseDuration (orig : string) : time.Duration + string :=
  let '(neg, s) := cut_sign orig in
  if s == "0" then inl 0
  else if s == "" then inr (invalid orig)
  else
    match components (String.length s) orig 0 s with
    | inr e => inr e
    | inl d => if neg then inl (wrap64 (- d)) else if limit - 1 <? d then inr (invalid orig) else inl d
    end.

Example durations :
  ParseDuration "20s" = inl (20 * time.Second) /\ ParseDuration "1h2m3.5s" = inl (3723500 * 1000000)
  /\ ParseDuration "-1.5ms" = inl (-1500000) /\ ParseDuration "0" = inl 0
  /\ ParseDuration "5" = inr ("time: missing unit in duration " +:+ gofmt.Quote "5")
  /\ ParseDuration "9223372036854775808ns" = inr (invalid "9223372036854775808ns")
  /\ ParseDuration "-9223372036854775808ns" = inl int64_min.
Proof. vm_compute. done. Qed.

End duration.

Example media_types :
  mime.ParseMediaType "Text/Event-Stream; charset=utf-8" = ("text/event-stream", false)
  /\ mime.ParseMediaType "application/json;" = ("application/json", false)
  /\ mime.ParseMediaType "text/event-stream; x" = ("text/event-stream", true)
  /\ mime.ParseMediaType "text/event-stream, x" = ("", true)
  /\ mime.ParseMediaType "a/b; x=1; X=2" = ("", true).
Proof. vm_compute. done. Qed.
