(* ===== verification/GoFlag.v ===== *)
(** * Package flag of Go's standard library

    [FlagSet.Parse] over any set of flags: a flag set says which names are
    boolean and how a flag is set from its text.  A flag is one or two dashes, a
    name, and its value after an equals sign or, unless it is boolean, in the next
    argument. *)

From S2P Require Import Prelude GoFmt GoStrings GoStrconv GoMime.
Local Open Scope Z_scope.
Local Open Scope go_scope.

Module flag.

Definition ErrHelp : string := "flag: help requested".

(** How an argument reads: no flag, the end of the flags, bad syntax, or a flag
    with its value. *)
Inductive Arg :=
  | NotFlag
  | Terminator
  | BadSyntax
  | Flag (name value : string) (hasValue : bool).

Definition read_arg (s : string) : Arg :=
  match s with
  | String d (String c tail) =>
      if negb (d == "-"%char) then NotFlag
      else if s == "--" then Terminator
      else
        match (if c == "-"%char then tail else String c tail) with
        | EmptyString => BadSyntax
        | String c0 _ as name =>
            if (c0 == "-"%char) || (c0 == "="%char) then BadSyntax
            else let '(name, value, hasValue) := gostrings.Cut name "="%char in Flag name value hasValue
        end
  | _ => NotFlag
  end.

Section Parse.
Context {F : Type} (is_bool : string -> bool) (set : string -> string -> F -> option (F + string)).

(** The error of a value that could not be set. *)
Definition invalid_value (name value e : string) : string :=
  if is_bool name then "invalid boolean value " +:+ gofmt.Quote value +:+ " for -" +:+ name +:+ ": " +:+ e
  else "invalid value " +:+ gofmt.Quote value +:+ " for flag -" +:+ name +:+ ": " +:+ e.

Definition undefined (name : string) : string :=
  if (name == "help") || (name == "h") then ErrHelp else "flag provided but not defined: -" +:+ name.

(** Set a flag and go on. *)
Definition assign (name value : string) (f : F) (k : F -> F + string) : F + string :=
  match set name value f with
  | None => inr (undefined name)
  | Some (inr e) => inr (invalid_value name value e)
  | Some (inl f') => k f'
  end.

(** The loop of [parseOne]. *)
Fixpoint Parse (args : list string) (f : F) : F + string :=
  match args with
  | [] => inl f
  | s :: rest =>
      match read_arg s with
      | NotFlag | Terminator => inl f
      | BadSyntax => inr ("bad flag syntax: " +:+ s)
      | Flag name value hasValue =>
          if hasValue then assign name value f (Parse rest)
          else if is_bool name then assign name "true" f (Parse rest)
          else
            match rest with
            | value :: rest' => assign name value f (Parse rest')
            | [] =>
                match set name "" f with
                | None => inr (undefined name)
                | Some _ => inr ("flag needs an argument: -" +:+ name)
                end
            end
      end
  end.

(** *** A flag written as [--name=value] *)

Definition plain_name (name : string) : bool :=
  match name with
  | EmptyString => false
  | String c _ => negb (c == "-"%char) && forallb (fun c => negb (c == "="%char)) (String.list_ascii_of_string name)
  end.

Lemma Cut_name name value :
  forallb (fun c => negb (c == "="%char)) (String.list_ascii_of_string name) = true ->
  gostrings.Cut (name +:+ "=" +:+ value) "="%char = (name, value, true).
Proof.
  change ("=" +:+ value) with (String "="%char value).
  induction name as [|c name IH]; [done|]. cbn [forallb String.list_ascii_of_string].
  intros [Hc Hn]%andb_true_iff.
  change (String c name +:+ String "="%char value) with (String c (name +:+ String "="%char value)).
  cbn [gostrings.Cut].
  destruct (bool_decide (c = "="%char)); [done|]. by rewrite (IH Hn).
Qed.

Lemma read_assignment name value :
  plain_name name = true -> read_arg ("--" +:+ name +:+ "=" +:+ value) = Flag name value true.
Proof.
  intros Hp. destruct name as [|c name]; [done|]. unfold plain_name in Hp.
  apply andb_true_iff in Hp as [Hd He]. pose proof (Cut_name (String c name) value He) as Hc.
  change ("--" +:+ String c name +:+ "=" +:+ value)
    with (String "-"%char (String "-"%char (String c (name +:+ "=" +:+ value)))).
  unfold read_arg. change (bool_decide ("-"%char = "-"%char)) with true. cbn [negb].
  rewrite bool_decide_eq_false_2 by done.
  assert (Hb : (c == "-"%char) || (c == "="%char) = false).
  { cbn in He. apply andb_true_iff in He as [He _]. destruct (c == "-"%char), (c == "="%char); done. }
  rewrite Hb. change (String c name +:+ "=" +:+ value) with (String c (name +:+ "=" +:+ value)) in Hc. by rewrite Hc.
Qed.

Lemma parse_step name value rest f f' res :
  plain_name name = true -> set name value f = Some (inl f') -> Parse rest f' = res ->
  Parse (("--" +:+ name +:+ "=" +:+ value) :: rest) f = res.
Proof. intros Hp Hs Hr. cbn [Parse]. rewrite read_assignment by done. unfold assign. by rewrite Hs. Qed.
End Parse.

(** [strconv.ParseBool] as package flag uses it. *)
Definition ParseBool (s : string) : bool + string :=
  if bool_decide (s ∈ ["1"; "t"; "T"; "true"; "TRUE"; "True"]) then inl true
  else if bool_decide (s ∈ ["0"; "f"; "F"; "false"; "FALSE"; "False"]) then inl false
  else inr strconv.errSyntax.

Definition ParseDuration (s : string) : time.Duration + string :=
  match duration.ParseDuration s with inl d => inl d | inr _ => inr strconv.errSyntax end.

(** What a flag set from its text yields. *)
Definition updated {A F} (r : A + string) (upd : A -> F) : option (F + string) :=
  Some (match r with inl v => inl (upd v) | inr e => inr e end).

End flag.
