(* ===== verification/ShimConfig.v ===== *)
(** * Configuration of the metrics shim (cmd/shim/config.go)

    [parseConfig] with what it uses of package flag: the syntax of command-line
    flags.  [url.Parse] is a parameter.  The operator writes these flags
    ([shimArgs] of ControllerChildren.v); the theorem is that the shim reads
    back what the operator meant. *)

From S2P Require Import Prelude GoFloat GoFmt GoStrings GoStrconv GoMime GoFlag ApiTypes KubeTypes Naming ControllerPlan ControllerChildren ShimSSE.
Import v1alpha1.
Local Open Scope Z_scope.
Local Open Scope go_scope.

Module shimconfig.
Import children.

(** [url.URL], as far as it is read. *)
Record URL := MkURL { u_Scheme : string; u_Host : string; u_Text : string }.

Definition defaultShutdownGrace : time.Duration := 20 * time.Second.
Definition defaultUpstreamTimeout : time.Duration := 3 * time.Second.

Record config := MkConfig {
  listen : string; metricsListen : string; upstream : URL; healthPath : string; model : string;
  namespace : string; modelDeployment : string; variant : string; maxConcurrency : Z;
  logLevel : string; shutdownGrace : time.Duration }.

(** The values of the flags, the upstream still as text. *)
Record flags := MkFlags {
  f_listen : string; f_metricsListen : string; f_upstream : string; f_healthPath : string;
  f_model : string; f_namespace : string; f_modelDeployment : string; f_variant : string;
  f_maxConcurrency : Z; f_logLevel : string; f_grace : time.Duration }.

Definition defaults : flags :=
  MkFlags (":" +:+ format_int naming.ShimPort) (":" +:+ format_int naming.ShimMetricsPort)
    ("http://127.0.0.1:" +:+ format_int naming.EnginePort) "/health" "" "" "" "primary" 1 "info"
    defaultShutdownGrace.

Section Config.
Context (Parse : string -> URL + string).

(** [flag.Value.Set] of a flag by name: [None] for an undefined one. *)
Definition set_flag (name value : string) (f : flags) : option (flags + string) :=
  let '(MkFlags li me up he mo na md va mc ll gr) := f in
  if name == "listen" then Some (inl (MkFlags value me up he mo na md va mc ll gr))
  else if name == "metrics-listen" then Some (inl (MkFlags li value up he mo na md va mc ll gr))
  else if name == "upstream" then Some (inl (MkFlags li me value he mo na md va mc ll gr))
  else if name == "health-path" then Some (inl (MkFlags li me up value mo na md va mc ll gr))
  else if name == "model" then Some (inl (MkFlags li me up he value na md va mc ll gr))
  else if name == "namespace" then Some (inl (MkFlags li me up he mo value md va mc ll gr))
  else if name == "model-deployment" then Some (inl (MkFlags li me up he mo na value va mc ll gr))
  else if name == "variant" then Some (inl (MkFlags li me up he mo na md value mc ll gr))
  else if name == "max-concurrency" then
    Some (match strconv.ParseInt0 value with
          | inl n => inl (MkFlags li me up he mo na md va n ll gr)
          | inr e => inr e
          end)
  else if name == "log-level" then Some (inl (MkFlags li me up he mo na md va mc value gr))
  else if name == "shutdown-grace" then
    Some (match duration.ParseDuration value with
          | inl d => inl (MkFlags li me up he mo na md va mc ll d)
          | inr _ => inr strconv.errSyntax
          end)
  else None.

(** [FlagSet.Parse]; no flag is boolean. *)
Definition parse_flags (args : list string) (f : flags) : flags + string :=
  flag.Parse (fun _ => false) set_flag args f.

Definition blank (s : string) : bool := bool_decide (sse.TrimSpace (sse.of_string s) = []).

Definition parseConfig (args : list string) : config + string :=
  f <?- parse_flags args defaults ;;
  match Parse (f_upstream f) with
  | inr e => inr ("parsing -upstream: " +:+ e)
  | inl u =>
      if (u_Scheme u == "") || (u_Host u == "") then
        inr ("-upstream must be an absolute URL with a scheme and host, got " +:+ gofmt.Quote (f_upstream f))
      else if f_model f == "" then
        inr "-model is required: it is the `model` label on every emitted metric"
      else if blank (f_namespace f) then
        inr "-namespace is required: metrics must identify the owning resource namespace"
      else if blank (f_modelDeployment f) then
        inr "-model-deployment is required: metrics must identify the owning resource name"
      else if negb (gofmt.HasPrefix (f_healthPath f) "/") then
        inr ("-health-path must start with " +:+ gofmt.Quote "/" +:+ ", got " +:+ gofmt.Quote (f_healthPath f))
      else if f_maxConcurrency f <? 1 then
        inr ("-max-concurrency must be at least 1, got " +:+ format_int (f_maxConcurrency f))
      else
        inl (MkConfig (f_listen f) (f_metricsListen f) u (f_healthPath f) (f_model f) (f_namespace f)
               (f_modelDeployment f) (f_variant f) (f_maxConcurrency f) (f_logLevel f) (f_grace f))
  end.

(** ** Properties *)

(** The arguments of [shimArgs], as the flag set leaves them. *)
Lemma shimArgs_flags md v hp level :
  0 < maxConcurrencyFor md <= int64_max ->
  parse_flags (shimArgs md v hp level) defaults
  = inl (MkFlags (":" +:+ format_int naming.ShimPort) (":" +:+ format_int naming.ShimMetricsPort)
           ("http://127.0.0.1:" +:+ format_int naming.EnginePort) hp (model_Name (sp_Model (md_Spec md)))
           (md_Namespace md) (md_Name md) (variant_string v) (maxConcurrencyFor md) level defaultShutdownGrace).
Proof.
  intros Hc. unfold shimArgs, defaults, parse_flags.
  eapply (flag.parse_step _ _ "listen"); [done|reflexivity|]. eapply (flag.parse_step _ _ "metrics-listen"); [done|reflexivity|].
  eapply (flag.parse_step _ _ "upstream"); [done|reflexivity|]. eapply (flag.parse_step _ _ "health-path"); [done|reflexivity|].
  eapply (flag.parse_step _ _ "model"); [done|reflexivity|]. eapply (flag.parse_step _ _ "namespace"); [done|reflexivity|].
  eapply (flag.parse_step _ _ "model-deployment"); [done|reflexivity|]. eapply (flag.parse_step _ _ "variant"); [done|reflexivity|].
  eapply (flag.parse_step _ _ "max-concurrency"); [done|by cbn; rewrite strconv.ParseInt0_format|].
  by eapply (flag.parse_step _ _ "log-level").
Qed.

(** C32: the shim reads what the operator wrote.  The flags the operator renders
    into a serving pod are accepted, and the configuration they give has the
    resource's own identity as metric labels, the engine's address, health path
    and concurrency, and the default grace period - whatever characters the
    names contain. *)
Theorem shim_flags_roundtrip md v hp level u :
  0 < maxConcurrencyFor md <= int64_max ->
  Parse ("http://127.0.0.1:" +:+ format_int naming.EnginePort) = inl u -> u_Scheme u <> "" -> u_Host u <> "" ->
  model_Name (sp_Model (md_Spec md)) <> "" -> blank (md_Namespace md) = false -> blank (md_Name md) = false ->
  gofmt.HasPrefix hp "/" = true ->
  parseConfig (shimArgs md v hp level)
  = inl (MkConfig (":" +:+ format_int naming.ShimPort) (":" +:+ format_int naming.ShimMetricsPort) u hp
           (model_Name (sp_Model (md_Spec md))) (md_Namespace md) (md_Name md) (variant_string v)
           (maxConcurrencyFor md) level defaultShutdownGrace).
Proof.
  intros Hc Hu Hs Hh Hm Hns Hn Hp. unfold parseConfig. rewrite shimArgs_flags by done.
  cbn [f_upstream f_model f_namespace f_modelDeployment f_healthPath f_maxConcurrency f_listen f_metricsListen
       f_variant f_logLevel f_grace].
  rewrite Hu, !bool_decide_eq_false_2, Hns, Hn, Hp by done. cbn [orb negb].
  by rewrite (proj2 (Z.ltb_ge (maxConcurrencyFor md) 1)) by lia.
Qed.

End Config.

Lemma shim_flags_roundtrip_witness :
  let parse s := inl (MkURL "http" "127.0.0.1:8000" s) in
  let md := MkModelDeployment "demo=a b" "default" "u" "1" 2 None ∅
              (md_Spec (plans.sample_md RolloutCanary (plans.sample_status PhaseAvailable None)))
              (plans.sample_status PhaseAvailable None) in
  match parseConfig parse (shimArgs md VariantCanary "/health" "debug") with
  | inl c => modelDeployment c = "demo=a b" /\ variant c = "canary" /\ maxConcurrency c = 4
  | inr _ => False
  end.
Proof.
  intros parse md.
  rewrite (shim_flags_roundtrip parse md VariantCanary "/health" "debug"
             (MkURL "http" "127.0.0.1:8000" ("http://127.0.0.1:" +:+ format_int naming.EnginePort)));
    [repeat split; reflexivity|vm_compute; done..].
Defined.

End shimconfig.
