(* ===== verification/ShimJson.v ===== *)
(** * The JSON of the shim (cmd/shim/sse.go)

    The struct types the shim decodes frames and responses into, with their tags,
    and [json.Unmarshal] at them. *)

From S2P Require Import Prelude GoJson ShimSSE.
Import json.
Local Open Scope Z_scope.
Local Open Scope go_scope.

Module shim_json.

Definition completionUsage_t : ty := TStruct (FCons "completion_tokens" false (TPtr TInt64) FNil).

Definition toolCall_t : ty :=
  TStruct (FCons "function" false
    (TStruct (FCons "name" false TString (FCons "arguments" false TString FNil))) FNil).

Definition delta_t : ty :=
  TStruct (FCons "content" false TString
    (FCons "reasoning_content" false TString (FCons "tool_calls" false (TSlice toolCall_t) FNil))).

Definition choice_t : ty := TStruct (FCons "delta" false delta_t (FCons "text" false TString FNil)).

Definition streamChunk_t : ty :=
  TStruct (FCons "usage" false (TPtr completionUsage_t) (FCons "choices" false (TSlice choice_t) FNil)).

(** The response of [usageObserver.Read]. *)
Definition usage_response_t : ty := TStruct (FCons "usage" false (TPtr completionUsage_t) FNil).

Definition usage_of (u : option (interp completionUsage_t)) : option sse.completionUsage :=
  option_map (fun v => sse.MkCompletionUsage (fst v)) u.

Definition call_of (v : interp toolCall_t) : sse.toolCall := sse.MkToolCall (fst (fst v)) (fst (snd (fst v))).

Definition choice_of (v : interp choice_t) : sse.choice :=
  let '((content, (reasoning, (calls, _))), (text, _)) := v in
  sse.MkChoice content reasoning (map call_of (elems calls)) text.

Definition chunk_of (v : interp streamChunk_t) : sse.streamChunk :=
  sse.MkStreamChunk (usage_of (fst v)) (map choice_of (elems (fst (snd v)))).

(** [json.Unmarshal] of an event and of a whole response. *)
Definition UnmarshalChunk (b : bytes) : option sse.streamChunk := option_map chunk_of (Unmarshal streamChunk_t b).

Definition UnmarshalUsage (b : bytes) : option (option sse.completionUsage) :=
  option_map (fun v => usage_of (fst v)) (Unmarshal usage_response_t b).

End shim_json.
