(* ===== verification/ShimProxy.v ===== *)
(** * The proxy and the metrics of the shim (cmd/shim/proxy.go, metrics.go)

    [serveProxy] around one proxied request, and what it records.  What the
    engine and the client did is an [Exchange]: [httputil.ReverseProxy] either
    reports that the engine could not be reached, or forwards informational
    responses and then the final one, and copies the body read by read until it
    ends, fails, or the client is gone.  Updates of collectors are listed as
    [Sample]s.  The in-flight count is the shim's only shared state: [step]
    interleaves any number of requests. *)

From S2P Require Import Prelude GoFloat GoFmt GoStrings Metrics Naming GoJson ShimSSE ShimConfig GoMime ShimJson.
Local Open Scope Z_scope.
Local Open Scope go_scope.

Module shim.
Import sse.

(** ** What is recorded (metrics.go) *)

Inductive Sample :=
  | RequestsStarted (operation : string)
  | Requests (operation : string) (code : Z)
  | RequestDuration (operation : string) (seconds : f64.t)
  | OutTokens (n : f64.t)
  | OutChunks (n : f64.t)
  | ReportedTokens (n : f64.t)
  | UsageRequests
  | TTFT (seconds : f64.t)
  | TPOT (seconds : f64.t)
  | InterChunk (seconds : f64.t)
  | UpstreamErrors (reason : string).

(** [requestState]: the fields of the observers, and the others. *)
Record request := MkRequest {
  rq_state : requestState; rq_operation : string; rq_streamed : bool; rq_duration : time.Duration }.

Definition metrics_observeUsage (st : request) (code : Z) : list Sample :=
  let s := rq_state st in
  if rs_hasUsage s && is_nil (rs_readErr s) && (200 <=? code) && (code <? 300)
  then [ReportedTokens (f64.of_Z (rs_reportedTokens s)); UsageRequests] else [].

Definition metrics_observe (st : request) (code : Z) : list Sample :=
  let s := rq_state st in
  [RequestDuration (rq_operation st) (gofmt.Duration_Seconds (rq_duration st)); Requests (rq_operation st) code]
  ++ if negb (rq_streamed st) then metrics_observeUsage st code
     else
       (if rs_sawDone s then metrics_observeUsage st code else [])
       ++ (if 0 <? rs_tokens s then [OutTokens (f64.of_Z (rs_tokens s)); OutChunks (f64.of_Z (rs_tokens s))] else [])
       ++ if negb (rs_sawFirstToken s) then []
          else
            TTFT (gofmt.Duration_Seconds (rs_ttft s))
            :: if 2 <=? rs_tokens s then
                 let decode := wrap64 (rq_duration st - rs_ttft s) in
                 if 0 <? decode
                 then [TPOT (f64.div (gofmt.Duration_Seconds decode) (f64.of_Z (wrap64 (rs_tokens s - 1))))]
                 else []
               else [].

(** The gauges derived from the in-flight count at a scrape. *)
Definition inFlight (live : Z) : f64.t := f64.of_Z live.
Definition queueDepth (live concurrency : Z) : f64.t := f64.of_Z (Z.max (wrap64 (live - concurrency)) 0).

(** ** The response writer *)

Record statusRecorder := MkStatusRecorder { sr_status : Z; sr_written : bool }.

Definition WriteHeader (s : statusRecorder) (code : Z) : statusRecorder :=
  if negb (sr_written s) then MkStatusRecorder code true else s.

Definition Write (s : statusRecorder) : statusRecorder := MkStatusRecorder (sr_status s) true.

(** ** One exchange *)

Inductive Exchange :=
  (** The engine could not be reached, perhaps after informational responses;
      the error's text. *)
  | Unreachable (info : list Z) (err : string)
  (** Informational responses, the final status and Content-Type, and the reads
      of the body. *)
  | Answered (info : list Z) (code : Z) (contentType : string) (reads : list (bytes * ReadEnd)).

Definition contentTypeSSE : string := "text/event-stream".
Definition contentTypeJSON : string := "application/json".
Definition StatusOK : Z := 200.
Definition StatusBadGateway : Z := 502.
Definition MethodPost : string := "POST".

Section Proxy.
(** The clock; whether an error is [context.Canceled]. *)
Context {W : Type} (now : W -> W * time.Time).
Context (canceled : string -> bool).

Definition isEventStream (header : string) : bool :=
  if header == "" then false
  else
    let (mediaType, failed) := mime.ParseMediaType header in
    if failed then HasPrefix (mime.ToLower (of_string header)) (of_string contentTypeSSE)
    else mime.EqualFold mediaType contentTypeSSE.

(** [modifyResponse] and the copy of the body: how a response's reads change the
    state of the request. *)
Definition observe_stream (w : W) (s : requestState) (reads : list (bytes * ReadEnd)) : W * requestState :=
  so_state (fold_left (fun o r => Read (handleEvent shim_json.UnmarshalChunk now)
                                    (fun ws e => (fst ws, with_readErr (snd ws) e)) o (fst r) (snd r))
              reads (newStreamObserver (w, s))).

Definition observe_body (s : requestState) (reads : list (bytes * ReadEnd)) : requestState :=
  uo_state (fold_left (fun o r => usage_Read shim_json.UnmarshalUsage o (fst r) (snd r)) reads (MkUsageObserver s [] false)).

(** [st.interChunk = p.metrics.interChunk.Observe]. *)
Definition with_interChunk (s : requestState) : requestState :=
  MkRequestState (rs_start s) (rs_sawFirstToken s) (rs_ttft s) (rs_tokens s) (rs_sawDone s) (rs_lastContent s)
    (Some []) (rs_reportedTokens s) (rs_hasUsage s) (rs_readErr s).

Definition modifyResponse (w : W) (s : requestState) (contentType : string) (reads : list (bytes * ReadEnd)) :
    W * (requestState * bool) :=
  if negb (isEventStream contentType) then
    (w, (if fst (mime.ParseMediaType contentType) == contentTypeJSON then observe_body s reads else s, false))
  else
    let (w, s) := observe_stream w (with_interChunk s) reads in (w, (s, true)).

(** [handleUpstreamError]: the status written and the count. *)
Definition handleUpstreamError (err : string) (ctxCanceled : bool) : Z * list Sample :=
  if canceled err || ctxCanceled then (499, [UpstreamErrors metrics.ReasonClientCanceled])
  else (StatusBadGateway, [UpstreamErrors metrics.ReasonUnreachable]).

Definition countStreamOutcome (st : request) (ctxCanceled : bool) : list Sample :=
  let s := rq_state st in
  match rs_readErr s with
  | None => []
  | Some e =>
      if negb (rq_streamed st) || rs_sawDone s then []
      else if canceled e || ctxCanceled then [UpstreamErrors metrics.ReasonClientCanceled]
      else [UpstreamErrors metrics.ReasonStreamAborted]
  end.

(** [p.rp.ServeHTTP]: the state and the recorder afterwards. *)
Definition exchange (w : W) (s : requestState) (x : Exchange) (ctxCanceled : bool) :
    W * ((requestState * bool) * statusRecorder * list Sample) :=
  let rec0 := MkStatusRecorder StatusOK false in
  match x with
  | Unreachable info err =>
      let (code, samples) := handleUpstreamError err ctxCanceled in
      (w, (s, false, WriteHeader (fold_left WriteHeader info rec0) code, samples))
  | Answered info code contentType reads =>
      let (w, r) := modifyResponse w s contentType reads in
      (w, (r, WriteHeader (fold_left WriteHeader info rec0) code, []))
  end.

Definition counted_operation (op : string) : bool :=
  (op == metrics.OperationChat) || (op == metrics.OperationCompletion) || (op == metrics.OperationEmbeddings).

Definition started_samples (method operation : string) : list Sample :=
  if (method == MethodPost) && counted_operation operation then [RequestsStarted operation] else [].

(** What the stream observer sent to the inter-chunk histogram. *)
Definition chunk_samples (s : requestState) : list Sample :=
  match rs_interChunk s with Some l => map InterChunk l | None => [] end.

(** [serveProxy]: the in-flight count and the samples, with the deferred
    recording run whether the copy returned or panicked. *)
Definition serveProxy (w : W) (live : Z) (method path : string) (x : Exchange) (ctxCanceled : bool) :
    W * (Z * list Sample) :=
  let (w, start) := now w in
  let operation := metrics.NormalizeOperation path in
  let live := wrap64 (live + 1) in
  let s0 := MkRequestState start false 0 0 false 0 None 0 false None in
  let '(w, (s, streamed, recorder, errors)) := exchange w s0 x ctxCanceled in
  let (w, finished) := now w in
  let st := MkRequest s operation streamed (time.Sub finished start) in
  (w, (wrap64 (live - 1),
       started_samples method operation ++ errors ++ chunk_samples s ++ metrics_observe st (sr_status recorder)
       ++ countStreamOutcome st ctxCanceled)).

(** ** Lemmas *)

Definition count (p : Sample -> bool) (l : list Sample) : nat := length (List.filter p l).

Lemma count_app p a b : count p (a ++ b) = (count p a + count p b)%nat.
Proof. unfold count. by rewrite List.filter_app, length_app. Qed.

Definition is_request (x : Sample) : bool := match x with Requests _ _ => true | _ => false end.
Definition is_duration (x : Sample) : bool := match x with RequestDuration _ _ => true | _ => false end.
Definition is_ttft (x : Sample) : bool := match x with TTFT _ => true | _ => false end.
Definition is_tpot (x : Sample) : bool := match x with TPOT _ => true | _ => false end.
Definition is_error (x : Sample) : bool := match x with UpstreamErrors _ => true | _ => false end.

Lemma count_chunks p (l : list f64.t) : (forall x, p (InterChunk x) = false) -> count p (map InterChunk l) = 0%nat.
Proof. intros H. unfold count. induction l as [|x l IH]; [done|]. cbn. by rewrite H. Qed.

Lemma count_started p method op : p (RequestsStarted op) = false -> count p (started_samples method op) = 0%nat.
Proof. intros H. unfold started_samples, count. destruct (_ && _); [|done]. cbn. by rewrite H. Qed.

Lemma observe_counts st code :
  let l := metrics_observe st code in
  count is_request l = 1%nat /\ count is_duration l = 1%nat /\ count is_error l = 0%nat
  /\ count is_ttft l = (if rq_streamed st && rs_sawFirstToken (rq_state st) then 1%nat else 0%nat)
  /\ (count is_tpot l <= (if (rq_streamed st && rs_sawFirstToken (rq_state st) && (2 <=? rs_tokens (rq_state st)))%Z
                         then 1 else 0))%nat
  /\ In (Requests (rq_operation st) code) l.
Proof.
  cbv zeta. unfold metrics_observe, metrics_observeUsage. cbv zeta.
  destruct (rq_streamed st), (rs_sawFirstToken (rq_state st)), (2 <=? rs_tokens (rq_state st)); cbn [negb andb];
    repeat match goal with |- context [if ?b then _ else _] => destruct b end; cbn; split_and!; try lia; auto.
Qed.

(** What an exchange leaves: the errors counted so far, and whether the body was
    watched as a stream. *)
Lemma exchange_errors w s x cx :
  let '(_, (_, streamed, recorder, errors)) := exchange w s x cx in
  match x with
  | Unreachable _ err =>
      streamed = false
      /\ errors = [UpstreamErrors (if canceled err || cx then metrics.ReasonClientCanceled else metrics.ReasonUnreachable)]
  | Answered _ _ contentType _ => errors = [] /\ streamed = isEventStream contentType
  end.
Proof.
  destruct x as [info err|info code ct reads]; cbn.
  - unfold handleUpstreamError. by destruct (_ || _).
  - unfold modifyResponse. destruct (isEventStream ct); cbn; [|done]. by destruct (observe_stream _ _ _).
Qed.

(** Without a stream the observers leave the stream fields alone. *)
Lemma outcome_errors st cx :
  (count is_error (countStreamOutcome st cx) <= (if rq_streamed st && negb (rs_sawDone (rq_state st)) then 1 else 0))%nat
  /\ (forall p, (forall r, p (UpstreamErrors r) = false) -> count p (countStreamOutcome st cx) = 0%nat)
  /\ (forall r, In (UpstreamErrors r) (countStreamOutcome st cx) ->
        r = metrics.ReasonClientCanceled \/ r = metrics.ReasonStreamAborted).
Proof.
  unfold countStreamOutcome. destruct (rs_readErr _) as [e|]; [|by cbn; split_and!; [lia|..]].
  destruct (rq_streamed st), (rs_sawDone _); cbn; try (by split_and!; [lia|..]).
  destruct (_ || _); cbn; split_and!; try lia; try (intros p Hp; unfold count; cbn; by rewrite Hp);
    intros r [[= <-]|[]]; auto.
Qed.

(** ** Properties *)

Definition streams (x : Exchange) : bool :=
  match x with Answered _ _ ct _ => isEventStream ct | Unreachable _ _ => false end.

(** C31: every request is accounted for once.  Whatever the engine and the client
    do - an unreachable engine, a stream that breaks, a client that leaves - one
    request is counted under its operation, one duration is observed, at most one
    upstream error is counted, time to first token and per token are observed at
    most once and only for a streamed response, and the in-flight count is back
    where it was. *)
Theorem request_accounted_once w live method path x cx :
  int64_min < live < int64_max ->
  let '(_, (live', l)) := serveProxy w live method path x cx in
  live' = live /\ count is_request l = 1%nat /\ count is_duration l = 1%nat
  /\ (exists code, In (Requests (metrics.NormalizeOperation path) code) l)
  /\ (count is_error l <= 1)%nat
  /\ (count is_ttft l <= (if streams x then 1 else 0))%nat
  /\ (count is_tpot l <= count is_ttft l)%nat.
Proof.
  intros Hl. unfold serveProxy. destruct (now w) as [w1 start]. set (s0 := MkRequestState _ _ _ _ _ _ _ _ _ _).
  pose proof (exchange_errors w1 s0 x cx) as Hx.
  destruct (exchange w1 s0 x cx) as [w2 [[[s streamed] recorder] errors]]. destruct (now w2) as [w3 fin].
  set (st := MkRequest _ _ _ _). set (started := started_samples _ _). set (chunks := chunk_samples s).
  pose proof (observe_counts st (sr_status recorder)) as (O1 & O2 & O3 & O4 & O5 & O6).
  pose proof (outcome_errors st cx) as (E1 & E2 & _).
  assert (Hs : forall p, (forall op, p (RequestsStarted op) = false) -> count p started = 0%nat)
    by (intros p Hp; by apply count_started).
  assert (Hc : forall p, (forall y, p (InterChunk y) = false) -> count p chunks = 0%nat)
    by (intros p Hp; unfold chunks, chunk_samples; destruct (rs_interChunk s); [by apply count_chunks|done]).
  assert (He : forall p, (forall r, p (UpstreamErrors r) = false) -> count p errors = 0%nat)
    by (intros p Hp; destruct x; destruct Hx as [Hx1 Hx2]; [rewrite Hx2|rewrite Hx1]; unfold count; cbn; [by rewrite Hp|done]).
  assert (Hst : rq_streamed st = streams x) by (destruct x; by destruct Hx).
  rewrite !count_app, O1, O2, O3, O4, !Hs, !Hc, !(He is_request), !(He is_duration), !(He is_ttft), !(He is_tpot),
    !(E2 is_request), !(E2 is_duration), !(E2 is_ttft), !(E2 is_tpot) by done. rewrite Hst in *.
  split_and!.
  - clear -Hl. rewrite !wrap64_id; unfold int64_ok, int64_min, int64_max in *; rewrite ?wrap64_id; unfold int64_ok, int64_min, int64_max; lia.
  - done.
  - done.
  - eexists. rewrite !in_app_iff. right; right; right; left. exact O6.
  - destruct x as [info err|info code ct reads]; destruct Hx as [Hx1 Hx2].
    + rewrite Hx2. cbn in E1 |- *. lia.
    + rewrite Hx1. cbn [count List.filter length]. destruct (_ && _) in E1; cbn; lia.
  - destruct (streams x), (rs_sawFirstToken _); cbn; lia.
  - destruct (streams x), (rs_sawFirstToken _), (2 <=? _); cbn in O5 |- *; lia.
Qed.

(** An outage is charged to whoever caused it.  An upstream error is counted
    for one of three causes: the engine could not be reached and nobody hung up;
    or a stream failed before its end marker and nobody hung up; or the client
    hung up.  A stream that reached its end marker, and a response that is not a
    stream, count none. *)
Theorem errors_attributed w live method path x cx reason :
  In (UpstreamErrors reason) (snd (snd (serveProxy w live method path x cx))) ->
  match x with
  | Unreachable _ err =>
      reason = if canceled err || cx then metrics.ReasonClientCanceled else metrics.ReasonUnreachable
  | Answered _ _ contentType _ =>
      isEventStream contentType = true
      /\ (reason = metrics.ReasonStreamAborted -> cx = false)
      /\ (reason = metrics.ReasonClientCanceled \/ reason = metrics.ReasonStreamAborted)
  end.
Proof.
  unfold serveProxy. destruct (now w) as [w1 start]. set (s0 := MkRequestState _ _ _ _ _ _ _ _ _ _).
  pose proof (exchange_errors w1 s0 x cx) as Hx.
  destruct (exchange w1 s0 x cx) as [w2 [[[s streamed] recorder] errors]]. destruct (now w2) as [w3 fin].
  cbn [snd]. set (st := MkRequest _ _ _ _). rewrite !in_app_iff. intros [H|[H|[H|[H|H]]]].
  - exfalso. revert H. unfold started_samples. destruct (_ && _); [|done]. by intros [|[]].
  - destruct x as [info err|]; destruct Hx as [Hx1 Hx2]; [|by rewrite Hx1 in H]. rewrite Hx2 in H.
    by destruct H as [[= <-]|[]].
  - exfalso. revert H. unfold chunk_samples. destruct (rs_interChunk s); [|done].
    rewrite in_map_iff. by intros (? & ? & _).
  - exfalso. pose proof (observe_counts st (sr_status recorder)) as (_ & _ & O3 & _).
    unfold count in O3. apply length_zero_iff_nil in O3.
    assert (Hf : In (UpstreamErrors reason) (List.filter is_error (metrics_observe st (sr_status recorder))))
      by (by apply filter_In). by rewrite O3 in Hf.
  - pose proof (outcome_errors st cx) as (_ & _ & E3). pose proof (E3 reason H) as Hr. revert H.
    unfold countStreamOutcome, st. cbn [rq_state rq_streamed]. destruct (rs_readErr s) as [e|]; [|done].
    destruct streamed; cbn [negb orb]; [|done]. destruct (rs_sawDone s); [done|].
    destruct x as [info err|info code ct reads]; destruct Hx as [Hx1 Hx2]; [done|]. rewrite <- Hx2.
    intros H. split; [done|]. split; [|done]. intros ->. destruct (canceled e), cx; cbn in H; by destruct H as [H|[]].
Qed.

End Proxy.

(** ** The health endpoint *)

Definition hopByHopHeaders : list string :=
  ["connection"; "keep-alive"; "proxy-authenticate"; "proxy-authorization"; "te"; "trailer";
   "transfer-encoding"; "upgrade"].

Definition maxHealthBody : nat := Z.to_nat (64 * 1024).

Section Health.
(** The text of a URL with its path replaced; a GET of an address within a timeout
    through the transport of the proxy. *)
Context (target : shimconfig.URL -> string -> string).

Definition isHopByHop (name : string) : bool := bool_decide (mime.ToLower (of_string name) ∈ map of_string hopByHopHeaders).

(** [copyHeader] into empty headers, in the order the map is visited. *)
Definition copyHeader (src : list (string * list string)) : list (string * list string) :=
  List.filter (fun kv => negb (isHopByHop (fst kv))) src.

Inductive HealthAnswer :=
  | BuildFailed (err : string)
  | RoundTripFailed (err : string)
  | HealthResponse (code : Z) (headers : list (string * list string)) (body : bytes).

Definition StatusInternalServerError : Z := 500.
Definition StatusServiceUnavailable : Z := 503.

(** [handleHealth]: the status, the headers copied from the engine and the
    body; [http.Error] ends the text with a newline. *)
Definition handleHealth (Get : time.Duration -> string -> HealthAnswer) (cfg : shimconfig.config) :
    Z * list (string * list string) * bytes :=
  match Get shimconfig.defaultUpstreamTimeout (target (shimconfig.upstream cfg) (shimconfig.healthPath cfg)) with
  | BuildFailed e =>
      (StatusInternalServerError, [], of_string ("building upstream health request: " +:+ e) ++ [nl])
  | RoundTripFailed e => (StatusServiceUnavailable, [], of_string ("engine unreachable: " +:+ e) ++ [nl])
  | HealthResponse code headers body =>
      (code, List.filter (fun kv => negb (fst kv == "Content-Length")) (copyHeader headers), take maxHealthBody body)
  end.

Definition handleLive : Z * bytes := (StatusOK, of_string "ok" ++ [nl]).
End Health.

(** ** Concurrent requests *)

(** The in-flight count and the requests being proxied, by number. *)
Record gauge := MkGauge { g_live : Z; g_open : list nat }.

Inductive step : gauge -> gauge -> Prop :=
  | step_begin live open id : id ∉ open -> step (MkGauge live open) (MkGauge (wrap64 (live + 1)) (id :: open))
  | step_end live open1 id open2 :
      step (MkGauge live (open1 ++ id :: open2)) (MkGauge (wrap64 (live - 1)) (open1 ++ open2)).

Lemma step_live g g' :
  Z.of_nat (length (g_open g')) < int64_max -> step g g' -> g_live g = Z.of_nat (length (g_open g)) ->
  g_live g' = Z.of_nat (length (g_open g')).
Proof.
  intros Hb Hs Hl. destruct Hs; cbn in *; rewrite ?length_app in *; cbn [length] in *;
    rewrite wrap64_id by (unfold int64_ok, int64_min, int64_max in *; lia); lia.
Qed.

(** The queue depth the autoscaler reads is exact.  However requests
    overlap, the in-flight count is the number of requests being proxied, so the
    queue depth is the number beyond the engine's concurrency, and an idle shim
    reports zero: it never stays above its true value. *)
Theorem queue_depth_exact g concurrency :
  rtc (fun a b => step a b /\ Z.of_nat (length (g_open b)) < int64_max) (MkGauge 0 []) g ->
  0 < concurrency <= int32_max ->
  g_live g = Z.of_nat (length (g_open g))
  /\ queueDepth (g_live g) concurrency = f64.of_Z (Z.max (Z.of_nat (length (g_open g)) - concurrency) 0)
  /\ (g_open g = [] -> queueDepth (g_live g) concurrency = f64.zero).
Proof.
  intros Hr Hc.
  assert (H : g_live g = Z.of_nat (length (g_open g)) /\ Z.of_nat (length (g_open g)) < int64_max).
  { assert (H0 : g_live (MkGauge 0 []) = Z.of_nat (length (g_open (MkGauge 0 []))) /\ Z.of_nat (length (g_open (MkGauge 0 []))) < int64_max) by done.
    revert H0. generalize (MkGauge 0 []) Hr. intros g0 Hr0. clear Hr.
    induction Hr0 as [|x y z [Hs Hb] _ IH]; [done|]. intros [Hx _]. apply IH. split; [|done]. by eapply step_live. }
  destruct H as [Hl Hb]. rewrite Hl. split; [done|].
  assert (Hq : queueDepth (Z.of_nat (length (g_open g))) concurrency
               = f64.of_Z (Z.max (Z.of_nat (length (g_open g)) - concurrency) 0)).
  { unfold queueDepth. rewrite wrap64_id; [done|]. unfold int64_ok, int64_min, int64_max, int32_max in *. lia. }
  split; [exact Hq|]. intros E. rewrite Hq, E. cbn [length]. rewrite Z.max_r by lia. done.
Qed.

Lemma queue_depth_exact_witness :
  queueDepth (g_live (MkGauge 1 [2%nat])) 1 = f64.zero.
Proof.
  destruct (queue_depth_exact (MkGauge 1 [2%nat]) 1) as (_ & H & _).
  - eapply (rtc_l _ _ (MkGauge 1 [1%nat])); [split; [apply (step_begin 0 []); set_solver|vm_compute; done]|].
    eapply (rtc_l _ _ (MkGauge 2 [2%nat; 1%nat])); [split; [apply (step_begin 1 [1%nat]); set_solver|vm_compute; done]|].
    eapply (rtc_l _ _ (MkGauge 1 [2%nat])); [split; [apply (step_end 2 [2%nat] 1%nat [])|vm_compute; done]|].
    apply rtc_refl.
  - unfold int32_max. lia.
  - rewrite H. reflexivity.
Defined.

(** ** Health *)

(** The readiness probe sees the engine.  Whatever the engine answers to
    one GET of its health path within three seconds, the shim's status is the engine's own, no hop-by-hop header
    and no length is forwarded, every other header is, and at most 64 KiB of
    body; an unreachable engine is unavailable. *)
Theorem health_mirrors_engine target Get cfg :
  match Get (3 * time.Second) (target (shimconfig.upstream cfg) (shimconfig.healthPath cfg)),
        handleHealth target Get cfg with
  | HealthResponse code headers body, (code', headers', body') =>
      code' = code
      /\ (forall k vs, In (k, vs) headers' <-> In (k, vs) headers /\ ~ (mime.ToLower (of_string k) ∈ map of_string hopByHopHeaders) /\ k <> "Content-Length")
      /\ (length body' <= maxHealthBody)%nat /\ exists rest, body = body' ++ rest
  | RoundTripFailed _, (code', _, _) => code' = 503
  | BuildFailed _, (code', _, _) => code' = 500
  end.
Proof.
  unfold handleHealth. change shimconfig.defaultUpstreamTimeout with (3 * time.Second).
  destruct (Get _ _) as [e|e|code headers body]; [done..|]. split; [done|]. split.
  - intros k vs. unfold copyHeader, isHopByHop. rewrite !filter_In, !negb_true_iff, !bool_decide_eq_false. cbn. tauto.
  - split; [rewrite length_take; lia|]. exists (drop maxHealthBody body). by rewrite take_drop.
Qed.

(** ** A concrete shim *)

(** A clock that advances by one second per reading. *)
Definition tick (t : time.Time) : time.Time * time.Time := (t + time.Second, t).

Definition serve_at (x : Exchange) : list Sample :=
  snd (snd (serveProxy tick (fun _ => false) 0 0 "POST" "/v1/chat/completions" x false)).

Definition frame (s : string) : bytes := of_string ("data: " +:+ s) ++ [nl; nl].

(** A frame with a token. *)
Definition token (s : string) : bytes :=
  let q := String json.quote_char "" in frame ("{" +:+ q +:+ "choices" +:+ q +:+ ":[{" +:+ q +:+ "text" +:+ q +:+ ":" +:+ q +:+ s +:+ q +:+ "}]}").

(** Two tokens and the end marker: one time to first token, one per token, no
    error. *)
Example streamed_request :
  let l := serve_at (Answered [] 200 "text/event-stream; charset=utf-8" [(token "a" ++ token "b", ReadMore); (frame "[DONE]", ReadEOF)]) in
  (count is_ttft l, count is_tpot l, count is_error l) = (1, 1, 0)%nat
  /\ In (Requests metrics.OperationChat 200) l.
Proof. vm_compute. split; [done|]. tauto. Qed.

(** An informational response masks the outcome.  When the engine sends
    100 Continue before failing, the request is counted under code 100 and no
    5xx is recorded, so the failure is invisible to the error rate. *)
Theorem informational_masks_failure :
  let l := serve_at (Answered [100] 503 "text/plain" [([], ReadEOF)]) in
  In (Requests metrics.OperationChat 100) l
  /\ forall op code, In (Requests op code) l -> code = 100.
Proof.
  vm_compute. split; [tauto|]. intros op code H.
  repeat (destruct H as [H|H]; [first [discriminate H|by injection H]|]). destruct H.
Qed.

Lemma request_accounted_once_witness :
  let l := serve_at (Answered [] 200 "text/event-stream" [(token "a", ReadError "reset")]) in
  count is_request l = 1%nat /\ In (UpstreamErrors metrics.ReasonStreamAborted) l.
Proof.
  pose proof (request_accounted_once tick (fun _ => false) 0 0 "POST" "/v1/chat/completions" (Answered [] 200 "text/event-stream" [(token "a", ReadError "reset")]) false
    ltac:(vm_compute; done)) as H.
  unfold serve_at. destruct (serveProxy _ _ _ _ _ _ _ _) as [w [live l]] eqn:E.
  destruct H as (_ & H & _). split; [exact H|].
  change l with (snd (snd (w, (live, l)))). rewrite <- E. vm_compute. tauto.
Defined.

Lemma errors_attributed_witness :
  isEventStream "text/event-stream" = true.
Proof.
  refine (proj1 (errors_attributed tick (fun _ => false) 0 0 "POST" "/v1/chat/completions"
    (Answered [] 200 "text/event-stream" [(token "a", ReadError "reset")]) false metrics.ReasonStreamAborted _)).
  vm_compute. tauto.
Defined.

End shim.
