(* ===== verification/ShimMetrics.v ===== *)
(** * The collectors of the shim (cmd/shim/metrics.go, newMetrics)

    What the shim registers: each collector with its name, kind, labels and
    buckets, and the series published before the first request.  The queries of
    the analysis and of the autoscaler (Analysis.v) are texts; the theorem ties
    the two programs together: every selector of a rendered query reads a
    collector the shim registers, with labels the shim carries. *)

From S2P Require Import Prelude GoFloat GoFmt GoStrings ApiTypes Metrics Naming Analysis Observability ControllerPlan ControllerChildren ShimConfig.
Import v1alpha1.
Local Open Scope Z_scope.
Local Open Scope go_scope.

Module shimmetrics.
Import metrics shimconfig.

Inductive Kind := KCounter | KGauge | KHistogram (buckets : list f64.t).

Record Collector := MkCollector {
  c_Name : string; c_Kind : Kind; c_Help : string;
  c_ConstLabels : list (string * string); c_Labels : list string }.

Definition ttftBuckets : list f64.t := TTFTBuckets.
Definition durationBuckets : list f64.t := DurationBuckets.
Definition tpotBuckets : list f64.t := TPOTBuckets.

Definition constLabels (cfg : config) : list (string * string) :=
  [(LabelNamespace, namespace cfg); (LabelModelDeployment, modelDeployment cfg);
   (LabelModel, model cfg); (LabelVariant, variant cfg)].

(** [newMetrics]: the collectors of the struct, in the order of registration;
    [version] is stamped at build time. *)
Definition newMetrics (version : string) (cfg : config) : list Collector :=
  let plain name kind help labels := MkCollector name kind help (constLabels cfg) labels in
  [ plain RequestsTotal KCounter "Inference requests completed, by operation and HTTP status code."
      [LabelOperation; LabelCode];
    plain RequestsStartedTotal KCounter
      "Inference POST requests admitted, before upstream completion, by operation." [LabelOperation];
    plain RequestDurationSeconds (KHistogram durationBuckets) "End-to-end inference request duration in seconds."
      [LabelOperation];
    plain TTFTSeconds (KHistogram ttftBuckets)
      ("Time to the first content-bearing SSE event, including reasoning and tool output, "
       +:+ "in seconds. Streaming requests only.") [];
    plain TPOTSeconds (KHistogram tpotBuckets)
      ("Deprecated: response duration after first content divided by remaining content chunks; "
       +:+ "not time per tokenizer token.") [];
    plain OutputTokensTotal KCounter
      ("Deprecated: content-bearing SSE chunks, not tokenizer tokens. "
       +:+ "Use llmcp_inference_output_chunks_total.") [];
    plain OutputChunksTotal KCounter
      "First-choice SSE events carrying content, reasoning, or tool-call output." [];
    plain ReportedOutputTokensTotal KCounter
      ("Explicit completion_tokens reported by successful completed responses; "
       +:+ "missing usage is not estimated.") [];
    plain UsageRequestsTotal KCounter
      "Successful completed responses supplying valid completion_tokens usage." [];
    plain InterChunkSeconds (KHistogram tpotBuckets)
      "Time between successive content-bearing SSE events as read from upstream, in seconds." [];
    plain RequestsInFlight KGauge "Inference requests currently being proxied." [];
    plain QueueDepth KGauge "In-flight requests beyond the engine's concurrency, i.e. waiting for a slot." [];
    plain UpstreamErrorsTotal KCounter
      "Failures reaching or reading from the engine, as opposed to errors it returned." [LabelReason];
    MkCollector ShimInfo KGauge "Always 1. Carries shim build and target metadata as labels."
      (constLabels cfg ++ [("upstream", u_Text (upstream cfg)); ("version", version)]) [] ].

(** The series of the vectors published at start, with the values of their
    variable labels. *)
Definition primed : list (string * list string) :=
  (OutputTokensTotal, [])
  :: map (fun op => (RequestsTotal, [op; format_int 200])) [OperationChat; OperationCompletion]
  ++ map (fun op => (RequestsStartedTotal, [op])) [OperationChat; OperationCompletion; OperationEmbeddings].

(** ** Queries as fragments *)

(** A query text is cut into brace-free text and reads of a series over a
    window. *)
Inductive Fragment :=
  | Text (s : string)
  | Reads (c : Collector) (extra window : string).

Definition series_of (c : Collector) : string :=
  match c_Kind c with KHistogram _ => c_Name c +:+ "_bucket" | _ => c_Name c end.

Definition render (sel : string) (f : Fragment) : string :=
  match f with
  | Text s => s
  | Reads c extra window => series_of c +:+ "{" +:+ sel +:+ extra +:+ "}[" +:+ window +:+ "]"
  end.

Definition render_all (sel : string) (l : list Fragment) : string := foldr (fun f acc => render sel f +:+ acc) "" l.

Definition braces_free (s : string) : bool :=
  forallb (fun c => negb (c == "{"%char)) (String.list_ascii_of_string s).

(** The extra matcher of the error rate. *)
Definition server_errors : string := "," +:+ LabelCode +:+ "=~" +:+ dq +:+ "5.." +:+ dq.

Definition fragment_ok (registered : list Collector) (f : Fragment) : Prop :=
  match f with
  | Text s => braces_free s = true
  | Reads c extra _ => In c registered /\ (extra = "" \/ extra = server_errors /\ In LabelCode (c_Labels c))
  end.

(** Equality matchers as text. *)
Fixpoint matchers_text (l : list (string * string)) : string :=
  match l with
  | [] => ""
  | [(k, v)] => k +:+ "=" +:+ gofmt.Quote v
  | (k, v) :: l' => k +:+ "=" +:+ gofmt.Quote v +:+ "," +:+ matchers_text l'
  end.

Definition query_over (registered : list Collector) (matchers : list (string * string)) (q : string) : Prop :=
  exists frags,
    q = render_all (matchers_text matchers) frags
    /\ Forall (fragment_ok registered) frags
    /\ (exists c extra w, In (Reads c extra w) frags)
    /\ forall c extra w, In (Reads c extra w) frags -> incl matchers (c_ConstLabels c).

Definition fleet_matchers (qc : analysis.QueryContext) : list (string * string) :=
  [(LabelNamespace, analysis.qc_Namespace qc); (LabelModelDeployment, analysis.qc_ModelDeployment qc)].

Definition variant_matchers (qc : analysis.QueryContext) : list (string * string) :=
  fleet_matchers qc ++ [(LabelVariant, analysis.qc_Variant qc)].

Lemma fleet_text qc : analysis.fleetSelector qc = matchers_text (fleet_matchers qc).
Proof. unfold analysis.fleetSelector. cbn [fleet_matchers matchers_text]. done. Qed.

Lemma variant_text qc : analysis.selector qc = matchers_text (variant_matchers qc).
Proof.
  unfold analysis.selector, analysis.fleetSelector, variant_matchers, fleet_matchers. cbn [app matchers_text].
  by rewrite !gopath.str_app_assoc.
Qed.

(** ** Rendering *)

Lemma str_app_nil_r (s : string) : s +:+ "" = s.
Proof. induction s as [|c s IH]; [done|]. exact (f_equal (String c) IH). Qed.

Lemma render_reads sel c extra w rest :
  render_all sel (Reads c extra w :: rest)
  = series_of c +:+ "{" +:+ sel +:+ extra +:+ "}[" +:+ w +:+ "]" +:+ render_all sel rest.
Proof. cbn [render_all foldr render]. by rewrite !gopath.str_app_assoc. Qed.

Lemma render_text sel s rest : render_all sel (Text s :: rest) = s +:+ render_all sel rest.
Proof. done. Qed.

(** One read between two texts. *)
Lemma query_over_one registered matchers q pre c w post :
  In c registered -> incl matchers (c_ConstLabels c) -> braces_free pre = true -> braces_free post = true ->
  q = pre +:+ series_of c +:+ "{" +:+ matchers_text matchers +:+ "}[" +:+ w +:+ "]" +:+ post ->
  query_over registered matchers q.
Proof.
  intros Hc Hi Hpre Hpost ->. exists [Text pre; Reads c "" w; Text post]. split_and!.
  - rewrite render_text, render_reads, render_text. cbn [render_all foldr]. by rewrite str_app_nil_r.
  - repeat constructor; try done; by left.
  - exists c, "", w. cbn; auto.
  - intros c' extra' w' [H|[H|[H|[]]]]; [done| |done]. by injection H as <- _ _.
Qed.

(** The three reads of the error rate, between [pre] and [post]. *)
Lemma query_over_errors registered qc c pre post :
  In c registered -> c_Name c = RequestsTotal -> c_Kind c = KCounter -> In LabelCode (c_Labels c) ->
  incl (variant_matchers qc) (c_ConstLabels c) -> braces_free pre = true -> braces_free post = true ->
  query_over registered (variant_matchers qc) (pre +:+ analysis.errorRateQuery qc +:+ post).
Proof.
  intros Hc Hn Hk Hl Hi Hpre Hpost. set (w := analysis.qc_Window qc).
  exists [Text pre; Text "(sum(rate("; Reads c server_errors w; Text ")) or 0 * sum(rate("; Reads c "" w;
          Text "))) / clamp_min(sum(rate("; Reads c "" w; Text ")), 1e-9)"; Text post]. split_and!.
  - unfold analysis.errorRateQuery, analysis.rate_sum. cbv zeta. rewrite !variant_text.
    rewrite !render_text, !render_reads, !render_text, !render_reads, !render_text, !render_reads, !render_text.
    unfold series_of. rewrite Hk, Hn. cbn [render_all foldr]. rewrite str_app_nil_r.
    by rewrite !gopath.str_app_assoc.
  - repeat apply List.Forall_cons; try apply List.Forall_nil; cbn [fragment_ok]; auto.
  - exists c, "", w. cbn; tauto.
  - intros c' extra' w' H. cbn in H.
    repeat (destruct H as [H|H]; [first [discriminate H|injection H as <- _ _; exact Hi]|]). destruct H.
Qed.

(** ** Properties *)

(** The shim the operator runs for a variant of a resource. *)
Definition shim_of (ns name v : string) (cfg : config) : Prop :=
  namespace cfg = ns /\ modelDeployment cfg = name /\ variant cfg = v.

Lemma const_identity version cfg c :
  In c (newMetrics version cfg) -> incl (constLabels cfg) (c_ConstLabels c).
Proof.
  intros H kv Hkv. cbn [newMetrics In] in H.
  repeat (destruct H as [<-|H]; [first [exact Hkv|apply in_app_iff; by left]|]). destruct H.
Qed.

Lemma identity_matchers qc cfg :
  shim_of (analysis.qc_Namespace qc) (analysis.qc_ModelDeployment qc) (analysis.qc_Variant qc) cfg ->
  incl (variant_matchers qc) (constLabels cfg) /\ incl (fleet_matchers qc) (constLabels cfg).
Proof.
  intros (E1 & E2 & E3). unfold variant_matchers, fleet_matchers, constLabels. rewrite E1, E2, E3.
  split; intros kv Hkv; cbn in *; tauto.
Qed.

(** The fleet's matchers do not name the variant. *)
Lemma identity_fleet qc v cfg :
  shim_of (analysis.qc_Namespace qc) (analysis.qc_ModelDeployment qc) v cfg -> incl (fleet_matchers qc) (constLabels cfg).
Proof. intros (E1 & E2 & _). unfold fleet_matchers, constLabels. rewrite E1, E2. intros kv Hkv. cbn in *. tauto. Qed.

Definition no_collector : Collector := MkCollector "" KCounter "" [] [].

(** A query of one read, of the collector registered at position [k]. *)
Lemma query_over_nth version cfg k matchers q pre w post :
  (k < length (newMetrics version cfg))%nat -> incl matchers (constLabels cfg) ->
  braces_free pre = true -> braces_free post = true ->
  q = pre +:+ series_of (nth k (newMetrics version cfg) no_collector) +:+ "{" +:+ matchers_text matchers
      +:+ "}[" +:+ w +:+ "]" +:+ post ->
  query_over (newMetrics version cfg) matchers q.
Proof.
  intros Hk Hm Hpre Hpost Hq. pose proof (nth_In _ no_collector Hk) as Hin.
  eapply query_over_one; [exact Hin| |exact Hpre|exact Hpost|exact Hq]. eapply incl_tran; [exact Hm|]. by eapply const_identity.
Qed.

Ltac reads_one qc k pre post :=
  apply (query_over_nth _ _ k _ _ pre (analysis.qc_Window qc) post); [cbn; lia|assumption|reflexivity|reflexivity|];
  unfold analysis.histogramQuantile, analysis.rate_sum; rewrite ?fleet_text, ?variant_text;
  generalize (matchers_text (variant_matchers qc)), (matchers_text (fleet_matchers qc)), (analysis.qc_Window qc);
  clear; intros; vm_compute; reflexivity.

Lemma builtin_reads version cfg qc b q :
  incl (variant_matchers qc) (constLabels cfg) -> analysis.builtinQuery b qc = analysis.Ok q ->
  query_over (newMetrics version cfg) (variant_matchers qc) q.
Proof.
  intros Hv. unfold analysis.builtinQuery. destruct (analysis.validateIdentity qc); [|done]. cbv zeta.
  assert (Herr : forall pre post, braces_free pre = true -> braces_free post = true ->
            query_over (newMetrics version cfg) (variant_matchers qc) (pre +:+ analysis.errorRateQuery qc +:+ post)).
  { intros pre post Hpre Hpost.
    apply (query_over_errors _ _ (nth 0 (newMetrics version cfg) no_collector));
      [left; reflexivity|reflexivity|reflexivity|right; left; reflexivity|exact Hv|exact Hpre|exact Hpost]. }
  destruct b; intros [= <-].
  - reads_one qc 3%nat "histogram_quantile(0.95, sum by (le) (rate(" ")))".
  - reads_one qc 3%nat "histogram_quantile(0.99, sum by (le) (rate(" ")))".
  - reads_one qc 2%nat "histogram_quantile(0.95, sum by (le) (rate(" ")))".
  - specialize (Herr "" "" eq_refl eq_refl). by rewrite str_app_nil_r in Herr.
  - exact (Herr "1 - (" ")" eq_refl eq_refl).
  - reads_one qc 11%nat "avg(avg_over_time(" "))".
  - reads_one qc 7%nat "sum(rate(" "))".
  - reads_one qc 6%nat "sum(rate(" "))".
Qed.

(** C23: every query reads a series its shim exports.  For the shim the operator
    runs beside a variant, every selector of every built-in metric, of the
    traffic gate, of the usage gate and of the autoscaler names a collector that
    shim registers, in the form its kind exports, and each of its equality
    matchers is a label of that collector; the only other matcher is the status
    class, on a collector labelled by code.  The names registered are distinct,
    so registration does not panic.  The analysis and gate queries carry the
    variant, and a shim of another variant matches none of them; the autoscaler's
    queries do not, and read the shims of every variant of the resource. *)
Theorem queries_read_registered_series version cfg qc :
  shim_of (analysis.qc_Namespace qc) (analysis.qc_ModelDeployment qc) (analysis.qc_Variant qc) cfg ->
  let registered := newMetrics version cfg in
  NoDup (map c_Name registered)
  /\ (forall b q, analysis.builtinQuery b qc = analysis.Ok q -> query_over registered (variant_matchers qc) q)
  /\ (forall q, analysis.RequestRateQuery qc = analysis.Ok q -> query_over registered (variant_matchers qc) q)
  /\ (forall q, analysis.UsageSamplesQuery qc = analysis.Ok q -> query_over registered (variant_matchers qc) q)
  /\ (forall m q cfg' v, shim_of (analysis.qc_Namespace qc) (analysis.qc_ModelDeployment qc) v cfg' ->
        analysis.AutoscalingQuery m qc = analysis.Ok q -> query_over (newMetrics version cfg') (fleet_matchers qc) q)
  /\ (forall cfg' c, variant cfg' <> analysis.qc_Variant qc -> In c (newMetrics version cfg') ->
        ~ incl (variant_matchers qc) (c_ConstLabels c)).
Proof.
  intros Hs registered. destruct (identity_matchers _ _ Hs) as [Hv Hf]. split_and!.
  - apply (bool_decide_unpack _). vm_compute. exact I.
  - intros b q. by apply builtin_reads.
  - intros q. unfold analysis.RequestRateQuery. destruct (analysis.validateIdentity qc); [|done]. intros [= <-].
    reads_one qc 0%nat "sum(rate(" "))".
  - intros q. unfold analysis.UsageSamplesQuery. destruct (analysis.validateIdentity qc); [|done]. intros [= <-].
    reads_one qc 8%nat "sum(increase(" "))".
  - intros m q cfg' v Hs'. apply identity_fleet in Hs'. unfold analysis.AutoscalingQuery.
    destruct (analysis.validateIdentity qc); [|done]. cbv zeta. destruct m; intros H; try discriminate H; injection H as <-.
    + reads_one qc 11%nat "sum(avg_over_time(" "))".
    + reads_one qc 10%nat "sum(avg_over_time(" "))".
  - intros cfg' c Hne Hin Hinc.
    specialize (Hinc (LabelVariant, analysis.qc_Variant qc) ltac:(cbn; auto)). cbn [newMetrics In] in Hin.
    repeat (destruct Hin as [<-|Hin];
            [cbn in Hinc; repeat (destruct Hinc as [Hinc|Hinc]; [by injection Hinc|]); by destruct Hinc|]). done.
Qed.

Lemma queries_read_registered_series_witness :
  let cfg := MkConfig ":8080" ":9090" (MkURL "http" "127.0.0.1:8000" "http://127.0.0.1:8000") "/health" "qwen3"
               "default" "demo" "canary" 4 "info" defaultShutdownGrace in
  let qc := analysis.MkQueryContext "default" "demo" "qwen3" "canary" "120s" in
  match analysis.builtinQuery MetricErrorRate qc with
  | analysis.Ok q => query_over (newMetrics "dev" cfg) (variant_matchers qc) q
  | analysis.Err _ => False
  end.
Proof.
  intros cfg qc.
  destruct (queries_read_registered_series "dev" cfg qc) as (_ & H & _); [repeat split; reflexivity|].
  exact (H MetricErrorRate _ eq_refl).
Defined.

End shimmetrics.
