(* ===== verification/AnalysisProviders.v ===== *)
(** * The metric providers (internal/analysis/prometheus.go, fake.go)

    Two implementations of the interface [Provider] of Analysis.v.  The client
    of the Prometheus HTTP API: the transport, [url.Parse] and the texts of
    decoding errors are parameters; decoding and what is decided from the answer
    are the code.  The scripted provider replays answers to tests. *)

From S2P Require Import Prelude GoFloat GoFmt GoStrings GoStrconv GoJson GoJsonFacts ApiTypes Analysis ShimSSE.
Import v1alpha1.
Local Open Scope Z_scope.
Local Open Scope go_scope.

Module providers.
Import analysis.

(** ** Prometheus *)

Record PrometheusProvider := MkPrometheusProvider {
  pp_Address : string; pp_Timeout : time.Duration }.

Definition maxResponseBytes : Z := 4194304.

(** [promResponse]; a sample value is a list of raw JSON texts. *)
Record promResponse := MkPromResponse {
  pr_Status : string; pr_ResultType : string; pr_Result : list (list string);
  pr_ErrorType : string; pr_Error : string }.

(** The same struct with its tags. *)
Definition promResponse_t : json.ty :=
  json.TStruct (json.FCons "status" false json.TString
    (json.FCons "data" false
       (json.TStruct (json.FCons "resultType" false json.TString
          (json.FCons "result" false
             (json.TSlice (json.TStruct (json.FCons "value" false (json.TSlice json.TRawMessage) json.FNil))) json.FNil)))
    (json.FCons "errorType" false json.TString (json.FCons "error" false json.TString
    (json.FCons "warnings" false (json.TSlice json.TString) json.FNil))))).

Definition response_of (v : json.interp promResponse_t) : promResponse :=
  let '(status, ((resultType, (result, _)), (errorType, (error, _)))) := v in
  MkPromResponse status resultType
    (map (fun r => map (fun raw => json.to_string (from_ptr [] raw)) (json.elems (fst r))) (json.elems result))
    errorType error.

(** [strings.TrimRight(s, "/")]. *)
Fixpoint TrimRight_slash (s : string) : string :=
  match s with
  | EmptyString => EmptyString
  | String c s' =>
      match TrimRight_slash s' with
      | EmptyString => if c == "/"%char then EmptyString else String c EmptyString
      | t => String c t
      end
  end.

(** [url.QueryEscape]. *)
Definition hex_digit (n : N) : ascii := Ascii.ascii_of_N (if (n <? 10)%N then 48 + n else 55 + n)%N.

Definition unreserved (c : ascii) : bool :=
  let n := Ascii.N_of_ascii c in
  ((48 <=? n) && (n <=? 57) || (65 <=? n) && (n <=? 90) || (97 <=? n) && (n <=? 122)
   || (n =? 45) || (n =? 95) || (n =? 46) || (n =? 126))%N.

Fixpoint QueryEscape (s : string) : string :=
  match s with
  | EmptyString => ""
  | String c s' =>
      if unreserved c then String c (QueryEscape s')
      else if c == " "%char then String "+" (QueryEscape s')
      else
        let n := Ascii.N_of_ascii c in
        String "%" (String (hex_digit (n / 16)) (String (hex_digit (n mod 16)) (QueryEscape s')))
  end.

(** [url.Values.Encode] of the one parameter. *)
Definition form (query : string) : string := "query=" +:+ QueryEscape query.

Section Client.
(** [url.Parse] and its [String]; the error of [http.NewRequest], if any; the
    POST of a form within a timeout, giving the status code and the whole body or
    a read error; the text of an error of [json.Unmarshal]. *)
Context {W : Type}.
Context (Parse : string -> string + string) (NewRequest : string -> option string).
Context (Post : W -> string -> string -> time.Duration -> W * ((Z * (string + string)) + string)).
Context (json_error : string -> string).

(** [json.Unmarshal] of the envelope and of a raw value. *)
Definition Unmarshal (body : string) : promResponse + string :=
  match json.Unmarshal promResponse_t (json.of_string body) with
  | Some v => inl (response_of v)
  | None => inr (json_error body)
  end.

Definition UnmarshalString (raw : string) : string + string :=
  match json.Unmarshal json.TString (json.of_string raw) with
  | Some s => inl s
  | None => inr (json_error raw)
  end.

Definition scalarFrom (pair : list string) : f64.t + string :=
  match pair with
  | [_; value] =>
      match UnmarshalString value with
      | inr e => inr ("decoding sample value: " +:+ e)
      | inl raw =>
          match strconv.ParseFloat raw with
          | inr e => inr ("sample value " +:+ gofmt.Quote raw +:+ " is not a number: " +:+ e)
          | inl v => inl v
          end
      end
  | _ =>
      inr ("malformed sample: expected [timestamp, value], got " +:+ format_int (Z.of_nat (length pair)) +:+ " elements")
  end.

(** What is concluded from a decoded answer. *)
Definition sample_of (address : string) (code : Z) (d : promResponse) : result Sample :=
  if pr_Status d != statusSuccess then
    let msg := if pr_Error d == "" then "HTTP " +:+ format_int code else pr_Error d in
    Err ("query rejected by " +:+ address +:+ ": " +:+ msg +:+ " (" +:+ pr_ErrorType d +:+ ")")
  else if pr_ResultType d != "vector" then
    Err ("query returned a " +:+ gofmt.Quote (pr_ResultType d) +:+ " result; an instant vector is required")
  else
    match pr_Result d with
    | [] => Ok (MkSample f64.zero 0)
    | [value] => match scalarFrom value with inr e => Err e | inl v => Ok (MkSample v 1) end
    | results => Ok (MkSample f64.zero (Z.of_nat (length results)))
    end.

Definition resolved_timeout (p : PrometheusProvider) : time.Duration :=
  if pp_Timeout p <=? 0 then 10 * time.Second else pp_Timeout p.

Definition PrometheusQuery (p : PrometheusProvider) : Provider W := fun w query =>
  if bool_decide (sse.TrimSpace (sse.of_string (pp_Address p)) = []) then
    (w, Err ("no metric provider address configured: " +:+ "set spec.rollout.canary.analysis.provider.address"))
  else
    match Parse (TrimRight_slash (pp_Address p) +:+ "/api/v1/query") with
    | inr e => (w, Err ("parsing provider address " +:+ gofmt.Quote (pp_Address p) +:+ ": " +:+ e))
    | inl endpoint =>
      match NewRequest endpoint with
      | Some e => (w, Err ("building query request: " +:+ e))
      | None =>
        let (w, answer) := Post w endpoint (form query) (resolved_timeout p) in
        match answer with
        | inr e => (w, Err ("querying " +:+ pp_Address p +:+ ": " +:+ e))
        | inl (_, inr e) => (w, Err ("reading response from " +:+ pp_Address p +:+ ": " +:+ e))
        | inl (code, inl body) =>
            match Unmarshal (gofmt.str_take (Z.to_nat maxResponseBytes) body) with
            | inr e =>
                (w, Err ("decoding response from " +:+ pp_Address p +:+ " (HTTP " +:+ format_int code +:+ "): " +:+ e))
            | inl d => (w, sample_of (pp_Address p) code d)
            end
        end
      end
    end.

(** ** Properties of the client *)

(** The client never invents a measurement.  It reports one value only for
    a successful instant vector of exactly one series whose second element
    is a JSON string of that number; an empty vector is reported as no series, several
    series by their number; and everything else - no address, an unreachable or
    failing server, a body that does not decode, another shape - is an error, so
    that a check on it is Inconclusive or Error and never a pass or a failure. *)
Theorem measurement_needs_one_series p w query m :
  match snd (PrometheusQuery p w query) with
  | Err _ => mc_Verdict (Evaluate m (snd (PrometheusQuery p w query))) = VerdictError
  | Ok s =>
      exists w' endpoint code body d,
        snd (Post w' endpoint (form query) (resolved_timeout p)) = inl (code, inl body)
        /\ Unmarshal (gofmt.str_take (Z.to_nat maxResponseBytes) body) = inl d
        /\ pr_Status d = statusSuccess /\ pr_ResultType d = "vector"
        /\ smp_Count s = Z.of_nat (length (pr_Result d))
        /\ (smp_Count s = 1 -> exists stamp value raw, pr_Result d = [[stamp; value]]
              /\ UnmarshalString value = inl raw /\ strconv.ParseFloat raw = inl (smp_Value s))
        /\ (smp_Count s <> 1 ->
              mc_Verdict (Evaluate m (Ok s)) = (if smp_Count s =? 0 then VerdictInconclusive else VerdictError))
  end.
Proof.
  unfold PrometheusQuery. destruct (bool_decide _); [done|].
  destruct (Parse _) as [endpoint|e]; [|done]. destruct (NewRequest endpoint); [done|].
  destruct (Post w endpoint (form query) (resolved_timeout p)) as [w1 [[code [body|e]]|e]] eqn:Ep; [|done..].
  destruct (Unmarshal _) as [d|e] eqn:Eu; [|done]. cbn [snd].
  destruct (sample_of (pp_Address p) code d) as [s|e] eqn:Es; [|done].
  exists w, endpoint, code, body, d. rewrite Ep. split; [done|]. split; [done|]. revert Es. unfold sample_of.
  destruct (bool_decide (pr_Status d = _)) eqn:E1; cbn [negb]; [|done].
  destruct (bool_decide (pr_ResultType d = _)) eqn:E2; cbn [negb]; [|done]. go_bools.
  destruct (pr_Result d) as [|value [|value' rest]]; intros Es.
  - injection Es as <-. cbn. by split_and!.
  - unfold scalarFrom in Es. destruct value as [|stamp [|v [|]]]; try done.
    destruct (UnmarshalString v) as [raw|] eqn:Er; [|done]. destruct (strconv.ParseFloat raw) as [x|] eqn:Ef; [|done].
    injection Es as <-. cbn. split_and!; [done..| |done]. intros _. by exists stamp, v, raw.
  - injection Es as <-. cbn [smp_Count length]. split_and!; [done..|lia|]. intros _. unfold Evaluate. cbn [smp_Count].
    rewrite (proj2 (Z.eqb_neq _ 0)), (proj2 (Z.ltb_lt 1 _)) by lia. done.
Qed.

(** The answer of a server to an instant query with one series: its labels, the
    time stamp, and the value as a string. *)
Definition member (name : string) (j : json.node) : json.bytes * (json.bytes * json.node) :=
  (json.of_string name, json.with_text j).

Definition vector_body (labels stamp : json.node) (value : json.bytes) : json.node :=
  json.Obj [member "status" (json.Str (json.of_string "success"));
            member "data" (json.Obj
              [member "resultType" (json.Str (json.of_string "vector"));
               member "result" (json.Arr [json.with_text (json.Obj
                 [member "metric" labels;
                  member "value" (json.Arr [json.with_text stamp; json.with_text (json.Str value)])])])])].

Lemma vector_printable n labels stamp value :
  json_facts.printable n labels -> json_facts.printable n stamp ->
  json_facts.printable (S (S (S (S (S (S n)))))) (vector_body labels stamp value).
Proof.
  intros Hl Hs. assert (Hm : forall k j, (n <= k)%nat -> json_facts.printable n j -> json_facts.printable k j)
    by (intros k j Hk; by apply json_facts.printable_mono).
  unfold vector_body, member, json.with_text.
  repeat lazymatch goal with
  | |- json_facts.printable _ labels => by apply Hm; [lia|]
  | |- json_facts.printable _ stamp => by apply Hm; [lia|]
  | |- json_facts.printable _ (json.Obj _) => apply json_facts.printable_obj
  | |- json_facts.printable _ (json.Arr _) => apply json_facts.printable_arr
  | |- Forall _ (_ :: _) => apply List.Forall_cons; [refine (conj eq_refl _); cbn [fst snd]|]
  | |- _ => first [apply List.Forall_nil | exact I]
  end.
Qed.

Lemma vector_decoded n labels stamp value :
  json_facts.printable n labels -> json_facts.printable n stamp -> Z.of_nat n <= 9000 ->
  let body := json.to_string (json.print (vector_body labels stamp value)) in
  Unmarshal body
  = inl (MkPromResponse "success" "vector"
           [[json.to_string (json.print stamp); json.to_string (json.print (json.Str value))]] "" "").
Proof.
  intros Hl Hs Hn body. unfold Unmarshal, body, json.of_string, json.to_string.
  rewrite String.list_ascii_of_string_of_list_ascii. unfold json.Unmarshal.
  rewrite (json_facts.parse_printed (S (S (S (S (S (S n))))))) by (by apply vector_printable || (unfold json.maxNestingDepth; lia)).
  cbn [mbind option_bind].
  cbn [vector_body member json_facts.norm map fst snd json.with_text].
  generalize (json_facts.norm labels), (json_facts.norm stamp), (json.coerce value). intros a b c. 
  generalize (json.print stamp), (json.print (json.Str value)). intros d e.
  repeat match goal with |- context [json.print ?j] => generalize (json.print j); intros ? end.
  vm_compute. reflexivity.
Qed.

Lemma str_take_whole n s : (String.length s <= n)%nat -> gofmt.str_take n s = s.
Proof.
  unfold gofmt.str_take. revert n. induction s as [|c s IH]; intros n Hn; [by destruct n|].
  destruct n as [|n]; [cbn in Hn; lia|]. cbn. f_equal. apply IH. cbn in Hn. lia.
Qed.

(** C38: What the server answers is what is measured.  When the server answers the
    query with an instant vector of one series - whatever its labels and time
    stamp, within the size limit - the client reports exactly one series with the
    float its value denotes, special values included, whatever the status code. *)
Theorem served_value_is_measured p w query endpoint w' code n labels stamp value x :
  bool_decide (sse.TrimSpace (sse.of_string (pp_Address p)) = []) = false ->
  Parse (TrimRight_slash (pp_Address p) +:+ "/api/v1/query") = inl endpoint -> NewRequest endpoint = None ->
  json_facts.printable n labels -> json_facts.printable n stamp -> Z.of_nat n <= 9000 ->
  let body := json.to_string (json.print (vector_body labels stamp value)) in
  Z.of_nat (String.length body) <= maxResponseBytes ->
  Post w endpoint (form query) (resolved_timeout p) = (w', inl (code, inl body)) ->
  strconv.ParseFloat (json.to_string (json.coerce value)) = inl x ->
  PrometheusQuery p w query = (w', Ok (MkSample x 1)).
Proof.
  intros Ha Hp Hr Hl Hs Hn body Hb Hpost Hx. unfold PrometheusQuery. rewrite Ha, Hp, Hr, Hpost.
  rewrite str_take_whole by lia. unfold body. rewrite (vector_decoded n) by done.
  assert (Hv : UnmarshalString (json.to_string (json.print (json.Str value))) = inl (json.to_string (json.coerce value))).
  { unfold UnmarshalString, json.of_string, json.to_string. rewrite String.list_ascii_of_string_of_list_ascii.
    unfold json.Unmarshal. by rewrite (json_facts.parse_printed 1). }
  unfold sample_of. cbn [pr_Status pr_ResultType pr_Result]. cbn [negb]. unfold scalarFrom. rewrite Hv, Hx. done.
Qed.

End Client.

Lemma served_value_is_measured_witness :
  let labels := json.Obj [member "job" (json.Str (json.of_string "shim"))] in
  let stamp := json.Num (json.of_string "1700000000") in
  let body := json.to_string (json.print (vector_body labels stamp (json.of_string "0.95"))) in
  PrometheusQuery inl (fun _ => None) (fun w _ _ _ => (S w, inl (200, inl body))) (fun _ => "")
    (MkPrometheusProvider "http://prom" 0) 0%nat "up"
  = (1%nat, Ok (MkSample (f64.div (f64.of_Z 95) (f64.of_Z 100)) 1)).
Proof.
  intros labels stamp body.
  apply (served_value_is_measured inl (fun _ => None) (fun w _ _ _ => (S w, inl (200, inl body))) (fun _ => "")
           (MkPrometheusProvider "http://prom" 0) 0%nat "up" "http://prom/api/v1/query" 1%nat 200 3 labels stamp
           (json.of_string "0.95")).
  - reflexivity.
  - reflexivity.
  - reflexivity.
  - repeat constructor.
  - apply (json_facts.format_int_number 1700000000). vm_compute. split; discriminate.
  - vm_compute. discriminate.
  - vm_compute. discriminate.
  - reflexivity.
  - vm_compute. reflexivity.
Defined.

(** ** The scripted provider *)

Record Step := MkStep {
  st_Value : f64.t; st_Count : option Z; st_Err : option string; st_Match : string }.

Definition Pass (value : f64.t) : Step := MkStep value None None "".
Definition Empty : Step := MkStep f64.zero (Some 0) None "".
Definition Multi (n : Z) : Step := MkStep f64.zero (Some n) None "".
Definition Fail_ (err : string) : Step := MkStep f64.zero None (Some err) "".
Definition For (s : Step) (substr : string) : Step := MkStep (st_Value s) (st_Count s) (st_Err s) substr.

Record ScriptedProvider := MkScripted {
  sp_steps : list Step; sp_pos : nat; sp_Repeat : bool; sp_Queries : list string }.

Definition NewScripted (steps : list Step) : ScriptedProvider := MkScripted steps 0 false [].

Definition with_pos (p : ScriptedProvider) (pos : nat) : ScriptedProvider :=
  MkScripted (sp_steps p) pos (sp_Repeat p) (sp_Queries p).

(** The first positional step of a list, with the number of steps up to it. *)
Fixpoint positional (steps : list Step) : option (nat * Step) :=
  match steps with
  | [] => None
  | s :: steps' =>
      if st_Match s == "" then Some (1%nat, s)
      else match positional steps' with Some (n, s') => Some (S n, s') | None => None end
  end.

(** [next]: standing answers first; then the script from its position; then,
    with [Repeat], from its start. *)
Definition next (p : ScriptedProvider) (query : string) : ScriptedProvider * option Step :=
  match List.find (fun s => (st_Match s != "") && gofmt.Contains query (st_Match s)) (sp_steps p) with
  | Some s => (p, Some s)
  | None =>
      match positional (drop (sp_pos p) (sp_steps p)) with
      | Some (n, s) => (with_pos p (sp_pos p + n), Some s)
      | None =>
          let p := with_pos p (Nat.max (sp_pos p) (length (sp_steps p))) in
          if sp_Repeat p then
            match positional (sp_steps p) with
            | Some (n, s) => (with_pos p n, Some s)
            | None => (p, None)
            end
          else (p, None)
      end
  end.

Definition ScriptedQuery : Provider ScriptedProvider := fun p query =>
  let p := MkScripted (sp_steps p) (sp_pos p) (sp_Repeat p) (sp_Queries p ++ [query]) in
  let (p, step) := next p query in
  match step with
  | None =>
      (p, Err ("scripted provider exhausted after " +:+ format_int (Z.of_nat (length (sp_steps p)))
               +:+ " answers; query " +:+ format_int (Z.of_nat (sp_pos p) + 1) +:+ " was: " +:+ query))
  | Some s =>
      match st_Err s with
      | Some e => (p, Err e)
      | None => (p, Ok (MkSample (st_Value s) (from_ptr 1 (st_Count s))))
      end
  end.

Definition unmatched (steps : list Step) : nat := length (List.filter (fun s => st_Match s == "") steps).

Definition Remaining (p : ScriptedProvider) : nat := unmatched (drop (sp_pos p) (sp_steps p)).

Definition ErrProviderDown : string := "connection refused: the metric provider is unreachable".

Lemma positional_spec steps n s :
  positional steps = Some (n, s) ->
  st_Match s = "" /\ (n <= length steps)%nat /\ unmatched steps = S (unmatched (drop n steps)).
Proof.
  revert n s. induction steps as [|x steps IH]; intros n s; cbn; [done|]. unfold unmatched in *. cbn.
  destruct (bool_decide (st_Match x = "")) eqn:E.
  - intros [= <- <-]. go_bools. cbn. split_and!; [done|lia|done].
  - destruct (positional steps) as [[k s']|]; [|done]. intros [= <- <-].
    destruct (IH k s' eq_refl) as (H1 & H2 & H3). cbn. split_and!; [done|lia|done].
Qed.

Lemma positional_none steps : positional steps = None -> unmatched steps = 0%nat.
Proof.
  induction steps as [|x steps IH]; cbn; [done|]. unfold unmatched in *. cbn.
  destruct (bool_decide (st_Match x = "")); [done|]. destruct (positional steps) as [[? ?]|]; [done|]. auto.
Qed.

(** A script is served once, in order.  Without [Repeat], a query that some
    standing answer matches consumes nothing; any other query is answered by the
    next positional step and consumes exactly it, or, when none is left, fails
    as exhausted - so a test that asks too often is told so. *)
Theorem script_served_once p query :
  sp_Repeat p = false ->
  let (p', step) := next p query in
  sp_steps p' = sp_steps p
  /\ match step with
     | Some s =>
         (st_Match s <> "" /\ gofmt.Contains query (st_Match s) = true /\ p' = p)
         \/ (st_Match s = "" /\ Remaining p = S (Remaining p'))
     | None => Remaining p = 0%nat /\ exists text, snd (ScriptedQuery p query) = Err text
     end.
Proof.
  intros Hr. assert (Hx : snd (next p query) = None -> exists text, snd (ScriptedQuery p query) = Err text).
  { unfold ScriptedQuery, next. cbn [sp_steps sp_pos sp_Repeat]. rewrite Hr.
    destruct (List.find _ (sp_steps p)); [done|].
    destruct (positional _) as [[n s]|]; [done|]. cbn. rewrite Hr. by eexists. }
  revert Hx. unfold next. destruct (List.find _ (sp_steps p)) as [s|] eqn:Ef; cbn beta iota; intros Hx.
  { apply find_some in Ef as [_ Hm]. go_bools. split; [done|]. left. by split_and!. }
  destruct (positional (drop (sp_pos p) (sp_steps p))) as [[n s]|] eqn:Ep.
  - apply positional_spec in Ep as (H1 & H2 & H3). split; [done|]. right. split; [done|].
    unfold Remaining. cbn. by rewrite H3, drop_drop.
  - cbn in Hx |- *. rewrite Hr in *. split; [done|]. apply positional_none in Ep. auto.
Qed.

End providers.
