(* ===== verification/FakeEngine.v ===== *)
(** * The fake engine (cmd/fakeengine/server.go)

    The deterministic stand-in for llama-server: configuration from environment
    and arguments, readiness by the clock, failures by a counter, and completions
    as one body or as a stream.  JSON encoding and decoding are
    arguments here, given by StreamCodecs.v.  Sleeping and writing are answered by an
    environment that says which of them succeed, so a client may leave at any
    moment; what a response sends is a list of texts, each with the delay slept
    before it. *)

From S2P Require Import Prelude GoFloat GoFmt GoStrings GoStrconv ApiTypes Naming Engine ControllerPlan ShimSSE ShimConfig.
Import v1alpha1.
Local Open Scope Z_scope.
Local Open Scope go_scope.

Module fakeengine.

(** ** Configuration *)

Definition envLoadMS : string := "LLMCP_FAKE_LOAD_MS".
Definition envTTFTMS : string := "LLMCP_FAKE_TTFT_MS".
Definition envITLMS : string := "LLMCP_FAKE_ITL_MS".
Definition envTokens : string := "LLMCP_FAKE_TOKENS".
Definition envErrorRate : string := "LLMCP_FAKE_ERROR_RATE".
Definition envModel : string := "LLMCP_FAKE_MODEL".

Definition defaultLoadMS : Z := 500.
Definition defaultTTFTMS : Z := 50.
Definition defaultITLMS : Z := 10.
Definition defaultTokens : Z := 24.
Definition defaultRate : f64.t := f64.zero.
Definition defaultModel : string := "fake-model".
Definition defaultHost : string := "0.0.0.0".
Definition defaultPort : Z := 8000.

Definition generatedToken : string := "tok ".
Definition assistantRole : string := "assistant".
Definition finishStop : string := "stop".
Definition contentTypeJSON : string := "application/json".
Definition objectModel : string := "model".
Definition objectTextCompletion : string := "text_completion".

Record config := MkConfig {
  host : string; port : Z; loadDelay : time.Duration; ttft : time.Duration; itl : time.Duration;
  tokens : Z; errorRate : f64.t; model : string }.

(** [net.JoinHostPort]. *)
Definition addr (c : config) : string :=
  if gofmt.Contains (host c) ":" then "[" +:+ host c +:+ "]:" +:+ format_int (port c)
  else host c +:+ ":" +:+ format_int (port c).

(** [strconv.Atoi]: an optional sign and decimal digits, in range. *)
Fixpoint decimal_value (acc : Z) (s : string) : option Z :=
  match s with
  | EmptyString => Some acc
  | String c s' =>
      if (48 <=? strconv.code c) && (strconv.code c <=? 57)
      then decimal_value (acc * 10 + (strconv.code c - 48)) s' else None
  end.

Definition Atoi (s : string) : option Z :=
  let '(neg, digits) :=
    match s with
    | String c s' => if c == "+"%char then (false, s') else if c == "-"%char then (true, s') else (false, s)
    | EmptyString => (false, s)
    end in
  if digits == "" then None
  else
    match decimal_value 0 digits with
    | Some n =>
        let v := if neg : bool then - n else n in
        if (int64_min <=? v) && (v <=? int64_max) then Some v else None
    | None => None
    end.

Definition trimmed (s : string) : string :=
  String.string_of_list_ascii (sse.TrimSpace (sse.of_string s)).

Section Config.
Context (getenv : string -> string).

Definition stringValue (key def : string) : string :=
  let v := trimmed (getenv key) in if v != "" then v else def.

Definition intValue (key : string) (def : Z) : Z :=
  let raw := trimmed (getenv key) in
  if raw == "" then def
  else
    match Atoi raw with
    | Some v => if v <? 0 then def else v
    | None => def
    end.

Definition Millisecond : time.Duration := 1000000.

Definition durationMS (key : string) (def : Z) : time.Duration := wrap64 (intValue key def * Millisecond).

(** [math.Min(1, math.Max(0, v))] of a [v] that is not NaN. *)
Definition clampRate (v : f64.t) : f64.t :=
  let low := if f64.leb v f64.zero then f64.zero else v in
  if f64.ltb f64.one low then f64.one else low.

Definition rateValue (key : string) (def : f64.t) : f64.t :=
  let raw := trimmed (getenv key) in
  if raw == "" then def
  else
    match strconv.ParseFloat raw with
    | inl v => if f64.IsNaN v then def else clampRate v
    | inr _ => def
    end.

Definition splitArg (arg : string) : string * string * bool :=
  if negb (gofmt.HasPrefix arg "-") then ("", "", false)
  else
    let '(name, value, hasValue) := gostrings.Cut arg "="%char in
    ((if negb (gofmt.HasPrefix name "--") then "-" +:+ name else name), value, hasValue).

Definition relevant (name : string) : bool := (name == "--host") || (name == "--port") || (name == "--alias").

(** The effect of one flag on host, port and alias. *)
Definition set_arg (name value : string) (st : string * Z * string) : string * Z * string :=
  let '(h, p, a) := st in
  if name == "--host" then (value, p, a)
  else if name == "--alias" then (h, p, value)
  else
    match Atoi value with
    | Some n => if (n <=? 0) || (65535 <? n) then st else (h, n, a)
    | None => st
    end.

Fixpoint scan_args (args : list string) (st : string * Z * string) : string * Z * string :=
  match args with
  | [] => st
  | arg :: rest =>
      let '(name, value, hasValue) := splitArg arg in
      if negb (relevant name) then scan_args rest st
      else if hasValue then scan_args rest (set_arg name value st)
      else
        match rest with
        | [] => st
        | value :: rest' => scan_args rest' (set_arg name value st)
        end
  end.

Definition scanArgs (args : list string) : string * Z * string := scan_args args ("", 0, "").

Definition newConfig (args : list string) : config :=
  let '(h, p, a) := scanArgs args in
  MkConfig (if h != "" then h else defaultHost) (if 0 <? p then p else defaultPort)
    (durationMS envLoadMS defaultLoadMS) (durationMS envTTFTMS defaultTTFTMS) (durationMS envITLMS defaultITLMS)
    (intValue envTokens defaultTokens) (rateValue envErrorRate defaultRate)
    (if a != "" then a else stringValue envModel defaultModel).
End Config.

(** ** Payloads *)

Record usage := MkUsage { u_PromptTokens : Z; u_CompletionTokens : Z; u_TotalTokens : Z }.

Record chatMessage := MkChatMessage { cm_Role : string; cm_Content : string }.
Record chatDelta := MkChatDelta { cd_Role : string; cd_Content : string }.
Record chatChoice := MkChatChoice { cc_Index : Z; cc_Message : chatMessage; cc_FinishReason : string }.
Record chatChunkChoice := MkChatChunkChoice { kc_Index : Z; kc_Delta : chatDelta; kc_FinishReason : option string }.
Record textChoice := MkTextChoice { tc_Index : Z; tc_Text : string; tc_FinishReason : option string }.
Record modelCard := MkModelCard { mc_ID : string; mc_Object : string; mc_Created : Z; mc_OwnedBy : string }.

(** What is marshalled. *)
Inductive Payload :=
  | errorEnvelope (code : Z) (message kind : string)
  | status (s : string)
  | modelList (object : string) (data : list modelCard)
  | chatResponse (id object : string) (created : Z) (model : string) (choices : list chatChoice) (u : usage)
  | chatChunk (id object : string) (created : Z) (model : string) (choices : list chatChunkChoice)
  | textResponse (id object : string) (created : Z) (model : string) (choices : list textChoice) (u : option usage).

Record completionRequest := MkCompletionRequest {
  cr_Model : string; cr_Stream : bool; cr_Prompt : string; cr_Messages : list (string * string) }.

Definition str_len (s : string) : Z := Z.of_nat (String.length s).

Definition promptTokens (req : completionRequest) : Z :=
  let chars := fold_left (fun acc m => wrap64 (acc + str_len (snd m))) (cr_Messages req) 0 in
  Z.max 1 (Z.quot (wrap64 (chars + str_len (cr_Prompt req))) 4).

Definition generatedText (n : Z) : string := String.concat "" (repeat generatedToken (Z.to_nat n)).

(** ** The server *)

Record server := MkServer { s_cfg : config; s_readyAt : time.Time; s_requests : Z }.

Definition newServer (cfg : config) (now : time.Time) : server := MkServer cfg (time.Add now (loadDelay cfg)) 0.

Definition loaded (s : server) (now : time.Time) : bool := negb (time.Before now (s_readyAt s)).

(** [math.Floor] of a finite float, as an integer. *)
Definition floorZ (x : f64.t) : Z := Qround.Qfloor (f64.toQ x).

Definition wrapu64 (z : Z) : Z := z mod 18446744073709551616.

(** [n] and [n-1] are [uint64] values converted to [float64]. *)
Definition failsAt (n : Z) (rate : f64.t) : bool :=
  if f64.leb rate f64.zero || (n =? 0) then false
  else if f64.leb f64.one rate then true
  else floorZ (f64.mul (f64.of_Z (n - 1)) rate) <? floorZ (f64.mul (f64.of_Z n) rate).

Definition nextRequest (s : server) : server * (Z * bool) :=
  let n := wrapu64 (s_requests s + 1) in
  (MkServer (s_cfg s) (s_readyAt s) n, (n, failsAt n (errorRate (s_cfg s)))).

(** A response: the status, the content type, and the texts sent, each with the
    delay slept before it.  A client that left gets no status from a completion
    that is not streamed. *)
Record Response := MkResponse {
  r_Status : option Z; r_Type : string; r_Sent : list (time.Duration * sse.bytes) }.

Definition silent : Response := MkResponse None "" [].

Definition StatusOK : Z := 200.
Definition StatusBadRequest : Z := 400.
Definition StatusInternalServerError : Z := 500.
Definition StatusServiceUnavailable : Z := 503.

Section Server.
Context (Marshal : Payload -> option sse.bytes) (Decode : sse.bytes -> option completionRequest).
(** Whether the [i]th sleep of a request ends before the client leaves, and the
    [i]th write of a stream succeeds; whether the writer can flush. *)
Context (wakes writes : nat -> bool) (flusher : bool).

Definition writeJSON (code : Z) (v : Payload) (delay : time.Duration) : Response :=
  match Marshal v with
  | None => MkResponse (Some StatusInternalServerError) "text/plain; charset=utf-8"
              [(delay, sse.of_string "internal error" ++ [sse.nl])]
  | Some body => MkResponse (Some code) contentTypeJSON [(delay, body)]
  end.

Definition writeAPIError (code : Z) (message kind : string) : Response :=
  writeJSON code (errorEnvelope code message kind) 0.

Definition writeLoading : Response := writeAPIError StatusServiceUnavailable "Loading model" "unavailable_error".

Definition handleHealth (s : server) (now : time.Time) : Response :=
  if negb (loaded s now) then writeLoading else writeJSON StatusOK (status "ok") 0.

(** [time.Time.Unix]. *)
Definition Unix (t : time.Time) : Z := (t - 62135596800 * time.Second) / time.Second.

Definition handleModels (s : server) (now : time.Time) : Response :=
  if negb (loaded s now) then writeLoading
  else writeJSON StatusOK (modelList "list" [MkModelCard (model (s_cfg s)) objectModel (Unix now) "llmcp"]) 0.

Definition nonStreamCompletion (s : server) (req : completionRequest) (id : string) (created : Z) (chat : bool) :
    Response :=
  let n := tokens (s_cfg s) in
  let delay := wrap64 (ttft (s_cfg s) + wrap64 (n * itl (s_cfg s))) in
  if negb (wakes 0) then silent
  else
    let u := MkUsage (promptTokens req) n (wrap64 (promptTokens req + n)) in
    let text := generatedText n in
    if chat then
      writeJSON StatusOK (chatResponse id "chat.completion" created (model (s_cfg s))
        [MkChatChoice 0 (MkChatMessage assistantRole text) finishStop] u) delay
    else
      writeJSON StatusOK (textResponse id objectTextCompletion created (model (s_cfg s))
        [MkTextChoice 0 text (Some finishStop)] (Some u)) delay.

Definition chat_chunk (s : server) (id : string) (created : Z) (delta : chatDelta) (finish : option string) : Payload :=
  chatChunk id "chat.completion.chunk" created (model (s_cfg s)) [MkChatChunkChoice 0 delta finish].

Definition chatChunks (s : server) (id : string) (created : Z) : list Payload :=
  chat_chunk s id created (MkChatDelta assistantRole "") None
  :: repeat (chat_chunk s id created (MkChatDelta "" generatedToken) None) (Z.to_nat (tokens (s_cfg s)))
  ++ [chat_chunk s id created (MkChatDelta "" "") (Some finishStop)].

Definition text_chunk (s : server) (id : string) (created : Z) (text : string) (finish : option string) : Payload :=
  textResponse id objectTextCompletion created (model (s_cfg s)) [MkTextChoice 0 text finish] None.

Definition textChunks (s : server) (id : string) (created : Z) : list Payload :=
  repeat (text_chunk s id created generatedToken None) (Z.to_nat (tokens (s_cfg s)))
  ++ [text_chunk s id created "" (Some finishStop)].

(** The delay before chunk [i]. *)
Definition delay_of (s : server) (firstContent i : nat) : time.Duration :=
  if (i <? firstContent)%nat then 0
  else if (i =? firstContent)%nat then ttft (s_cfg s)
  else itl (s_cfg s).

Definition done_event : sse.bytes := sse.of_string "data: [DONE]" ++ [sse.nl; sse.nl].

(** The loop of [streamCompletion], with [writeEvent]: the texts sent from chunk
    [i] on. *)
Fixpoint stream_loop (s : server) (firstContent i : nat) (chunks : list Payload) : list (time.Duration * sse.bytes) :=
  match chunks with
  | [] => if writes i then [(0, done_event)] else []
  | c :: chunks' =>
      if negb (wakes i) then []
      else
        match Marshal c with
        | None => []
        | Some payload =>
            if writes i
            then (delay_of s firstContent i, sse.of_string "data: " ++ payload ++ [sse.nl; sse.nl])
                 :: stream_loop s firstContent (S i) chunks'
            else []
        end
  end.

Definition streamCompletion (s : server) (id : string) (created : Z) (chat : bool) : Response :=
  if negb flusher then writeAPIError StatusInternalServerError "streaming unsupported" "server_error"
  else
    let '(chunks, firstContent) :=
      if chat then (chatChunks s id created, 1%nat) else (textChunks s id created, 0%nat) in
    MkResponse (Some StatusOK) "text/event-stream" (stream_loop s firstContent 0 chunks).

(** [handleCompletion], given the instants at which readiness and the creation
    time are read. *)
Definition handleCompletion (chat : bool) (s : server) (now created : time.Time) (body : sse.bytes) :
    server * Response :=
  if negb (loaded s now) then (s, writeLoading)
  else
    match Decode body with
    | None => (s, writeAPIError StatusBadRequest "invalid request body" "invalid_request_error")
    | Some req =>
        let '(s, (n, fail)) := nextRequest s in
        if fail : bool then (s, writeAPIError StatusInternalServerError "injected failure" "server_error")
        else
          let id := (if chat then "chatcmpl-" else "cmpl-") +:+ format_int n in
          (s, if cr_Stream req then streamCompletion s id (Unix created) chat
              else nonStreamCompletion s req id (Unix created) chat)
    end.
End Server.

(** ** Arguments *)

(** An argument the scan skips. *)
Definition plain (arg : string) : Prop := relevant (fst (fst (splitArg arg))) = false.

Lemma scan_plain args rest st : Forall plain args -> scan_args (args ++ rest) st = scan_args rest st.
Proof.
  intros H. induction H as [|a args Ha _ IH]; [done|]. cbn [app scan_args]. unfold plain in Ha.
  destruct (splitArg a) as [[name value] hasValue]. cbn [fst] in Ha. by rewrite Ha.
Qed.

Lemma scan_value flag name value rest st :
  splitArg flag = (name, "", false) -> relevant name = true ->
  scan_args (flag :: value :: rest) st = scan_args rest (set_arg name value st).
Proof. intros Hf Hr. cbn [scan_args]. by rewrite Hf, Hr. Qed.

Lemma Cut_absent s c : forallb (fun x => negb (x == c)) (String.list_ascii_of_string s) = true ->
  gostrings.Cut s c = (s, "", false).
Proof.
  induction s as [|x s IH]; [done|]. cbn [String.list_ascii_of_string forallb]. intros [Hx Hs]%andb_true_iff.
  cbn [gostrings.Cut]. destruct (bool_decide (x = c)); [done|]. by rewrite (IH Hs).
Qed.

Lemma decimal_no_equals s : strconv.decimal s -> forallb (fun x => negb (x == "="%char)) (String.list_ascii_of_string s) = true.
Proof.
  induction s as [|c s IH]; [done|]. intros [Hc Hs]. cbn [String.list_ascii_of_string forallb].
  rewrite (strconv.decimal_ne c "="%char Hc) by done. by apply IH.
Qed.

(** Numbers are skipped: what follows a sign is a digit, and a digit is no sign. *)
Lemma plain_digits c s : 48 <= strconv.code c <= 57 -> plain (String c s).
Proof.
  intros Hc. unfold plain, splitArg, gofmt.HasPrefix. cbn [String.prefix].
  destruct (ascii_dec "-" c) as [<-|]; [exfalso; revert Hc; vm_compute; intros [? ?]; congruence|]. done.
Qed.

Lemma plain_negative s : strconv.decimal s -> plain (String "-" s).
Proof.
  intros Hd. unfold plain, splitArg, gofmt.HasPrefix. rewrite Cut_absent.
  2:{ cbn [String.list_ascii_of_string forallb]. by rewrite decimal_no_equals. }
  destruct s as [|c s]; [done|]. destruct Hd as [Hc _]. cbn [String.prefix].
  destruct (ascii_dec "-" "-"); [|done]. cbn [negb].
  destruct (ascii_dec "-" c) as [<-|]; [exfalso; revert Hc; vm_compute; intros [? ?]; congruence|]. cbn [negb fst].
  unfold relevant. rewrite !bool_decide_eq_false_2; [done|..]; intros [= -> _]; revert Hc; vm_compute; intros [? ?]; congruence.
Qed.

Lemma plain_number n : plain (format_int n).
Proof.
  unfold format_int. destruct (n =? 0); [done|]. destruct (Z.ltb_spec n 0) as [Hn|Hn].
  - apply plain_negative, strconv.digits_decimal; [lia|done].
  - assert (Hd : strconv.decimal (digits_loop 20 n "")) by (apply strconv.digits_decimal; [lia|done]).
    destruct (digits_loop 20 n "") as [|c s]; [done|]. destruct Hd as [Hc _]. by apply plain_digits.
Qed.

Lemma decimal_value_dec s v : strconv.decimal s -> decimal_value v s = Some (dec_value v s).
Proof.
  revert v. induction s as [|c s IH]; intros v Hd; [done|]. destruct Hd as [Hc Hd]. cbn [decimal_value dec_value].
  rewrite (proj2 (Z.leb_le 48 (strconv.code c))), (proj2 (Z.leb_le (strconv.code c) 57)) by lia. cbn [andb].
  rewrite IH by done. unfold strconv.code. do 2 f_equal. lia.
Qed.

(** [Atoi] reads back a printed number. *)
Lemma Atoi_format n : 0 <= n <= int64_max -> Atoi (format_int n) = Some n.
Proof.
  intros Hn. pose proof (format_int_value n ltac:(unfold int64_max in *; lia)) as Hval.
  assert (Hdec : strconv.decimal (format_int n)).
  { unfold format_int. destruct (n =? 0); [cbn; vm_compute; repeat split; discriminate|].
    destruct (Z.ltb_spec n 0); [lia|]. apply strconv.digits_decimal; [lia|done]. }
  assert (Hne : format_int n <> "").
  { intros E. unfold format_int in E. destruct (Z.eqb_spec n 0); [done|]. destruct (Z.ltb_spec n 0); [lia|].
    pose proof Hval as Hv. unfold format_int in Hv. rewrite (proj2 (Z.eqb_neq n 0)), (proj2 (Z.ltb_ge n 0)), E in Hv by lia.
    cbn in Hv. lia. }
  destruct (format_int n) as [|c s] eqn:E; [done|]. pose proof Hdec as [Hc _].
  unfold Atoi. rewrite (strconv.decimal_ne c "+"%char Hc), (strconv.decimal_ne c "-"%char Hc) by done.
  rewrite bool_decide_eq_false_2 by done. rewrite decimal_value_dec, Hval by done.
  unfold int64_min, int64_max in *. by rewrite (proj2 (Z.leb_le _ n)), (proj2 (Z.leb_le n _)) by lia.
Qed.

Lemma set_port p h a :
  0 < p <= 65535 -> set_arg "--port" (format_int p) (h, 0, a) = (h, p, a).
Proof.
  intros Hp. unfold set_arg. cbn. rewrite Atoi_format by (unfold int64_max; lia).
  by rewrite (proj2 (Z.leb_gt p 0)), (proj2 (Z.ltb_ge 65535 p)) by lia.
Qed.

(** ** What the shim sees of a stream *)

(** The part of a chunk that the shim decodes. *)
Definition view (c : Payload) : sse.streamChunk :=
  sse.MkStreamChunk None
    match c with
    | chatChunk _ _ _ _ choices =>
        map (fun ch => sse.MkChoice (cd_Content (kc_Delta ch)) "" [] "") choices
    | textResponse _ _ _ _ choices _ => map (fun ch => sse.MkChoice "" "" [] (tc_Text ch)) choices
    | _ => []
    end.

(** What is relied on of JSON for one chunk: it is encoded on one line, as
    neither white space nor the end marker, and decodes to its fields. *)
Definition encodes (Marshal : Payload -> option sse.bytes) (Unmarshal : sse.bytes -> option sse.streamChunk)
    (c : Payload) : Prop :=
  exists p, Marshal c = Some p /\ sse.one_line p /\ sse.TrimSpace p = p /\ p <> [] /\ p <> sse.sseDone
            /\ Unmarshal p = Some (view c).

Definition always (_ : nat) : bool := true.

(** The clock of the shim is the time; each text arrives after its delay. *)
Definition clock (t : time.Time) : time.Time * time.Time := (t, t).

Definition pass_time (d : time.Duration) (o : sse.streamObserver (time.Time * sse.requestState)) :
    sse.streamObserver (time.Time * sse.requestState) :=
  sse.MkStreamObserver (fst (sse.so_state o) + d, snd (sse.so_state o)) (sse.so_buf o) (sse.so_overlong o)
    (sse.so_data o) (sse.so_dropEvent o) (sse.so_finished o).

Definition deliver (Unmarshal : sse.bytes -> option sse.streamChunk) (sent : list (time.Duration * sse.bytes))
    (o : sse.streamObserver (time.Time * sse.requestState)) : sse.streamObserver (time.Time * sse.requestState) :=
  fold_left (fun o x => sse.Read (sse.handleEvent Unmarshal clock) (fun ws e => (fst ws, sse.with_readErr (snd ws) e))
                          (pass_time (fst x) o) (snd x) sse.ReadMore) sent o.

Section Stream.
Context (Marshal : Payload -> option sse.bytes) (Unmarshal : sse.bytes -> option sse.streamChunk).

(** What one chunk does to the state of the request. *)
Definition see (ts : time.Time * sse.requestState) (x : time.Duration * Payload) : time.Time * sse.requestState :=
  let t := fst ts + fst x in
  (t, if sse.hasToken (view (snd x)) then sse.note_token (snd ts) t else snd ts).

(** The chunks with their delays. *)
Fixpoint timed (s : server) (firstContent i : nat) (chunks : list Payload) : list (time.Duration * Payload) :=
  match chunks with
  | [] => []
  | c :: chunks' => (delay_of s firstContent i, c) :: timed s firstContent (S i) chunks'
  end.

Lemma handle_chunk t st c p :
  Marshal c = Some p -> sse.TrimSpace p = p -> p <> [] -> p <> sse.sseDone -> Unmarshal p = Some (view c) ->
  sse.handleEvent Unmarshal clock (t, st) p = see (t, st) (0, c).
Proof.
  intros Hm Ht Hn Hd Hu. unfold sse.handleEvent, see. rewrite Ht. cbn [fst snd]. rewrite Z.add_0_r.
  destruct (Z.eqb_spec (sse.blen p) 0) as [E|_]; [destruct p; [done|]; unfold sse.blen in E; cbn in E; lia|].
  rewrite bool_decide_eq_false_2 by done. rewrite Hu. unfold sse.observeUsage. cbn [sse.sc_Usage view].
  destruct (sse.hasToken _); [|done]. done.
Qed.

Lemma pass_time_new d t st : pass_time d (sse.newStreamObserver (t, st)) = sse.newStreamObserver (t + d, st).
Proof. done. Qed.

Lemma read_frame fail handle (ts : time.Time * sse.requestState) p :
  sse.one_line p ->
  sse.Read handle fail (sse.newStreamObserver ts) (sse.of_string "data: " ++ p ++ [sse.nl; sse.nl]) sse.ReadMore
  = sse.newStreamObserver (handle ts p).
Proof.
  intros Hp. rewrite sse.Read_more.
  pose proof (sse.scan_frame handle ts p [] Hp) as H. rewrite app_nil_r in H.
  unfold sse.frame, sse.data_line in H. rewrite <- app_assoc in H. exact H.
Qed.

Lemma deliver_loop s firstContent i chunks ts :
  Forall (encodes Marshal Unmarshal) chunks ->
  deliver Unmarshal (stream_loop Marshal always always s firstContent i chunks) (sse.newStreamObserver ts)
  = let ts := fold_left see (timed s firstContent i chunks) ts in
    sse.newStreamObserver (fst ts, sse.with_done (snd ts)).
Proof.
  intros H. revert i ts. induction H as [|c chunks (p & Hm & H1 & Ht & Hn & Hd & Hu) _ IH]; intros i [t st].
  - cbn [stream_loop always timed fold_left]. unfold deliver. cbn [fold_left fst snd].
    rewrite pass_time_new, Z.add_0_r.
    change done_event with (sse.of_string "data: " ++ sse.sseDone ++ [sse.nl; sse.nl]).
    rewrite read_frame; [done|].
    split; [|split]; [|done|vm_compute; discriminate]. apply (bool_decide_unpack _). vm_compute. exact I.
  - cbn [stream_loop always timed fold_left negb]. rewrite Hm. unfold deliver. cbn [fold_left fst snd].
    rewrite pass_time_new, read_frame by done.
    rewrite (handle_chunk _ _ c p) by done. unfold see at 1. cbn [fst snd]. rewrite Z.add_0_r. apply IH.
Qed.

Lemma see_token t st d c :
  sse.hasToken (view c) = true -> see (t, st) (d, c) = (t + d, sse.note_token st (t + d)).
Proof. intros H. unfold see. cbn [fst snd]. by rewrite H. Qed.

Lemma see_silent t st d c : sse.hasToken (view c) = false -> see (t, st) (d, c) = (t + d, st).
Proof. intros H. unfold see. cbn [fst snd]. by rewrite H. Qed.

(** Chunks after the first token come one inter-token delay apart. *)
Lemma timed_repeat s firstContent i c n rest :
  (firstContent < i)%nat ->
  timed s firstContent i (repeat c n ++ rest) = repeat (itl (s_cfg s), c) n ++ timed s firstContent (i + n) rest.
Proof.
  revert i. induction n as [|n IH]; intros i Hi; cbn [repeat app timed].
  - by rewrite Nat.add_0_r.
  - rewrite IH by lia. unfold delay_of.
    rewrite (proj2 (Nat.ltb_ge i firstContent)), (proj2 (Nat.eqb_neq i firstContent)) by lia.
    by rewrite Nat.add_succ_comm.
Qed.

(** A state after [k] tokens of a stream whose first took [first]. *)
Definition progress (k : Z) (first : time.Duration) (st : sse.requestState) : Prop :=
  sse.rs_tokens st = k /\ sse.rs_sawFirstToken st = (0 <? k) /\ (0 < k -> sse.rs_ttft st = first)
  /\ sse.rs_readErr st = None.

Lemma note_progress k first st t :
  0 < k < int64_max -> progress k first st -> progress (k + 1) first (sse.note_token st t).
Proof.
  intros Hk (H1 & H2 & H3 & H4). unfold progress, sse.note_token. rewrite H1, H2, (proj2 (Z.ltb_lt 0 k)) by lia.
  cbn [sse.rs_tokens sse.rs_sawFirstToken sse.rs_ttft sse.rs_readErr].
  rewrite wrap64_id by (unfold int64_ok, int64_min, int64_max in *; lia).
  rewrite (proj2 (Z.ltb_lt 0 (k + 1))) by lia. split_and!; [done|done|intros _; apply H3; lia|done].
Qed.

Lemma see_tokens d c n k first t st :
  sse.hasToken (view c) = true -> 0 < k -> k + Z.of_nat n <= int64_max -> progress k first st ->
  exists st', fold_left see (repeat (d, c) n) (t, st) = (t + Z.of_nat n * d, st')
              /\ progress (k + Z.of_nat n) first st'.
Proof.
  intros Hc. revert k t st. induction n as [|n IH]; intros k t st Hk Hb Hp.
  - exists st. cbn. rewrite !Z.add_0_r. done.
  - cbn [repeat fold_left]. rewrite see_token by done.
    destruct (IH (k + 1) (t + d) (sse.note_token st (t + d))) as (st' & E & Hp'); [lia|lia|by apply note_progress; [lia|]|].
    exists st'. split; [etransitivity; [exact E|]; f_equal; lia|]. by replace (k + Z.of_nat (S n)) with (k + 1 + Z.of_nat n) by lia.
Qed.

(** The first token. *)
Lemma first_token st t :
  progress 0 0 st -> progress 1 (time.Sub t (sse.rs_start st)) (sse.note_token st t).
Proof.
  intros (H1 & H2 & _ & H4). unfold progress, sse.note_token. rewrite H1, H2. cbn. by split_and!.
Qed.

(** Tokens, the first after [ttft], then a last chunk without one. *)
Lemma see_stream s firstContent tok stop n t st :
  sse.hasToken (view tok) = true -> sse.hasToken (view stop) = false ->
  Z.of_nat n < int64_max -> progress 0 0 st ->
  exists st', fold_left see (timed s firstContent firstContent (repeat tok n ++ [stop])) (t, st)
              = (t + ttft (s_cfg s) + Z.of_nat n * itl (s_cfg s), st')
              /\ progress (Z.of_nat n) (time.Sub (t + ttft (s_cfg s)) (sse.rs_start st)) st'.
Proof.
  intros Htok Hstop Hn Hp.
  assert (Hd : delay_of s firstContent firstContent = ttft (s_cfg s)).
  { unfold delay_of. by rewrite Nat.ltb_irrefl, Nat.eqb_refl. }
  destruct n as [|n]; cbn [repeat app timed fold_left].
  - exists st. rewrite Hd, see_silent by done. split; [f_equal; lia|].
    destruct Hp as (H1 & H2 & _ & H4). split_and!; [done|done|lia|done].
  - rewrite Hd, see_token, timed_repeat by first [done|lia].
    rewrite fold_left_app.
    destruct (see_tokens (itl (s_cfg s)) tok n 1 (time.Sub (t + ttft (s_cfg s)) (sse.rs_start st)) (t + ttft (s_cfg s))
                (sse.note_token st (t + ttft (s_cfg s)))) as (st' & E & Hp'); [done|lia|lia|by apply first_token|].
    exists st'. split.
    + etransitivity; [apply (f_equal (fold_left see _)); exact E|]. cbn [timed fold_left].
      rewrite see_silent by done. unfold delay_of.
      rewrite (proj2 (Nat.ltb_ge _ _)), (proj2 (Nat.eqb_neq _ _)) by lia. f_equal; lia.
    + by replace (Z.of_nat (S n)) with (1 + Z.of_nat n) by lia.
Qed.
End Stream.

(** What the client was sent before it left is an initial part of the stream. *)
Lemma stream_loop_prefix Marshal wakes writes s firstContent i chunks :
  stream_loop Marshal wakes writes s firstContent i chunks
  `prefix_of` stream_loop Marshal always always s firstContent i chunks.
Proof.
  revert i. induction chunks as [|c chunks IH]; intros i; cbn [stream_loop always negb].
  - destruct (writes i); [done|apply prefix_nil].
  - destruct (wakes i); cbn [negb]; [|apply prefix_nil]. destruct (Marshal c); [|done].
    destruct (writes i); [|apply prefix_nil]. by apply prefix_cons.
Qed.

(** The floor of the rounded product. *)
Definition scaled (rate : f64.t) (n : nat) : Z := floorZ (f64.mul (f64.of_Z (Z.of_nat n)) rate).

(** Rewrite the final state of a stream with [E]. *)
Ltac seen E :=
  match goal with
  | |- context [fold_left see ?l ?a] =>
      match type of E with _ = ?r => replace (fold_left see l a) with r by (symmetry; exact E) end
  end; cbn.

(** A sequence of completion requests on one server: the endpoint, the instants
    and the body of each, and how its client behaves. *)
Record Arrival := MkArrival {
  a_chat : bool; a_now : time.Time; a_created : time.Time; a_body : sse.bytes;
  a_wakes : nat -> bool; a_writes : nat -> bool }.

Fixpoint serve_all (Marshal : Payload -> option sse.bytes) (Decode : sse.bytes -> option completionRequest)
    (s : server) (l : list Arrival) : server * list Response :=
  match l with
  | [] => (s, [])
  | a :: l' =>
      let (s, r) := handleCompletion Marshal Decode (a_wakes a) (a_writes a) true (a_chat a) s (a_now a) (a_created a) (a_body a) in
      let (s, rs) := serve_all Marshal Decode s l' in (s, r :: rs)
  end.

Definition failed (r : Response) : bool := bool_decide (r_Status r = Some StatusInternalServerError).

(** An accepted request fails exactly when its number says so, and takes the
    next number. *)
Lemma accepted_request Marshal Decode s a :
  (forall v, Marshal v <> None) -> loaded s (a_now a) = true -> Decode (a_body a) <> None ->
  let '(s', r) := handleCompletion Marshal Decode (a_wakes a) (a_writes a) true (a_chat a) s (a_now a) (a_created a) (a_body a) in
  s' = MkServer (s_cfg s) (s_readyAt s) (wrapu64 (s_requests s + 1))
  /\ failed r = failsAt (wrapu64 (s_requests s + 1)) (errorRate (s_cfg s)).
Proof.
  intros HM Hl Hd. unfold handleCompletion. rewrite Hl. cbn [negb]. destruct (Decode (a_body a)) as [req|]; [|done].
  cbn [nextRequest]. assert (Hw : forall c v d, failed (writeJSON Marshal c v d) = (c =? StatusInternalServerError)).
  { intros c v d. unfold writeJSON, failed. destruct (Marshal v) eqn:E; [|by apply HM in E]. cbn.
    destruct (Z.eqb_spec c StatusInternalServerError); [by subst|]. apply bool_decide_eq_false_2. congruence. }
  destruct (failsAt _ _) eqn:Ef; split; try done.
  - unfold writeAPIError. by rewrite Hw.
  - destruct (cr_Stream req); [by unfold streamCompletion; destruct (a_chat a)|].
    unfold nonStreamCompletion. destruct (a_wakes a 0); [|done]. cbn [negb]. by destruct (a_chat a); rewrite Hw.
Qed.

(** The failures of [l], served after [k] requests. *)
Lemma serve_all_counts Marshal Decode s l k s' :
  let rate := errorRate (s_cfg s) in
  (forall v, Marshal v <> None) -> f64.leb rate f64.zero = false -> f64.leb f64.one rate = false ->
  s_cfg s' = s_cfg s -> s_readyAt s' = s_readyAt s -> s_requests s' = Z.of_nat k ->
  Z.of_nat (k + length l) < int64_max ->
  Forall (fun a => loaded s (a_now a) = true /\ Decode (a_body a) <> None) l ->
  (forall n, (n < k + length l)%nat -> scaled rate n <= scaled rate (S n) <= scaled rate n + 1) ->
  scaled rate k + Z.of_nat (length (List.filter failed (snd (serve_all Marshal Decode s' l))))
  = scaled rate (k + length l).
Proof.
  intros rate. intros HM Hpos Hone. revert k s'. induction l as [|a l IH]; intros k s' Hc Hr Hk Hlen Hacc Hstep.
    { cbn. by rewrite Nat.add_0_r, Z.add_0_r. }
    inversion Hacc as [|? ? [Ha1 Ha2] Hacc']; subst. cbn [serve_all length].
    assert (Hl : loaded s' (a_now a) = true) by (unfold loaded in *; by rewrite Hr).
    pose proof (accepted_request Marshal Decode s' a HM Hl Ha2) as Hx.
    destruct (handleCompletion _ _ _ _ _ _ _ _ _ _) as [s1 r]. destruct Hx as [-> Hf].
    assert (Hn : wrapu64 (s_requests s' + 1) = Z.of_nat (S k)).
    { rewrite Hk. unfold wrapu64. rewrite Z.mod_small; [lia|]. unfold int64_max in Hlen. cbn in Hlen. lia. }
    rewrite Hn, Hc in Hf. rewrite Hn.
    specialize (IH (S k) (MkServer (s_cfg s') (s_readyAt s') (Z.of_nat (S k))) Hc Hr eq_refl
                  ltac:(cbn in Hlen |- *; lia) Hacc' ltac:(intros n Hn'; apply Hstep; cbn; lia)).
    destruct (serve_all Marshal Decode _ l) as [s2 rs]. cbn [snd List.filter] in *. rewrite Hf.
    replace (k + S (length l))%nat with (S k + length l)%nat by lia. rewrite <- IH.
    destruct (Hstep k ltac:(cbn; lia)) as [Hs1 Hs2]. unfold failsAt. fold rate. rewrite Hpos, Hone.
    destruct (Z.eqb_spec (Z.of_nat (S k)) 0); [lia|]. cbn [orb].
    replace (Z.of_nat (S k) - 1) with (Z.of_nat k) by lia. fold (scaled rate k). fold (scaled rate (S k)).
    destruct (Z.ltb_spec (scaled rate k) (scaled rate (S k))); cbn [length]; lia.
Qed.

(** ** Properties *)

Definition streamed (Marshal : Payload -> option sse.bytes) (s : server) (id : string) (created : Z) (chat : bool) :
    list (time.Duration * sse.bytes) :=
  r_Sent (streamCompletion Marshal always always true s id created chat).

Definition stream_chunks (s : server) (id : string) (created : Z) (chat : bool) : list Payload :=
  if chat then chatChunks s id created else textChunks s id created.

(** The observer on the stream of either endpoint, each text arriving after its
    delay. *)
Lemma observer_measures_stream Marshal Unmarshal s id created chat start :
  let cfg := s_cfg s in
  let n := tokens cfg in
  0 <= n < int64_max -> 0 <= ttft cfg <= int64_max -> 0 <= itl cfg -> ttft cfg + n * itl cfg <= int64_max ->
  Forall (encodes Marshal Unmarshal) (stream_chunks s id created chat) ->
  let s0 := sse.MkRequestState start false 0 0 false 0 None 0 false None in
  let (t, st) := sse.so_state (deliver Unmarshal (streamed Marshal s id created chat) (sse.newStreamObserver (start, s0))) in
  sse.rs_tokens st = n /\ sse.rs_sawFirstToken st = (0 <? n) /\ (0 < n -> sse.rs_ttft st = ttft cfg)
  /\ sse.rs_sawDone st = true /\ sse.rs_readErr st = None
  /\ t = start + wrap64 (ttft cfg + wrap64 (n * itl cfg)).
Proof.
  intros cfg n Hn Ht Hi Hb Henc s0. unfold streamed, streamCompletion. cbn [negb].
  assert (Hp : progress 0 0 s0) by (by split_and!).
  assert (Hend : forall f tok stop k, k = Z.to_nat n ->
            sse.hasToken (view tok) = true -> sse.hasToken (view stop) = false ->
            exists st', fold_left see (timed s f f (repeat tok k ++ [stop])) (start, s0)
                        = (start + wrap64 (ttft cfg + wrap64 (n * itl cfg)), st') /\ progress n (ttft cfg) st').
  { intros f tok stop k -> Htok Hstop.
    destruct (see_stream s f tok stop (Z.to_nat n) start s0 Htok Hstop) as (st' & E & Hp'); [lia|done|].
    rewrite Z2Nat.id in E, Hp' by lia. exists st'. split.
    - etransitivity; [exact E|]. f_equal. fold cfg.
      rewrite !wrap64_id; rewrite ?wrap64_id; unfold int64_ok, int64_min, int64_max in *; nia.
    - replace (ttft cfg) with (time.Sub (start + ttft (s_cfg s)) (sse.rs_start s0)); [done|].
      unfold time.Sub. cbn [sse.rs_start s0]. fold cfg. unfold int64_min, int64_max in *. lia. }
  unfold stream_chunks in Henc. destruct chat; cbn [r_Sent]; rewrite deliver_loop by exact Henc; cbn [sse.so_state sse.newStreamObserver].
  - unfold chatChunks. cbn [timed fold_left].
    change (delay_of s 1 0) with 0. rewrite see_silent, Z.add_0_r by done.
    destruct (Hend 1%nat (chat_chunk s id created (MkChatDelta "" generatedToken) None)
                (chat_chunk s id created (MkChatDelta "" "") (Some finishStop)) _ eq_refl eq_refl eq_refl) as (st' & E & H1 & H2 & H3 & H4).
    seen E. by split_and!.
  - unfold textChunks.
    destruct (Hend 0%nat (text_chunk s id created generatedToken None) (text_chunk s id created "" (Some finishStop))
                _ eq_refl eq_refl eq_refl) as (st' & E & H1 & H2 & H3 & H4).
    seen E. by split_and!.
Qed.

(** Injected failures are exact and evenly spaced.  However a sequence of
    accepted requests is made up - endpoints, streaming, clients that leave - the
    number that fail among the first [N] is the floor of [N] times the rate, as
    long as the rounded products step by at most one, and each failure is at a
    step. *)
Theorem injected_failures_exact Marshal Decode s l :
  let rate := errorRate (s_cfg s) in
  (forall v, Marshal v <> None) -> s_requests s = 0 -> Z.of_nat (length l) < int64_max ->
  Forall (fun a => loaded s (a_now a) = true /\ Decode (a_body a) <> None) l ->
  f64.leb rate f64.zero = false -> f64.leb f64.one rate = false -> scaled rate 0 = 0 ->
  (forall n, (n < length l)%nat -> scaled rate n <= scaled rate (S n) <= scaled rate n + 1) ->
  Z.of_nat (length (List.filter failed (snd (serve_all Marshal Decode s l)))) = scaled rate (length l).
Proof.
  intros rate HM H0 Hlen Hacc Hpos Hone Hz Hstep.
  pose proof (serve_all_counts Marshal Decode s l 0 s HM Hpos Hone eq_refl eq_refl H0 Hlen Hacc Hstep) as Hgen.
  cbn [Nat.add] in Hgen. fold rate in Hgen. lia.
Qed.

Lemma injected_failures_exact_witness :
  let cfg := MkConfig "" 8000 0 0 0 1 (f64.div f64.one (f64.of_Z 10)) "m" in
  let a := MkArrival true 0 0 [] always always in
  let l := repeat a 12 in
  Z.of_nat (length (List.filter failed (snd (serve_all (fun _ => Some []) (fun _ => Some (MkCompletionRequest "m" true "" []))
    (MkServer cfg 0 0) l)))) = 1.
Proof.
  intros cfg a l.
  rewrite (injected_failures_exact (fun _ => Some []) (fun _ => Some (MkCompletionRequest "m" true "" [])) (MkServer cfg 0 0) l);
    [vm_compute; reflexivity|done|done|vm_compute; done|repeat constructor; done|vm_compute; reflexivity|vm_compute; reflexivity|
     vm_compute; reflexivity|].
  intros n Hn. do 12 (destruct n as [|n]; [vm_compute; split; discriminate|]). cbn in Hn. lia.
Defined.

(** The stand-in obeys the operator.  Started with the very arguments the
    operator renders for llama-server, whatever other flags they contain, it
    listens on the host and port they give and reports the model under the name
    they give, and takes everything else from its environment. *)
Theorem operator_args_understood getenv spec bc p :
  0 < p <= 65535 -> model_Name (sp_Model spec) <> "" ->
  Forall plain (engine.model_args spec bc) -> Forall plain (eng_ExtraArgs (sp_Engine spec)) ->
  let cfg := newConfig getenv (engine.llamaCPPArgs spec bc p) in
  host cfg = "0.0.0.0" /\ port cfg = p /\ model cfg = model_Name (sp_Model spec)
  /\ tokens cfg = intValue getenv envTokens defaultTokens
  /\ errorRate cfg = rateValue getenv envErrorRate defaultRate.
Proof.
  intros Hp Hm Hmodel Hextra. cbv zeta.
  assert (Hs : scanArgs (engine.llamaCPPArgs spec bc p) = ("0.0.0.0", p, model_Name (sp_Model spec))).
  { unfold scanArgs, engine.llamaCPPArgs, engine.owned_args. rewrite <- !app_assoc. cbn [app].
    rewrite (scan_value engine.llamaCPPHostFlag "--host"), (scan_value engine.llamaCPPPortFlag "--port") by done.
    change (set_arg "--host" ?v ?st) with (v, 0, ""). rewrite (set_port p), scan_plain by done.
    etransitivity.
    { apply (scan_plain ["-c"; _; _; _; "-t"; _; "--metrics"] (_ :: _ :: _)).
      repeat apply List.Forall_cons; try apply plain_number; try done. }
    rewrite (scan_value "--alias" "--alias") by done. rewrite <- (app_nil_r (eng_ExtraArgs _)), scan_plain by done. done. }
  unfold newConfig. rewrite Hs. cbn [host port model tokens errorRate].
  rewrite (proj2 (Z.ltb_lt 0 p)) by lia. rewrite (bool_decide_eq_false_2 (model_Name (sp_Model spec) = "")) by done. done.
Qed.

Lemma operator_args_understood_witness :
  let sp := plans.sample_spec RolloutCanary in
  let cfg := newConfig (fun _ => "") (engine.llamaCPPArgs sp (engine.MkBuildContext None VariantPrimary "/models/m.gguf" "" 4 8000) 8000) in
  port cfg = 8000 /\ model cfg = model_Name (sp_Model sp).
Proof.
  intros sp cfg.
  destruct (operator_args_understood (fun _ => "") sp (engine.MkBuildContext None VariantPrimary "/models/m.gguf" "" 4 8000) 8000)
    as (_ & H1 & H2 & _); [lia|vm_compute; discriminate|repeat constructor|repeat constructor|]. by split.
Defined.

(** A client that leaves gets an initial part of the stream.  Whenever it
    hangs up and whichever write fails, what it was sent is a prefix of the whole
    answer, so an interrupted stream never carries the end marker early. *)
Theorem interrupted_stream_is_prefix Marshal wakes writes s id created chat :
  r_Sent (streamCompletion Marshal wakes writes true s id created chat) `prefix_of` streamed Marshal s id created chat.
Proof. unfold streamed, streamCompletion. destruct chat; apply stream_loop_prefix. Qed.

(** The rounded products of 0.29: a hundred requests see 28 failures. *)
Example rate_rounds_down : scaled (f64.div (f64.of_Z 29) (f64.of_Z 100)) 100 = 28.
Proof. vm_compute. reflexivity. Qed.

End fakeengine.
