(* ===== verification/LoadGen.v ===== *)
(** * The load generator (hack/loadgen/main.go)

    One request and its stream, measured from the client's side; the collection
    of finished requests by concurrent workers; and the statistics of a run.
    The lines of a body come with the time at which they can be read; JSON
    decoding is a parameter, given by StreamCodecs.v.  The theorems tie
    the tool to the shim it is meant to check, and show that its summaries account
    for every request. *)

From S2P Require Import Prelude GoFloat GoFmt Autoscale ShimSSE FakeEngine.
Local Open Scope Z_scope.
Local Open Scope go_scope.

Module loadgen.
Import sse.

(** ** Data *)

Record config := MkConfig {
  URL : string; Model : string; Concurrency : Z; Duration : time.Duration; DurationS : f64.t;
  MaxTokens : Z; Prompt : string; KeepAlive : bool; Window_ : time.Duration; WindowS : f64.t;
  Timeout : time.Duration; TimeoutS : f64.t; Label : string }.

(** The derived fields of [parseFlags]. *)
Definition with_seconds (c : config) : config :=
  MkConfig (URL c) (Model c) (Concurrency c) (Duration c) (gofmt.Duration_Seconds (Duration c)) (MaxTokens c)
    (Prompt c) (KeepAlive c) (Window_ c) (gofmt.Duration_Seconds (Window_ c)) (Timeout c)
    (gofmt.Duration_Seconds (Timeout c)) (Label c).

Record sample := MkSample {
  sm_start : time.Time; sm_ttft : time.Duration; sm_duration : time.Duration; sm_tokens : Z; sm_ok : bool }.

Record Stats := MkStats {
  Requests : Z; Errors : Z; RPS : f64.t; TTFTp50 : f64.t; TTFTp95 : f64.t; TTFTp99 : f64.t;
  DurationP50 : f64.t; DurationP95 : f64.t; DurationP99 : f64.t; TTFTRatio : f64.t; OutputTokens : Z }.

Record Window := MkWindow { w_StartS : f64.t; w_Requests : Z; w_Errors : Z; w_RPS : f64.t; w_TTFTp95 : f64.t }.

Record Result := MkResult {
  res_Config : config; res_Overall : Stats; res_Windows : list Window; res_CV : f64.t; res_ErrorSample : list string }.

(** ** Reading a stream *)

Record sseChunk := MkSseChunk { Choices : list (string * string * string) }.

(** The content, reasoning and text of the first choice, as [readStream] tests
    them. *)
Definition generated (c : sseChunk) : bool :=
  match Choices c with
  | [] => false
  | (content, reasoning, text) :: _ => negb ((content == "") && (reasoning == "") && (text == ""))
  end.

(** The limit of the scanner: a line of this length or more does not fit. *)
Definition maxLine : Z := 1048576.

Definition errTooLong : string := "bufio.Scanner: token too long".

Section Reading.
Context (Unmarshal : bytes -> option sseChunk).

(** What a line says: no token, a token, or the end of the stream. *)
Inductive LineKind := Ignored | Token | End_.

Definition classify (line : bytes) : LineKind :=
  if negb (HasPrefix line sseDataPrefix) then Ignored
  else
    let payload := TrimSpace (TrimPrefix line sseDataPrefix) in
    if bool_decide (payload = sseDone) then End_
    else
      match Unmarshal payload with
      | None => Ignored
      | Some chunk => if generated chunk then Token else Ignored
      end.

(** The loop of [readStream] over the lines of the body, each with the time at
    which it is read; [readErr] is how the body ends. *)
Fixpoint read_lines (start : time.Time) (readErr : option string) (lines : list (time.Time * bytes))
    (ttft : time.Duration) (tokens : Z) : time.Duration * Z * option string :=
  match lines with
  | [] => (ttft, tokens, readErr)
  | (now, line) :: lines' =>
      if maxLine <=? blen line then (ttft, tokens, Some errTooLong)
      else
        match classify (TrimSuffix line [cr]) with
        | Ignored => read_lines start readErr lines' ttft tokens
        | End_ => (ttft, tokens, None)
        | Token =>
            read_lines start readErr lines' (if tokens =? 0 then time.Sub now start else ttft) (wrap64 (tokens + 1))
        end
  end.

Definition readStream (start : time.Time) (readErr : option string) (lines : list (time.Time * bytes)) :
    time.Duration * Z * option string :=
  read_lines start readErr lines 0 0.

(** ** One request *)

(** What the transport did: no request could be built, no response came, or a
    status with the lines of the body; [ended] is when the request was over. *)
Inductive Attempt :=
  | NotBuilt (err : string)
  | NoResponse (ended : time.Time) (err : string)
  | Responded (code : Z) (ended : time.Time) (readErr : option string) (lines : list (time.Time * bytes)).

Definition StatusOK : Z := 200.

Definition doRequest (start : time.Time) (a : Attempt) : sample * option string :=
  let s := MkSample start 0 0 0 false in
  match a with
  | NotBuilt err => (s, Some err)
  | NoResponse ended err => (MkSample start 0 (time.Sub ended start) 0 false, Some err)
  | Responded code ended readErr lines =>
      let s := MkSample start 0 (time.Sub ended start) 0 false in
      if code != StatusOK then (s, Some ("HTTP " +:+ format_int code))
      else
        let '(ttft, tokens, err) := readStream start readErr lines in
        match err with
        | Some e => (s, Some e)
        | None =>
            if tokens =? 0 then (s, Some "stream carried no generated tokens")
            else (MkSample start ttft (time.Sub ended start) tokens true, None)
        end
  end.
End Reading.

(** ** Collection

    Requests in the order in which their workers take the lock; whether the run
    was over by then. *)

Definition collect (acc : list sample * list string) (x : sample * option string * bool) : list sample * list string :=
  let '(samples, errMsgs) := acc in
  let '(s, reqErr, over) := x in
  match reqErr with
  | None => (samples ++ [s], errMsgs)
  | Some e =>
      if over then (samples, errMsgs)
      else (samples ++ [s], if (length errMsgs <? 5)%nat then errMsgs ++ [e] else errMsgs)
  end.

(** ** Statistics *)

(** [slices.Sort] on floats that are not NaN. *)
Fixpoint insert_sorted (x : f64.t) (l : list f64.t) : list f64.t :=
  match l with
  | [] => [x]
  | y :: l' => if f64.ltb y x then y :: insert_sorted x l' else x :: l
  end.

Definition Sort (l : list f64.t) : list f64.t := foldr insert_sorted [] l.

Definition percentile (sorted : list f64.t) (p : f64.t) : f64.t :=
  match sorted with
  | [] => f64.zero
  | _ =>
      let n := Z.of_nat (length sorted) in
      let idx := wrap64 (f64.ceilZ (f64.mul p (f64.of_Z n))) - 1 in
      let idx := Z.min (Z.max idx 0) (n - 1) in
      from_ptr f64.zero (sorted !! Z.to_nat idx)
  end.

Definition p50 : f64.t := f64.div (f64.of_Z 50) (f64.of_Z 100).
Definition p95 : f64.t := f64.div (f64.of_Z 95) (f64.of_Z 100).
Definition p99 : f64.t := f64.div (f64.of_Z 99) (f64.of_Z 100).

Definition oks (samples : list sample) : list sample := List.filter sm_ok samples.
Definition failed_count (samples : list sample) : Z := Z.of_nat (length (List.filter (fun s => negb (sm_ok s)) samples)).
Definition ttft_seconds (samples : list sample) : list f64.t :=
  map (fun s => gofmt.Duration_Seconds (sm_ttft s)) (oks samples).

Definition summarize (samples : list sample) (elapsed : time.Duration) : Stats :=
  let ttfts := ttft_seconds samples in
  let durs := map (fun s => gofmt.Duration_Seconds (sm_duration s)) (oks samples) in
  let secs := gofmt.Duration_Seconds elapsed in
  let rps := if f64.ltb f64.zero secs then f64.div (f64.of_Z (Z.of_nat (length ttfts))) secs else f64.zero in
  let ttfts := Sort ttfts in
  let durs := Sort durs in
  let dur95 := percentile durs p95 in
  MkStats (Z.of_nat (length samples)) (failed_count samples) rps
    (percentile ttfts p50) (percentile ttfts p95) (percentile ttfts p99)
    (percentile durs p50) dur95 (percentile durs p99)
    (if f64.ltb f64.zero dur95 then f64.div (percentile ttfts p95) dur95 else f64.zero)
    (fold_left (fun acc s => wrap64 (acc + sm_tokens s)) (oks samples) 0).

(** The window a sample falls in. *)
Definition window_index (started : time.Time) (size : time.Duration) (s : sample) : Z :=
  Z.max (Z.quot (time.Sub (sm_start s) started) size) 0.

Definition window_of (size : time.Duration) (i : Z) (bucket : list sample) : Window :=
  let ttfts := ttft_seconds bucket in
  MkWindow (gofmt.Duration_Seconds (wrap64 (i * size))) (Z.of_nat (length bucket)) (failed_count bucket)
    (f64.div (f64.of_Z (Z.of_nat (length ttfts))) (gofmt.Duration_Seconds size)) (percentile (Sort ttfts) p95).

Definition bucket_of (started : time.Time) (size : time.Duration) (samples : list sample) (i : Z) : list sample :=
  List.filter (fun s => window_index started size s =? i) samples.

Definition max_index (started : time.Time) (size : time.Duration) (samples : list sample) : Z :=
  fold_left (fun m s => Z.max m (window_index started size s)) samples (-1).

Definition windows (samples : list sample) (started : time.Time) (size : time.Duration) : list Window :=
  if size <=? 0 then []
  else
    map (fun i => window_of size (Z.of_nat i) (bucket_of started size samples (Z.of_nat i)))
      (seq 0 (Z.to_nat (max_index started size samples + 1))).

Definition sum (l : list f64.t) : f64.t := fold_left f64.add l f64.zero.

Definition coefficientOfVariation (ws : list Window) : f64.t :=
  if (length ws <? 4)%nat then f64.zero
  else
    let vals := List.filter (fun v => f64.ltb f64.zero v) (map w_TTFTp95 (take (length ws - 2) (drop 1 ws))) in
    if (length vals <? 2)%nat then f64.zero
    else
      let n := f64.of_Z (Z.of_nat (length vals)) in
      let mean := f64.div (sum vals) n in
      if SpecFloat.SFeqb mean f64.zero then f64.zero
      else
        let sumSq := sum (map (fun v => f64.mul (f64.sub v mean) (f64.sub v mean)) vals) in
        f64.div (SpecFloat.SFsqrt f64.prec f64.emax (f64.div sumSq (f64.of_Z (Z.of_nat (length vals) - 1)))) mean.

(** [run], given the requests its workers finished and the instants around
    them. *)
Definition run (cfg : config) (started ended : time.Time) (finished : list (sample * option string * bool)) :
    Result + string :=
  if Concurrency cfg <? 1 then inr "concurrency must be at least 1"
  else
    let (samples, errMsgs) := fold_left collect finished ([], []) in
    let ws := windows samples started (Window_ cfg) in
    inl (MkResult cfg (summarize samples (time.Sub ended started)) ws (coefficientOfVariation ws) errMsgs).

(** ** Cross-check with the shim *)

(** The fields both tools decode. *)
Definition project (c : streamChunk) : sseChunk :=
  MkSseChunk (map (fun ch => (delta_Content ch, delta_ReasoningContent ch, choice_Text ch)) (sc_Choices c)).

Definition no_tool_calls (c : streamChunk) : Prop :=
  match sc_Choices c with ch :: _ => delta_ToolCalls ch = [] | [] => True end.

Lemma project_generated c : no_tool_calls c -> generated (project c) = hasToken c.
Proof.
  unfold no_tool_calls, generated, project, hasToken. cbn [Choices]. destruct (sc_Choices c) as [|ch l]; [done|].
  cbn [map]. intros ->. cbn [existsb orb].
  by destruct (delta_Content ch == ""), (delta_ReasoningContent ch == ""), (choice_Text ch == "").
Qed.

Lemma TrimSpace_blank p : TrimSpace (of_string " " ++ p) = TrimSpace p.
Proof.
  unfold TrimSpace. change (of_string " " ++ p) with (" "%char :: p).
  change (trim_front (length (" "%char :: p)) spaces (" "%char :: p))
    with (match List.find (HasPrefix (" "%char :: p)) spaces with
          | Some s => trim_front (length p) spaces (drop (length s) (" "%char :: p))
          | None => " "%char :: p
          end).
  assert (E : List.find (HasPrefix (" "%char :: p)) spaces = Some [" "%char]).
  { unfold spaces. cbn [map List.find]. unfold HasPrefix. cbn [length]. by rewrite !firstn_cons, !take_0. }
  by rewrite E.
Qed.

Lemma classify_data_line Unmarshal p :
  classify Unmarshal (data_line p)
  = if bool_decide (TrimSpace p = sseDone) then End_
    else match Unmarshal (TrimSpace p) with
         | None => Ignored
         | Some chunk => if generated chunk then Token else Ignored
         end.
Proof.
  unfold classify. change (HasPrefix (data_line p) sseDataPrefix) with true. cbn [negb].
  change (TrimPrefix (data_line p) sseDataPrefix) with (of_string " " ++ p). by rewrite TrimSpace_blank.
Qed.

(** A stream of events, one data line each: what the scanner reads and when, and
    what arrives at the shim. *)
Fixpoint lines_from (t : time.Time) (events : list (time.Duration * bytes)) : list (time.Time * bytes) :=
  match events with
  | [] => []
  | (d, p) :: events' => (t + d, data_line p) :: (t + d, []) :: lines_from (t + d) events'
  end.

Definition frames (events : list (time.Duration * bytes)) : list (time.Duration * bytes) :=
  map (fun x => (fst x, frame (snd x))) events.

Section CrossCheck.
Context (Unmarshal : bytes -> option streamChunk) (UnmarshalChunk : bytes -> option sseChunk).
Hypothesis Hsame : forall q c, Unmarshal q = Some c -> UnmarshalChunk q = Some (project c).
Hypothesis Hempty : Unmarshal [] = None.

(** An event both tools can read: on one line that fits the scanner, not the end
    marker, and either without tool calls or rejected by both. *)
Definition ordinary (p : bytes) : Prop :=
  one_line p /\ blen (data_line p) < maxLine /\ TrimSpace p <> sseDone
  /\ match Unmarshal (TrimSpace p) with Some c => no_tool_calls c | None => UnmarshalChunk (TrimSpace p) = None end.

Definition carries (p : bytes) : bool :=
  match Unmarshal (TrimSpace p) with Some c => hasToken c | None => false end.

Lemma classify_ordinary p :
  ordinary p -> classify UnmarshalChunk (TrimSuffix (data_line p) [cr]) = if carries p then Token else Ignored.
Proof.
  intros ((_ & Hc & _) & _ & Hd & Ht). rewrite TrimSuffix_other.
  2:{ unfold data_line. rewrite last_app. destruct (last p); [congruence|done]. }
  rewrite classify_data_line, bool_decide_eq_false_2 by done. unfold carries.
  destruct (Unmarshal (TrimSpace p)) as [c|] eqn:E; [|by rewrite Ht]. rewrite (Hsame _ c E). by rewrite project_generated.
Qed.

(** A token or not, as the shim's handler sees it; usage leaves the rest alone. *)
Lemma handle_ordinary t st p k first :
  ordinary p -> fakeengine.progress k first st ->
  exists st', handleEvent Unmarshal fakeengine.clock (t, st) p = (t, if carries p then note_token st' t else st')
              /\ fakeengine.progress k first st' /\ rs_start st' = rs_start st.
Proof.
  intros (_ & _ & Hd & _) Hp. unfold handleEvent, carries.
  destruct (Z.eqb_spec (blen (TrimSpace p)) 0) as [E|_].
  { assert (Hn : TrimSpace p = []) by (destruct (TrimSpace p); [done|unfold blen in E; cbn in E; lia]).
    rewrite Hn, Hempty. by exists st. }
  rewrite bool_decide_eq_false_2 by done. destruct (Unmarshal (TrimSpace p)) as [c|]; [|by exists st].
  exists (observeUsage st (sc_Usage c)). split; [by destruct (hasToken c)|].
  unfold observeUsage. destruct (sc_Usage c) as [[[n|]]|]; try done. by destruct (0 <=? n).
Qed.

Lemma read_ordinary t st p k first :
  ordinary p -> fakeengine.progress k first st ->
  exists st', Read (handleEvent Unmarshal fakeengine.clock) (fun ws e => (fst ws, with_readErr (snd ws) e))
                (newStreamObserver (t, st)) (frame p) ReadMore
              = newStreamObserver (t, if carries p then note_token st' t else st')
              /\ fakeengine.progress k first st' /\ rs_start st' = rs_start st.
Proof.
  intros Hp Hpr. destruct (handle_ordinary t st p k first Hp Hpr) as (st' & E & Hx). exists st'. split; [|done].
  rewrite Read_more. pose proof (scan_frame (handleEvent Unmarshal fakeengine.clock) (t, st) p [] (proj1 Hp)) as Hs.
  rewrite app_nil_r in Hs. etransitivity; [exact Hs|]. by rewrite E.
Qed.

Lemma deliver_ordinary d t st p k first events :
  ordinary p -> fakeengine.progress k first st ->
  exists st', fakeengine.deliver Unmarshal ((d, frame p) :: events) (newStreamObserver (t, st))
              = fakeengine.deliver Unmarshal events
                  (newStreamObserver (t + d, if carries p then note_token st' (t + d) else st'))
              /\ fakeengine.progress k first st' /\ rs_start st' = rs_start st.
Proof.
  intros Hp Hpr. destruct (read_ordinary (t + d) st p k first Hp Hpr) as (st' & E & Hx). exists st'. split; [|done].
  exact (f_equal (fakeengine.deliver Unmarshal events) E).
Qed.

(** Reading on from [k] tokens. *)
Lemma agree_from events readErr rest k first t st :
  Forall (fun x => ordinary (snd x)) events -> 0 <= k -> k + Z.of_nat (length events) < int64_max ->
  fakeengine.progress k first st ->
  exists k' first' t' st',
    fakeengine.deliver Unmarshal (frames events) (newStreamObserver (t, st)) = newStreamObserver (t', st')
    /\ fakeengine.progress k' first' st' /\ 0 <= k' /\ rs_start st' = rs_start st
    /\ forall ttft, (0 < k -> ttft = first) ->
       exists ttft', (0 < k' -> ttft' = first')
         /\ read_lines UnmarshalChunk (rs_start st) readErr (lines_from t events ++ rest) ttft k
            = read_lines UnmarshalChunk (rs_start st) readErr rest ttft' k'.
Proof.
  intros H. revert k first t st. induction H as [|[d p] events Hp _ IH]; intros k first t st Hk Hb Hpr.
  { exists k, first, t, st. split; [done|]. split; [done|]. split; [done|]. split; [done|]. intros ttft Ht. by exists ttft. }
  cbn [snd] in Hp. destruct (deliver_ordinary d t st p k first (frames events) Hp Hpr) as (st1 & Hread & Hp1 & Hs1).
  pose proof Hp as (_ & Hl & _).
  change (frames ((d, p) :: events)) with ((d, frame p) :: frames events).
  cbn [length] in Hb. cbn [lines_from app read_lines].
  rewrite (proj2 (Z.leb_gt maxLine (blen (data_line p)))), classify_ordinary by done.
  change (maxLine <=? blen []) with false. change (classify UnmarshalChunk (TrimSuffix [] [cr])) with Ignored.
  destruct (carries p).
  - set (first1 := if 0 <? k then first else time.Sub (t + d) (rs_start st1)).
    assert (Hp2 : fakeengine.progress (k + 1) first1 (note_token st1 (t + d))).
    { unfold first1. destruct (Z.ltb_spec 0 k); [by apply fakeengine.note_progress; [lia|]|].
      replace k with 0 in * by lia. apply fakeengine.first_token. destruct Hp1 as (? & ? & _ & ?). by split_and!. }
    destruct (IH (k + 1) first1 (t + d) (note_token st1 (t + d)) ltac:(lia) ltac:(lia) Hp2)
      as (k' & first' & t' & st' & E & Hp' & Hk' & Hs' & Hrd).
    exists k', first', t', st'. split; [etransitivity; [exact Hread|exact E]|]. split; [done|]. split; [done|].
    assert (Hst : rs_start (note_token st1 (t + d)) = rs_start st).
    { rewrite <- Hs1. unfold note_token. by destruct (rs_sawFirstToken st1). }
    split; [congruence|]. intros ttft Ht. rewrite Hst in Hrd.
    rewrite wrap64_id by (unfold int64_ok, int64_min, int64_max in *; lia).
    apply (Hrd (if k =? 0 then time.Sub (t + d) (rs_start st) else ttft)). intros _. unfold first1.
    destruct (Z.eqb_spec k 0) as [->|]; [by rewrite Hs1|]. rewrite (proj2 (Z.ltb_lt 0 k)) by lia. apply Ht. lia.
  - destruct (IH k first (t + d) st1 Hk ltac:(lia) Hp1) as (k' & first' & t' & st' & E & Hp' & Hk' & Hs' & Hrd).
    exists k', first', t', st'. split; [etransitivity; [exact Hread|exact E]|]. split; [done|]. split; [done|]. split; [congruence|].
    intros ttft Ht. rewrite <- Hs1. by apply Hrd.
Qed.

(** On ordinary events closed by the end marker the two tools agree. *)
Lemma tools_agree events start d tdone readErr rest :
  Forall (fun x => ordinary (snd x)) events -> Z.of_nat (length events) < int64_max ->
  let s0 := MkRequestState start false 0 0 false 0 None 0 false None in
  let st := snd (so_state (fakeengine.deliver Unmarshal (frames events ++ [(d, frame sseDone)])
                             (newStreamObserver (start, s0)))) in
  let '(ttft, tokens, err) :=
    readStream UnmarshalChunk start readErr (lines_from start events ++ (tdone, data_line sseDone) :: rest) in
  tokens = rs_tokens st /\ (0 < tokens -> ttft = rs_ttft st) /\ rs_sawFirstToken st = (0 <? tokens)
  /\ err = None /\ rs_sawDone st = true.
Proof.
  intros Hev Hb s0 st.
  destruct (agree_from events readErr ((tdone, data_line sseDone) :: rest) 0 0 start s0 Hev) as
    (k & first & t' & st' & E & (P1 & P2 & P3 & P4) & Hk & _ & Hrd); [lia|lia|by split_and!|].
  destruct (Hrd 0 ltac:(lia)) as (ttft & Ht & Er).
  assert (Hst : st = with_done st').
  { unfold st, fakeengine.deliver. rewrite fold_left_app.
    etransitivity; [apply (f_equal (fun o => snd (so_state (fold_left _ _ o)))); exact E|]. reflexivity. }
  unfold readStream. change (rs_start s0) with start in Er. rewrite Er. cbn [read_lines].
  change (maxLine <=? blen (data_line sseDone)) with false.
  change (classify UnmarshalChunk (TrimSuffix (data_line sseDone) [cr])) with End_.
  rewrite Hst. cbn. split_and!; [done|intros H; rewrite Ht, P3 by lia; done|done|done|done].
Qed.
End CrossCheck.

(** A stream of tool calls divides the two tools.  On a stream whose only
    output is a tool call the shim counts a token and measures its time, and the
    load generator reports the request as failed for want of tokens. *)
Theorem tool_calls_divide_tools :
  let call := MkStreamChunk None [MkChoice "" "" [MkToolCall "lookup" ""] ""] in
  let decode (q : bytes) := if bool_decide (q = []) then None else Some call in
  let s0 := MkRequestState 0 false 0 0 false 0 None 0 false None in
  let p := of_string "call" in
  let st := snd (so_state (fakeengine.deliver decode [(50, frame p); (10, frame sseDone)] (newStreamObserver (0, s0)))) in
  rs_tokens st = 1 /\ rs_ttft st = 50
  /\ doRequest (fun q => option_map project (decode q)) 0
       (Responded 200 60 None (lines_from 0 [(50, p); (10, sseDone)]))
     = (MkSample 0 0 60 0 false, Some "stream carried no generated tokens").
Proof. vm_compute. done. Qed.

(** ** Accounting *)

Definition total (f : Window -> Z) (ws : list Window) : Z := fold_right Z.add 0 (map f ws).

(** Counting by bucket counts everything once. *)
Lemma seq_indicator a b j : fold_right Z.add 0 (map (fun i => if j =? Z.of_nat i then 1 else 0) (seq a b))
  = if (Z.of_nat a <=? j) && (j <? Z.of_nat (a + b)) then 1 else 0.
Proof.
  revert a. induction b as [|b IH]; intros a; cbn [seq map fold_right].
  - rewrite Nat.add_0_r. destruct (Z.leb_spec (Z.of_nat a) j), (Z.ltb_spec j (Z.of_nat a)); cbn; lia.
  - rewrite IH, Nat.add_succ_r.
    destruct (Z.eqb_spec j (Z.of_nat a)), (Z.leb_spec (Z.of_nat a) j), (Z.leb_spec (Z.of_nat (S a)) j),
      (Z.ltb_spec j (Z.of_nat (S a + b))), (Z.ltb_spec j (Z.of_nat (S (a + b)))); cbn; lia.
Qed.

Lemma sum_map_add {A} (f g : A -> Z) l :
  fold_right Z.add 0 (map (fun x => f x + g x) l) = fold_right Z.add 0 (map f l) + fold_right Z.add 0 (map g l).
Proof. induction l as [|x l IH]; cbn; [done|]. rewrite IH. lia. Qed.

Lemma bucket_sum (index : sample -> Z) (keep : sample -> bool) n samples :
  Forall (fun s => 0 <= index s < Z.of_nat n) samples ->
  fold_right Z.add 0 (map (fun i => Z.of_nat (length (List.filter keep (List.filter (fun s => index s =? Z.of_nat i) samples)))) (seq 0 n))
  = Z.of_nat (length (List.filter keep samples)).
Proof.
  intros H. induction H as [|s samples Hs _ IH].
  - cbn. induction (seq 0 n) as [|i l IHl]; [done|]. cbn. by rewrite IHl.
  - transitivity (fold_right Z.add 0 (map (fun i => (if keep s then if index s =? Z.of_nat i then 1 else 0 else 0)
       + Z.of_nat (length (List.filter keep (List.filter (fun s => index s =? Z.of_nat i) samples)))) (seq 0 n))).
    { f_equal. apply map_ext. intros i. cbn [List.filter]. destruct (index s =? Z.of_nat i), (keep s) eqn:Ek;
        cbn [List.filter]; rewrite ?Ek; cbn [length]; lia. }
    rewrite sum_map_add, IH. cbn [List.filter]. destruct (keep s).
    + rewrite seq_indicator. cbn [length]. rewrite (proj2 (Z.leb_le (Z.of_nat 0) (index s))), (proj2 (Z.ltb_lt (index s) _)) by lia.
      cbn [andb]. lia.
    + assert (Hz : forall l : list nat, fold_right Z.add 0 (map (fun _ => 0) l) = 0) by (induction l; cbn; lia).
      rewrite Hz. lia.
Qed.

Lemma max_index_bounds started size samples m :
  -1 <= m ->
  let M := fold_left (fun m s => Z.max m (window_index started size s)) samples m in
  m <= M /\ Forall (fun s => 0 <= window_index started size s <= M) samples.
Proof.
  revert m. induction samples as [|s samples IH]; intros m Hm M; [split; [unfold M; cbn; lia|constructor]|].
  destruct (IH (Z.max m (window_index started size s)) ltac:(lia)) as [H1 H2]. unfold M. cbn [fold_left].
  split; [lia|]. constructor; [|done]. split; [unfold window_index; lia|lia].
Qed.

Lemma windows_account samples started size :
  0 < size ->
  total w_Requests (windows samples started size) = Z.of_nat (length samples)
  /\ total w_Errors (windows samples started size) = failed_count samples.
Proof.
  intros Hs. unfold windows, total. rewrite (proj2 (Z.leb_gt size 0)) by lia. rewrite !map_map.
  destruct (max_index_bounds started size samples (-1) ltac:(lia)) as [H1 H2]. cbv zeta in *.
  set (n := Z.to_nat (max_index started size samples + 1)).
  assert (Hin : Forall (fun s => 0 <= window_index started size s < Z.of_nat n) samples).
  { eapply Forall_impl; [exact H2|]. cbn. intros s Hx. unfold n, max_index. lia. }
  pose proof (bucket_sum (window_index started size) (fun _ => true) n samples Hin) as HA.
  pose proof (bucket_sum (window_index started size) (fun s => negb (sm_ok s)) n samples Hin) as HB.
  split; [|exact HB].
  assert (Ht : forall l : list sample, List.filter (fun _ => true) l = l) by (induction l; cbn; congruence).
  rewrite Ht in HA. rewrite <- HA. f_equal. apply map_ext. intros i. by rewrite Ht.
Qed.

Lemma doRequest_ok Unmarshal start a :
  sm_ok (fst (doRequest Unmarshal start a)) = is_nil (snd (doRequest Unmarshal start a)).
Proof.
  destruct a as [e|t e|code t re lines]; [done..|]. cbn. destruct (negb _); [done|].
  destruct (readStream _ _ _ _) as [[ttft tokens] [e|]]; [done|]. by destruct (tokens =? 0).
Qed.

(** A request cut short by the end of the run. *)
Definition cut_short (x : sample * option string * bool) : bool := negb (is_nil (snd (fst x))) && snd x.

Lemma collect_all finished samples errMsgs :
  let kept := List.filter (fun x => negb (cut_short x)) finished in
  (length errMsgs <= 5)%nat ->
  let r := fold_left collect finished (samples, errMsgs) in
  fst r = samples ++ map (fun x => fst (fst x)) kept /\ (length (snd r) <= 5)%nat.
Proof.
  cbv zeta. revert samples errMsgs. induction finished as [|[[s e] over] finished IH]; intros samples errMsgs He.
  { cbn. by rewrite app_nil_r. }
  cbn [fold_left List.filter]. unfold collect at 2 4, cut_short at 1. cbn [fst snd].
  destruct e as [e|]; cbn [is_nil negb andb].
  - destruct over; cbn [negb]; [by apply IH|].
    destruct (IH (samples ++ [s]) (if (length errMsgs <? 5)%nat then errMsgs ++ [e] else errMsgs)) as [H1 H2].
    { destruct (Nat.ltb_spec (length errMsgs) 5); [rewrite length_app; cbn; lia|done]. }
    split; [|exact H2]. rewrite H1, <- app_assoc. done.
  - destruct (IH (samples ++ [s]) errMsgs He) as [H1 H2]. split; [|exact H2]. rewrite H1, <- app_assoc. done.
Qed.

Lemma failed_errors Unmarshal (l : list (time.Time * Attempt * bool)) (p : sample * option string * bool -> bool) :
  let finished := map (fun x => (doRequest Unmarshal (fst (fst x)) (snd (fst x)), snd x)) l in
  failed_count (map (fun x => fst (fst x)) (List.filter p finished))
  = Z.of_nat (length (List.filter (fun x => negb (is_nil (snd (fst x)))) (List.filter p finished))).
Proof.
  cbv zeta. unfold failed_count. f_equal. induction l as [|[[t a] o] l IH]; [done|]. cbn [map List.filter fst snd].
  destruct (p _); [|exact IH]. cbn [map List.filter fst snd]. rewrite doRequest_ok.
  destruct (is_nil _); cbn [negb length]; by rewrite IH.
Qed.

(** A run accounts for every request.  However the workers interleave and
    whatever the server does, a run reports every request that was not cut short
    by its own end exactly once, the failed ones as errors; the windows share out
    exactly the same requests and errors; and at most five error texts are kept. *)
Theorem run_accounts Unmarshal cfg started ended attempts :
  1 <= Concurrency cfg -> 0 < Window_ cfg ->
  let finished := map (fun x => (doRequest Unmarshal (fst (fst x)) (snd (fst x)), snd x)) attempts in
  let kept := List.filter (fun x => negb (cut_short x)) finished in
  exists res, run cfg started ended finished = inl res
    /\ Requests (res_Overall res) = Z.of_nat (length kept)
    /\ Errors (res_Overall res) = Z.of_nat (length (List.filter (fun x => negb (is_nil (snd (fst x)))) kept))
    /\ total w_Requests (res_Windows res) = Requests (res_Overall res)
    /\ total w_Errors (res_Windows res) = Errors (res_Overall res)
    /\ (length (res_ErrorSample res) <= 5)%nat.
Proof.
  intros Hc Hw finished kept. unfold run. rewrite (proj2 (Z.ltb_ge _ 1)) by lia.
  destruct (collect_all finished [] [] ltac:(cbn; lia)) as [H1 H2].
  destruct (fold_left collect finished ([], [])) as [samples errMsgs]. cbn [fst snd app] in *. fold kept in H1.
  eexists. split; [reflexivity|]. cbn [res_Overall res_Windows res_ErrorSample].
  destruct (windows_account samples started (Window_ cfg) Hw) as [W1 W2]. rewrite W1, W2.
  unfold summarize. cbn [Requests Errors]. subst samples. rewrite length_map.
  split_and!; try done. apply failed_errors.
Qed.

Lemma run_accounts_witness :
  let cfg := MkConfig "" "" 2 0 f64.zero 0 "" true time.Second f64.zero 0 f64.zero "" in
  let attempts := [(0, NotBuilt "bad url", false); (time.Second, NoResponse (2 * time.Second) "refused", true)] in
  exists res, run cfg 0 (3 * time.Second)
                (map (fun x => (doRequest (fun _ => None) (fst (fst x)) (snd (fst x)), snd x)) attempts) = inl res
    /\ Requests (res_Overall res) = 1 /\ Errors (res_Overall res) = 1.
Proof.
  intros cfg attempts.
  destruct (run_accounts (fun _ => None) cfg 0 (3 * time.Second) attempts) as (res & E & H1 & H2 & _);
    [vm_compute; discriminate|vm_compute; reflexivity|].
  exists res. split; [exact E|]. split; [rewrite H1|rewrite H2]; vm_compute; reflexivity.
Defined.

End loadgen.
