(* ===== verification/StreamCodecs.v ===== *)
(** * The JSON of the engine and the load generator (cmd/fakeengine/server.go, hack/loadgen/main.go)

    The struct types with their tags, as the programs encode and decode them
    through GoJson.v.  With them and ShimJson.v the observer of the shim, the
    stand-in engine and the load generator are closed programs: what one writes
    the others read (StreamWire.v). *)

From S2P Require Import Prelude GoFloat GoFmt GoStrconv GoJson GoJsonFacts ShimSSE FakeEngine LoadGen.
Import json.
Local Open Scope Z_scope.
Local Open Scope go_scope.

(** ** The fake engine *)

Module engine_json.
Import fakeengine.

Definition errorEnvelope_t : ty :=
  TStruct (FCons "error" false
    (TStruct (FCons "code" false TInt64 (FCons "message" false TString (FCons "type" false TString FNil)))) FNil).

(** The map of [handleHealth] has one key. *)
Definition status_t : ty := TStruct (FCons "status" false TString FNil).

Definition modelCard_t : ty :=
  TStruct (FCons "id" false TString (FCons "object" false TString
    (FCons "created" false TInt64 (FCons "owned_by" false TString FNil)))).

Definition modelList_t : ty :=
  TStruct (FCons "object" false TString (FCons "data" false (TSlice modelCard_t) FNil)).

Definition usage_t : ty :=
  TStruct (FCons "prompt_tokens" false TInt64
    (FCons "completion_tokens" false TInt64 (FCons "total_tokens" false TInt64 FNil))).

Definition chatMessage_t : ty := TStruct (FCons "role" false TString (FCons "content" false TString FNil)).
Definition chatDelta_t : ty := TStruct (FCons "role" true TString (FCons "content" true TString FNil)).

Definition chatChoice_t : ty :=
  TStruct (FCons "index" false TInt64 (FCons "message" false chatMessage_t (FCons "finish_reason" false TString FNil))).

Definition chatChunkChoice_t : ty :=
  TStruct (FCons "index" false TInt64 (FCons "delta" false chatDelta_t (FCons "finish_reason" false (TPtr TString) FNil))).

Definition textChoice_t : ty :=
  TStruct (FCons "index" false TInt64 (FCons "text" false TString (FCons "finish_reason" false (TPtr TString) FNil))).

(** The four fields every completion starts with. *)
Definition completion_t (rest : fields) : ty :=
  TStruct (FCons "id" false TString (FCons "object" false TString
    (FCons "created" false TInt64 (FCons "model" false TString rest)))).

Definition chatResponse_t : ty :=
  completion_t (FCons "choices" false (TSlice chatChoice_t) (FCons "usage" false usage_t FNil)).

Definition chatChunk_t : ty := completion_t (FCons "choices" false (TSlice chatChunkChoice_t) FNil).

Definition textResponse_t : ty :=
  completion_t (FCons "choices" false (TSlice textChoice_t) (FCons "usage" true (TPtr usage_t) FNil)).

Definition some_slice {A} (l : list A) : slice A := Some (l, []).

Definition usage_v (u : usage) : interp usage_t := (u_PromptTokens u, (u_CompletionTokens u, (u_TotalTokens u, tt))).

Definition payload_t (p : Payload) : ty :=
  match p with
  | errorEnvelope _ _ _ => errorEnvelope_t
  | status _ => status_t
  | modelList _ _ => modelList_t
  | chatResponse _ _ _ _ _ _ => chatResponse_t
  | chatChunk _ _ _ _ _ => chatChunk_t
  | textResponse _ _ _ _ _ _ => textResponse_t
  end.

Definition card_v (c : modelCard) : interp modelCard_t := (mc_ID c, (mc_Object c, (mc_Created c, (mc_OwnedBy c, tt)))).

Definition chat_choice_v (c : chatChoice) : interp chatChoice_t :=
  (cc_Index c, ((cm_Role (cc_Message c), (cm_Content (cc_Message c), tt)), (cc_FinishReason c, tt))).

Definition chunk_choice_v (c : chatChunkChoice) : interp chatChunkChoice_t :=
  (kc_Index c, ((cd_Role (kc_Delta c), (cd_Content (kc_Delta c), tt)), (kc_FinishReason c, tt))).

Definition text_choice_v (c : textChoice) : interp textChoice_t := (tc_Index c, (tc_Text c, (tc_FinishReason c, tt))).

(** The value of a payload at its type. *)
Definition payload_v (p : Payload) : interp (payload_t p) :=
  match p return interp (payload_t p) with
  | errorEnvelope code message kind => ((code, (message, (kind, tt))), tt)
  | status s => (s, tt)
  | modelList object data => (object, (some_slice (map card_v data), tt))
  | chatResponse id object created model choices u =>
      (id, (object, (created, (model, (some_slice (map chat_choice_v choices), (usage_v u, tt))))))
  | chatChunk id object created model choices =>
      (id, (object, (created, (model, (some_slice (map chunk_choice_v choices), tt)))))
  | textResponse id object created model choices u =>
      (id, (object, (created, (model, (some_slice (map text_choice_v choices), (option_map usage_v u, tt))))))
  end.

(** [json.Marshal] of a payload. *)
Definition MarshalPayload (p : Payload) : option bytes := Marshal (payload_t p) (payload_v p).

Definition completionRequest_t : ty :=
  TStruct (FCons "model" false TString (FCons "stream" false TBool (FCons "prompt" false TRawMessage
    (FCons "messages" false
       (TSlice (TStruct (FCons "role" false TString (FCons "content" false TString FNil)))) FNil)))).

Definition request_of (v : interp completionRequest_t) : completionRequest :=
  let '(model, (stream, (prompt, (messages, _)))) := v in
  MkCompletionRequest model stream (to_string (from_ptr [] prompt))
    (map (fun m => (fst m, fst (snd m))) (elems messages)).

(** [json.NewDecoder(r.Body).Decode(&req)]. *)
Definition DecodeRequest (b : bytes) : option completionRequest := option_map request_of (Decode completionRequest_t b).

End engine_json.

(** ** The load generator *)

Module loadgen_json.
Import loadgen.

Definition delta_t : ty :=
  TStruct (FCons "content" false TString (FCons "reasoning_content" false TString FNil)).

Definition choice_t : ty := TStruct (FCons "delta" false delta_t (FCons "text" false TString FNil)).

Definition sseChunk_t : ty := TStruct (FCons "choices" false (TSlice choice_t) FNil).

Definition choice_of (v : interp choice_t) : string * string * string :=
  let '((content, (reasoning, _)), (text, _)) := v in (content, reasoning, text).

Definition UnmarshalSSE (b : bytes) : option sseChunk :=
  option_map (fun v : interp sseChunk_t => MkSseChunk (map choice_of (elems (fst v)))) (Unmarshal sseChunk_t b).

(** The request body of [run]: maps, whose keys are encoded in order. *)
Definition message_t : ty := TStruct (FCons "content" false TString (FCons "role" false TString FNil)).

Definition body_t : ty :=
  TStruct (FCons "chat_template_kwargs" false (TStruct (FCons "enable_thinking" false TBool FNil))
    (FCons "max_tokens" false TInt64 (FCons "messages" false (TSlice message_t)
      (FCons "model" false TString (FCons "stream" false TBool (FCons "temperature" false TInt64 FNil)))))).

Definition body_v (cfg : config) : interp body_t :=
  ((false, tt), (MaxTokens cfg, (Some ([(Prompt cfg, ("user", tt))], []), (Model cfg, (true, (0, tt)))))).

Definition request_body (cfg : config) : option bytes := Marshal body_t (body_v cfg).

End loadgen_json.
