(* ===== verification/StreamWire.v ===== *)
(** * The stream on the wire

    The stand-in engine writes its chunks as bytes, the shim and the load
    generator read those bytes: the measurements agree with the configuration and
    with each other, with the codecs of StreamCodecs.v in place of assumptions. *)

From S2P Require Import Prelude GoFloat GoFmt GoStrconv GoJson GoJsonFacts ShimSSE FakeEngine LoadGen ShimJson StreamCodecs.
Import json json_facts.
Local Open Scope Z_scope.
Local Open Scope go_scope.

Module wire.
Import fakeengine shim_json engine_json loadgen_json.

(** ** An object on one line *)

Lemma visible_no_nl b : visible b -> sse.nl ∉ b.
Proof. intros H Hin. unfold visible in H. rewrite Forall_forall in H. specialize (H _ Hin). by vm_compute in H. Qed.

Lemma trim_front_stop fuel seps c b :
  forallb (fun s => match s with x :: _ => negb (x == c) | [] => false end) seps = true ->
  sse.trim_front fuel seps (c :: b) = c :: b.
Proof.
  intros H. assert (E : List.find (sse.HasPrefix (c :: b)) seps = None).
  { induction seps as [|s seps IH]; [done|]. cbn [forallb] in H. apply andb_true_iff in H as [Hs H].
    cbn [List.find]. replace (sse.HasPrefix (c :: b) s) with false; [by apply IH|].
    destruct s as [|x s]; [done|]. symmetry. apply bool_decide_eq_false_2. cbn. intros [= ->].
    by rewrite bool_decide_eq_true_2 in Hs. }
  destruct fuel as [|n]; [done|]. cbn [sse.trim_front]. by rewrite E.
Qed.

Lemma object_trimmed b : sse.TrimSpace ("{"%char :: b ++ ["}"%char]) = "{"%char :: b ++ ["}"%char].
Proof.
  unfold sse.TrimSpace. rewrite (trim_front_stop _ sse.spaces) by (vm_compute; reflexivity).
  change (rev ("{"%char :: b ++ ["}"%char])) with (rev (("{"%char :: b) ++ ["}"%char])).
  rewrite rev_app_distr. cbn [rev app]. rewrite trim_front_stop by (vm_compute; reflexivity).
  change ("}"%char :: rev b ++ ["{"%char]) with (rev ["}"%char] ++ rev ("{"%char :: b)).
  by rewrite <- rev_app_distr, rev_involutive.
Qed.

(** What the shim relies on of an object printed by the encoder. *)
Lemma object_line fs (s : struct_of fs) :
  let p := print (encode (TStruct fs) s) in
  sse.blen p <= sse.maxSSELine - 6 ->
  sse.one_line p /\ sse.TrimSpace p = p /\ p <> [] /\ p <> sse.sseDone.
Proof.
  intros p Hl. pose proof (proj1 encode_visible (TStruct fs) s) as Hv. fold p in Hv.
  destruct (print_object (encode_fields fs s)) as [b E]. change (print (Obj _)) with p in E.
  split; [split; [by apply visible_no_nl|split]|].
  - rewrite E. change ("{"%char :: b ++ ["}"%char]) with (("{"%char :: b) ++ ["}"%char]). by rewrite last_snoc.
  - rewrite sse.blen_data_line. lia.
  - rewrite E. split; [apply object_trimmed|done].
Qed.

(** ** A chunk through the codecs *)

(** A chunk with the four leading fields and its choices, decoded by the shim:
    only the choices count. *)
Lemma decode_chunk raw id object created model rest :
  decode streamChunk_t raw
    (Obj ((of_string "id", id) :: (of_string "object", object) :: (of_string "created", created)
          :: (of_string "model", model) :: rest)) (zero streamChunk_t)
  = decode streamChunk_t raw (Obj rest) (zero streamChunk_t).
Proof.
  unfold streamChunk_t. by rewrite !decode_skip by (vm_compute; reflexivity).
Qed.

Definition stream_payload (s : server) (id : string) (created : Z) (c : Payload) : Prop :=
  c = chat_chunk s id created (MkChatDelta assistantRole "") None
  \/ c = chat_chunk s id created (MkChatDelta "" generatedToken) None
  \/ c = chat_chunk s id created (MkChatDelta "" "") (Some finishStop)
  \/ c = text_chunk s id created generatedToken None
  \/ c = text_chunk s id created "" (Some finishStop).

Lemma stream_payloads s id created chat : Forall (stream_payload s id created) (stream_chunks s id created chat).
Proof.
  unfold stream_payload. assert (Hrep : forall (P : Payload -> Prop) c k, P c -> Forall P (repeat c k)).
  { intros P c k Hc. induction k; by constructor. }
  destruct chat; cbn [stream_chunks]; unfold chatChunks, textChunks.
  - constructor; [tauto|]. apply Forall_app. split; [apply Hrep; tauto|]. constructor; [tauto|constructor].
  - apply Forall_app. split; [apply Hrep; tauto|]. constructor; [tauto|constructor].
Qed.

(** The shim reads of a chunk exactly what it looks at. *)
Lemma chunk_view s id created c raw :
  stream_payload s id created c ->
  let '(ok, v) := decode streamChunk_t raw (norm (encode (payload_t c) (payload_v c))) (zero streamChunk_t) in
  ok = true /\ chunk_of v = view c.
Proof.
  intros [->|[->|[->|[->| ->]]]]; unfold chat_chunk, text_chunk;
    cbn [payload_t payload_v encode encode_fields chatChunk_t textResponse_t completion_t fst snd andb some_slice map norm option_map];
    rewrite decode_chunk; vm_compute; done.
Qed.

Lemma chunk_ints s id created c :
  int64_ok created -> stream_payload s id created c -> ints_ok (payload_t c) (payload_v c).
Proof.
  intros Hc. assert (H0 : int64_ok 0) by (unfold int64_ok, int64_min, int64_max; lia).
  intros [->|[->|[->|[->| ->]]]]; cbn; repeat first [done | split | constructor].
Qed.

Lemma length_member k j : length (member_text (k, with_text j)) = (length (quote k) + S (length (print j)))%nat.
Proof. unfold member_text. cbn [fst snd with_text]. by rewrite length_app. Qed.

(** Evaluate the lengths of closed texts. *)
Ltac closed_lengths :=
  repeat match goal with
  | |- context [length (quote (of_string (String ?c ?k)))] =>
      let n := eval vm_compute in (length (quote (of_string (String c k)))) in
      change (length (quote (of_string (String c k)))) with n
  | |- context [length (print (Arr ?l))] =>
      let n := eval vm_compute in (length (print (Arr l))) in change (length (print (Arr l))) with n
  end.

(** A chunk is as long as its strings, escaped, and little more. *)
Lemma chunk_length s id created c :
  stream_payload s id created c ->
  sse.blen (print (encode (payload_t c) (payload_v c)))
  <= 6 * (Z.of_nat (String.length id) + Z.of_nat (String.length (model (s_cfg s)))) + 300.
Proof.
  pose proof (quote_length (of_string id)) as Hid. pose proof (quote_length (of_string (model (s_cfg s)))) as Hm.
  pose proof (format_int_length created) as Hc. rewrite !of_string_length in Hid, Hm.
  intros [->|[->|[->|[->| ->]]]]; unfold chat_chunk, text_chunk, sse.blen;
    cbn [payload_t payload_v encode encode_fields chatChunk_t textResponse_t completion_t fst snd andb some_slice map print
         option_map is_empty is_nil join];
    cbn [app length]; repeat (rewrite length_app; cbn [length]); rewrite !length_member;
    change (encode TInt64 created) with (Num (of_string (format_int created)));
    change (print (Str ?x)) with (quote x); change (print (Num ?x)) with x;
    change objectTextCompletion with "text_completion"; closed_lengths; lia.
Qed.

(** A chunk of the engine is an event the shim understands. *)
Lemma chunk_encodes s id created c :
  int64_ok created -> str_len id <= 100 -> str_len (model (s_cfg s)) <= 100000 ->
  stream_payload s id created c -> encodes MarshalPayload UnmarshalChunk c.
Proof.
  intros Hc Hid Hm Hp. pose proof (chunk_length s id created c Hp) as Hl.
  pose proof (chunk_ints s id created c Hc Hp) as Hi.
  assert (Ht : exists fs, payload_t c = TStruct fs /\ encodable (payload_t c) = true /\ (levels (payload_t c) <= 100)%nat).
  { destruct Hp as [->|[->|[->|[->| ->]]]]; eexists; (split; [reflexivity|]); split; vm_compute; (reflexivity || lia). }
  destruct Ht as (fs & Et & He & Hv). exists (print (encode (payload_t c) (payload_v c))).
  unfold MarshalPayload, Marshal. rewrite He. split; [done|].
  assert (Ho : let p := print (encode (payload_t c) (payload_v c)) in
                sse.one_line p /\ sse.TrimSpace p = p /\ p <> [] /\ p <> sse.sseDone).
  { revert Hl. generalize (payload_v c). rewrite Et. intros v Hl. apply object_line. unfold sse.maxSSELine, str_len in *. lia. }
  cbv zeta in Ho. destruct Ho as (H1 & H2 & H3 & H4). split_and!; [done..|].
  unfold UnmarshalChunk. rewrite Unmarshal_encoded by done.
  pose proof (chunk_view s id created c (print (encode (payload_t c) (payload_v c))) Hp) as Hd.
  destruct (decode streamChunk_t _ _ _) as [ok v]. destruct Hd as [-> Hd]. cbn [option_map]. by rewrite Hd.
Qed.

(** ** Requests *)

Lemma request_decoded cfg :
  int64_ok (loadgen.MaxTokens cfg) ->
  exists b, request_body cfg = Some b
    /\ DecodeRequest b
       = Some (MkCompletionRequest (to_string (coerce (of_string (loadgen.Model cfg)))) true ""
                 [("user", to_string (coerce (of_string (loadgen.Prompt cfg))))]).
Proof.
  intros Hm. assert (H0 : int64_ok 0) by (unfold int64_ok, int64_min, int64_max; lia).
  exists (print (encode body_t (body_v cfg))). split; [done|]. unfold DecodeRequest, Decode.
  rewrite (first_value_printed (levels body_t)); [|apply encode_printable; cbn; repeat first [done | split | constructor]|].
  2:{ vm_compute. discriminate. }
  cbn [mbind option_bind].
  cbn [body_t body_v encode encode_fields fst snd andb map norm with_text message_t].
  generalize (coerce (of_string (loadgen.Model cfg))), (coerce (of_string (loadgen.Prompt cfg))),
    (norm (encode TInt64 (loadgen.MaxTokens cfg))). intros m p k.
  repeat match goal with |- context [print ?j] => generalize (print j); intros ? end.
  vm_compute. reflexivity.
Qed.

(** ** The engine's stream *)

Lemma id_length (chat : bool) n : str_len ((if chat then "chatcmpl-" else "cmpl-") +:+ format_int n) <= 100.
Proof.
  pose proof (format_int_length n) as H. rewrite of_string_length in H. unfold str_len.
  revert H. generalize (format_int n). intros x H. destruct chat.
  - change (String.length ("chatcmpl-" +:+ x)) with (9 + String.length x)%nat. lia.
  - change (String.length ("cmpl-" +:+ x)) with (5 + String.length x)%nat. lia.
Qed.

(** The bounds of a configuration under which nothing overflows. *)
Definition sane (cfg : config) : Prop :=
  0 <= tokens cfg < int64_max /\ 0 <= ttft cfg <= int64_max /\ 0 <= itl cfg
  /\ ttft cfg + tokens cfg * itl cfg <= int64_max /\ str_len (model cfg) <= 100000.

Definition fresh_state (start : time.Time) : sse.requestState :=
  sse.MkRequestState start false 0 0 false 0 None 0 false None.

(** A streamed answer of the server to an accepted request. *)
Definition streams (s : server) (now created : time.Time) (body : sse.bytes) : Prop :=
  loaded s now = true /\ (exists req, DecodeRequest body = Some req /\ cr_Stream req = true)
  /\ failsAt (wrapu64 (s_requests s + 1)) (errorRate (s_cfg s)) = false /\ int64_ok (Unix created).

Definition answer (s : server) (chat : bool) (now created : time.Time) (body : sse.bytes) : Response :=
  snd (handleCompletion MarshalPayload DecodeRequest always always true chat s now created body).

Lemma answer_streamed s (chat : bool) now created body :
  streams s now created body ->
  exists (id : string) (n : Z), id = (if chat then "chatcmpl-" else "cmpl-") +:+ format_int n
    /\ answer s chat now created body
       = MkResponse (Some StatusOK) "text/event-stream"
           (streamed MarshalPayload (MkServer (s_cfg s) (s_readyAt s) n) id (Unix created) chat).
Proof.
  intros (Hl & (req & Hd & Hst) & Hf & _). unfold answer, handleCompletion. rewrite Hl, Hd. cbn [negb].
  unfold nextRequest. rewrite Hf, Hst. cbn [snd]. eexists _, _. split; [reflexivity|].
  unfold streamed, streamCompletion. by destruct chat.
Qed.

(** What the shim knows after a stream that went as configured. *)
Definition as_configured (cfg : config) (start : time.Time) (ws : time.Time * sse.requestState) : Prop :=
  let (t, st) := ws in
  sse.rs_tokens st = tokens cfg /\ sse.rs_sawFirstToken st = (0 <? tokens cfg)
  /\ (0 < tokens cfg -> sse.rs_ttft st = ttft cfg) /\ sse.rs_sawDone st = true /\ sse.rs_readErr st = None
  /\ t = start + wrap64 (ttft cfg + wrap64 (tokens cfg * itl cfg)).

Lemma stream_measured s id created chat start :
  sane (s_cfg s) -> int64_ok created -> str_len id <= 100 ->
  as_configured (s_cfg s) start
    (sse.so_state (deliver UnmarshalChunk (streamed MarshalPayload s id created chat)
       (sse.newStreamObserver (start, fresh_state start)))).
Proof.
  intros (Hn & Ht & Hi & Hb & Hm) Hc Hid. unfold as_configured, fresh_state.
  apply (observer_measures_stream MarshalPayload UnmarshalChunk s id created chat start Hn Ht Hi Hb).
  eapply Forall_impl; [apply stream_payloads|]. intros c Hp. by apply (chunk_encodes s id created c Hc Hid Hm).
Qed.

(** C30: the shim measures what the fake engine was told to do, over the bytes
    the engine writes.  An accepted streaming request is answered with status 200
    and an event stream; fed to the shim, each text arriving after its delay, the
    observer decodes every frame, counts exactly the configured tokens and
    measures exactly the configured time to first token - the opening role frame
    of a chat does not count - sees the end marker and no error; and the stream
    takes as long as the unstreamed answer sleeps. *)
Theorem shim_measures_fake_engine s chat now created body start :
  let cfg := s_cfg s in
  let n := tokens cfg in
  let r := answer s chat now created body in
  sane cfg -> streams s now created body ->
  r_Status r = Some StatusOK /\ r_Type r = "text/event-stream"
  /\ let (t, st) := sse.so_state (deliver UnmarshalChunk (r_Sent r) (sse.newStreamObserver (start, fresh_state start))) in
     sse.rs_tokens st = n /\ sse.rs_sawFirstToken st = (0 <? n) /\ (0 < n -> sse.rs_ttft st = ttft cfg)
     /\ sse.rs_sawDone st = true /\ sse.rs_readErr st = None
     /\ t = start + wrap64 (ttft cfg + wrap64 (n * itl cfg)).
Proof.
  intros cfg n r Hcfg Hs. destruct (answer_streamed s chat now created body Hs) as (id & k & Eid & Er).
  unfold r. rewrite Er. split; [done|]. split; [done|].
  destruct Hs as (_ & _ & _ & Hc). apply (stream_measured (MkServer (s_cfg s) (s_readyAt s) k)); [done..|].
  rewrite Eid. apply id_length.
Qed.

Lemma shim_measures_fake_engine_witness :
  let cfg := MkConfig "" 8000 0 (50 * Millisecond) (10 * Millisecond) 3 f64.zero "m" in
  let s := MkServer cfg 0 1 in
  let body := from_ptr [] (request_body (loadgen.MkConfig "u" "m" 1 1 f64.zero 16 "hi" true 0 f64.zero 0 f64.zero "")) in
  let r := answer s true 7 (62135596800 * time.Second) body in
  let (t, st) := sse.so_state (deliver UnmarshalChunk (r_Sent r) (sse.newStreamObserver (7, fresh_state 7))) in
  sse.rs_tokens st = 3 /\ sse.rs_ttft st = 50 * Millisecond /\ t = 7 + 80 * Millisecond.
Proof.
  intros cfg s body r.
  assert (Hs : streams s 7 (62135596800 * time.Second) body).
  { split; [reflexivity|]. split; [eexists; split; [vm_compute; reflexivity|reflexivity]|]. split; [reflexivity|].
    vm_compute. split; discriminate. }
  destruct (shim_measures_fake_engine s true 7 (62135596800 * time.Second) body 7) as (_ & _ & H);
    [vm_compute; repeat split; discriminate|exact Hs|].
  fold r in H. destruct (sse.so_state _) as [t st]. destruct H as (H1 & _ & H3 & _ & _ & H6).
  split; [exact H1|]. split; [apply H3; vm_compute; reflexivity|]. rewrite H6. vm_compute. reflexivity.
Defined.

(** ** The load generator reads less than the shim *)

Definition delta_less (v : interp shim_json.delta_t) : interp loadgen_json.delta_t :=
  let '(content, (reasoning, _)) := v in (content, (reasoning, tt)).

Definition choice_less (v : interp shim_json.choice_t) : interp loadgen_json.choice_t :=
  let '(delta, (text, _)) := v in (delta_less delta, (text, tt)).

Definition chunk_less (v : interp streamChunk_t) : interp sseChunk_t := (map_slice choice_less (fst (snd v)), tt).

(** Two names that differ up to case do not select together. *)
Lemma one_selected a b key :
  selects false a key = true -> selects false b key = true ->
  bool_decide (foldName (of_string a) = foldName (of_string b)) = true.
Proof. unfold selects. intros H1%bool_decide_eq_true H2%bool_decide_eq_true. apply bool_decide_eq_true. congruence. Qed.

(** Every way a key can select a field of two struct types. *)
Ltac each_key key :=
  cbn [has_field];
  repeat match goal with
  | |- context [bool_decide (of_string ?n = key)] =>
      let H := fresh "H" in destruct (bool_decide (of_string n = key)) eqn:H;
        [apply bool_decide_eq_true in H; subst key|clear H]; cbn [orb]
  end;
  cbn [set_field];
  repeat match goal with
  | |- context [selects ?e ?n (of_string ?k)] =>
      let v := eval vm_compute in (selects e n (of_string k)) in change (selects e n (of_string k)) with v
  end;
  repeat match goal with
  | H1 : selects false ?a key = true, H2 : selects false ?b key = true |- _ =>
      assert_fails (constr_eq a b); by pose proof (one_selected a b key H1 H2)
  | |- context [selects false ?n key] => destruct (selects false n key) eqn:?
  end; cbv iota; cbn [fst snd].

Lemma delta_reads_less : reads_less shim_json.delta_t loadgen_json.delta_t delta_less.
Proof.
  apply struct_less. intros key raw j [content [reasoning [calls u]]].
  each_key key; cbn [delta_less fst snd]; match goal with |- context [decode ?t raw j ?v] => destruct (decode t raw j v) | _ => idtac end; by split.
Qed.

Lemma choice_reads_less : reads_less shim_json.choice_t loadgen_json.choice_t choice_less.
Proof.
  apply struct_less. intros key raw j [delta [text u]]. pose proof (delta_reads_less raw j delta) as Hd.
  each_key key; cbn [choice_less fst snd];
    try (match goal with |- context [decode TString raw j ?v] => destruct (decode TString raw j v) end; by split); try by split.
  all: destruct (decode shim_json.delta_t raw j delta), (decode loadgen_json.delta_t raw j (delta_less delta));
    destruct Hd as [Hd ?]; cbn [fst snd] in *; subst; by split.
Qed.

Lemma chunk_reads_less : reads_less streamChunk_t sseChunk_t chunk_less.
Proof.
  apply struct_less. intros key raw j [usage [choices u]].
  pose proof (slice_less _ _ choice_less choice_reads_less eq_refl raw j choices) as Hd.
  each_key key; cbn [chunk_less fst snd];
    try (match goal with |- context [decode (TPtr ?t) raw j ?v] => destruct (decode (TPtr t) raw j v) end; by split); try by split.
  all: destruct (decode (TSlice shim_json.choice_t) raw j choices), (decode (TSlice loadgen_json.choice_t) raw j (map_slice choice_less choices));
    destruct Hd as [Hd ?]; cbn [fst snd] in *; subst; by split.
Qed.

(** Where the shim decodes a frame, the load generator decodes the same text. *)
Lemma decodes_less q c : UnmarshalChunk q = Some c -> UnmarshalSSE q = Some (loadgen.project c).
Proof.
  unfold UnmarshalChunk, UnmarshalSSE, Unmarshal. destruct (parse q) as [[raw j]|]; [|done]. cbn [mbind option_bind].
  pose proof (chunk_reads_less raw j (zero streamChunk_t)) as H. change (chunk_less (zero streamChunk_t)) with (zero sseChunk_t) in H.
  destruct (decode streamChunk_t raw j _) as [ok v], (decode sseChunk_t raw j _) as [ok' v'].
  destruct H as [Hv Hok]. cbn [fst snd] in *. destruct ok; [|done]. rewrite Hok by done. intros [= <-]. cbn [option_map].
  subst v'. unfold loadgen.project, chunk_of. cbn [sse.sc_Choices chunk_less fst]. do 2 f_equal.
  destruct v as [us [[[xs sp]|] []]]; [|done]. cbn. rewrite !map_map. apply map_ext.
  by intros [[content [reasoning [calls []]]] [text []]].
Qed.

(** ** The two measurements *)

(** An event both tools can read: on one line that fits the scanner, not the end
    marker, and either decoded without tool calls or rejected by both. *)
Definition ordinary : bytes -> Prop := loadgen.ordinary UnmarshalChunk UnmarshalSSE.

(** An event of a stream of chat chunks: on one line that fits the scanner, not
    the end marker, and either not JSON at all or one that decodes into the shim's
    struct, without tool calls.  JSON of another shape is excluded: on it the two
    structs differ, as [usage_shape_divides_tools] shows. *)
Definition readable (p : bytes) : Prop :=
  sse.one_line p /\ sse.blen (sse.data_line p) < loadgen.maxLine /\ sse.TrimSpace p <> sse.sseDone
  /\ (parse (sse.TrimSpace p) = None
      \/ exists c, UnmarshalChunk (sse.TrimSpace p) = Some c /\ loadgen.no_tool_calls c).

Lemma readable_ordinary p : readable p -> ordinary p.
Proof.
  intros (H1 & H2 & H3 & H4). split; [done|]. split; [done|]. split; [done|]. destruct H4 as [H4|(c & -> & H4)]; [|done].
  unfold UnmarshalChunk, UnmarshalSSE, Unmarshal. by rewrite H4.
Qed.

(** C29: the independent measurement agrees with the shim.  For any stream of
    events written one per data line and closed by the end marker, in which every
    event that is JSON decodes into the shim's struct, without tool calls, the
    load generator and the shim, each with the struct it decodes the frames into,
    count the same tokens and, when there is one, measure the same time to the
    first, whatever else the frames carry - unknown, repeated or differently
    capitalised keys and events that are not JSON included - and whatever follows
    the end marker. *)
Theorem crosscheck_agrees events start d tdone readErr rest :
  Forall (fun x => readable (snd x)) events -> Z.of_nat (length events) < int64_max ->
  let st := snd (sse.so_state (deliver UnmarshalChunk (loadgen.frames events ++ [(d, sse.frame sse.sseDone)])
                                 (sse.newStreamObserver (start, fresh_state start)))) in
  let '(ttft, tokens, err) :=
    loadgen.readStream UnmarshalSSE start readErr
      (loadgen.lines_from start events ++ (tdone, sse.data_line sse.sseDone) :: rest) in
  tokens = sse.rs_tokens st /\ (0 < tokens -> ttft = sse.rs_ttft st) /\ sse.rs_sawFirstToken st = (0 <? tokens)
  /\ err = None /\ sse.rs_sawDone st = true.
Proof.
  intros Hev Hlen. apply (loadgen.tools_agree UnmarshalChunk UnmarshalSSE decodes_less eq_refl); [|done].
  eapply Forall_impl; [exact Hev|]. intros x. apply readable_ordinary.
Qed.

Definition is_empty_list {A} (l : list A) : bool := match l with [] => true | _ => false end.

(** An event written with its double quotes as [']. *)
Definition event_text (s : string) : bytes :=
  map (fun c => if c == "'"%char then quote_char else c) (of_string s).

Lemma readable_dec p :
  bool_decide (sse.nl ∈ p) = false -> bool_decide (last p = Some sse.cr) = false ->
  (sse.blen (sse.data_line p) <? loadgen.maxLine) = true -> bool_decide (sse.TrimSpace p = sse.sseDone) = false ->
  match UnmarshalChunk (sse.TrimSpace p) with
  | Some c => match sse.sc_Choices c with ch :: _ => is_empty_list (sse.delta_ToolCalls ch) | [] => true end
  | None => is_nil (parse (sse.TrimSpace p))
  end = true -> readable p.
Proof.
  intros H1%bool_decide_eq_false H2%bool_decide_eq_false H3%Z.ltb_lt H4%bool_decide_eq_false H5.
  split; [split; [done|split; [done|]]|].
  { unfold loadgen.maxLine, sse.maxSSELine in *. lia. }
  split; [done|]. split; [done|]. unfold loadgen.no_tool_calls.
  destruct (UnmarshalChunk _) as [c|]; [right|left; by destruct (parse _)]. exists c. split; [done|].
  destruct (sse.sc_Choices c) as [|ch ?]; [done|]. by destruct (sse.delta_ToolCalls ch).
Qed.

Lemma crosscheck_agrees_witness :
  let events := [(0, event_text "{'choices':[{'delta':{'role':'assistant'}}]}");
                 (50, event_text "{'CHOICES':[{'delta':{'content':'Hi'}}],'usage':null}");
                 (10, event_text ": not json"); (10, event_text "{'choices':[{'text':'\u00e9'}]}")] in
  let '(ttft, tokens, err) :=
    loadgen.readStream UnmarshalSSE 7 (Some "reset") (loadgen.lines_from 7 events ++ [(80, sse.data_line sse.sseDone)]) in
  tokens = 2 /\ ttft = 50 /\ err = None.
Proof.
  intros events.
  assert (Hev : Forall (fun x => readable (snd x)) events).
  { repeat apply List.Forall_cons; try apply List.Forall_nil; apply readable_dec; vm_compute; reflexivity. }
  pose proof (crosscheck_agrees events 7 13 80 (Some "reset") [] Hev ltac:(vm_compute; reflexivity)) as H. cbv zeta in H.
  destruct (loadgen.readStream _ _ _ _) as [[ttft tokens] err]. destruct H as (H1 & H2 & _ & H4 & _).
  rewrite H1 in *. split; [vm_compute; reflexivity|]. split; [rewrite H2; vm_compute; reflexivity|exact H4].
Defined.

(** A usage block of an unexpected shape hides a token from the shim only.  A
    frame that carries generated text and a completion count written as a decimal
    fraction does not decode into the shim's struct, so its token is neither
    counted nor timed, while the load generator counts it. *)
Theorem usage_shape_divides_tools :
  let p := event_text "{'choices':[{'delta':{'content':'Hi'}}],'usage':{'completion_tokens':1.0}}" in
  UnmarshalChunk p = None
  /\ sse.rs_tokens (snd (sse.so_state (deliver UnmarshalChunk [(50, sse.frame p)]
       (sse.newStreamObserver (0, fresh_state 0))))) = 0
  /\ loadgen.readStream UnmarshalSSE 0 None (loadgen.lines_from 0 [(50, p)]) = (50, 1, None).
Proof. vm_compute. done. Qed.


(** The events of a stream: each payload with the delay before it. *)
Fixpoint events_of (s : server) (firstContent i : nat) (chunks : list Payload) : list (time.Duration * bytes) :=
  match chunks with
  | [] => []
  | c :: chunks' =>
      (delay_of s firstContent i, print (encode (payload_t c) (payload_v c))) :: events_of s firstContent (S i) chunks'
  end.

Lemma stream_loop_events s firstContent i id created chunks :
  Forall (stream_payload s id created) chunks ->
  stream_loop MarshalPayload always always s firstContent i chunks
  = loadgen.frames (events_of s firstContent i chunks) ++ [(0, sse.frame sse.sseDone)].
Proof.
  intros H. revert i. induction H as [|c chunks Hc _ IH]; intros i; [done|]. cbn [stream_loop always negb events_of].
  assert (E : MarshalPayload c = Some (print (encode (payload_t c) (payload_v c)))).
  { unfold MarshalPayload, Marshal. by destruct Hc as [->|[->|[->|[->| ->]]]]. }
  rewrite E, IH. cbn [loadgen.frames map fst snd app]. unfold sse.frame, sse.data_line. by rewrite <- app_assoc.
Qed.

Lemma events_ordinary s firstContent i id created chunks :
  int64_ok created -> str_len id <= 100 -> str_len (model (s_cfg s)) <= 100000 ->
  Forall (stream_payload s id created) chunks ->
  Forall (fun x => ordinary (snd x)) (events_of s firstContent i chunks).
Proof.
  intros Hc Hid Hm H. revert i. induction H as [|c chunks Hp _ IH]; intros i; [constructor|]. constructor; [|apply IH].
  cbn [snd]. pose proof (chunk_length s id created c Hp) as Hl.
  destruct (chunk_encodes s id created c Hc Hid Hm Hp) as (p & Em & H1 & Ht & _ & Hd & Hu).
  assert (Ep : p = print (encode (payload_t c) (payload_v c))).
  { unfold MarshalPayload, Marshal in Em. destruct Hp as [->|[->|[->|[->| ->]]]]; by injection Em as <-. }
  rewrite <- Ep in *. split; [done|]. split.
  { rewrite sse.blen_data_line. unfold loadgen.maxLine, str_len in *. lia. }
  rewrite Ht. split; [done|]. rewrite Hu. by destruct Hp as [->|[->|[->|[->| ->]]]].
Qed.

Lemma events_count s firstContent i chunks : length (events_of s firstContent i chunks) = length chunks.
Proof. revert i. induction chunks as [|c chunks IH]; intros i; [done|]. cbn. by rewrite IH. Qed.

(** The load generator measures what the fake engine was told to do.  The body it
    sends is accepted as a streaming request, and from the lines of the answer it
    reports a successful sample with exactly the configured tokens and time to
    first token; only an engine configured for no tokens makes it report a
    failure. *)
Theorem generator_measures_fake_engine s gcfg now created start ended readErr :
  let cfg := s_cfg s in
  let n := tokens cfg in
  sane cfg -> n < int64_max - 2 -> int64_ok (loadgen.MaxTokens gcfg) -> loaded s now = true ->
  failsAt (wrapu64 (s_requests s + 1)) (errorRate cfg) = false -> int64_ok (Unix created) ->
  exists body events,
    request_body gcfg = Some body
    /\ r_Sent (answer s true now created body) = loadgen.frames events ++ [(0, sse.frame sse.sseDone)]
    /\ loadgen.doRequest UnmarshalSSE start
         (loadgen.Responded 200 ended readErr
            (loadgen.lines_from start events ++ [(ended, sse.data_line sse.sseDone)]))
       = if 0 <? n then (loadgen.MkSample start (ttft cfg) (time.Sub ended start) n true, None)
         else (loadgen.MkSample start 0 (time.Sub ended start) 0 false, Some "stream carried no generated tokens").
Proof.
  intros cfg n Hsane Hn2 Hmt Hl Hf Hc. destruct (request_decoded gcfg Hmt) as (body & Eb & Ed). exists body.
  assert (Hs : streams s now created body) by (split_and!; [done|by eexists|done|done]).
  destruct (answer_streamed s true now created body Hs) as (id & k & Eid & Er).
  set (s' := MkServer (s_cfg s) (s_readyAt s) k) in *.
  pose proof (stream_measured s' id (Unix created) true start Hsane Hc ltac:(rewrite Eid; apply (id_length true k))) as Hst.
  set (events := events_of s' 1 0 (chatChunks s' id (Unix created))).
  assert (Hsent : streamed MarshalPayload s' id (Unix created) true = loadgen.frames events ++ [(0, sse.frame sse.sseDone)]).
  { apply (stream_loop_events s' 1 0 id (Unix created)), (stream_payloads s' id (Unix created) true). }
  exists events. rewrite Er. split; [done|]. split; [exact Hsent|]. rewrite Hsent in Hst.
  assert (Hev : Forall (fun x => ordinary (snd x)) events).
  { apply (events_ordinary s' 1 0 id (Unix created)); [done|rewrite Eid; apply (id_length true k)|apply Hsane|
      apply (stream_payloads s' id (Unix created) true)]. }
  assert (Hlen : Z.of_nat (length events) < int64_max).
  { unfold events. rewrite events_count. unfold chatChunks. cbn [length]. rewrite length_app, repeat_length. cbn [length].
    destruct Hsane as (? & _). change (tokens (s_cfg s')) with n. fold n in H. lia. }
  pose proof (loadgen.tools_agree UnmarshalChunk UnmarshalSSE decodes_less eq_refl events start 0 ended readErr [] Hev Hlen) as H.
  cbv zeta in H. unfold as_configured in Hst. fold (fresh_state start) in H.
  destruct (sse.so_state _) as [t st]. cbn [snd] in H. unfold loadgen.doRequest. cbn [negb].
  change (bool_decide (200 = loadgen.StatusOK)) with true. cbn [negb].
  destruct (loadgen.readStream _ _ _ _) as [[x k'] err]. destruct H as (Hk & Hx & _ & -> & _).
  destruct Hst as (H1 & _ & H3 & _). change (tokens (s_cfg s')) with n in *. rewrite Hk, H1 in *.
  destruct Hsane as (Hn & _). fold n in Hn. destruct (Z.ltb_spec 0 n) as [Hp|Hp].
  - rewrite (proj2 (Z.eqb_neq n 0)) by lia. rewrite Hx, H3 by done. done.
  - by rewrite (proj2 (Z.eqb_eq n 0)) by lia.
Qed.

Lemma generator_measures_fake_engine_witness :
  let cfg := MkConfig "" 8000 0 (50 * Millisecond) (10 * Millisecond) 3 f64.zero "m" in
  let g := loadgen.MkConfig "u" "m" 1 1 f64.zero 16 "hi" true 0 f64.zero 0 f64.zero "" in
  exists body events,
    request_body g = Some body
    /\ r_Sent (answer (MkServer cfg 0 1) true 7 (62135596800 * time.Second) body)
       = loadgen.frames events ++ [(0, sse.frame sse.sseDone)]
    /\ loadgen.doRequest UnmarshalSSE 7
         (loadgen.Responded 200 100 None (loadgen.lines_from 7 events ++ [(100, sse.data_line sse.sseDone)]))
       = (loadgen.MkSample 7 (50 * Millisecond) 93 3 true, None).
Proof.
  intros cfg g.
  destruct (generator_measures_fake_engine (MkServer cfg 0 1) g 7 (62135596800 * time.Second) 7 100 None)
    as (body & events & H1 & H2 & H3);
    [vm_compute; repeat split; discriminate|vm_compute; reflexivity|vm_compute; split; discriminate|reflexivity|reflexivity|
     vm_compute; split; discriminate|].
  exists body, events. split; [exact H1|]. split; [exact H2|exact H3].
Defined.

End wire.
