(* ===== verification/ShimMain.v ===== *)
(** * The entry point of the shim (cmd/shim/main.go, handler of proxy.go)

    Routing through [http.ServeMux], and the life of the process: two listeners
    and a drain in an error group, as a step relation in which a signal, a failing
    listener and time interleave. *)

From S2P Require Import Prelude GoFloat GoFmt GoStrings GoStrconv GoMime Naming ShimSSE ShimConfig ShimProxy.
Local Open Scope Z_scope.
Local Open Scope go_scope.

(** ** http.ServeMux

    For methods other than CONNECT and paths without escapes. *)

Module mux.

(** [cleanPath]. *)
Definition cleanPath (p : string) : string :=
  if p == "" then "/"
  else
    let p := if gopath.rooted p then p else String gopath.slash p in
    let np := gopath.Clean p in
    if gostrings.HasSuffix p gopath.slash && (np != "/") then np +:+ "/" else np.

Definition canonical (p : string) : bool := cleanPath p == p.

End mux.

(** ** The shim *)

Module shim_main.

(** The routing table of [proxy.handler]. *)
Inductive Route := RouteLive | RouteHealth | RouteProxy (path : string) | RouteRedirect (path : string).

Definition handler (path : string) : Route :=
  if negb (mux.canonical path) then RouteRedirect (mux.cleanPath path)
  else if path == naming.ShimLivePath then RouteLive
  else if path == naming.ShimHealthPath then RouteHealth
  else RouteProxy path.

(** The routing table of the metrics listener. *)
Inductive MetricsRoute := RouteMetrics | MetricsRedirect (path : string) | MetricsNotFound.

Definition metrics_handler (path : string) : MetricsRoute :=
  if negb (mux.canonical path) then MetricsRedirect (mux.cleanPath path)
  else if path == naming.ShimMetricsPath then RouteMetrics
  else MetricsNotFound.

(** [slog.Level]. *)
Inductive Level := LevelDebug | LevelInfo | LevelWarn | LevelError.

Definition parseLevel (name : string) : Level :=
  let s := mime.ToLower (sse.TrimSpace (sse.of_string name)) in
  if bool_decide (s = sse.of_string "debug") then LevelDebug
  else if bool_decide (s = sse.of_string "warn") || bool_decide (s = sse.of_string "warning") then LevelWarn
  else if bool_decide (s = sse.of_string "error") then LevelError
  else LevelInfo.

(** The errors of a run. *)
Inductive RunError :=
  | ErrServerClosed
  | DeadlineExceeded
  | CloseFailed (err : string)
  | Failed (name addr err : string).

#[global] Instance RunError_eq_dec : EqDecision RunError.
Proof. solve_decision. Defined.

(** [serve]: what [ListenAndServe] returned, named unless the server was closed. *)
Inductive Listened := Closed | ListenError (err : string).

Definition serve (name addr : string) (r : Listened) : option RunError :=
  match r with
  | Closed => None
  | ListenError e => Some (Failed name addr e)
  end.

(** The drain goroutine: waiting for the group's context, in [Shutdown] of the
    metrics server, in [Shutdown] of the proxy, each until the deadline, or over. *)
Inductive Drain :=
  | Waiting
  | DrainMetrics (deadline : time.Time)
  | DrainProxy (deadline : time.Time)
  | Drained (result : option RunError).

(** The process: the clock; whether a signal arrived; whether [Shutdown] was
    called on each server; what each [serve] goroutine returned; the drain and
    when it began; the group's first error. *)
Record Proc := MkProc {
  p_now : time.Time; p_signalled : bool; p_proxyShut : bool; p_metricsShut : bool;
  p_proxy : option (option RunError); p_metrics : option (option RunError);
  p_drain : Drain; p_began : option time.Time; p_err : option RunError }.

Definition start (now : time.Time) : Proc := MkProc now false false false None None Waiting None None.

(** [errgroup.Group.Go]: the first error is kept. *)
Definition first_error (old new : option RunError) : option RunError :=
  match old with Some e => Some e | None => new end.

(** The group's context is done on a signal or on the first error. *)
Definition done (p : Proc) : bool := p_signalled p || negb (is_nil (p_err p)).

(** Time passes while something waits: for the group's context, or in a
    [Shutdown], which returns at its deadline. *)
Definition may_pass (p : Proc) (d : time.Duration) : Prop :=
  match p_drain p with
  | Waiting => done p = false
  | DrainMetrics dl | DrainProxy dl => p_now p + d <= dl
  | Drained _ => False
  end.

Section Run.
Context (cfg : shimconfig.config).

Definition grace : time.Duration := shimconfig.shutdownGrace cfg.

Inductive step : Proc -> Proc -> Prop :=
  | step_pass p d : 0 < d -> may_pass p d ->
      step p (MkProc (p_now p + d) (p_signalled p) (p_proxyShut p) (p_metricsShut p) (p_proxy p) (p_metrics p)
                (p_drain p) (p_began p) (p_err p))
  | step_signal p : p_signalled p = false ->
      step p (MkProc (p_now p) true (p_proxyShut p) (p_metricsShut p) (p_proxy p) (p_metrics p)
                (p_drain p) (p_began p) (p_err p))
  (** A [serve] goroutine returns: with an error at any time, without one once
      its server is shut down. *)
  | step_proxy p r : p_proxy p = None -> (r = Closed -> p_proxyShut p = true) ->
      let e := serve "proxy" (shimconfig.listen cfg) r in
      step p (MkProc (p_now p) (p_signalled p) (p_proxyShut p) (p_metricsShut p) (Some e) (p_metrics p)
                (p_drain p) (p_began p) (first_error (p_err p) e))
  | step_metrics p r : p_metrics p = None -> (r = Closed -> p_metricsShut p = true) ->
      let e := serve "metrics" (shimconfig.metricsListen cfg) r in
      step p (MkProc (p_now p) (p_signalled p) (p_proxyShut p) (p_metricsShut p) (p_proxy p) (Some e)
                (p_drain p) (p_began p) (first_error (p_err p) e))
  (** The group's context is done: the deadline is set and the metrics server
      stops listening. *)
  | step_drain p : p_drain p = Waiting -> done p = true ->
      step p (MkProc (p_now p) (p_signalled p) (p_proxyShut p) true (p_proxy p) (p_metrics p)
                (DrainMetrics (p_now p + grace)) (Some (p_now p)) (p_err p))
  (** The metrics server is idle or out of time; its result is dropped. *)
  | step_drain_proxy p dl : p_drain p = DrainMetrics dl ->
      step p (MkProc (p_now p) (p_signalled p) true (p_metricsShut p) (p_proxy p) (p_metrics p)
                (DrainProxy dl) (p_began p) (p_err p))
  (** The proxy is idle, could not close its listener, or is out of time. *)
  | step_drained p dl r : p_drain p = DrainProxy dl ->
      (r = None \/ (exists e, r = Some (CloseFailed e)) \/ (r = Some DeadlineExceeded /\ dl <= p_now p)) ->
      step p (MkProc (p_now p) (p_signalled p) (p_proxyShut p) (p_metricsShut p) (p_proxy p) (p_metrics p)
                (Drained r) (p_began p) (first_error (p_err p) r)).

(** [g.Wait] returns. *)
Definition finished (p : Proc) : Prop :=
  p_proxy p <> None /\ p_metrics p <> None /\ exists r, p_drain p = Drained r.

(** What [run] returns. *)
Definition run_result (p : Proc) : option RunError :=
  match p_err p with
  | Some e => if e == ErrServerClosed then None else Some e
  | None => None
  end.
(** *** Invariant *)

(** A goroutine that has not failed. *)
Definition no_failure (r : option (option RunError)) : Prop := match r with Some (Some _) => False | _ => True end.

Definition drain_result (d : Drain) : option (option RunError) := match d with Drained r => Some r | _ => None end.

(** The drain and its clock: begun only when the context was done, with one
    deadline, not past it, the metrics server closed first. *)
Definition drain_ok (p : Proc) : Prop :=
  match p_drain p with
  | Waiting => p_began p = None /\ p_metricsShut p = false /\ p_proxyShut p = false
  | DrainMetrics dl =>
      done p = true /\ p_metricsShut p = true /\ p_proxyShut p = false
      /\ exists t, p_began p = Some t /\ dl = t + grace /\ p_now p <= Z.max t dl
  | DrainProxy dl =>
      done p = true /\ p_metricsShut p = true /\ p_proxyShut p = true
      /\ exists t, p_began p = Some t /\ dl = t + grace /\ p_now p <= Z.max t dl
  | Drained _ =>
      done p = true /\ p_metricsShut p = true /\ p_proxyShut p = true
      /\ exists t, p_began p = Some t /\ p_now p <= Z.max t (t + grace)
  end.

Definition errors_ok (p : Proc) : Prop :=
  p_err p <> Some ErrServerClosed
  /\ (p_err p = None <->
      no_failure (p_proxy p) /\ no_failure (p_metrics p) /\ no_failure (drain_result (p_drain p))).

Definition inv (p : Proc) : Prop :=
  drain_ok p /\ errors_ok p /\ (p_proxy p = Some None -> p_proxyShut p = true)
  /\ (p_metrics p = Some None -> p_metricsShut p = true).

Lemma inv_start now : inv (start now).
Proof. by split_and!. Qed.

Lemma first_error_none a b : first_error a b = None <-> a = None /\ b = None.
Proof. destruct a; cbn; naive_solver. Qed.

Lemma done_first s er e : s || negb (is_nil er) = true -> s || negb (is_nil (first_error er e)) = true.
Proof. by destruct s, er. Qed.

#[local] Hint Resolve done_first : go.

Lemma step_drain_ok p q : inv p -> step p q -> drain_ok q.
Proof.
  intros (Hd & _) Hs. destruct p as [now sg ps ms pr me dr be er]. unfold drain_ok, done in *.
  inversion Hs; subst; unfold may_pass, done in *; cbn in *; subst; try done.
  - destruct dr; try done; destruct Hd as (? & ? & ? & t & -> & -> & ?); split_and!; try done; exists t; split_and!; (done || lia).
  - destruct dr; try done; destruct Hd as (? & ? & ? & t & ? & ?); split_and!; eauto.
  - destruct dr; try done; destruct Hd as (? & ? & ? & t & ? & ?); split_and!; eauto with go.
  - destruct dr; try done; destruct Hd as (? & ? & ? & t & ? & ?); split_and!; eauto with go.
  - split_and!; try (done || by destruct Hd as (? & ? & ?)). exists now. split_and!; (done || lia).
  - destruct Hd as (? & ? & ? & t & ? & ? & ?). split_and!; eauto.
  - destruct Hd as (? & ? & ? & t & ? & -> & ?). split_and!; eauto with go.
Qed.

Lemma serve_not_closed name addr r : serve name addr r <> Some ErrServerClosed.
Proof. by destruct r. Qed.

Lemma step_errors_ok p q : inv p -> step p q -> errors_ok q.
Proof.
  intros (_ & (Hc & He) & _) Hs. destruct p as [now sg ps ms pr me dr be er]. unfold errors_ok in *.
  inversion Hs; subst; cbn in *; subst; try done.
  - rewrite first_error_none, He. split; [|destruct r; cbn; naive_solver].
    destruct er; [done|]. apply serve_not_closed.
  - rewrite first_error_none, He. split; [|destruct r; cbn; naive_solver].
    destruct er; [done|]. apply serve_not_closed.
  - rewrite first_error_none, He. destruct H0 as [->|[[e ->]|[-> _]]]; cbn; (split; [destruct er; cbn; congruence|naive_solver]).
Qed.

Lemma inv_step p q : inv p -> step p q -> inv q.
Proof.
  intros Hi Hs. split; [by eapply step_drain_ok|]. split; [by eapply step_errors_ok|].
  destruct Hi as (_ & _ & Hp & Hm). destruct p as [now sg ps ms pr me dr be er].
  inversion Hs; subst; cbn in *; split; auto; intros; destruct r; cbn in *; auto; congruence.
Qed.

(** The states a process can be in. *)
Definition reachable (now : time.Time) (p : Proc) : Prop := rtc step (start now) p.

Lemma proc_inv now p : reachable now p -> inv p.
Proof.
  unfold reachable. intros H. pose proof (inv_start now) as Hi. revert Hi. generalize (start now) H.
  intros s Hr. induction Hr as [|x y z Hxy _ IH]; [done|]. intros Hi. apply IH; [done|]. by eapply inv_step.
Qed.

(** *** Termination *)

(** Every run from here reaches [P], and none is stuck before. *)
Inductive ends (P : Proc -> Prop) (p : Proc) : Prop :=
  | ends_now : P p -> ends P p
  | ends_later : (exists q, step p q) -> (forall q, step p q -> ends P q) -> ends P p.

Definition pending {A} (r : option A) : nat := match r with None => 1 | Some _ => 0 end.

(** What is left to do, in steps and nanoseconds. *)
Definition left_of (p : Proc) : nat :=
  (if p_signalled p then 0 else 1) + pending (p_proxy p) + pending (p_metrics p)
  + match p_drain p with
    | Waiting => 3 + Z.to_nat grace
    | DrainMetrics dl => 2 + Z.to_nat (dl - p_now p)
    | DrainProxy dl => 1 + Z.to_nat (dl - p_now p)
    | Drained _ => 0
    end.

Lemma step_left p q : done p = true -> step p q -> (left_of q < left_of p)%nat.
Proof.
  intros Hd Hs. destruct p as [now sg ps ms pr me dr be er]. unfold left_of, done in *.
  inversion Hs; subst; unfold may_pass, done in *; cbn in *; subst; cbn; try lia; destruct dr; try (congruence || lia).
Qed.

Lemma done_step p q : done p = true -> step p q -> done q = true.
Proof.
  intros Hd Hs. destruct p as [now sg ps ms pr me dr be er]. unfold done in *. inversion Hs; subst; cbn in *; auto with go.
Qed.

(** Until all is over something can happen, whatever the connections do: at the
    latest the deadline passes. *)
Lemma step_exists p : inv p -> done p = true -> ~ finished p -> exists q, step p q.
Proof.
  intros (Hdr & _ & _) Hd Hf. destruct (p_drain p) eqn:E.
  - eexists. by apply step_drain.
  - eexists. by eapply step_drain_proxy.
  - destruct (Z.le_gt_cases deadline (p_now p)).
    + eexists. eapply (step_drained p deadline (Some DeadlineExceeded)); [done|]. right; right. by split.
    + eexists. apply (step_pass p (deadline - p_now p)); [lia|]. unfold may_pass. rewrite E. lia.
  - unfold drain_ok in Hdr. rewrite E in Hdr. destruct Hdr as (_ & Hm & Hp & _).
    destruct (p_proxy p) eqn:Ep; [|eexists; by apply (step_proxy p Closed)].
    destruct (p_metrics p) eqn:Em; [|eexists; by apply (step_metrics p Closed)].
    exfalso. apply Hf. unfold finished. rewrite Ep, Em, E. split_and!; [done|done|by eexists].
Qed.

Lemma finished_dec p : finished p \/ ~ finished p.
Proof.
  unfold finished. destruct (p_proxy p); [|by right; intros (? & _)]. destruct (p_metrics p); [|by right; intros (_ & ? & _)].
  destruct (p_drain p); [right; intros (_ & _ & ? & ?); congruence..|]. left. split_and!; [done|done|by eexists].
Qed.

Lemma ends_from n p : (left_of p < n)%nat -> inv p -> done p = true -> ends finished p.
Proof.
  revert p. induction n as [|n IH]; intros p Hn Hi Hd; [lia|]. destruct (finished_dec p) as [Hf|Hf]; [by apply ends_now|].
  apply ends_later; [by apply step_exists|]. intros q Hs.
  apply IH; [pose proof (step_left p q Hd Hs); lia|by eapply inv_step|by eapply done_step].
Qed.
End Run.

(** [main]: the exit status, given the arguments and the end of [run]. *)
Definition errHelp : string := "flag: help requested".

Definition main (Parse : string -> shimconfig.URL + string) (args : list string)
    (run : shimconfig.config -> option RunError) : Z :=
  match shimconfig.parseConfig Parse args with
  | inr e => if e == errHelp then 0 else 2
  | inl cfg => match run cfg with Some _ => 1 | None => 0 end
  end.

(** *** Properties of the process *)

(** What a finished process says about how it ended. *)
Definition ended_exactly (cfg : shimconfig.config) (p : Proc) : Prop :=
  finished p
  /\ (exists t, p_began p = Some t /\ p_now p <= Z.max t (t + shimconfig.shutdownGrace cfg))
  /\ (run_result p = None <-> p_proxy p = Some None /\ p_metrics p = Some None /\ p_drain p = Drained None)
  /\ (run_result p = None -> p_signalled p = true).

Lemma finished_exact cfg now p : reachable cfg now p -> finished p -> ended_exactly cfg p.
Proof.
  intros Hr Hf. split; [done|]. destruct Hf as (Hp & Hm & r & Er). destruct (proc_inv cfg now p Hr) as (Hd & (Hc & He) & _).
  unfold drain_ok in Hd. rewrite Er in Hd, He. destruct Hd as (Hd & _ & _ & Ht).
  assert (Hres : run_result p = None <-> p_err p = None).
  { unfold run_result. destruct (p_err p) as [e|]; [|done]. by rewrite bool_decide_eq_false_2 by congruence. }
  split; [done|]. rewrite Hres. split.
  - rewrite He, Er. cbn. destruct (p_proxy p) as [[?|]|], (p_metrics p) as [[?|]|], r; naive_solver.
  - intros E. unfold done in Hd. rewrite E in Hd. cbn in Hd. by rewrite orb_false_r in Hd.
Qed.

Lemma ends_reachable cfg now (P : Proc -> Prop) p :
  ends cfg P p -> reachable cfg now p -> ends cfg (fun q => reachable cfg now q /\ P q) p.
Proof.
  intros H. induction H as [p Hp|p He _ IH]; intros Hr; [by apply ends_now|]. apply ends_later; [done|].
  intros q Hq. apply IH; [done|]. by eapply rtc_r.
Qed.

Lemma ends_mono cfg (P Q : Proc -> Prop) p : (forall q, P q -> Q q) -> ends cfg P p -> ends cfg Q p.
Proof. intros HPQ H. induction H as [p Hp|p He _ IH]; [apply ends_now|apply ends_later]; auto. Qed.

(** C36: The shim always comes down, and its exit status says how.  From any state it
    can be in, once a signal arrived or a listener failed, every run ends: in no
    order of events - a hung scrape, a stream that never ends, a second failure -
    is the process stuck.  When it ends, no more than the grace period has passed
    since the drain began, and the result is success exactly when no listener
    failed and the proxy became idle within the grace period, which takes a
    signal. *)
Theorem shutdown_exact cfg now p : reachable cfg now p -> done p = true -> ends cfg (ended_exactly cfg) p.
Proof.
  intros Hr Hd. eapply ends_mono; [|apply (ends_reachable cfg now finished p); [|done]].
  - intros q [Hq Hf]. by eapply finished_exact.
  - apply (ends_from cfg (S (left_of cfg p))); [lia|by eapply proc_inv|done].
Qed.

(** While the metrics server drains, requests are still accepted. *)
Theorem metrics_drain_first cfg now p :
  reachable cfg now p -> p_proxyShut p = true ->
  p_metricsShut p = true /\ (exists dl, p_drain p = DrainProxy dl) \/ (exists r, p_drain p = Drained r).
Proof.
  intros Hr Hs. destruct (proc_inv cfg now p Hr) as (Hd & _). unfold drain_ok in Hd.
  destruct (p_drain p) as [|dl|dl|r]; destruct Hd as (H1 & H2 & H3); try congruence.
  - destruct H3; congruence.
  - left. eauto.
  - right. eauto.
Qed.

(** A run in which a signal arrives at once and everything is idle. *)
Definition sample_cfg : shimconfig.config :=
  shimconfig.MkConfig ":1" ":2" (shimconfig.MkURL "http" "h" "http://h") "/health" "m" "n" "d" "primary" 1 "info"
    (20 * time.Second).

Definition idle_end : Proc :=
  MkProc 7 true true true (Some None) (Some None) (Drained None) (Some 7) None.

Lemma idle_run : reachable sample_cfg 7 idle_end.
Proof.
  eapply rtc_l; [by apply step_signal|]. eapply rtc_l; [by apply step_drain|].
  eapply rtc_l; [by eapply step_drain_proxy|]. eapply rtc_l; [eapply (step_drained _ _ _ None); [done|by left]|].
  eapply rtc_l; [by apply (step_proxy _ _ Closed)|]. eapply rtc_l; [by apply (step_metrics _ _ Closed)|]. apply rtc_refl.
Qed.

Lemma shutdown_exact_witness :
  ends sample_cfg (ended_exactly sample_cfg) (MkProc 7 true false false None None Waiting None None)
  /\ reachable sample_cfg 7 idle_end /\ run_result idle_end = None.
Proof.
  split; [|split; [exact idle_run|reflexivity]]. apply (shutdown_exact sample_cfg 7); [|reflexivity].
  eapply rtc_l; [by apply step_signal|apply rtc_refl].
Defined.

End shim_main.
