(* ===== verification/FakeMain.v ===== *)
(** * The entry point of the fake engine (cmd/fakeengine/main.go, handler of server.go)

    Its routing table, and its end: the process waits for its listener or a
    signal. *)

From S2P Require Import Prelude GoFmt GoStrings FakeEngine ShimMain.
Local Open Scope Z_scope.
Local Open Scope go_scope.

Module fake_main.
Import fakeengine.

Definition readHeaderTimeout : time.Duration := 10 * time.Second.
Definition shutdownTimeout : time.Duration := 5 * time.Second.

(** The routing table of [server.handler]: a handler, another method is allowed,
    nothing is there, or the path is not canonical. *)
Inductive Route :=
  | RouteHealth
  | RouteModels
  | RouteCompletion (chat : bool)
  | MethodNotAllowed (allow : string)
  | NotFound
  | Redirect (path : string).

(** GET also matches HEAD. *)
Definition get (method : string) : bool := (method == "GET") || (method == "HEAD").

Definition handler (method path : string) : Route :=
  if negb (mux.canonical path) then Redirect (mux.cleanPath path)
  else if path == "/health" then if get method then RouteHealth else MethodNotAllowed "GET, HEAD"
  else if path == "/v1/models" then if get method then RouteModels else MethodNotAllowed "GET, HEAD"
  else if path == "/v1/chat/completions" then
    if method == "POST" then RouteCompletion true else MethodNotAllowed "POST"
  else if path == "/v1/completions" then
    if method == "POST" then RouteCompletion false else MethodNotAllowed "POST"
  else NotFound.

(** What ended the wait of [run]: the listener returned, or a signal arrived and
    [Shutdown] answered. *)
Inductive RunEnd :=
  | ListenerReturned (closed : bool) (err : string)
  | Signalled (shutdown : option string).

Definition run (x : RunEnd) : option string :=
  match x with
  | ListenerReturned closed err => if closed then None else Some err
  | Signalled r => r
  end.

Definition main (x : RunEnd) : Z := match run x with Some _ => 1 | None => 0 end.

End fake_main.
