(* ===== verification/Routes.v ===== *)
(** * Requests through the pod

    The routes of the shim, and the probes of the operator's containers followed
    through the shim to the engine. *)

From S2P Require Import Prelude GoFloat GoFmt GoStrings ApiTypes KubeTypes Naming Engine ControllerPlan ControllerChildren GoJson ShimSSE ShimConfig ShimProxy FakeEngine StreamCodecs ShimMain FakeMain.
Import v1alpha1.
Local Open Scope Z_scope.
Local Open Scope go_scope.

Module routes.
Import kube.
Import children.

Definition probe_path (p : option Probe) : string :=
  match p with Some pb => match pb_HTTPGet pb with Some g => hg_Path g | None => "" end | None => "" end.

Definition probe_port (p : option Probe) : Z :=
  match p with Some pb => match pb_HTTPGet pb with Some g => hg_Port g | None => 0 end | None => 0 end.

(** Where a request to the shim goes.  A path that is already clean is answered
    by the shim itself only on its two own paths and otherwise handed to the
    engine as it is; any other path - with empty, dot or dot-dot segments - is
    redirected and never reaches the engine. *)
Theorem shim_routes path :
  match shim_main.handler path with
  | shim_main.RouteLive => path = naming.ShimLivePath
  | shim_main.RouteHealth => path = naming.ShimHealthPath
  | shim_main.RouteProxy p =>
      p = path /\ mux.cleanPath path = path /\ path <> naming.ShimLivePath /\ path <> naming.ShimHealthPath
  | shim_main.RouteRedirect p => p = mux.cleanPath path /\ p <> path
  end.
Proof.
  unfold shim_main.handler, mux.canonical. destruct (bool_decide (mux.cleanPath path = path)) eqn:E; cbn [negb]; go_bools; [|done].
  destruct (bool_decide (path = naming.ShimLivePath)) eqn:E1; go_bools; [done|].
  destruct (bool_decide (path = naming.ShimHealthPath)) eqn:E2; go_bools; done.
Qed.

(** Not everything else is proxied verbatim: a doubled slash is redirected. *)
Theorem unclean_path_not_proxied :
  shim_main.handler "/v1//chat/completions" = shim_main.RouteRedirect "/v1/chat/completions"
  /\ shim_main.handler "/v1/chat/completions" = shim_main.RouteProxy "/v1/chat/completions".
Proof. vm_compute. done. Qed.

(** The answer of the fake engine to a GET of its health path. *)
Definition engine_answer (s : fakeengine.server) (now : time.Time) : shim.HealthAnswer :=
  let r := fakeengine.handleHealth engine_json.MarshalPayload s now in
  shim.HealthResponse (from_ptr 0 (fakeengine.r_Status r)) [("Content-Type", [fakeengine.r_Type r])]
    (concat (map snd (fakeengine.r_Sent r))).

(** C37: A pod is ready exactly when its model is loaded.  In the shim container the
    operator builds, the startup and liveness probes ask for a path the shim
    answers itself, so they pass before the engine exists; the readiness probe
    asks for the path that mirrors the engine; and asked there, with the engine
    behind it reached at the health path the operator passes, the shim answers
    503 while the model is loading and 200 from then on. *)
Theorem readiness_follows_loading MustParse md v image target Get cfg s now :
  let c := buildShimContainer MustParse md v engine.LlamaCPPHealthPath image in
  shimconfig.healthPath cfg = engine.LlamaCPPHealthPath ->
  Get (3 * time.Second) (target (shimconfig.upstream cfg) engine.LlamaCPPHealthPath)
    = engine_answer s now ->
  fake_main.handler "GET" engine.LlamaCPPHealthPath = fake_main.RouteHealth
  /\ shim_main.handler (probe_path (c_StartupProbe c)) = shim_main.RouteLive
  /\ shim_main.handler (probe_path (c_LivenessProbe c)) = shim_main.RouteLive
  /\ shim_main.handler (probe_path (c_ReadinessProbe c)) = shim_main.RouteHealth
  /\ Forall (fun p => probe_port p = naming.ShimPort) [c_StartupProbe c; c_LivenessProbe c; c_ReadinessProbe c]
  /\ fst shim.handleLive = 200
  /\ fst (fst (shim.handleHealth target Get cfg)) = if fakeengine.loaded s now then 200 else 503.
Proof.
  intros c Hp Hg. split_and!; try reflexivity; [repeat constructor|].
  unfold shim.handleHealth. rewrite Hp. change shimconfig.defaultUpstreamTimeout with (3 * time.Second). rewrite Hg.
  unfold engine_answer, fakeengine.handleHealth. by destruct (fakeengine.loaded s now).
Qed.

Lemma readiness_follows_loading_witness :
  let s := fakeengine.newServer (fakeengine.MkConfig "" 8000 time.Second 0 0 1 f64.zero "m") 0 in
  let target (u : shimconfig.URL) (p : string) := shimconfig.u_Text u +:+ p in
  fst (fst (shim.handleHealth target (fun _ _ => engine_answer s 5) shim_main.sample_cfg)) = 503.
Proof.
  intros s target.
  destruct (readiness_follows_loading (MkQuantity 1) (plans.sample_md RolloutCanary (plans.sample_status PhaseAvailable None))
              VariantPrimary "" target (fun _ _ => engine_answer s 5) shim_main.sample_cfg s 5 eq_refl eq_refl)
    as (_ & _ & _ & _ & _ & _ & H).
  exact H.
Defined.

End routes.
