(* ===== verification/OperatorMain.v ===== *)
(** * The entry point of the operator (cmd/main.go)

    The command-line flags, the options the manager is built from, and the order
    of the set-up calls: what a call does is answered by an environment, and the
    first one that fails ends the process.  Flags that other packages register
    (logging, kubeconfig) are parameters. *)

From S2P Require Import Prelude GoFloat GoFmt GoStrings GoStrconv GoFlag Dashboards ControllerChildren.
Local Open Scope Z_scope.
Local Open Scope go_scope.

Module operator_main.

Record flags := MkFlags {
  metricsAddr : string; probeAddr : string; enableLeaderElection : bool; secureMetrics : bool;
  webhookCertPath : string; webhookCertName : string; webhookCertKey : string;
  metricsCertPath : string; metricsCertName : string; metricsCertKey : string;
  enableHTTP2 : bool; shimImage : string; dashboardNamespace : string; installDashboards : bool }.

Definition defaults : flags :=
  MkFlags "0" ":8081" false true "" "tls.crt" "tls.key" "" "tls.crt" "tls.key" false children.DefaultShimImage "" true.

Definition is_bool (zap_bool : string -> bool) (name : string) : bool :=
  (name == "leader-elect") || (name == "metrics-secure") || (name == "enable-http2") || (name == "install-dashboards")
  || zap_bool name.

(** [flag.Value.Set]; [others] are the flags of other packages: whether one is
    defined, and the error of setting it. *)
Definition set_flag (others : string -> string -> option (option string)) (name value : string) (f : flags) :
    option (flags + string) :=
  let '(MkFlags ma pa le sm wp wn wk mp mn mk h2 si dn id) := f in
  if name == "metrics-bind-address" then Some (inl (MkFlags value pa le sm wp wn wk mp mn mk h2 si dn id))
  else if name == "health-probe-bind-address" then Some (inl (MkFlags ma value le sm wp wn wk mp mn mk h2 si dn id))
  else if name == "leader-elect" then
    flag.updated (flag.ParseBool value) (fun b => MkFlags ma pa b sm wp wn wk mp mn mk h2 si dn id)
  else if name == "metrics-secure" then
    flag.updated (flag.ParseBool value) (fun b => MkFlags ma pa le b wp wn wk mp mn mk h2 si dn id)
  else if name == "webhook-cert-path" then Some (inl (MkFlags ma pa le sm value wn wk mp mn mk h2 si dn id))
  else if name == "webhook-cert-name" then Some (inl (MkFlags ma pa le sm wp value wk mp mn mk h2 si dn id))
  else if name == "webhook-cert-key" then Some (inl (MkFlags ma pa le sm wp wn value mp mn mk h2 si dn id))
  else if name == "metrics-cert-path" then Some (inl (MkFlags ma pa le sm wp wn wk value mn mk h2 si dn id))
  else if name == "metrics-cert-name" then Some (inl (MkFlags ma pa le sm wp wn wk mp value mk h2 si dn id))
  else if name == "metrics-cert-key" then Some (inl (MkFlags ma pa le sm wp wn wk mp mn value h2 si dn id))
  else if name == "enable-http2" then
    flag.updated (flag.ParseBool value) (fun b => MkFlags ma pa le sm wp wn wk mp mn mk b si dn id)
  else if name == "shim-image" then Some (inl (MkFlags ma pa le sm wp wn wk mp mn mk h2 value dn id))
  else if name == "dashboard-namespace" then Some (inl (MkFlags ma pa le sm wp wn wk mp mn mk h2 si value id))
  else if name == "install-dashboards" then
    flag.updated (flag.ParseBool value) (fun b => MkFlags ma pa le sm wp wn wk mp mn mk h2 si dn b)
  else
    match others name value with
    | None => None
    | Some None => Some (inl f)
    | Some (Some e) => Some (inr e)
    end.

(** A [tls.Config] as far as it is set: [NextProtos]. *)
Definition disableHTTP2 (_ : list string) : list string := ["http/1.1"].

(** The certificate of a server: directory, certificate and key file. *)
Definition certificate (path name key : string) : option (string * string * string) :=
  if path == "" then None else Some (path, name, key).

Record metricsOptions := MkMetricsOptions {
  mo_BindAddress : string; mo_SecureServing : bool; mo_TLSOpts : list (list string -> list string);
  mo_AuthFilter : bool; mo_Cert : option (string * string * string) }.

Record webhookOptions := MkWebhookOptions {
  wo_TLSOpts : list (list string -> list string); wo_Cert : option (string * string * string) }.

Record managerOptions := MkManagerOptions {
  op_Metrics : metricsOptions; op_Webhook : webhookOptions; op_HealthProbeBindAddress : string;
  op_LeaderElection : bool; op_LeaderElectionID : string }.

Definition tlsOpts (f : flags) : list (list string -> list string) := if enableHTTP2 f then [] else [disableHTTP2].

Definition options (f : flags) : managerOptions :=
  MkManagerOptions
    (MkMetricsOptions (metricsAddr f) (secureMetrics f) (tlsOpts f) (secureMetrics f)
       (certificate (metricsCertPath f) (metricsCertName f) (metricsCertKey f)))
    (MkWebhookOptions (tlsOpts f) (certificate (webhookCertPath f) (webhookCertName f) (webhookCertKey f)))
    (probeAddr f) (enableLeaderElection f) "e1313708.llmcp.io".

(** The calls of [main], in order. *)
Inductive Call :=
  | GetConfigOrDie
  | NewManager (opts : managerOptions)
  | NewProber
  | SetupController (image : string)
  | AddDashboards (namespace : string)
  | AddHealthzCheck
  | AddReadyzCheck
  | StartManager.

Definition calls (f : flags) (getenv : string -> string) : list Call :=
  [GetConfigOrDie; NewManager (options f); NewProber; SetupController (shimImage f)]
  ++ (if installDashboards f then [AddDashboards (dashboards.resolveDashboardNamespace (dashboardNamespace f) getenv)] else [])
  ++ [AddHealthzCheck; AddReadyzCheck; StartManager].

(** The calls made until one fails, and the exit status. *)
Fixpoint run_calls (answer : Call -> option string) (l : list Call) : list Call * Z :=
  match l with
  | [] => ([], 0)
  | c :: l' =>
      match answer c with
      | Some _ => ([c], 1)
      | None => let (made, status) := run_calls answer l' in (c :: made, status)
      end
  end.

(** [main]: flag errors end the process with 2, a request for help with 0. *)
Definition main (zap_bool : string -> bool) (others : string -> string -> option (option string))
    (getenv : string -> string) (args : list string) (answer : Call -> option string) : list Call * Z :=
  match flag.Parse (is_bool zap_bool) (set_flag others) args defaults with
  | inr e => ([], if e == flag.ErrHelp then 0 else 2)
  | inl f => run_calls answer (calls f getenv)
  end.

Lemma run_calls_prefix answer l :
  let (made, status) := run_calls answer l in
  made `prefix_of` l
  /\ (status = 0 -> made = l /\ Forall (fun c => answer c = None) l)
  /\ (status <> 0 -> status = 1 /\ exists front c e, made = front ++ [c] /\ answer c = Some e
                                  /\ Forall (fun c => answer c = None) front).
Proof.
  induction l as [|c l IH]; cbn [run_calls]; [done|]. destruct (answer c) as [e|] eqn:E.
  - split; [apply prefix_cons, prefix_nil|]. split; [done|]. intros _. split; [done|]. by exists [], c, e.
  - destruct (run_calls answer l) as [made status]. destruct IH as (H1 & H2 & H3). split; [by apply prefix_cons|]. split.
    + intros Hs. destruct (H2 Hs) as [-> Hall]. split; [done|]. by constructor.
    + intros Hs. destruct (H3 Hs) as (-> & front & c' & e & -> & He & Hf). split; [done|].
      exists (c :: front), c', e. split_and!; [done|done|by constructor].
Qed.

(** The operator starts only when it is completely set up.  Whatever the flags
    and the answers, the manager is started last, after the controller with the
    shim image of the flags, after both health checks, and after the dashboards
    were registered when they are wanted; the first failure ends the process with
    status 1 and nothing after it is tried; and unless HTTP/2 is enabled neither
    server negotiates it. *)
Theorem operator_starts_complete zap_bool others getenv args answer f :
  flag.Parse (is_bool zap_bool) (set_flag others) args defaults = inl f ->
  let (made, status) := main zap_bool others getenv args answer in
  made `prefix_of` calls f getenv
  /\ (In StartManager made -> made = calls f getenv)
  /\ (status = 0 -> made = calls f getenv) /\ (status = 0 \/ status = 1)
  /\ (enableHTTP2 f = false ->
      forall o protos, In (NewManager o) made ->
        fold_left (fun p g => g p) (mo_TLSOpts (op_Metrics o)) protos = ["http/1.1"]
        /\ fold_left (fun p g => g p) (wo_TLSOpts (op_Webhook o)) protos = ["http/1.1"]).
Proof.
  intros Hf. unfold main. rewrite Hf. pose proof (run_calls_prefix answer (calls f getenv)) as H.
  destruct (run_calls answer (calls f getenv)) as [made status]. destruct H as (H1 & H2 & H3).
  assert (Hlast : exists front, calls f getenv = front ++ [StartManager] /\ ~ In StartManager front).
  { exists ([GetConfigOrDie; NewManager (options f); NewProber; SetupController (shimImage f)]
      ++ (if installDashboards f then [AddDashboards (dashboards.resolveDashboardNamespace (dashboardNamespace f) getenv)] else [])
      ++ [AddHealthzCheck; AddReadyzCheck]).
    unfold calls. destruct (installDashboards f); (split; [done|]); cbn; naive_solver. }
  destruct Hlast as (front & Ec & Hn). split; [done|]. split.
  { intros Hin. rewrite Ec in *. destruct H1 as [rest H1]. destruct rest as [|x rest _] using rev_ind; [by rewrite app_nil_r in H1|].
    rewrite app_assoc in H1. apply app_inj_tail in H1 as [H1 _]. exfalso. apply Hn. rewrite H1. apply in_app_iff. by left. }
  split; [intros Hs; by apply H2|]. split; [destruct (Z.eq_dec status 0); [by left|right; by apply H3]|].
  intros Hh o protos Hin. assert (Ho : o = options f).
  { destruct H1 as [rest H1]. assert (Hc : In (NewManager o) (calls f getenv)) by (rewrite H1; apply in_app_iff; by left).
    unfold calls in Hc. destruct (installDashboards f); cbn in Hc; naive_solver. }
  subst o. unfold options, tlsOpts. cbn. by rewrite Hh.
Qed.

Lemma operator_starts_complete_witness :
  let (made, status) := main (fun _ => false) (fun _ _ => None) (fun _ => "") ["--metrics-secure=false"; "-leader-elect"] (fun _ => None) in
  length made = 8%nat /\ status = 0.
Proof.
  pose proof (operator_starts_complete (fun _ => false) (fun _ _ => None) (fun _ => "") ["--metrics-secure=false"; "-leader-elect"]
    (fun _ => None) (MkFlags "0" ":8081" true false "" "tls.crt" "tls.key" "" "tls.crt" "tls.key" false children.DefaultShimImage "" true)
    eq_refl) as H.
  destruct (main _ _ _ _ _) as [made status] eqn:E. destruct H as (_ & _ & H & _).
  assert (Hs : status = 0) by (vm_compute in E; congruence). rewrite (H Hs). by split.
Defined.

End operator_main.
