(* ===== verification/LoadGenMain.v ===== *)
(** * The entry point of the load generator (hack/loadgen/main.go)

    Its flags, the run of a configuration, and its exit status. *)

From S2P Require Import Prelude GoFloat GoFmt GoStrconv GoFlag ShimSSE FakeEngine LoadGen StreamCodecs.
Local Open Scope Z_scope.
Local Open Scope go_scope.

Module loadgen_main.
Import loadgen.

Definition defaults : config :=
  MkConfig "http://localhost:8080" "qwen3-0.6b" 8 (60 * time.Second) f64.zero 64
    "Explain what a Kubernetes operator does, in two sentences." true (10 * time.Second) f64.zero (120 * time.Second) f64.zero "".

Definition is_bool (name : string) : bool := name == "keepalive".

Definition set_flag (name value : string) (c : config) : option (config + string) :=
  let '(MkConfig u m cc d ds mt p ka w ws t ts l) := c in
  if name == "url" then Some (inl (MkConfig value m cc d ds mt p ka w ws t ts l))
  else if name == "model" then Some (inl (MkConfig u value cc d ds mt p ka w ws t ts l))
  else if name == "concurrency" then
    flag.updated (strconv.ParseInt0 value) (fun n => MkConfig u m n d ds mt p ka w ws t ts l)
  else if name == "duration" then
    flag.updated (flag.ParseDuration value) (fun x => MkConfig u m cc x ds mt p ka w ws t ts l)
  else if name == "tokens" then
    flag.updated (strconv.ParseInt0 value) (fun n => MkConfig u m cc d ds n p ka w ws t ts l)
  else if name == "prompt" then Some (inl (MkConfig u m cc d ds mt value ka w ws t ts l))
  else if name == "keepalive" then
    flag.updated (flag.ParseBool value) (fun b => MkConfig u m cc d ds mt p b w ws t ts l)
  else if name == "window" then
    flag.updated (flag.ParseDuration value) (fun x => MkConfig u m cc d ds mt p ka x ws t ts l)
  else if name == "timeout" then
    flag.updated (flag.ParseDuration value) (fun x => MkConfig u m cc d ds mt p ka w ws x ts l)
  else if name == "label" then Some (inl (MkConfig u m cc d ds mt p ka w ws t ts value))
  else None.

Definition parseFlags (args : list string) : config + string :=
  match flag.Parse is_bool set_flag args defaults with
  | inl c => inl (with_seconds c)
  | inr e => inr e
  end.

(** What happens outside of the tool during a run: when it starts and ends, the
    attempts its workers make in the order in which they take the lock, and
    whether the run was over by then. *)
Record World := MkWorld {
  wd_started : time.Time; wd_ended : time.Time; wd_attempts : list (time.Time * Attempt * bool) }.

Definition finished (w : World) : list (sample * option string * bool) :=
  map (fun x => (doRequest loadgen_json.UnmarshalSSE (fst (fst x)) (snd (fst x)), snd x)) (wd_attempts w).

(** [main]: the exit status, and whether a result was written; [encoded]: whether
    the encoder accepts it. *)
Definition main (world : config -> World) (encoded : Result -> bool) (args : list string) : Z * option Result :=
  match parseFlags args with
  | inr e => (if e == flag.ErrHelp then 0 else 2, None)
  | inl cfg =>
      let w := world cfg in
      match run cfg (wd_started w) (wd_ended w) (finished w) with
      | inr _ => (1, None)
      | inl res =>
          if negb (encoded res) then (1, None)
          else if (Requests (res_Overall res) =? 0) || (Errors (res_Overall res) =? Requests (res_Overall res))
          then (2, Some res) else (0, Some res)
      end
  end.

(** A request that succeeded. *)
Definition succeeded (x : time.Time * Attempt * bool) : Prop :=
  snd (doRequest loadgen_json.UnmarshalSSE (fst (fst x)) (snd (fst x))) = None.

Lemma some_ok samples :
  (Z.of_nat (length samples) =? 0) || (failed_count samples =? Z.of_nat (length samples)) = false
  <-> Exists (fun s => sm_ok s = true) samples.
Proof.
  unfold failed_count. rewrite orb_false_iff, !Z.eqb_neq. induction samples as [|s l IH].
  { cbn. rewrite Exists_nil. lia. }
  rewrite Exists_cons, <- IH. cbn [List.filter length].
  pose proof (List.filter_length_le (fun s => negb (sm_ok s)) l). destruct (sm_ok s); cbn [negb length]; naive_solver lia.
Qed.

Lemma ok_succeeded w :
  Exists (fun s => sm_ok s = true) (map (fun x => fst (fst x)) (List.filter (fun x => negb (cut_short x)) (finished w)))
  <-> Exists succeeded (wd_attempts w).
Proof.
  unfold finished. rewrite !List.Exists_exists. unfold succeeded. split.
  - intros (s & Hin & Hok). apply in_map_iff in Hin as (y & <- & Hin). apply filter_In in Hin as [Hin _].
    apply in_map_iff in Hin as (x & <- & Hin). exists x. split; [done|]. cbn [fst] in Hok. rewrite doRequest_ok in Hok.
    by destruct (snd (doRequest _ _ _)).
  - intros (x & Hin & Hok). exists (fst (doRequest loadgen_json.UnmarshalSSE (fst (fst x)) (snd (fst x)))).
    rewrite doRequest_ok, Hok. split; [|done].
    apply in_map_iff. exists (doRequest loadgen_json.UnmarshalSSE (fst (fst x)) (snd (fst x)), snd x). split; [done|].
    apply filter_In. split; [by apply (in_map (fun x => (doRequest _ (fst (fst x)) (snd (fst x)), snd x)))|].
    unfold cut_short. cbn [fst snd]. by rewrite Hok.
Qed.

(** The tool never reports on nothing.  Its exit status is 0 exactly when help was
    asked for, or its flags are well formed with at least one worker, the result
    was written and at least one request of the run succeeded. *)
Theorem generator_reports_something world encoded args :
  fst (main world encoded args) = 0
  <-> flag.Parse is_bool set_flag args defaults = inr flag.ErrHelp
      \/ exists cfg res, parseFlags args = inl cfg /\ 1 <= Concurrency cfg
           /\ run cfg (wd_started (world cfg)) (wd_ended (world cfg)) (finished (world cfg)) = inl res
           /\ encoded res = true /\ snd (main world encoded args) = Some res
           /\ Exists succeeded (wd_attempts (world cfg)).
Proof.
  unfold main, parseFlags. destruct (flag.Parse is_bool set_flag args defaults) as [c|e].
  2: { destruct (bool_decide (e = flag.ErrHelp)) eqn:E; go_bools; cbn; naive_solver. }
  set (cfg := with_seconds c). set (w := world cfg).
  destruct (collect_all (finished w) [] [] ltac:(cbn; lia)) as [Hs _].
  assert (Hrun : forall res, run cfg (wd_started w) (wd_ended w) (finished w) = inl res ->
    1 <= Concurrency cfg /\ ((Requests (res_Overall res) =? 0) || (Errors (res_Overall res) =? Requests (res_Overall res)) = false
                             <-> Exists succeeded (wd_attempts w))).
  { intros res. unfold run. destruct (Z.ltb_spec (Concurrency cfg) 1); [done|].
    destruct (fold_left collect (finished w) ([], [])) as [samples errs]. cbn [fst app] in Hs. intros [= <-].
    split; [lia|]. cbn [Requests Errors res_Overall summarize]. by rewrite some_ok, Hs, ok_succeeded. }
  destruct (run cfg _ _ _) as [res|] eqn:Er; [|cbn; naive_solver]. destruct (Hrun res eq_refl) as [Hc Hex].
  destruct (encoded res) eqn:Ee; cbn [negb]; [|cbn; naive_solver]. destruct (_ || _) eqn:Eq; cbn [fst snd]; [|naive_solver].
  split; [done|]. intros [H|(cfg' & res' & [= <-] & _ & _ & _ & _ & H)]; [done|]. by apply Hex in H.
Qed.

End loadgen_main.
